(* ===== verification/_CoqProject ===== *)
-Q . S2P
Prelude.v
GoStrings.v
Utf8.v
GoTime.v
Encoding.v
Sha256.v
Errors.v
Json.v
Models.v
Float64.v
Number.v
Jcs.v
TlogJson.v
GoJson.v
ApiTypes.v
Seal.v
Jws.v
Stapling.v
Trust.v
Cert.v
Merkle.v
Url.v
UrlQuery.v
PemCert.v
Http.v
Ocsp.v
AgentCard.v
Records.v
VersionPolicy.v
Resolver.v
Dnssec.v
Dane.v
Crl.v
BadgeCache.v
Cose.v
KeyStore.v
Receipt.v
StatusToken.v
Headers.v
ScittCache.v
Supplier.v
Outcome.v
Verifier.v
VerifierLemmas.v
VerifierProps.v
Pinning.v
AtiServer.v
AtiClient.v
Gold.v
Session.v
ScittClient.v
ScittAgent.v
Registry.v
RegistryAgent.v
Discovery.v
TlogClient.v
ErrorText.v
Diagnose.v
Options.v
Mocks.v
