(* ===== verification/Prelude.v ===== *)
(** * A verification library for the ATI Go SDK

    The SDK lets agents verify each other: a client finds an agent's badge in the
    DNS, fetches the agent's record from a transparency log, and accepts the
    peer's TLS certificate if the record lists it; or the peer presents a SCITT
    receipt and a status token, which are verified with the log's keys; or the
    record itself is verified, its seal over canonical JSON, its inclusion proof
    and its producer signature (Gold). DANE and DNSSEC are an additional check. On
    top, [src/ati] has the agent's mTLS client and server, which combine these
    checks by level, with revocation lists, and [src/internal] the clients of the
    registry. This library models all of it as executable definitions, and proves
    what makes each part correct.

    ** How Go is modelled

    - [(T, error)] is [result goerror T] (this file); [goerror] (Errors) is the
      union of the SDK's error types, with [errors.As] over wrapped chains. The
      texts of formatted messages are represented by their format; ErrorText prints
      the typed errors, with format verbs where the model does not carry a value.
    - Strings are byte strings. GoStrings models the functions of [strings],
      [strconv] and [fmt] that are used; case mapping of non-ASCII text is a
      parameter (class [UnicodeTables]), ASCII is defined.
    - Integers are [Z]; where the width matters the wrap-around is written
      ([wrap_i64], [wrap_u64]). [float64] is the executable IEEE specification of
      the Standard Library (Float64), with its shortest decimal printing (Number).
    - JSON is text: Json has the decoder's grammar, values and printer; GoJson has
      [json.Marshal] and [json.Unmarshal] over codes of Go types (ApiTypes).
      A repeated member decodes into the elements of the old slice; those beyond its
      length decode from zero (Go may find older ones in the slice's capacity). The
      JSON text of a time is read unescaped.
    - A method that changes its receiver returns the new state. What a call
      reads from the outside (clock, DNS, HTTP, map iteration order) is an argument
      or a class; state invariants are proved over every sequence of calls.
    - Locks: every critical section is one step. Where sections of several
      goroutines interleave (key refresh, header supplier, session monitor, parallel
      lookups) the theorems quantify over the interleavings. One tick of a session's
      loop, its lookup, fetch and callback, is one step.
    - Third-party code is a parameter: CBOR ([CborLib]) and ECDSA/PKIX
      ([CryptoLib]) in Cose, the DNS library ([DnsLib]) in Dnssec, sorting
      ([BadgeSort]) in Resolver, X.509 decoding and signatures ([X509Lib]) in Crl,
      semantic versions ([SemverLib]) in VersionPolicy, signatures, PEM and PKIX keys
      ([SignatureLib]) in Seal, OCSP ([OcspLib], [HttpPost]) in Ocsp, HTTP
      ([HTTPClient] in AtiClient, [HttpGet] in Http, [ApiHttp] in Registry). Each has
      a concrete symbolic instance on which the witnesses evaluate. SHA-256, hex,
      base64, URLs, JSON and times are defined.
    - An [http.Client] is its timeout, or the state of the world it asks. Error
      results that are nil on every path ([defaultDiscoveryResolver]) are left out.
    - Logging is left out: it does not influence any result. Panics that can
      occur (a failed type assertion, an index) are error values.

    ** Files and what they model (paths under src/)

    - Prelude: results, machine integers, tactics, list lemmas.
    - GoStrings, Utf8, GoTime, Encoding, Sha256, Float64, Number, Json, GoJson, Url,
      UrlQuery, Http: the standard library used; [verify/url_validator.go] at the end
      of Url.
    - Errors, ErrorText: [verify/errors.go], [verify/error_codes.go],
      [verify/scitt/errors.go].
    - Models: [models/version.go], [fqdn.go], [tl_log.go] and the status types;
      TlogJson: the JSON of a log record; ApiTypes: the other files of [models].
    - Cert, PemCert: [verify/cert.go], fingerprints, ati:// names, SAN matching,
      validity; certificates from DER and PEM.
    - Records: [verify/ati_record.go], [verify/badge_record.go].
    - VersionPolicy: [ati/version_policy.go].
    - Resolver: [verify/dns.go], [verify/dns_resolver.go], cache and selection.
    - Dnssec: [verify/dnssec.go], the climb from a signer to the root anchor.
    - Dane: [verify/dane.go].
    - Crl: [verify/crl], distribution points, the guarded and caching fetcher,
      the check. Ocsp, Stapling: [verify/ocsp.go], [stapling.go].
    - BadgeCache: [verify/cache.go].
    - Merkle: [verify/merkle.go], [verify/scitt/merkle.go], with the Merkle tree
      hash and audit paths of RFC 9162 as reference.
    - Jcs, Seal, Jws: [verify/jcs.go]; [seal.go], [producer.go]; [jws_detached.go].
    - Trust: [verify/trust_index.go], [trust_policy.go], [verification_result.go];
      AgentCard: [agent_card.go].
    - Gold: [verify/gold.go], [offline.go]. Session: [session_monitor.go].
    - Cose, KeyStore, Receipt, StatusToken, Headers, ScittCache, Supplier, ScittClient:
      [verify/scitt], file by file ([cose.go]; [root_keys.go] and
      [refreshable_key_store.go]; [receipt.go]; [status_token.go] and [types.go];
      [headers.go] and [outgoing.go]; [cache.go]; [supplier.go]; [client.go]).
      ScittAgent: key store, supplier and a peer's verifier as one system.
    - Outcome, Verifier, Options: [verify/policy.go], [outcome.go], [options.go],
      [verify.go]. The resolver, the log client and the DANE resolver are the Go
      interfaces, as classes; Resolver, TlogClient and Mocks provide instances.
    - VerifierLemmas, VerifierProps, Pinning: the specification of the
      verifiers and the theorems about them.
    - TlogClient: [verify/tlog.go], with Gold and the session monitor over it.
    - AtiServer: [ati/server.go], [verification_policy.go], [trust_level.go],
      [idca_chain.go]: options, TLS configuration, the handshake callback.
    - AtiClient: [ati/mtls_client.go], [connect.go]: options, construction, discovery,
      requests and the verification cache.
    - Registry, RegistryAgent: [internal/registry], [internal/httputility].
    - Discovery: [verify/parallel.go], [svcb.go], [ati/config.go], [discovery.go],
      [trust_card.go]. Diagnose: [ati/diagnose.go].
    - Mocks: the in-memory implementations of the interfaces ([verify/*_mock.go],
      [verify/scitt/client_mock.go]).

    A verifier ([env] in Verifier) holds the state of its resolver, log client
    and DANE resolver and the badge cache of BadgeCache. [Server_Verify] looks the
    host up in the cache, else asks the resolver for a badge (Resolver), fetches
    the record from the rewritten URL (Url), caches it, compares it with the
    certificate (Cert) and asks DANE (Dane over Dnssec). [Server_VerifyWithScitt]
    checks a receipt (Receipt, over Cose, Merkle and KeyStore) and a token
    (StatusToken) instead. Supplier produces these artifacts on the agent's side.
    [VerifyGold] discovers the agent, fetches its record and verifies seal (Seal over
    Jcs), proof (Merkle), producer signature, certificate and status; [VerifyOffline]
    does so for a given record; [Diagnose] reports on the same steps one by one;
    Session repeats discovery and status check for watched connections.
    [verifyConnection] (AtiServer) runs the client verifier on a peer's certificate
    after the CRL check and before its own DANE check; [Do] (AtiClient) discovers
    the agent (Resolver), sends the request, then runs the server verifier and DANE,
    and remembers the outcome by host and certificate; [Do] of RegistryAgent fetches
    the badge, sends, and verifies the answer's certificate.

    ** What the theorems show

    - End to end (VerifierProps, Pinning, ScittAgent): a positive outcome of the
      server or the client verifier, in every reachable state, rests on a record
      fetched for exactly that name and listing exactly that certificate; SCITT
      verification is decisive, separates the roles and touches nothing else; what a
      supplier serves is accepted by its peers until it expires; fail-closed lets
      nothing through, and what the other policies accept is stated exactly; with a
      trusted log host no other host is ever asked.
    - Gold: verification connects on exactly the stated conditions, offline
      verification and the diagnosis agree with it up to stated differences, and
      through the HTTP client it refines verification against the log itself. The seal
      binds the four sealed parts as JSON values, up to SHA-256 collisions, because
      canonicalization is faithful; detached signatures round trip.
    - Levels: a server callback and a client request succeed at a level only on
      the evidence of that level, in every reachable state; the configurations they
      run in are built to enforce it; a client that did not discover its agent
      sends nothing; of the options of a verifier the last of each kind decides, and
      half of them decide nothing.
    - Revocation: the CRL check is fail-closed and lets a peer through on exactly
      two grounds; the fetcher serves fresh downloads only and dials no internal
      address; the session monitor calls back exactly when discovery and the log say
      so, and does call back while a session is watched; a stapled credential is
      accepted exactly in its interval under its key.
    - Cryptographic evidence: the two inclusion-proof walks accept the RFC 9162
      proofs and, up to SHA-256 collisions, nothing else, and agree; receipts and
      tokens are accepted exactly on the stated conditions; the climb from a signed RRset
      to the root ends, and a validated RRset has a chain of trust up to the anchor
      ([secure] in Dnssec) apart from two situations, stated in the theorem and shown
      to occur: DNSKEY answers that differ, and a key-signing key that signs in place
      of the designated one. DANE verification rests on such a chain where answers
      hold records of the name asked, which the code does not compare.
    - State: the badge cache returns only what was inserted for the key and is
      bounded; the FIFO caches keep their queue; key refreshes never drop or
      replace a key; the supplier serves only verified, unexpired artifacts; the
      parallel lookups end and do not depend on the schedule.
    - Clients: each call about an agent, of the registry and of the log client, is
      refused for an empty parameter or sends one confined request, and what a call
      returns is stated for every answer; values of every API type round trip through
      JSON; the in-memory resolver stands for the standard one in every run.
    - Parsing: versions, names, fingerprints, records, headers and query escapes round
      trip; accepted badge records have plain https URLs.

    The lemmas named as such in the files, and some examples, record behaviour
    that is surprising: [validateRRset_split_answers] and [validateRRset_rival_ksk]
    (Dnssec), [DANE_Verify_foreign_owner] and [sha512_record_mismatch] (Dane),
    [FailOpenWithCache_unchecked] and [Prefetch_FailOpen_nil] (VerifierProps),
    [RefreshNow_not_healthy] (Supplier), [asked_default] (Pinning),
    [stale_list_accepted], [parent_cdp_rejects] and [metadata_address_allowed]
    (Crl), [server_levels], [basic_level_not_recorded] and
    [advanced_rejects_benign_dane] (AtiServer), [revoked_agent_stays_accepted],
    [plaintext_accepted_at_basic], [client_advanced_rejects_benign_dane] and
    [dane_at_request_host] (AtiClient), [dot_segment] (Registry),
    [exact_depends_on_order] (VersionPolicy), [unknown_status_accepted] and
    [offline_ignores_status] (Gold), [same_seal_different_agent] (Seal),
    [missing_b64] (Jws), [claims_overflow] (Trust), [watch_twice] (Session),
    [inert_options] (Options).

    ** Bounds and fuel

    The climb to the root (Dnssec) has a fuel; [validateRRset_terminates] shows
    that one more than the number of dots of the signer's name is enough. The JSON
    scanner is structural over its text; the raw members of an object (TlogJson) have
    the length of the text as fuel, enough by [UnmarshalRawMap_total]; the shortest decimal
    of a float is searched up to 17 digits (Number), which name every double. All other
    loops are structural: over records, path elements, the 64 bits of an index
    ([strip_zeros], proved enough), the pieces of a string, the queue of a cache, or the
    ticks of a timer.

    ** What is not modelled

    Sockets, HTTP transport below one request and one answer, TLS handshakes and the
    chain verification of the TLS library; timers and goroutine scheduling other than
    as steps, and cancellation by contexts; logging and printing; the mutual exclusion
    of the global configuration; the example programs ([src/examples]) and the
    tests. *)

From Stdlib Require Export ZArith Lia Bool Strings.Byte Strings.Ascii Strings.String.
From stdpp Require Export base list option gmap strings.

#[global] Open Scope Z_scope.

(** ** Results: Go's [(T, error)] pairs

    A Go function returning [(T, error)] is modelled by [result E T]; the code
    under verification never uses the value next to a non-nil error. *)

Inductive result (E T : Type) : Type :=
| Ok (v : T)
| Err (e : E).
Arguments Ok {E T} v.
Arguments Err {E T} e.

Definition rbind {E T U : Type} (m : result E T) (k : T -> result E U) : result E U :=
  match m with Err e => Err e | Ok v => k v end.

Definition is_ok {E T : Type} (m : result E T) : bool :=
  match m with Ok _ => true | Err _ => false end.

Declare Scope go_scope.
Delimit Scope go_scope with go.
Notation "'let?' x ':=' m 'in' k" := (rbind m (fun x => k))
  (at level 200, x name, m at level 100, k at level 200, right associativity) : go_scope.
#[global] Open Scope go_scope.

(** The guard idiom [if cond { return err }]. *)
Notation "'guard!' c 'orelse' e 'in' k" := (if c then k else Err e)
  (at level 200, c at level 100, e at level 100, k at level 200, right associativity) : go_scope.

Lemma rbind_Ok {E T U : Type} (m : result E T) (k : T -> result E U) (u : U) :
  rbind m k = Ok u <-> exists t : T, m = Ok t /\ k t = Ok u.
Proof.
  destruct m as [t|e]; simpl; split.
  - eauto.
  - intros (t' & [= <-] & H); exact H.
  - discriminate.
  - intros (t' & H & _); discriminate H.
Qed.

Definition is_some {A : Type} (o : option A) : bool :=
  match o with Some _ => true | None => false end.

(** ** Machine integers *)

Definition two64 : Z := 18446744073709551616.
Definition wrap_u64 (z : Z) : Z := z mod two64.
Definition wrap_i64 (z : Z) : Z := (z + 9223372036854775808) mod two64 - 9223372036854775808.
Definition max_i64 : Z := 9223372036854775807.
Definition min_i64 : Z := -9223372036854775808.
Definition max_u32 : Z := 4294967295.

Definition in_i64 (z : Z) : Prop := min_i64 <= z <= max_i64.
Definition in_u32 (z : Z) : Prop := 0 <= z <= max_u32.

(** [time.Duration] constants, in nanoseconds. *)
Definition second : Z := 1000000000.
Definition minute : Z := 60 * 1000000000.

(** Go's [Time.Sub] saturates at the extreme durations. *)
Definition clamp_i64 (z : Z) : Z := Z.max min_i64 (Z.min max_i64 z).

Lemma wrap_u64_small (z : Z) : 0 <= z < two64 -> wrap_u64 z = z.
Proof. intros H. unfold wrap_u64. apply Z.mod_small. exact H. Qed.

Lemma wrap_i64_small (z : Z) : in_i64 z -> wrap_i64 z = z.
Proof.
  unfold in_i64, min_i64, max_i64, wrap_i64, two64. intros H.
  rewrite Z.mod_small; lia.
Qed.

Lemma wrap_i64_range (z : Z) : in_i64 (wrap_i64 z).
Proof.
  unfold in_i64, min_i64, max_i64, wrap_i64, two64.
  pose proof (Z.mod_pos_bound (z + 9223372036854775808) 18446744073709551616 eq_refl). lia.
Qed.

(** ** Tactics of the development *)

(** Destruct the scrutinee of the first [match]/[if] of the goal. *)
Ltac case_match_goal :=
  match goal with
  | |- context [match ?x with _ => _ end] => destruct x eqn:?
  end.

(** Destruct the scrutinee of a [match]/[if] of hypothesis [H], closing the
    branches that contradict it. *)
Ltac case_match_in H :=
  match type of H with
  | context [match ?x with _ => _ end] => destruct x eqn:?; try discriminate H
  end.

(** Turn boolean tests in the context into propositions. *)
Ltac bool_hyps :=
  repeat match goal with
  | H : _ && _ = true |- _ => apply andb_true_iff in H; destruct H
  | H : _ || _ = false |- _ => apply orb_false_iff in H; destruct H
  | H : negb _ = true |- _ => apply negb_true_iff in H
  | H : negb _ = false |- _ => apply negb_false_iff in H
  | H : (_ =? _)%Z = true |- _ => apply Z.eqb_eq in H
  | H : (_ =? _)%Z = false |- _ => apply Z.eqb_neq in H
  | H : (_ <=? _)%Z = true |- _ => apply Z.leb_le in H
  | H : (_ <=? _)%Z = false |- _ => apply Z.leb_gt in H
  | H : (_ <? _)%Z = true |- _ => apply Z.ltb_lt in H
  | H : (_ <? _)%Z = false |- _ => apply Z.ltb_ge in H
  | H : (_ =? _)%nat = true |- _ => apply Nat.eqb_eq in H
  | H : (_ =? _)%nat = false |- _ => apply Nat.eqb_neq in H
  | H : (_ <=? _)%nat = true |- _ => apply Nat.leb_le in H
  | H : (_ <=? _)%nat = false |- _ => apply Nat.leb_gt in H
  | H : (_ <? _)%nat = true |- _ => apply Nat.ltb_lt in H
  | H : (_ <? _)%nat = false |- _ => apply Nat.ltb_ge in H
  | H : String.eqb _ _ = true |- _ => apply String.eqb_eq in H
  | H : String.eqb _ _ = false |- _ => apply String.eqb_neq in H
  end.

(** Generic lemmas shared by the components, used by [auto with ati]. *)
Create HintDb ati.
#[export] Hint Resolve wrap_i64_range : ati.
#[export] Hint Rewrite @length_app @length_map @length_rev : ati.

(** ** Lists *)

Lemma find_Some_split {A : Type} (p : A -> bool) (l : list A) (x : A) :
  List.find p l = Some x -> In x l /\ p x = true.
Proof. apply List.find_some. Qed.

Lemma existsb_false_forall {A : Type} (p : A -> bool) (l : list A) :
  existsb p l = false <-> forall x, In x l -> p x = false.
Proof.
  split.
  - intros H x Hx. destruct (p x) eqn:E; [|reflexivity].
    assert (existsb p l = true) by (apply existsb_exists; eauto). congruence.
  - intros H. destruct (existsb p l) eqn:E; [|reflexivity].
    apply existsb_exists in E as (x & Hx & Hp). rewrite (H x Hx) in Hp. discriminate.
Qed.

(** [filter_map f l]: keep the successful images, in order; the shape of the
    parse-and-skip loops over DNS answers. *)
Fixpoint filter_map {A B : Type} (f : A -> option B) (l : list A) : list B :=
  match l with
  | [] => []
  | x :: l' => match f x with Some y => y :: filter_map f l' | None => filter_map f l' end
  end.

Lemma in_filter_map {A B : Type} (f : A -> option B) (l : list A) (y : B) :
  In y (filter_map f l) <-> exists x, In x l /\ f x = Some y.
Proof.
  induction l as [|x l IH]; simpl.
  - split; [tauto | intros (x & [] & _)].
  - destruct (f x) as [z|] eqn:E; simpl; rewrite IH; split.
    + intros [<-|(x' & Hx & Hf)]; eauto.
    + intros (x' & [<-|Hx] & Hf); [left; congruence | eauto].
    + intros (x' & Hx & Hf); eauto.
    + intros (x' & [<-|Hx] & Hf); [congruence | eauto].
Qed.

#[export] Instance byte_eq_dec : EqDecision byte := Byte.byte_eq_dec.

Definition list_byte_eqb (a b : list byte) : bool := bool_decide (a = b).

(** [subtle.ConstantTimeCompare(x, y) == 1]. *)
Definition ConstantTimeCompare (a b : list byte) : bool := list_byte_eqb a b.

Lemma ConstantTimeCompare_true (a b : list byte) : ConstantTimeCompare a b = true <-> a = b.
Proof. unfold ConstantTimeCompare, list_byte_eqb. apply bool_decide_eq_true. Qed.
