(* ===== verification/GoStrings.v ===== *)
(** Go strings and the functions of [strings] and [strconv] the SDK uses.

    A Go string is a sequence of bytes, modelled by [string] (a sequence of
    8-bit [ascii] characters). Case mapping of non-ASCII text needs the Unicode
    tables, which are a parameter ([UnicodeTables]); every other function is
    executable. *)

From S2P Require Import Prelude.

#[local] Open Scope string_scope.
#[local] Open Scope Z_scope.

#[global] Arguments String.append !s1 s2 : simpl nomatch.

(** ** Characters *)

Definition code (c : ascii) : Z := Z.of_N (N_of_ascii c).
Definition chr (z : Z) : ascii := ascii_of_N (Z.to_N z).
Definition quote_char : ascii := chr 34.

Lemma code_range (c : ascii) : 0 <= code c < 256.
Proof. unfold code. pose proof (N_ascii_bounded c). lia. Qed.

Lemma chr_code (c : ascii) : chr (code c) = c.
Proof. unfold chr, code. rewrite N2Z.id. apply ascii_N_embedding. Qed.

Lemma code_chr (z : Z) : 0 <= z < 256 -> code (chr z) = z.
Proof.
  intros H. unfold chr, code. rewrite N_ascii_embedding by lia.
  apply Z2N.id. lia.
Qed.

Lemma code_inj (a b : ascii) : code a = code b -> a = b.
Proof. intros H. rewrite <- (chr_code a), <- (chr_code b), H. reflexivity. Qed.

Definition between (lo hi : ascii) (c : ascii) : bool :=
  (code lo <=? code c) && (code c <=? code hi).

Definition is_digit : ascii -> bool := between "0" "9".
Definition is_lower : ascii -> bool := between "a" "z".
Definition is_upper : ascii -> bool := between "A" "Z".
Definition is_ascii_char (c : ascii) : bool := code c <? 128.

Definition lower_char (c : ascii) : ascii := if is_upper c then chr (code c + 32) else c.
Definition upper_char (c : ascii) : ascii := if is_lower c then chr (code c - 32) else c.

(** A property of all 256 characters is decided by computation. *)
Definition all_chars : list ascii := map (fun n => chr (Z.of_nat n)) (seq 0 256).

Lemma all_chars_complete (c : ascii) : In c all_chars.
Proof.
  unfold all_chars. apply in_map_iff. exists (Z.to_nat (code c)).
  pose proof (code_range c). rewrite Z2Nat.id by lia.
  split; [apply chr_code | apply in_seq; lia].
Qed.

Lemma char_forall (p : ascii -> bool) :
  forallb p all_chars = true -> forall c, p c = true.
Proof. intros H c. rewrite forallb_forall in H. apply H, all_chars_complete. Qed.

Ltac by_chars p c := apply (fun H => char_forall p H c); vm_compute; reflexivity.

Lemma lower_char_idem (c : ascii) : lower_char (lower_char c) = lower_char c.
Proof.
  apply Ascii.eqb_eq.
  by_chars (fun c => Ascii.eqb (lower_char (lower_char c)) (lower_char c)) c.
Qed.

(** ** Whole strings *)

Fixpoint str_forallb (p : ascii -> bool) (s : string) : bool :=
  match s with
  | "" => true
  | String c s' => p c && str_forallb p s'
  end.

Fixpoint str_map (f : ascii -> ascii) (s : string) : string :=
  match s with
  | "" => ""
  | String c s' => String (f c) (str_map f s')
  end.

Definition is_ascii (s : string) : bool := str_forallb is_ascii_char s.

Lemma str_forallb_app (p : ascii -> bool) (s t : string) :
  str_forallb p (s ++ t) = str_forallb p s && str_forallb p t.
Proof. induction s as [|c s IH]; [reflexivity|]. cbn. rewrite IH. apply andb_assoc. Qed.

Lemma str_forallb_impl (p q : ascii -> bool) (s : string) :
  (forall c, p c = true -> q c = true) -> str_forallb p s = true -> str_forallb q s = true.
Proof.
  intros H. induction s as [|c s IH]; cbn; [reflexivity|].
  intros Hs. bool_hyps. rewrite (H c), IH; auto.
Qed.

Lemma str_map_app (f : ascii -> ascii) (s t : string) :
  str_map f (s ++ t) = str_map f s ++ str_map f t.
Proof. induction s as [|c s IH]; [reflexivity|]. cbn. f_equal. apply IH. Qed.

Lemma str_map_ext (f g : ascii -> ascii) (s : string) :
  (forall c, f c = g c) -> str_map f s = str_map g s.
Proof. intros H. induction s; cbn; congruence. Qed.

Lemma str_map_map (f g : ascii -> ascii) (s : string) :
  str_map f (str_map g s) = str_map (fun c => f (g c)) s.
Proof. induction s; cbn; congruence. Qed.

Lemma str_map_id (f : ascii -> ascii) (s : string) :
  str_forallb (fun c => Ascii.eqb (f c) c) s = true -> str_map f s = s.
Proof.
  induction s as [|c s IH]; cbn; [reflexivity|].
  intros H. bool_hyps. apply Ascii.eqb_eq in H. rewrite H, IH; auto.
Qed.

Lemma str_app_nil_r (s : string) : s ++ "" = s.
Proof. induction s; cbn; congruence. Qed.

Lemma str_app_assoc (s t u : string) : (s ++ t) ++ u = s ++ (t ++ u).
Proof. induction s; cbn; congruence. Qed.

Lemma str_app_inj_l (s t u : string) : s ++ t = s ++ u -> t = u.
Proof. induction s; cbn; [auto | intros [= H]; auto]. Qed.

Lemma str_length_app (s t : string) : String.length (s ++ t) = (String.length s + String.length t)%nat.
Proof. induction s; cbn; congruence. Qed.

(** [len(s)] *)
Definition len (s : string) : Z := Z.of_nat (String.length s).

(** ** Case mapping *)

(** The Unicode case tables of Go's [unicode] package, consulted only when a
    string holds a byte above 0x7F. *)
Class UnicodeTables := {
  unicode_ToLower : string -> string;
  unicode_ToUpper : string -> string;
  unicode_EqualFold : string -> string -> bool
}.

Definition ToLower `{UnicodeTables} (s : string) : string :=
  if is_ascii s then str_map lower_char s else unicode_ToLower s.

Definition ToUpper `{UnicodeTables} (s : string) : string :=
  if is_ascii s then str_map upper_char s else unicode_ToUpper s.

Definition EqualFold `{UnicodeTables} (s t : string) : bool :=
  if is_ascii s && is_ascii t
  then String.eqb (str_map lower_char s) (str_map lower_char t)
  else unicode_EqualFold s t.

(** Tables that leave non-ASCII text alone, for concrete evaluation. *)
Definition plain_tables : UnicodeTables :=
  {| unicode_ToLower s := s; unicode_ToUpper s := s; unicode_EqualFold := String.eqb |}.

Lemma ToLower_ascii `{UnicodeTables} (s : string) :
  is_ascii s = true -> ToLower s = str_map lower_char s.
Proof. intros E. unfold ToLower. rewrite E. reflexivity. Qed.

Lemma EqualFold_ascii `{UnicodeTables} (s t : string) :
  is_ascii s = true -> is_ascii t = true ->
  EqualFold s t = true <-> ToLower s = ToLower t.
Proof.
  intros Hs Ht. unfold EqualFold. rewrite !ToLower_ascii by assumption.
  rewrite Hs, Ht. simpl. apply String.eqb_eq.
Qed.

Lemma lower_ascii (s : string) : is_ascii s = true -> is_ascii (str_map lower_char s) = true.
Proof.
  unfold is_ascii. induction s as [|c s IH]; cbn; [reflexivity|].
  intros H. bool_hyps. rewrite IH by assumption. rewrite andb_true_r.
  assert (G : implb (is_ascii_char c) (is_ascii_char (lower_char c)) = true)
    by by_chars (fun c => implb (is_ascii_char c) (is_ascii_char (lower_char c))) c.
  rewrite H in G. exact G.
Qed.

(** ** Slicing, prefixes and suffixes *)

(** [s[n:]] and [s[:n]] (indices within the string). *)
Fixpoint str_drop (n : nat) (s : string) : string :=
  match n, s with
  | O, _ => s
  | S n', String _ s' => str_drop n' s'
  | S _, "" => ""
  end.

Fixpoint str_take (n : nat) (s : string) : string :=
  match n, s with
  | S n', String c s' => String c (str_take n' s')
  | _, _ => ""
  end.

Lemma str_take_drop (n : nat) (s : string) : str_take n s ++ str_drop n s = s.
Proof. revert s. induction n; intros [|c s]; cbn; congruence. Qed.

Lemma str_drop_app (s t : string) : str_drop (String.length s) (s ++ t) = t.
Proof. induction s; cbn; auto. Qed.

Lemma str_take_app (s t : string) : str_take (String.length s) (s ++ t) = s.
Proof. induction s; cbn; [destruct t; reflexivity | congruence]. Qed.

Fixpoint HasPrefix (s p : string) {struct p} : bool :=
  match p, s with
  | "", _ => true
  | String a p', String b s' => Ascii.eqb a b && HasPrefix s' p'
  | String _ _, "" => false
  end.

Lemma HasPrefix_spec (s p : string) : HasPrefix s p = true <-> exists t, s = p ++ t.
Proof.
  revert s. induction p as [|a p IH]; intros s; cbn.
  - split; eauto.
  - destruct s as [|b s]; [split; [discriminate | intros [t Ht]; discriminate]|].
    rewrite andb_true_iff, IH, Ascii.eqb_eq. split.
    + intros [-> [t ->]]. eauto.
    + intros [t [= -> ->]]. eauto.
Qed.

Lemma HasPrefix_app (p t : string) : HasPrefix (p ++ t) p = true.
Proof. apply HasPrefix_spec. eauto. Qed.

Definition TrimPrefix (s p : string) : string :=
  if HasPrefix s p then str_drop (String.length p) s else s.

Definition HasSuffix (s suf : string) : bool :=
  (String.length suf <=? String.length s)%nat
  && String.eqb (str_drop (String.length s - String.length suf) s) suf.

Lemma HasSuffix_spec (s suf : string) : HasSuffix s suf = true <-> exists t, s = t ++ suf.
Proof.
  unfold HasSuffix. rewrite andb_true_iff, Nat.leb_le, String.eqb_eq. split.
  - intros [_ H]. exists (str_take (String.length s - String.length suf) s).
    pose proof (str_take_drop (String.length s - String.length suf) s) as E.
    rewrite H in E. congruence.
  - intros [t ->]. rewrite str_length_app. split; [lia|].
    replace (String.length t + String.length suf - String.length suf)%nat
      with (String.length t) by lia.
    apply str_drop_app.
Qed.

Definition TrimSuffix (s suf : string) : string :=
  if HasSuffix s suf then str_take (String.length s - String.length suf) s else s.

Lemma TrimSuffix_app (t suf : string) : TrimSuffix (t ++ suf) suf = t.
Proof.
  unfold TrimSuffix. rewrite (proj2 (HasSuffix_spec _ _)) by eauto.
  rewrite str_length_app.
  replace (String.length t + String.length suf - String.length suf)%nat
    with (String.length t) by lia.
  apply str_take_app.
Qed.

(** [strings.Contains] and [strings.Index] ([None] for -1). *)
Fixpoint Index (s sub : string) : option nat :=
  if HasPrefix s sub then Some O else
  match s with
  | "" => None
  | String _ s' => option_map S (Index s' sub)
  end.

Definition Contains (s sub : string) : bool :=
  match Index s sub with Some _ => true | None => false end.

Definition contains_char (c : ascii) (s : string) : bool :=
  negb (str_forallb (fun d => negb (Ascii.eqb d c)) s).

Lemma Contains_char (c : ascii) (s : string) : Contains s (String c "") = contains_char c s.
Proof.
  unfold Contains, contains_char.
  induction s as [|d s IH]; cbn; [reflexivity|].
  rewrite andb_true_r, (Ascii.eqb_sym c d). destruct (Ascii.eqb d c); cbn; [reflexivity|].
  rewrite <- IH. destruct (Index s (String c "")); reflexivity.
Qed.

(** ** Splitting *)

(** [strings.Split(s, sep)] for a one-byte separator. *)
Fixpoint Split (s : string) (sep : ascii) : list string :=
  match s with
  | "" => [""]
  | String c s' =>
      if Ascii.eqb c sep then "" :: Split s' sep
      else match Split s' sep with
           | h :: t => String c h :: t
           | [] => [String c ""]
           end
  end.

(** [strings.SplitN(s, sep, n)] for [n > 0]: at most [n] pieces, the last one
    holding the unsplit rest. [n] counts the separators still to cut. *)
Fixpoint SplitN_cuts (s : string) (sep : ascii) (cuts : nat) : list string :=
  match cuts with
  | O => [s]
  | S cuts' =>
      match s with
      | "" => [""]
      | String c s' =>
          if Ascii.eqb c sep then "" :: SplitN_cuts s' sep cuts'
          else match SplitN_cuts s' sep cuts with
               | h :: t => String c h :: t
               | [] => [String c ""]
               end
      end
  end.

Definition SplitN (s : string) (sep : ascii) (n : nat) : list string :=
  SplitN_cuts s sep (n - 1).

(** [strings.Join(l, sep)]. *)
Fixpoint Join (l : list string) (sep : string) : string :=
  match l with
  | [] => ""
  | [x] => x
  | x :: l' => x ++ sep ++ Join l' sep
  end.

(** [strings.Cut(s, sep)] for a one-byte separator: [None] when not found. *)
Fixpoint Cut (s : string) (sep : ascii) : option (string * string) :=
  match s with
  | "" => None
  | String c s' =>
      if Ascii.eqb c sep then Some ("", s')
      else match Cut s' sep with
           | Some (a, b) => Some (String c a, b)
           | None => None
           end
  end.

Lemma Split_not_nil (s : string) (sep : ascii) : Split s sep <> [].
Proof.
  induction s as [|c s IH]; cbn; [discriminate|].
  destruct (Ascii.eqb c sep); [discriminate|].
  destruct (Split s sep); [contradiction | discriminate].
Qed.

Lemma Join_cons (x : string) (l : list string) (sep : string) :
  l <> [] -> Join (x :: l) sep = x ++ sep ++ Join l sep.
Proof. destruct l; [congruence | reflexivity]. Qed.

Lemma Join_Split (s : string) (sep : ascii) : Join (Split s sep) (String sep "") = s.
Proof.
  induction s as [|c s IH]; cbn; [reflexivity|].
  pose proof (Split_not_nil s sep) as Hn.
  destruct (Ascii.eqb c sep) eqn:E.
  - apply Ascii.eqb_eq in E as ->. rewrite Join_cons by assumption. cbn. congruence.
  - destruct (Split s sep) as [|h t]; [congruence|].
    rewrite <- IH. destruct t; reflexivity.
Qed.

Lemma Split_pieces (s : string) (sep : ascii) :
  Forall (fun p => contains_char sep p = false) (Split s sep).
Proof.
  induction s as [|c s IH]; cbn; [constructor; [reflexivity|constructor]|].
  destruct (Ascii.eqb c sep) eqn:E; [constructor; [reflexivity|exact IH]|].
  destruct (Split s sep) as [|h t]; inversion IH; subst;
    constructor; unfold contains_char in *; cbn; rewrite ?E; auto.
Qed.

(** A separator-free piece in front of a separator is cut off exactly. *)
Lemma Split_app (x s : string) (sep : ascii) :
  contains_char sep x = false -> Split (x ++ String sep s) sep = x :: Split s sep.
Proof.
  unfold contains_char. induction x as [|c x IH]; cbn.
  - rewrite Ascii.eqb_refl. reflexivity.
  - intros H. bool_hyps. rewrite H, IH; [reflexivity | apply negb_false_iff; assumption].
Qed.

Lemma Split_single (x : string) (sep : ascii) :
  contains_char sep x = false -> Split x sep = [x].
Proof.
  unfold contains_char. induction x as [|c x IH]; cbn; [reflexivity|].
  intros H. bool_hyps. rewrite H, IH; [reflexivity | apply negb_false_iff; assumption].
Qed.

Lemma Cut_app (k v : string) (sep : ascii) :
  contains_char sep k = false -> Cut (k ++ String sep v) sep = Some (k, v).
Proof.
  unfold contains_char. induction k as [|c k IH]; cbn -[Ascii.eqb].
  - rewrite Ascii.eqb_refl. reflexivity.
  - intros H. bool_hyps. rewrite H, IH; [reflexivity | apply negb_false_iff; assumption].
Qed.

(** Pieces without the separator are found again. *)
Lemma Split_Join (l : list string) (sep : ascii) :
  l <> [] -> Forall (fun p => contains_char sep p = false) l -> Split (Join l (String sep "")) sep = l.
Proof.
  intros Hn Hl. induction Hl as [|x l Hx Hl IH]; [congruence|]. destruct l as [|y l].
  - apply Split_single, Hx.
  - rewrite Join_cons by discriminate. cbn [String.append]. rewrite Split_app by exact Hx.
    rewrite IH by discriminate. reflexivity.
Qed.

Lemma SplitN_cuts_0 (s : string) (sep : ascii) : SplitN_cuts s sep 0 = [s].
Proof. destruct s; reflexivity. Qed.

Lemma SplitN_cuts_app (x s : string) (sep : ascii) (n : nat) :
  contains_char sep x = false ->
  SplitN_cuts (x ++ String sep s) sep (S n) = x :: SplitN_cuts s sep n.
Proof.
  unfold contains_char. induction x as [|c x IH]; cbn.
  - rewrite Ascii.eqb_refl. reflexivity.
  - intros H. bool_hyps. rewrite H. cbn in IH. rewrite IH; [reflexivity|].
    apply negb_false_iff; assumption.
Qed.

(** ** [strings.TrimSpace] *)

(** The UTF-8 encodings of [unicode.IsSpace]: ASCII blanks, U+0085, U+00A0,
    U+1680, U+2000..U+200A, U+2028, U+2029, U+202F, U+205F, U+3000. *)
Definition bytes_str (l : list Z) : string := fold_right (fun z s => String (chr z) s) "" l.

Definition space_encodings : list string :=
  map bytes_str
    ([[9]; [10]; [11]; [12]; [13]; [32]; [194; 133]; [194; 160]; [225; 154; 128]]
     ++ map (fun k => [226; 128; 128 + Z.of_nat k]) (seq 0 11)
     ++ [[226; 128; 168]; [226; 128; 169]; [226; 128; 175]; [226; 129; 159]; [227; 128; 128]]).

Definition leading_space (s : string) : option nat :=
  option_map String.length (List.find (fun e => HasPrefix s e) space_encodings).

Definition trailing_space (s : string) : option nat :=
  option_map String.length (List.find (fun e => HasSuffix s e) space_encodings).

Fixpoint trim_left (fuel : nat) (s : string) : string :=
  match fuel with
  | O => s
  | S fuel' => match leading_space s with
               | Some k => trim_left fuel' (str_drop k s)
               | None => s
               end
  end.

Fixpoint trim_right (fuel : nat) (s : string) : string :=
  match fuel with
  | O => s
  | S fuel' => match trailing_space s with
               | Some k => trim_right fuel' (str_take (String.length s - k) s)
               | None => s
               end
  end.

(** Each round removes at least one byte, so [len(s)] rounds are enough. *)
Definition TrimSpace (s : string) : string :=
  let l := trim_left (String.length s) s in trim_right (String.length l) l.

Example TrimSpace_ex : TrimSpace "  av=v1.0.0	 " = "av=v1.0.0".
Proof. reflexivity. Qed.

(** ** Decimal numbers: [strconv.ParseUint(s, 10, bits)] and [%d] *)

Definition digit_val (c : ascii) : Z := code c - 48.
Definition digit_char (d : Z) : ascii := chr (d + 48).

(** The digit loop: rejects a character that is not a base-10 digit and a
    value above [maxVal]. *)
Fixpoint parse_digits (maxVal acc : Z) (s : string) : option Z :=
  match s with
  | "" => Some acc
  | String c s' =>
      if is_digit c then
        let n := acc * 10 + digit_val c in
        if n <=? maxVal then parse_digits maxVal n s' else None
      else None
  end.

Definition ParseUint (s : string) (bits : Z) : option Z :=
  match s with
  | "" => None
  | _ => parse_digits (2 ^ bits - 1) 0 s
  end.

(** [fmt_digits fuel n acc] writes the decimal digits of [n] before [acc]. *)
Fixpoint fmt_digits (fuel : nat) (n : Z) (acc : string) : string :=
  match fuel with
  | O => acc
  | S fuel' =>
      let acc' := String (digit_char (n mod 10)) acc in
      if n <? 10 then acc' else fmt_digits fuel' (n / 10) acc'
  end.

(** [fmt.Sprintf("%d", n)] of a non-negative integer of at most 64 bits
    (20 digits are enough). *)
Definition fmt_d (n : Z) : string := fmt_digits 20 n "".

Lemma digit_val_char (d : Z) : 0 <= d < 10 -> digit_val (digit_char d) = d.
Proof. intros H. unfold digit_val, digit_char. rewrite code_chr; lia. Qed.

Lemma is_digit_char (d : Z) : 0 <= d < 10 -> is_digit (digit_char d) = true.
Proof.
  intros H. unfold is_digit, between, digit_char. rewrite code_chr by lia.
  change (code "0") with 48. change (code "9") with 57.
  apply andb_true_iff. split; apply Z.leb_le; lia.
Qed.

Lemma mod10_range (n : Z) : 0 <= n mod 10 < 10.
Proof. apply Z.mod_pos_bound. lia. Qed.

Lemma parse_fmt_digits (fuel : nat) (maxVal n : Z) (acc : string) :
  0 <= n < 10 ^ Z.of_nat fuel -> n <= maxVal ->
  parse_digits maxVal 0 (fmt_digits fuel n acc) = parse_digits maxVal n acc.
Proof.
  revert n acc. induction fuel as [|fuel IH]; intros n acc Hn Hmax.
  - change (10 ^ Z.of_nat 0) with 1 in Hn. replace n with 0 by lia. reflexivity.
  - cbn [fmt_digits]. pose proof (mod10_range n) as Hm.
    pose proof (Z.div_mod n 10 ltac:(lia)) as Hdm.
    destruct (n <? 10) eqn:E; bool_hyps.
    + cbn. rewrite is_digit_char, digit_val_char by assumption.
      replace (n mod 10) with n by (symmetry; apply Z.mod_small; lia).
      rewrite (proj2 (Z.leb_le _ _)) by lia. reflexivity.
    + rewrite Nat2Z.inj_succ, Z.pow_succ_r in Hn by lia.
      rewrite IH; [|split; [apply Z.div_pos; lia | apply Z.div_lt_upper_bound; lia]|nia].
      cbn. rewrite is_digit_char, digit_val_char by assumption.
      replace (n / 10 * 10 + n mod 10) with n by lia.
      rewrite (proj2 (Z.leb_le _ _)) by assumption. reflexivity.
Qed.

Lemma fmt_digits_forall (fuel : nat) (n : Z) (acc : string) :
  str_forallb is_digit acc = true -> str_forallb is_digit (fmt_digits fuel n acc) = true.
Proof.
  revert n acc. induction fuel as [|fuel IH]; intros n acc H; [exact H|].
  cbn [fmt_digits].
  assert (str_forallb is_digit (String (digit_char (n mod 10)) acc) = true).
  { cbn. rewrite is_digit_char by apply mod10_range. exact H. }
  destruct (n <? 10); auto.
Qed.

Lemma fmt_digits_not_empty (fuel : nat) (n : Z) (acc : string) :
  acc <> "" -> fmt_digits fuel n acc <> "".
Proof.
  revert n acc. induction fuel as [|fuel IH]; intros n acc H; [exact H|].
  cbn [fmt_digits]. destruct (n <? 10); [discriminate | apply IH; discriminate].
Qed.

Lemma fmt_d_not_empty (n : Z) : fmt_d n <> "".
Proof.
  unfold fmt_d. cbn [fmt_digits]. destruct (n <? 10); [discriminate|].
  apply (fmt_digits_not_empty 19). discriminate.
Qed.

Lemma fmt_d_digits (n : Z) : str_forallb is_digit (fmt_d n) = true.
Proof. apply fmt_digits_forall. reflexivity. Qed.

Lemma digits_no_char (c : ascii) (s : string) :
  is_digit c = false -> str_forallb is_digit s = true -> contains_char c s = false.
Proof.
  intros Hc Hs. unfold contains_char. apply negb_false_iff.
  eapply str_forallb_impl; [|exact Hs]. intros d Hd. apply negb_true_iff.
  destruct (Ascii.eqb d c) eqn:E; [|reflexivity].
  apply Ascii.eqb_eq in E. congruence.
Qed.

Theorem ParseUint_fmt_d (n bits : Z) :
  0 <= n < 10 ^ 20 -> n < 2 ^ bits -> ParseUint (fmt_d n) bits = Some n.
Proof.
  intros Hn Hb. unfold ParseUint.
  destruct (fmt_d n) as [|c s] eqn:E; [exfalso; exact (fmt_d_not_empty n E)|].
  rewrite <- E. unfold fmt_d. rewrite parse_fmt_digits; [reflexivity | exact Hn | lia].
Qed.

Lemma parse_digits_range (maxVal acc : Z) (s : string) (n : Z) :
  0 <= acc <= maxVal -> parse_digits maxVal acc s = Some n -> 0 <= n <= maxVal.
Proof.
  revert acc. induction s as [|c s IH]; intros acc Ha; cbn.
  - intros [= <-]. exact Ha.
  - destruct (is_digit c) eqn:Hd; [|discriminate].
    unfold is_digit, between in Hd. bool_hyps.
    change (code "0") with 48 in *. unfold digit_val.
    destruct (_ <=? maxVal) eqn:E; [|discriminate]. bool_hyps. apply IH. lia.
Qed.

Lemma ParseUint_range (s : string) (bits n : Z) :
  0 <= bits -> ParseUint s bits = Some n -> 0 <= n < 2 ^ bits.
Proof.
  intros Hb. unfold ParseUint. destruct s as [|c s]; [discriminate|].
  intros H. pose proof (Z.pow_pos_nonneg 2 bits ltac:(lia) Hb).
  apply parse_digits_range in H; lia.
Qed.

Lemma parse_digits_forall (maxVal acc : Z) (s : string) (n : Z) :
  parse_digits maxVal acc s = Some n -> str_forallb is_digit s = true.
Proof.
  revert acc. induction s as [|c s IH]; intros acc; cbn; [reflexivity|].
  destruct (is_digit c); [|discriminate].
  destruct (_ <=? maxVal); [apply IH | discriminate].
Qed.

Lemma ParseUint_digits (s : string) (bits n : Z) :
  ParseUint s bits = Some n -> str_forallb is_digit s = true /\ s <> "".
Proof.
  unfold ParseUint. destruct s as [|c s]; [discriminate|].
  intros H. split; [eapply parse_digits_forall; exact H | discriminate].
Qed.
