(* ===== verification/Utf8.v ===== *)
(** UTF-8 as Go's [unicode/utf8] reads and writes it: a string is a sequence of
    runes and of bytes that start none. *)

From S2P Require Import Prelude GoStrings.

#[local] Open Scope string_scope.
#[local] Open Scope Z_scope.

(** [unicode.ReplacementChar] *)
Definition RuneError : Z := 65533.

(** The Unicode scalar values: what a well-formed sequence encodes. *)
Definition is_scalar (r : Z) : bool :=
  (0 <=? r) && (r <? 55296) || (57344 <=? r) && (r <=? 1114111).

(** [utf8.AppendRune] of a rune in range; anything else is written as
    [RuneError]. *)
Definition encode_scalar (r : Z) : string :=
  if r <? 128 then bytes_str [r]
  else if r <? 2048 then bytes_str [192 + r / 64; 128 + r mod 64]
  else if r <? 65536 then
    bytes_str [224 + r / 4096; 128 + r / 64 mod 64; 128 + r mod 64]
  else bytes_str [240 + r / 262144; 128 + r / 4096 mod 64; 128 + r / 64 mod 64; 128 + r mod 64].

Definition AppendRune (r : Z) : string :=
  encode_scalar (if is_scalar r then r else RuneError).

Definition is_cont (y : Z) : bool := (128 <=? y) && (y <=? 191).

(** The range of the second byte ([acceptRanges]): no overlong form, no
    surrogate, nothing above U+10FFFF. *)
Definition second_ok (x y : Z) : bool :=
  if x =? 224 then (160 <=? y) && (y <=? 191)
  else if x =? 237 then (128 <=? y) && (y <=? 159)
  else if x =? 240 then (144 <=? y) && (y <=? 191)
  else if x =? 244 then (128 <=? y) && (y <=? 143)
  else is_cont y.

(** [utf8.DecodeRuneInString]: the rune and the number of its bytes, or [None]
    when the first byte starts no well-formed sequence ([RuneError], 1). *)
Definition decode_rune (s : string) : option (Z * nat) :=
  match s with
  | "" => None
  | String c0 s1 =>
      let x := code c0 in
      if x <? 128 then Some (x, 1%nat) else
      match s1 with
      | "" => None
      | String c1 s2 =>
          let y := code c1 in
          if (194 <=? x) && (x <=? 223) then
            if is_cont y then Some ((x - 192) * 64 + (y - 128), 2%nat) else None
          else match s2 with
          | "" => None
          | String c2 s3 =>
              let z := code c2 in
              if (224 <=? x) && (x <=? 239) then
                if second_ok x y && is_cont z
                then Some ((x - 224) * 4096 + (y - 128) * 64 + (z - 128), 3%nat) else None
              else match s3 with
              | "" => None
              | String c3 _ =>
                  let w := code c3 in
                  if (240 <=? x) && (x <=? 244) && second_ok x y && is_cont z && is_cont w
                  then Some ((x - 240) * 262144 + (y - 128) * 4096 + (z - 128) * 64 + (w - 128), 4%nat)
                  else None
              end
          end
      end
  end.

(** The runes of a string, in order; [None] stands for a byte outside any
    well-formed sequence. [skip] bytes belong to the rune before. *)
Fixpoint runes_from (skip : nat) (s : string) : list (option Z) :=
  match s with
  | "" => []
  | String c s' =>
      match skip with
      | S k => runes_from k s'
      | O =>
          match decode_rune s with
          | Some (r, n) => Some r :: runes_from (n - 1) s'
          | None => None :: runes_from 0 s'
          end
      end
  end.
Definition runes (s : string) : list (option Z) := runes_from 0 s.

(** What a [range] loop over the string sees. *)
Definition range_runes (s : string) : list Z := map (default RuneError) (runes s).

Fixpoint encode_runes (l : list Z) : string :=
  match l with
  | [] => ""
  | r :: l' => encode_scalar r ++ encode_runes l'
  end.

Definition valid_utf8 (s : string) : Prop :=
  exists l, forallb is_scalar l = true /\ s = encode_runes l.

(** ** Decoding inverts encoding *)

#[local] Ltac Zify.zify_post_hook ::= Z.to_euclidean_division_equations.

Lemma second_ok_3 (x y : Z) :
  224 <= x <= 239 -> 128 <= y <= 191 -> (x = 224 -> 160 <= y) -> (x = 237 -> y <= 159) ->
  second_ok x y = true.
Proof.
  intros Hx Hy K1 K2. unfold second_ok, is_cont.
  repeat case_match; bool_hyps; rewrite ?andb_true_iff, ?Z.leb_le; lia.
Qed.

Lemma second_ok_4 (x y : Z) :
  240 <= x <= 244 -> 128 <= y <= 191 -> (x = 240 -> 144 <= y) -> (x = 244 -> y <= 143) ->
  second_ok x y = true.
Proof.
  intros Hx Hy K1 K2. unfold second_ok, is_cont.
  repeat case_match; bool_hyps; rewrite ?andb_true_iff, ?Z.leb_le; lia.
Qed.

Lemma is_scalar_spec (r : Z) : is_scalar r = true <-> 0 <= r < 55296 \/ 57344 <= r <= 1114111.
Proof. unfold is_scalar. rewrite orb_true_iff, !andb_true_iff, !Z.leb_le, Z.ltb_lt. lia. Qed.

Lemma decode_encode (r : Z) (t : string) :
  is_scalar r = true ->
  decode_rune (encode_scalar r ++ t) = Some (r, String.length (encode_scalar r)).
Proof.
  rewrite is_scalar_spec. intros Hr. unfold encode_scalar.
  destruct (r <? 128) eqn:E1; [|destruct (r <? 2048) eqn:E2; [|destruct (r <? 65536) eqn:E3]];
    bool_hyps; cbn -[code chr Z.add Z.mul Z.div Z.modulo Z.ltb Z.leb].
  - rewrite code_chr by lia. destruct (Z.ltb_spec r 128); [reflexivity|lia].
  - rewrite !code_chr by lia. unfold is_cont.
    repeat match goal with |- context [Z.ltb ?a ?b] => destruct (Z.ltb_spec a b); [try lia|try lia] end.
    rewrite !(proj2 (Z.leb_le _ _)) by lia. cbn [andb]. do 2 f_equal. lia.
  - rewrite !code_chr by lia. unfold is_cont. rewrite second_ok_3 by lia.
    repeat match goal with |- context [Z.ltb ?a ?b] => destruct (Z.ltb_spec a b); [try lia|try lia] end.
    rewrite (proj2 (Z.leb_gt (224 + r / 4096) 223)) by lia. rewrite andb_false_r.
    rewrite !(proj2 (Z.leb_le _ _)) by lia. cbn [andb]. do 2 f_equal. lia.
  - rewrite !code_chr by lia. unfold is_cont. rewrite second_ok_4 by lia.
    repeat match goal with |- context [Z.ltb ?a ?b] => destruct (Z.ltb_spec a b); [try lia|try lia] end.
    rewrite (proj2 (Z.leb_gt (240 + r / 262144) 223)) by lia. rewrite andb_false_r.
    rewrite (proj2 (Z.leb_gt (240 + r / 262144) 239)) by lia. rewrite andb_false_r.
    rewrite !(proj2 (Z.leb_le _ _)) by lia. cbn [andb]. do 2 f_equal. lia.
Qed.

Lemma runes_skip (a t : string) : runes_from (String.length a) (a ++ t) = runes_from 0 t.
Proof. induction a as [|c a IH]; cbn; [destruct t; reflexivity | exact IH]. Qed.

Lemma encode_scalar_cons (r : Z) : exists c s, encode_scalar r = String c s.
Proof. unfold encode_scalar. repeat case_match; cbn; eauto. Qed.

Lemma runes_encode (r : Z) (t : string) :
  is_scalar r = true -> runes (encode_scalar r ++ t) = Some r :: runes t.
Proof.
  intros Hr. pose proof (decode_encode r t Hr) as Hd.
  destruct (encode_scalar_cons r) as (c & s & E). rewrite E in *.
  unfold runes. cbn [String.append runes_from] in *. rewrite Hd.
  cbn [String.length]. rewrite Nat.sub_1_r. cbn [Nat.pred]. f_equal. apply runes_skip.
Qed.

Lemma runes_encode_runes (l : list Z) (t : string) :
  forallb is_scalar l = true -> runes (encode_runes l ++ t) = (map Some l ++ runes t)%list.
Proof.
  induction l as [|r l IH]; cbn -[encode_scalar is_scalar]; [reflexivity|].
  intros E. bool_hyps. rewrite str_app_assoc, runes_encode by assumption.
  cbn. f_equal. apply IH. assumption.
Qed.

Lemma range_runes_encode (l : list Z) (t : string) :
  forallb is_scalar l = true -> range_runes (encode_runes l ++ t) = (l ++ range_runes t)%list.
Proof.
  intros E. unfold range_runes. rewrite runes_encode_runes by exact E.
  rewrite map_app, map_map. cbn. rewrite map_id. reflexivity.
Qed.

Lemma encode_runes_app (a b : list Z) : encode_runes (a ++ b)%list = encode_runes a ++ encode_runes b.
Proof. induction a as [|r a IH]; cbn -[encode_scalar]; [reflexivity|]. rewrite IH, str_app_assoc. reflexivity. Qed.

(** A scalar value is what decoding yields. *)
Lemma decode_scalar (s : string) (r : Z) (n : nat) :
  decode_rune s = Some (r, n) -> is_scalar r = true.
Proof.
  rewrite is_scalar_spec. destruct s as [|c0 s1]; cbn -[code Z.ltb Z.leb]; [discriminate|].
  pose proof (code_range c0). intros E.
  repeat (case_match_in E; try discriminate); injection E as <- <-;
    unfold second_ok, is_cont in *; bool_hyps; repeat case_match; bool_hyps; lia.
Qed.

Lemma runes_scalar (k : nat) (s : string) :
  Forall (fun o => match o with Some r => is_scalar r = true | None => True end) (runes_from k s).
Proof.
  revert k. induction s as [|c s IH]; intros [|k]; cbn [runes_from]; auto.
  destruct (decode_rune (String c s)) as [[r n]|] eqn:E; constructor; auto.
  eapply decode_scalar, E.
Qed.

Lemma range_runes_scalar (s : string) : forallb is_scalar (range_runes s) = true.
Proof.
  unfold range_runes. apply forallb_forall. intros r Hr. apply in_map_iff in Hr as ([x|] & <- & Hx); [|reflexivity].
  pose proof (runes_scalar 0 s) as Hf. rewrite List.Forall_forall in Hf. exact (Hf _ Hx).
Qed.

Example utf8_invalid : runes (bytes_str [65; 128; 237; 160; 128; 195; 169]) =
  [Some 65; None; None; None; None; Some 233].
Proof. vm_compute. reflexivity. Qed.
