(* ===== verification/GoTime.v ===== *)
(** Civil times of the [time] package: RFC 3339 texts as [time.Parse] and
    [Format] treat them, and their instants. *)

From S2P Require Import Prelude GoStrings.

#[local] Open Scope string_scope.
#[local] Open Scope Z_scope.

#[local] Ltac Zify.zify_post_hook ::= Z.to_euclidean_division_equations.

(** A time as it is displayed: the fields of the clock at its zone, and the
    zone's offset in seconds. *)
Record Time := MkTime {
  t_year : Z; t_month : Z; t_day : Z; t_hour : Z; t_min : Z; t_sec : Z; t_nsec : Z; t_offset : Z
}.

#[export] Instance Time_eq_dec : EqDecision Time.
Proof. solve_decision. Defined.

(** The zero [time.Time]. *)
Definition zero_time : Time := MkTime 1 1 1 0 0 0 0 0.

Definition is_leap (year : Z) : bool :=
  (year mod 4 =? 0) && (negb (year mod 100 =? 0) || (year mod 400 =? 0)).

Definition daysIn (month year : Z) : Z :=
  if month =? 2 then (if is_leap year then 29 else 28)
  else if existsb (Z.eqb month) [4; 6; 9; 11] then 30 else 31.

(** Days from 1970-01-01 to a date of the Gregorian calendar. *)
Definition days_from_civil (year month day : Z) : Z :=
  let y := if month <=? 2 then year - 1 else year in
  let era := y / 400 in
  let yoe := y mod 400 in
  let doy := (153 * (if 2 <? month then month - 3 else month + 9) + 2) / 5 + day - 1 in
  let doe := yoe * 365 + yoe / 4 - yoe / 100 + doy in
  era * 146097 + doe - 719468.

(** [UnixNano] without its 64-bit bound. *)
Definition unix_nano (t : Time) : Z :=
  (days_from_civil (t_year t) (t_month t) (t_day t) * 86400 + t_hour t * 3600 + t_min t * 60 + t_sec t
   - t_offset t) * 1000000000 + t_nsec t.

Definition After (t u : Time) : bool := unix_nano u <? unix_nano t.
Definition Before (t u : Time) : bool := unix_nano t <? unix_nano u.

Example epoch : unix_nano (MkTime 1970 1 1 0 0 0 0 0) = 0.
Proof. reflexivity. Qed.
Example billennium : unix_nano (MkTime 2001 9 9 9 46 40 0 28800) = 1000000000 * 1000000000.
Proof. reflexivity. Qed.

(** ** Formatting *)

Definition pad2 (n : Z) : string := String (digit_char (n / 10 mod 10)) (String (digit_char (n mod 10)) "").
Definition pad4 (n : Z) : string := pad2 (n / 100) ++ pad2 (n mod 100).

(** [appendInt(year, 4)] *)
Definition append_year (y : Z) : string :=
  if y <? 0 then "-" ++ (if - y <? 10000 then pad4 (- y) else fmt_d (- y))
  else if y <? 10000 then pad4 y else fmt_d y.

(** The digits of [n] below [10^k], most significant first, without the zeros
    at the end. *)
Fixpoint frac_digits (k : nat) (n : Z) : string :=
  match k with
  | O => ""
  | S k =>
      let p := 10 ^ Z.of_nat k in
      if n =? 0 then "" else String (digit_char (n / p)) (frac_digits k (n mod p))
  end.

Definition append_zone (offset : Z) : string :=
  if offset =? 0 then "Z" else
  let zone := Z.quot offset 60 in
  let sign := if zone <? 0 then "-" else "+" in
  let zone := Z.abs zone in
  sign ++ (if zone / 60 <? 100 then pad2 (zone / 60) else fmt_d (zone / 60)) ++ ":" ++ pad2 (zone mod 60).

Definition appendFormatRFC3339 (t : Time) (nanos : bool) : string :=
  append_year (t_year t) ++ "-" ++ pad2 (t_month t) ++ "-" ++ pad2 (t_day t) ++ "T" ++
  pad2 (t_hour t) ++ ":" ++ pad2 (t_min t) ++ ":" ++ pad2 (t_sec t) ++
  (if nanos && negb (t_nsec t =? 0) then "." ++ frac_digits 9 (t_nsec t) else "") ++
  append_zone (t_offset t).

(** [t.Format(time.RFC3339)] and [t.MarshalJSON], which refuses years of other
    than four digits and zones of a day or more. *)
Definition Format_RFC3339 (t : Time) : string := appendFormatRFC3339 t false.
Definition Marshal_time (t : Time) : option string :=
  if (0 <=? t_year t) && (t_year t <? 10000) && (Z.abs (t_offset t) <? 86400)
  then Some (appendFormatRFC3339 t true) else None.

(** ** Parsing: [time.Parse(time.RFC3339, s)] *)

(** One digit, or two: [getnum]. *)
Definition getnum (fixed : bool) (s : string) : option (Z * string) :=
  match s with
  | String a t =>
      if is_digit a then
        match t with
        | String b u => if is_digit b then Some (digit_val a * 10 + digit_val b, u)
                        else if fixed then None else Some (digit_val a, t)
        | "" => if fixed then None else Some (digit_val a, t)
        end
      else None
  | "" => None
  end.

Definition skip_char (c : ascii) (s : string) : option string :=
  match s with
  | String a t => if Ascii.eqb a c then Some t else None
  | "" => None
  end.

Definition get_year (s : string) : option (Z * string) :=
  match s with
  | String a (String b (String c (String d t))) =>
      if is_digit a && is_digit b && is_digit c && is_digit d
      then Some (digit_val a * 1000 + digit_val b * 100 + digit_val c * 10 + digit_val d, t) else None
  | _ => None
  end.

Fixpoint span_digits (s : string) : string * string :=
  match s with
  | String c t => if is_digit c then let '(d, r) := span_digits t in (String c d, r) else ("", s)
  | "" => ("", "")
  end.

(** The value of up to nine digits behind the point, in nanoseconds. *)
Fixpoint nanos_of (k : nat) (s : string) : Z :=
  match k, s with
  | S k, String c t => digit_val c * 10 ^ Z.of_nat k + nanos_of k t
  | _, _ => 0
  end.

(** A fraction after a point or a comma, if there is one. *)
Definition get_fraction (s : string) : Z * string :=
  match s with
  | String p (String d t) =>
      if (Ascii.eqb p "." || Ascii.eqb p ",") && is_digit d then
        let '(ds, rest) := span_digits (String d t) in (nanos_of 9 ds, rest)
      else (0, s)
  | _ => (0, s)
  end.

Definition get_zone (s : string) : option (Z * string) :=
  match s with
  | String "Z" t => Some (0, t)
  | String sign (String h1 (String h2 (String colon (String m1 (String m2 t))))) =>
      if negb (Ascii.eqb colon ":") then None else
      match getnum true (String h1 (String h2 "")), getnum true (String m1 (String m2 "")) with
      | Some (hr, _), Some (mm, _) =>
          if (24 <? hr) || (60 <? mm) then None else
          let off := (hr * 60 + mm) * 60 in
          if Ascii.eqb sign "+" then Some (off, t)
          else if Ascii.eqb sign "-" then Some (- off, t) else None
      | _, _ => None
      end
  | _ => None
  end.

Definition obind {A B : Type} (o : option A) (f : A -> option B) : option B :=
  match o with Some a => f a | None => None end.

Definition in_range (lo hi n : Z) : bool := (lo <=? n) && (n <=? hi).

Definition Parse_RFC3339 (s : string) : option Time :=
  obind (get_year s) (fun '(year, s) => obind (skip_char "-" s) (fun s =>
  obind (getnum true s) (fun '(month, s) => if negb (in_range 1 12 month) then None else obind (skip_char "-" s) (fun s =>
  obind (getnum true s) (fun '(day, s) => obind (skip_char "T" s) (fun s =>
  obind (getnum false s) (fun '(hour, s) => if negb (in_range 0 23 hour) then None else obind (skip_char ":" s) (fun s =>
  obind (getnum true s) (fun '(min, s) => if negb (in_range 0 59 min) then None else obind (skip_char ":" s) (fun s =>
  obind (getnum true s) (fun '(sec, s) => if negb (in_range 0 59 sec) then None else
  let '(nsec, s) := get_fraction s in
  obind (get_zone s) (fun '(offset, s) =>
  if negb (String.eqb s "") || negb (in_range 1 (daysIn month year) day) then None
  else Some (MkTime year month day hour min sec nsec offset))))))))))))).

Example time_parse_ex : Parse_RFC3339 "2024-02-29T23:59:08.5+08:00" = Some (MkTime 2024 2 29 23 59 8 500000000 28800).
Proof. reflexivity. Qed.
Example parse_lenient : Parse_RFC3339 "2024-02-28T3:59:08,25Z" = Some (MkTime 2024 2 28 3 59 8 250000000 0).
Proof. reflexivity. Qed.
Example parse_bad : Parse_RFC3339 "2023-02-29T00:00:00Z" = None.
Proof. reflexivity. Qed.

(** ** What is formatted is parsed back *)

(** The times the parser and the strict formatter share: dates of the calendar,
    zones of whole minutes within a day. *)
Definition time_wf (t : Time) : Prop :=
  0 <= t_year t < 10000 /\ 1 <= t_month t <= 12 /\ 1 <= t_day t <= daysIn (t_month t) (t_year t) /\
  0 <= t_hour t < 24 /\ 0 <= t_min t < 60 /\ 0 <= t_sec t < 60 /\ 0 <= t_nsec t < 1000000000 /\
  Z.abs (t_offset t) < 86400 /\ Z.rem (t_offset t) 60 = 0.

Lemma digit_char_val (d : Z) : 0 <= d < 10 -> is_digit (digit_char d) = true /\ digit_val (digit_char d) = d.
Proof.
  intros Hd. assert (G : forallb (fun n => is_digit (digit_char (Z.of_nat n)) && (digit_val (digit_char (Z.of_nat n)) =? Z.of_nat n)) (seq 0 10) = true)
    by reflexivity.
  rewrite forallb_forall in G. specialize (G (Z.to_nat d) ltac:(apply in_seq; lia)). rewrite Z2Nat.id in G by lia.
  bool_hyps. split; assumption.
Qed.

Lemma getnum_pad2 (fixed : bool) (n : Z) (s : string) : 0 <= n < 100 -> getnum fixed (pad2 n ++ s) = Some (n, s).
Proof.
  intros Hn. unfold pad2, getnum. cbn [String.append].
  destruct (digit_char_val (n / 10 mod 10) ltac:(lia)) as [-> ->].
  destruct (digit_char_val (n mod 10) ltac:(lia)) as [-> ->]. do 2 f_equal. lia.
Qed.

Lemma get_year_pad4 (n : Z) (s : string) : 0 <= n < 10000 -> get_year (pad4 n ++ s) = Some (n, s).
Proof.
  intros Hn. unfold pad4, pad2, get_year. cbn [String.append].
  destruct (digit_char_val (n / 100 / 10 mod 10) ltac:(lia)) as [-> ->].
  destruct (digit_char_val (n / 100 mod 10) ltac:(lia)) as [-> ->].
  destruct (digit_char_val (n mod 100 / 10 mod 10) ltac:(lia)) as [-> ->].
  destruct (digit_char_val (n mod 100 mod 10) ltac:(lia)) as [-> ->]. cbn [andb]. do 2 f_equal. lia.
Qed.

(** No digit at the front. *)
Definition no_digit (s : string) : bool := match s with String c _ => negb (is_digit c) | "" => true end.

Lemma span_frac (k : nat) (n : Z) (s : string) :
  0 <= n < 10 ^ Z.of_nat k -> no_digit s = true ->
  span_digits (frac_digits k n ++ s) = (frac_digits k n, s) /\ nanos_of k (frac_digits k n) = n.
Proof.
  intros Hn Hs. assert (Hnil : span_digits s = ("", s)).
  { destruct s as [|c s]; [reflexivity|]. cbn in *. apply negb_true_iff in Hs. rewrite Hs. reflexivity. }
  revert n Hn. induction k as [|k IH]; intros n Hn; [cbn in *; split; [exact Hnil | lia]|].
  cbn [frac_digits]. set (p := 10 ^ Z.of_nat k) in *.
  assert (Hp : 0 < p) by (apply Z.pow_pos_nonneg; lia).
  assert (Hk : 10 ^ Z.of_nat (S k) = 10 * p) by (unfold p; rewrite Nat2Z.inj_succ, Z.pow_succ_r by lia; reflexivity).
  destruct (n =? 0) eqn:E0; bool_hyps; [subst; cbn; split; [exact Hnil | reflexivity]|].
  cbn [String.append span_digits nanos_of]. fold p.
  destruct (digit_char_val (n / p) ltac:(split; [apply Z.div_pos; lia | apply Z.div_lt_upper_bound; lia])) as [-> ->].
  destruct (IH (n mod p) ltac:(apply Z.mod_pos_bound; exact Hp)) as [-> ->]. split; [reflexivity|].
  pose proof (Z.div_mod n p ltac:(lia)). lia.
Qed.

Lemma get_fraction_format (n : Z) (s : string) :
  0 <= n < 1000000000 -> no_digit s = true ->
  (match s with String c _ => negb (Ascii.eqb c "." || Ascii.eqb c ",") | "" => true end) = true ->
  get_fraction ((if negb (n =? 0) then "." ++ frac_digits 9 n else "") ++ s) = (n, s).
Proof.
  intros Hn Hd Hs. destruct (n =? 0) eqn:E0; bool_hyps; cbn [negb].
  - subst. cbn [String.append]. destruct s as [|p [|d t]]; [reflexivity..|]. cbn [get_fraction].
    apply negb_true_iff in Hs. rewrite Hs. reflexivity.
  - destruct (span_frac 9 n s Hn Hd) as [E1 E2].
    destruct (frac_digits 9 n) as [|d t] eqn:Ef.
    + cbn in E2. congruence.
    + cbn [String.append get_fraction Ascii.eqb Bool.eqb orb andb] in *. 
      assert (Hdig : is_digit d = true).
      { cbn [span_digits] in E1. destruct (is_digit d); [reflexivity | discriminate E1]. }
      rewrite Hdig, E1, E2. reflexivity.
Qed.

Lemma get_zone_append (off : Z) :
  Z.abs off < 86400 -> Z.rem off 60 = 0 -> get_zone (append_zone off) = Some (off, "").
Proof.
  intros Ha Hr. unfold append_zone. destruct (off =? 0) eqn:E0; bool_hyps; [subst; reflexivity|].
  assert (Hz : Z.abs (Z.quot off 60) / 60 < 24 /\ 0 <= Z.abs (Z.quot off 60) / 60 /\ 0 <= Z.abs (Z.quot off 60) mod 60 < 60) by lia.
  destruct Hz as (H1 & H2 & H3). rewrite (proj2 (Z.ltb_lt _ 100)) by lia.
  set (h := Z.abs (Z.quot off 60) / 60) in *. set (m := Z.abs (Z.quot off 60) mod 60) in *.
  assert (Hoff : off = (if Z.quot off 60 <? 0 then - ((h * 60 + m) * 60) else (h * 60 + m) * 60)).
  { unfold h, m. destruct (Z.quot off 60 <? 0) eqn:E; bool_hyps; lia. }
  pose proof (getnum_pad2 true h "" ltac:(lia)) as Gh. pose proof (getnum_pad2 true m "" ltac:(lia)) as Gm.
  unfold pad2 in *. cbn [String.append] in *.
  assert (Hlim : (24 <? h) || (60 <? m) = false) by (apply orb_false_iff; split; apply Z.ltb_ge; lia).
  destruct (Z.quot off 60 <? 0); cbn [String.append get_zone Ascii.eqb Bool.eqb negb]; rewrite Gh, Gm, Hlim, Hoff; reflexivity.
Qed.

Lemma append_zone_front (off : Z) (s : string) :
  no_digit (append_zone off ++ s) = true /\
  (match append_zone off ++ s with String c _ => negb (Ascii.eqb c "." || Ascii.eqb c ",") | "" => true end) = true.
Proof.
  unfold append_zone. destruct (off =? 0); [split; reflexivity|]. destruct (Z.quot off 60 <? 0); split; reflexivity.
Qed.

(** Parsing a formatted time gives the time back, without its fraction when the
    format has none. *)
Lemma Parse_Format (t : Time) (nanos : bool) :
  time_wf t ->
  Parse_RFC3339 (appendFormatRFC3339 t nanos) =
  Some (if nanos then t else MkTime (t_year t) (t_month t) (t_day t) (t_hour t) (t_min t) (t_sec t) 0 (t_offset t)).
Proof.
  intros (Hy & Hm & Hd & Hh & Hmi & Hs & Hn & Ho & Hr). unfold appendFormatRFC3339, append_year.
  destruct (t_year t <? 0) eqn:E1; bool_hyps; [lia|]. destruct (t_year t <? 10000) eqn:E2; bool_hyps; [|lia].
  assert (Hdi : daysIn (t_month t) (t_year t) <= 31)
    by (unfold daysIn; repeat match goal with |- context [if ?b then _ else _] => destruct b end; lia).
  assert (Hfrac : get_fraction ((if nanos && negb (t_nsec t =? 0) then "." ++ frac_digits 9 (t_nsec t) else "") ++
      append_zone (t_offset t)) = (if nanos then t_nsec t else 0, append_zone (t_offset t))).
  { pose proof (append_zone_front (t_offset t) "") as [F1 F2]. rewrite str_app_nil_r in F1, F2.
    destruct nanos; cbn [andb]; [apply get_fraction_format; assumption|].
    apply (get_fraction_format 0); [lia | assumption..]. }
  unfold Parse_RFC3339. rewrite get_year_pad4 by exact Hy. cbn [obind String.append skip_char Ascii.eqb Bool.eqb].
  rewrite getnum_pad2 by lia. cbn [obind String.append skip_char Ascii.eqb Bool.eqb].
  replace (in_range 1 12 (t_month t)) with true by (symmetry; apply andb_true_iff; split; apply Z.leb_le; lia). cbn [negb].
  rewrite getnum_pad2 by lia. cbn [obind String.append skip_char Ascii.eqb Bool.eqb].
  rewrite getnum_pad2 by lia. cbn [obind String.append skip_char Ascii.eqb Bool.eqb].
  replace (in_range 0 23 (t_hour t)) with true by (symmetry; apply andb_true_iff; split; apply Z.leb_le; lia). cbn [negb].
  rewrite getnum_pad2 by lia. cbn [obind String.append skip_char Ascii.eqb Bool.eqb].
  replace (in_range 0 59 (t_min t)) with true by (symmetry; apply andb_true_iff; split; apply Z.leb_le; lia). cbn [negb].
  rewrite getnum_pad2 by lia. cbn [obind].
  replace (in_range 0 59 (t_sec t)) with true by (symmetry; apply andb_true_iff; split; apply Z.leb_le; lia). cbn [negb].
  cbn [String.append] in Hfrac. rewrite Hfrac, get_zone_append by assumption. cbn [obind String.eqb negb orb].
  replace (in_range 1 (daysIn (t_month t) (t_year t)) (t_day t)) with true
    by (symmetry; apply andb_true_iff; split; apply Z.leb_le; lia).
  destruct t, nanos; reflexivity.
Qed.
