(* ===== verification/Encoding.v ===== *)
(** Bytes, [encoding/hex] and [encoding/base64] (StdEncoding) as the SDK uses
    them: executable codecs with their round trips. *)

From S2P Require Import Prelude GoStrings.

#[local] Open Scope string_scope.
#[local] Open Scope Z_scope.

#[local] Ltac Zify.zify_post_hook ::= Z.to_euclidean_division_equations.

(** ** Bytes *)

Definition byte_Z (b : byte) : Z := Z.of_N (Byte.to_N b).
Definition Z_byte (z : Z) : byte :=
  match Byte.of_N (Z.to_N z) with Some b => b | None => x00 end.

Lemma byte_Z_range (b : byte) : 0 <= byte_Z b < 256.
Proof. unfold byte_Z. pose proof (Byte.to_N_bounded b). lia. Qed.

Lemma Z_byte_Z (b : byte) : Z_byte (byte_Z b) = b.
Proof. unfold Z_byte, byte_Z. rewrite N2Z.id, Byte.of_to_N. reflexivity. Qed.

Lemma Z_byte_eq (b : byte) (v : Z) : v = byte_Z b -> Z_byte v = b.
Proof. intros ->. apply Z_byte_Z. Qed.

Lemma byte_Z_byte (z : Z) : 0 <= z < 256 -> byte_Z (Z_byte z) = z.
Proof.
  intros H. unfold Z_byte, byte_Z. destruct (Byte.of_N (Z.to_N z)) as [b|] eqn:E.
  - apply Byte.to_of_N in E. rewrite E. lia.
  - apply Byte.of_N_None_iff in E. lia.
Qed.

(** [big.Int.SetBytes]: big-endian. *)
Definition bytes_Z (b : list byte) : Z := fold_left (fun acc x => acc * 256 + byte_Z x) b 0.

(** The last [n] bytes of an integer, big-endian: [x.Bytes()] copied to the end
    of a slot of [n] zero bytes, when it fits. *)
Fixpoint be_slot (n : nat) (x : Z) : list byte :=
  match n with
  | O => []
  | S k => (be_slot k (x / 256) ++ [Z_byte (x mod 256)])%list
  end.

Lemma be_slot_length (n : nat) (x : Z) : length (be_slot n x) = n.
Proof. revert x. induction n as [|n IH]; intros x; [reflexivity|]. cbn. rewrite length_app, IH. cbn. lia. Qed.

Lemma bytes_be_slot (n : nat) (x : Z) : 0 <= x < 256 ^ Z.of_nat n -> bytes_Z (be_slot n x) = x.
Proof.
  revert x. induction n as [|n IH]; intros x Hx; [cbn in *; lia|]. cbn [be_slot]. unfold bytes_Z in *.
  rewrite Nat2Z.inj_succ, Z.pow_succ_r in Hx by lia. rewrite fold_left_app, IH by lia. cbn [fold_left].
  rewrite byte_Z_byte by lia. lia.
Qed.

(** [[]byte(s)] and [string(b)]. *)
Definition bytes_of_string (s : string) : list byte := list_byte_of_string s.
Definition string_of_bytes (b : list byte) : string := string_of_list_byte b.

Definition byte_char (b : byte) : ascii := chr (byte_Z b).

(** ** Hexadecimal *)

Definition hex_digit (d : Z) : ascii := if d <? 10 then chr (d + 48) else chr (d + 87).

Definition from_hex_char (c : ascii) : option Z :=
  if is_digit c then Some (code c - 48)
  else if between "a" "f" c then Some (code c - 87)
  else if between "A" "F" c then Some (code c - 55)
  else None.

(** [hex.EncodeToString] *)
Fixpoint hex_EncodeToString (b : list byte) : string :=
  match b with
  | [] => ""
  | x :: b' => String (hex_digit (byte_Z x / 16))
                 (String (hex_digit (byte_Z x mod 16)) (hex_EncodeToString b'))
  end.

(** [hex.DecodeString]: [None] on an odd length or a non-hex character. *)
Fixpoint hex_DecodeString (s : string) : option (list byte) :=
  match s with
  | "" => Some []
  | String a (String b s') =>
      match from_hex_char a, from_hex_char b, hex_DecodeString s' with
      | Some h, Some l, Some r => Some (Z_byte (h * 16 + l) :: r)
      | _, _, _ => None
      end
  | String _ "" => None
  end.

Definition hex16 : list Z := map Z.of_nat (seq 0 16).

Lemma in_hex16 (d : Z) : 0 <= d < 16 -> In d hex16.
Proof.
  intros H. unfold hex16. apply in_map_iff. exists (Z.to_nat d).
  split; [lia | apply in_seq; lia].
Qed.

Lemma from_hex_digit (d : Z) : 0 <= d < 16 -> from_hex_char (hex_digit d) = Some d.
Proof.
  intros H. apply in_hex16 in H.
  assert (G : Forall (fun d => from_hex_char (hex_digit d) = Some d) hex16)
    by (repeat (constructor; [reflexivity|]); constructor).
  rewrite List.Forall_forall in G. auto.
Qed.

Lemma nibbles (b : byte) : 0 <= byte_Z b / 16 < 16 /\ 0 <= byte_Z b mod 16 < 16.
Proof. pose proof (byte_Z_range b). split; lia. Qed.

Lemma hex_roundtrip (b : list byte) : hex_DecodeString (hex_EncodeToString b) = Some b.
Proof.
  induction b as [|x b IH]; cbn; [reflexivity|].
  destruct (nibbles x) as [H1 H2].
  rewrite !from_hex_digit, IH by assumption.
  replace (byte_Z x / 16 * 16 + byte_Z x mod 16) with (byte_Z x)
    by (pose proof (Z.div_mod (byte_Z x) 16); lia).
  rewrite Z_byte_Z. reflexivity.
Qed.

Lemma hex_Encode_inj (a b : list byte) :
  hex_EncodeToString a = hex_EncodeToString b -> a = b.
Proof.
  intros H. apply (f_equal hex_DecodeString) in H. rewrite !hex_roundtrip in H. congruence.
Qed.

Lemma hex_Encode_length (b : list byte) :
  String.length (hex_EncodeToString b) = (2 * length b)%nat.
Proof. induction b; cbn [hex_EncodeToString String.length length]; lia. Qed.

Definition is_lower_hex (c : ascii) : bool := is_digit c || between "a" "f" c.

Lemma hex_Encode_lower (b : list byte) : str_forallb is_lower_hex (hex_EncodeToString b) = true.
Proof.
  assert (G : Forall (fun d => is_lower_hex (hex_digit d) = true) hex16)
    by (repeat (constructor; [reflexivity|]); constructor).
  rewrite List.Forall_forall in G.
  induction b as [|x b IH]; cbn; [reflexivity|].
  destruct (nibbles x) as [H1 H2]. apply in_hex16 in H1, H2.
  rewrite !G by assumption. exact IH.
Qed.

Lemma lower_hex_fixed (s : string) : str_forallb is_lower_hex s = true -> str_map lower_char s = s.
Proof.
  intros H. apply str_map_id. eapply str_forallb_impl; [|exact H].
  intros c Hc.
  assert (G : implb (is_lower_hex c) (Ascii.eqb (lower_char c) c) = true)
    by by_chars (fun c => implb (is_lower_hex c) (Ascii.eqb (lower_char c) c)) c.
  rewrite Hc in G. exact G.
Qed.

Lemma lower_hex_ascii (s : string) : str_forallb is_lower_hex s = true -> is_ascii s = true.
Proof.
  apply str_forallb_impl. intros c Hc.
  assert (G : implb (is_lower_hex c) (is_ascii_char c) = true)
    by by_chars (fun c => implb (is_lower_hex c) (is_ascii_char c)) c.
  rewrite Hc in G. exact G.
Qed.

Lemma from_hex_lower (c : ascii) : from_hex_char (lower_char c) = from_hex_char c.
Proof.
  assert (G : (match from_hex_char (lower_char c), from_hex_char c with
               | Some a, Some b => a =? b | None, None => true | _, _ => false end) = true)
    by by_chars (fun c => match from_hex_char (lower_char c), from_hex_char c with
               | Some a, Some b => a =? b | None, None => true | _, _ => false end) c.
  destruct (from_hex_char (lower_char c)), (from_hex_char c); try discriminate; bool_hyps; congruence.
Qed.

(** [ToLower] of a hex text decodes to the same bytes. *)
Lemma hex_Decode_lower (s : string) :
  hex_DecodeString (str_map lower_char s) = hex_DecodeString s.
Proof.
  induction s as [s IH] using (induction_ltof1 _ String.length). unfold ltof in IH.
  destruct s as [|a [|b s]]; [reflexivity | reflexivity |].
  cbn. rewrite !from_hex_lower, IH by (cbn; lia). reflexivity.
Qed.

(** Encoding what was decoded gives the lower-case spelling of the input. *)
Lemma hex_Encode_Decode (s : string) (b : list byte) :
  hex_DecodeString s = Some b -> hex_EncodeToString b = str_map lower_char s.
Proof.
  revert b. induction s as [s IH] using (induction_ltof1 _ String.length). unfold ltof in IH.
  destruct s as [|a [|c s]]; cbn; intros b Hb; [injection Hb as <-; reflexivity | discriminate |].
  destruct (from_hex_char a) as [h|] eqn:Ha; [|discriminate].
  destruct (from_hex_char c) as [l|] eqn:Hc; [|discriminate].
  destruct (hex_DecodeString s) as [r|] eqn:Hr; [|discriminate].
  injection Hb as <-. cbn [hex_EncodeToString].
  assert (G : forall d v, from_hex_char d = Some v -> 0 <= v < 16 /\ hex_digit v = lower_char d).
  { intros d v Hd.
    assert (G : (match from_hex_char d with
                 | Some v => (0 <=? v) && (v <? 16) && Ascii.eqb (hex_digit v) (lower_char d)
                 | None => true end) = true)
      by by_chars (fun d => match from_hex_char d with
                 | Some v => (0 <=? v) && (v <? 16) && Ascii.eqb (hex_digit v) (lower_char d)
                 | None => true end) d.
    rewrite Hd in G. bool_hyps. split; [lia | apply Ascii.eqb_eq; assumption]. }
  apply G in Ha as [Ha1 Ha2], Hc as [Hc1 Hc2].
  rewrite byte_Z_byte by lia.
  replace ((h * 16 + l) / 16) with h by lia. replace ((h * 16 + l) mod 16) with l by lia.
  rewrite Ha2, Hc2, (IH s ltac:(cbn; lia) r Hr). reflexivity.
Qed.

(** ** Base64 (standard alphabet, padded) *)

Definition b64_alphabet : string :=
  "ABCDEFGHIJKLMNOPQRSTUVWXYZabcdefghijklmnopqrstuvwxyz0123456789+/".

Definition b64_char (v : Z) : ascii :=
  match String.get (Z.to_nat v) b64_alphabet with Some c => c | None => "A"%char end.

Definition b64_val (c : ascii) : option Z :=
  if is_upper c then Some (code c - 65)
  else if is_lower c then Some (code c - 71)
  else if is_digit c then Some (code c + 4)
  else if Ascii.eqb c "+" then Some 62
  else if Ascii.eqb c "/" then Some 63
  else None.

(** [base64.StdEncoding.EncodeToString] *)
Fixpoint b64_EncodeToString (b : list byte) : string :=
  match b with
  | [] => ""
  | [x] =>
      let v := byte_Z x * 65536 in
      String (b64_char (v / 262144)) (String (b64_char (v / 4096 mod 64)) "==")
  | [x; y] =>
      let v := byte_Z x * 65536 + byte_Z y * 256 in
      String (b64_char (v / 262144)) (String (b64_char (v / 4096 mod 64))
        (String (b64_char (v / 64 mod 64)) "="))
  | x :: y :: z :: b' =>
      let v := byte_Z x * 65536 + byte_Z y * 256 + byte_Z z in
      String (b64_char (v / 262144)) (String (b64_char (v / 4096 mod 64))
        (String (b64_char (v / 64 mod 64)) (String (b64_char (v mod 64))
          (b64_EncodeToString b'))))
  end.

Fixpoint strip_newlines (s : string) : string :=
  match s with
  | "" => ""
  | String c s' =>
      if (code c =? 10) || (code c =? 13) then strip_newlines s' else String c (strip_newlines s')
  end.

Definition pad : ascii := "="%char.

(** The quantum loop of [decodeQuantum], after newlines are dropped: four
    characters give three bytes; padding ends the text. *)
Fixpoint b64_quanta (s : string) : option (list byte) :=
  match s with
  | "" => Some []
  | String a (String b (String c (String d s'))) =>
      match b64_val a, b64_val b with
      | Some va, Some vb =>
          match b64_val c with
          | None =>
              if Ascii.eqb c pad && Ascii.eqb d pad && String.eqb s' ""
              then Some [Z_byte ((va * 64 + vb) / 16)] else None
          | Some vc =>
              match b64_val d with
              | None =>
                  if Ascii.eqb d pad && String.eqb s' ""
                  then let v := (va * 64 + vb) * 64 + vc in
                       Some [Z_byte (v / 1024); Z_byte (v / 4 mod 256)] else None
              | Some vd =>
                  match b64_quanta s' with
                  | Some r =>
                      let v := ((va * 64 + vb) * 64 + vc) * 64 + vd in
                      Some (Z_byte (v / 65536) :: Z_byte (v / 256 mod 256) :: Z_byte (v mod 256) :: r)
                  | None => None
                  end
              end
          end
      | _, _ => None
      end
  | _ => None
  end.

(** [base64.StdEncoding.DecodeString] ([None] on CorruptInputError). *)
Definition b64_DecodeString (s : string) : option (list byte) := b64_quanta (strip_newlines s).

Definition b64_values : list Z := map Z.of_nat (seq 0 64).

Lemma b64_val_char (v : Z) : 0 <= v < 64 -> b64_val (b64_char v) = Some v.
Proof.
  intros H.
  assert (Hin : In v b64_values)
    by (apply in_map_iff; exists (Z.to_nat v); split; [lia | apply in_seq; lia]).
  assert (G : Forall (fun v => b64_val (b64_char v) = Some v) b64_values)
    by (repeat (constructor; [reflexivity|]); constructor).
  rewrite List.Forall_forall in G. auto.
Qed.

Lemma b64_no_newline (v : Z) : (code (b64_char v) =? 10) || (code (b64_char v) =? 13) = false.
Proof.
  assert (G : forall n, (match String.get n b64_alphabet with
                         | Some c => negb ((code c =? 10) || (code c =? 13)) | None => true end) = true).
  { intros n. do 64 (destruct n; [reflexivity|]). reflexivity. }
  specialize (G (Z.to_nat v)). unfold b64_char.
  destruct (String.get (Z.to_nat v) b64_alphabet); [|reflexivity].
  apply negb_true_iff in G. exact G.
Qed.

Lemma list_ind3 {A : Type} (P : list A -> Prop) :
  P [] -> (forall x, P [x]) -> (forall x y, P [x; y]) ->
  (forall x y z l, P l -> P (x :: y :: z :: l)) -> forall l, P l.
Proof.
  intros H0 H1 H2 H3 l.
  assert (G : P l /\ (forall x, P (x :: l)) /\ (forall x y, P (x :: y :: l))); [|apply G].
  induction l as [|a l (IH0 & IH1 & IH2)]; repeat split; auto.
Qed.

Lemma strip_Encode (b : list byte) : strip_newlines (b64_EncodeToString b) = b64_EncodeToString b.
Proof.
  induction b as [|x|x y|x y z b IH] using list_ind3; [reflexivity| | |];
    cbn [b64_EncodeToString strip_newlines]; rewrite !b64_no_newline; [reflexivity..|].
  rewrite IH. reflexivity.
Qed.

Theorem b64_roundtrip (b : list byte) : b64_DecodeString (b64_EncodeToString b) = Some b.
Proof.
  unfold b64_DecodeString. rewrite strip_Encode.
  induction b as [|x|x y|x y z b IH] using list_ind3; [reflexivity| | |];
    pose proof (byte_Z_range x); try pose proof (byte_Z_range y); try pose proof (byte_Z_range z);
    cbn [b64_EncodeToString b64_quanta]; rewrite !b64_val_char by lia; cbn.
  - rewrite (Z_byte_eq x) by lia. reflexivity.
  - rewrite (Z_byte_eq x), (Z_byte_eq y) by lia. reflexivity.
  - rewrite IH, (Z_byte_eq x), (Z_byte_eq y), (Z_byte_eq z) by lia. reflexivity.
Qed.

(** *** [base64.RawURLEncoding]: the URL alphabet without padding *)

Definition url_char (c : ascii) : ascii :=
  if Ascii.eqb c "+" then "-"%char else if Ascii.eqb c "/" then "_"%char else c.
Definition std_char (c : ascii) : ascii :=
  if Ascii.eqb c "-" then "+"%char else if Ascii.eqb c "_" then "/"%char else c.

Fixpoint drop_pad (s : string) : string :=
  match s with
  | String c t => if Ascii.eqb c pad then drop_pad t else String c (drop_pad t)
  | "" => ""
  end.

Definition RawURL_EncodeToString (b : list byte) : string := drop_pad (str_map url_char (b64_EncodeToString b)).

Definition is_raw_url (c : ascii) : bool := negb (Ascii.eqb c pad || Ascii.eqb c "+" || Ascii.eqb c "/").

(** The padding that completes the last quantum. *)
Definition padding (s : string) : string :=
  match Z.of_nat (String.length s) mod 4 with 2 => "==" | 3 => "=" | _ => "" end.

(** [None] on CorruptInputError. *)
Definition RawURL_DecodeString (s : string) : option (list byte) :=
  let t := strip_newlines s in
  if str_forallb is_raw_url t then b64_DecodeString (str_map std_char t ++ padding t) else None.

Definition url_values : list Z := map Z.of_nat (seq 0 64).

Lemma url_value (v : Z) :
  let c := url_char (b64_char v) in
  Ascii.eqb c pad = false /\ std_char c = b64_char v /\ is_raw_url c = true /\ Ascii.eqb c "." = false /\
  ((code c =? 10) || (code c =? 13)) = false.
Proof.
  assert (G : forall n, (match String.get n b64_alphabet with
    | Some x => let c := url_char x in negb (Ascii.eqb c pad) && Ascii.eqb (std_char c) x && is_raw_url c &&
        negb (Ascii.eqb c ".") && negb ((code c =? 10) || (code c =? 13))
    | None => true end) = true).
  { intros n. do 64 (destruct n; [reflexivity|]). reflexivity. }
  specialize (G (Z.to_nat v)). unfold b64_char. destruct (String.get (Z.to_nat v) b64_alphabet) as [x|]; cbv zeta in *.
  - rewrite !andb_true_iff, !negb_true_iff in G. destruct G as ((((A & B) & C) & D) & E).
    apply Ascii.eqb_eq in B. auto.
  - vm_compute. auto.
Qed.

(** What the encoder emits: URL characters, and the padding restores the text. *)
Lemma RawURL_text (b : list byte) :
  let t := RawURL_EncodeToString b in
  str_forallb is_raw_url t = true /\ str_forallb (fun c => negb (Ascii.eqb c ".")) t = true /\
  strip_newlines t = t /\ str_map std_char t ++ padding t = b64_EncodeToString b.
Proof.
  unfold RawURL_EncodeToString, padding. cbv zeta.
  induction b as [|x|x y|x y z b (IH1 & IH2 & IH3 & IH4)] using list_ind3; [repeat split| | |];
    cbn [b64_EncodeToString str_map drop_pad];
    repeat match goal with |- context [b64_char ?v] =>
      destruct (url_value v) as (? & ? & ? & ? & ?); cbv zeta in *;
      generalize dependent (url_char (b64_char v)); intros; generalize dependent (b64_char v); intros
    end.
  all: repeat match goal with H : Ascii.eqb _ pad = false |- _ => rewrite H end.
  all: change (Ascii.eqb (url_char "=") pad) with true; cbv iota.
  all: cbn [str_forallb strip_newlines str_map drop_pad String.append String.length].
  all: repeat match goal with
    | H : is_raw_url _ = true |- _ => rewrite H; clear H
    | H : Ascii.eqb _ "." = false |- _ => rewrite H; clear H
    | H : _ || _ = false |- _ => rewrite H; clear H
    | H : std_char _ = _ |- _ => rewrite H; clear H
    end.
  1, 2: repeat split.
  cbn [andb negb]. rewrite IH1, IH2, IH3. split; [reflexivity|]. split; [reflexivity|]. split; [reflexivity|].
  set (t := drop_pad _) in *. clearbody t. rewrite <- IH4. repeat f_equal.
  match goal with |- context [Z.of_nat (S (S (S (S ?n)))) mod 4] =>
    replace (Z.of_nat (S (S (S (S n)))) mod 4) with (Z.of_nat n mod 4) by lia end. reflexivity.
Qed.

Theorem RawURL_roundtrip (b : list byte) : RawURL_DecodeString (RawURL_EncodeToString b) = Some b.
Proof.
  destruct (RawURL_text b) as (H1 & _ & H3 & H4). unfold RawURL_DecodeString. cbv zeta.
  rewrite H3, H1, H4. apply b64_roundtrip.
Qed.
