(* ===== verification/Sha256.v ===== *)
(** SHA-256 ([crypto/sha256], FIPS 180-4), executable, so that hashes of
    concrete inputs evaluate in the kernel. The only fact the other components
    use is that a digest has 32 bytes. *)

From S2P Require Import Prelude GoStrings Encoding.

#[local] Open Scope Z_scope.

Definition mask32 : Z := 4294967295.
Definition add32 (a b : Z) : Z := Z.land (a + b) mask32.
Definition rotr (n x : Z) : Z :=
  Z.lor (Z.shiftr x n) (Z.land (Z.shiftl x (32 - n)) mask32).

Definition Ch (x y z : Z) : Z := Z.lxor (Z.land x y) (Z.land (Z.lxor x mask32) z).
Definition Maj (x y z : Z) : Z := Z.lxor (Z.land x y) (Z.lxor (Z.land x z) (Z.land y z)).
Definition Sigma0 (x : Z) : Z := Z.lxor (rotr 2 x) (Z.lxor (rotr 13 x) (rotr 22 x)).
Definition Sigma1 (x : Z) : Z := Z.lxor (rotr 6 x) (Z.lxor (rotr 11 x) (rotr 25 x)).
Definition sigma0 (x : Z) : Z := Z.lxor (rotr 7 x) (Z.lxor (rotr 18 x) (Z.shiftr x 3)).
Definition sigma1 (x : Z) : Z := Z.lxor (rotr 17 x) (Z.lxor (rotr 19 x) (Z.shiftr x 10)).

(** The constants are fractional parts of roots of the first primes (FIPS 180-4
    sections 4.2.2 and 5.3.3), computed here rather than listed. *)
Definition first_primes : list Z :=
  Eval vm_compute in
    List.filter (fun p => forallb (fun d => negb (p mod d =? 0)) (map Z.of_nat (seq 2 (Z.to_nat p - 2))))
      (map Z.of_nat (seq 2 310)).

(** Integer cube root of [n] below [2^(bits)], bit by bit. *)
Fixpoint cube_root (bits : nat) (acc n : Z) : Z :=
  match bits with
  | O => acc
  | S bits =>
      let t := Z.lor acc (Z.shiftl 1 (Z.of_nat bits)) in
      cube_root bits (if t * t * t <=? n then t else acc) n
  end.

Definition round_constants : list Z :=
  Eval vm_compute in map (fun p => Z.land (cube_root 40 0 (Z.shiftl p 96)) mask32) first_primes.

Record hstate := HState { ha : Z; hb : Z; hc : Z; hd : Z; he : Z; hf : Z; hg : Z; hh : Z }.

Definition prime_root (i : nat) : Z :=
  Z.land (Z.sqrt (Z.shiftl (nth i first_primes 0) 64)) mask32.

Definition initial_hash : hstate :=
  Eval vm_compute in
    HState (prime_root 0) (prime_root 1) (prime_root 2) (prime_root 3)
           (prime_root 4) (prime_root 5) (prime_root 6) (prime_root 7).

Definition round (s : hstate) (kw : Z * Z) : hstate :=
  let t1 := add32 (add32 (add32 (hh s) (Sigma1 (he s))) (add32 (Ch (he s) (hf s) (hg s)) (fst kw))) (snd kw) in
  let t2 := add32 (Sigma0 (ha s)) (Maj (ha s) (hb s) (hc s)) in
  HState (add32 t1 t2) (ha s) (hb s) (hc s) (add32 (hd s) t1) (he s) (hf s) (hg s).

(** The message schedule, newest word first. *)
Fixpoint schedule (n : nat) (w : list Z) : list Z :=
  match n with
  | O => w
  | S n' =>
      let t := add32 (add32 (sigma1 (nth 1 w 0)) (nth 6 w 0))
                     (add32 (sigma0 (nth 14 w 0)) (nth 15 w 0)) in
      schedule n' (t :: w)
  end.

Definition add_state (s t : hstate) : hstate :=
  HState (add32 (ha s) (ha t)) (add32 (hb s) (hb t)) (add32 (hc s) (hc t)) (add32 (hd s) (hd t))
         (add32 (he s) (he t)) (add32 (hf s) (hf t)) (add32 (hg s) (hg t)) (add32 (hh s) (hh t)).

Definition compress (s : hstate) (block : list Z) : hstate :=
  let w := rev (schedule 48 (rev block)) in
  add_state s (fold_left round (combine round_constants w) s).

Definition word_of_bytes (a b c d : Z) : Z := ((a * 256 + b) * 256 + c) * 256 + d.

Fixpoint words (l : list Z) : list Z :=
  match l with
  | a :: b :: c :: d :: l' => word_of_bytes a b c d :: words l'
  | _ => []
  end.

Fixpoint blocks (n : nat) (w : list Z) (s : hstate) : hstate :=
  match n with
  | O => s
  | S n' => blocks n' (skipn 16 w) (compress s (firstn 16 w))
  end.

Definition be_bytes (k : nat) (z : Z) : list Z :=
  map (fun i => Z.land (Z.shiftr z (8 * Z.of_nat i)) 255) (rev (seq 0 k)).

Definition padding (n : Z) : list Z :=
  128 :: repeat 0 (Z.to_nat ((55 - n) mod 64)) ++ be_bytes 8 (8 * n).

Definition state_bytes (s : hstate) : list Z :=
  flat_map (be_bytes 4) [ha s; hb s; hc s; hd s; he s; hf s; hg s; hh s].

(** [sha256.Sum256(data)] *)
Definition sha256 (data : list byte) : list byte :=
  let msg := map byte_Z data ++ padding (Z.of_nat (length data)) in
  map Z_byte (state_bytes (blocks (length msg / 64) (words msg) initial_hash)).

Lemma sha256_length (data : list byte) : length (sha256 data) = 32%nat.
Proof. reflexivity. Qed.

#[global] Opaque sha256.
#[export] Hint Rewrite sha256_length : ati.

(** The FIPS test vectors. *)
Example sha256_empty :
  hex_EncodeToString (sha256 []) =
  "e3b0c44298fc1c149afbf4c8996fb92427ae41e4649b934ca495991b7852b855"%string.
Proof. vm_compute. reflexivity. Qed.

Example sha256_abc :
  hex_EncodeToString (sha256 (bytes_of_string "abc")) =
  "ba7816bf8f01cfea414140de5dae2223b00361a396177a9cb410ff61f20015ad"%string.
Proof. vm_compute. reflexivity. Qed.

Example sha256_two_blocks :
  hex_EncodeToString
    (sha256 (bytes_of_string "abcdbcdecdefdefgefghfghighijhijkijkljklmklmnlmnomnopnopq")) =
  "248d6a61d20638b8e5c026930c3e6039a33ce45964ff2167f6ecedd419db06c1"%string.
Proof. vm_compute. reflexivity. Qed.
