(* ===== verification/Errors.v ===== *)
(** The error values of the SDK: [verify/errors.go], [verify/error_codes.go]
    and [verify/scitt/errors.go], with [errors.As]/[errors.Is] over wrapped
    chains. Message texts are carried where the code stores them as data;
    formatted texts are represented by their format. *)

From S2P Require Import Prelude GoStrings.

#[local] Open Scope string_scope.
#[local] Open Scope Z_scope.

Inductive DNSErrorType := DNSErrorNotFound | DNSErrorLookupFailed | DNSErrorTimeout.

Inductive TlogErrorType :=
  TlogErrorNotFound | TlogErrorServiceUnavailable | TlogErrorInvalidResponse.

Inductive DANEErrorType := DANEErrorDNSSECFailed | DANEErrorLookupFailed.

Inductive VerificationErrorType :=
| VerificationErrorInvalidStatus
| VerificationErrorFingerprintMismatch
| VerificationErrorHostnameMismatch
| VerificationErrorATINameMismatch
| VerificationErrorNoCN
| VerificationErrorNoURISAN.

Inductive CoseErrorType :=
| CoseErrOversizedInput
| CoseErrNotACoseSign1
| CoseErrCborDecode
| CoseErrInvalidArrayLength
| CoseErrInvalidSignatureLength
| CoseErrInvalidProtectedHeader
| CoseErrInvalidUnprotectedHeader
| CoseErrUnsupportedAlgorithm
| CoseErrMissingKid.

Inductive SignatureErrorType :=
| SigErrSignatureInvalid
| SigErrUnknownKeyID
| SigErrIssuerMismatch
| SigErrInvalidKeyFormat
| SigErrKeyHashMismatch
| SigErrInvalidPublicKey
| SigErrUntrustedKeyDomain.

Inductive MerkleErrorType := MerkleErrInvalidProof | MerkleErrRootMismatch.

Inductive TokenErrorType :=
| TokenErrExpired
| TokenErrMissingField
| TokenErrPayloadInvalid
| TokenErrTerminalStatus
| TokenErrPayloadEmpty.

Inductive TransportErrorType :=
| TransportErrNotFound
| TransportErrAgentTerminal
| TransportErrNotSupported
| TransportErrHTTPError
| TransportErrBase64Decode.

Inductive Severity := SeverityHard | SeveritySoft.

Inductive Stage := StageDNSDiscovery | StageMTLS | StageTLVerify | StageAgentCard | StageSession.

(** The values of the [error] interface the code creates or inspects.
    [EPlain] is [errors.New] or a [fmt.Errorf] without [%w]; [EWrap] is a
    [fmt.Errorf] with [%w]; [ENet] is [net.DNSError]. *)
Inductive goerror :=
| EPlain (msg : string)
| EWrap (msg : string) (cause : goerror)
| ERecordNotFound
| EANS (Code : string) (Sev : Severity) (Stg : Stage) (Message : string)
    (AnchorEvidence : list (string * string)) (Cause : option goerror)
| EDNS (Type_ : DNSErrorType) (Fqdn_ Reason : string)
| ETlog (Type_ : TlogErrorType) (URL Reason : string) (HTTPCode : Z)
| EDANE (Type_ : DANEErrorType) (Fqdn_ Reason : string)
| EVerification (Type_ : VerificationErrorType) (Expected Actual : string)
| ECose (Type_ : CoseErrorType) (Cause : option goerror)
| ESignature (Type_ : SignatureErrorType) (Kid : list byte)
| EMerkle (Type_ : MerkleErrorType)
| EToken (Type_ : TokenErrorType) (Message : string)
| ETransport (Type_ : TransportErrorType) (StatusCode : Z) (Cause : option goerror)
| ENet (IsNotFound IsTimeout : bool).

Definition CodeDNSCoreRecordMissing : string := "ANS-1001".
Definition CodeDNSSECBogus : string := "ANS-1002".
Definition CodeDNSSECInsecure : string := "ANS-1003".
Definition CodeCertChainInvalid : string := "ANS-2001".
Definition CodeCertExpired : string := "ANS-2002".
Definition CodeDANEFingerprintMismatch : string := "ANS-2003".
Definition CodeSANURIMismatch : string := "ANS-2004".
Definition CodeSANURIMissing : string := "ANS-2005".
Definition CodeTLReceiptSigInvalid : string := "ANS-3001".
Definition CodeTLInclusionProofFailed : string := "ANS-3002".
Definition CodeProducerSigInvalid : string := "ANS-3003".
Definition CodeTLFingerprintMismatch : string := "ANS-3004".
Definition CodeStatusRevoked : string := "ANS-3005".
Definition CodeStatusExpired : string := "ANS-3006".
Definition CodeStatusWarning : string := "ANS-3007".
Definition CodeTLUnreachable : string := "ANS-3008".
Definition CodeAgentCardFetchFailed : string := "ANS-4001".
Definition CodeCapHashMismatch : string := "ANS-4002".
Definition CodeAgentCardSigInvalid : string := "ANS-4003".
Definition CodeSchemaHashMismatch : string := "ANS-4004".
Definition CodeVerifiableClaimInvalid : string := "ANS-4005".
Definition CodeRevokedDuringSession : string := "ANS-5001".
Definition CodeStaplingExpired : string := "ANS-5002".

(** [NewANSError(code, severity, stage, msg)] with no option, and with
    [WithCause]. *)
Definition NewANSError (code : string) (sev : Severity) (stage : Stage) (msg : string) : goerror :=
  EANS code sev stage msg [] None.

Definition NewANSErrorWithCause (code : string) (sev : Severity) (stage : Stage) (msg : string)
    (cause : goerror) : goerror :=
  EANS code sev stage msg [] (Some cause).

(** With [WithEvidence] of a map of strings, here in the order of the text. *)
Definition NewANSErrorWithEvidence (code : string) (sev : Severity) (stage : Stage) (msg : string)
    (evidence : list (string * string)) : goerror :=
  EANS code sev stage msg evidence None.

(** [IsHard]: defined on [ANSError] only. *)
Definition IsHard (e : goerror) : bool :=
  match e with EANS _ SeverityHard _ _ _ _ => true | _ => false end.

(** [Unwrap] of every error type. *)
Definition Unwrap (e : goerror) : option goerror :=
  match e with
  | EWrap _ c => Some c
  | EANS _ _ _ _ _ c => c
  | ECose _ c => c
  | ETransport _ _ c => c
  | _ => None
  end.

(** [errors.As]: the first error of the chain accepted by [sel]. *)
Fixpoint errors_As {A : Type} (sel : goerror -> option A) (e : goerror) : option A :=
  match sel e with
  | Some a => Some a
  | None =>
      match e with
      | EWrap _ c => errors_As sel c
      | EANS _ _ _ _ _ (Some c) => errors_As sel c
      | ECose _ (Some c) => errors_As sel c
      | ETransport _ _ (Some c) => errors_As sel c
      | _ => None
      end
  end.

Definition as_DNSError (e : goerror) : option DNSErrorType :=
  match e with EDNS t _ _ => Some t | _ => None end.
Definition as_DANEError (e : goerror) : option DANEErrorType :=
  match e with EDANE t _ _ => Some t | _ => None end.
Definition as_TransportError (e : goerror) : option TransportErrorType :=
  match e with ETransport t _ _ => Some t | _ => None end.
Definition as_NetDNSError (e : goerror) : option (bool * bool) :=
  match e with ENet nf to => Some (nf, to) | _ => None end.

(** [errors.Is(err, ErrRecordNotFound)]. *)
Definition Is_ErrRecordNotFound (e : goerror) : bool :=
  match errors_As (fun e => match e with ERecordNotFound => Some tt | _ => None end) e with
  | Some _ => true
  | None => false
  end.

(** [TransportError.ShouldFallbackToBadge]. *)
Definition ShouldFallbackToBadge (t : TransportErrorType) : bool :=
  match t with
  | TransportErrNotFound | TransportErrNotSupported | TransportErrHTTPError => true
  | _ => false
  end.
