(* ===== verification/Json.v ===== *)
(** Go's [encoding/json] as far as the SDK uses it: decoding of a value with
    [UseNumber] (a byte-by-byte scanner with an explicit stack, as
    [encoding/json/scanner.go] has it), raw members, and the encoding of strings,
    with the round trip of compact texts. *)

From S2P Require Import Prelude GoStrings Utf8 Encoding Errors.

#[local] Open Scope string_scope.
#[local] Open Scope Z_scope.

(** ** Values *)

(** A decoded document. The members of an object are kept as the text has them,
    duplicates included; numbers keep their literal ([json.Number]). *)
#[local] Unset Elimination Schemes.
Inductive json :=
| JNull
| JBool (b : bool)
| JNumber (lit : string)
| JString (s : string)
| JArray (elems : list json)
| JObject (members : list (string * json)).
#[local] Set Elimination Schemes.

Section JsonInd.
Variable P : json -> Prop.
Hypothesis Pnull : P JNull.
Hypothesis Pbool : forall b, P (JBool b).
Hypothesis Pnumber : forall n, P (JNumber n).
Hypothesis Pstring : forall s, P (JString s).
Hypothesis Parray : forall l, Forall P l -> P (JArray l).
Hypothesis Pobject : forall ms, Forall (fun m => P (snd m)) ms -> P (JObject ms).

Fixpoint json_ind (j : json) : P j :=
  match j with
  | JNull => Pnull
  | JBool b => Pbool b
  | JNumber n => Pnumber n
  | JString s => Pstring s
  | JArray l => Parray l
      ((fix go (l : list json) : Forall P l :=
          match l with
          | [] => List.Forall_nil _
          | x :: l' => List.Forall_cons _ _ _ (json_ind x) (go l')
          end) l)
  | JObject ms => Pobject ms
      ((fix go (ms : list (string * json)) : Forall (fun m => P (snd m)) ms :=
          match ms with
          | [] => List.Forall_nil _
          | m :: ms' => List.Forall_cons _ _ _ (json_ind (snd m)) (go ms')
          end) ms)
  end.
End JsonInd.

(** ** String literals *)

Definition backslash : ascii := chr 92.

Definition is_surrogate (r : Z) : bool := (55296 <=? r) && (r <? 57344).

(** [utf16.DecodeRune] *)
Definition utf16_DecodeRune (r1 r2 : Z) : option Z :=
  if (55296 <=? r1) && (r1 <? 56320) && (56320 <=? r2) && (r2 <? 57344)
  then Some ((r1 - 55296) * 1024 + (r2 - 56320) + 65536) else None.

(** One escape sequence after its backslash: the rune it denotes. *)
Definition simple_escape (r : Z) : option Z :=
  if (r =? 34) || (r =? 92) || (r =? 47) then Some r
  else if r =? 98 then Some 8 else if r =? 102 then Some 12 else if r =? 110 then Some 10
  else if r =? 114 then Some 13 else if r =? 116 then Some 9 else None.

(** Hexadecimal digits are ASCII; a rune above is none. *)
Definition hex_rune (r : Z) : option Z := if r <? 128 then from_hex_char (chr r) else None.

(** [getu4] *)
Definition hex4_of (a b c d : Z) : option Z :=
  match hex_rune a, hex_rune b, hex_rune c, hex_rune d with
  | Some a', Some b', Some c', Some d' => Some (a' * 4096 + b' * 256 + c' * 16 + d')
  | _, _, _, _ => None
  end.

(** [unquoteBytes] on the runes between the quotes; [None] is [ok = false]. *)
Fixpoint unquote_runes (l : list Z) : option (list Z) :=
  match l with
  | [] => Some []
  | r :: l' =>
      if r =? 92 then
        match l' with
        | [] => None
        | e :: l1 =>
            if e =? 117 then
              match l1 with
              | a :: b :: c :: d :: l2 =>
                  match hex4_of a b c d with
                  | None => None
                  | Some u =>
                      if is_surrogate u then
                        match l2 with
                        | 92 :: 117 :: a' :: b' :: c' :: d' :: l3 =>
                            match hex4_of a' b' c' d' with
                            | Some u' =>
                                match utf16_DecodeRune u u' with
                                | Some x => option_map (cons x) (unquote_runes l3)
                                | None => option_map (cons RuneError) (unquote_runes l2)
                                end
                            | None => option_map (cons RuneError) (unquote_runes l2)
                            end
                        | _ => option_map (cons RuneError) (unquote_runes l2)
                        end
                      else option_map (cons u) (unquote_runes l2)
                  end
              | _ => None
              end
            else
              match simple_escape e with
              | Some x => option_map (cons x) (unquote_runes l1)
              | None => None
              end
        end
      else if (r =? 34) || (r <? 32) then None
      else option_map (cons r) (unquote_runes l')
  end.

Definition unquote (raw : string) : option string :=
  option_map encode_runes (unquote_runes (range_runes raw)).

(** [htmlSafeSet]: the ASCII characters [json.Marshal] writes as they are. *)
Definition htmlSafe (r : Z) : bool :=
  (32 <=? r) && (r <? 128) &&
  negb ((r =? 34) || (r =? 38) || (r =? 60) || (r =? 62) || (r =? 92)).

(** [appendString] with [escapeHTML], one rune; an invalid byte is written as
    an escaped U+FFFD. *)
Definition escape_rune (o : option Z) : string :=
  match o with
  | None => String backslash "ufffd"
  | Some r =>
      if r <? 128 then
        if htmlSafe r then bytes_str [r]
        else if (r =? 92) || (r =? 34) then String backslash (bytes_str [r])
        else if r =? 8 then String backslash "b"
        else if r =? 12 then String backslash "f"
        else if r =? 10 then String backslash "n"
        else if r =? 13 then String backslash "r"
        else if r =? 9 then String backslash "t"
        else String backslash ("u00" ++ String (hex_digit (r / 16)) (String (hex_digit (r mod 16)) ""))
      else if (r =? 8232) || (r =? 8233)
      then String backslash ("u202" ++ String (hex_digit (r mod 16)) "")
      else encode_scalar r
  end.

Fixpoint escape_runes (l : list (option Z)) : string :=
  match l with
  | [] => ""
  | o :: l' => escape_rune o ++ escape_runes l'
  end.

(** [json.Marshal] of a string. *)
Definition quote (s : string) : string :=
  String quote_char (escape_runes (runes s) ++ String quote_char "").

(** ** The scanner *)

Definition isSpace (c : ascii) : bool :=
  let x := code c in (x =? 32) || (x =? 9) || (x =? 13) || (x =? 10).

(** The states of a number literal ([stateNeg], [state0], [state1], ...). *)
Inductive numState := NNeg | N0 | N1 | NDot | NDot0 | NE | NESign | NE0.

Definition numStep (st : numState) (c : ascii) : option numState :=
  let dig := is_digit c in
  let is_e := Ascii.eqb c "e" || Ascii.eqb c "E" in
  match st with
  | NNeg => if Ascii.eqb c "0" then Some N0 else if dig then Some N1 else None
  | N0 => if Ascii.eqb c "." then Some NDot else if is_e then Some NE else None
  | N1 => if dig then Some N1 else if Ascii.eqb c "." then Some NDot else if is_e then Some NE else None
  | NDot => if dig then Some NDot0 else None
  | NDot0 => if dig then Some NDot0 else if is_e then Some NE else None
  | NE => if Ascii.eqb c "+" || Ascii.eqb c "-" then Some NESign else if dig then Some NE0 else None
  | NESign | NE0 => if dig then Some NE0 else None
  end.

Definition numAccepting (st : numState) : bool :=
  match st with N0 | N1 | NDot0 | NE0 => true | _ => false end.

Definition numStart (c : ascii) : option numState :=
  if Ascii.eqb c "-" then Some NNeg else if Ascii.eqb c "0" then Some N0
  else if is_digit c then Some N1 else None.

Inductive frame :=
| FArray (elems : list json)
| FObject (members : list (string * json)) (key : string).

(** Where a string literal goes: a value, or a key of the object read so far. *)
Inductive dest := ToValue | ToKey (members : list (string * json)).

Inductive phase :=
| BeginValue
| BeginValueOrEmpty
| BeginStringOrEmpty
| BeginString (members : list (string * json))
| AfterKey (members : list (string * json)) (key : string)
| EndValue (v : json)
| InString (d : dest) (raw : string)
| InStringEsc (d : dest) (raw : string)
| InStringEscU (d : dest) (n : nat) (raw : string)
| InLiteral (todo : string) (v : json)
| InNumber (st : numState) (lit : string).

(** What one byte does: go on, stop because the value has ended before it, or
    a syntax error. *)
Inductive scanned := Continue (p : phase) (stack : list frame) | EndTop (v : json) | ScanError.

Definition snoc (s : string) (c : ascii) : string := s ++ String c "".

Definition endString (d : dest) (raw : string) (stack : list frame) : scanned :=
  match unquote raw with
  | None => ScanError
  | Some s =>
      match d with
      | ToValue => Continue (EndValue (JString s)) stack
      | ToKey ms => Continue (AfterKey ms s) stack
      end
  end.

Section Scanner.
(** How deep values may nest. *)
Variable limit : Z.

(** [stateBeginValue] *)
Definition beginValue (c : ascii) (stack : list frame) : scanned :=
  if isSpace c then Continue BeginValue stack
  else if Ascii.eqb c "{" then
    if Z.of_nat (length stack) <? limit then Continue BeginStringOrEmpty stack else ScanError
  else if Ascii.eqb c "[" then
    if Z.of_nat (length stack) <? limit then Continue BeginValueOrEmpty stack else ScanError
  else if Ascii.eqb c quote_char then Continue (InString ToValue "") stack
  else if Ascii.eqb c "t" then Continue (InLiteral "rue" (JBool true)) stack
  else if Ascii.eqb c "f" then Continue (InLiteral "alse" (JBool false)) stack
  else if Ascii.eqb c "n" then Continue (InLiteral "ull" JNull) stack
  else match numStart c with
       | Some st => Continue (InNumber st (String c "")) stack
       | None => ScanError
       end.

(** [stateBeginString] *)
Definition beginString (ms : list (string * json)) (again : phase) (c : ascii) (stack : list frame) : scanned :=
  if isSpace c then Continue again stack
  else if Ascii.eqb c quote_char then Continue (InString (ToKey ms) "") stack
  else ScanError.

(** [stateEndValue]: the value [v] has ended, [c] follows. *)
Definition endValue (v : json) (c : ascii) (stack : list frame) : scanned :=
  match stack with
  | [] => EndTop v
  | FArray xs :: st =>
      if isSpace c then Continue (EndValue v) stack
      else if Ascii.eqb c "," then Continue BeginValue (FArray (xs ++ [v]) :: st)
      else if Ascii.eqb c "]" then Continue (EndValue (JArray (xs ++ [v]))) st
      else ScanError
  | FObject ms k :: st =>
      if isSpace c then Continue (EndValue v) stack
      else if Ascii.eqb c "," then Continue (BeginString (ms ++ [(k, v)])) st
      else if Ascii.eqb c "}" then Continue (EndValue (JObject (ms ++ [(k, v)]))) st
      else ScanError
  end%list.

Definition step (p : phase) (stack : list frame) (c : ascii) : scanned :=
  match p with
  | BeginValue => beginValue c stack
  | BeginValueOrEmpty =>
      if isSpace c then Continue BeginValueOrEmpty stack
      else if Ascii.eqb c "]" then Continue (EndValue (JArray [])) stack
      else beginValue c (FArray [] :: stack)
  | BeginStringOrEmpty =>
      if isSpace c then Continue BeginStringOrEmpty stack
      else if Ascii.eqb c "}" then Continue (EndValue (JObject [])) stack
      else beginString [] BeginStringOrEmpty c stack
  | BeginString ms => beginString ms (BeginString ms) c stack
  | AfterKey ms k =>
      if isSpace c then Continue (AfterKey ms k) stack
      else if Ascii.eqb c ":" then Continue BeginValue (FObject ms k :: stack)
      else ScanError
  | EndValue v => endValue v c stack
  | InString d raw =>
      if Ascii.eqb c quote_char then endString d raw stack
      else if Ascii.eqb c backslash then Continue (InStringEsc d (snoc raw c)) stack
      else if code c <? 32 then ScanError
      else Continue (InString d (snoc raw c)) stack
  | InStringEsc d raw =>
      match simple_escape (code c) with
      | Some _ => Continue (InString d (snoc raw c)) stack
      | None => if Ascii.eqb c "u" then Continue (InStringEscU d 3 (snoc raw c)) stack else ScanError
      end
  | InStringEscU d n raw =>
      match from_hex_char c with
      | None => ScanError
      | Some _ =>
          match n with
          | O => Continue (InString d (snoc raw c)) stack
          | S k => Continue (InStringEscU d k (snoc raw c)) stack
          end
      end
  | InLiteral todo v =>
      match todo with
      | String x rest =>
          if Ascii.eqb c x
          then Continue (match rest with "" => EndValue v | _ => InLiteral rest v end) stack
          else ScanError
      | "" => ScanError
      end
  | InNumber st lit =>
      match numStep st c with
      | Some st' => Continue (InNumber st' (snoc lit c)) stack
      | None => if numAccepting st then endValue (JNumber lit) c stack else ScanError
      end
  end.

Definition EUnexpectedEOF : goerror := EPlain "unexpected EOF".
Definition ESyntax : goerror := EPlain "invalid character".

(** The end of the input, where the decoder tries a space. *)
Definition at_eof (p : phase) (stack : list frame) : result goerror (json * string) :=
  match stack, p with
  | [], EndValue v => Ok (v, "")
  | [], InNumber st lit => if numAccepting st then Ok (JNumber lit, "") else Err EUnexpectedEOF
  | _, _ => Err EUnexpectedEOF
  end.

(** The first value of the input, with what follows it. *)
Fixpoint scan (p : phase) (stack : list frame) (s : string) : result goerror (json * string) :=
  match s with
  | "" => at_eof p stack
  | String c s' =>
      match step p stack c with
      | Continue p' stack' => scan p' stack' s'
      | EndTop v => Ok (v, s)
      | ScanError => Err ESyntax
      end
  end.

End Scanner.

(** [maxNestingDepth] *)
Definition maxNestingDepth : Z := 10000.

Fixpoint all_space (s : string) : bool :=
  match s with "" => true | String c s' => isSpace c && all_space s' end.

(** [Decoder.Decode] into [any] with [UseNumber]: reads the first value only. *)
Definition Decode (data : string) : result goerror json :=
  if all_space data then Err (EPlain "EOF")
  else let? vr := scan maxNestingDepth BeginValue [] data in Ok (fst vr).

(** [json.Unmarshal] into a generic value: nothing but space may follow. *)
Definition Unmarshal (data : string) : result goerror json :=
  let? vr := scan maxNestingDepth BeginValue [] data in
  guard! all_space (snd vr) orelse ESyntax in
  Ok (fst vr).

(** ** Compact texts *)

Fixpoint print (j : json) : string :=
  match j with
  | JNull => "null"
  | JBool b => if b then "true" else "false"
  | JNumber lit => lit
  | JString s => quote s
  | JArray l => "[" ++ Join (map print l) "," ++ "]"
  | JObject ms => "{" ++ Join (map (fun m => quote (fst m) ++ ":" ++ print (snd m)) ms) "," ++ "}"
  end.

(** The literals of the number grammar. *)
Fixpoint num_run (st : numState) (s : string) : option numState :=
  match s with
  | "" => Some st
  | String c s' => match numStep st c with Some st' => num_run st' s' | None => None end
  end.

Definition valid_number (lit : string) : bool :=
  match lit with
  | "" => false
  | String c t =>
      match numStart c with
      | Some st => match num_run st t with Some st' => numAccepting st' | None => false end
      | None => false
      end
  end.

Definition is_utf8 (s : string) : bool := String.eqb (encode_runes (range_runes s)) s.

(** The values a decoder produces: strings are valid UTF-8, number literals
    follow the grammar. *)
Fixpoint json_wf (j : json) : bool :=
  match j with
  | JNull | JBool _ => true
  | JNumber lit => valid_number lit
  | JString s => is_utf8 s
  | JArray l => forallb json_wf l
  | JObject ms => forallb (fun m => is_utf8 (fst m) && json_wf (snd m)) ms
  end.

Fixpoint depth (j : json) : Z :=
  match j with
  | JArray l => 1 + fold_right Z.max 0 (map depth l)
  | JObject ms => 1 + fold_right Z.max 0 (map (fun m => depth (snd m)) ms)
  | _ => 0
  end.

Lemma is_utf8_encode (l : list Z) : forallb is_scalar l = true -> is_utf8 (encode_runes l) = true.
Proof.
  intros E. unfold is_utf8. apply String.eqb_eq.
  rewrite <- (str_app_nil_r (encode_runes l)) at 1. rewrite range_runes_encode by exact E.
  cbn. rewrite app_nil_r. reflexivity.
Qed.

Lemma is_utf8_elim (s : string) :
  is_utf8 s = true -> exists l, forallb is_scalar l = true /\ s = encode_runes l.
Proof.
  intros E. apply String.eqb_eq in E. exists (range_runes s).
  split; [apply range_runes_scalar | auto].
Qed.

(** *** Strings: [unquote] inverts the escaping *)

Definition hex_code (d : Z) : Z := code (hex_digit d).

Definition escape_list (r : Z) : list Z :=
  if r <? 128 then
    if htmlSafe r then [r]
    else if (r =? 92) || (r =? 34) then [92; r]
    else if r =? 8 then [92; 98] else if r =? 12 then [92; 102] else if r =? 10 then [92; 110]
    else if r =? 13 then [92; 114] else if r =? 9 then [92; 116]
    else [92; 117; 48; 48; hex_code (r / 16); hex_code (r mod 16)]
  else if (r =? 8232) || (r =? 8233) then [92; 117; 50; 48; 50; hex_code (r mod 16)]
  else [r].

Definition ascii_runes : list Z := map Z.of_nat (seq 0 128).

Lemma in_ascii_runes (r : Z) : 0 <= r < 128 -> In r ascii_runes.
Proof.
  intros H. apply in_map_iff. exists (Z.to_nat r). split; [lia|]. apply in_seq. lia.
Qed.

Lemma ascii_forall (p : Z -> bool) (r : Z) :
  forallb p ascii_runes = true -> 0 <= r < 128 -> p r = true.
Proof. intros E H. rewrite forallb_forall in E. apply E, in_ascii_runes, H. Qed.

Lemma escape_list_encode (r : Z) :
  is_scalar r = true ->
  escape_rune (Some r) = encode_runes (escape_list r) /\ forallb is_scalar (escape_list r) = true.
Proof.
  intros Hr. destruct (Z.ltb_spec r 128) as [Hlt|Hge].
  - apply is_scalar_spec in Hr.
    assert (G : String.eqb (escape_rune (Some r)) (encode_runes (escape_list r)) &&
                forallb is_scalar (escape_list r) = true).
    { apply (ascii_forall (fun r => String.eqb (escape_rune (Some r)) (encode_runes (escape_list r)) &&
                forallb is_scalar (escape_list r))); [vm_compute; reflexivity | lia]. }
    bool_hyps. auto.
  - unfold escape_rune, escape_list. rewrite (proj2 (Z.ltb_ge r 128)) by lia.
    destruct ((r =? 8232) || (r =? 8233)) eqn:E.
    + apply orb_true_iff in E as [E|E]; apply Z.eqb_eq in E; subst; vm_compute; auto.
    + cbn [encode_runes forallb]. rewrite str_app_nil_r, Hr. auto.
Qed.

Lemma unquote_escape (r : Z) (l : list Z) :
  is_scalar r = true ->
  unquote_runes (escape_list r ++ l)%list = option_map (cons r) (unquote_runes l).
Proof.
  intros Hr. destruct (Z.ltb_spec r 128) as [Hlt|Hge].
  - apply is_scalar_spec in Hr.
    assert (Hin : In r ascii_runes) by (apply in_ascii_runes; lia).
    clear -Hin. revert r Hin. apply List.Forall_forall.
    repeat (apply List.Forall_cons; [reflexivity|]). constructor.
  - unfold escape_list. rewrite (proj2 (Z.ltb_ge r 128)) by lia.
    destruct ((r =? 8232) || (r =? 8233)) eqn:E.
    + apply orb_true_iff in E as [E|E]; apply Z.eqb_eq in E; subst; reflexivity.
    + cbn. rewrite (proj2 (Z.eqb_neq r 92)), (proj2 (Z.eqb_neq r 34)), (proj2 (Z.ltb_ge r 32)) by lia.
      reflexivity.
Qed.

Lemma unquote_escape_runes (l : list Z) :
  forallb is_scalar l = true ->
  unquote (escape_runes (map Some l)) = Some (encode_runes l).
Proof.
  intros E. unfold unquote.
  assert (G : exists t, escape_runes (map Some l) = encode_runes t /\ forallb is_scalar t = true /\
              unquote_runes t = Some l).
  { induction l as [|r l IH]; [exists []; auto|]. cbn [forallb] in E. bool_hyps.
    destruct (IH ltac:(assumption)) as (t & E1 & E2 & E3).
    destruct (escape_list_encode r ltac:(assumption)) as [F1 F2].
    exists (escape_list r ++ t)%list. cbn [map escape_runes]. rewrite F1, E1, encode_runes_app.
    rewrite forallb_app, F2, E2, unquote_escape, E3 by assumption. auto. }
  destruct G as (t & -> & Ht & Hu).
  rewrite <- (str_app_nil_r (encode_runes t)), range_runes_encode by exact Ht.
  cbn [range_runes runes runes_from map]. rewrite app_nil_r. rewrite Hu. reflexivity.
Qed.

Lemma from_hex_char_range (c : ascii) (v : Z) : from_hex_char c = Some v -> 0 <= v < 16.
Proof.
  intros E.
  assert (G : match from_hex_char c with Some v => (0 <=? v) && (v <? 16) | None => true end = true)
    by by_chars (fun c => match from_hex_char c with Some v => (0 <=? v) && (v <? 16) | None => true end) c.
  rewrite E in G. bool_hyps. lia.
Qed.

Lemma hex_rune_range (r v : Z) : hex_rune r = Some v -> 0 <= v < 16.
Proof. unfold hex_rune. case_match; [apply from_hex_char_range | discriminate]. Qed.

Lemma hex4_of_range (a b c d u : Z) : hex4_of a b c d = Some u -> 0 <= u < 65536.
Proof.
  unfold hex4_of. intros E.
  destruct (hex_rune a) eqn:E1; [|discriminate]. destruct (hex_rune b) eqn:E2; [|discriminate].
  destruct (hex_rune c) eqn:E3; [|discriminate]. destruct (hex_rune d) eqn:E4; [|discriminate].
  apply hex_rune_range in E1, E2, E3, E4. injection E as <-. lia.
Qed.

Lemma DecodeRune_scalar (a b x : Z) : utf16_DecodeRune a b = Some x -> is_scalar x = true.
Proof.
  unfold utf16_DecodeRune. intros E. case_match_in E; bool_hyps; injection E as <-.
  apply is_scalar_spec. lia.
Qed.

Lemma simple_escape_scalar (e x : Z) : simple_escape e = Some x -> is_scalar x = true.
Proof.
  unfold simple_escape. intros E. apply is_scalar_spec.
  destruct ((e =? 34) || (e =? 92) || (e =? 47)) eqn:K.
  - injection E as <-. rewrite !orb_true_iff, !Z.eqb_eq in K. lia.
  - repeat (case_match_in E; bool_hyps); injection E as <-; lia.
Qed.

Lemma option_map_cons_scalar (r : Z) (o : option (list Z)) (l : list Z) :
  is_scalar r = true -> (forall l', o = Some l' -> forallb is_scalar l' = true) ->
  option_map (cons r) o = Some l -> forallb is_scalar l = true.
Proof.
  intros Hr Ho E. destruct o as [l'|]; [|discriminate]. injection E as <-.
  cbn [forallb]. rewrite Hr, (Ho l' eq_refl). reflexivity.
Qed.

#[local] Hint Resolve option_map_cons_scalar DecodeRune_scalar simple_escape_scalar : json.

Lemma unquote_runes_scalar (n : nat) (l l' : list Z) :
  (length l <= n)%nat ->
  forallb is_scalar l = true -> unquote_runes l = Some l' -> forallb is_scalar l' = true.
Proof.
  revert l l'. induction n as [|n IH]; intros [|r l] l' Hn Hl E; try (injection E as <-; reflexivity).
  { cbn in Hn. lia. }
  cbn in Hn. cbn [forallb] in Hl. bool_hyps. cbn [unquote_runes] in E.
  assert (step : forall m k l'', (length m <= n)%nat -> forallb is_scalar m = true ->
    is_scalar k = true -> option_map (cons k) (unquote_runes m) = Some l'' ->
    forallb is_scalar l'' = true).
  { intros m k l'' Hm Hs Hk. apply option_map_cons_scalar; [exact Hk|]. intros. eapply IH; eauto. }
  destruct (r =? 92) eqn:E1.
  2:{ destruct ((r =? 34) || (r <? 32)); [discriminate|]. eapply step; eauto. lia. }
  destruct l as [|e l1]; [discriminate|]. cbn [forallb length] in *. bool_hyps.
  destruct (e =? 117) eqn:E2.
  2:{ destruct (simple_escape e) eqn:E3; [|discriminate]. eapply step; [| |eapply simple_escape_scalar; eauto|eauto]; auto; lia. }
  destruct l1 as [|a [|b [|c [|d l2]]]]; try discriminate.
  cbn [forallb length] in *. bool_hyps.
  destruct (hex4_of a b c d) as [u|] eqn:E3; [|discriminate].
  destruct (is_surrogate u) eqn:E4.
  2:{ eapply step; [| | |exact E]; auto; [lia|]. apply hex4_of_range in E3. apply is_scalar_spec.
      unfold is_surrogate in E4. apply andb_false_iff in E4. rewrite Z.leb_gt, Z.ltb_ge in E4. lia. }
  assert (Hrep : option_map (cons RuneError) (unquote_runes l2) = Some l' -> forallb is_scalar l' = true).
  { apply step; auto; lia. }
  destruct l2 as [|x l2]; [auto|]. destruct (Z.eq_dec x 92) as [->|Hx].
  2:{ apply Hrep. rewrite <- E. destruct x; auto. repeat (destruct p; auto); congruence. }
  destruct l2 as [|y l2]; [auto|]. destruct (Z.eq_dec y 117) as [->|Hy].
  2:{ apply Hrep. rewrite <- E. destruct y; auto. repeat (destruct p; auto); congruence. }
  destruct l2 as [|a' [|b' [|c' [|d' l3]]]]; auto.
  destruct (hex4_of a' b' c' d') as [u'|]; [|auto].
  destruct (utf16_DecodeRune u u') eqn:E5; [|auto].
  cbn [forallb length] in *. bool_hyps.
  eapply step; [| |eapply DecodeRune_scalar; eauto|exact E]; auto; lia.
Qed.

Lemma unquote_utf8 (raw s : string) : unquote raw = Some s -> is_utf8 s = true.
Proof.
  unfold unquote. destruct (unquote_runes (range_runes raw)) eqn:E; [|discriminate].
  intros [= <-]. apply is_utf8_encode. eapply unquote_runes_scalar; [reflexivity| |exact E].
  apply range_runes_scalar.
Qed.

(** *** Scanning what [print] writes *)

Section Printing.
Variable limit : Z.
#[local] Notation beginValue := (beginValue limit).
#[local] Notation step := (step limit).
#[local] Notation scan := (scan limit).

Lemma snoc_app (a : string) (c : ascii) (t : string) : snoc a c ++ t = a ++ String c t.
Proof. unfold snoc. rewrite str_app_assoc. reflexivity. Qed.

(** A byte the string state copies. *)
Definition plain_byte (c : ascii) : bool :=
  negb (Ascii.eqb c quote_char) && negb (Ascii.eqb c backslash) && negb (code c <? 32).

Lemma scan_plain (t rest raw : string) (d : dest) (st : list frame) :
  str_forallb plain_byte t = true ->
  scan (InString d raw) st (t ++ rest) = scan (InString d (raw ++ t)) st rest.
Proof.
  revert raw. induction t as [|c t IH]; intros raw Ht; [rewrite str_app_nil_r; reflexivity|].
  cbn [str_forallb] in Ht. apply andb_true_iff in Ht as [Hc Ht]. unfold plain_byte in Hc.
  apply andb_true_iff in Hc as [[K1 K2]%andb_true_iff K3]. apply negb_true_iff in K1, K2, K3.
  cbn [String.append scan step]. rewrite K1, K2, K3. rewrite IH by assumption.
  rewrite snoc_app. reflexivity.
Qed.

Lemma scan_backslash (rest raw : string) (d : dest) (st : list frame) :
  scan (InString d raw) st (String backslash rest) = scan (InStringEsc d (snoc raw backslash)) st rest.
Proof. reflexivity. Qed.

Lemma plain_high (z : Z) : 128 <= z < 256 -> plain_byte (chr z) = true.
Proof.
  intros Hz. unfold plain_byte. rewrite code_chr by lia.
  rewrite (proj2 (Z.ltb_ge z 32)) by lia.
  destruct (Ascii.eqb (chr z) quote_char) eqn:E1.
  { apply Ascii.eqb_eq in E1. apply (f_equal code) in E1. rewrite code_chr in E1 by lia.
    change (code quote_char) with 34 in E1. lia. }
  destruct (Ascii.eqb (chr z) backslash) eqn:E2; [|reflexivity].
  apply Ascii.eqb_eq in E2. apply (f_equal code) in E2. rewrite code_chr in E2 by lia.
  change (code backslash) with 92 in E2. lia.
Qed.

#[local] Ltac Zify.zify_post_hook ::= Z.to_euclidean_division_equations.

Lemma plain_encode (r : Z) :
  128 <= r -> is_scalar r = true -> str_forallb plain_byte (encode_scalar r) = true.
Proof.
  intros Hge Hr. apply is_scalar_spec in Hr. unfold encode_scalar.
  rewrite (proj2 (Z.ltb_ge r 128)) by lia.
  repeat case_match; bool_hyps; cbn [bytes_str fold_right str_forallb];
    rewrite !plain_high by lia; reflexivity.
Qed.

Lemma scan_simple (c : ascii) (rest raw : string) (d : dest) (st : list frame) :
  simple_escape (code c) <> None ->
  scan (InString d raw) st (String backslash (String c rest)) =
  scan (InString d (raw ++ String backslash (String c ""))) st rest.
Proof.
  intros Hc. rewrite scan_backslash. cbn [scan step].
  destruct (simple_escape (code c)); [|congruence].
  rewrite <- !snoc_app, str_app_nil_r. reflexivity.
Qed.

Lemma step_hex (a : ascii) (n : nat) (raw : string) (d : dest) (st : list frame) :
  from_hex_char a <> None ->
  step (InStringEscU d n raw) st a =
  Continue (match n with O => InString d (snoc raw a) | S k => InStringEscU d k (snoc raw a) end) st.
Proof. cbn [step]. destruct (from_hex_char a); [destruct n; reflexivity | congruence]. Qed.

Lemma scan_u (a b c e : ascii) (rest raw : string) (d : dest) (st : list frame) :
  from_hex_char a <> None -> from_hex_char b <> None ->
  from_hex_char c <> None -> from_hex_char e <> None ->
  scan (InString d raw) st (String backslash (String "u" (String a (String b (String c (String e rest)))))) =
  scan (InString d (raw ++ String backslash (String "u" (String a (String b (String c (String e ""))))))) st rest.
Proof.
  intros Ka Kb Kc Ke. rewrite scan_backslash. cbn [scan].
  change (step (InStringEsc d (snoc raw backslash)) st "u")
    with (Continue (InStringEscU d 3 (snoc (snoc raw backslash) "u")) st).
  do 4 (cbv beta iota; rewrite step_hex by assumption).
  cbv beta iota. rewrite <- !snoc_app, str_app_nil_r. reflexivity.
Qed.

Lemma hex_digit_ok (d : Z) : 0 <= d < 16 -> from_hex_char (hex_digit d) <> None.
Proof. intros H. rewrite from_hex_digit by exact H. discriminate. Qed.

Lemma plain_ascii (r : Z) : 0 <= r -> htmlSafe r = true -> plain_byte (chr r) = true.
Proof.
  intros H0 Hs.
  assert (G : implb (htmlSafe r) (plain_byte (chr r)) = true).
  { apply (ascii_forall (fun r => implb (htmlSafe r) (plain_byte (chr r)))); [vm_compute; reflexivity|].
    unfold htmlSafe in Hs. bool_hyps. lia. }
  rewrite Hs in G. exact G.
Qed.

Lemma scan_escape (o : option Z) (rest raw : string) (d : dest) (st : list frame) :
  match o with Some r => is_scalar r = true | None => True end ->
  scan (InString d raw) st (escape_rune o ++ rest) =
  scan (InString d (raw ++ escape_rune o)) st rest.
Proof.
  destruct o as [r|]; [|intros _; apply scan_u; discriminate].
  intros Hr. pose proof Hr as Hs. apply is_scalar_spec in Hs. unfold escape_rune.
  destruct (r <? 128) eqn:E; bool_hyps.
  - destruct (htmlSafe r) eqn:E0.
    { apply scan_plain. cbn [bytes_str fold_right str_forallb]. rewrite plain_ascii by (auto; lia). reflexivity. }
    destruct ((r =? 92) || (r =? 34)) eqn:E1.
    { apply scan_simple. rewrite code_chr by lia. unfold simple_escape.
      apply orb_true_iff in E1. rewrite !Z.eqb_eq in E1. destruct E1 as [->| ->]; discriminate. }
    repeat (case_match; [apply scan_simple; discriminate|]).
    apply scan_u; try discriminate; apply hex_digit_ok; lia.
  - destruct ((r =? 8232) || (r =? 8233)) eqn:E1.
    { apply scan_u; try discriminate. apply hex_digit_ok; lia. }
    apply scan_plain, plain_encode; [lia | exact Hr].
Qed.

Lemma scan_escapes (l : list (option Z)) (rest raw : string) (d : dest) (st : list frame) :
  Forall (fun o => match o with Some r => is_scalar r = true | None => True end) l ->
  scan (InString d raw) st (escape_runes l ++ rest) =
  scan (InString d (raw ++ escape_runes l)) st rest.
Proof.
  intros Hl. revert raw. induction Hl as [|o l Ho Hl IH]; intros raw; cbn [escape_runes].
  - rewrite str_app_nil_r. reflexivity.
  - rewrite str_app_assoc, scan_escape, IH, str_app_assoc by exact Ho. reflexivity.
Qed.

(** A quoted string is read back: into a value, or as the next key. *)
Lemma scan_quote (s rest : string) (d : dest) (st : list frame) :
  is_utf8 s = true ->
  scan (InString d "") st (escape_runes (runes s) ++ String quote_char rest) =
  match d with
  | ToValue => scan (EndValue (JString s)) st rest
  | ToKey ms => scan (AfterKey ms s) st rest
  end.
Proof.
  intros Hs. rewrite scan_escapes by apply runes_scalar.
  apply is_utf8_elim in Hs as (l & Hl & ->). cbn [String.append].
  rewrite <- (str_app_nil_r (encode_runes l)), runes_encode_runes by exact Hl.
  rewrite app_nil_r, str_app_nil_r. cbn [scan step]. rewrite Ascii.eqb_refl.
  unfold endString. rewrite unquote_escape_runes by exact Hl. destruct d; reflexivity.
Qed.

(** *** Numbers *)

(** A byte that ends a number wherever it stands. *)
Definition delim (s : string) : bool :=
  match s with
  | "" => true
  | String c _ => isSpace c || Ascii.eqb c "," || Ascii.eqb c "]" || Ascii.eqb c "}"
  end.

Lemma delim_numStep (c : ascii) (rest : string) (st : numState) :
  delim (String c rest) = true -> numStep st c = None.
Proof.
  cbn [delim]. intros E.
  assert (G : implb (isSpace c || Ascii.eqb c "," || Ascii.eqb c "]" || Ascii.eqb c "}")
    (match numStep st c with None => true | Some _ => false end) = true).
  { destruct st;
    match goal with |- ?g = true => match eval pattern c in g with ?f c => by_chars f c end end. }
  rewrite E in G. destruct (numStep st c); [discriminate | reflexivity].
Qed.

Lemma scan_number (t rest lit : string) (st : numState) (stack : list frame) (st' : numState) :
  num_run st t = Some st' -> numAccepting st' = true -> delim rest = true ->
  scan (InNumber st lit) stack (t ++ rest) = scan (EndValue (JNumber (lit ++ t))) stack rest.
Proof.
  revert st lit. induction t as [|c t IH]; intros st lit E Ha Hd.
  - injection E as ->. rewrite str_app_nil_r. destruct rest as [|c rest].
    + cbn -[numAccepting]. unfold at_eof. rewrite Ha. destruct stack; reflexivity.
    + cbn [String.append scan step]. rewrite (delim_numStep c rest) by exact Hd. rewrite Ha. reflexivity.
  - cbn [num_run] in E. destruct (numStep st c) as [s1|] eqn:Es; [|discriminate].
    cbn [String.append scan step]. rewrite Es, IH by assumption. rewrite snoc_app. reflexivity.
Qed.

(** *** Values *)

Definition print_members (ms : list (string * json)) : string :=
  Join (map (fun m => quote (fst m) ++ ":" ++ print (snd m)) ms) ",".

Lemma print_object (ms : list (string * json)) : print (JObject ms) = "{" ++ print_members ms ++ "}".
Proof. reflexivity. Qed.

Lemma numStart_first (c : ascii) (st : numState) :
  numStart c = Some st -> isSpace c = false /\ Ascii.eqb c "]" = false /\
  forall stack, beginValue c stack = Continue (InNumber st (String c "")) stack.
Proof.
  intros E.
  assert (G : match numStart c with
    | Some _ => negb (isSpace c || Ascii.eqb c "]" || Ascii.eqb c "{" || Ascii.eqb c "[" ||
                Ascii.eqb c quote_char || Ascii.eqb c "t" || Ascii.eqb c "f" || Ascii.eqb c "n")
    | None => true end = true)
    by match goal with |- ?g = true => match eval pattern c in g with ?f c => by_chars f c end end.
  rewrite E in G. bool_hyps. split; [assumption|]. split; [assumption|].
  intros stack. unfold beginValue. rewrite E.
  repeat match goal with K : _ = false |- _ => rewrite K; clear K end. reflexivity.
Qed.

(** The first byte of a printed value is neither a space nor a bracket that
    closes. *)
Lemma print_head (j : json) :
  json_wf j = true ->
  exists c t, print j = String c t /\ isSpace c = false /\ Ascii.eqb c "]" = false.
Proof.
  destruct j as [|b|lit|s|l|ms]; cbn [json_wf print]; intros Hw;
    try (eexists _, _; split; [reflexivity|]; split; reflexivity).
  - destruct b; eexists _, _; (split; [reflexivity|]; split; reflexivity).
  - destruct lit as [|c t]; [discriminate|]. cbn [valid_number] in Hw.
    destruct (numStart c) eqn:E; [|discriminate]. apply numStart_first in E as (K1 & K2 & _). eauto.
Qed.

Lemma scan_first_element (j : json) (rest : string) (st : list frame) :
  json_wf j = true ->
  scan BeginValueOrEmpty st (print j ++ rest) = scan BeginValue (FArray [] :: st) (print j ++ rest).
Proof.
  intros Hw. destruct (print_head j Hw) as (c & t & -> & K1 & K2).
  cbn [String.append scan step]. rewrite K1, K2. reflexivity.
Qed.

Definition fits (st : list frame) (d : Z) : Prop := Z.of_nat (length st) + d <= limit.

(** What the scanner does on a printed value, in any context. *)
Definition scans (j : json) : Prop :=
  forall st rest, json_wf j = true -> fits st (depth j) -> delim rest = true ->
  scan BeginValue st (print j ++ rest) = scan (EndValue j) st rest.

Lemma scan_elements (l : list json) (j : json) (xs : list json) (st : list frame) (rest : string) :
  Forall scans (j :: l) -> forallb json_wf (j :: l) = true ->
  Forall (fun x => Z.of_nat (length st) + 1 + depth x <= limit) (j :: l) ->
  scan BeginValue (FArray xs :: st) (Join (map print (j :: l)) "," ++ "]" ++ rest) =
  scan (EndValue (JArray (xs ++ j :: l)%list)) st rest.
Proof.
  revert j xs. induction l as [|k l IH]; intros j xs Hs Hw Hd;
    inversion Hs as [|? ? Hj Hs']; inversion Hd as [|? ? Hdj Hd']; subst;
    cbn [forallb] in Hw; apply andb_true_iff in Hw as [Hwj Hw].
  - cbn [map Join]. rewrite Hj; [reflexivity|exact Hwj| |reflexivity].
    unfold fits. cbn [length]. lia.
  - rewrite List.map_cons, Join_cons, !str_app_assoc by discriminate.
    rewrite Hj; [|exact Hwj|unfold fits; cbn [length]; lia|reflexivity].
    change (scan (EndValue j) (FArray xs :: st) ("," ++ ?t)) with (scan BeginValue (FArray (xs ++ [j])%list :: st) t).
    rewrite IH by assumption. rewrite <- app_assoc. reflexivity.
Qed.

Lemma scan_key (k rest : string) (acc : list (string * json)) (st : list frame) :
  is_utf8 k = true ->
  scan (BeginString acc) st (quote k ++ ":" ++ rest) = scan BeginValue (FObject acc k :: st) rest.
Proof.
  intros Hk. unfold quote. cbn [String.append]. rewrite ?str_app_assoc.
  change (scan (BeginString acc) st (String quote_char ?t)) with (scan (InString (ToKey acc) "") st t).
  cbn [String.append]. rewrite (scan_quote k) by exact Hk. reflexivity.
Qed.

Lemma scan_members (ms : list (string * json)) (m : string * json) (acc : list (string * json))
    (st : list frame) (rest : string) :
  Forall (fun m => scans (snd m)) (m :: ms) ->
  forallb (fun m => is_utf8 (fst m) && json_wf (snd m)) (m :: ms) = true ->
  Forall (fun m => Z.of_nat (length st) + 1 + depth (snd m) <= limit) (m :: ms) ->
  scan (BeginString acc) st (print_members (m :: ms) ++ "}" ++ rest) =
  scan (EndValue (JObject (acc ++ m :: ms)%list)) st rest.
Proof.
  unfold print_members.
  revert m acc. induction ms as [|m' ms IH]; intros [k j] acc Hs Hw Hd;
    inversion Hs as [|? ? Hj Hs']; inversion Hd as [|? ? Hdj Hd']; subst;
    cbn [forallb fst snd] in Hw; apply andb_true_iff in Hw as [[Hk Hwj]%andb_true_iff Hw];
    cbn [fst snd] in *.
  - cbn [map Join fst snd]. rewrite !str_app_assoc, scan_key by exact Hk.
    rewrite Hj; [reflexivity|exact Hwj| |reflexivity].
    unfold fits. cbn [length]. lia.
  - rewrite List.map_cons, Join_cons, !str_app_assoc by discriminate.
    cbn [fst snd]. rewrite ?str_app_assoc, scan_key by exact Hk.
    rewrite Hj; [|exact Hwj|unfold fits; cbn [length]; lia|reflexivity].
    change (scan (EndValue j) (FObject acc k :: st) ("," ++ ?t))
      with (scan (BeginString (acc ++ [(k, j)])%list) st t).
    rewrite IH by assumption. rewrite <- app_assoc. reflexivity.
Qed.

Lemma fold_max_le {A : Type} (f : A -> Z) (l : list A) (a b : Z) :
  a + fold_right Z.max 0 (map f l) <= b -> Forall (fun x => a + f x <= b) l.
Proof. induction l as [|x l IH]; cbn; intros H; constructor; [lia | apply IH; lia]. Qed.

Lemma fold_max_nonneg (l : list Z) : 0 <= fold_right Z.max 0 l.
Proof. induction l; cbn; lia. Qed.

Lemma scan_literal (t rest : string) (v : json) (st : list frame) :
  t <> "" -> scan (InLiteral t v) st (t ++ rest) = scan (EndValue v) st rest.
Proof.
  induction t as [|c t IH]; intros Ht; [congruence|].
  cbn [String.append scan step]. rewrite Ascii.eqb_refl.
  destruct t as [|c' t]; [reflexivity | apply IH; discriminate].
Qed.

(** In every context with room for its depth, a printed value is scanned to
    that value and the scanner stops right behind it. *)
Lemma scan_print (j : json) : scans j.
Proof.
  induction j as [|b|lit|s|l IH|ms IH]; unfold scans; intros st rest Hw Hf Hd.
  - apply (scan_literal "ull"). discriminate.
  - destruct b; [apply (scan_literal "rue") | apply (scan_literal "alse")]; discriminate.
  - cbn [json_wf print] in *. destruct lit as [|c t]; [discriminate|]. cbn [valid_number] in Hw.
    destruct (numStart c) as [s0|] eqn:E; [|discriminate].
    destruct (num_run s0 t) as [s1|] eqn:E1; [|discriminate].
    apply numStart_first in E as (_ & _ & Eb). cbn [String.append scan step]. rewrite Eb.
    erewrite scan_number by eassumption. reflexivity.
  - cbn [json_wf print] in *. unfold quote. cbn [String.append]. rewrite str_app_assoc.
    change (scan BeginValue st (String quote_char ?t)) with (scan (InString ToValue "") st t).
    cbn [String.append]. rewrite scan_quote by exact Hw. reflexivity.
  - cbn [depth json_wf] in *. unfold fits in Hf. pose proof (fold_max_nonneg (map depth l)).
    assert (Hb : scan BeginValue st (print (JArray l) ++ rest) =
                 scan BeginValueOrEmpty st (Join (map print l) "," ++ "]" ++ rest)).
    { cbn [print]. rewrite !str_app_assoc. cbn [String.append scan step]. unfold beginValue.
      rewrite (proj2 (Z.ltb_lt _ _)) by lia. reflexivity. }
    rewrite Hb. destruct l as [|j l]; [reflexivity|].
    assert (Hall : Forall (fun x => Z.of_nat (length st) + 1 + depth x <= limit) (j :: l)).
    { apply fold_max_le. lia. }
    rewrite <- (app_nil_l (j :: l)) at 2. rewrite <- (scan_elements l j [] st rest IH Hw Hall).
    cbn [forallb] in Hw. apply andb_true_iff in Hw as [Hwj _].
    destruct l as [|k l]; cbn [map Join].
    + apply scan_first_element, Hwj.
    + rewrite !str_app_assoc. apply scan_first_element, Hwj.
  - cbn [depth json_wf] in *. unfold fits in Hf.
    pose proof (fold_max_nonneg (map (fun m : string * json => depth (snd m)) ms)).
    assert (Hb : scan BeginValue st (print (JObject ms) ++ rest) =
                 scan BeginStringOrEmpty st (print_members ms ++ "}" ++ rest)).
    { rewrite print_object, !str_app_assoc. cbn [String.append scan step]. unfold beginValue.
      rewrite (proj2 (Z.ltb_lt _ _)) by lia. reflexivity. }
    rewrite Hb. destruct ms as [|m ms]; [reflexivity|].
    assert (Hall : Forall (fun x => Z.of_nat (length st) + 1 + depth (snd x) <= limit) (m :: ms)).
    { apply (fold_max_le (fun m : string * json => depth (snd m))). lia. }
    rewrite <- (app_nil_l (m :: ms)) at 2. rewrite <- (scan_members ms m [] st rest IH Hw Hall).
    destruct ms as [|m' ms]; reflexivity.
Qed.

Lemma scan_print_top (j : json) (rest : string) :
  json_wf j = true -> depth j <= limit -> delim rest = true ->
  scan BeginValue [] (print j ++ rest) = Ok (j, rest).
Proof.
  intros Hw Hd Hr. rewrite scan_print by auto. destruct rest; reflexivity.
Qed.

End Printing.

(** Different well-formed values have different texts. *)
Lemma print_inj (a b : json) : json_wf a = true -> json_wf b = true -> print a = print b -> a = b.
Proof.
  intros Ha Hb E. set (l := Z.max (depth a) (depth b)).
  pose proof (scan_print_top l a "" Ha ltac:(lia) eq_refl) as Ka.
  pose proof (scan_print_top l b "" Hb ltac:(lia) eq_refl) as Kb. rewrite E in Ka. congruence.
Qed.

Lemma Unmarshal_print (j : json) :
  json_wf j = true -> depth j <= maxNestingDepth -> Unmarshal (print j) = Ok j.
Proof.
  intros Hw Hd. unfold Unmarshal. rewrite <- (str_app_nil_r (print j)), scan_print_top by auto.
  reflexivity.
Qed.

Lemma print_not_space (j : json) : json_wf j = true -> all_space (print j) = false.
Proof. intros Hw. destruct (print_head 0 j Hw) as (c & t & -> & K & _). cbn. rewrite K. reflexivity. Qed.

Lemma Decode_print_eq (j : json) :
  json_wf j = true -> depth j <= maxNestingDepth -> Decode (print j) = Ok j.
Proof.
  intros Hw Hd. unfold Decode. rewrite print_not_space by exact Hw.
  rewrite <- (str_app_nil_r (print j)), scan_print_top by auto. reflexivity.
Qed.

(** ** The type invariant: what the scanner produces *)

Section Invariant.
Variable limit : Z.
#[local] Notation beginValue := (beginValue limit).
#[local] Notation step := (step limit).
#[local] Notation scan := (scan limit).
#[local] Notation fits := (fits limit).

Definition value_ok (st : list frame) (v : json) : Prop := json_wf v = true /\ fits st (depth v).
Definition members_ok (st : list frame) (ms : list (string * json)) : Prop :=
  Forall (fun m => is_utf8 (fst m) = true /\ json_wf (snd m) = true /\ fits st (1 + depth (snd m))) ms.

Definition frame_ok (f : frame) (st : list frame) : Prop :=
  fits st 1 /\
  match f with
  | FArray xs => Forall (fun x => json_wf x = true /\ fits st (1 + depth x)) xs
  | FObject ms k => members_ok st ms /\ is_utf8 k = true
  end.

Fixpoint stack_ok (st : list frame) : Prop :=
  match st with
  | [] => True
  | f :: st' => frame_ok f st' /\ stack_ok st'
  end.

Definition dest_ok (d : dest) (st : list frame) : Prop :=
  match d with ToValue => fits st 0 | ToKey ms => fits st 1 /\ members_ok st ms end.

Definition lit_ok (ns : numState) (lit : string) : Prop :=
  match lit with
  | "" => False
  | String c t => exists s0, numStart c = Some s0 /\ num_run s0 t = Some ns
  end.

Definition phase_ok (p : phase) (st : list frame) : Prop :=
  match p with
  | BeginValue => fits st 0
  | BeginValueOrEmpty | BeginStringOrEmpty => fits st 1
  | BeginString ms => fits st 1 /\ members_ok st ms
  | AfterKey ms k => fits st 1 /\ members_ok st ms /\ is_utf8 k = true
  | EndValue v => value_ok st v
  | InString d _ | InStringEsc d _ | InStringEscU d _ _ => dest_ok d st
  | InLiteral _ v => value_ok st v
  | InNumber ns lit => fits st 0 /\ lit_ok ns lit
  end.

Definition scanned_ok (r : scanned) : Prop :=
  match r with
  | Continue p st => phase_ok p st /\ stack_ok st
  | EndTop v => value_ok [] v
  | ScanError => True
  end.

Lemma fits_cons (f : frame) (st : list frame) (d : Z) : fits (f :: st) d <-> fits st (1 + d).
Proof. unfold fits. cbn [length]. lia. Qed.

Lemma fits_mono (st : list frame) (a b : Z) : a <= b -> fits st b -> fits st a.
Proof. unfold fits. lia. Qed.

Lemma num_run_snoc (st st1 st2 : numState) (t : string) (c : ascii) :
  num_run st t = Some st1 -> numStep st1 c = Some st2 -> num_run st (snoc t c) = Some st2.
Proof.
  revert st. induction t as [|x t IH]; intros st E1 E2; unfold snoc in *.
  - injection E1 as ->. cbn. rewrite E2. reflexivity.
  - cbn [num_run String.append] in *. destruct (numStep st x); [eauto | discriminate].
Qed.

Lemma lit_ok_snoc (st1 st2 : numState) (lit : string) (c : ascii) :
  lit_ok st1 lit -> numStep st1 c = Some st2 -> lit_ok st2 (snoc lit c).
Proof.
  destruct lit as [|x t]; [contradiction|]. intros (s0 & E0 & E1) E2. exists s0.
  split; [exact E0 | eapply num_run_snoc; eauto].
Qed.

Lemma lit_ok_valid (st : numState) (lit : string) :
  lit_ok st lit -> numAccepting st = true -> valid_number lit = true.
Proof. destruct lit as [|x t]; [contradiction|]. intros (s0 & E0 & E1) E2. cbn. rewrite E0, E1. exact E2. Qed.

Lemma depth_array (l : list json) (st : list frame) :
  fits st 1 -> Forall (fun x => json_wf x = true /\ fits st (1 + depth x)) l ->
  value_ok st (JArray l).
Proof.
  intros H1 Hl. unfold value_ok, fits in *. cbn [json_wf depth]. split.
  - apply forallb_forall. intros x Hx. rewrite List.Forall_forall in Hl. apply Hl, Hx.
  - induction Hl as [|x l [_ Hx] Hl IH]; cbn [map fold_right]; lia.
Qed.

Lemma depth_object (ms : list (string * json)) (st : list frame) :
  fits st 1 -> members_ok st ms -> value_ok st (JObject ms).
Proof.
  intros H1 Hl. unfold value_ok, members_ok, fits in *. cbn [json_wf depth]. split.
  - apply forallb_forall. intros x Hx. rewrite List.Forall_forall in Hl.
    destruct (Hl x Hx) as (-> & -> & _). reflexivity.
  - induction Hl as [|x l (_ & _ & Hx) Hl IH]; cbn [map fold_right]; lia.
Qed.

Lemma Forall_snoc {A : Type} (P : A -> Prop) (l : list A) (x : A) :
  Forall P l -> P x -> Forall P (l ++ [x])%list.
Proof. intros Hl Hx. apply List.Forall_app. auto. Qed.

Lemma endValue_ok (v : json) (c : ascii) (st : list frame) :
  value_ok st v -> stack_ok st -> scanned_ok (endValue v c st).
Proof.
  intros Hv Hs. destruct st as [|f st]; [exact Hv|]. destruct Hs as [[H1 Hf] Hs].
  destruct Hv as [Hw Hd]. apply fits_cons in Hd.
  destruct f as [xs|ms k]; cbn [endValue]; cbn iota in Hf.
  - assert (Hl : Forall (fun x => json_wf x = true /\ fits st (1 + depth x)) (xs ++ [v])%list)
      by (apply Forall_snoc; auto).
    repeat case_match_goal; cbn [scanned_ok phase_ok stack_ok frame_ok]; auto using depth_array.
    + unfold value_ok. rewrite fits_cons. repeat split; auto.
    + rewrite fits_cons. repeat split; auto.
  - destruct Hf as [Hm Hk].
    assert (Hl : members_ok st (ms ++ [(k, v)])%list) by (apply Forall_snoc; auto).
    repeat case_match_goal; cbn [scanned_ok phase_ok stack_ok frame_ok]; auto using depth_object.
    unfold value_ok. rewrite fits_cons. repeat split; auto.
Qed.

Lemma beginValue_ok (c : ascii) (st : list frame) :
  fits st 0 -> stack_ok st -> scanned_ok (beginValue c st).
Proof.
  intros Hf Hs. unfold beginValue, fits in *.
  repeat case_match_goal; bool_hyps; cbn [scanned_ok phase_ok dest_ok lit_ok]; unfold value_ok, fits;
    cbn [json_wf depth]; repeat split; auto; try lia; eauto.
Qed.

Lemma step_ok (p : phase) (c : ascii) (st : list frame) :
  phase_ok p st -> stack_ok st -> scanned_ok (step p st c).
Proof.
  intros Hp Hs. destruct p; cbn [step phase_ok] in *.
  - apply beginValue_ok; auto.
  - repeat case_match_goal; cbn [scanned_ok phase_ok]; auto.
    + split; [|exact Hs]. apply depth_array; auto.
    + apply beginValue_ok; [apply fits_cons; exact Hp | split; [split; auto|exact Hs]].
  - unfold beginString. repeat case_match_goal; cbn [scanned_ok phase_ok dest_ok]; auto.
    + split; [|exact Hs]. apply depth_object; [exact Hp | constructor].
    + split; [|exact Hs]. split; [exact Hp | constructor].
  - unfold beginString. repeat case_match_goal; cbn [scanned_ok phase_ok dest_ok]; auto.
  - destruct Hp as (H1 & Hm & Hk). repeat case_match_goal; cbn [scanned_ok phase_ok stack_ok]; auto.
    rewrite fits_cons. split; [exact H1|]. split; [split; auto|exact Hs].
  - apply endValue_ok; auto.
  - repeat case_match_goal; cbn [scanned_ok phase_ok]; auto.
    unfold endString. destruct (unquote raw) eqn:E; [|exact I]. apply unquote_utf8 in E.
    destruct d; cbn [scanned_ok phase_ok dest_ok] in *; [|destruct Hp; auto].
    split; [|exact Hs]. split; auto.
  - repeat case_match_goal; cbn [scanned_ok phase_ok]; auto.
  - repeat case_match_goal; cbn [scanned_ok phase_ok]; auto.
  - repeat case_match_goal; cbn [scanned_ok phase_ok]; auto.
  - destruct Hp as [H1 Hl]. destruct (numStep st0 c) eqn:E; cbn [scanned_ok phase_ok].
    + eauto using lit_ok_snoc.
    + destruct (numAccepting st0) eqn:Ea; [|exact I]. apply endValue_ok; [|exact Hs].
      split; [cbn; eapply lit_ok_valid; eauto | exact H1].
Qed.

Lemma scan_ok (s : string) (p : phase) (st : list frame) (v : json) (rest : string) :
  phase_ok p st -> stack_ok st -> scan p st s = Ok (v, rest) -> value_ok [] v.
Proof.
  revert p st. induction s as [|c s IH]; intros p st Hp Hs E; cbn [scan] in E.
  - unfold at_eof in E. destruct st as [|f st]; [|discriminate]. destruct p; try discriminate.
    + injection E as <- <-. exact Hp.
    + destruct (numAccepting st) eqn:Ea; [|discriminate]. injection E as <- <-. destruct Hp as [H1 Hl].
      split; [cbn; eapply lit_ok_valid; eauto | exact H1].
  - pose proof (step_ok p c st Hp Hs) as Hk. destruct (step p st c) as [p' st'|w|]; [|injection E as <- <-; exact Hk|discriminate].
    destruct Hk. eauto.
Qed.

Lemma scan_rest (s : string) (p : phase) (st : list frame) (v : json) (rest : string) :
  scan p st s = Ok (v, rest) -> exists pre, s = pre ++ rest.
Proof.
  revert p st. induction s as [|c s IH]; intros p st E; cbn [scan] in E.
  - exists "". unfold at_eof in E. repeat (case_match_in E); injection E as <- <-; reflexivity.
  - destruct (step p st c) as [p' st'|w|]; [|injection E as <- <-; exists ""; reflexivity|discriminate].
    apply IH in E as [pre ->]. exists (String c pre). reflexivity.
Qed.

End Invariant.

Lemma Decode_wf (data : string) (v : json) :
  Decode data = Ok v -> json_wf v = true /\ depth v <= maxNestingDepth.
Proof.
  unfold Decode. case_match; [discriminate|]. rewrite rbind_Ok. intros ((w & r) & E & [= <-]).
  apply scan_ok in E as [E1 E2]; cbn; unfold fits, maxNestingDepth in *; cbn in *; auto; lia.
Qed.

