(* ===== verification/Models.v ===== *)
(** The data model: [models/version.go], [models/fqdn.go], [models/tl_log.go],
    the Merkle proof of [models/transparency.go] and the status enumerations,
    with their parsers, orders and validity rules. *)

From S2P Require Import Prelude GoStrings Encoding Errors.

#[local] Open Scope string_scope.
#[local] Open Scope Z_scope.

(** ** Semantic versions *)

(** [uint32] components, as Z. *)
Record Version := MkVersion { Major : Z; Minor : Z; Patch : Z }.

Definition Version_wf (v : Version) : Prop :=
  in_u32 (Major v) /\ in_u32 (Minor v) /\ in_u32 (Patch v).

#[export] Instance Version_eq_dec : EqDecision Version.
Proof. solve_decision. Defined.

Definition ParseVersion (s : string) : result goerror Version :=
  guard! negb (String.eqb s "") orelse EPlain "empty version string" in
  let s := TrimPrefix s "v" in
  match Split s "." with
  | [p0; p1; p2] =>
      match ParseUint p0 32 with
      | None => Err (EPlain "invalid major version")
      | Some major =>
          match ParseUint p1 32 with
          | None => Err (EPlain "invalid minor version")
          | Some minor =>
              match ParseUint p2 32 with
              | None => Err (EPlain "invalid patch version")
              | Some patch => Ok (MkVersion major minor patch)
              end
          end
      end
  | _ => Err (EPlain "expected 3 parts")
  end.

Definition Version_String (v : Version) : string :=
  "v" ++ fmt_d (Major v) ++ "." ++ fmt_d (Minor v) ++ "." ++ fmt_d (Patch v).

Definition Version_Compare (v other : Version) : Z :=
  if negb (Major v =? Major other) then (if Major v <? Major other then -1 else 1)
  else if negb (Minor v =? Minor other) then (if Minor v <? Minor other then -1 else 1)
  else if negb (Patch v =? Patch other) then (if Patch v <? Patch other then -1 else 1)
  else 0.

Definition Version_IsZero (v : Version) : bool :=
  (Major v =? 0) && (Minor v =? 0) && (Patch v =? 0).
Definition Version_Equal (v other : Version) : bool := Version_Compare v other =? 0.
Definition Version_Less (v other : Version) : bool := Version_Compare v other <? 0.

(** The lexicographic order the comparison decides. *)
Definition Version_lt (a b : Version) : Prop :=
  Major a < Major b \/ Major a = Major b /\
  (Minor a < Minor b \/ Minor a = Minor b /\ Patch a < Patch b).

Ltac version_cases :=
  unfold Version_Compare, Version_lt in *;
  repeat match goal with
  | |- context [if ?b then _ else _] => destruct b eqn:?
  | H : context [if ?b then _ else _] |- _ => destruct b eqn:?
  end; bool_hyps.

Lemma Version_Compare_lt (a b : Version) : Version_Compare a b = -1 <-> Version_lt a b.
Proof. destruct a, b; version_cases; simpl in *; lia. Qed.

Lemma Version_Compare_gt (a b : Version) : Version_Compare a b = 1 <-> Version_lt b a.
Proof. destruct a, b; version_cases; simpl in *; lia. Qed.

Lemma Version_Compare_eq (a b : Version) : Version_Compare a b = 0 <-> a = b.
Proof.
  destruct a as [a1 a2 a3], b as [b1 b2 b3]. split.
  - intros H. version_cases; simpl in *; try lia. subst. reflexivity.
  - intros [= -> -> ->]. version_cases; simpl in *; lia.
Qed.

Lemma Version_Compare_values (a b : Version) :
  Version_Compare a b = -1 \/ Version_Compare a b = 0 \/ Version_Compare a b = 1.
Proof. destruct a, b; version_cases; simpl in *; lia. Qed.

Lemma Version_lt_trans (a b c : Version) : Version_lt a b -> Version_lt b c -> Version_lt a c.
Proof. unfold Version_lt. lia. Qed.

Lemma Version_lt_irrefl (a : Version) : ~ Version_lt a a.
Proof. unfold Version_lt. lia. Qed.

Lemma Version_total (a b : Version) : Version_lt a b \/ a = b \/ Version_lt b a.
Proof.
  destruct (Version_Compare_values a b) as [H|[H|H]].
  - left. apply Version_Compare_lt. exact H.
  - right; left. apply Version_Compare_eq. exact H.
  - right; right. apply Version_Compare_gt. exact H.
Qed.

Lemma Version_Equal_true (a b : Version) : Version_Equal a b = true <-> a = b.
Proof. unfold Version_Equal. rewrite Z.eqb_eq. apply Version_Compare_eq. Qed.

Lemma Version_Less_true (a b : Version) : Version_Less a b = true <-> Version_lt a b.
Proof.
  unfold Version_Less. rewrite Z.ltb_lt, <- Version_Compare_lt.
  destruct (Version_Compare_values a b) as [H|[H|H]]; lia.
Qed.

Lemma no_dot_fmt (n : Z) : contains_char "." (fmt_d n) = false.
Proof. apply digits_no_char; [reflexivity | apply fmt_d_digits]. Qed.

Lemma ParseVersion_String (v : Version) : Version_wf v -> ParseVersion (Version_String v) = Ok v.
Proof.
  destruct v as [a b c]. unfold Version_wf, in_u32, max_u32. simpl. intros (Ha & Hb & Hc).
  unfold ParseVersion, Version_String. cbn [Major Minor Patch].
  change (TrimPrefix ("v" ++ ?s) "v") with s.
  cbn -[fmt_d ParseUint Split].
  change ("." ++ ?s) with (String "." s).
  rewrite !Split_app, Split_single by apply no_dot_fmt.
  rewrite !ParseUint_fmt_d; [reflexivity | | | | | |]; lia.
Qed.

Lemma ParseVersion_wf (s : string) (v : Version) : ParseVersion s = Ok v -> Version_wf v.
Proof.
  unfold ParseVersion. intros H. repeat case_match_in H. injection H as <-.
  unfold Version_wf, in_u32, max_u32. simpl.
  repeat match goal with
  | E : ParseUint _ _ = Some _ |- _ => apply ParseUint_range in E; [|lia]
  end. lia.
Qed.

Lemma Version_String_inj (a b : Version) :
  Version_wf a -> Version_wf b -> Version_String a = Version_String b -> a = b.
Proof.
  intros Ha Hb H. apply ParseVersion_String in Ha, Hb. rewrite H in Ha. congruence.
Qed.

(** ** Fully qualified domain names *)

Record Fqdn := MkFqdn { fqdn_value : string }.

#[export] Instance Fqdn_eq_dec : EqDecision Fqdn.
Proof. solve_decision. Defined.

Definition maxLabelLength : nat := 63.

Definition isValidLabelChar (c : ascii) : bool :=
  between "a" "z" c || between "A" "Z" c || between "0" "9" c || Ascii.eqb c "-".

(** The checks of one label, in the order of the loop body. *)
Definition checkLabel (label : string) : result goerror unit :=
  guard! negb (String.eqb label "") orelse EPlain "empty label" in
  guard! (String.length label <=? maxLabelLength)%nat orelse EPlain "label too long" in
  guard! str_forallb isValidLabelChar label orelse EPlain "invalid character in label" in
  guard! negb (HasPrefix label "-" || HasSuffix label "-")
    orelse EPlain "label cannot start or end with hyphen" in
  Ok tt.

Fixpoint checkLabels (labels : list string) : result goerror unit :=
  match labels with
  | [] => Ok tt
  | l :: rest => rbind (checkLabel l) (fun _ => checkLabels rest)
  end.

Section FqdnOps.
Context `{UnicodeTables}.

Definition NewFqdn (domain : string) : result goerror Fqdn :=
  guard! negb (String.eqb domain "") orelse EPlain "empty domain" in
  let domain := TrimSuffix domain "." in
  rbind (checkLabels (Split domain ".")) (fun _ => Ok (MkFqdn (ToLower domain))).

Definition Fqdn_String (f : Fqdn) : string := fqdn_value f.
Definition ATIBadgeName (f : Fqdn) : string := "_ati-badge." ++ fqdn_value f.
Definition RaBadgeName (f : Fqdn) : string := "_ra-badge." ++ fqdn_value f.
Definition TlsaName (f : Fqdn) (port : Z) : string := "_" ++ fmt_d port ++ "._tcp." ++ fqdn_value f.
Definition ATIDiscoveryName (f : Fqdn) : string := "_ati." ++ fqdn_value f.
Definition IdentityTLSAName (f : Fqdn) : string := "_ati-identity._tls." ++ fqdn_value f.
Definition Fqdn_IsZero (f : Fqdn) : bool := String.eqb (fqdn_value f) "".

(** The specification: a valid name is a dot-separated list of valid labels. *)
Definition valid_label (l : string) : Prop := checkLabel l = Ok tt.
Definition valid_domain (s : string) : Prop := Forall valid_label (Split s ".").

Definition is_ldh_lower (c : ascii) : bool := is_lower c || is_digit c || Ascii.eqb c "-".

(** The invariant of every [Fqdn] the constructor builds. *)
Definition Fqdn_wf (f : Fqdn) : Prop :=
  valid_domain (fqdn_value f) /\ str_map lower_char (fqdn_value f) = fqdn_value f.

Lemma checkLabels_ok (ls : list string) : checkLabels ls = Ok tt <-> Forall valid_label ls.
Proof.
  induction ls as [|l ls IH]; simpl; [split; auto|].
  rewrite rbind_Ok, Forall_cons, <- IH. unfold valid_label. split.
  - intros ([] & H1 & H2). auto.
  - intros [H1 H2]. exists tt. auto.
Qed.

Lemma valid_label_spec (l : string) :
  valid_label l <->
  l <> "" /\ (String.length l <= 63)%nat /\ str_forallb isValidLabelChar l = true /\
  HasPrefix l "-" = false /\ HasSuffix l "-" = false.
Proof.
  unfold valid_label, checkLabel, maxLabelLength. split.
  - intros E. repeat (case_match_in E; bool_hyps). auto.
  - intros (H1 & H2 & H3 & H4 & H5). apply String.eqb_neq in H1. apply Nat.leb_le in H2.
    rewrite H1, H2, H3, H4, H5. reflexivity.
Qed.

Lemma label_char_lower (c : ascii) :
  isValidLabelChar c = true ->
  is_ascii_char c = true /\ is_ldh_lower (lower_char c) = true /\ Ascii.eqb c "." = false.
Proof.
  intros Hc.
  assert (G : implb (isValidLabelChar c)
    (is_ascii_char c && is_ldh_lower (lower_char c) && negb (Ascii.eqb c ".")) = true)
    by by_chars (fun c => implb (isValidLabelChar c)
    (is_ascii_char c && is_ldh_lower (lower_char c) && negb (Ascii.eqb c "."))) c.
  rewrite Hc in G. simpl in G. bool_hyps. auto.
Qed.

Lemma lower_dot (c d : ascii) :
  Ascii.eqb d (lower_char d) = true -> is_upper d = false ->
  Ascii.eqb (lower_char c) d = Ascii.eqb c d \/ is_lower d = true.
Proof.
  intros Hd Hu. destruct (is_upper c) eqn:Hc.
  - destruct (Ascii.eqb c d) eqn:E.
    + apply Ascii.eqb_eq in E. subst. congruence.
    + destruct (Ascii.eqb (lower_char c) d) eqn:E'; [|auto].
      right. apply Ascii.eqb_eq in E'. subst d.
      assert (G : implb (is_upper c) (is_lower (lower_char c)) = true)
        by by_chars (fun c => implb (is_upper c) (is_lower (lower_char c))) c.
      rewrite Hc in G. exact G.
  - left. unfold lower_char. rewrite Hc. reflexivity.
Qed.

Lemma Split_lower (s : string) (sep : ascii) :
  is_upper sep = false -> is_lower sep = false ->
  Split (str_map lower_char s) sep = map (str_map lower_char) (Split s sep).
Proof.
  intros Hu Hl. induction s as [|c s IH]; [reflexivity|]. cbn.
  assert (E : Ascii.eqb (lower_char c) sep = Ascii.eqb c sep).
  { destruct (lower_dot c sep) as [E|E]; [|exact Hu|exact E|congruence].
    unfold lower_char. rewrite Hu. apply Ascii.eqb_refl. }
  rewrite E, IH. destruct (Ascii.eqb c sep); [reflexivity|].
  destruct (Split s sep); reflexivity.
Qed.

Lemma str_length_map (f : ascii -> ascii) (s : string) :
  String.length (str_map f s) = String.length s.
Proof. induction s; cbn; congruence. Qed.

Lemma str_drop_map (f : ascii -> ascii) (n : nat) (s : string) :
  str_drop n (str_map f s) = str_map f (str_drop n s).
Proof. revert s. induction n; intros [|c s]; cbn; auto. Qed.

Lemma lower_hyphen_prefix (s : string) : HasPrefix (str_map lower_char s) "-" = HasPrefix s "-".
Proof.
  destruct s as [|c s]; [reflexivity|]. cbn -[Ascii.eqb]. f_equal.
  rewrite !(Ascii.eqb_sym "-").
  destruct (lower_dot c "-") as [E|E]; [reflexivity|reflexivity|exact E|discriminate E].
Qed.

Lemma lower_hyphen_suffix (s : string) : HasSuffix (str_map lower_char s) "-" = HasSuffix s "-".
Proof.
  unfold HasSuffix. rewrite str_length_map, str_drop_map. f_equal.
  set (t := str_drop _ s). clearbody t. destruct t as [|c [|d t]]; [reflexivity| |].
  - cbn -[Ascii.eqb]. destruct (lower_dot c "-") as [E|E]; [reflexivity|reflexivity| |discriminate E].
    rewrite E. reflexivity.
  - cbn -[Ascii.eqb]. destruct (Ascii.eqb (lower_char c) "-"), (Ascii.eqb c "-"); reflexivity.
Qed.

Lemma valid_label_lower (l : string) : valid_label l -> valid_label (str_map lower_char l).
Proof.
  rewrite !valid_label_spec. intros (H1 & H2 & H3 & H4 & H5).
  rewrite str_length_map, lower_hyphen_prefix, lower_hyphen_suffix.
  repeat split; auto.
  - destruct l; [congruence|discriminate].
  - clear -H3. induction l as [|c l IH]; cbn in *; [reflexivity|]. bool_hyps.
    rewrite IH by assumption. rewrite andb_true_r.
    apply label_char_lower in H. destruct H as (_ & H & _).
    assert (G : implb (is_ldh_lower (lower_char c)) (isValidLabelChar (lower_char c)) = true)
      by by_chars (fun c => implb (is_ldh_lower (lower_char c)) (isValidLabelChar (lower_char c))) c.
    rewrite H in G. exact G.
Qed.

Lemma valid_domain_chars (s : string) :
  valid_domain s -> str_forallb (fun c => isValidLabelChar c || Ascii.eqb c ".") s = true.
Proof.
  unfold valid_domain. induction s as [|c s IH]; cbn; [reflexivity|].
  destruct (Ascii.eqb c ".") eqn:E.
  - intros Hv. inversion Hv; subst. rewrite orb_true_r. auto.
  - intros Hv. destruct (Split s ".") as [|h t] eqn:Es; [destruct (Split_not_nil s "." Es)|].
    inversion Hv as [|? ? Hh Ht]; subst. apply valid_label_spec in Hh as (_ & _ & Hc & _ & _).
    cbn in Hc. bool_hyps. rewrite H0. simpl.
    clear -Es H1 Ht. revert h t Es H1 Ht. induction s as [|d s IHs]; cbn; [reflexivity|].
    intros h t. destruct (Ascii.eqb d ".") eqn:Ed.
    + intros [= <- <-] _ Ht. rewrite orb_true_r. simpl.
      destruct (Split s ".") as [|h' t'] eqn:E'; [destruct (Split_not_nil s "." E')|].
      inversion Ht as [|? ? Hh' Ht']; subst.
      apply valid_label_spec in Hh' as (_ & _ & Hc & _ & _). eapply IHs; eauto.
    + destruct (Split s ".") as [|h' t'] eqn:E'; [destruct (Split_not_nil s "." E')|].
      intros [= <- <-] Hc Ht. cbn in Hc. bool_hyps. rewrite H. simpl. eapply IHs; eauto.
Qed.

Lemma valid_domain_ascii (s : string) : valid_domain s -> is_ascii s = true.
Proof.
  intros Hv. apply valid_domain_chars in Hv. revert Hv. apply str_forallb_impl.
  intros c Hc. apply orb_true_iff in Hc as [Hc|Hc].
  - apply label_char_lower in Hc. tauto.
  - apply Ascii.eqb_eq in Hc. subst. reflexivity.
Qed.

Lemma valid_domain_lower (s : string) : valid_domain s -> valid_domain (str_map lower_char s).
Proof.
  unfold valid_domain. rewrite Split_lower by reflexivity. intros Hv.
  apply List.Forall_map. eapply List.Forall_impl; [|exact Hv]. apply valid_label_lower.
Qed.

Lemma lower_idem (s : string) : str_map lower_char (str_map lower_char s) = str_map lower_char s.
Proof. rewrite str_map_map. apply str_map_ext. apply lower_char_idem. Qed.

Lemma Split_snoc (t : string) (sep : ascii) :
  exists l, Split (t ++ String sep "") sep = (l ++ [""])%list.
Proof.
  induction t as [|c t [l IH]]; cbn.
  - rewrite Ascii.eqb_refl. exists [""]. reflexivity.
  - rewrite IH. destruct (Ascii.eqb c sep); [exists ("" :: l); reflexivity|].
    destruct l as [|h l]; cbn; [|exists (String c h :: l); reflexivity].
    exfalso. clear -IH. destruct t as [|d t]; cbn in IH.
    + rewrite Ascii.eqb_refl in IH. discriminate.
    + destruct (Ascii.eqb d sep).
      * injection IH as H. exact (Split_not_nil _ _ H).
      * destruct (Split (t ++ String sep "") sep); discriminate IH.
Qed.

Lemma valid_domain_no_trailing_dot (s : string) : valid_domain s -> TrimSuffix s "." = s.
Proof.
  intros Hv. unfold TrimSuffix. destruct (HasSuffix s ".") eqn:E; [|reflexivity].
  exfalso. apply HasSuffix_spec in E as [t ->]. unfold valid_domain in Hv.
  destruct (Split_snoc t ".") as [l Hl]. rewrite Hl in Hv.
  apply List.Forall_app in Hv as [_ Hv]. inversion Hv as [|? ? Hbad _]; subst.
  apply valid_label_spec in Hbad. tauto.
Qed.

Lemma valid_domain_not_empty (s : string) : valid_domain s -> s <> "".
Proof.
  intros Hv ->. inversion Hv as [|? ? Hbad _]; subst. apply valid_label_spec in Hbad. tauto.
Qed.

Lemma NewFqdn_ok (d : string) (f : Fqdn) :
  NewFqdn d = Ok f <->
  d <> "" /\ valid_domain (TrimSuffix d ".") /\ fqdn_value f = str_map lower_char (TrimSuffix d ".").
Proof.
  unfold NewFqdn. destruct (String.eqb d "") eqn:E; cbn [negb]; bool_hyps.
  - split; [discriminate | tauto].
  - rewrite rbind_Ok. unfold valid_domain. rewrite <- checkLabels_ok. split.
    + intros ([] & Hc & [= <-]). repeat split; auto. cbn. apply ToLower_ascii.
      apply valid_domain_ascii. apply checkLabels_ok. exact Hc.
    + intros (_ & Hc & Hf). exists tt. split; [exact Hc|]. destruct f as [v]. cbn in Hf.
      rewrite Hf, ToLower_ascii; [reflexivity|].
      apply valid_domain_ascii. apply checkLabels_ok. exact Hc.
Qed.

Lemma NewFqdn_wf (d : string) (f : Fqdn) : NewFqdn d = Ok f -> Fqdn_wf f.
Proof.
  rewrite NewFqdn_ok. intros (_ & Hv & Hf). unfold Fqdn_wf. rewrite Hf.
  split; [apply valid_domain_lower; exact Hv | apply lower_idem].
Qed.

Lemma NewFqdn_wf_fixed (f : Fqdn) : Fqdn_wf f -> NewFqdn (Fqdn_String f) = Ok f.
Proof.
  intros [Hv Hl]. apply NewFqdn_ok. unfold Fqdn_String.
  rewrite valid_domain_no_trailing_dot by exact Hv.
  repeat split; auto using valid_domain_not_empty.
Qed.

Lemma Fqdn_wf_ascii (f : Fqdn) : Fqdn_wf f -> is_ascii (fqdn_value f) = true.
Proof. intros [Hv _]. apply valid_domain_ascii, Hv. Qed.

Lemma Fqdn_wf_no_char (c : ascii) (f : Fqdn) :
  isValidLabelChar c || Ascii.eqb c "." = false -> Fqdn_wf f ->
  contains_char c (fqdn_value f) = false.
Proof.
  intros Hc [Hv _]. unfold contains_char. apply negb_false_iff.
  eapply str_forallb_impl; [|apply valid_domain_chars, Hv].
  intros d Hd. apply negb_true_iff. destruct (Ascii.eqb d c) eqn:E; [|reflexivity].
  apply Ascii.eqb_eq in E. subst. simpl in Hd. congruence.
Qed.

End FqdnOps.

#[export] Hint Resolve NewFqdn_wf NewFqdn_wf_fixed Fqdn_wf_ascii : ati.

(** ** Transparency-log responses ([models/tl_log.go]) *)

Record MerkleProof := MkMerkleProof {
  LeafHash : string; RootHash : string; RootSignature : string;
  TreeSize : Z; TreeVersion : Z; LeafIndex : Z; Path : list string
}.

Record TLCertificates := MkTLCertificates {
  tc_ServerCertFingerprint : string;
  tc_IdentityCertFingerprint : string;
  tc_PreviousServerCertFingerprint : string;
  tc_PreviousIdentityCertFingerprint : string
}.

Record TLPayload := MkTLPayload {
  LogID : string; EventType : string; Timestamp : string;
  AgentName : string; AgentDisplayName : string;
  AgentHost : string; AgentSubHost : string;
  tp_Version : string; AgentID : string; AgentStatus : string;
  Certificates : TLCertificates
}.

Record EvidenceRef := MkEvidenceRef {
  EvidenceID : string; SubmitterID : string; EvidenceType : string; EvidenceURI : string;
  EvidenceHash : string; HashAlgorithm : string; HashTarget : string; ContentType : string;
  EvidenceSchemaVersion : string; SignatureRequired : bool
}.

Record TLSeal := MkTLSeal {
  Canonicalization : string; DigestAlgorithm : string; SignatureAlgorithm : string;
  SignatureEncoding : string; KeyID : string; Signature : string; PublicKey : string
}.

(** [RawMessage] fields are [None] when nil. *)
Record TLResponse := MkTLResponse {
  Status : string; SchemaVersion : string; Payload : TLPayload; tr_EvidenceRef : EvidenceRef;
  Seal : TLSeal; tr_MerkleProof : MerkleProof; RequestID : string;
  RawStatus : option string; RawSchemaVersion : option string;
  RawPayload : option string; RawEvidenceRef : option string
}.

Definition IdentityHost (p : TLPayload) : string :=
  if negb (String.eqb (AgentSubHost p) "") then AgentSubHost p else AgentHost p.
Definition AccessHost (p : TLPayload) : string := AgentHost p.
Definition IsSharedDomain (p : TLPayload) : bool := negb (String.eqb (AgentSubHost p) "").

Definition IdentityCertFingerprint (p : TLPayload) : string :=
  tc_IdentityCertFingerprint (Certificates p).
Definition ServerCertFingerprint (p : TLPayload) : string :=
  tc_ServerCertFingerprint (Certificates p).
Definition PreviousIdentityCertFingerprint (p : TLPayload) : string :=
  tc_PreviousIdentityCertFingerprint (Certificates p).
Definition PreviousServerCertFingerprint (p : TLPayload) : string :=
  tc_PreviousServerCertFingerprint (Certificates p).

(** [TLAgentStatus] is a string type. *)
Definition TLStatusActive : string := "ACTIVE".
Definition TLStatusWarning : string := "WARNING".
Definition TLStatusDeprecated : string := "DEPRECATED".
Definition TLStatusExpired : string := "EXPIRED".
Definition TLStatusRevoked : string := "REVOKED".

Definition TL_IsValidForConnection (s : string) : bool :=
  String.eqb s TLStatusActive || String.eqb s TLStatusWarning || String.eqb s TLStatusDeprecated.
Definition TL_IsTerminal (s : string) : bool :=
  String.eqb s TLStatusRevoked || String.eqb s TLStatusExpired.
Definition TL_ShouldReject (s : string) : bool :=
  String.eqb s TLStatusExpired || String.eqb s TLStatusRevoked.
Definition TL_IsActive (s : string) : bool :=
  String.eqb s TLStatusActive || String.eqb s TLStatusWarning.

Lemma valid_not_terminal (s : string) :
  TL_IsValidForConnection s = true -> TL_IsTerminal s = false.
Proof.
  unfold TL_IsValidForConnection, TL_IsTerminal. intros E.
  repeat (apply orb_true_iff in E; destruct E as [E|E]); apply String.eqb_eq in E; subst; reflexivity.
Qed.

(** [IsValidRevocationReason] ([models/revocation.go]); the constants are
    declared in [models/transparency_schemas.go]. *)
Definition RevocationReasons : list string :=
  ["KEY_COMPROMISE"; "CESSATION_OF_OPERATION"; "AFFILIATION_CHANGED"; "SUPERSEDED";
   "CERTIFICATE_HOLD"; "PRIVILEGE_WITHDRAWN"; "AA_COMPROMISE"; "CA_COMPROMISE";
   "EXPIRED_CERT"; "REMOVE_FROM_CRL"; "UNSPECIFIED"].
Definition IsValidRevocationReason (r : string) : bool :=
  existsb (String.eqb r) RevocationReasons.
