(* ===== verification/Float64.v ===== *)
(** IEEE-754 binary64 arithmetic (Go's [float64]) by the executable
    specification of the Standard Library: precision 53, maximal exponent 1024,
    round to nearest even. *)

From Stdlib Require Import Floats.SpecFloat.
From S2P Require Import Prelude.

#[local] Open Scope Z_scope.

Definition float64 : Type := spec_float.

Definition f64_of_Z (z : Z) : float64 := binary_normalize 53 1024 z 0 false.
Definition f64_add (a b : float64) : float64 := SFadd 53 1024 a b.
Definition f64_mul (a b : float64) : float64 := SFmul 53 1024 a b.
Definition f64_div (a b : float64) : float64 := SFdiv 53 1024 a b.
Definition f64_ltb (a b : float64) : bool := SFltb a b.
Definition f64_zero : float64 := S754_zero false.

(** [int(f)]: truncation toward zero. Out of range (infinities, NaN, beyond
    int64) Go leaves the value to the implementation; amd64 gives min_int64. *)
Definition f64_to_int (f : float64) : Z :=
  match f with
  | S754_finite s m e =>
      let v := if 0 <=? e then Z.pos m * 2 ^ e else Z.pos m / 2 ^ (- e) in
      let v := if s then - v else v in
      if (min_i64 <=? v) && (v <=? max_i64) then v else min_i64
  | S754_zero _ => 0
  | _ => min_i64
  end.

(** [time.Duration.Seconds()] of a duration in nanoseconds. *)
Definition Duration_Seconds (d : Z) : float64 :=
  f64_add (f64_of_Z (Z.quot d 1000000000))
          (f64_div (f64_of_Z (Z.rem d 1000000000)) (f64_of_Z 1000000000)).

Example f64_ratio : f64_to_int (f64_mul (f64_of_Z 5) (f64_div (f64_of_Z 2) (f64_of_Z 3))) = 3.
Proof. vm_compute. reflexivity. Qed.
