(* ===== verification/Number.v ===== *)
(** [strconv.ParseFloat] and the shortest [strconv.FormatFloat] on binary64:
    correct rounding of a decimal, the shortest decimal that reads back, and the
    theorem that it does. *)

From Stdlib Require Import Floats.SpecFloat.
From S2P Require Import Prelude GoStrings Json Float64.

#[local] Open Scope string_scope.
#[local] Open Scope Z_scope.

(** ** Rounding a ratio of integers to binary64 *)

(** Round half to even of [x / y]. *)
Definition round_half_even (x y : Z) : Z :=
  let q := x / y in
  let r := x mod y in
  if (y <? 2 * r) || ((y =? 2 * r) && Z.odd q) then q + 1 else q.

(** One over the smallest positive double. *)
Definition float_den : Z := 2 ^ 1074.

(** Mantissa and exponent of the double nearest to [n / d > 0]; [None] when it
    is beyond the largest one. All magnitudes are in units of 2^-1074, the
    smallest positive double. *)
Definition round_ratio (n d : Z) : option (Z * Z) :=
  let x := n * float_den in
  let e := Z.max (-1074) (Z.log2 (x / d) - 1126) in
  let m := round_half_even x (d * 2 ^ (e + 1074)) in
  let me := if m =? 2 ^ 53 then (2 ^ 52, e + 1) else (m, e) in
  if snd me <=? 971 then Some me else None.

(** A decimal [c * 10^q] as a ratio. *)
Definition dec_num (c q : Z) : Z := c * 10 ^ Z.max 0 q.
Definition dec_den (q : Z) : Z := 10 ^ Z.max 0 (- q).

Definition make_float (neg : bool) (m e : Z) : float64 :=
  match m with Zpos p => S754_finite neg p e | _ => S754_zero neg end.

(** ** [ParseFloat(s, 64)] *)

Fixpoint read_digits (acc cnt : Z) (s : string) : Z * Z * string :=
  match s with
  | String c t => if is_digit c then read_digits (acc * 10 + digit_val c) (cnt + 1) t else (acc, cnt, s)
  | "" => (acc, cnt, s)
  end.

(** The exponent stops growing at 10000. *)
Fixpoint read_exp (acc : Z) (s : string) : option Z :=
  match s with
  | "" => Some acc
  | String c t =>
      if is_digit c then read_exp (if acc <? 10000 then acc * 10 + digit_val c else acc) t else None
  end.

Definition read_signed_exp (s : string) : option Z :=
  match s with
  | "" => None
  | String c t =>
      if Ascii.eqb c "-" then match t with "" => None | _ => option_map Z.opp (read_exp 0 t) end
      else if Ascii.eqb c "+" then match t with "" => None | _ => read_exp 0 t end
      else read_exp 0 s
  end.

Definition read_fraction (m : Z) (s : string) : Z * Z * string :=
  match s with
  | String c t => if Ascii.eqb c "." then read_digits m 0 t else (m, 0, s)
  | "" => (m, 0, s)
  end.

(** [readFloat] of a decimal literal without sign: digits, fraction, exponent. *)
Definition readFloat (s : string) : option (Z * Z) :=
  let '(m1, n1, s1) := read_digits 0 0 s in
  let '(m2, n2, s2) := read_fraction m1 s1 in
  if n1 + n2 =? 0 then None else
  match s2 with
  | "" => Some (m2, - n2)
  | String c t =>
      if Ascii.eqb c "e" || Ascii.eqb c "E" then option_map (fun e => (m2, e - n2)) (read_signed_exp t)
      else None
  end.

Definition ParseFloat_pos (neg : bool) (s : string) : option float64 :=
  match readFloat s with
  | None => None
  | Some (m, q) =>
      if m =? 0 then Some (S754_zero neg)
      else option_map (fun me => make_float neg (fst me) (snd me)) (round_ratio (dec_num m q) (dec_den q))
  end.

(** [None] stands for an error: a syntax error, or a value out of range. *)
Definition ParseFloat (s : string) : option float64 :=
  match s with
  | String "-" t => ParseFloat_pos true t
  | _ => ParseFloat_pos false s
  end.

(** ** [FormatFloat(f, fmt, -1, 64)] *)

Fixpoint ndigits (fuel : nat) (n : Z) : Z :=
  match fuel with
  | O => 0
  | S k => if n <? 10 then 1 else 1 + ndigits k (n / 10)
  end.

(** The double [m * 2^e] is [m * 2^(e+1074) / 2^1074]. *)
Definition float_num (m e : Z) : Z := m * 2 ^ (e + 1074).
(** [k] with [10^(k-1) <= m * 2^e < 10^k]. *)
Definition dec_exponent (m e : Z) : Z := ndigits 700 (float_num m e * 10 ^ 330 / float_den) - 330.

Definition reads_back (m e c q : Z) : bool :=
  match round_ratio (dec_num c q) (dec_den q) with
  | Some (m', e') => (m' =? m) && (e' =? e)
  | None => false
  end.

(** The double in units of [10^q], as a ratio. *)
Definition pick_num (m e q : Z) : Z := float_num m e * dec_den q.
Definition pick_den (q : Z) : Z := float_den * 10 ^ Z.max 0 q.

(** The decimals with exponent [q] on either side of the double, and the one to
    take among those that read back: the closer, the even one on a tie. *)
Definition pick (m e q : Z) : option Z :=
  let x := pick_num m e q in
  let y := pick_den q in
  let lo := x / y in
  let r := x mod y in
  let near := if (2 * r <? y) || ((2 * r =? y) && Z.even lo) then lo else lo + 1 in
  let far := if near =? lo then lo + 1 else lo in
  if reads_back m e near q then Some near else if reads_back m e far q then Some far else None.

(** The fewest digits for which some decimal reads back. *)
Fixpoint search (todo : nat) (nd : Z) (m e k : Z) : option (Z * Z) :=
  match todo with
  | O => None
  | S t =>
      match pick m e (k - nd) with
      | Some c => Some (c, k - nd)
      | None => search t (nd + 1) m e k
      end
  end.

Definition shortest (m e : Z) : Z * Z :=
  match search 17 1 m e (dec_exponent m e) with
  | Some (c, q) => if c =? 10 then (1, q + 1) else (c, q)
  | None => (0, 0)
  end.

Fixpoint zeros (n : nat) : string :=
  match n with O => "" | S k => String "0" (zeros k) end.

(** [fmtF] and [fmtE] of the digits [ds] with the decimal point after [dp] of
    them. *)
Definition fmtF (ds : string) (dp : Z) : string :=
  if dp <=? 0 then "0." ++ zeros (Z.to_nat (- dp)) ++ ds
  else if len ds <=? dp then ds ++ zeros (Z.to_nat (dp - len ds))
  else str_take (Z.to_nat dp) ds ++ "." ++ str_drop (Z.to_nat dp) ds.

Definition fmtE (ds : string) (dp : Z) : string :=
  let ex := dp - 1 in
  let ax := Z.abs ex in
  str_take 1 ds ++ (match str_drop 1 ds with "" => "" | t => "." ++ t end)
  ++ "e" ++ (if ex <? 0 then "-" else "+") ++ (if ax <? 10 then "0" else "") ++ fmt_d ax.

Inductive float_format := FormatF | FormatE.

Definition FormatFloat (fmt : float_format) (f : float64) : string :=
  match f with
  | S754_finite neg p e =>
      let '(c, q) := shortest (Zpos p) e in
      let ds := fmt_d c in
      let body := match fmt with FormatF => fmtF ds (len ds + q) | FormatE => fmtE ds (len ds + q) end in
      (if neg then "-" else "") ++ body
  | S754_zero neg => (if neg then "-" else "") ++ match fmt with FormatF => "0" | FormatE => "0e+00" end
  | S754_infinity neg => if neg then "-Inf" else "+Inf"
  | S754_nan => "NaN"
  end.

Example fmt_ex1 : option_map (FormatFloat FormatF) (ParseFloat "-0.10") = Some "-0.1".
Proof. vm_compute. reflexivity. Qed.
Example fmt_ex2 : option_map (FormatFloat FormatE) (ParseFloat "1500e-9") = Some "1.5e-06".
Proof. vm_compute. reflexivity. Qed.
Example fmt_ex3 : ParseFloat "1.7976931348623159e308" = None.
Proof. vm_compute. reflexivity. Qed.

Lemma pow10_pos (k : Z) : 0 <= k -> 0 < 10 ^ k.
Proof. intros. apply Z.pow_pos_nonneg; lia. Qed.

Lemma two_pow_pos (k : Z) : 0 <= k -> 0 < 2 ^ k.
Proof. intros. apply Z.pow_pos_nonneg; lia. Qed.

Lemma float_den_pos : 0 < float_den.
Proof. apply two_pow_pos. lia. Qed.

#[local] Opaque float_den.

(** ** The rounding finds a double from every decimal near it *)

(** The doubles: normal with 53 bits, or subnormal. *)
Definition canonical (m e : Z) : Prop :=
  0 < m < 2 ^ 53 /\ -1074 <= e <= 971 /\ (e = -1074 \/ 2 ^ 52 <= m).

Lemma round_half_even_near (x y m : Z) :
  0 < y -> (2 * m - 1) * y < 2 * x -> 2 * x < (2 * m + 1) * y -> round_half_even x y = m.
Proof.
  intros Hy Hl Hu. unfold round_half_even.
  pose proof (Z.div_mod x y ltac:(lia)) as Hx. pose proof (Z.mod_pos_bound x y Hy) as Hr.
  set (q := x / y) in *. set (r := x mod y) in *. clearbody q r.
  assert (Hq : q = m \/ q = m - 1) by nia.
  destruct Hq as [-> | ->].
  - rewrite (proj2 (Z.ltb_ge y (2 * r))) by nia. rewrite (proj2 (Z.eqb_neq y (2 * r))) by nia. reflexivity.
  - rewrite (proj2 (Z.ltb_lt y (2 * r))) by nia. cbn. lia.
Qed.

Lemma log2_between (t k : Z) : 0 <= k -> 2 ^ k <= t < 2 ^ (k + 1) -> Z.log2 t = k.
Proof. intros Hk Ht. apply Z.log2_unique; lia. Qed.

(** [x / d] in units of 2^-1074 within half a unit in the last place (a
    quarter below a power of two) of [m * 2^s]. *)
Definition near_double (x d m s : Z) : Prop :=
  (2 * m - 1) * (d * 2 ^ s) < 2 * x /\ 2 * x < (2 * m + 1) * (d * 2 ^ s) /\
  (m = 2 ^ 52 -> (4 * m - 1) * (d * 2 ^ s) < 4 * x).

Lemma two_pow_succ (s : Z) : 1 <= s -> 2 ^ s = 2 * 2 ^ (s - 1).
Proof. intros Hs. replace s with (Z.succ (s - 1)) at 1 by lia. apply Z.pow_succ_r. lia. Qed.

Lemma rounded_exponent_same (x d m s : Z) :
  0 < d -> 0 <= x -> 0 < m < 2 ^ 53 -> 0 <= s -> (s = 0 \/ 2 ^ 52 <= m) ->
  near_double x d m s -> (s = 0 \/ m * 2 ^ s * d <= x \/ m <> 2 ^ 52) ->
  Z.max (-1074) (Z.log2 (x / d) - 1126) = s - 1074.
Proof.
  intros Hd Hx Hm Hs Hn (Hl & Hu & _) Hcase.
  pose proof (Z.pow_pos_nonneg 2 s ltac:(lia) Hs) as Hp.
  pose proof (Z.mul_div_le x d Hd) as Hle. pose proof (Z.mul_succ_div_gt x d Hd) as Hgt.
  set (t := x / d) in *. set (p := 2 ^ s) in *.
  assert (Hup : t < (m + 1) * p) by nia.
  destruct (Z.eq_dec s 0) as [->|Hs0].
  - change p with 1 in *. assert (Hb : t < 2 ^ 53).
    { assert (t <= m) by nia. lia. }
    assert (Z.log2 t < 53) by (destruct (Z_lt_le_dec 0 t); [apply Z.log2_lt_pow2; lia | rewrite Z.log2_nonpos by lia; lia]).
    lia.
  - destruct Hn as [->|Hn]; [lia|].
    assert (Hlow : 2 ^ 52 * p <= t).
    { destruct Hcase as [?|[Hc|Hc]]; [lia| |].
      - assert (m * p <= t) by nia. nia.
      - assert ((m - 1) * p <= t) by nia. nia. }
    rewrite (log2_between t (52 + s)); [lia | lia|].
    rewrite !Z.pow_add_r by lia. fold p. change (2 ^ 1) with 2. nia.
Qed.

Lemma round_ratio_near (n d m e : Z) :
  0 < d -> 0 <= n -> canonical m e -> near_double (n * float_den) d m (e + 1074) ->
  round_ratio n d = Some (m, e).
Proof.
  intros Hd Hn0 (Hm & He & Hn) Hnear. unfold round_ratio.
  set (s := e + 1074) in *. set (x := n * float_den) in *.
  assert (Hx : 0 <= x) by (unfold x; pose proof float_den_pos; nia). clearbody x.
  assert (Hs : 0 <= s) by lia. assert (Hn' : s = 0 \/ 2 ^ 52 <= m) by lia.
  pose proof (Z.pow_pos_nonneg 2 s ltac:(lia) Hs) as Hp.
  assert (Hc : (s = 0 \/ m * 2 ^ s * d <= x \/ m <> 2 ^ 52) \/ (m = 2 ^ 52 /\ s <> 0 /\ x < m * 2 ^ s * d)) by lia.
  destruct Hc as [Hc|(-> & Es & Hlt)].
  { rewrite (rounded_exponent_same x d m s) by auto.
    replace (s - 1074 + 1074) with s by lia. destruct Hnear as (Hl & Hu & _).
    rewrite (round_half_even_near x (d * 2 ^ s) m) by nia.
    rewrite (proj2 (Z.eqb_neq m (2 ^ 53))) by lia. cbn [snd].
    rewrite (proj2 (Z.leb_le (s - 1074) 971)) by lia. repeat f_equal. lia. }
  (* just below a power of two: the exponent is one lower and the rounding carries *)
  destruct Hnear as (_ & _ & Hq). specialize (Hq eq_refl).
  pose proof (two_pow_succ s ltac:(lia)) as Hss.
  pose proof (Z.pow_pos_nonneg 2 (s - 1) ltac:(lia) ltac:(lia)) as Hp1.
  assert (Hlog : Z.log2 (x / d) = 51 + s).
  { apply log2_between; [lia|]. rewrite !Z.pow_add_r, Hss by lia.
    pose proof (Z.mul_div_le x d Hd). pose proof (Z.mul_succ_div_gt x d Hd).
    set (t := x / d) in *. set (p := 2 ^ (s - 1)) in *. change (2 ^ 1) with 2. rewrite Hss in *. nia. }
  rewrite Hlog. rewrite Z.max_r by lia. replace (51 + s - 1126 + 1074) with (s - 1) by lia.
  rewrite (round_half_even_near x (d * 2 ^ (s - 1)) (2 ^ 53)) by nia.
  cbn [Z.eqb]. rewrite Z.eqb_refl. cbn [snd]. rewrite (proj2 (Z.leb_le _ _)) by lia.
  repeat f_equal; lia.
Qed.

(** ** The shortest decimal exists and reads back *)

Lemma ndigits_spec (fuel : nat) (n : Z) :
  0 < n < 10 ^ Z.of_nat fuel ->
  1 <= ndigits fuel n /\ 10 ^ (ndigits fuel n - 1) <= n < 10 ^ ndigits fuel n.
Proof.
  revert n. induction fuel as [|k IH]; intros n [H0 Hn]; [cbn in Hn; lia|].
  cbn [ndigits]. destruct (Z.ltb_spec n 10) as [Hlt|Hge]; [change (10 ^ 1) with 10; cbn; lia|].
  rewrite Nat2Z.inj_succ, Z.pow_succ_r in Hn by lia.
  pose proof (Z.div_mod n 10 ltac:(lia)) as Hd. pose proof (Z.mod_pos_bound n 10 ltac:(lia)) as Hr.
  destruct (IH (n / 10)) as (K1 & K2 & K3); [split; [nia | apply Z.div_lt_upper_bound; lia]|].
  set (t := ndigits k (n / 10)) in *. replace (1 + t - 1) with t by lia.
  rewrite (Z.pow_add_r 10 1 t) by lia. change (10 ^ 1) with 10.
  replace (10 ^ t) with (10 * 10 ^ (t - 1)) in * by (rewrite <- Z.pow_succ_r by lia; f_equal; lia).
  split; [lia|]. nia.
Qed.

Lemma ndigits_fuel (fuel : nat) (n : Z) : ndigits fuel n <= Z.of_nat fuel.
Proof.
  revert n. induction fuel as [|k IH]; intros n; cbn [ndigits]; [lia|].
  specialize (IH (n / 10)). case_match; lia.
Qed.

Lemma float_num_bounds (m e : Z) :
  canonical m e -> 0 < float_num m e < 2 ^ 2098.
Proof.
  intros ((H1 & H2) & (H3 & H4) & _). unfold float_num. pose proof (two_pow_pos (e + 1074) ltac:(lia)).
  split; [nia|].
  assert (2 ^ (e + 1074) <= 2 ^ 2045) by (apply Z.pow_le_mono_r; lia).
  replace (2 ^ 2098) with (2 ^ 53 * 2 ^ 2045) by (rewrite <- Z.pow_add_r by lia; reflexivity).
  nia.
Qed.

(** The decimal exponent brackets the double: [f] is the ratio [x / y]. *)
Lemma dec_exponent_spec (m e : Z) :
  canonical m e ->
  10 ^ (dec_exponent m e + 329) * float_den <= float_num m e * 10 ^ 330 < 10 ^ (dec_exponent m e + 330) * float_den /\
  -329 <= dec_exponent m e.
Proof.
  intros Hc. unfold dec_exponent. pose proof (float_num_bounds m e Hc) as [Hp Hb].
  set (n := float_num m e) in *. clearbody n.
  pose proof float_den_pos as Hd.
  set (t := n * 10 ^ 330 / float_den).
  assert (Ht : 0 < t < 10 ^ Z.of_nat 700).
  { split.
    - apply Z.div_str_pos. split; [exact Hd|].
      assert (float_den <= 10 ^ 330) by (apply Z.leb_le; vm_compute; reflexivity). nia.
    - apply Z.div_lt_upper_bound; [exact Hd|].
      assert (2 ^ 2098 * 10 ^ 330 <= float_den * 10 ^ Z.of_nat 700) by (apply Z.leb_le; vm_compute; reflexivity).
      pose proof (pow10_pos 330 ltac:(lia)). nia. }
  destruct (ndigits_spec 700 t Ht) as (K1 & K2 & K3).
  replace (ndigits 700 t - 330 + 329) with (ndigits 700 t - 1) by lia.
  replace (ndigits 700 t - 330 + 330) with (ndigits 700 t) by lia.
  set (a := 10 ^ (ndigits 700 t - 1)) in *. set (b := 10 ^ ndigits 700 t) in *. clearbody a b.
  pose proof (Z.mul_div_le (n * 10 ^ 330) float_den Hd) as Hle.
  pose proof (Z.mul_succ_div_gt (n * 10 ^ 330) float_den Hd) as Hgt. fold t in Hle, Hgt.
  split; [|lia]. split; nia.
Qed.

Lemma pick_den_pos (q : Z) : 0 < pick_den q.
Proof. unfold pick_den. pose proof float_den_pos. pose proof (pow10_pos (Z.max 0 q) ltac:(lia)). nia. Qed.

Lemma dec_den_pos (q : Z) : 0 < dec_den q.
Proof. apply pow10_pos. lia. Qed.

(** Cancelling powers of ten in [10^a * y < n * 10^b]. *)
Lemma cancel_pow10 (a b c d n y : Z) :
  0 <= a -> 0 <= b -> 0 <= c -> 0 <= d -> a + d = b + c ->
  (10 ^ a * y <= n * 10 ^ b <-> 10 ^ c * y <= n * 10 ^ d).
Proof.
  intros Ha Hb Hc Hd E.
  rewrite (Z.mul_le_mono_pos_r (10 ^ a * y) (n * 10 ^ b) (10 ^ d)) by (apply pow10_pos; lia).
  rewrite (Z.mul_le_mono_pos_r (10 ^ c * y) (n * 10 ^ d) (10 ^ b)) by (apply pow10_pos; lia).
  replace (10 ^ a * y * 10 ^ d) with (10 ^ (a + d) * y) by (rewrite Z.pow_add_r by lia; ring).
  replace (10 ^ c * y * 10 ^ b) with (10 ^ (b + c) * y) by (rewrite Z.pow_add_r by lia; ring).
  rewrite E. replace (n * 10 ^ d * 10 ^ b) with (n * 10 ^ b * 10 ^ d) by ring. reflexivity.
Qed.

(** At [nd] digits the double lies between [10^(nd-1)] and [10^nd] units. *)
Lemma scaled_bounds (m e nd : Z) :
  canonical m e -> 1 <= nd ->
  let q := dec_exponent m e - nd in
  10 ^ (nd - 1) * pick_den q <= pick_num m e q < 10 ^ nd * pick_den q.
Proof.
  intros Hc Hnd q. destruct (dec_exponent_spec m e Hc) as [[K1 K2] K3].
  set (k := dec_exponent m e) in *. unfold pick_num, pick_den, dec_den.
  set (n := float_num m e) in *.
  assert (G : forall t, nd - 1 <= t -> 10 ^ (t + q + 330) * float_den <= n * 10 ^ 330 <->
              10 ^ t * (float_den * 10 ^ Z.max 0 q) <= n * 10 ^ Z.max 0 (- q)).
  { intros t Ht. destruct (Z_le_gt_dec 0 q) as [Hq|Hq].
    - rewrite Z.max_r, Z.max_l by lia.
      rewrite (cancel_pow10 _ 330 (t + q) 0) by lia.
      replace (10 ^ t * (float_den * 10 ^ q)) with (10 ^ (t + q) * float_den)
        by (rewrite Z.pow_add_r by lia; ring). reflexivity.
    - rewrite Z.max_l, Z.max_r by lia. change (10 ^ 0) with 1. rewrite Z.mul_1_r.
      apply cancel_pow10; lia. }
  split.
  - apply G; [lia|]. replace (nd - 1 + q + 330) with (k + 329) by lia. exact K1.
  - apply Z.lt_nge. rewrite <- G by lia. replace (nd + q + 330) with (k + 330) by lia. lia.
Qed.

Lemma reads_back_round (m e c q : Z) :
  reads_back m e c q = true -> round_ratio (dec_num c q) (dec_den q) = Some (m, e).
Proof.
  unfold reads_back. destruct (round_ratio _ _) as [[m' e']|]; [|discriminate].
  intros K. bool_hyps. subst. reflexivity.
Qed.

(** An error of half a unit of the seventeenth digit is below a quarter of a
    unit in the last place: 10^16 exceeds 2^53. *)
Lemma near_double_close (m d s y v : Z) :
  0 < m < 2 ^ 53 -> 0 < d -> 0 <= s -> 0 < y ->
  10000000000000000 * y <= m * 2 ^ s * d -> Z.abs (2 * (m * 2 ^ s * d) - 2 * v) <= y ->
  near_double v d m s.
Proof.
  intros Hm Hd Hs Hy Hlow Hclose. pose proof (two_pow_pos s Hs) as Hp.
  unfold near_double. assert (Hu : 0 < d * 2 ^ s) by nia.
  replace (m * 2 ^ s * d) with (m * (d * 2 ^ s)) in * by ring.
  set (u := d * 2 ^ s) in *. clearbody u.
  change (2 ^ 53) with 9007199254740992 in *. change (2 ^ 52) with 4503599627370496 in *.
  assert (Hmu : m * u <= 9007199254740991 * u) by (apply Z.mul_le_mono_nonneg_r; lia).
  replace ((2 * m - 1) * u) with (2 * (m * u) - u) by ring.
  replace ((2 * m + 1) * u) with (2 * (m * u) + u) by ring.
  replace ((4 * m - 1) * u) with (4 * (m * u) - u) by ring.
  split; [|split; [|intros ->]]; lia.
Qed.

(** At 17 digits the closer neighbour reads back. *)
Lemma reads_back_17 (m e c : Z) :
  canonical m e ->
  let q := dec_exponent m e - 17 in
  0 <= c -> Z.abs (2 * pick_num m e q - 2 * (c * pick_den q)) <= pick_den q ->
  reads_back m e c q = true.
Proof.
  intros Hc q Hc0 Hclose. destruct (scaled_bounds m e 17 Hc ltac:(lia)) as [Hlow _]. fold q in Hlow.
  clearbody q. pose proof (pick_den_pos q) as Hy. pose proof (dec_den_pos q) as Hq.
  assert (Hr : round_ratio (dec_num c q) (dec_den q) = Some (m, e)).
  { apply round_ratio_near; [exact Hq| |exact Hc|].
    { unfold dec_num. pose proof (pow10_pos (Z.max 0 q) ltac:(lia)). nia. }
    replace (dec_num c q * float_den) with (c * pick_den q) by (unfold dec_num, pick_den; ring).
    destruct Hc as (Hm & He & _).
    apply (near_double_close m (dec_den q) (e + 1074) (pick_den q)); [exact Hm|exact Hq|lia|exact Hy|exact Hlow|exact Hclose]. }
  unfold reads_back. rewrite Hr, !Z.eqb_refl. reflexivity.
Qed.

(** A decimal [shortest] may return: it reads back and has at most 17 digits,
    or 10^17 itself. *)
Definition good (m e : Z) (cq : Z * Z) : Prop :=
  0 < fst cq <= 10 ^ 17 /\ -400 <= snd cq <= 400 /\ round_ratio (dec_num (fst cq) (snd cq)) (dec_den (snd cq)) = Some (m, e).

Lemma round_ratio_zero (d : Z) : 0 < d -> round_ratio 0 d = Some (0, -1074).
Proof.
  intros Hd. unfold round_ratio. rewrite Z.mul_0_l, Z.div_0_l by lia.
  change (Z.max (-1074) (Z.log2 0 - 1126)) with (-1074).
  unfold round_half_even. change (2 ^ (-1074 + 1074)) with 1. rewrite Z.mul_1_r, Z.div_0_l, Z.mod_0_l by lia.
  rewrite (proj2 (Z.ltb_ge d (2 * 0))) by lia. rewrite (proj2 (Z.eqb_neq d (2 * 0))) by lia. reflexivity.
Qed.

Lemma pick_good (m e nd c : Z) :
  canonical m e -> 1 <= nd <= 17 ->
  pick m e (dec_exponent m e - nd) = Some c -> good m e (c, dec_exponent m e - nd).
Proof.
  intros Hc Hnd. pose proof (scaled_bounds m e nd Hc ltac:(lia)) as [Hl Hu].
  assert (Hq : -400 <= dec_exponent m e - nd <= 400).
  { destruct (dec_exponent_spec m e Hc) as [_ K]. unfold dec_exponent in *.
    pose proof (ndigits_fuel 700 (float_num m e * 10 ^ 330 / float_den)). lia. }
  set (q := dec_exponent m e - nd) in *. unfold pick.
  pose proof (pick_den_pos q) as Hy. set (x := pick_num m e q) in *. set (y := pick_den q) in *.
  assert (H10 : 0 < 10 ^ (nd - 1)) by (apply pow10_pos; lia).
  assert (H17 : 10 ^ nd <= 10 ^ 17) by (apply Z.pow_le_mono_r; lia).
  assert (Hlo : 0 <= x / y) by (apply Z.div_pos; nia).
  assert (Hhi : x / y < 10 ^ nd) by (apply Z.div_lt_upper_bound; lia).
  set (near := if _ || _ then x / y else x / y + 1).
  assert (Hn : near = x / y \/ near = x / y + 1) by (unfold near; case_match; auto).
  clearbody near.
  assert (Hg : forall c, c = x / y \/ c = x / y + 1 -> reads_back m e c q = true -> good m e (c, q)).
  { intros c' Hc' Hr. apply reads_back_round in Hr. unfold good; cbn [fst snd].
    split; [|split; [exact Hq|exact Hr]]. split; [|lia]. destruct (Z.eq_dec c' 0) as [->|]; [|lia]. exfalso.
    unfold dec_num in Hr. rewrite Z.mul_0_l, round_ratio_zero in Hr by apply dec_den_pos.
    injection Hr as <- <-. destruct Hc as ((? & ?) & _). lia. }
  destruct (reads_back m e near q) eqn:E1; [intros [= <-]; auto|].
  match goal with |- context [if reads_back m e ?f q then _ else _] => set (far := f) end.
  assert (Hf : far = x / y \/ far = x / y + 1) by (unfold far; case_match; auto).
  destruct (reads_back m e far q) eqn:E2; [intros [= <-]; auto | discriminate].
Qed.

Lemma pick_17 (m e : Z) : canonical m e -> pick m e (dec_exponent m e - 17) <> None.
Proof.
  intros Hc. pose proof (scaled_bounds m e 17 Hc ltac:(lia)) as [Hl Hu].
  set (q := dec_exponent m e - 17) in *. unfold pick.
  pose proof (pick_den_pos q) as Hy. set (x := pick_num m e q) in *. set (y := pick_den q) in *.
  pose proof (Z.div_mod x y ltac:(lia)) as Hx. pose proof (Z.mod_pos_bound x y Hy) as Hr.
  set (near := if _ || _ then x / y else x / y + 1).
  assert (Hn : Z.abs (2 * x - 2 * (near * y)) <= y /\ 0 <= near).
  { assert (0 <= x / y) by (apply Z.div_pos; [|lia]; pose proof (pow10_pos (17 - 1) ltac:(lia)); nia).
    unfold near. destruct ((2 * (x mod y) <? y) || ((2 * (x mod y) =? y) && Z.even (x / y))) eqn:E.
    - split; [|lia]. apply orb_true_iff in E. rewrite andb_true_iff, Z.ltb_lt, Z.eqb_eq in E. nia.
    - split; [|lia]. apply orb_false_iff in E as [E _]. apply Z.ltb_ge in E. nia. }
  pose proof (reads_back_17 m e near Hc (proj2 Hn) (proj1 Hn)) as E. fold q in E. rewrite E. discriminate.
Qed.

Lemma search_good (todo : nat) (nd m e : Z) :
  canonical m e -> 1 <= nd -> nd + Z.of_nat todo = 18 -> (todo > 0)%nat ->
  exists cq, search todo nd m e (dec_exponent m e) = Some cq /\ good m e cq.
Proof.
  intros Hc. revert nd. induction todo as [|t IH]; intros nd Hnd Hsum Ht; [lia|]. cbn [search].
  destruct (pick m e (dec_exponent m e - nd)) as [c|] eqn:E.
  - exists (c, dec_exponent m e - nd). split; [reflexivity|]. apply pick_good; auto. lia.
  - destruct t as [|t]; [|apply IH; lia].
    replace nd with 17 in E by lia. apply pick_17 in E; [contradiction | exact Hc].
Qed.

(** ** Reading a formatted number *)

Lemma round_ratio_scale (k n d : Z) : 0 < k -> 0 < d -> round_ratio (k * n) (k * d) = round_ratio n d.
Proof.
  intros Hk Hd. unfold round_ratio.
  replace (k * n * float_den) with (k * (n * float_den)) by ring. set (x := n * float_den).
  rewrite Z.div_mul_cancel_l by lia.
  set (e := Z.max (-1074) (Z.log2 (x / d) - 1126)).
  pose proof (two_pow_pos (e + 1074) ltac:(lia)) as Hp. set (p := 2 ^ (e + 1074)) in *.
  assert (E : round_half_even (k * x) (k * d * p) = round_half_even x (d * p)); [|rewrite E; reflexivity].
  unfold round_half_even. replace (k * d * p) with (k * (d * p)) by ring.
  rewrite Z.div_mul_cancel_l, Zmult_mod_distr_l by nia.
  set (r := x mod (d * p)). set (y := d * p) in *.
  assert (K1 : (k * y <? 2 * (k * r)) = (y <? 2 * r)).
  { apply eq_true_iff_eq. rewrite !Z.ltb_lt. nia. }
  assert (K2 : (k * y =? 2 * (k * r)) = (y =? 2 * r)).
  { apply eq_true_iff_eq. rewrite !Z.eqb_eq. nia. }
  rewrite K1, K2. reflexivity.
Qed.

(** The same decimal written with other digits and exponent. *)
Definition same_decimal (c q c' q' : Z) : Prop := dec_num c q * dec_den q' = dec_num c' q' * dec_den q.

Lemma round_same_decimal (c q c' q' : Z) :
  same_decimal c q c' q' ->
  round_ratio (dec_num c q) (dec_den q) = round_ratio (dec_num c' q') (dec_den q').
Proof.
  unfold same_decimal. intros E. pose proof (dec_den_pos q) as H1. pose proof (dec_den_pos q') as H2.
  rewrite <- (round_ratio_scale (dec_den q') (dec_num c q)) by assumption.
  rewrite <- (round_ratio_scale (dec_den q) (dec_num c' q')) by assumption.
  f_equal; lia.
Qed.

Lemma same_decimal_shift (c q k : Z) : 0 <= k -> same_decimal (c * 10 ^ k) q c (q + k).
Proof.
  intros Hk. unfold same_decimal, dec_num, dec_den.
  assert (E : 10 ^ k * 10 ^ Z.max 0 q * 10 ^ Z.max 0 (- (q + k)) = 10 ^ Z.max 0 (q + k) * 10 ^ Z.max 0 (- q)).
  { rewrite <- !Z.pow_add_r by lia. f_equal. lia. }
  transitivity (c * (10 ^ k * 10 ^ Z.max 0 q * 10 ^ Z.max 0 (- (q + k)))); [ring|]. rewrite E. ring.
Qed.

Lemma shortest_good (m e : Z) :
  canonical m e ->
  0 < fst (shortest m e) <= 10 ^ 17 /\ -400 <= snd (shortest m e) <= 401 /\
  round_ratio (dec_num (fst (shortest m e)) (snd (shortest m e))) (dec_den (snd (shortest m e))) = Some (m, e).
Proof.
  intros Hc. unfold shortest. destruct (search_good 17 1 m e Hc) as ([c q] & -> & (Hb & Hq & Hr)); try lia.
  unfold good in *. cbn [fst snd] in *. destruct (Z.eqb_spec c 10) as [->|Hne]; [|split; [exact Hb|]; split; [cbn [snd]; lia|exact Hr]].
  cbn [fst snd]. split; [lia|]. split; [lia|]. rewrite <- Hr. symmetry. apply round_same_decimal.
  apply (same_decimal_shift 1 q 1). lia.
Qed.

Fixpoint dval (acc : Z) (s : string) : Z :=
  match s with "" => acc | String c t => dval (acc * 10 + digit_val c) t end.

Definition no_digit (s : string) : bool := match s with "" => true | String c _ => negb (is_digit c) end.

Lemma dval_app (acc : Z) (a b : string) : dval acc (a ++ b) = dval (dval acc a) b.
Proof. revert acc. induction a as [|c a IH]; intros acc; cbn; [reflexivity | apply IH]. Qed.

Lemma dval_zeros (acc : Z) (n : nat) : dval acc (zeros n) = acc * 10 ^ Z.of_nat n.
Proof.
  revert acc. induction n as [|n IH]; intros acc; [cbn; lia|].
  cbn [zeros dval]. rewrite IH, Nat2Z.inj_succ, Z.pow_succ_r by lia.
  change (digit_val "0") with 0. ring.
Qed.

Lemma zeros_digits (n : nat) : str_forallb is_digit (zeros n) = true.
Proof. induction n as [|n IH]; [reflexivity | exact IH]. Qed.

Lemma zeros_len (n : nat) : len (zeros n) = Z.of_nat n.
Proof. unfold len. induction n as [|n IH]; [reflexivity|]. cbn [zeros String.length]. lia. Qed.

Lemma parse_digits_dval (maxVal acc : Z) (s : string) (n : Z) :
  parse_digits maxVal acc s = Some n -> dval acc s = n.
Proof.
  revert acc. induction s as [|c s IH]; intros acc; cbn; [congruence|].
  destruct (is_digit c); [|discriminate]. destruct (_ <=? maxVal); [apply IH | discriminate].
Qed.

Lemma dval_fmt (n : Z) : 0 <= n < 10 ^ 19 -> dval 0 (fmt_d n) = n.
Proof.
  intros Hn. pose proof (ParseUint_fmt_d n 64) as E. unfold ParseUint in E.
  destruct (fmt_d n) as [|c s] eqn:Ef; [destruct (fmt_d_not_empty n Ef)|].
  eapply parse_digits_dval, E; [|]; (assert (10 ^ 19 < 10 ^ 20 /\ 10 ^ 19 < 2 ^ 64) by (vm_compute; auto)); lia.
Qed.

Lemma read_digits_app (acc cnt : Z) (ds rest : string) :
  str_forallb is_digit ds = true -> no_digit rest = true ->
  read_digits acc cnt (ds ++ rest) = (dval acc ds, cnt + len ds, rest).
Proof.
  revert acc cnt. induction ds as [|c ds IH]; intros acc cnt Hd Hr.
  - cbn. replace (cnt + len "") with cnt by (unfold len; cbn; lia).
    destruct rest as [|c rest]; [reflexivity|]. cbn in *. apply negb_true_iff in Hr. rewrite Hr. reflexivity.
  - cbn [str_forallb] in Hd. apply andb_true_iff in Hd as [Hc Hd].
    cbn [String.append read_digits dval]. rewrite Hc, IH by assumption.
    unfold len. cbn [String.length]. do 2 f_equal. lia.
Qed.

(** The exponent part of a literal, [e] in the sign and digits of [x]. *)
Definition exp_text (pad : bool) (x : Z) : string :=
  "e" ++ (if x <? 0 then "-" else "+") ++ (if pad then "0" else "") ++ fmt_d (Z.abs x).

Lemma read_exp_dval (acc : Z) (s : string) :
  str_forallb is_digit s = true -> 0 <= acc -> dval acc s < 10000 -> read_exp acc s = Some (dval acc s).
Proof.
  revert acc. induction s as [|c s IH]; intros acc Hs Ha Hb; [reflexivity|].
  cbn [str_forallb] in Hs. apply andb_true_iff in Hs as [Hc Hs]. cbn [read_exp dval] in *. rewrite Hc.
  assert (Hv : 0 <= digit_val c).
  { unfold is_digit, between in Hc. bool_hyps. change (code "0") with 48 in *. unfold digit_val. lia. }
  assert (Hmono : forall s a, str_forallb is_digit s = true -> 0 <= a -> a <= dval a s).
  { clear. induction s as [|c s IH]; intros a Hs Ha; [cbn; lia|].
    cbn [str_forallb] in Hs. apply andb_true_iff in Hs as [Hc Hs].
    unfold is_digit, between in Hc. bool_hyps. change (code "0") with 48 in *.
    cbn [dval]. unfold digit_val. specialize (IH (a * 10 + (code c - 48)) Hs). lia. }
  specialize (Hmono s (acc * 10 + digit_val c) Hs ltac:(lia)).
  rewrite (proj2 (Z.ltb_lt acc 10000)) by lia. apply IH; auto; lia.
Qed.

Lemma read_exp_text (pad : bool) (x : Z) :
  Z.abs x < 10000 ->
  exists t, exp_text pad x = String "e" t /\ read_signed_exp t = Some x.
Proof.
  intros Hx. unfold exp_text. eexists. split; [reflexivity|].
  set (ds := (if pad then "0" else "") ++ fmt_d (Z.abs x)).
  assert (Hds : str_forallb is_digit ds = true).
  { unfold ds. rewrite str_forallb_app, fmt_d_digits. destruct pad; reflexivity. }
  assert (Hv : dval 0 ds = Z.abs x).
  { unfold ds. rewrite dval_app. destruct pad; cbn [dval]; apply dval_fmt; lia. }
  assert (Hr : read_exp 0 ds = Some (Z.abs x)).
  { rewrite <- Hv. apply read_exp_dval; auto; lia. }
  assert (Hne : ds <> "").
  { unfold ds. destruct pad; [discriminate|]. apply fmt_d_not_empty. }
  clearbody ds. destruct (Z.ltb_spec x 0); cbn [String.append read_signed_exp Ascii.eqb Bool.eqb];
    (destruct ds; [congruence|]); rewrite Hr; cbn [option_map]; f_equal; lia.
Qed.

(** Digits, a fraction and an exponent, the parts as they are written. *)
Lemma readFloat_parts (ip fp : string) (ex : option (bool * Z)) :
  str_forallb is_digit ip = true -> str_forallb is_digit fp = true -> ip <> "" ->
  match ex with Some (_, x) => Z.abs x < 10000 | None => True end ->
  readFloat (ip ++ (match fp with "" => "" | _ => "." ++ fp end)
             ++ match ex with Some (pad, x) => exp_text pad x | None => "" end) =
  Some (dval (dval 0 ip) fp, match ex with Some (_, x) => x | None => 0 end - len fp).
Proof.
  intros Hi Hf Hne Hx. set (et := match ex with Some (pad, x) => exp_text pad x | None => "" end).
  assert (Het : no_digit et = true /\ (forall t, et <> String "." t)).
  { unfold et. destruct ex as [[pad x]|]; [|split; [reflexivity | discriminate]].
    split; [reflexivity|]. unfold exp_text. cbn. discriminate. }
  destruct Het as [He1 He2]. unfold readFloat.
  assert (Hl : 0 < len ip) by (unfold len; destruct ip; [congruence | cbn [String.length]; lia]).
  assert (Hlf : 0 <= len fp) by (unfold len; lia).
  assert (Hend : forall m2 n2 : Z, (match et with
    | "" => Some (m2, - n2)
    | String c t => if Ascii.eqb c "e" || Ascii.eqb c "E"
                    then option_map (fun e => (m2, e - n2)) (read_signed_exp t) else None end) =
    Some (m2, match ex with Some (_, x) => x | None => 0 end - n2)).
  { intros m2 n2. unfold et. destruct ex as [[pad x]|]; [|reflexivity].
    destruct (read_exp_text pad x Hx) as (t & -> & E). cbn [Ascii.eqb Bool.eqb orb]. rewrite E. reflexivity. }
  destruct fp as [|c fp].
  - cbn [String.append]. rewrite read_digits_app by assumption.
    assert (E : read_fraction (dval 0 ip) et = (dval 0 ip, 0, et)).
    { clearbody et. destruct et as [|c t]; [reflexivity|]. cbn [read_fraction].
      destruct (Ascii.eqb c ".") eqn:Ec; [|reflexivity]. apply Ascii.eqb_eq in Ec. subst c. destruct (He2 t eq_refl). }
    rewrite E. rewrite (proj2 (Z.eqb_neq _ 0)) by lia. rewrite Hend. reflexivity.
  - rewrite str_app_assoc, read_digits_app by auto. cbn [String.append read_fraction Ascii.eqb Bool.eqb].
    rewrite (read_digits_app _ 0 (String c fp) et) by assumption.
    rewrite (proj2 (Z.eqb_neq _ 0)) by lia. rewrite Hend. reflexivity.
Qed.

(** *** The parts of a formatted number *)

(** An integer part as JSON writes it: a single zero, or no leading zero. *)
Definition lead_ok (ip : string) : bool :=
  match ip with
  | "" => false
  | String c t => if Ascii.eqb c "0" then String.eqb t "" else is_digit c
  end.

Definition nonzero_head (s : string) : bool :=
  match s with "" => false | String c _ => is_digit c && negb (Ascii.eqb c "0") end.

Definition frac_text (fp : string) : string := match fp with "" => "" | _ => "." ++ fp end.

(** A text made of these parts that denotes the decimal [c * 10^q]. *)
Definition number_text (s ip fp : string) (ex : option (bool * Z)) (c q : Z) : Prop :=
  s = ip ++ frac_text fp ++ match ex with Some (pad, x) => exp_text pad x | None => "" end /\
  str_forallb is_digit ip = true /\ str_forallb is_digit fp = true /\ lead_ok ip = true /\
  match ex with Some (_, x) => Z.abs x < 10000 | None => True end /\
  same_decimal (dval (dval 0 ip) fp) (match ex with Some (_, x) => x | None => 0 end - len fp) c q.

Lemma lead_ok_not_empty (ip : string) : lead_ok ip = true -> ip <> "".
Proof. intros E ->. discriminate. Qed.

Lemma readFloat_text (s ip fp : string) (ex : option (bool * Z)) (c q : Z) :
  number_text s ip fp ex c q ->
  exists c' q', readFloat s = Some (c', q') /\ same_decimal c' q' c q.
Proof.
  intros (-> & Hi & Hf & Hl & Hx & Hs). eexists _, _. split; [|exact Hs].
  apply readFloat_parts; auto using lead_ok_not_empty.
Qed.

Lemma str_forallb_take (p : ascii -> bool) (n : nat) (s : string) :
  str_forallb p s = true -> str_forallb p (str_take n s) = true /\ str_forallb p (str_drop n s) = true.
Proof.
  intros E. rewrite <- (str_take_drop n s), str_forallb_app in E. apply andb_true_iff in E. exact E.
Qed.

Lemma str_take_len (n : nat) (s : string) : Z.of_nat n <= len s -> len (str_take n s) = Z.of_nat n.
Proof.
  unfold len. revert s. induction n as [|n IH]; intros s Hn; [destruct s; reflexivity|].
  destruct s as [|c s]; cbn [String.length str_take] in *; [lia|]. specialize (IH s). lia.
Qed.

Lemma len_app (a b : string) : len (a ++ b) = len a + len b.
Proof. unfold len. rewrite str_length_app. lia. Qed.

Lemma str_drop_len (n : nat) (s : string) : Z.of_nat n <= len s -> len (str_drop n s) = len s - Z.of_nat n.
Proof.
  intros Hn. pose proof (str_take_len n s Hn) as E.
  rewrite <- (str_take_drop n s) at 2. rewrite len_app. lia.
Qed.

Lemma nonzero_lead (a b : string) : nonzero_head (a ++ b) = true -> a <> "" -> lead_ok a = true.
Proof.
  destruct a as [|c a]; [congruence|]. cbn. intros E _. apply andb_true_iff in E as [E1 E2].
  apply negb_true_iff in E2. rewrite E2. exact E1.
Qed.

Lemma same_decimal_refl (c q q' : Z) : q = q' -> same_decimal c q c q'.
Proof. intros ->. reflexivity. Qed.

Lemma fmtF_text (ds : string) (dp : Z) :
  str_forallb is_digit ds = true -> nonzero_head ds = true ->
  exists ip fp, number_text (fmtF ds dp) ip fp None (dval 0 ds) (dp - len ds).
Proof.
  intros Hd Hn. assert (Hl : 0 < len ds) by (destruct ds; [discriminate | unfold len; cbn [String.length]; lia]).
  unfold fmtF. destruct (Z.leb_spec dp 0) as [H1|H1]; [|destruct (Z.leb_spec (len ds) dp) as [H2|H2]].
  - exists "0", (zeros (Z.to_nat (- dp)) ++ ds). unfold number_text.
    rewrite str_forallb_app, zeros_digits, Hd.
    repeat (split; [try reflexivity|]).
    + unfold frac_text. rewrite str_app_nil_r.
      destruct (zeros (Z.to_nat (- dp)) ++ ds) eqn:E; [|reflexivity].
      apply (f_equal len) in E. rewrite len_app, zeros_len in E. unfold len in *. cbn in E. lia.
    + rewrite dval_app, len_app, dval_zeros, zeros_len. cbn [dval]. change (digit_val "0") with 0.
      apply same_decimal_refl. lia.
  - exists (ds ++ zeros (Z.to_nat (dp - len ds))), "". unfold number_text.
    rewrite str_forallb_app, zeros_digits, Hd.
    repeat (split; [try reflexivity|]).
    + cbn. rewrite str_app_nil_r. reflexivity.
    + destruct ds as [|c t]; [discriminate|]. cbn in *. apply andb_true_iff in Hn as [E1 E2].
      apply negb_true_iff in E2. rewrite E2. exact E1.
    + cbn [dval]. rewrite dval_app, dval_zeros, Z2Nat.id by lia. change (len "") with 0.
      replace (dp - len ds) with (0 - 0 + (dp - len ds)) at 2 by lia. apply same_decimal_shift. lia.
  - pose proof (str_forallb_take is_digit (Z.to_nat dp) ds Hd) as [E1 E2].
    pose proof (str_take_len (Z.to_nat dp) ds ltac:(lia)) as E3.
    pose proof (str_drop_len (Z.to_nat dp) ds ltac:(lia)) as E4.
    exists (str_take (Z.to_nat dp) ds), (str_drop (Z.to_nat dp) ds). unfold number_text.
    repeat (split; [try eassumption|]); [| |exact I|].
    + rewrite str_app_nil_r. unfold frac_text. destruct (str_drop (Z.to_nat dp) ds); [|reflexivity].
      unfold len in *. cbn in E4. lia.
    + apply (nonzero_lead _ (str_drop (Z.to_nat dp) ds)); [rewrite str_take_drop; exact Hn|].
      intros E. rewrite E in E3. unfold len in E3. cbn in E3. lia.
    + rewrite <- dval_app, str_take_drop. apply same_decimal_refl. lia.
Qed.

(** [fmtE] with the exponent padded to two digits, as Go writes it, or not. *)
Definition fmtE_pad (pad : bool) (ds : string) (dp : Z) : string :=
  str_take 1 ds ++ frac_text (str_drop 1 ds) ++ exp_text pad (dp - 1).

Lemma fmtE_eq (ds : string) (dp : Z) : fmtE ds dp = fmtE_pad (Z.abs (dp - 1) <? 10) ds dp.
Proof. unfold fmtE, fmtE_pad, frac_text, exp_text. destruct (str_drop 1 ds); reflexivity. Qed.

Lemma fmtE_text (pad : bool) (ds : string) (dp : Z) :
  str_forallb is_digit ds = true -> nonzero_head ds = true -> Z.abs (dp - 1) < 10000 ->
  exists ip fp, number_text (fmtE_pad pad ds dp) ip fp (Some (pad, dp - 1)) (dval 0 ds) (dp - len ds).
Proof.
  intros Hd Hn Hx. exists (str_take 1 ds), (str_drop 1 ds).
  assert (Hl : 1 <= len ds) by (destruct ds; [discriminate | unfold len; cbn [String.length]; lia]).
  pose proof (str_forallb_take is_digit 1 ds Hd) as [E1 E2].
  pose proof (str_drop_len 1 ds Hl) as E4. unfold number_text.
  repeat (split; [first [reflexivity | eassumption | idtac]|]).
  - apply (nonzero_lead _ (str_drop 1 ds)); [rewrite str_take_drop; exact Hn|].
    destruct ds; discriminate.
  - rewrite <- dval_app, str_take_drop. apply same_decimal_refl. lia.
Qed.

(** *** Such texts are JSON numbers *)

Lemma num_run_app (st st' : numState) (a b : string) :
  num_run st a = Some st' -> num_run st (a ++ b) = num_run st' b.
Proof.
  revert st. induction a as [|c a IH]; intros st E; cbn in *; [congruence|].
  destruct (numStep st c); [apply IH; exact E | discriminate].
Qed.

Lemma num_run_digits (st : numState) (s : string) :
  (st = N1 \/ st = NDot0 \/ st = NE0) ->
  str_forallb is_digit s = true -> num_run st s = Some st.
Proof.
  intros Hst. induction s as [|c s IH]; intros Hs; [reflexivity|].
  cbn [str_forallb] in Hs. apply andb_true_iff in Hs as [Hc Hs]. cbn [num_run].
  destruct Hst as [->|[->| ->]]; cbn [numStep]; rewrite Hc; apply IH, Hs.
Qed.

Lemma num_run_frac (st : numState) (fp : string) :
  (st = N0 \/ st = N1) -> str_forallb is_digit fp = true ->
  num_run st (frac_text fp) = Some (match fp with "" => st | _ => NDot0 end).
Proof.
  intros Hst Hf. destruct fp as [|c t]; [reflexivity|].
  cbn [str_forallb] in Hf. apply andb_true_iff in Hf as [Hc Hf].
  assert (E : num_run st (frac_text (String c t)) = num_run NDot (String c t)) by (destruct Hst as [-> | ->]; reflexivity).
  rewrite E. cbn [num_run numStep]. rewrite Hc. apply num_run_digits; auto.
Qed.

Lemma num_run_exp (st : numState) (pad : bool) (x : Z) :
  (st = N0 \/ st = N1 \/ st = NDot0) -> num_run st (exp_text pad x) = Some NE0.
Proof.
  intros Hst. unfold exp_text.
  assert (E : forall t, num_run st ("e" ++ (if x <? 0 then "-" else "+") ++ t) = num_run NESign t).
  { intros t. destruct Hst as [->|[->| ->]]; destruct (x <? 0); reflexivity. }
  rewrite E. set (ds := (if pad then "0" else "") ++ fmt_d (Z.abs x)).
  assert (Hd : str_forallb is_digit ds = true).
  { unfold ds. rewrite str_forallb_app, fmt_d_digits. destruct pad; reflexivity. }
  assert (Hne : ds <> "") by (unfold ds; destruct pad; [discriminate | apply fmt_d_not_empty]).
  clearbody ds. destruct ds as [|c t]; [congruence|]. cbn [str_forallb] in Hd.
  apply andb_true_iff in Hd as [Hc Hd]. cbn [num_run numStep]. rewrite Hc. apply num_run_digits; auto.
Qed.

(** The state after an integer part, from the start or after a sign. *)
Lemma num_run_lead (ip : string) :
  str_forallb is_digit ip = true -> lead_ok ip = true ->
  exists st, (st = N0 \/ st = N1) /\ num_run NNeg ip = Some st /\
  match ip with String c t => exists s0, numStart c = Some s0 /\ num_run s0 t = Some st | "" => False end.
Proof.
  destruct ip as [|c t]; [discriminate|]. cbn [lead_ok str_forallb]. intros Hd Hl.
  apply andb_true_iff in Hd as [Hc Hd]. cbn [num_run numStep]. unfold numStart.
  destruct (Ascii.eqb c "0") eqn:E.
  - apply String.eqb_eq in Hl. subst t. apply Ascii.eqb_eq in E. subst c. exists N0.
    split; [auto|]. split; [reflexivity|]. exists N0. split; reflexivity.
  - assert (Em : Ascii.eqb c "-" = false).
    { destruct (Ascii.eqb c "-") eqn:K; [|reflexivity]. apply Ascii.eqb_eq in K. subst. discriminate. }
    rewrite Hc, Em. exists N1. rewrite num_run_digits by auto.
    split; [auto|]. split; [reflexivity|]. exists N1. split; [reflexivity | apply num_run_digits; auto].
Qed.

Lemma number_text_valid (neg : bool) (s ip fp : string) (ex : option (bool * Z)) (c q : Z) :
  number_text s ip fp ex c q -> valid_number ((if neg then "-" else "") ++ s) = true.
Proof.
  intros (-> & Hi & Hf & Hl & Hx & _).
  destruct (num_run_lead ip Hi Hl) as (st & Hst & Hn & Hs).
  set (rest := frac_text fp ++ match ex with Some (pad, x) => exp_text pad x | None => "" end).
  assert (Hr : exists st', num_run st rest = Some st' /\ numAccepting st' = true).
  { unfold rest. erewrite num_run_app by (apply num_run_frac; assumption).
    assert (Hst' : match fp with "" => st | _ => NDot0 end = N0 \/ match fp with "" => st | _ => NDot0 end = N1 \/
                   match fp with "" => st | _ => NDot0 end = NDot0) by (destruct fp; tauto).
    set (st1 := match fp with "" => st | _ => NDot0 end) in *.
    destruct ex as [[pad x]|]; [exists NE0; split; [apply num_run_exp; exact Hst' | reflexivity]|].
    exists st1. split; [reflexivity|]. destruct Hst' as [->|[->| ->]]; reflexivity. }
  destruct Hr as (st' & Hr & Ha). destruct neg.
  - cbn [String.append valid_number numStart Ascii.eqb Bool.eqb]. 
    rewrite (num_run_app _ _ _ _ Hn), Hr. exact Ha.
  - destruct ip as [|c0 t]; [contradiction|]. destruct Hs as (s0 & E0 & E1).
    cbn [String.append valid_number]. rewrite E0, (num_run_app _ _ _ _ E1), Hr. exact Ha.
Qed.

(** *** Reading it back *)

Lemma fmt_digits_head (fuel : nat) (n : Z) (acc : string) :
  0 < n < 10 ^ Z.of_nat fuel -> nonzero_head (fmt_digits fuel n acc) = true.
Proof.
  revert n acc. induction fuel as [|fuel IH]; intros n acc [H0 Hn]; [cbn in Hn; lia|].
  cbn [fmt_digits]. pose proof (mod10_range n) as Hm. pose proof (Z.div_mod n 10 ltac:(lia)) as Hd.
  destruct (Z.ltb_spec n 10).
  - cbn. rewrite is_digit_char by exact Hm.
    destruct (Ascii.eqb (digit_char (n mod 10)) "0") eqn:E; [|reflexivity].
    apply Ascii.eqb_eq in E. apply (f_equal digit_val) in E. rewrite digit_val_char in E by exact Hm.
    change (digit_val "0") with 0 in E. rewrite Z.mod_small in E by lia. lia.
  - rewrite Nat2Z.inj_succ, Z.pow_succ_r in Hn by lia. apply IH.
    split; [lia | apply Z.div_lt_upper_bound; lia].
Qed.

Lemma fmt_d_head (n : Z) : 0 < n < 10 ^ 20 -> nonzero_head (fmt_d n) = true.
Proof. intros Hn. apply (fmt_digits_head 20 n ""). exact Hn. Qed.

Lemma ParseFloat_text (neg : bool) (s ip fp : string) (ex : option (bool * Z)) (m e c q : Z) :
  canonical m e -> number_text s ip fp ex c q ->
  round_ratio (dec_num c q) (dec_den q) = Some (m, e) ->
  ParseFloat ((if neg then "-" else "") ++ s) = Some (make_float neg m e).
Proof.
  intros Hc Ht Hr. destruct (readFloat_text s ip fp ex c q Ht) as (c' & q' & E & Hs).
  assert (Hp : ParseFloat_pos neg s = Some (make_float neg m e)).
  { unfold ParseFloat_pos. rewrite E. rewrite <- (round_same_decimal _ _ _ _ Hs) in Hr. rewrite Hr.
    destruct (Z.eqb_spec c' 0) as [->|_]; [|reflexivity]. exfalso.
    unfold dec_num in Hr. rewrite Z.mul_0_l, round_ratio_zero in Hr by apply dec_den_pos.
    injection Hr as <- <-. destruct Hc as ((? & ?) & _). lia. }
  destruct neg; [exact Hp|]. unfold ParseFloat.
  destruct Ht as (-> & Hi & _ & Hl & _). destruct ip as [|c0 t]; [discriminate|].
  cbn [str_forallb] in Hi. apply andb_true_iff in Hi as [Hi _]. cbn [String.append] in *.
  destruct c0 as [[] [] [] [] [] [] [] []]; try exact Hp; discriminate Hi.
Qed.

(** The finite doubles. *)
Definition finite (f : float64) : Prop :=
  match f with
  | S754_finite _ p e => canonical (Zpos p) e
  | S754_zero _ => True
  | _ => False
  end.

Lemma fmt_digits_length (fuel : nat) (n : Z) (acc : string) :
  (String.length (fmt_digits fuel n acc) <= fuel + String.length acc)%nat.
Proof.
  revert n acc. induction fuel as [|fuel IH]; intros n acc; cbn [fmt_digits]; [lia|].
  case_match; cbn [String.length]; [lia|]. etransitivity; [apply IH|]. cbn [String.length]. lia.
Qed.

(** The digits [FormatFloat] writes, and what they denote. *)
Lemma shortest_digits (m e c q : Z) :
  canonical m e -> shortest m e = (c, q) ->
  str_forallb is_digit (fmt_d c) = true /\ nonzero_head (fmt_d c) = true /\ dval 0 (fmt_d c) = c /\
  1 <= len (fmt_d c) <= 20 /\ -400 <= q <= 401 /\
  round_ratio (dec_num c q) (dec_den q) = Some (m, e).
Proof.
  intros Hc Es. pose proof (shortest_good m e Hc) as Hg. rewrite Es in Hg. cbn [fst snd] in Hg.
  destruct Hg as (Hb & Hq & Hr).
  assert (H17 : 10 ^ 17 < 10 ^ 19 /\ 10 ^ 19 < 10 ^ 20) by (split; reflexivity).
  split; [apply fmt_d_digits|]. split; [apply fmt_d_head; lia|]. split; [apply dval_fmt; lia|].
  split; [|auto]. unfold len, fmt_d. pose proof (fmt_digits_length 20 c "") as Hl.
  pose proof (fmt_d_not_empty c) as Hne. unfold fmt_d in Hne.
  destruct (fmt_digits 20 c ""); [congruence|]. cbn [String.length] in *. lia.
Qed.

(** Every finite double but zero is written as such a text, in both formats
    and with or without the padding of the exponent. *)
Lemma formatted_text (fmt : float_format) (pad : bool) (m e c q : Z) :
  canonical m e -> shortest m e = (c, q) ->
  exists ip fp ex, number_text
    (match fmt with FormatF => fmtF (fmt_d c) (len (fmt_d c) + q) | FormatE => fmtE_pad pad (fmt_d c) (len (fmt_d c) + q) end)
    ip fp ex c q.
Proof.
  intros Hc Es. destruct (shortest_digits m e c q Hc Es) as (K1 & K2 & K3 & K4 & K5 & _).
  assert (Eq : len (fmt_d c) + q - len (fmt_d c) = q) by lia.
  destruct fmt.
  - destruct (fmtF_text (fmt_d c) (len (fmt_d c) + q) K1 K2) as (ip & fp & Ht).
    rewrite K3, Eq in Ht. eauto.
  - destruct (fmtE_text pad (fmt_d c) (len (fmt_d c) + q) K1 K2) as (ip & fp & Ht); [lia|].
    rewrite K3, Eq in Ht. eauto.
Qed.

(** Parsing what was formatted gives the double back. *)
Lemma ParseFloat_FormatFloat (fmt : float_format) (f : float64) :
  finite f -> ParseFloat (FormatFloat fmt f) = Some f.
Proof.
  destruct f as [neg|neg| |neg p e]; intros Hf; try contradiction.
  - destruct neg, fmt; reflexivity.
  - cbn [FormatFloat]. destruct (shortest (Zpos p) e) as [c q] eqn:Es.
    destruct (shortest_digits (Zpos p) e c q Hf Es) as (_ & _ & _ & _ & _ & Hr).
    destruct (formatted_text fmt (Z.abs (len (fmt_d c) + q - 1) <? 10) (Zpos p) e c q Hf Es) as (ip & fp & ex & Ht).
    rewrite fmtE_eq. exact (ParseFloat_text neg _ ip fp ex (Zpos p) e c q Hf Ht Hr).
Qed.

(** What [ParseFloat] returns is finite. *)
Lemma round_half_even_bounds (x y : Z) : x / y <= round_half_even x y <= x / y + 1.
Proof. unfold round_half_even. case_match; lia. Qed.

Lemma round_ratio_canonical (n d m e : Z) :
  0 <= n -> 0 < d -> round_ratio n d = Some (m, e) -> m = 0 \/ canonical m e.
Proof.
  intros Hn Hd. unfold round_ratio. set (x := n * float_den).
  assert (Hx : 0 <= x) by (unfold x; pose proof float_den_pos; nia). clearbody x.
  assert (Ht : 0 <= x / d) by (apply Z.div_pos; lia).
  set (e0 := Z.max (-1074) (Z.log2 (x / d) - 1126)).
  pose proof (two_pow_pos (e0 + 1074) ltac:(lia)) as Hp.
  pose proof (round_half_even_bounds x (d * 2 ^ (e0 + 1074))) as Hm.
  rewrite <- Z.div_div in Hm by lia. set (m0 := round_half_even x (d * 2 ^ (e0 + 1074))) in *.
  set (t := x / d) in *. clearbody m0 t.
  assert (Hq : 0 <= t / 2 ^ (e0 + 1074)) by (apply Z.div_pos; lia).
  assert (Hb : t / 2 ^ (e0 + 1074) < 2 ^ 53 /\ (e0 = -1074 \/ 2 ^ 52 <= t / 2 ^ (e0 + 1074))).
  { destruct (Z.eq_dec t 0) as [->|Ht0].
    { unfold e0 in *. change (Z.max (-1074) (Z.log2 0 - 1126)) with (-1074). split; [reflexivity | auto]. }
    destruct (Z.log2_spec t ltac:(lia)) as [L1 L2]. rewrite <- Z.add_1_r in L2.
    pose proof (Z.log2_nonneg t).
    destruct (Z_le_gt_dec (Z.log2 t) 52) as [Hs|Hs].
    - assert (E0 : e0 = -1074) by (unfold e0; lia). rewrite E0. split; [|auto].
      change (2 ^ (-1074 + 1074)) with 1. rewrite Z.div_1_r.
      eapply Z.lt_le_trans; [exact L2|]. apply Z.pow_le_mono_r; lia.
    - assert (E0 : e0 + 1074 = Z.log2 t - 52) by (unfold e0; lia). rewrite E0. rewrite E0 in Hp.
      split; [apply Z.div_lt_upper_bound; [lia|]; rewrite <- Z.pow_add_r by lia;
              replace (Z.log2 t - 52 + 53) with (Z.log2 t + 1) by lia; exact L2|].
      right. apply Z.div_le_lower_bound; [lia|]. rewrite <- Z.pow_add_r by lia.
      replace (Z.log2 t - 52 + 52) with (Z.log2 t) by lia. exact L1. }
  set (q := t / 2 ^ (e0 + 1074)) in *. clearbody q. unfold canonical.
  change (2 ^ 53) with 9007199254740992 in *. change (2 ^ 52) with 4503599627370496 in *.
  destruct (Z.eqb_spec m0 9007199254740992) as [E|E]; cbn [snd];
    (case_match; [|discriminate]); bool_hyps; intros [= <- <-]; lia.
Qed.

Lemma dec_num_nonneg (c q : Z) : 0 <= c -> 0 <= dec_num c q.
Proof. intros Hc. unfold dec_num. pose proof (pow10_pos (Z.max 0 q) ltac:(lia)). nia. Qed.

Lemma read_digits_nonneg (acc cnt : Z) (s : string) :
  0 <= acc -> 0 <= fst (fst (read_digits acc cnt s)).
Proof.
  revert acc cnt. induction s as [|c s IH]; intros acc cnt Ha; cbn [read_digits]; [exact Ha|].
  destruct (is_digit c) eqn:E; [|exact Ha]. apply IH. unfold is_digit, between in E. bool_hyps.
  change (code "0") with 48 in *. unfold digit_val. lia.
Qed.

Lemma readFloat_nonneg (s : string) (m q : Z) : readFloat s = Some (m, q) -> 0 <= m.
Proof.
  unfold readFloat. pose proof (read_digits_nonneg 0 0 s ltac:(lia)) as H1.
  destruct (read_digits 0 0 s) as [[m1 n1] s1]. cbn [fst] in H1.
  assert (H2 : 0 <= fst (fst (read_fraction m1 s1))).
  { destruct s1 as [|c t]; [exact H1|]. cbn [read_fraction]. case_match; [apply read_digits_nonneg|]; exact H1. }
  destruct (read_fraction m1 s1) as [[m2 n2] s2]. cbn [fst] in H2.
  case_match; [discriminate|]. destruct s2 as [|c t]; [intros [= <- <-]; exact H2|].
  case_match; [|discriminate]. destruct (read_signed_exp t); [|discriminate]. intros [= <- <-]. exact H2.
Qed.

Lemma ParseFloat_finite (s : string) (f : float64) : ParseFloat s = Some f -> finite f.
Proof.
  assert (G : forall neg t, ParseFloat_pos neg t = Some f -> finite f).
  { intros neg t. unfold ParseFloat_pos. destruct (readFloat t) as [[m q]|] eqn:E; [|discriminate].
    apply readFloat_nonneg in E. destruct (m =? 0); [intros [= <-]; exact I|].
    destruct (round_ratio (dec_num m q) (dec_den q)) as [[m' e']|] eqn:Er; [|discriminate].
    apply round_ratio_canonical in Er; [|apply dec_num_nonneg, E|apply dec_den_pos].
    intros [= <-]. cbn [fst snd make_float]. destruct Er as [->|Hc]; [exact I|].
    unfold make_float. destruct m'; exact I || exact Hc. }
  unfold ParseFloat. destruct s as [|c t]; [apply G|].
  destruct c as [[] [] [] [] [] [] [] []]; apply G.
Qed.
