(* ===== verification/Jcs.v ===== *)
(** JSON canonicalization ([verify/jcs.go]): the writer, and the theorem that two
    documents have the same canonical form exactly when they denote the same
    value. *)

From Stdlib Require Import Floats.SpecFloat.
From stdpp Require Import sorting.
From S2P Require Import Prelude GoStrings Utf8 Errors Json Float64 Number.

#[local] Open Scope string_scope.
#[local] Open Scope Z_scope.

(** ** The writer *)

(** The member of an object under [k]: with duplicates in the text, the last. *)
Fixpoint last_value {A : Type} (k : string) (ms : list (string * A)) : option A :=
  match ms with
  | [] => None
  | (k', v) :: ms' =>
      match last_value k ms' with
      | Some x => Some x
      | None => if String.eqb k k' then Some v else None
      end
  end.

(** [Decode] into [any]: an object becomes a Go map, in which the last of
    several members with one key survives. The order of the members stands for
    the unspecified order of the map. *)
Fixpoint to_any (j : json) : json :=
  match j with
  | JArray l => JArray (map to_any l)
  | JObject ms =>
      let ms' := map (fun m => (fst m, to_any (snd m))) ms in
      JObject (filter_map (fun k => option_map (fun v => (k, v)) (last_value k ms'))
                 (remove_dups (map fst ms)))
  | _ => j
  end.

(** The results of a loop that stops at the first error. *)
Fixpoint all_ok {A : Type} (l : list (result goerror A)) : result goerror (list A) :=
  match l with
  | [] => Ok []
  | r :: l' => let? x := r in let? xs := all_ok l' in Ok (x :: xs)
  end.

(** The text before and after the exponent mark. *)
Fixpoint cut_exp (s : string) : option (string * string) :=
  match s with
  | "" => None
  | String c t =>
      if Ascii.eqb c "e" || Ascii.eqb c "E" then Some ("", t)
      else option_map (fun p => (String c (fst p), snd p)) (cut_exp t)
  end.

Definition es6NumberFormat (s : string) : string :=
  match cut_exp s with
  | None => s
  | Some (mantissa, exp) =>
      let '(sign, exp) :=
        match exp with
        | String c t => if Ascii.eqb c "+" || Ascii.eqb c "-" then (String c "", t) else ("", exp)
        | "" => ("", exp)
        end in
      mantissa ++ "e" ++ sign ++ fmt_d (default 0 (ParseUint exp 63))
  end.

(** The bounds 1e-6 and 1e21 of the positional notation. *)
Definition c_1em6 : float64 := default f64_zero (ParseFloat "1e-6").
Definition c_1e21 : float64 := f64_of_Z (10 ^ 21).

Definition jcsFormat (f : float64) : result goerror string :=
  match f with
  | S754_nan | S754_infinity _ => Err (EPlain "jcs: NaN and Infinity are not valid JSON numbers")
  | S754_zero _ => Ok "0"
  | S754_finite _ _ _ =>
      let abs := SFabs f in
      if negb (f64_ltb abs c_1em6) && f64_ltb abs c_1e21 then Ok (FormatFloat FormatF f)
      else Ok (es6NumberFormat (FormatFloat FormatE f))
  end.

Definition jcsWriteNumber (n : string) : result goerror string :=
  match ParseFloat n with
  | None => Err (EWrap "jcs: invalid number" (EPlain "value out of range"))
  | Some f => jcsFormat f
  end.

Definition sort_Strings (l : list string) : list string := merge_sort String.le l.

Definition EMissing : goerror := EPlain "key not in map".

(** [jcsWriteValue]: the text appended to the buffer. *)
Fixpoint jcsWriteValue (v : json) : result goerror string :=
  match v with
  | JNull => Ok "null"
  | JBool b => Ok (if b then "true" else "false")
  | JString s => Ok (quote s)
  | JNumber n => jcsWriteNumber n
  | JArray l =>
      let? ts := all_ok (map jcsWriteValue l) in
      Ok ("[" ++ Join ts "," ++ "]")
  | JObject ms =>
      let written := map (fun m => (fst m, jcsWriteValue (snd m))) ms in
      let? ts := all_ok (map (fun k =>
        let? t := default (Err EMissing) (last_value k written) in Ok (quote k ++ ":" ++ t))
        (sort_Strings (map fst ms))) in
      Ok ("{" ++ Join ts "," ++ "}")
  end.

Definition JCSCanonicalize (data : string) : result goerror string :=
  match Decode data with
  | Err e => Err (EWrap "jcs: failed to parse JSON" e)
  | Ok v => jcsWriteValue (to_any v)
  end.

(** The fields of a Go map, each raw JSON. *)
Definition JCSCanonicalizeFields (fields : list (string * string)) : result goerror string :=
  let? parsed := all_ok (map (fun f =>
    match Decode (snd f) with
    | Err e => Err (EWrap "jcs: failed to parse field" e)
    | Ok v => Ok (fst f, to_any v)
    end) fields) in
  jcsWriteValue (JObject parsed).

Example jcs_ex : JCSCanonicalize
  (" {" ++ quote "b" ++ ": [1.50, -0, 1E2 ] , " ++ quote "a" ++ ":null," ++ quote "b" ++ " :[10e-8]} x") =
  Ok ("{" ++ quote "a" ++ ":null," ++ quote "b" ++ ":[1e-7]}").
Proof. vm_compute. reflexivity. Qed.

(** ** Canonical values *)

(** The value the writer prints: numbers respelled, members by key. *)
Fixpoint canon (v : json) : result goerror json :=
  match v with
  | JNull | JBool _ | JString _ => Ok v
  | JNumber n => let? t := jcsWriteNumber n in Ok (JNumber t)
  | JArray l => let? ws := all_ok (map canon l) in Ok (JArray ws)
  | JObject ms =>
      let rs := map (fun m => (fst m, canon (snd m))) ms in
      let? ws := all_ok (map (fun k => let? w := default (Err EMissing) (last_value k rs) in Ok (k, w))
        (sort_Strings (remove_dups (map fst ms)))) in
      Ok (JObject ws)
  end.

(** What two documents have in common when they denote the same value:
    numbers compare as doubles, the zeros being one; an object is the map from
    its keys to their last values. *)
Definition norm_zero (f : float64) : float64 := match f with S754_zero _ => S754_zero false | _ => f end.

Inductive same : json -> json -> Prop :=
| same_null : same JNull JNull
| same_bool b : same (JBool b) (JBool b)
| same_string s : same (JString s) (JString s)
| same_number a b f g : ParseFloat a = Some f -> ParseFloat b = Some g -> norm_zero f = norm_zero g ->
    same (JNumber a) (JNumber b)
| same_array l m : Forall2 same l m -> same (JArray l) (JArray m)
| same_object ms ns :
    (forall k, option_Forall2 same (last_value k ms) (last_value k ns)) ->
    same (JObject ms) (JObject ns).

(** *** Results of loops *)

Lemma all_ok_Ok {A : Type} (l : list (result goerror A)) (xs : list A) :
  all_ok l = Ok xs <-> Forall2 (fun r x => r = Ok x) l xs.
Proof.
  revert xs. induction l as [|r l IH]; intros xs; cbn [all_ok].
  - split; [intros [= <-]; constructor | intros K; inversion K; reflexivity].
  - rewrite rbind_Ok. split.
    + intros (x & -> & E). apply rbind_Ok in E as (ys & E & [= <-]). constructor; [reflexivity | apply IH, E].
    + intros K. inversion K as [|? x ? ys Hx Hl]; subst. exists x. split; [reflexivity|].
      apply rbind_Ok. exists ys. split; [apply IH, Hl | reflexivity].
Qed.

Lemma all_ok_map_ext {A B : Type} (f g : A -> result goerror B) (l : list A) :
  Forall (fun x => f x = g x) l -> all_ok (map f l) = all_ok (map g l).
Proof. induction 1 as [|x l E Hl IH]; cbn; [reflexivity|]. rewrite E, IH. reflexivity. Qed.

Lemma all_ok_map_map {A B C : Type} (f : A -> result goerror B) (g : B -> C) (l : list A) :
  all_ok (map (fun x => let? y := f x in Ok (g y)) l) = let? ys := all_ok (map f l) in Ok (map g ys).
Proof.
  induction l as [|x l IH]; cbn; [reflexivity|]. rewrite IH. destruct (f x); cbn; [|reflexivity].
  destruct (all_ok (map f l)); reflexivity.
Qed.

(** *** Members *)

Lemma last_value_map {A B : Type} (f : A -> B) (k : string) (ms : list (string * A)) :
  last_value k (map (fun m => (fst m, f (snd m))) ms) = option_map f (last_value k ms).
Proof.
  induction ms as [|[k' v] ms IH]; cbn; [reflexivity|]. rewrite IH.
  destruct (last_value k ms); cbn; [reflexivity|]. destruct (String.eqb k k'); reflexivity.
Qed.

Lemma last_value_in {A : Type} (k : string) (v : A) (ms : list (string * A)) :
  last_value k ms = Some v -> In (k, v) ms.
Proof.
  induction ms as [|[k' v'] ms IH]; cbn; [discriminate|].
  destruct (last_value k ms); [intros [= ->]; auto|].
  destruct (String.eqb k k') eqn:E; [|discriminate]. apply String.eqb_eq in E. intros [= ->]. subst. auto.
Qed.

Lemma last_value_None {A : Type} (k : string) (ms : list (string * A)) :
  last_value k ms = None <-> ~ In k (map fst ms).
Proof.
  induction ms as [|[k' v'] ms IH]; cbn; [tauto|].
  destruct (last_value k ms); [split; [discriminate|]; intros Hn; exfalso; apply Hn; right|].
  - destruct (in_dec String.string_dec k (map fst ms)) as [Hi|Hi]; [exact Hi|].
    apply IH in Hi. discriminate.
  - destruct (String.eqb_spec k k') as [->|Hne]; [split; [discriminate | tauto]|].
    split; [|reflexivity]. intros _ [E|Hi]; [congruence|]. revert Hi. apply IH. reflexivity.
Qed.

Lemma last_value_key {A : Type} (k : string) (ms : list (string * A)) :
  In k (map fst ms) <-> last_value k ms <> None.
Proof.
  rewrite last_value_None. split; [tauto|]. intros Hn.
  destruct (in_dec String.string_dec k (map fst ms)); tauto.
Qed.

Lemma last_value_unique {A : Type} (k : string) (v : A) (ms : list (string * A)) :
  List.NoDup (map fst ms) -> In (k, v) ms -> last_value k ms = Some v.
Proof.
  induction ms as [|[k' v'] ms IH]; cbn; [contradiction|]. intros Hn [E|Hi]; inversion Hn as [|? ? Hk Hn']; subst.
  - injection E as -> ->. apply last_value_None in Hk. rewrite Hk, String.eqb_refl. reflexivity.
  - rewrite (IH Hn' Hi). reflexivity.
Qed.

(** *** [canon] and the writer *)

(** Go maps: no key twice, at any depth. *)
Fixpoint any_ok (v : json) : Prop :=
  match v with
  | JArray l => fold_right (fun x P => any_ok x /\ P) True l
  | JObject ms => List.NoDup (map fst ms) /\ fold_right (fun m P => any_ok (snd m) /\ P) True ms
  | _ => True
  end.

Lemma fold_and_Forall {A : Type} (P : A -> Prop) (l : list A) :
  fold_right (fun x Q => P x /\ Q) True l <-> Forall P l.
Proof. induction l as [|x l IH]; cbn; [split; auto|]. rewrite IH, Forall_cons. reflexivity. Qed.

Lemma remove_dups_id (l : list string) : List.NoDup l -> remove_dups l = l.
Proof.
  induction 1 as [|x l Hx Hn IH]; cbn; [reflexivity|]. rewrite IH.
  destruct (decide_rel elem_of x l) as [Hi|]; [|reflexivity]. apply list_elem_of_In in Hi. contradiction.
Qed.

Lemma sort_in (k : string) (l : list string) : In k (sort_Strings l) <-> In k l.
Proof.
  unfold sort_Strings. rewrite <- !list_elem_of_In, merge_sort_Permutation. reflexivity.
Qed.

Lemma in_remove_dups (k : string) (l : list string) : In k (remove_dups l) <-> In k l.
Proof. rewrite <- !list_elem_of_In. apply elem_of_remove_dups. Qed.

(** The writer on a Go map prints the canonical value. *)
Lemma jcsWriteValue_canon (v : json) :
  any_ok v -> jcsWriteValue v = let? w := canon v in Ok (print w).
Proof.
  induction v as [|b|n|s|l IH|ms IH]; intros Hv; cbn [jcsWriteValue canon]; try reflexivity.
  - destruct (jcsWriteNumber n); reflexivity.
  - cbn [any_ok] in Hv. apply fold_and_Forall in Hv.
    rewrite (all_ok_map_ext _ (fun x => let? w := canon x in Ok (print w))).
    + rewrite all_ok_map_map. destruct (all_ok (map canon l)); reflexivity.
    + rewrite List.Forall_forall in *. auto.
  - cbn [any_ok] in Hv. destruct Hv as [Hn Hv]. apply fold_and_Forall in Hv.
    rewrite remove_dups_id by exact Hn.
    rewrite (all_ok_map_ext _ (fun k => let? m := (let? w := default (Err EMissing)
        (last_value k (map (fun m => (fst m, canon (snd m))) ms)) in Ok (k, w)) in
        Ok (quote (fst m) ++ ":" ++ print (snd m)))).
    + rewrite all_ok_map_map. destruct (all_ok _); reflexivity.
    + rewrite List.Forall_forall in *. intros k Hk. rewrite !last_value_map.
      destruct (last_value k ms) as [x|] eqn:E; [|reflexivity]. cbn [option_map default].
      apply last_value_in in E. specialize (IH _ E (Hv _ E)). cbn [snd] in IH. rewrite IH.
      destruct (canon x); reflexivity.
Qed.

(** *** Decoding into a map changes nothing the canonical value depends on *)

Definition map_members (ms : list (string * json)) : list (string * json) :=
  filter_map (fun k => option_map (fun v => (k, v)) (last_value k (map (fun m => (fst m, to_any (snd m))) ms)))
    (remove_dups (map fst ms)).

Lemma filter_map_keys {A : Type} (f : string -> option A) (l : list string) :
  (forall k, In k l -> f k <> None) ->
  map fst (filter_map (fun k => option_map (fun v => (k, v)) (f k)) l) = l.
Proof.
  induction l as [|k l IH]; intros Hf; cbn; [reflexivity|].
  destruct (f k) eqn:E; [|destruct (Hf k (or_introl eq_refl) E)]. cbn. f_equal.
  apply IH. intros k' Hk'. apply Hf. right. exact Hk'.
Qed.

Lemma map_members_keys (ms : list (string * json)) :
  map fst (map_members ms) = remove_dups (map fst ms).
Proof.
  apply filter_map_keys. intros k Hk. rewrite last_value_map.
  destruct (last_value k ms) eqn:E; [discriminate|]. apply last_value_None in E.
  apply (proj1 (in_remove_dups _ _)) in Hk. contradiction.
Qed.

Lemma NoDup_remove_dups_In (l : list string) : List.NoDup (remove_dups l).
Proof. apply NoDup_ListNoDup, NoDup_remove_dups. Qed.

Lemma map_members_value (k : string) (ms : list (string * json)) :
  last_value k (map_members ms) = option_map to_any (last_value k ms).
Proof.
  assert (Hn : List.NoDup (map fst (map_members ms))) by (rewrite map_members_keys; apply NoDup_remove_dups_In).
  destruct (last_value k ms) as [v|] eqn:E; cbn [option_map].
  - apply last_value_unique; [exact Hn|]. unfold map_members. apply in_filter_map. exists k.
    rewrite last_value_map, E. split; [|reflexivity]. apply in_remove_dups.
    destruct (in_dec String.string_dec k (map fst ms)) as [Hi|Hi]; [exact Hi|].
    apply last_value_None in Hi. congruence.
  - apply last_value_None. rewrite map_members_keys, in_remove_dups. apply last_value_None. exact E.
Qed.

Lemma to_any_ok (v : json) : any_ok (to_any v).
Proof.
  induction v as [|b|n|s|l IH|ms IH]; cbn [to_any any_ok]; try exact I.
  - apply fold_and_Forall, List.Forall_map, IH.
  - fold (map_members ms). split; [rewrite map_members_keys; apply NoDup_remove_dups_In|].
    apply fold_and_Forall. rewrite List.Forall_forall in *. intros [k v] Hkv.
    assert (Hn : List.NoDup (map fst (map_members ms))) by (rewrite map_members_keys; apply NoDup_remove_dups_In).
    pose proof (last_value_unique k v _ Hn Hkv) as E. rewrite map_members_value in E.
    destruct (last_value k ms) as [x|] eqn:Ex; [|discriminate]. injection E as <-.
    apply last_value_in in Ex. exact (IH _ Ex).
Qed.

Lemma canon_to_any (v : json) : canon (to_any v) = canon v.
Proof.
  induction v as [|b|n|s|l IH|ms IH]; cbn [to_any canon]; try reflexivity.
  - rewrite map_map, (all_ok_map_ext _ canon); [reflexivity | exact IH].
  - fold (map_members ms). rewrite map_members_keys, (remove_dups_id (remove_dups _)) by apply NoDup_remove_dups_In.
    erewrite all_ok_map_ext; [reflexivity|]. rewrite List.Forall_forall in *. intros k Hk.
    rewrite !last_value_map, map_members_value.
    destruct (last_value k ms) as [x|] eqn:E; [|reflexivity]. cbn [option_map default].
    apply last_value_in in E. specialize (IH _ E). cbn [snd] in IH. rewrite IH. reflexivity.
Qed.

Lemma jcsWriteValue_to_any (v : json) : jcsWriteValue (to_any v) = let? w := canon v in Ok (print w).
Proof. rewrite jcsWriteValue_canon by apply to_any_ok. rewrite canon_to_any. reflexivity. Qed.

(** *** Numbers *)

Lemma cut_exp_app (a t : string) :
  str_forallb (fun c => negb (Ascii.eqb c "e" || Ascii.eqb c "E")) a = true ->
  cut_exp (a ++ String "e" t) = Some (a, t).
Proof.
  induction a as [|c a IH]; intros Ha; [reflexivity|]. cbn [str_forallb] in Ha.
  apply andb_true_iff in Ha as [Hc Ha]. apply negb_true_iff in Hc.
  cbn [String.append cut_exp]. rewrite Hc, IH by exact Ha. reflexivity.
Qed.

Lemma digits_no_e (s : string) :
  str_forallb is_digit s = true -> str_forallb (fun c => negb (Ascii.eqb c "e" || Ascii.eqb c "E")) s = true.
Proof.
  apply str_forallb_impl. intros c Hc.
  destruct (Ascii.eqb c "e") eqn:E1; [apply Ascii.eqb_eq in E1; subst; discriminate|].
  destruct (Ascii.eqb c "E") eqn:E2; [apply Ascii.eqb_eq in E2; subst; discriminate|]. reflexivity.
Qed.

(** The exponent loses its padding, nothing else changes. *)
Lemma es6_fmtE (neg : bool) (pad : bool) (ds : string) (dp : Z) :
  str_forallb is_digit ds = true -> Z.abs (dp - 1) < 10000 ->
  es6NumberFormat ((if neg then "-" else "") ++ fmtE_pad pad ds dp) =
  (if neg then "-" else "") ++ fmtE_pad false ds dp.
Proof.
  intros Hd Hx. unfold fmtE_pad. pose proof (str_forallb_take is_digit 1 ds Hd) as [E1 E2].
  set (pre := (if neg then "-" else "") ++ str_take 1 ds ++ frac_text (str_drop 1 ds)).
  assert (Hpre : str_forallb (fun c => negb (Ascii.eqb c "e" || Ascii.eqb c "E")) pre = true).
  { unfold pre. rewrite !str_forallb_app, (digits_no_e _ E1).
    destruct neg; cbn [str_forallb andb Ascii.eqb Bool.eqb orb negb];
      (destruct (str_drop 1 ds) eqn:Ed; [reflexivity|]); unfold frac_text;
      rewrite str_forallb_app, (digits_no_e _ E2); reflexivity. }
  assert (Epre : forall t, (if neg then "-" else "") ++ str_take 1 ds ++ frac_text (str_drop 1 ds) ++ t = pre ++ t).
  { intros t. unfold pre. rewrite !str_app_assoc. reflexivity. }
  rewrite !Epre. unfold exp_text. cbn [String.append].
  unfold es6NumberFormat. rewrite cut_exp_app by exact Hpre.
  set (ex := dp - 1) in *.
  assert (Hp : default 0 (ParseUint ((if pad then "0" else "") ++ fmt_d (Z.abs ex)) 63) = Z.abs ex).
  { assert (Hb : Z.abs ex < 10 ^ 20 /\ Z.abs ex < 2 ^ 63).
    { assert (10000 < 10 ^ 20 /\ 10000 < 2 ^ 63) by (split; reflexivity). lia. }
    pose proof (ParseUint_fmt_d (Z.abs ex) 63 ltac:(lia) ltac:(lia)) as E.
    destruct pad; [|cbn [String.append]; rewrite E; reflexivity].
    unfold ParseUint in *. destruct (fmt_d (Z.abs ex)) as [|c t] eqn:Ef; [destruct (fmt_d_not_empty _ Ef)|].
    cbn [String.append]. change (parse_digits (2 ^ 63 - 1) 0 (String "0" (String c t)))
      with (parse_digits (2 ^ 63 - 1) 0 (String c t)). rewrite E. reflexivity. }
  destruct (ex <? 0); cbn [String.append Ascii.eqb Bool.eqb orb]; rewrite Hp; reflexivity.
Qed.

(** A canonical number text is a JSON number and reads back as the double it
    was written from. *)
Lemma jcsFormat_spec (f : float64) (t : string) :
  finite f -> jcsFormat f = Ok t ->
  valid_number t = true /\ ParseFloat t = Some (norm_zero f).
Proof.
  destruct f as [neg|neg| |neg p e]; intros Hf; try contradiction.
  - intros [= <-]. split; reflexivity.
  - cbn [finite norm_zero] in *. unfold jcsFormat. cbn [FormatFloat].
    destruct (shortest (Zpos p) e) as [c q] eqn:Es.
    destruct (shortest_digits (Zpos p) e c q Hf Es) as (K1 & K2 & K3 & K4 & K5 & Hr).
    assert (G : forall fmt, 
      let s := match fmt with FormatF => fmtF (fmt_d c) (len (fmt_d c) + q)
                            | FormatE => fmtE_pad false (fmt_d c) (len (fmt_d c) + q) end in
      valid_number ((if neg then "-" else "") ++ s) = true /\
      ParseFloat ((if neg then "-" else "") ++ s) = Some (S754_finite neg p e)).
    { intros fmt s. destruct (formatted_text fmt false (Zpos p) e c q Hf Es) as (ip & fp & ex & Ht).
      split; [exact (number_text_valid neg _ ip fp ex c q Ht) |
              exact (ParseFloat_text neg _ ip fp ex (Zpos p) e c q Hf Ht Hr)]. }
    rewrite fmtE_eq, es6_fmtE by (auto; lia).
    intros E. case_match_in E; injection E as <-; [apply (G FormatF) | apply (G FormatE)].
Qed.

Lemma jcsFormat_norm (f : float64) : jcsFormat (norm_zero f) = jcsFormat f.
Proof. destruct f as [[]|[]| |[]]; reflexivity. Qed.

Lemma jcsWriteNumber_spec (n t : string) :
  jcsWriteNumber n = Ok t ->
  exists f, ParseFloat n = Some f /\ valid_number t = true /\ ParseFloat t = Some (norm_zero f).
Proof.
  unfold jcsWriteNumber. destruct (ParseFloat n) as [f|] eqn:E; [|discriminate]. intros Et.
  exists f. split; [reflexivity|]. apply jcsFormat_spec; [eapply ParseFloat_finite; exact E | exact Et].
Qed.

Lemma norm_zero_idem (f : float64) : norm_zero (norm_zero f) = norm_zero f.
Proof. destruct f; reflexivity. Qed.

Lemma jcsWriteNumber_idem (n t : string) : jcsWriteNumber n = Ok t -> jcsWriteNumber t = Ok t.
Proof.
  intros E. destruct (jcsWriteNumber_spec n t E) as (f & Ef & _ & Et).
  unfold jcsWriteNumber in *. rewrite Ef in E. rewrite Et, jcsFormat_norm. exact E.
Qed.

(** *** Two documents with canonical values *)

Lemma keys_sorted (l : list string) : Sorted String.le (sort_Strings l).
Proof. apply Sorted_merge_sort. exact _. Qed.

(** Sorting depends on the set of keys only. *)
Lemma sort_remove_dups_eq (l m : list string) :
  (forall k, In k l <-> In k m) -> sort_Strings (remove_dups l) = sort_Strings (remove_dups m).
Proof.
  intros E. unfold sort_Strings. apply (Sorted_unique String.le); [apply keys_sorted|apply keys_sorted|].
  rewrite !merge_sort_Permutation. apply NoDup_Permutation; [apply NoDup_remove_dups|apply NoDup_remove_dups|].
  intros k. rewrite !elem_of_remove_dups, !list_elem_of_In. apply E.
Qed.

(** A canonical object: its members, as the writer finds them. *)
Definition canon_member (ms : list (string * json)) (k : string) : result goerror (string * json) :=
  let? w := default (Err EMissing) (option_map canon (last_value k ms)) in Ok (k, w).

Lemma canon_object (ms : list (string * json)) :
  canon (JObject ms) = let? ws := all_ok (map (canon_member ms) (sort_Strings (remove_dups (map fst ms)))) in Ok (JObject ws).
Proof.
  cbn [canon]. erewrite all_ok_map_ext; [reflexivity|]. apply List.Forall_forall. intros k _.
  unfold canon_member. rewrite last_value_map. reflexivity.
Qed.

Lemma all_ok_map_Ok {A B : Type} (f : A -> result goerror B) (l : list A) (xs : list B) :
  all_ok (map f l) = Ok xs <-> Forall2 (fun a x => f a = Ok x) l xs.
Proof. rewrite all_ok_Ok. split; [apply Forall2_fmap_l|]. intros K. apply Forall2_fmap_l. exact K. Qed.

Lemma canon_member_Ok (ms : list (string * json)) (k : string) (m : string * json) :
  canon_member ms k = Ok m <-> fst m = k /\ exists x, last_value k ms = Some x /\ canon x = Ok (snd m).
Proof.
  unfold canon_member. rewrite rbind_Ok. split.
  - intros (w & E & [= <-]). destruct (last_value k ms) as [x|]; [|discriminate]. cbn in *. eauto.
  - destruct m as [k' w]. cbn. intros (-> & x & -> & E). exists w. auto.
Qed.

Definition sorted_keys (ms : list (string * json)) : list string := sort_Strings (remove_dups (map fst ms)).

Lemma sorted_keys_in (k : string) (ms : list (string * json)) : In k (sorted_keys ms) <-> In k (map fst ms).
Proof. unfold sorted_keys. rewrite sort_in. apply in_remove_dups. Qed.

Lemma canon_object_Ok (ms : list (string * json)) (w : json) :
  canon (JObject ms) = Ok w <->
  exists ws, w = JObject ws /\ Forall2 (fun k m => canon_member ms k = Ok m) (sorted_keys ms) ws.
Proof.
  rewrite canon_object, rbind_Ok. split.
  - intros (ws & E & [= <-]). exists ws. split; [reflexivity|]. apply all_ok_map_Ok, E.
  - intros (ws & -> & K). exists ws. split; [|reflexivity]. apply all_ok_map_Ok, K.
Qed.

Lemma canon_array_Ok (l : list json) (w : json) :
  canon (JArray l) = Ok w <-> exists ws, w = JArray ws /\ Forall2 (fun x y => canon x = Ok y) l ws.
Proof.
  cbn [canon]. rewrite rbind_Ok. split.
  - intros (ws & E & [= <-]). exists ws. split; [reflexivity|]. apply all_ok_map_Ok, E.
  - intros (ws & -> & K). exists ws. split; [|reflexivity]. apply all_ok_map_Ok, K.
Qed.

Lemma canon_keys (ms ws : list (string * json)) (ks : list string) :
  Forall2 (fun k m => canon_member ms k = Ok m) ks ws -> map fst ws = ks.
Proof.
  induction 1 as [|k m ks ws Hm Hl IH]; cbn; [reflexivity|].
  apply canon_member_Ok in Hm as [-> _]. f_equal. exact IH.
Qed.

Definition decides (x : json) : Prop :=
  forall y w w', canon x = Ok w -> canon y = Ok w' -> (same x y <-> w = w').

Lemma elements_same (l m ws ws' : list json) :
  Forall decides l ->
  Forall2 (fun x y => canon x = Ok y) l ws -> Forall2 (fun x y => canon x = Ok y) m ws' ->
  (Forall2 same l m <-> ws = ws').
Proof.
  intros Hl K. revert m ws'. induction K as [|x w l ws Hx K IH]; intros m ws' K';
    destruct K' as [|y w' m ws' Hy K'].
  - split; [reflexivity | constructor].
  - split; [intros S; inversion S | discriminate].
  - split; [intros S; inversion S | discriminate].
  - inversion Hl as [|? ? Hd Hl']; subst. specialize (Hd y w w' Hx Hy). specialize (IH Hl' m ws' K').
    split.
    + intros S; inversion S; subst. f_equal; [apply Hd | apply IH]; assumption.
    + intros [= -> ->]. constructor; [apply Hd | apply IH]; reflexivity.
Qed.

Lemma members_same (ms ns ws ws' : list (string * json)) :
  Forall (fun m => decides (snd m)) ms ->
  Forall2 (fun k m => canon_member ms k = Ok m) (sorted_keys ms) ws ->
  Forall2 (fun k m => canon_member ns k = Ok m) (sorted_keys ns) ws' ->
  ((forall k, option_Forall2 same (last_value k ms) (last_value k ns)) <-> ws = ws').
Proof.
  intros Hd K K'. rewrite List.Forall_forall in Hd. split.
  - intros S.
    assert (Ek : sorted_keys ms = sorted_keys ns).
    { apply sort_remove_dups_eq. intros k. specialize (S k).
      rewrite !last_value_key. destruct S; split; congruence. }
    rewrite <- Ek in K'. clear Ek. revert ws' K'. induction K as [|k m ks ws Hm K IH]; intros ws' K';
      inversion K' as [|? m' ? ws'' Hm' K'']; subst; [reflexivity|]. f_equal; [|auto].
    apply canon_member_Ok in Hm as (Ef & x & Ex & Cx). apply canon_member_Ok in Hm' as (Ef' & y & Ey & Cy).
    specialize (S k). rewrite Ex, Ey in S. inversion S as [? ? Sxy|]; subst.
    pose proof (Hd _ (last_value_in _ _ _ Ex) y _ _ Cx Cy) as D. apply D in Sxy.
    destruct m, m'. cbn in *. congruence.
  - intros <- k.
    pose proof (canon_keys _ _ _ K) as E1. pose proof (canon_keys _ _ _ K') as E2. rewrite E1 in E2.
    destruct (in_dec String.string_dec k (map fst ms)) as [Hi|Hi].
    + apply sorted_keys_in in Hi. 
      assert (G : exists m, canon_member ms k = Ok m /\ canon_member ns k = Ok m).
      { rewrite <- E2 in K'. clear -K K' Hi. revert K' Hi. induction K as [|k0 m ks ws Hm K IH]; intros K' Hi; [contradiction|].
        inversion K' as [|? ? ? ? Hm' K'']; subst. destruct Hi as [->|Hi]; [eauto | apply IH; assumption]. }
      destruct G as (m & G1 & G2). apply canon_member_Ok in G1 as (_ & x & Ex & Cx).
      apply canon_member_Ok in G2 as (_ & y & Ey & Cy). rewrite Ex, Ey. constructor.
      apply (Hd _ (last_value_in _ _ _ Ex) y _ _ Cx Cy). reflexivity.
    + assert (Hi' : ~ In k (map fst ns)) by (rewrite <- sorted_keys_in, <- E2, sorted_keys_in; exact Hi).
      apply last_value_None in Hi, Hi'. rewrite Hi, Hi'. constructor.
Qed.

Definition shape (j : json) : nat :=
  match j with JNull => 0 | JBool _ => 1 | JNumber _ => 2 | JString _ => 3 | JArray _ => 4 | JObject _ => 5 end%nat.

Lemma canon_shape (y w : json) : canon y = Ok w -> shape w = shape y.
Proof.
  destruct y; cbn [canon]; try (intros [= <-]; reflexivity);
    rewrite rbind_Ok; intros (? & _ & [= <-]); reflexivity.
Qed.

Lemma same_shape (x y : json) : same x y -> shape x = shape y.
Proof. destruct 1; reflexivity. Qed.

Lemma number_same (a b t u : string) :
  jcsWriteNumber a = Ok t -> jcsWriteNumber b = Ok u -> (same (JNumber a) (JNumber b) <-> t = u).
Proof.
  intros Ea Eb. destruct (jcsWriteNumber_spec a t Ea) as (f & Pa & _ & Pt).
  destruct (jcsWriteNumber_spec b u Eb) as (g & Pb & _ & Pu). split.
  - intros S. inversion S as [| | |? ? f' g' Pa' Pb' E| |]; subst.
    unfold jcsWriteNumber in Ea, Eb. rewrite Pa' in Ea. rewrite Pb' in Eb.
    rewrite <- jcsFormat_norm, E, jcsFormat_norm in Ea. congruence.
  - intros ->. rewrite Pt in Pu. injection Pu as E. econstructor; eassumption.
Qed.

(** Two values have the same canonical value exactly when they denote the
    same value. *)
Lemma canon_decides (x : json) : decides x.
Proof.
  induction x as [|b|n|s|l IH|ms IH]; intros y w w' Cx Cy;
    pose proof (canon_shape _ _ Cx) as Sx; pose proof (canon_shape _ _ Cy) as Sy;
    destruct y as [|b'|n'|s'|l'|ns];
    try (split; [intros S; apply same_shape in S; discriminate S | intros ->; rewrite Sx in Sy; discriminate Sy]).
  - injection Cx as <-. injection Cy as <-. split; [reflexivity | constructor].
  - injection Cx as <-. injection Cy as <-. split; [intros S; inversion S; reflexivity | intros [= ->]; constructor].
  - cbn [canon] in Cx, Cy. apply rbind_Ok in Cx as (t & Ea & [= <-]), Cy as (u & Eb & [= <-]).
    rewrite (number_same n n' t u Ea Eb). split; congruence.
  - injection Cx as <-. injection Cy as <-. split; [intros S; inversion S; reflexivity | intros [= ->]; constructor].
  - apply canon_array_Ok in Cx as (ws & -> & K), Cy as (ws' & -> & K').
    transitivity (Forall2 same l l'); [split; [intros S; inversion S; assumption | constructor; assumption]|].
    rewrite (elements_same l l' ws ws' IH K K'). split; congruence.
  - apply canon_object_Ok in Cx as (ws & -> & K), Cy as (ws' & -> & K').
    transitivity (forall k, option_Forall2 same (last_value k ms) (last_value k ns));
      [split; [intros S; inversion S; assumption | constructor; assumption]|].
    rewrite (members_same ms ns ws ws' IH K K'). split; congruence.
Qed.

(** *** The canonical value is a value like any other, and its own canonical form *)

Lemma canon_wf (v w : json) : json_wf v = true -> canon v = Ok w -> json_wf w = true /\ depth w <= depth v.
Proof.
  revert w. induction v as [|b|n|s|l IH|ms IH]; intros w Hw E.
  - injection E as <-. auto with lia.
  - injection E as <-. auto with lia.
  - cbn [canon] in E. apply rbind_Ok in E as (t & E & [= <-]).
    destruct (jcsWriteNumber_spec n t E) as (f & _ & Hv & _). cbn. auto with lia.
  - injection E as <-. split; [exact Hw|lia].
  - apply canon_array_Ok in E as (ws & -> & K). cbn [json_wf depth] in *.
    assert (G : forallb json_wf ws = true /\ fold_right Z.max 0 (map depth ws) <= fold_right Z.max 0 (map depth l)); [|destruct G; split; [assumption|lia]].
    induction K as [|x w l ws Hx K IHK]; [split; [reflexivity | cbn; lia]|].
    inversion IH as [|? ? Hd IH']; subst. cbn [forallb map fold_right] in *. apply andb_true_iff in Hw as [Hwx Hw].
    destruct (Hd w Hwx Hx) as [-> D]. destruct (IHK IH' Hw) as [-> D']. split; [reflexivity|lia].
  - apply canon_object_Ok in E as (ws & -> & K). cbn [json_wf depth] in *.
    assert (Hin : forall k m, In k (sorted_keys ms) -> canon_member ms k = Ok m ->
      is_utf8 (fst m) && json_wf (snd m) = true /\ depth (snd m) <= fold_right Z.max 0 (map (fun m => depth (snd m)) ms)).
    { intros k m Hk Hm. apply canon_member_Ok in Hm as (<- & x & Ex & Cx). apply last_value_in in Ex.
      rewrite List.Forall_forall in IH. rewrite forallb_forall in Hw. pose proof (Hw _ Ex) as Hwx. cbn [fst snd] in Hwx.
      apply andb_true_iff in Hwx as [-> Hwx]. destruct (IH _ Ex _ Hwx Cx) as [-> D]. split; [reflexivity|].
      etransitivity; [exact D|]. clear -Ex. induction ms as [|m0 ms IHm]; [contradiction|].
      cbn [map fold_right]. destruct Ex as [->|Ex]; cbn [snd]; [lia|]. specialize (IHm Ex). cbn [snd] in IHm. lia. }
    set (b := fold_right Z.max 0 (map (fun m => depth (snd m)) ms)) in *.
    assert (Hb0 : 0 <= b) by apply fold_max_nonneg.
    assert (G : forallb (fun m => is_utf8 (fst m) && json_wf (snd m)) ws = true /\
                fold_right Z.max 0 (map (fun m => depth (snd m)) ws) <= b); [|destruct G; split; [assumption|lia]].
    clearbody b. induction K as [|k m ks ws Hm K IHK]; [split; [reflexivity | exact Hb0]|].
    cbn [forallb map fold_right]. destruct (Hin k m (or_introl eq_refl) Hm) as [-> D].
    destruct IHK as [-> D']; [intros; eapply Hin; [right|]; eassumption|]. split; [reflexivity|lia].
Qed.

Lemma sorted_keys_fixed (ks : list string) :
  Sorted String.le ks -> List.NoDup ks -> sort_Strings (remove_dups ks) = ks.
Proof.
  intros Hs Hn. rewrite remove_dups_id by exact Hn. apply (Sorted_unique String.le); [apply keys_sorted|exact Hs|].
  apply merge_sort_Permutation.
Qed.

Lemma sorted_keys_NoDup (ms : list (string * json)) : List.NoDup (sorted_keys ms).
Proof.
  unfold sorted_keys, sort_Strings. apply NoDup_ListNoDup. rewrite merge_sort_Permutation. apply NoDup_remove_dups.
Qed.

Lemma canon_idem (v w : json) : canon v = Ok w -> canon w = Ok w.
Proof.
  revert w. induction v as [|b|n|s|l IH|ms IH]; intros w E.
  - injection E as <-. reflexivity.
  - injection E as <-. reflexivity.
  - cbn [canon] in E. apply rbind_Ok in E as (t & E & [= <-]). cbn [canon].
    rewrite (jcsWriteNumber_idem n t E). reflexivity.
  - injection E as <-. reflexivity.
  - apply canon_array_Ok in E as (ws & -> & K). apply canon_array_Ok. exists ws. split; [reflexivity|].
    induction K as [|x w l ws Hx K IHK]; [constructor|]. inversion IH; subst. constructor; auto.
  - apply canon_object_Ok in E as (ws & -> & K). apply canon_object_Ok. exists ws. split; [reflexivity|].
    pose proof (canon_keys _ _ _ K) as Ek. unfold sorted_keys at 1. rewrite Ek.
    rewrite sorted_keys_fixed by (apply keys_sorted || apply sorted_keys_NoDup).
    assert (Hn : List.NoDup (map fst ws)) by (rewrite Ek; apply sorted_keys_NoDup).
    assert (Hin : forall k m, In m ws -> canon_member ms k = Ok m -> canon_member ws k = Ok m).
    { intros k [k' w] Hm Hc. apply canon_member_Ok in Hc as (<- & x & Ex & Cx). cbn [fst snd] in *.
      apply canon_member_Ok. split; [reflexivity|]. exists w. split; [apply last_value_unique; assumption|].
      apply last_value_in in Ex. rewrite List.Forall_forall in IH. exact (IH _ Ex _ Cx). }
    assert (G : forall W, (forall k m, In m ws -> canon_member ms k = Ok m -> canon_member W k = Ok m) ->
      Forall2 (fun k m => canon_member W k = Ok m) (sorted_keys ms) ws); [|apply G, Hin].
    clear -K. intros W Hin. induction K as [|k m ks ws Hm K IHK]; [constructor|].
    constructor; [apply Hin; [left; reflexivity | exact Hm] | apply IHK; intros; apply Hin; [right|]; assumption].
Qed.

(** ** The theorems *)

(** What canonicalization computes: the canonical value of the first value in
    the text, printed without spaces. *)
Lemma JCSCanonicalize_Ok (data c : string) :
  JCSCanonicalize data = Ok c <->
  exists v w, Decode data = Ok v /\ canon v = Ok w /\ c = print w.
Proof.
  unfold JCSCanonicalize. destruct (Decode data) as [v|e]; [|split; [discriminate|intros (v & w & E & _); discriminate E]].
  rewrite jcsWriteValue_to_any, rbind_Ok. split.
  - intros (w & E & [= <-]). exists v, w. auto.
  - intros (v' & w & [= <-] & E & ->). exists w. auto.
Qed.

Lemma canon_decoded (data : string) (v w : json) :
  Decode data = Ok v -> canon v = Ok w -> Decode (print w) = Ok w.
Proof.
  intros Ed Ec. apply Decode_wf in Ed as [Hw Hd]. destruct (canon_wf v w Hw Ec) as [Hw' Hd'].
  apply Decode_print_eq; [exact Hw' | lia].
Qed.

(** C14: canonicalization has exactly the right power: two documents that can be
    canonicalized get the same bytes if and only if they denote the same value,
    that is up to the order and duplication of members (the last one counts),
    white space, escapes, and the spelling of numbers as doubles. A digest over
    the canonical form therefore identifies the value. *)
Theorem JCSCanonicalize_faithful (d1 d2 c1 c2 : string) (v1 v2 : json)
    (D1 : Decode d1 = Ok v1) (D2 : Decode d2 = Ok v2)
    (J1 : JCSCanonicalize d1 = Ok c1) (J2 : JCSCanonicalize d2 = Ok c2) :
  c1 = c2 <-> same v1 v2.
Proof.
  apply JCSCanonicalize_Ok in J1 as (v & w1 & E & C1 & ->). rewrite D1 in E. injection E as <-.
  apply JCSCanonicalize_Ok in J2 as (v & w2 & E & C2 & ->). rewrite D2 in E. injection E as <-.
  rewrite (canon_decides v1 v2 w1 w2 C1 C2). split; [|congruence]. intros E.
  pose proof (canon_decoded d1 v1 w1 D1 C1) as P1. rewrite E, (canon_decoded d2 v2 w2 D2 C2) in P1. congruence.
Qed.

(** Round trip: a canonical text decodes to a value that denotes the same
    as the source document, in well-formed shape (valid UTF-8, grammatical
    numbers), and canonicalizing it again changes nothing. *)
Theorem JCSCanonicalize_roundtrip (data c : string) (J : JCSCanonicalize data = Ok c) :
  exists v w, Decode data = Ok v /\ Decode c = Ok w /\ same v w /\ json_wf w = true /\
  c = print w /\ JCSCanonicalize c = Ok c.
Proof.
  apply JCSCanonicalize_Ok in J as (v & w & D & C & ->). exists v, w.
  pose proof (canon_decoded data v w D C) as Dw. pose proof (canon_idem v w C) as Cw.
  split; [exact D|]. split; [exact Dw|]. split; [apply (canon_decides v w w w C Cw); reflexivity|].
  split; [apply Decode_wf in D as [Hw _]; apply (canon_wf v w Hw C)|]. split; [reflexivity|].
  apply JCSCanonicalize_Ok. eauto.
Qed.

(** *** Fields *)

(** The members the raw fields decode to. *)
Definition decodes_to (fields : list (string * string)) (ms : list (string * json)) : Prop :=
  Forall2 (fun f m => fst m = fst f /\ Decode (snd f) = Ok (snd m)) fields ms.

(** Equal names, and values that denote the same. *)
Definition same_members (ms ns : list (string * json)) : Prop :=
  Forall2 (fun m n => fst m = fst n /\ same (snd m) (snd n)) ms ns.

Lemma canon_map_to_any (ms : list (string * json)) :
  canon (JObject (map (fun m => (fst m, to_any (snd m))) ms)) = canon (JObject ms).
Proof.
  rewrite !canon_object, map_map. cbn [fst].
  erewrite all_ok_map_ext; [reflexivity|]. apply List.Forall_forall. intros k _.
  unfold canon_member. rewrite last_value_map. destruct (last_value k ms); cbn; [|reflexivity].
  rewrite canon_to_any. reflexivity.
Qed.

Lemma parse_fields_Ok (fields : list (string * string)) (parsed : list (string * json)) :
  all_ok (map (fun f => match Decode (snd f) with
    | Err e => Err (EWrap "jcs: failed to parse field" e)
    | Ok v => Ok (fst f, to_any v) end) fields) = Ok parsed <->
  exists ms, parsed = map (fun m => (fst m, to_any (snd m))) ms /\
    decodes_to fields ms.
Proof.
  rewrite all_ok_map_Ok. split.
  - induction 1 as [|[k raw] p fields parsed Hp K (ms & -> & IH)]; [exists []; split; [reflexivity | constructor]|].
    cbn [fst snd] in Hp. destruct (Decode raw) as [v|] eqn:E; [|discriminate]. injection Hp as <-.
    exists ((k, v) :: ms). split; [reflexivity|]. constructor; auto.
  - intros (ms & -> & K). induction K as [|[k raw] [k' v] fields ms [Hk Hv] K IH]; [constructor|].
    cbn [fst snd map] in *. subst. constructor; [cbn [fst snd]; rewrite Hv; reflexivity | exact IH].
Qed.

(** The fields of a canonicalized object, decoded. *)
Lemma JCSCanonicalizeFields_Ok (fields : list (string * string)) (c : string) :
  List.NoDup (map fst fields) ->
  (JCSCanonicalizeFields fields = Ok c <->
   exists ms w, decodes_to fields ms /\
     canon (JObject ms) = Ok w /\ c = print w).
Proof.
  intros Hn. unfold JCSCanonicalizeFields. rewrite rbind_Ok.
  assert (Hany : forall ms, decodes_to fields ms ->
    any_ok (JObject (map (fun m => (fst m, to_any (snd m))) ms))).
  { intros ms K. cbn [any_ok]. split.
    - rewrite map_map. cbn [fst]. replace (map (fun x : string * json => fst x) ms) with (map fst fields); [exact Hn|].
      clear -K. induction K as [|f m fields ms [E _] K IH]; cbn; congruence.
    - apply fold_and_Forall, List.Forall_map, List.Forall_forall. intros m _. apply to_any_ok. }
  split.
  - intros (parsed & Ep & Ew). apply parse_fields_Ok in Ep as (ms & -> & K).
    rewrite jcsWriteValue_canon, canon_map_to_any in Ew by auto. apply rbind_Ok in Ew as (w & Ew & [= <-]).
    exists ms, w. auto.
  - intros (ms & w & K & Ew & ->). exists (map (fun m => (fst m, to_any (snd m))) ms).
    split; [apply parse_fields_Ok; eauto|]. rewrite jcsWriteValue_canon, canon_map_to_any, Ew by auto. reflexivity.
Qed.

Lemma last_value_same (ms ns : list (string * json)) :
  same_members ms ns ->
  forall k, option_Forall2 same (last_value k ms) (last_value k ns).
Proof.
  intros K k. induction K as [|[k1 x] [k2 y] ms ns [E S] K IH]; cbn [last_value fst snd] in *; [constructor|].
  subst. destruct IH; [constructor; assumption|]. destruct (String.eqb k k2); constructor. exact S.
Qed.

Lemma same_last_value (ms ns : list (string * json)) :
  map fst ms = map fst ns -> List.NoDup (map fst ms) ->
  (forall k, option_Forall2 same (last_value k ms) (last_value k ns)) ->
  same_members ms ns.
Proof.
  intros E Hn S.
  assert (G : forall ms' ns', (forall m, In m ms' -> In m ms) -> (forall n, In n ns' -> In n ns) ->
    map fst ms' = map fst ns' -> same_members ms' ns'); [|apply G; auto].
  induction ms' as [|[k x] ms' IH]; intros [|[k' y] ns'] Hm Hns E'; try discriminate; constructor.
  - injection E' as -> _. split; [reflexivity|]. specialize (S k').
    rewrite (last_value_unique k' x ms Hn (Hm _ (or_introl eq_refl))) in S. rewrite E in Hn.
    rewrite (last_value_unique k' y ns Hn (Hns _ (or_introl eq_refl))) in S. inversion S. assumption.
  - injection E' as _ E'. apply IH; auto; intros; [apply Hm | apply Hns]; right; assumption.
Qed.

(** Two sets of fields with the same names get the same bytes exactly when they
    agree field by field. *)
Lemma JCSCanonicalizeFields_same (f1 f2 : list (string * string)) (c1 c2 : string) (m1 m2 : list (string * json)) :
  List.NoDup (map fst f1) -> map fst f1 = map fst f2 -> forallb is_utf8 (map fst f1) = true ->
  decodes_to f1 m1 ->
  decodes_to f2 m2 ->
  JCSCanonicalizeFields f1 = Ok c1 -> JCSCanonicalizeFields f2 = Ok c2 ->
  (c1 = c2 <-> same_members m1 m2).
Proof.
  intros Hn Ek Hu D1 D2 J1 J2.
  assert (Keys : forall f m, decodes_to f m ->
    map fst m = map fst f).
  { clear. intros f m K. induction K as [|x y f m [E _] K IH]; cbn; congruence. }
  assert (Wf : forall f m, decodes_to f m ->
    forallb is_utf8 (map fst f) = true -> json_wf (JObject m) = true).
  { clear. intros f m K. induction K as [|x y f m [E D] K IH]; intros Hu; [reflexivity|].
    cbn [map forallb json_wf] in *. apply andb_true_iff in Hu as [Hx Hu]. apply Decode_wf in D as [D _].
    rewrite E, Hx, D. exact (IH Hu). }
  assert (Uniq : forall f m m', decodes_to f m ->
    decodes_to f m' -> m = m').
  { clear. intros f m m' K. revert m'. induction K as [|x [k v] f m [E D] K IH]; intros m' K';
      inversion K' as [|? [k' v'] ? m0 [E' D'] K0]; subst; cbn [fst snd] in *; [reflexivity|].
    rewrite (IH m0 K0). congruence. }
  apply JCSCanonicalizeFields_Ok in J1 as (m & w1 & K1 & C1 & ->); [|exact Hn].
  rewrite <- (Uniq f1 m1 m D1 K1) in C1. 
  apply JCSCanonicalizeFields_Ok in J2 as (m' & w2 & K2 & C2 & ->); [|rewrite <- Ek; exact Hn].
  rewrite <- (Uniq f2 m2 m' D2 K2) in C2.
  pose proof (Wf f1 m1 D1 Hu) as W1. rewrite Ek in Hu. pose proof (Wf f2 m2 D2 Hu) as W2.
  transitivity (w1 = w2).
  { split; [apply print_inj; [apply (canon_wf _ _ W1 C1) | apply (canon_wf _ _ W2 C2)] | congruence]. }
  rewrite <- (canon_decides _ _ _ _ C1 C2). split.
  - intros S. inversion S as [| | | | |? ? L]; subst. apply same_last_value; [|rewrite (Keys f1 m1 D1); exact Hn|exact L].
    rewrite (Keys f1 m1 D1), (Keys f2 m2 D2). exact Ek.
  - intros L. constructor. apply last_value_same, L.
Qed.

Lemma JCSCanonicalize_faithful_witness :
  same (JObject [("a", JNumber "1.0"); ("b", JArray [JBool true])])
       (JObject [("b", JArray [JBool true]); ("a", JNumber "1")]).
Proof.
  apply (JCSCanonicalize_faithful
    ("{" ++ quote "a" ++ ": 1.0, " ++ quote "b" ++ ":[true]}")
    ("{" ++ quote "b" ++ ":[true]," ++ quote "a" ++ ":1}")
    ("{" ++ quote "a" ++ ":1," ++ quote "b" ++ ":[true]}")
    ("{" ++ quote "a" ++ ":1," ++ quote "b" ++ ":[true]}")); vm_compute; reflexivity.
Defined.

Lemma JCSCanonicalize_roundtrip_witness :
  exists v w, Decode "[1.50e0 ]" = Ok v /\ Decode "[1.5]" = Ok w /\ same v w.
Proof.
  destruct (JCSCanonicalize_roundtrip "[1.50e0 ]" "[1.5]") as (v & w & A & B & C & _).
  - vm_compute. reflexivity.
  - exists v, w. auto.
Defined.
