(* ===== verification/TlogJson.v ===== *)
(** JSON of transparency-log responses ([models/tl_log.go]): decoding into
    structs, the raw members of an object, [TLResponse.UnmarshalJSON], and the
    encoding of the sealed parts. *)

From S2P Require Import Prelude GoStrings Utf8 Encoding Errors Models Json.

#[local] Open Scope string_scope.
#[local] Open Scope Z_scope.

(** ** Raw members: [json.Unmarshal] into [map[string]json.RawMessage] *)

Fixpoint skip_space (s : string) : string :=
  match s with
  | String c t => if isSpace c then skip_space t else s
  | "" => ""
  end.

(** The value at the front of [s], the text it spans and what follows. *)
Definition split_value (s : string) : option (json * string * string) :=
  match scan maxNestingDepth BeginValue [] s with
  | Ok (v, rest) => Some (v, str_take (String.length s - String.length rest) s, rest)
  | Err _ => None
  end.

(** The string literal at the front of [s]. *)
Definition split_key (s : string) : option (string * string) :=
  match s with
  | String c t =>
      if Ascii.eqb c quote_char then
        match scan maxNestingDepth (InString ToValue "") [] t with
        | Ok (JString k, rest) => Some (k, rest)
        | _ => None
        end
      else None
  | "" => None
  end.

(** The members from behind an opening brace or a comma. *)
Fixpoint raw_members (fuel : nat) (s : string) : option (list (string * string)) :=
  match fuel with
  | O => None
  | S n =>
      match split_key (skip_space s) with
      | Some (k, rest) =>
          match skip_space rest with
          | String colon s1 =>
              if negb (Ascii.eqb colon ":") then None else
              match split_value (skip_space s1) with
              | Some (_, raw, rest1) =>
                  match skip_space rest1 with
                  | String c s2 =>
                      if Ascii.eqb c "," then option_map (cons (k, raw)) (raw_members n s2)
                      else if Ascii.eqb c "}" then Some [(k, raw)] else None
                  | "" => None
                  end
              | None => None
              end
          | "" => None
          end
      | None => None
      end
  end.

(** The map is a list in text order; of duplicate keys the last counts. The
    syntax of the whole text is checked first. *)
Definition UnmarshalRawMap (data : string) : result goerror (list (string * string)) :=
  let? v := Unmarshal data in
  match v with
  | JNull | JObject [] => Ok []
  | JObject (_ :: _) =>
      match skip_space data with
      | String "{" s => match raw_members (String.length s) s with Some l => Ok l | None => Err ESyntax end
      | _ => Err ESyntax
      end
  | _ => Err (EPlain "json: cannot unmarshal into Go value of type map[string]json.RawMessage")
  end.

(** A lookup in the map: [None] is the nil slice of a missing key. *)
Fixpoint raw_get (k : string) (l : list (string * string)) : option string :=
  match l with
  | [] => None
  | (k', v) :: l' =>
      match raw_get k l' with
      | Some x => Some x
      | None => if String.eqb k k' then Some v else None
      end
  end.

(** ** Decoding into structs *)

(** [foldName]: simple case folding, which maps the long s and the Kelvin sign
    to ASCII letters. *)
Definition fold_rune (o : option Z) : option Z :=
  match o with
  | Some r =>
      Some (if (65 <=? r) && (r <=? 90) then r + 32 else if r =? 383 then 115
            else if r =? 8490 then 107 else r)
  | None => None
  end.

(** A member sets the field whose name it equals up to case. *)
Definition names (key field : string) : bool :=
  bool_decide (map fold_rune (runes key) = map fold_rune (runes field)).

(** The value a field holds after the members in order; a value of another type
    is an error, which leaves the field as it is. *)
Definition field {T : Type} (set : T -> json -> T) (name : string) (ms : list (string * json)) (t : T) : T :=
  fold_left (fun acc m => if names (fst m) name then set acc (snd m) else acc) ms t.

Definition set_string (old : string) (j : json) : string := match j with JString s => s | _ => old end.
Definition set_bool (old : bool) (j : json) : bool := match j with JBool b => b | _ => old end.

(** [strconv.ParseInt(lit, 10, 64)] *)
Definition ParseInt64 (lit : string) : option Z :=
  match lit with
  | String "-" t =>
      match ParseUint t 64 with
      | Some n => if n <=? 9223372036854775808 then Some (- n) else None
      | None => None
      end
  | _ => match ParseUint lit 64 with
         | Some n => if n <=? max_i64 then Some n else None
         | None => None
         end
  end.
Definition set_int64 (old : Z) (j : json) : Z :=
  match j with JNumber lit => default old (ParseInt64 lit) | _ => old end.
(** The elements are decoded into those of the old slice, as far as it goes. *)
Fixpoint set_elements (old : list string) (l : list json) : list string :=
  match l with
  | [] => []
  | j :: l => set_string (hd "" old) j :: set_elements (tl old) l
  end.
Definition set_strings (old : list string) (j : json) : list string :=
  match j with
  | JArray l => set_elements old l
  | JNull => []
  | _ => old
  end.

Definition str (name : string) (ms : list (string * json)) (old : string) : string :=
  field set_string name ms old.

Definition set_certificates (old : TLCertificates) (j : json) : TLCertificates :=
  match j with
  | JObject ms => MkTLCertificates
      (str "serverCertFingerprint" ms (tc_ServerCertFingerprint old))
      (str "identityCertFingerprint" ms (tc_IdentityCertFingerprint old))
      (str "previousServerCertFingerprint" ms (tc_PreviousServerCertFingerprint old))
      (str "previousIdentityCertFingerprint" ms (tc_PreviousIdentityCertFingerprint old))
  | _ => old
  end.

Definition set_payload (old : TLPayload) (j : json) : TLPayload :=
  match j with
  | JObject ms => MkTLPayload
      (str "logId" ms (LogID old)) (str "eventType" ms (EventType old)) (str "timestamp" ms (Timestamp old))
      (str "agentName" ms (AgentName old)) (str "agentDisplayName" ms (AgentDisplayName old))
      (str "agentHost" ms (AgentHost old)) (str "agentSubHost" ms (AgentSubHost old))
      (str "version" ms (tp_Version old)) (str "agentId" ms (AgentID old))
      (str "agentStatus" ms (AgentStatus old))
      (field set_certificates "certificates" ms (Certificates old))
  | _ => old
  end.

Definition set_evidence (old : EvidenceRef) (j : json) : EvidenceRef :=
  match j with
  | JObject ms => MkEvidenceRef
      (str "evidenceId" ms (EvidenceID old)) (str "submitterId" ms (SubmitterID old))
      (str "evidenceType" ms (EvidenceType old)) (str "evidenceUri" ms (EvidenceURI old))
      (str "evidenceHash" ms (EvidenceHash old)) (str "hashAlgorithm" ms (HashAlgorithm old))
      (str "hashTarget" ms (HashTarget old)) (str "contentType" ms (ContentType old))
      (str "evidenceSchemaVersion" ms (EvidenceSchemaVersion old))
      (field set_bool "signatureRequired" ms (SignatureRequired old))
  | _ => old
  end.

Definition set_seal (old : TLSeal) (j : json) : TLSeal :=
  match j with
  | JObject ms => MkTLSeal
      (str "canonicalization" ms (Canonicalization old)) (str "digestAlgorithm" ms (DigestAlgorithm old))
      (str "signatureAlgorithm" ms (SignatureAlgorithm old)) (str "signatureEncoding" ms (SignatureEncoding old))
      (str "keyId" ms (KeyID old)) (str "signature" ms (Signature old)) (str "publicKey" ms (PublicKey old))
  | _ => old
  end.

Definition set_proof (old : MerkleProof) (j : json) : MerkleProof :=
  match j with
  | JObject ms => MkMerkleProof
      (str "leafHash" ms (LeafHash old)) (str "rootHash" ms (RootHash old))
      (str "rootSignature" ms (RootSignature old))
      (field set_int64 "treeSize" ms (TreeSize old)) (field set_int64 "treeVersion" ms (TreeVersion old))
      (field set_int64 "leafIndex" ms (LeafIndex old)) (field set_strings "path" ms (Path old))
  | _ => old
  end.

(** [json.Unmarshal(v, &field)] with the error dropped: nothing happens to a
    nil message or a text that is no JSON. *)
Definition unmarshal_into {T : Type} (set : T -> json -> T) (raw : option string) (old : T) : T :=
  match raw with
  | Some text => match Unmarshal text with Ok v => set old v | Err _ => old end
  | None => old
  end.

(** [TLResponse.UnmarshalJSON] on the receiver [r]. *)
Definition TLResponse_UnmarshalJSON (r : TLResponse) (data : string) : result goerror TLResponse :=
  let? raw := UnmarshalRawMap data in
  Ok (MkTLResponse
    (unmarshal_into set_string (raw_get "status" raw) (Status r))
    (unmarshal_into set_string (raw_get "schemaVersion" raw) (SchemaVersion r))
    (unmarshal_into set_payload (raw_get "payload" raw) (Payload r))
    (unmarshal_into set_evidence (raw_get "evidenceRef" raw) (tr_EvidenceRef r))
    (unmarshal_into set_seal (raw_get "seal" raw) (Seal r))
    (unmarshal_into set_proof (raw_get "merkleProof" raw) (tr_MerkleProof r))
    (unmarshal_into set_string (raw_get "requestId" raw) (RequestID r))
    (raw_get "status" raw) (raw_get "schemaVersion" raw) (raw_get "payload" raw) (raw_get "evidenceRef" raw)).

(** ** Encoding: [json.Marshal] *)

(** A field with [omitempty]. *)
Definition omitempty (name value : string) : list (string * json) :=
  if String.eqb value "" then [] else [(name, JString value)].

Definition certificates_json (c : TLCertificates) : json :=
  JObject ([("serverCertFingerprint", JString (tc_ServerCertFingerprint c));
            ("identityCertFingerprint", JString (tc_IdentityCertFingerprint c))]
           ++ omitempty "previousServerCertFingerprint" (tc_PreviousServerCertFingerprint c)
           ++ omitempty "previousIdentityCertFingerprint" (tc_PreviousIdentityCertFingerprint c))%list.

Definition payload_json (p : TLPayload) : json :=
  JObject ([("logId", JString (LogID p)); ("eventType", JString (EventType p));
            ("timestamp", JString (Timestamp p)); ("agentName", JString (AgentName p));
            ("agentDisplayName", JString (AgentDisplayName p)); ("agentHost", JString (AgentHost p))]
           ++ omitempty "agentSubHost" (AgentSubHost p)
           ++ [("version", JString (tp_Version p)); ("agentId", JString (AgentID p));
               ("agentStatus", JString (AgentStatus p)); ("certificates", certificates_json (Certificates p))])%list.

Definition evidence_json (e : EvidenceRef) : json :=
  JObject [("evidenceId", JString (EvidenceID e)); ("submitterId", JString (SubmitterID e));
           ("evidenceType", JString (EvidenceType e)); ("evidenceUri", JString (EvidenceURI e));
           ("evidenceHash", JString (EvidenceHash e)); ("hashAlgorithm", JString (HashAlgorithm e));
           ("hashTarget", JString (HashTarget e)); ("contentType", JString (ContentType e));
           ("evidenceSchemaVersion", JString (EvidenceSchemaVersion e));
           ("signatureRequired", JBool (SignatureRequired e))].

Definition empty_certificates : TLCertificates := MkTLCertificates "" "" "" "".
Definition empty_payload : TLPayload := MkTLPayload "" "" "" "" "" "" "" "" "" "" empty_certificates.
Definition empty_evidence : EvidenceRef := MkEvidenceRef "" "" "" "" "" "" "" "" "" false.
Definition empty_seal : TLSeal := MkTLSeal "" "" "" "" "" "" "".
Definition empty_proof : MerkleProof := MkMerkleProof "" "" "" 0 0 0 [].
Definition empty_response : TLResponse :=
  MkTLResponse "" "" empty_payload empty_evidence empty_seal empty_proof "" None None None None.

(** Compact JSON with single quotes for the double ones, for examples. *)
Definition with_quotes (s : string) : string := str_map (fun c => if Ascii.eqb c "'" then quote_char else c) s.

Example unmarshal_ex :
  TLResponse_UnmarshalJSON empty_response (with_quotes
    "{'status' : 'OK', 'payload':{'agentId':'a1','AgentHost':'h', 'version':7},'merkleProof':{'treeSize':5,'path':['x']}} ") =
  Ok (MkTLResponse "OK" "" (MkTLPayload "" "" "" "" "" "h" "" "" "a1" "" empty_certificates) empty_evidence
        empty_seal (MkMerkleProof "" "" "" 5 0 0 ["x"]) "" (Some (with_quotes "'OK'")) None
        (Some (with_quotes "{'agentId':'a1','AgentHost':'h', 'version':7}")) None).
Proof. vm_compute. reflexivity. Qed.

(** ** The raw members are the members *)

Lemma step_EndTop (limit : Z) (p : phase) (st : list frame) (c : ascii) (v : json) :
  step limit p st c = EndTop v ->
  st = [] /\ at_eof p [] = Ok (v, "") /\ forall limit' base, step limit' p base c = endValue v c base.
Proof.
  assert (Hend : forall w, endValue w c st = EndTop v -> st = [] /\ w = v).
  { intros w E. destruct st as [|[xs|ms k] st]; cbn [endValue] in E; repeat (case_match_in E);
      try discriminate. injection E as ->. auto. }
  intros E. destruct p; cbn [step] in E; unfold beginValue, beginString, endString in E;
    try (repeat (case_match_in E); discriminate E).
  - apply Hend in E as [-> ->]. auto.
  - destruct (numStep st0 c) eqn:En; [discriminate|]. destruct (numAccepting st0) eqn:Ea; [|discriminate].
    apply Hend in E as [-> <-]. split; [reflexivity|]. cbn [at_eof step]. rewrite Ea, En. auto.
Qed.

(** A value ends where it ends, whatever follows. *)
Lemma scan_prefix (limit : Z) (pre rest : string) (p : phase) (st : list frame) (v : json) :
  scan limit p st (pre ++ rest) = Ok (v, rest) -> scan limit p st pre = Ok (v, "").
Proof.
  revert p st. induction pre as [|c pre IH]; intros p st E.
  - cbn [String.append] in E. destruct rest as [|c t]; [exact E|]. cbn [scan] in *.
    destruct (step limit p st c) as [p' st'|w|] eqn:Es; [|injection E as ->|discriminate].
    { apply scan_rest in E as [pre E]. apply (f_equal String.length) in E.
      rewrite str_length_app in E. cbn [String.length] in E. lia. }
    apply step_EndTop in Es as (-> & Ha & _). exact Ha.
  - cbn [String.append scan] in *. destruct (step limit p st c) as [p' st'|w|]; [apply IH, E| |discriminate].
    injection E as _ E. apply (f_equal String.length) in E. cbn [String.length] in E.
    rewrite str_length_app in E. lia.
Qed.

(** A value scanned on its own is scanned the same inside any context that has
    room for it. *)
Lemma step_lift (limit limit' : Z) (p p' : phase) (st st' base : list frame) (c : ascii) :
  limit + Z.of_nat (length base) <= limit' ->
  step limit p st c = Continue p' st' -> step limit' p (st ++ base)%list c = Continue p' (st' ++ base)%list.
Proof.
  intros Hl.
  assert (Hlen : forall s : list frame, (Z.of_nat (length s) <? limit) = true ->
    (Z.of_nat (length (s ++ base)%list) <? limit') = true).
  { intros s. rewrite !Z.ltb_lt, length_app. lia. }
  assert (Hb : forall s q r, beginValue limit c s = Continue q r ->
    beginValue limit' c (s ++ base)%list = Continue q (r ++ base)%list).
  { intros s q r E. unfold beginValue in *. specialize (Hlen s).
    repeat (case_match_in E); try discriminate; injection E as <- <-; rewrite ?Hlen; reflexivity. }
  assert (He : forall v s q r, endValue v c s = Continue q r ->
    endValue v c (s ++ base)%list = Continue q (r ++ base)%list).
  { intros v s q r E. destruct s as [|[xs|ms k] s]; cbn [endValue app] in *; [discriminate| |];
      repeat (case_match_in E); try discriminate; injection E as <- <-; reflexivity. }
  intros E. destruct p; cbn [step] in *; unfold beginString, endString in *; auto;
    try (repeat (case_match_in E); try discriminate; injection E as <- <-; reflexivity).
  - destruct (isSpace c); [injection E as <- <-; reflexivity|].
    destruct (Ascii.eqb c "]"); [injection E as <- <-; reflexivity|].
    apply (Hb (FArray [] :: st)). exact E.
  - destruct (numStep st0 c); [injection E as <- <-; reflexivity|].
    destruct (numAccepting st0); [apply He, E | discriminate].
Qed.

Lemma scan_lift (limit limit' : Z) (s rest : string) (p : phase) (st base : list frame) (v : json) :
  limit + Z.of_nat (length base) <= limit' ->
  scan limit p st s = Ok (v, rest) -> scan limit' p (st ++ base)%list s = scan limit' (EndValue v) base rest.
Proof.
  intros Hl. revert p st. induction s as [|c s IH]; intros p st E; cbn [scan] in *.
  - unfold at_eof in E. destruct st as [|f st]; [|discriminate].
    destruct p; try discriminate; [injection E as -> <-; reflexivity|].
    destruct (numAccepting st) eqn:Ea; [|discriminate]. injection E as <- <-. cbn [app scan].
    unfold at_eof. rewrite Ea. destruct base; reflexivity.
  - destruct (step limit p st c) as [p' st'|w|] eqn:Es; [|injection E as -> <-|discriminate].
    + rewrite (step_lift limit limit' p p' st st' base c Hl Es). apply IH, E.
    + apply step_EndTop in Es as (-> & _ & Hs). cbn [app scan]. rewrite Hs. reflexivity.
Qed.

(** A string read as a value is read the same as a key. *)
Lemma scan_as_key (limit limit' : Z) (s rest raw k : string) (acc : list (string * json)) (st : list frame) :
  forall p q, (p, q) = (InString ToValue raw, InString (ToKey acc) raw) \/
    (p, q) = (InStringEsc ToValue raw, InStringEsc (ToKey acc) raw) \/
    (exists n, (p, q) = (InStringEscU ToValue n raw, InStringEscU (ToKey acc) n raw)) ->
  scan limit p [] s = Ok (JString k, rest) -> scan limit' q st s = scan limit' (AfterKey acc k) st rest.
Proof.
  revert raw. induction s as [|c s IH]; intros raw p q Hpq E.
  - exfalso. destruct Hpq as [[= -> _]|[[= -> _]|[n [= -> _]]]]; discriminate E.
  - destruct Hpq as [[= -> ->]|[[= -> ->]|[n [= -> ->]]]]; cbn [scan step] in *.
    + unfold endString in *. destruct (Ascii.eqb c quote_char).
      { destruct (unquote raw) as [t|]; [|discriminate].
        destruct s as [|c' s']; cbn in E; injection E as -> <-; reflexivity. }
      destruct (Ascii.eqb c backslash); [eapply IH; [|exact E]; auto|].
      destruct (code c <? 32); [discriminate|]. eapply IH; [|exact E]; auto.
    + destruct (simple_escape (code c)); [eapply IH; [|exact E]; auto|].
      destruct (Ascii.eqb c "u"); [|discriminate]. eapply IH; [|exact E]. eauto.
    + destruct (from_hex_char c); [|discriminate]. destruct n; (eapply IH; [|exact E]); eauto.
Qed.

Lemma scan_skip (limit : Z) (p : phase) (st : list frame) (s : string) :
  (forall c, isSpace c = true -> step limit p st c = Continue p st) ->
  scan limit p st s = scan limit p st (skip_space s).
Proof.
  intros Hp. induction s as [|c s IH]; [reflexivity|]. cbn [skip_space].
  destruct (isSpace c) eqn:E; [|reflexivity]. cbn [scan]. rewrite Hp by exact E. exact IH.
Qed.

Lemma str_take_prefix (pre rest : string) :
  str_take (String.length (pre ++ rest) - String.length rest) (pre ++ rest) = pre.
Proof.
  rewrite str_length_app. replace (_ - _)%nat with (String.length pre) by lia. apply str_take_app.
Qed.

Lemma split_value_spec (s raw rest : string) (v : json) :
  split_value s = Some (v, raw, rest) ->
  scan maxNestingDepth BeginValue [] s = Ok (v, rest) /\ s = raw ++ rest /\
  scan maxNestingDepth BeginValue [] raw = Ok (v, "").
Proof.
  unfold split_value. destruct (scan _ _ _ s) as [[w r]|] eqn:E; [|discriminate]. intros [= -> <- ->].
  split; [reflexivity|]. pose proof (scan_rest _ _ _ _ _ _ E) as [pre Es]. rewrite Es, str_take_prefix.
  split; [reflexivity|]. rewrite Es in E. eapply scan_prefix, E.
Qed.

Definition raw_member (r : string * string) (m : string * json) : Prop :=
  fst r = fst m /\ scan maxNestingDepth BeginValue [] (snd r) = Ok (snd m, "").

Lemma split_key_scan (s k rest : string) (acc : list (string * json)) (limit : Z) :
  split_key s = Some (k, rest) ->
  scan limit (BeginString acc) [] s = scan limit (AfterKey acc k) [] rest /\
  exists t, s = String quote_char t.
Proof.
  unfold split_key. destruct s as [|c t]; [discriminate|].
  destruct (Ascii.eqb c quote_char) eqn:Eq; [|discriminate]. apply Ascii.eqb_eq in Eq. subst c.
  destruct (scan _ _ _ t) as [[[] r]|] eqn:E; try discriminate. intros [= -> ->].
  split; [|eauto]. 
  change (scan limit (BeginString acc) [] (String quote_char t)) with (scan limit (InString (ToKey acc) "") [] t).
  eapply scan_as_key; [|exact E]. auto.
Qed.

(** The scanner reads the same members from the whole text. *)
Lemma raw_members_scan (fuel : nat) (s : string) (l : list (string * string)) :
  raw_members fuel s = Some l ->
  exists ms rest, Forall2 raw_member l ms /\ (exists t, skip_space s = String quote_char t) /\
  forall acc, scan (maxNestingDepth + 1) (BeginString acc) [] s =
              scan (maxNestingDepth + 1) (EndValue (JObject (acc ++ ms)%list)) [] rest.
Proof.
  revert s l. induction fuel as [|n IH]; intros s l E; [discriminate|]. cbn [raw_members] in E.
  destruct (split_key (skip_space s)) as [[k r0]|] eqn:Ek; [|discriminate].
  destruct (skip_space r0) as [|colon s1] eqn:E0; [discriminate|].
  destruct (Ascii.eqb colon ":") eqn:Ec; [|discriminate]. apply Ascii.eqb_eq in Ec. subst colon. cbn [negb] in E.
  destruct (split_value (skip_space s1)) as [[[v raw] r1]|] eqn:Ev; [|discriminate].
  apply split_value_spec in Ev as (Ev & _ & Er).
  assert (Hone : forall acc, scan (maxNestingDepth + 1) (BeginString acc) [] s =
    scan (maxNestingDepth + 1) (EndValue v) [FObject acc k] (skip_space r1)).
  { intros acc. rewrite (scan_skip _ (BeginString acc)) by (intros c Hc; cbn; unfold beginString; rewrite Hc; reflexivity).
    destruct (split_key_scan _ _ _ acc (maxNestingDepth + 1) Ek) as [-> _].
    rewrite (scan_skip _ (AfterKey acc k)) by (intros c Hc; cbn; rewrite Hc; reflexivity). rewrite E0.
    change (scan (maxNestingDepth + 1) (AfterKey acc k) [] (String ":" s1))
      with (scan (maxNestingDepth + 1) BeginValue [FObject acc k] s1).
    rewrite (scan_skip _ BeginValue) by (intros c Hc; cbn; unfold beginValue; rewrite Hc; reflexivity).
    pose proof (scan_lift maxNestingDepth (maxNestingDepth + 1) (skip_space s1) r1 BeginValue [] [FObject acc k] v
      ltac:(reflexivity) Ev) as L. cbn [app] in L. rewrite L.
    apply scan_skip. intros c Hc. cbn. rewrite Hc. reflexivity. }
  pose proof (proj2 (split_key_scan _ _ _ [] 0 Ek)) as Hq.
  destruct (skip_space r1) as [|c s2] eqn:E1; [discriminate|].
  destruct (Ascii.eqb c ",") eqn:Ec.
  - apply Ascii.eqb_eq in Ec. subst c. destruct (raw_members n s2) as [l'|] eqn:El; [|discriminate].
    injection E as <-. destruct (IH s2 l' El) as (ms & rest & K & _ & Hs).
    exists ((k, v) :: ms), rest. split; [constructor; [split; [reflexivity | exact Er] | exact K]|].
    split; [exact Hq|]. intros acc. rewrite Hone.
    change (scan (maxNestingDepth + 1) (EndValue v) [FObject acc k] (String "," s2))
      with (scan (maxNestingDepth + 1) (BeginString (acc ++ [(k, v)])%list) [] s2).
    rewrite Hs, <- app_assoc. reflexivity.
  - destruct (Ascii.eqb c "}") eqn:Ec'; [|discriminate]. apply Ascii.eqb_eq in Ec'. subst c. injection E as <-.
    exists [(k, v)], s2. split; [repeat constructor; exact Er|]. split; [exact Hq|].
    intros acc. rewrite Hone. reflexivity.
Qed.

Lemma scan_mono (limit limit' : Z) (s rest : string) (v : json) :
  limit <= limit' -> scan limit BeginValue [] s = Ok (v, rest) -> scan limit' BeginValue [] s = Ok (v, rest).
Proof.
  intros Hl E. rewrite <- (app_nil_r (@nil frame)).
  rewrite (scan_lift limit limit' s rest BeginValue [] [] v) by (cbn; lia || exact E).
  destruct rest; reflexivity.
Qed.

Lemma Unmarshal_scan (raw : string) (v : json) :
  scan maxNestingDepth BeginValue [] raw = Ok (v, "") -> Unmarshal raw = Ok v.
Proof. unfold Unmarshal. intros ->. reflexivity. Qed.

Lemma Decode_scan (raw : string) (v : json) :
  scan maxNestingDepth BeginValue [] raw = Ok (v, "") -> Decode raw = Ok v.
Proof.
  unfold Decode. intros E. rewrite E. destruct (all_space raw) eqn:Es; [|reflexivity]. exfalso.
  revert E. clear -Es. induction raw as [|c raw IH]; [discriminate|]. cbn [all_space] in Es.
  apply andb_true_iff in Es as [Hc Es]. cbn [scan step]. unfold beginValue. rewrite Hc. apply IH, Es.
Qed.

(** *** Every object has its raw members *)

Lemma step_split (limit : Z) (p p' : phase) (st st2 base : list frame) (c : ascii) :
  base <> [] -> step limit p (st ++ base)%list c = Continue p' st2 ->
  (exists st', st2 = (st' ++ base)%list /\ step limit p st c = Continue p' st') \/
  (st = [] /\ exists v, step limit p [] c = EndTop v /\ endValue v c base = Continue p' st2).
Proof.
  intros Hb.
  assert (Hlen : forall s : list frame, (Z.of_nat (length (s ++ base)%list) <? limit) = true ->
    (Z.of_nat (length s) <? limit) = true).
  { intros s. rewrite !Z.ltb_lt, length_app. lia. }
  assert (Hv : forall s q r, beginValue limit c (s ++ base)%list = Continue q r ->
    exists r', r = (r' ++ base)%list /\ beginValue limit c s = Continue q r').
  { intros s q r E. unfold beginValue in *. specialize (Hlen s).
    repeat (case_match_in E); try discriminate; injection E as <- <-; exists s; rewrite ?Hlen by reflexivity; auto. }
  assert (He : forall v s q r, endValue v c (s ++ base)%list = Continue q r ->
    (exists r', r = (r' ++ base)%list /\ endValue v c s = Continue q r') \/ (s = [] /\ endValue v c base = Continue q r)).
  { intros v s q r E. destruct s as [|[xs|ms k] s]; [auto| |]; left; cbn [endValue app] in *;
      repeat (case_match_in E); try discriminate; injection E as <- <-;
      (eexists (_ :: s)%list; split; reflexivity) || (exists s; split; reflexivity). }
  intros E. destruct p; cbn [step] in *; unfold beginString, endString in *;
    try (left; repeat (case_match_in E); try discriminate; injection E as <- <-; exists st; auto; fail);
    try (left; apply Hv, E).
  - left. destruct (isSpace c); [injection E as <- <-; exists st; auto|].
    destruct (Ascii.eqb c "]"); [injection E as <- <-; exists st; auto|]. apply (Hv (FArray [] :: st)), E.
  - left. repeat (case_match_in E); try discriminate; injection E as <- <-; (exists st; split; reflexivity) || (exists (FObject members key :: st)%list; split; reflexivity).
  - apply He in E as [E|[-> E]]; [auto|]. right. split; [reflexivity|]. exists v. auto.
  - destruct (numStep st0 c); [left; injection E as <- <-; exists st; auto|].
    destruct (numAccepting st0); [|discriminate]. apply He in E as [E|[-> E]]; [auto|]. right. split; [reflexivity|].
    exists (JNumber lit). auto.
Qed.

(** A text read inside a context begins with a value of its own. *)
Lemma scan_split (limit : Z) (s rest : string) (p : phase) (st base : list frame) (v : json) :
  base <> [] -> scan limit p (st ++ base)%list s = Ok (v, rest) ->
  exists w rest1, scan limit p st s = Ok (w, rest1) /\ scan limit (EndValue w) base rest1 = Ok (v, rest).
Proof.
  intros Hb. revert p st. induction s as [|c s IH]; intros p st E; cbn [scan] in E.
  - exfalso. unfold at_eof in E. destruct st, base; try contradiction; discriminate.
  - destruct (step limit p (st ++ base)%list c) as [p' st2|w|] eqn:Es; [|apply step_EndTop in Es as (Es & _)|discriminate].
    + apply (step_split limit p p' st st2 base c Hb) in Es as [(st' & -> & Es)|(-> & w & Es & Ee)].
      * destruct (IH _ _ E) as (w & rest1 & K1 & K2). exists w, rest1. cbn [scan]. rewrite Es. auto.
      * exists w, (String c s). cbn [scan]. rewrite Es. split; [reflexivity|]. cbn [step]. rewrite Ee. exact E.
    + apply app_eq_nil in Es as [_ Es]. contradiction.
Qed.

(** A key is a string of its own. *)
Lemma scan_key_split (limit : Z) (s rest raw : string) (acc : list (string * json)) (v : json) :
  forall p q, (p, q) = (InString ToValue raw, InString (ToKey acc) raw) \/
    (p, q) = (InStringEsc ToValue raw, InStringEsc (ToKey acc) raw) \/
    (exists n, (p, q) = (InStringEscU ToValue n raw, InStringEscU (ToKey acc) n raw)) ->
  scan limit q [] s = Ok (v, rest) ->
  exists k r, scan limit p [] s = Ok (JString k, r) /\ scan limit (AfterKey acc k) [] r = Ok (v, rest).
Proof.
  revert raw. induction s as [|c s IH]; intros raw p q Hpq E.
  - exfalso. destruct Hpq as [[= _ ->]|[[= _ ->]|[n [= _ ->]]]]; discriminate E.
  - destruct Hpq as [[= -> ->]|[[= -> ->]|[n [= -> ->]]]]; cbn [scan step] in *.
    + unfold endString in *. destruct (Ascii.eqb c quote_char).
      { destruct (unquote raw) as [t|]; [|discriminate]. exists t, s. split; [|exact E]. destruct s; reflexivity. }
      destruct (Ascii.eqb c backslash); [eapply IH; [|exact E]; auto|].
      destruct (code c <? 32); [discriminate|]. eapply IH; [|exact E]; auto.
    + destruct (simple_escape (code c)); [eapply IH; [|exact E]; auto|].
      destruct (Ascii.eqb c "u"); [|discriminate]. eapply IH; [|exact E]. eauto.
    + destruct (from_hex_char c); [|discriminate]. destruct n; (eapply IH; [|exact E]); eauto.
Qed.

Lemma skip_space_head (s : string) (c : ascii) (t : string) : skip_space s = String c t -> isSpace c = false.
Proof. induction s as [|x s IH]; cbn [skip_space]; [discriminate|]. destruct (isSpace x) eqn:E; [exact IH|]. intros [= <- <-]. exact E. Qed.

Lemma skip_space_length (s : string) : (String.length (skip_space s) <= String.length s)%nat.
Proof. induction s as [|c s IH]; cbn [skip_space]; [lia|]. destruct (isSpace c); cbn [String.length]; lia. Qed.

Lemma scan_rest_length (limit : Z) (p : phase) (st : list frame) (s rest : string) (v : json) :
  scan limit p st s = Ok (v, rest) -> (String.length rest <= String.length s)%nat.
Proof. intros E. apply scan_rest in E as [pre ->]. rewrite str_length_app. lia. Qed.

Lemma raw_members_total (fuel : nat) (s rest : string) (acc : list (string * json)) (v : json) :
  (String.length s <= fuel)%nat -> scan maxNestingDepth (BeginString acc) [] s = Ok (v, rest) ->
  exists l, raw_members fuel s = Some l.
Proof.
  revert s acc. induction fuel as [|n IH]; intros s acc Hn E.
  { destruct s; [discriminate E | cbn [String.length] in Hn; lia]. }
  rewrite (scan_skip _ (BeginString acc)) in E by (intros c Hc; cbn; unfold beginString; rewrite Hc; reflexivity).
  cbn [raw_members]. unfold split_key. pose proof (skip_space_length s) as L0.
  destruct (skip_space s) as [|c t] eqn:Es; [discriminate E|]. apply skip_space_head in Es.
  cbn [scan step] in E. unfold beginString in E. rewrite Es in E.
  destruct (Ascii.eqb c quote_char); [|discriminate].
  destruct (scan_key_split maxNestingDepth t rest "" acc v (InString ToValue "") (InString (ToKey acc) "")
    (or_introl eq_refl) E) as (k & r0 & Ek & E1). rewrite Ek. apply scan_rest_length in Ek as L1.
  rewrite (scan_skip _ (AfterKey acc k)) in E1 by (intros x Hx; cbn; rewrite Hx; reflexivity).
  pose proof (skip_space_length r0) as L2. destruct (skip_space r0) as [|colon s1] eqn:E0; [discriminate E1|].
  apply skip_space_head in E0. cbn [scan step] in E1. rewrite E0 in E1.
  destruct (Ascii.eqb colon ":"); [|discriminate]. cbn [negb].
  rewrite (scan_skip _ BeginValue) in E1 by (intros x Hx; cbn; unfold beginValue; rewrite Hx; reflexivity).
  pose proof (skip_space_length s1) as L3.
  destruct (scan_split maxNestingDepth (skip_space s1) rest BeginValue [] [FObject acc k] v ltac:(discriminate) E1)
    as (w & r1 & Ev & E2). unfold split_value. rewrite Ev. apply scan_rest_length in Ev as L4.
  rewrite (scan_skip _ (EndValue w)) in E2 by (intros x Hx; cbn; rewrite Hx; reflexivity).
  pose proof (skip_space_length r1) as L5. destruct (skip_space r1) as [|x s2] eqn:E3; [discriminate E2|].
  apply skip_space_head in E3. cbn [scan step endValue] in E2. rewrite E3 in E2. cbn [String.length] in *.
  destruct (Ascii.eqb x ","); [|destruct (Ascii.eqb x "}"); [eauto | discriminate]].
  destruct (IH s2 (acc ++ [(k, w)])%list) as [l ->]; [lia | exact E2 | eauto].
Qed.

(** What is not begun by a brace is no object. *)
Definition no_object (p : phase) (st : list frame) : Prop :=
  match st with
  | [] =>
      match p with
      | EndValue (JObject _) | InLiteral _ (JObject _) | BeginValue | BeginStringOrEmpty | BeginString _ | AfterKey _ _
      | InString (ToKey _) _ | InStringEsc (ToKey _) _ | InStringEscU (ToKey _) _ _ => False
      | _ => True
      end
  | _ => exists xs, last st = Some (FArray xs)
  end.

Lemma no_object_step (limit : Z) (p p' : phase) (st st' : list frame) (c : ascii) :
  no_object p st -> step limit p st c = Continue p' st' -> no_object p' st'.
Proof.
  assert (Htop : forall f g s q q', no_object q (f :: s) -> (forall xs, f = FArray xs -> exists ys, g = FArray ys) ->
    no_object q' (g :: s)).
  { intros f g [|h s] q q' [xs K] Hf; cbn in K |- *; [|exists xs; exact K]. injection K as ->.
    destruct (Hf xs eq_refl) as [ys ->]. eauto. }
  assert (Hpush : forall g s q q', no_object q s -> s <> [] -> no_object q' (g :: s)).
  { intros g [|h s] q q' K Hs; [contradiction|]. destruct K as [xs K]. exists xs. exact K. }
  assert (Hpop : forall f s q q', no_object q (f :: s) -> s <> [] -> no_object q' s).
  { intros f [|h s] q q' K Hs; [contradiction|]. destruct K as [xs K]. exists xs. exact K. }
  assert (Hsame : forall q q' s, no_object q s -> s <> [] -> no_object q' s).
  { intros q q' [|h s] K Hs; [contradiction | exact K]. }
  assert (He : forall v, no_object (EndValue v) st -> endValue v c st = Continue p' st' -> no_object p' st').
  { intros v K E. destruct st as [|[xs|ms k] s]; cbn [endValue] in E; [discriminate| |];
      repeat (case_match_in E); try discriminate; injection E as <- <-; try exact K;
      try (eapply (Htop (FArray xs)); [exact K | eauto]);
      try (destruct s; [exact I || (destruct K as [ys K]; discriminate K) | eapply Hpop; [exact K | discriminate]]). }
  assert (Hb : forall q s, no_object q s -> s <> [] -> beginValue limit c s = Continue p' st' -> no_object p' st').
  { intros q s K Hs E. unfold beginValue in E. repeat (case_match_in E); try discriminate; injection E as <- <-;
      eapply Hsame; eassumption. }
  intros K E. destruct p; cbn [step] in E; unfold beginString, endString in E.
  - destruct st; [contradiction|]. eapply Hb; [exact K | discriminate | exact E].
  - destruct (isSpace c); [injection E as <- <-; exact K|]. destruct (Ascii.eqb c "]").
    + injection E as <- <-. destruct st; [exact I | exact K].
    + destruct st as [|f st]; [eapply (Hb BeginValue [FArray []]); [exists []; reflexivity | discriminate | exact E]|].
      eapply (Hb BeginValue); [eapply Hpush; [exact K | discriminate] | discriminate | exact E].
  - destruct st; [contradiction|]. repeat (case_match_in E); try discriminate; injection E as <- <-; exact K.
  - destruct st; [contradiction|]. repeat (case_match_in E); try discriminate; injection E as <- <-; exact K.
  - destruct st; [contradiction|]. repeat (case_match_in E); try discriminate; injection E as <- <-; exact K.
  - apply He in E; [exact E | exact K].
  - destruct st, d; try contradiction; repeat (case_match_in E); try discriminate; injection E as <- <-; exact K || exact I.
  - destruct st, d; try contradiction; repeat (case_match_in E); try discriminate; injection E as <- <-; exact K || exact I.
  - destruct st, d; try contradiction; repeat (case_match_in E); try discriminate; injection E as <- <-; exact K || exact I.
  - destruct st; repeat (case_match_in E); try discriminate; injection E as <- <-; exact K.
  - destruct (numStep st0 c); [injection E as <- <-; destruct st; exact K|].
    destruct (numAccepting st0); [|discriminate]. apply He in E; [exact E|]. destruct st; exact K.
Qed.

Lemma no_object_scan (limit : Z) (s rest : string) (p : phase) (st : list frame) (v : json) :
  no_object p st -> scan limit p st s = Ok (v, rest) -> forall ms, v <> JObject ms.
Proof.
  revert p st. induction s as [|c s IH]; intros p st K E ms ->; cbn [scan] in E.
  - unfold at_eof in E. destruct st; [|discriminate]. destruct p; try discriminate; [injection E as -> _; exact K|].
    destruct (numAccepting st); discriminate.
  - destruct (step limit p st c) as [p' st'|w|] eqn:Es; [|injection E as -> _|discriminate].
    + eapply IH; [eapply no_object_step; eassumption | exact E | reflexivity].
    + apply step_EndTop in Es as (-> & Ha & _). unfold at_eof in Ha. destruct p; try discriminate; [injection Ha as ->; exact K|].
      destruct (numAccepting st); discriminate.
Qed.

(** The raw map is read from every object and from null: its fuel always suffices. *)
Theorem UnmarshalRawMap_total (data : string) (v : json) :
  Unmarshal data = Ok v -> match v with JNull | JObject _ => True | _ => False end ->
  exists l, UnmarshalRawMap data = Ok l.
Proof.
  intros Ev Hv. unfold UnmarshalRawMap. rewrite Ev. cbn [rbind].
  destruct v as [| | | | |[|m0 ms0]]; try contradiction; [eauto | eauto|].
  unfold Unmarshal in Ev. apply rbind_Ok in Ev as ([v rest0] & Es & Ev). cbn [fst snd] in Ev.
  destruct (all_space rest0); [|discriminate]. injection Ev as ->.
  rewrite (scan_skip _ BeginValue) in Es by (intros x Hx; cbn; unfold beginValue; rewrite Hx; reflexivity).
  destruct (skip_space data) as [|c s] eqn:Ed; [discriminate Es|]. apply skip_space_head in Ed.
  destruct (Ascii.eqb c "{") eqn:Ec.
  - apply Ascii.eqb_eq in Ec as ->.
    change (scan maxNestingDepth BeginStringOrEmpty [] s = Ok (JObject (m0 :: ms0), rest0)) in Es.
    destruct (raw_members_total (String.length s) s rest0 [] (JObject (m0 :: ms0))) as [l ->]; [lia | | eauto].
    rewrite (scan_skip _ BeginStringOrEmpty) in Es by (intros x Hx; cbn; rewrite Hx; reflexivity).
    rewrite (scan_skip _ (BeginString [])) by (intros x Hx; cbn; unfold beginString; rewrite Hx; reflexivity).
    destruct (skip_space s) as [|c t] eqn:E0; [discriminate Es|]. apply skip_space_head in E0.
    cbn [scan step] in Es |- *. unfold beginString in *. rewrite E0 in *. destruct (Ascii.eqb c "}"); [|exact Es].
    destruct t; discriminate Es.
  - exfalso. cbn [scan step] in Es. destruct (beginValue maxNestingDepth c []) as [p' st'|w|] eqn:Eb; [| |discriminate];
      unfold beginValue in Eb; rewrite Ed, Ec in Eb; [|repeat (case_match_in Eb); discriminate].
    eapply (no_object_scan _ _ _ p' st'); [|exact Es | reflexivity].
    repeat (case_match_in Eb); try discriminate; injection Eb as <- <-; exact I.
Qed.

(** The raw map of an object: key by key the texts of its members. *)
Lemma UnmarshalRawMap_spec (data : string) (l : list (string * string)) :
  UnmarshalRawMap data = Ok l ->
  (Unmarshal data = Ok JNull /\ l = []) \/
  exists ms, Unmarshal data = Ok (JObject ms) /\
    Forall2 (fun r m => fst r = fst m /\ Unmarshal (snd r) = Ok (snd m) /\ Decode (snd r) = Ok (snd m)) l ms.
Proof.
  unfold UnmarshalRawMap. rewrite rbind_Ok. intros (v & Ev & E).
  destruct v as [| | | | |[|m0 ms0]]; try discriminate.
  - injection E as <-. left. auto.
  - injection E as <-. right. exists []. split; [exact Ev | constructor].
  - right. exists (m0 :: ms0). split; [exact Ev|].
    destruct (skip_space data) as [|c s] eqn:Ed; [discriminate|].
    assert (Hc : c = "{"%char) by (destruct c as [[] [] [] [] [] [] [] []]; try discriminate E; reflexivity).
    subst c. destruct (raw_members (String.length s) s) as [l'|] eqn:El; [|discriminate]. injection E as ->.
    apply raw_members_scan in El as (ms & rest & K & (t & Et) & Hs).
    unfold Unmarshal in Ev. apply rbind_Ok in Ev as ([v rest0] & Es & Ev). cbn [fst snd] in Ev.
    destruct (all_space rest0); [|discriminate]. injection Ev as ->.
    apply (scan_mono _ (maxNestingDepth + 1)) in Es; [|lia].
    rewrite (scan_skip _ BeginValue), Ed in Es by (intros x Hx; cbn; unfold beginValue; rewrite Hx; reflexivity).
    change (scan (maxNestingDepth + 1) BeginStringOrEmpty [] s = Ok (JObject (m0 :: ms0), rest0)) in Es.
    rewrite (scan_skip _ BeginStringOrEmpty), Et in Es by (intros x Hx; cbn; rewrite Hx; reflexivity).
    change (scan (maxNestingDepth + 1) (BeginString []) [] (String quote_char t) = Ok (JObject (m0 :: ms0), rest0)) in Es.
    rewrite <- Et, <- (scan_skip _ (BeginString [])) in Es
      by (intros x Hx; cbn; unfold beginString; rewrite Hx; reflexivity).
    rewrite Hs in Es. cbn [app] in Es.
    assert (Em : ms = m0 :: ms0) by (destruct rest as [|? ?]; cbn in Es; congruence).
    subst ms. eapply List.Forall2_impl; [|exact K]. intros [k raw] m [Ek Er]. cbn [fst snd] in *.
    auto using Unmarshal_scan, Decode_scan.
Qed.

Lemma raw_get_value (k raw : string) (l : list (string * string)) (ms : list (string * json)) :
  Forall2 (fun r m => fst r = fst m /\ Unmarshal (snd r) = Ok (snd m) /\ Decode (snd r) = Ok (snd m)) l ms ->
  raw_get k l = Some raw -> exists v, Unmarshal raw = Ok v /\ Decode raw = Ok v.
Proof.
  induction 1 as [|[k' r] [k2 v] l ms (_ & Hu & Hd) K IH]; cbn [raw_get fst snd] in *; [discriminate|].
  destruct (raw_get k l); [intros [= ->]; apply IH; reflexivity|].
  destruct (String.eqb k k'); [|discriminate]. intros [= <-]. eauto.
Qed.
