(* ===== verification/GoJson.v ===== *)
(** [encoding/json] over Go types: which texts decode into a type, the value a
    decode leaves, and the encoding of a value. *)

From stdpp Require Import sorting.
From S2P Require Import Prelude GoStrings Utf8 GoTime Errors Json Number Jcs TlogJson.

#[local] Open Scope string_scope.
#[local] Open Scope list_scope.
#[local] Open Scope Z_scope.

(** ** Types and values *)

(** The types the API structs are made of: integers are 64 bits wide; a field is
    its JSON name, whether it has [omitempty], and its type; embedded structs are
    spelled out. [TStringOr] is a struct whose own [UnmarshalJSON] also takes a
    string, for its first field. *)
Inductive gotype :=
| TString | TBool | TInt | TTime | TAny
| TSlice (t : gotype)
| TMap (t : gotype)
| TPtr (t : gotype)
| TStruct (fs : list (string * bool * gotype))
| TStringOr (fs : list (string * bool * gotype)).

(** An [any] is the JSON value it was decoded from, its numbers as doubles; a map
    is sorted by its keys; [VNil] is the nil slice, map or pointer. *)
Inductive goval :=
| VString (s : string)
| VBool (b : bool)
| VInt (z : Z)
| VTime (t : Time)
| VAny (j : json)
| VNil
| VSlice (l : list goval)
| VMap (l : list (string * goval))
| VPtr (v : goval)
| VStruct (vs : list goval).

Fixpoint zero (t : gotype) : goval :=
  match t with
  | TString => VString ""
  | TBool => VBool false
  | TInt => VInt 0
  | TTime => VTime zero_time
  | TAny => VAny JNull
  | TSlice _ | TMap _ | TPtr _ => VNil
  | TStruct fs | TStringOr fs => VStruct (map (fun f => zero (snd f)) fs)
  end.

(** ** Decoding *)

(** A decoder takes the JSON value and the value that is there; the flag is
    false when [Unmarshal] reports an error. *)
Definition decoder : Type := json -> goval -> goval * bool.

(** The members that name the field, in order. *)
Definition decode_field (dec : decoder) (name : string) (ms : list (string * json)) (old : goval) : goval * bool :=
  fold_left (fun acc m =>
    if names (fst m) name then let '(v, ok) := dec (snd m) (fst acc) in (v, snd acc && ok) else acc) ms (old, true).

(** Elements decode over the elements that are there. *)
Fixpoint decode_elems (dec : decoder) (z : goval) (l : list json) (olds : list goval) : list (goval * bool) :=
  match l with
  | [] => []
  | j :: l => dec j (hd z olds) :: decode_elems dec z l (tl olds)
  end.

Definition all_decoded (rs : list (goval * bool)) : bool := forallb snd rs.

(** The last entry of a key. *)
Fixpoint last_entry (k : string) (l : list (string * goval)) : option goval :=
  match l with
  | [] => None
  | (k', v) :: l =>
      match last_entry k l with
      | Some w => Some w
      | None => if String.eqb k k' then Some v else None
      end
  end.

Definition as_map (l : list (string * goval)) : list (string * goval) :=
  filter_map (fun k => option_map (pair k) (last_entry k l)) (sort_Strings (remove_dups (map fst l))).

Definition struct_fields (v : goval) : list goval := match v with VStruct l => l | _ => [] end.

Fixpoint decode (t : gotype) (j : json) (old : goval) {struct t} : goval * bool :=
  match t with
  | TString => match j with JString s => (VString s, true) | JNull => (old, true) | _ => (old, false) end
  | TBool => match j with JBool b => (VBool b, true) | JNull => (old, true) | _ => (old, false) end
  | TInt => match j with
            | JNumber lit => match ParseInt64 lit with Some z => (VInt z, true) | None => (old, false) end
            | JNull => (old, true)
            | _ => (old, false)
            end
  | TTime => match j with
             | JString s => match Parse_RFC3339 s with Some t => (VTime t, true) | None => (old, false) end
             | JNull => (old, true)
             | _ => (old, false)
             end
  | TAny => match canon j with Ok w => (VAny w, true) | Err _ => (old, false) end
  | TSlice t => match j with
                | JNull => (VNil, true)
                | JArray l =>
                    let rs := decode_elems (decode t) (zero t) l (match old with VSlice o => o | _ => [] end) in
                    (VSlice (map fst rs), all_decoded rs)
                | _ => (old, false)
                end
  | TMap t => match j with
              | JNull => (VNil, true)
              | JObject ms =>
                  let rs := map (fun m => (fst m, decode t (snd m) (zero t))) ms in
                  (VMap (as_map (match old with VMap o => o | _ => [] end ++ map (fun r => (fst r, fst (snd r))) rs)),
                   forallb (fun r => snd (snd r)) rs)
              | _ => (old, false)
              end
  | TPtr t => match j with
              | JNull => (VNil, true)
              | _ => let '(v, ok) := decode t j (match old with VPtr v => v | _ => zero t end) in (VPtr v, ok)
              end
  | TStruct fs =>
      match j with
      | JNull => (old, true)
      | JObject ms =>
          let rs := (fix go fs olds :=
            match fs with
            | [] => []
            | (name, omit, t) :: fs => decode_field (decode t) name ms (hd (zero t) olds) :: go fs (tl olds)
            end) fs (struct_fields old) in
          (VStruct (map fst rs), all_decoded rs)
      | _ => (old, false)
      end
  | TStringOr fs =>
      match j with
      | JString s => (VStruct (VString s :: tl (struct_fields old)), true)
      | JNull => (VStruct (VString "" :: tl (struct_fields old)), true)
      | JObject ms =>
          let rs := (fix go fs olds :=
            match fs with
            | [] => []
            | (name, omit, t) :: fs => decode_field (decode t) name ms (hd (zero t) olds) :: go fs (tl olds)
            end) fs (struct_fields old) in
          (VStruct (map fst rs), all_decoded rs)
      | _ => (old, false)
      end
  end.

(** The fields of a struct, decoded one by one. *)
Fixpoint decode_fields (fs : list (string * bool * gotype)) (ms : list (string * json)) (olds : list goval)
  : list (goval * bool) :=
  match fs with
  | [] => []
  | (name, omit, t) :: fs => decode_field (decode t) name ms (hd (zero t) olds) :: decode_fields fs ms (tl olds)
  end.

Lemma decode_struct (fs : list (string * bool * gotype)) (ms : list (string * json)) (old : goval) :
  decode (TStruct fs) (JObject ms) old =
  (let rs := decode_fields fs ms (struct_fields old) in (VStruct (map fst rs), all_decoded rs)).
Proof.
  cbn [decode]. match goal with |- context [?f fs (struct_fields old)] => set (go := f) end.
  assert (E : forall fs olds, go fs olds = decode_fields fs ms olds).
  { clear. induction fs as [|[[name omit] t] fs IH]; intros olds; cbn; [reflexivity|]. f_equal. apply IH. }
  rewrite E. reflexivity.
Qed.

Lemma decode_stringor (fs : list (string * bool * gotype)) (ms : list (string * json)) (old : goval) :
  decode (TStringOr fs) (JObject ms) old = decode (TStruct fs) (JObject ms) old.
Proof. reflexivity. Qed.

(** [json.Unmarshal(text, &v)]: the value left in [v], and whether there was no
    error. A syntax error leaves [v] as it was. *)
Definition Unmarshal_as (t : gotype) (text : string) (old : goval) : goval * bool :=
  match Unmarshal text with
  | Ok j => decode t j old
  | Err _ => (old, false)
  end.

(** ** Encoding *)

Definition is_empty (v : goval) : bool :=
  match v with
  | VString s => String.eqb s ""
  | VBool b => negb b
  | VInt z => z =? 0
  | VAny JNull | VNil | VSlice [] | VMap [] => true
  | _ => false
  end.

(** [strconv.FormatInt(z, 10)] *)
Definition FormatInt (z : Z) : string := if z <? 0 then "-" ++ fmt_d (- z) else fmt_d z.

Fixpoint encode (t : gotype) (v : goval) {struct t} : json :=
  match t, v with
  | TString, VString s => JString s
  | TBool, VBool b => JBool b
  | TInt, VInt z => JNumber (FormatInt z)
  | TTime, VTime t => JString (default "" (Marshal_time t))
  | TAny, VAny j => j
  | TSlice t, VSlice l => JArray (map (encode t) l)
  | TMap t, VMap l => JObject (map (fun kv => (fst kv, encode t (snd kv))) l)
  | TPtr t, VPtr v => encode t v
  | TStruct fs, VStruct vs | TStringOr fs, VStruct vs =>
      JObject ((fix go fs vs :=
        match fs, vs with
        | (name, omit, t) :: fs, v :: vs => (if omit && is_empty v then [] else [(name, encode t v)]) ++ go fs vs
        | _, _ => []
        end) fs vs)
  | _, _ => JNull
  end.

Fixpoint encode_fields (fs : list (string * bool * gotype)) (vs : list goval) : list (string * json) :=
  match fs, vs with
  | (name, omit, t) :: fs, v :: vs => (if omit && is_empty v then [] else [(name, encode t v)]) ++ encode_fields fs vs
  | _, _ => []
  end.

Lemma encode_struct (fs : list (string * bool * gotype)) (vs : list goval) :
  encode (TStruct fs) (VStruct vs) = JObject (encode_fields fs vs).
Proof. reflexivity. Qed.

(** [json.Marshal(v)], when every time in it can be written. *)
Definition Marshal_as (t : gotype) (v : goval) : string := print (encode t v).

(** ** Values of a type *)

Fixpoint has_type (t : gotype) (v : goval) {struct t} : Prop :=
  match t, v with
  | TString, VString _ | TBool, VBool _ | TTime, VTime _ => True
  | TInt, VInt z => in_i64 z
  | TAny, VAny j => canon j = Ok j
  | TSlice _, VNil | TMap _, VNil | TPtr _, VNil => True
  | TSlice t, VSlice l => fold_right and True (map (has_type t) l)
  | TMap t, VMap l =>
      sort_Strings (remove_dups (map fst l)) = map fst l /\ fold_right and True (map (fun kv => has_type t (snd kv)) l)
  | TPtr t, VPtr v => has_type t v
  | TStruct fs, VStruct vs | TStringOr fs, VStruct vs =>
      (fix go fs vs :=
        match fs, vs with
        | [], [] => True
        | (_, _, t) :: fs, v :: vs => has_type t v /\ go fs vs
        | _, _ => False
        end) fs vs
  | _, _ => False
  end.

(** Field names that no key can mean twice, in UTF-8; a struct that also takes a
    string has a string field first. *)
Fixpoint names_apart (l : list string) : bool :=
  match l with
  | [] => true
  | n :: l => is_utf8 n && forallb (fun m => negb (names m n) && negb (names n m)) l && names_apart l
  end.

Definition field_name (f : string * bool * gotype) : string := fst (fst f).

Fixpoint type_wf (t : gotype) : bool :=
  match t with
  | TSlice t | TMap t | TPtr t => type_wf t
  | TStruct fs => names_apart (map field_name fs) && forallb (fun f => type_wf (snd f)) fs
  | TStringOr fs =>
      (match fs with (_, _, TString) :: _ => true | _ => false end) &&
      (names_apart (map field_name fs) && forallb (fun f => type_wf (snd f)) fs)
  | _ => true
  end.

Section TypeInduction.
Context (P : gotype -> Prop) (Hstring : P TString) (Hbool : P TBool) (Hint : P TInt) (Htime : P TTime) (Hany : P TAny).
Context (Hslice : forall t, P t -> P (TSlice t)) (Hmap : forall t, P t -> P (TMap t)) (Hptr : forall t, P t -> P (TPtr t)).
Context (Hstruct : forall fs, List.Forall (fun f => P (snd f)) fs -> P (TStruct fs)).
Context (Hor : forall fs, List.Forall (fun f => P (snd f)) fs -> P (TStringOr fs)).

Fixpoint gotype_fields_ind (t : gotype) : P t :=
  let fields := fix go (fs : list (string * bool * gotype)) : List.Forall (fun f => P (snd f)) fs :=
    match fs with
    | [] => List.Forall_nil _
    | f :: fs => List.Forall_cons _ _ _ (gotype_fields_ind (snd f)) (go fs)
    end in
  match t with
  | TString => Hstring | TBool => Hbool | TInt => Hint | TTime => Htime | TAny => Hany
  | TSlice t => Hslice t (gotype_fields_ind t)
  | TMap t => Hmap t (gotype_fields_ind t)
  | TPtr t => Hptr t (gotype_fields_ind t)
  | TStruct fs => Hstruct fs (fields fs)
  | TStringOr fs => Hor fs (fields fs)
  end.
End TypeInduction.

Lemma wf_fields (Q : gotype -> Prop) (fs : list (string * bool * gotype)) :
  List.Forall (fun f => type_wf (snd f) = true -> Q (snd f)) fs -> forallb (fun f => type_wf (snd f)) fs = true ->
  List.Forall (fun f => Q (snd f)) fs.
Proof.
  intros K W. rewrite List.Forall_forall in *. rewrite forallb_forall in W. intros f Hf. apply K; [exact Hf | apply W, Hf].
Qed.

(** ** A decode leaves a value of the type *)

Definition fields_typed (fs : list (string * bool * gotype)) (vs : list goval) : Prop :=
  Forall2 (fun f v => has_type (snd f) v) fs vs.

Lemma has_type_struct (fs : list (string * bool * gotype)) (vs : list goval) :
  has_type (TStruct fs) (VStruct vs) <-> fields_typed fs vs.
Proof.
  unfold fields_typed. cbn [has_type]. revert vs. induction fs as [|[[n o] t] fs IH]; intros [|v vs]; cbn [snd].
  - split; [constructor | trivial].
  - split; [contradiction | intros K; inversion K].
  - split; [contradiction | intros K; inversion K].
  - rewrite IH. split; [intros [H1 H2]; constructor; auto | intros K; inversion K; auto].
Qed.

Lemma has_type_or (fs : list (string * bool * gotype)) (v : goval) :
  has_type (TStringOr fs) v = has_type (TStruct fs) v.
Proof. destruct v; reflexivity. Qed.

Lemma fold_and_In {A : Type} (P : A -> Prop) (l : list A) :
  fold_right and True (map P l) <-> (forall x, In x l -> P x).
Proof.
  induction l as [|x l IH]; cbn; [split; [contradiction|trivial]|]. rewrite IH. split.
  - intros [H1 H2] y [<-|Hy]; auto.
  - intros K. split; [|intros]; apply K; auto.
Qed.

Lemma zero_typed (t : gotype) : has_type t (zero t).
Proof.
  induction t as [| | | | |t IH|t IH|t IH|fs IH|fs IH] using gotype_fields_ind; try exact I; try reflexivity.
  - cbn [has_type zero]. unfold in_i64. split; vm_compute; congruence.
  - cbn [zero]. apply has_type_struct. induction IH; constructor; auto.
  - cbn [zero]. rewrite has_type_or. apply has_type_struct. induction IH; constructor; auto.
Qed.

(** A typed decoder: it keeps values of the type [t]. *)
Definition keeps (t : gotype) : Prop := forall j old, has_type t old -> has_type t (fst (decode t j old)).

Lemma decode_field_keeps (t : gotype) (name : string) (ms : list (string * json)) (old : goval) :
  keeps t -> has_type t old -> has_type t (fst (decode_field (decode t) name ms old)).
Proof.
  intros K Ho. unfold decode_field.
  assert (G : forall acc, has_type t (fst acc) -> has_type t (fst (fold_left (fun (acc : goval * bool) m =>
    if names (fst m) name then let '(v, ok) := decode t (snd m) (fst acc) in (v, snd acc && ok) else acc) ms acc))).
  { induction ms as [|m ms IH]; intros acc Ha; cbn [fold_left]; [exact Ha|]. apply IH.
    destruct (names (fst m) name); [|exact Ha]. specialize (K (snd m) (fst acc) Ha).
    destruct (decode t (snd m) (fst acc)). exact K. }
  apply G. exact Ho.
Qed.

Lemma decode_fields_keep (fs : list (string * bool * gotype)) (ms : list (string * json)) (olds : list goval) :
  List.Forall (fun f => keeps (snd f)) fs -> fields_typed fs olds ->
  fields_typed fs (map fst (decode_fields fs ms olds)).
Proof.
  intros K Ho. induction Ho as [|[[n o] t] v fs vs Hv Ho IH]; [constructor|].
  inversion K; subst. cbn [decode_fields map hd tl]. constructor; [|apply IH; assumption].
  apply decode_field_keeps; assumption.
Qed.

Lemma decode_elems_keep (t : gotype) (l : list json) (olds : list goval) :
  keeps t -> (forall v, In v olds -> has_type t v) ->
  forall r, In r (decode_elems (decode t) (zero t) l olds) -> has_type t (fst r).
Proof.
  intros K. revert olds. induction l as [|j l IH]; intros olds Ho r; cbn [decode_elems In]; [contradiction|].
  intros [<-|Hr].
  - apply K. destruct olds as [|v olds]; [apply zero_typed | apply Ho; left; reflexivity].
  - apply (IH (tl olds)); [|exact Hr]. destruct olds as [|v olds]; [intros ? [] | intros w Hw; apply Ho; right; exact Hw].
Qed.

Lemma last_entry_in (k : string) (l : list (string * goval)) (v : goval) : last_entry k l = Some v -> In (k, v) l.
Proof.
  induction l as [|[k' w] l IH]; cbn; [discriminate|]. destruct (last_entry k l).
  - intros [= ->]. auto.
  - destruct (String.eqb_spec k k') as [->|]; [|discriminate]. intros [= ->]. auto.
Qed.

Lemma last_entry_key (k : string) (l : list (string * goval)) : In k (map fst l) -> last_entry k l <> None.
Proof.
  induction l as [|[k' w] l IH]; cbn; [contradiction|]. intros [->|Hk].
  - destruct (last_entry k l); [discriminate|]. rewrite String.eqb_refl. discriminate.
  - destruct (last_entry k l); [discriminate | apply IH in Hk; congruence].
Qed.

Lemma in_sort_dups (k : string) (l : list string) : In k (sort_Strings (remove_dups l)) <-> In k l.
Proof. rewrite sort_in. apply in_remove_dups. Qed.

Lemma as_map_keys (l : list (string * goval)) :
  map fst (as_map l) = sort_Strings (remove_dups (map fst l)).
Proof.
  unfold as_map.
  rewrite (filter_map_keys (fun k => last_entry k l)); [reflexivity|].
  intros k Hk. apply last_entry_key, in_sort_dups, Hk.
Qed.

Lemma as_map_in (l : list (string * goval)) (m : string * goval) : In m (as_map l) -> In m l.
Proof.
  unfold as_map. intros Hm. apply in_filter_map in Hm as (k & _ & E).
  destruct (last_entry k l) as [v|] eqn:El; [|discriminate]. injection E as <-. apply last_entry_in, El.
Qed.

Lemma sorted_once (l : list string) :
  sort_Strings (remove_dups (sort_Strings (remove_dups l))) = sort_Strings (remove_dups l).
Proof. apply sort_remove_dups_eq. intros k. apply in_sort_dups. Qed.

Lemma ParseInt64_i64 (lit : string) (z : Z) : ParseInt64 lit = Some z -> in_i64 z.
Proof.
  assert (G : forall s n, ParseUint s 64 = Some n -> 0 <= n) by (intros s n E; apply ParseUint_range in E; lia).
  unfold ParseInt64, in_i64, min_i64, max_i64. intros E.
  repeat (case_match_in E; try discriminate); injection E as <-; bool_hyps;
    match goal with K : ParseUint _ _ = _ |- _ => apply G in K end; lia.
Qed.

Lemma keeps_struct (fs : list (string * bool * gotype)) (j : json) (old : goval) :
  List.Forall (fun f => keeps (snd f)) fs -> has_type (TStruct fs) old ->
  has_type (TStruct fs) (fst (decode (TStruct fs) j old)).
Proof.
  intros K Ho. destruct j as [| | | | |ms]; try exact Ho. rewrite decode_struct. cbn [fst].
  destruct old as [ | | | | | | | | |vs]; try contradiction Ho. apply has_type_struct.
  apply decode_fields_keep; [exact K|]. apply has_type_struct, Ho.
Qed.

Lemma decode_keeps (t : gotype) : type_wf t = true -> keeps t.
Proof.
  induction t as [| | | | |t IH|t IH|t IH|fs IH|fs IH] using gotype_fields_ind; intros W j old Ho; cbn [type_wf] in W.
  - destruct j; exact Ho || exact I.
  - destruct j; exact Ho || exact I.
  - destruct j; try exact Ho. cbn [decode]. destruct (ParseInt64 _) eqn:E; [|exact Ho]. exact (ParseInt64_i64 _ _ E).
  - destruct j; try exact Ho. cbn [decode]. destruct (Parse_RFC3339 _); [exact I | exact Ho].
  - cbn [decode]. destruct (canon j) as [w|e] eqn:E; [|exact Ho]. exact (canon_idem j w E).
  - destruct j as [| | | |l|]; try exact Ho; try exact I. cbn [decode fst has_type].
    apply fold_and_In. intros v Hv. apply in_map_iff in Hv as (r & <- & Hr).
    eapply decode_elems_keep; [exact (IH W) | | exact Hr].
    destruct old; try (intros ? []). exact (proj1 (fold_and_In _ _) Ho).
  - destruct j as [| | | | |ms]; try exact Ho; try exact I. cbn [decode fst has_type].
    rewrite as_map_keys. split; [apply sorted_once|]. apply fold_and_In. intros m Hm.
    apply as_map_in, in_app_iff in Hm as [Hm|Hm].
    + destruct old; try contradiction Hm. destruct Ho as [_ Ho]. exact (proj1 (fold_and_In _ _) Ho m Hm).
    + apply in_map_iff in Hm as (r & <- & Hr). apply in_map_iff in Hr as (x & <- & _). apply (IH W), zero_typed.
  - assert (G : has_type t (fst (decode t j (match old with VPtr v => v | _ => zero t end)))).
    { apply (IH W). destruct old; try apply zero_typed. exact Ho. }
    destruct j; try exact I; cbn [decode]; destruct (decode t _ _); exact G.
  - bool_hyps. apply keeps_struct; [|exact Ho]. apply (wf_fields _ fs IH); assumption.
  - rewrite has_type_or in *. bool_hyps.
    assert (G : has_type (TStruct fs) (fst (decode (TStruct fs) j old))).
    { apply keeps_struct; [|exact Ho]. apply (wf_fields _ fs IH); assumption. }
    assert (G' : forall s, has_type (TStruct fs) (VStruct (VString s :: tl (struct_fields old)))).
    { intros s. destruct fs as [|[[n o] []] fs]; try discriminate. destruct old as [ | | | | | | | | |[|v vs]]; try contradiction Ho. exact (conj I (proj2 Ho)). }
    destruct j; try exact G; apply G'.
Qed.

(** Whatever the text, a decode leaves a value of the type it decodes into. *)
Lemma Unmarshal_as_keeps (t : gotype) (text : string) (old : goval) :
  type_wf t = true -> has_type t old -> has_type t (fst (Unmarshal_as t text old)).
Proof.
  intros W Ho. unfold Unmarshal_as. destruct (Unmarshal text); [apply decode_keeps; assumption | exact Ho].
Qed.

(** ** What is encoded decodes to the same value *)

(** The values whose encoding says all of them: strings and times can be
    written, a field left out by [omitempty] is its type's zero value, and a
    pointer's target is not written as null. *)
Fixpoint storable (t : gotype) (v : goval) {struct t} : Prop :=
  match t, v with
  | TString, VString s => is_utf8 s = true
  | TBool, VBool _ => True
  | TInt, VInt z => in_i64 z
  | TTime, VTime t => time_wf t
  | TAny, VAny j => canon j = Ok j /\ json_wf j = true
  | TSlice _, VNil | TMap _, VNil | TPtr _, VNil => True
  | TSlice t, VSlice l => fold_right and True (map (storable t) l)
  | TMap t, VMap l =>
      sort_Strings (remove_dups (map fst l)) = map fst l /\
      fold_right and True (map (fun kv => is_utf8 (fst kv) = true /\ storable t (snd kv)) l)
  | TPtr t, VPtr v => storable t v /\ encode t v <> JNull
  | TStruct fs, VStruct vs | TStringOr fs, VStruct vs =>
      (fix go fs vs :=
        match fs, vs with
        | [], [] => True
        | (_, omit, t) :: fs, v :: vs => (storable t v /\ (omit && is_empty v = true -> v = zero t)) /\ go fs vs
        | _, _ => False
        end) fs vs
  | _, _ => False
  end.

Definition field_storable (f : string * bool * gotype) (v : goval) : Prop :=
  storable (snd f) v /\ (snd (fst f) && is_empty v = true -> v = zero (snd f)).

Lemma storable_struct (fs : list (string * bool * gotype)) (vs : list goval) :
  storable (TStruct fs) (VStruct vs) <-> Forall2 field_storable fs vs.
Proof.
  cbn [storable]. revert vs. induction fs as [|[[n o] t] fs IH]; intros [|v vs].
  - split; [constructor | trivial].
  - split; [contradiction | intros K; inversion K].
  - split; [contradiction | intros K; inversion K].
  - rewrite IH. split; [intros [H1 H2]; constructor; auto | intros K; inversion K; auto].
Qed.

Lemma names_refl (n : string) : names n n = true.
Proof. apply bool_decide_eq_true_2. reflexivity. Qed.

Lemma decode_field_app (dec : decoder) (name : string) (a b : list (string * json)) (old : goval) :
  decode_field dec name (a ++ b) old =
  (fst (decode_field dec name b (fst (decode_field dec name a old))),
   snd (decode_field dec name a old) && snd (decode_field dec name b (fst (decode_field dec name a old)))).
Proof.
  unfold decode_field. rewrite fold_left_app.
  set (step := fun (acc : goval * bool) (m : string * json) => _).
  destruct (fold_left step a (old, true)) as [v ok]. cbn [fst snd].
  assert (G : forall ok' w, fold_left step b (w, ok && ok') =
    (fst (fold_left step b (w, ok')), ok && snd (fold_left step b (w, ok')))).
  { induction b as [|m b IH]; intros ok' w; [reflexivity|]. cbn [fold_left]. unfold step at 2 4 6. cbn [fst snd].
    destruct (names (fst m) name); [|apply IH]. destruct (dec (snd m) w) as [u k]. rewrite <- andb_assoc. apply IH. }
  specialize (G true v). rewrite andb_true_r in G. exact G.
Qed.

Lemma decode_field_skip (dec : decoder) (name : string) (ms : list (string * json)) (old : goval) :
  (forall m, In m ms -> names (fst m) name = false) -> decode_field dec name ms old = (old, true).
Proof.
  intros K. unfold decode_field. generalize true. induction ms as [|m ms IH]; intros ok; [reflexivity|].
  cbn [fold_left]. rewrite K by (left; reflexivity). apply IH. intros; apply K; right; assumption.
Qed.

(** A decoder reads back the value [v]. *)
Definition reads (t : gotype) : Prop :=
  forall v, storable t v -> decode t (encode t v) (zero t) = (v, true).

Lemma encode_fields_names (fs : list (string * bool * gotype)) (vs : list goval) (m : string * json) :
  In m (encode_fields fs vs) -> In (fst m) (map field_name fs).
Proof.
  revert vs. induction fs as [|[[n o] t] fs IH]; intros [|v vs]; cbn [encode_fields]; try contradiction.
  intros Hm. apply in_app_iff in Hm as [Hm|Hm]; [|right; eapply IH; exact Hm].
  destruct (o && is_empty v); [contradiction|]. destruct Hm as [<-|[]]. left. reflexivity.
Qed.

Lemma decode_own (f : string * bool * gotype) (v : goval) (t := snd f) :
  reads t -> field_storable f v ->
  decode_field (decode t) (field_name f)
    (if snd (fst f) && is_empty v then [] else [(field_name f, encode t v)]) (zero t) = (v, true).
Proof.
  intros R [Hs Ho]. destruct (snd (fst f) && is_empty v).
  - rewrite Ho by reflexivity. reflexivity.
  - unfold decode_field. cbn [fold_left fst snd]. rewrite names_refl. unfold t. rewrite R by exact Hs. reflexivity.
Qed.

Lemma decode_encode_fields (fs : list (string * bool * gotype)) (vs : list goval) (ms : list (string * json)) :
  List.Forall (fun f => reads (snd f)) fs -> names_apart (map field_name fs) = true ->
  (forall m n, In m ms -> In n (map field_name fs) -> names (fst m) n = false) ->
  Forall2 field_storable fs vs ->
  decode_fields fs (ms ++ encode_fields fs vs) (map (fun f => zero (snd f)) fs) = map (fun v => (v, true)) vs.
Proof.
  intros R W M K. revert ms M. induction K as [|[[n o] t] v fs vs Hv K IH]; intros ms M; [reflexivity|].
  inversion R as [|? ? Rt Rfs]; subst. cbn [map names_apart field_name fst] in W. bool_hyps.
  match goal with F : forallb _ (map field_name fs) = true |- _ =>
    assert (A : forall x, In x (map field_name fs) -> names n x = false /\ names x n = false)
      by (intros x Hx; rewrite forallb_forall in F; apply F in Hx; bool_hyps; auto) end.
  cbn [decode_fields encode_fields map hd tl fst snd].
  set (own := if o && is_empty v then [] else [(n, encode t v)]). f_equal.
  - rewrite !decode_field_app, (decode_field_skip _ n ms); cbn [fst snd].
    2: { intros m Hm. apply (M m n Hm). left. reflexivity. }
    pose proof (decode_own (n, o, t) v Rt Hv) as E. cbn [field_name fst snd] in E. fold own in E. rewrite E. cbn [fst snd].
    rewrite decode_field_skip; [reflexivity|]. intros m Hm. apply encode_fields_names, A in Hm. tauto.
  - rewrite app_assoc. apply IH; [exact Rfs | assumption |].
    intros m x Hm Hx. apply in_app_iff in Hm as [Hm|Hm]; [apply (M m x Hm); right; exact Hx|].
    unfold own in Hm. destruct (o && is_empty v); [contradiction|]. destruct Hm as [<-|[]]. apply A, Hx.
Qed.

Lemma ParseInt64_FormatInt (z : Z) : in_i64 z -> ParseInt64 (FormatInt z) = Some z.
Proof.
  unfold in_i64, min_i64, max_i64. intros Hz. unfold FormatInt.
  destruct (z <? 0) eqn:E; bool_hyps.
  - cbn [String.append ParseInt64]. rewrite ParseUint_fmt_d by lia.
    rewrite (proj2 (Z.leb_le _ _)) by lia. f_equal. lia.
  - assert (G : ParseUint (fmt_d z) 64 = Some z) by (apply ParseUint_fmt_d; lia).
    pose proof (fmt_d_digits z) as D. unfold ParseInt64.
    destruct (fmt_d z) as [|c s]; [discriminate G|]. cbn [str_forallb] in D. bool_hyps.
    rewrite G. rewrite (proj2 (Z.leb_le _ _)) by (unfold max_i64; lia).
    destruct (ascii_dec c "-") as [->|Hc]; [discriminate|].
    destruct c as [[] [] [] [] [] [] [] []]; try reflexivity; congruence.
Qed.

Lemma decode_elems_read (t : gotype) (l : list goval) :
  reads t -> (forall v, In v l -> storable t v) ->
  decode_elems (decode t) (zero t) (map (encode t) l) [] = map (fun v => (v, true)) l.
Proof.
  intros R. induction l as [|v l IH]; intros K; [reflexivity|]. cbn [map decode_elems hd tl].
  rewrite R by (apply K; left; reflexivity). f_equal. apply IH. intros; apply K; right; assumption.
Qed.

Lemma all_read (l : list goval) :
  map fst (map (fun v : goval => (v, true)) l) = l /\ all_decoded (map (fun v => (v, true)) l) = true.
Proof. rewrite map_map. split; [apply map_id | unfold all_decoded; induction l; [reflexivity | assumption]]. Qed.

Lemma last_entry_unique (k : string) (v : goval) (l : list (string * goval)) :
  List.NoDup (map fst l) -> In (k, v) l -> last_entry k l = Some v.
Proof.
  induction l as [|[k' w] l IH]; cbn; [contradiction|]. intros Hn [[= -> ->]|Hi]; inversion Hn as [|? ? Hk Hn']; subst.
  - destruct (last_entry k l) eqn:E; [|rewrite String.eqb_refl; reflexivity].
    apply last_entry_in in E. destruct Hk. apply in_map_iff. exists (k, g). auto.
  - rewrite (IH Hn' Hi). reflexivity.
Qed.

(** A map with sorted keys is what its entries make. *)
Lemma as_map_sorted (l : list (string * goval)) :
  sort_Strings (remove_dups (map fst l)) = map fst l -> as_map l = l.
Proof.
  intros E. unfold as_map. rewrite E.
  assert (Hn : List.NoDup (map fst l)).
  { rewrite <- E. unfold sort_Strings. apply NoDup_ListNoDup. rewrite merge_sort_Permutation. apply NoDup_remove_dups. }
  assert (G : forall m, (forall e, In e m -> In e l) ->
    filter_map (fun k => option_map (pair k) (last_entry k l)) (map fst m) = m); [|apply G; auto].
  induction m as [|[k v] m IH]; intros Hm; [reflexivity|]. cbn [map fst filter_map].
  rewrite (last_entry_unique k v l Hn) by (apply Hm; left; reflexivity). cbn [option_map]. f_equal.
  apply IH. intros; apply Hm; right; assumption.
Qed.

Lemma reads_struct (fs : list (string * bool * gotype)) (v : goval) :
  List.Forall (fun f => reads (snd f)) fs -> names_apart (map field_name fs) = true ->
  storable (TStruct fs) v -> decode (TStruct fs) (encode (TStruct fs) v) (zero (TStruct fs)) = (v, true).
Proof.
  intros R W K. destruct v as [ | | | | | | | | |vs]; try contradiction K. apply storable_struct in K.
  rewrite encode_struct, decode_struct. cbn [zero struct_fields].
  pose proof (decode_encode_fields fs vs [] R W (fun m n (H : In m []) => match H with end) K) as E.
  cbn [app] in E. rewrite E.
  destruct (all_read vs) as [-> ->]. reflexivity.
Qed.

Lemma type_wf_reads (t : gotype) : type_wf t = true -> reads t.
Proof.
  induction t as [| | | | |t IH|t IH|t IH|fs IH|fs IH] using gotype_fields_ind; intros W v K; cbn [type_wf] in W;
    try (destruct v; try contradiction K; reflexivity).
  - destruct v; try contradiction K. cbn [encode decode]. rewrite ParseInt64_FormatInt by exact K. reflexivity.
  - destruct v as [ | | |u| | | | | |]; try contradiction K. cbn [encode decode]. unfold Marshal_time.
    pose proof K as (Hy & _ & _ & _ & _ & _ & _ & Ho & _).
    rewrite (proj2 (Z.leb_le _ _)), (proj2 (Z.ltb_lt _ _)), (proj2 (Z.ltb_lt _ _)) by lia. cbn [andb default].
    pose proof (Parse_Format u true K) as E. unfold id. rewrite E. reflexivity.
  - destruct v; try contradiction K. destruct K as [K _]. cbn [encode decode]. rewrite K. reflexivity.
  - destruct v as [ | | | | | |l| | |]; try contradiction K; [reflexivity|]. cbn [encode decode zero].
    cbn [storable] in K. rewrite fold_and_In in K. rewrite decode_elems_read by (try apply (IH W); exact K).
    destruct (all_read l) as [-> ->]. reflexivity.
  - destruct v as [ | | | | | | |l| |]; try contradiction K; [reflexivity|]. cbn [encode decode zero app].
    cbn [storable] in K. destruct K as [Ks K]. rewrite fold_and_In in K. rewrite !map_map. cbn [fst snd].
    assert (E : map (fun m : string * goval => (fst m, decode t (encode t (snd m)) (zero t))) l = map (fun m => (fst m, (snd m, true))) l).
    { apply map_ext_in. intros m Hm. rewrite (IH W) by apply (K m Hm). reflexivity. }
    assert (E1 : map (fun m : string * goval => (fst m, fst (decode t (encode t (snd m)) (zero t)))) l = l).
    { rewrite <- (map_id l) at 2. apply map_ext_in. intros [k w] Hm. cbn [fst snd].
      rewrite (IH W) by apply (K (k, w) Hm). reflexivity. }
    rewrite E, E1, as_map_sorted by exact Ks. f_equal. apply forallb_forall. intros r Hr.
    apply in_map_iff in Hr as (m & <- & _). reflexivity.
  - destruct v as [ | | | | | | | |v|]; try contradiction K; [reflexivity|]. destruct K as [K Hn].
    cbn [encode decode zero]. specialize (IH W v K).
    destruct (encode t v); try congruence; rewrite IH; reflexivity.
  - bool_hyps. apply reads_struct; [|assumption|exact K]. apply (wf_fields _ fs IH); assumption.
  - bool_hyps. destruct v as [ | | | | | | | | |vs]; try contradiction K.
    change (encode (TStringOr fs) (VStruct vs)) with (encode (TStruct fs) (VStruct vs)).
    rewrite <- (reads_struct fs (VStruct vs)); [|clear K|assumption|exact K].
    + rewrite encode_struct. apply decode_stringor.
    + apply (wf_fields _ fs IH); assumption.
Qed.

Lemma fmt_digits_lead (fuel : nat) (n : Z) (acc : string) :
  1 <= n < 10 ^ Z.of_nat fuel ->
  exists d t, fmt_digits fuel n acc = String (digit_char d) t /\ 1 <= d < 10.
Proof.
  revert n acc. induction fuel as [|fuel IH]; intros n acc Hn; [cbn in Hn; lia|].
  cbn [fmt_digits]. destruct (n <? 10) eqn:E; bool_hyps.
  - rewrite Z.mod_small by lia. eexists n, acc. split; [reflexivity | lia].
  - apply IH. rewrite Nat2Z.inj_succ, Z.pow_succ_r in Hn by lia.
    pose proof (Z.div_lt_upper_bound n 10 (10 ^ Z.of_nat fuel)). pose proof (Z.div_le_lower_bound n 10 1). lia.
Qed.

Lemma fmt_d_number (neg : bool) (n : Z) :
  0 <= n < 10 ^ 20 -> valid_number ((if neg then "-" else "") ++ fmt_d n) = true.
Proof.
  intros Hn. assert (G : exists st, (st = N0 \/ st = N1) /\ num_run NNeg (fmt_d n) = Some st /\
    match fmt_d n with String c t => exists s0, numStart c = Some s0 /\ num_run s0 t = Some st | "" => False end).
  { apply num_run_lead; [apply fmt_d_digits|]. destruct (Z.eq_dec n 0) as [->|Hz]; [reflexivity|].
    destruct (fmt_digits_lead 20 n "") as (d & t & E & Hd); [change (Z.of_nat 20) with 20; lia|].
    unfold fmt_d. rewrite E. cbn [lead_ok].
    replace (Ascii.eqb (digit_char d) "0") with false; [apply is_digit_char; lia|]. symmetry. apply Ascii.eqb_neq.
    intros K. apply (f_equal digit_val) in K. rewrite digit_val_char in K by lia. change (digit_val "0") with 0 in K. lia. }
  destruct G as (st & Hst & Hneg & Hpos).
  assert (Ha : numAccepting st = true) by (destruct Hst as [-> | ->]; reflexivity).
  destruct neg; cbn [String.append].
  - change (match num_run NNeg (fmt_d n) with Some s => numAccepting s | None => false end = true). rewrite Hneg. exact Ha.
  - destruct (fmt_d n) as [|c t]; [contradiction|]. destruct Hpos as (s0 & E0 & E1). cbn [valid_number]. rewrite E0, E1. exact Ha.
Qed.

Lemma FormatInt_number (z : Z) : in_i64 z -> valid_number (FormatInt z) = true.
Proof.
  unfold in_i64, min_i64, max_i64, FormatInt. intros Hz. destruct (z <? 0) eqn:E; bool_hyps.
  - apply (fmt_d_number true). lia.
  - apply (fmt_d_number false). lia.
Qed.

(** Times are written in ASCII. *)
Lemma is_ascii_utf8 (s : string) : is_ascii s = true -> is_utf8 s = true.
Proof.
  intros Ha. assert (G : exists l, forallb is_scalar l = true /\ encode_runes l = s).
  { induction s as [|c s IH]; [exists []; split; reflexivity|]. cbn [is_ascii str_forallb] in Ha.
    apply andb_true_iff in Ha as [Hc Hs]. destruct (IH Hs) as (l & Hl & <-). exists (code c :: l).
    cbn [forallb encode_runes]. rewrite Hl, andb_true_r.
    assert (K : implb (is_ascii_char c) (is_scalar (code c) && String.eqb (encode_scalar (code c)) (String c "")) = true)
      by by_chars (fun c => implb (is_ascii_char c) (is_scalar (code c) && String.eqb (encode_scalar (code c)) (String c ""))) c.
    rewrite Hc in K. cbn [implb] in K. bool_hyps. split; [assumption|].
    match goal with E : encode_scalar _ = _ |- _ => rewrite E end. reflexivity. }
  destruct G as (l & Hl & <-). apply is_utf8_encode, Hl.
Qed.

Lemma digit_char_ascii (d : Z) : 0 <= d < 10 -> is_ascii_char (digit_char d) = true.
Proof.
  intros Hd. pose proof (is_digit_char d Hd) as E.
  assert (K : implb (is_digit (digit_char d)) (is_ascii_char (digit_char d)) = true)
    by by_chars (fun c => implb (is_digit c) (is_ascii_char c)) (digit_char d).
  rewrite E in K. exact K.
Qed.

Lemma digits_ascii (s : string) : str_forallb is_digit s = true -> is_ascii s = true.
Proof.
  apply str_forallb_impl. intros c Hc.
  assert (K : implb (is_digit c) (is_ascii_char c) = true) by by_chars (fun c => implb (is_digit c) (is_ascii_char c)) c.
  rewrite Hc in K. exact K.
Qed.

Lemma pad2_ascii (n : Z) : is_ascii (pad2 n) = true.
Proof.
  unfold pad2, is_ascii. cbn [str_forallb]. rewrite !digit_char_ascii by apply mod10_range. reflexivity.
Qed.

Lemma frac_ascii (k : nat) (n : Z) : 0 <= n < 10 ^ Z.of_nat k -> is_ascii (frac_digits k n) = true.
Proof.
  revert n. induction k as [|k IH]; intros n Hn; [reflexivity|]. cbn [frac_digits].
  destruct (n =? 0); [reflexivity|]. rewrite Nat2Z.inj_succ, Z.pow_succ_r in Hn by lia.
  pose proof (Z.pow_pos_nonneg 10 (Z.of_nat k) ltac:(lia) ltac:(lia)) as Hp.
  unfold is_ascii in *. cbn [str_forallb]. rewrite digit_char_ascii, IH; [reflexivity | apply Z.mod_pos_bound; lia |].
  split; [apply Z.div_pos; lia | apply Z.div_lt_upper_bound; lia].
Qed.

Lemma Format_ascii (t : Time) : time_wf t -> is_ascii (appendFormatRFC3339 t true) = true.
Proof.
  intros (Hy & _ & _ & _ & _ & _ & Hn & Ho & _). unfold appendFormatRFC3339, append_year.
  rewrite (proj2 (Z.ltb_ge _ _)), (proj2 (Z.ltb_lt _ _)) by lia.
  assert (Hf : is_ascii (frac_digits 9 (t_nsec t)) = true) by (apply frac_ascii; lia).
  assert (Hz : is_ascii (append_zone (t_offset t)) = true).
  { unfold append_zone. destruct (t_offset t =? 0); [reflexivity|]. unfold is_ascii.
    rewrite !str_forallb_app. pose proof pad2_ascii as P. unfold is_ascii in P.
    destruct (Z.quot _ 60 <? 0), (Z.abs _ / 60 <? 100); rewrite ?P; cbn [str_forallb];
      try reflexivity; rewrite (digits_ascii _ (fmt_d_digits _)); reflexivity. }
  pose proof pad2_ascii as P. unfold is_ascii, pad4 in *.
  rewrite !str_forallb_app, Hz, !P. destruct (true && negb (t_nsec t =? 0)); rewrite ?str_forallb_app, ?Hf; reflexivity.
Qed.

Lemma encode_fields_wf (fs : list (string * bool * gotype)) (vs : list goval) :
  List.Forall (fun f => forall v, storable (snd f) v -> json_wf (encode (snd f) v) = true) fs ->
  names_apart (map field_name fs) = true -> Forall2 field_storable fs vs ->
  forallb (fun m => is_utf8 (fst m) && json_wf (snd m)) (encode_fields fs vs) = true.
Proof.
  intros R W K. induction K as [|[[n o] t] v fs vs Hv K IH]; [reflexivity|].
  inversion R; subst. cbn [map names_apart field_name fst] in W. bool_hyps. cbn [encode_fields].
  rewrite forallb_app, IH by assumption. destruct (o && is_empty v); [reflexivity|].
  cbn [forallb fst snd]. destruct Hv as [Hv _].
  repeat match goal with E : is_utf8 _ = true |- _ => rewrite E; clear E end.
  match goal with E : forall v, storable _ v -> _ |- _ => rewrite E by exact Hv end. reflexivity.
Qed.

Lemma encode_wf (t : gotype) : type_wf t = true -> forall v, storable t v -> json_wf (encode t v) = true.
Proof.
  induction t as [| | | | |t IH|t IH|t IH|fs IH|fs IH] using gotype_fields_ind; intros W v K; cbn [type_wf] in W.
  1-8: destruct v as [ |b|z|u| | |l|l|v|]; try contradiction K; try reflexivity; cbn [encode json_wf].
  - exact K.
  - apply FormatInt_number, K.
  - unfold Marshal_time. case_match; [apply is_ascii_utf8, Format_ascii, K | reflexivity].
  - destruct K; assumption.
  - cbn [storable] in K. rewrite fold_and_In in K. rewrite forallb_forall. intros j Hj.
    apply in_map_iff in Hj as (v & <- & Hv). apply (IH W), K, Hv.
  - cbn [storable] in K. destruct K as [_ K]. rewrite fold_and_In in K. rewrite forallb_forall. intros m Hm.
    apply in_map_iff in Hm as (kv & <- & Hv). apply K in Hv as [Hk Hv]. cbn [fst snd]. rewrite Hk. apply (IH W), Hv.
  - destruct K as [K _]. apply (IH W), K.
  - bool_hyps. destruct v as [ | | | | | | | | |vs]; try contradiction K. rewrite encode_struct. cbn [json_wf].
    apply encode_fields_wf; [|assumption|apply storable_struct, K].
    apply (wf_fields (fun t => forall v, storable t v -> json_wf (encode t v) = true) fs IH); assumption.
  - bool_hyps. destruct v as [ | | | | | | | | |vs]; try contradiction K.
    change (encode (TStringOr fs) (VStruct vs)) with (encode (TStruct fs) (VStruct vs)). rewrite encode_struct. cbn [json_wf].
    apply encode_fields_wf; [|assumption|apply storable_struct, K].
    apply (wf_fields (fun t => forall v, storable t v -> json_wf (encode t v) = true) fs IH); assumption.
Qed.

(** The text of a value decodes to the value. *)
Lemma Unmarshal_Marshal_as (t : gotype) (v : goval) :
  type_wf t = true -> storable t v -> depth (encode t v) <= maxNestingDepth ->
  Unmarshal_as t (Marshal_as t v) (zero t) = (v, true).
Proof.
  intros W K D. unfold Unmarshal_as, Marshal_as. rewrite Unmarshal_print by (try apply encode_wf; assumption).
  apply type_wf_reads; assumption.
Qed.
