(* ===== verification/ApiTypes.v ===== *)
(** The JSON types of the registry and transparency-log APIs ([models/*.go]): each
    struct as the names, [omitempty] flags and types of its fields, and the
    decoding and encoding of their values. *)

From S2P Require Import Prelude GoStrings Utf8 GoTime Errors Json Jcs TlogJson GoJson.

#[local] Open Scope string_scope.
#[local] Open Scope list_scope.
#[local] Open Scope Z_scope.

#[local] Notation fld name t := (name, false, t).
#[local] Notation opt name t := (name, true, t).

(** ** Types *)

(** String types and maps with a name of their own. *)
Definition EventTypeV1 : gotype := TString.
Definition EventTypeV0 : gotype := TString.
Definition CertType : gotype := TString.
Definition RevocationReason : gotype := TString.
Definition JSONSchema : gotype := TMap TAny.

Definition AgentFunction : gotype := TStruct [
  fld "id" TString; fld "name" TString; opt "tags" (TSlice TString)].
Definition AgentEndpoint : gotype := TStruct [
  fld "agentUrl" TString; opt "metaDataUrl" TString; opt "documentationUrl" TString; fld "protocol" TString;
  opt "transports" (TSlice TString); opt "functions" (TSlice AgentFunction)].
Definition AgentRegistrationRequest : gotype := TStruct [
  fld "agentDisplayName" TString; fld "agentHost" TString; opt "agentSubHost" TString;
  opt "agentDescription" TString; fld "identityCsrPEM" TString; opt "serverCertificatePEM" TString;
  opt "serverCertificateChainPEM" TString; opt "serverCsrPEM" TString; fld "version" TString;
  fld "endpoints" (TSlice AgentEndpoint)].
Definition DNSRecordDetails : gotype := TStruct [
  fld "name" TString; fld "type" TString; fld "value" TString].
Definition ChallengeInfo : gotype := TStruct [
  fld "type" TString; opt "token" TString; opt "keyAuthorization" TString; opt "httpPath" TString;
  opt "dnsRecord" (TPtr DNSRecordDetails); opt "expiresAt" TTime].
Definition DNSRecord : gotype := TStruct [
  fld "name" TString; fld "type" TString; fld "value" TString; opt "purpose" TString; opt "ttl" TInt;
  opt "priority" TInt; opt "required" TBool].
Definition Link : gotype := TStruct [
  fld "href" TString; fld "rel" TString].
Definition NextStep : gotype := TStruct [
  fld "action" TString; opt "description" TString; opt "endpoint" TString].
Definition RegistrationPending : gotype := TStruct [
  fld "status" TString; fld "ansName" TString; opt "agentId" TString; opt "challenges" (TSlice ChallengeInfo);
  opt "dnsRecords" (TSlice DNSRecord); opt "expiresAt" TTime; opt "links" (TSlice Link);
  fld "nextSteps" (TSlice NextStep)].
Definition AgentStatus_fields : list (string * bool * gotype) := [
  opt "status" TString; opt "phase" TString; opt "createdAt" TTime; opt "updatedAt" TTime;
  opt "expiresAt" TTime; opt "pendingSteps" (TSlice TString); opt "completedSteps" (TSlice TString)].
(** It also decodes from a string: see [decode_AgentStatus]. *)
Definition AgentStatus : gotype := TStringOr AgentStatus_fields.
Definition AgentDetails : gotype := TStruct [
  fld "agentId" TString; fld "agentDisplayName" TString; fld "agentHost" TString; opt "agentSubHost" TString;
  opt "agentDescription" TString; fld "ansName" TString; fld "version" TString;
  opt "agentStatus" (TPtr AgentStatus); fld "endpoints" (TSlice AgentEndpoint);
  opt "dnsRecords" (TSlice DNSRecord); opt "registrationTimestamp" TTime; opt "lastRenewalTimestamp" TTime;
  opt "registrationPending" (TPtr RegistrationPending); opt "links" (TSlice Link)].
Definition ChallengeDetails : gotype := TStruct [
  opt "status" TString; opt "challenges" (TSlice ChallengeInfo); opt "createdAt" TTime; opt "expiresAt" TTime].
Definition AgentSearchResult : gotype := TStruct [
  fld "agentDisplayName" TString; fld "agentHost" TString; opt "agentDescription" TString;
  fld "ansName" TString; fld "version" TString; fld "endpoints" (TSlice AgentEndpoint);
  opt "registrationTimestamp" TTime; opt "ttl" TInt; opt "links" (TSlice Link)].
Definition SearchCriteria : gotype := TStruct [
  opt "agentDisplayName" TString; opt "agentHost" TString; opt "version" TString].
Definition AgentSearchResponse : gotype := TStruct [
  fld "agents" (TSlice AgentSearchResult); fld "totalCount" TInt; fld "returnedCount" TInt; fld "limit" TInt;
  fld "offset" TInt; fld "hasMore" TBool; opt "searchCriteria" (TPtr SearchCriteria)].
Definition CertificateResponse : gotype := TStruct [
  fld "certificatePEM" TString; opt "certificateIssuer" (TPtr TString);
  opt "certificateSubject" (TPtr TString); opt "certificateSerialNumber" (TPtr TString);
  opt "certificatePublicKeyAlgorithm" (TPtr TString); opt "certificateSignatureAlgorithm" (TPtr TString);
  fld "certificateValidFrom" TTime; fld "certificateValidTo" TTime; fld "csrId" TString].
Definition CsrSubmissionRequest : gotype := TStruct [
  fld "csrPEM" TString].
Definition CsrSubmissionResponse : gotype := TStruct [
  fld "csrId" TString; opt "message" (TPtr TString)].
Definition CsrStatusResponse : gotype := TStruct [
  fld "csrId" TString; fld "type" TString; fld "status" TString; fld "submittedAt" TTime;
  fld "updatedAt" TTime; opt "failureReason" (TPtr TString)].
Definition CertAttestation : gotype := TStruct [
  opt "serialNumber" TString; opt "issuer" TString; opt "subject" TString; opt "validFrom" TTime;
  opt "validTo" TTime; opt "publicKeyHash" TString; opt "signatureHash" TString; opt "validationProof" TString].
Definition EventItem : gotype := TStruct [
  fld "logId" TString; fld "eventType" TString; fld "createdAt" TTime; opt "expiresAt" (TPtr TTime);
  fld "agentId" TString; fld "ansName" TString; fld "agentHost" TString;
  opt "agentDisplayName" (TPtr TString); opt "agentDescription" (TPtr TString); fld "version" TString;
  opt "providerId" (TPtr TString); opt "endpoints" (TSlice AgentEndpoint)].
Definition EventPageResponse : gotype := TStruct [
  fld "items" (TSlice EventItem); opt "lastLogId" (TPtr TString)].
Definition AgentCapabilityRequest : gotype := TStruct [
  fld "agentHost" TString; fld "version" TString].
Definition AgentCapabilityResponse : gotype := TStruct [
  fld "ansName" TString; opt "links" (TSlice Link)].
Definition MerkleProof : gotype := TStruct [
  opt "leafHash" TString; opt "rootHash" TString; opt "rootSignature" TString; opt "treeSize" TInt;
  opt "treeVersion" TInt; opt "leafIndex" TInt; opt "path" (TSlice TString)].
Definition TransparencyLog : gotype := TStruct [
  opt "merkleProof" (TPtr MerkleProof); fld "payload" (TMap TAny); opt "schemaVersion" TString;
  opt "signature" TString; opt "status" TString].
Definition TransparencyLogAudit : gotype := TStruct [
  fld "records" (TSlice TransparencyLog)].
Definition CheckpointSignature : gotype := TStruct [
  opt "signerName" TString; opt "signatureType" TString; opt "algorithm" TString; opt "keyHash" TString;
  opt "rawSignature" TString; opt "valid" TBool; opt "kmsKeyId" TString; opt "timestamp" (TPtr TTime);
  opt "jwsSignature" TString; opt "jwsHeader" (TMap TAny); opt "jwsPayload" (TMap TAny)].
Definition CheckpointResponse : gotype := TStruct [
  opt "logSize" TInt; opt "treeHeight" TInt; opt "rootHash" TString; opt "originName" TString;
  opt "checkpointFormat" TString; opt "checkpointText" TString; opt "publicKeyPem" TString;
  opt "signatures" (TSlice CheckpointSignature)].
Definition PaginationInfo : gotype := TStruct [
  opt "first" TString; opt "previous" TString; opt "next" TString; opt "last" TString; opt "total" TInt;
  opt "nextOffset" (TPtr TInt)].
Definition CheckpointHistoryResponse : gotype := TStruct [
  fld "checkpoints" (TSlice CheckpointResponse); fld "pagination" PaginationInfo].
Definition AgentV1 : gotype := TStruct [
  fld "host" TString; opt "name" (TPtr TString); fld "version" TString; opt "providerId" (TPtr TString)].
Definition CertificateV1_fields : list (string * bool * gotype) := [
  fld "fingerprint" TString; fld "type" CertType].
Definition CertificateV1 : gotype := TStruct CertificateV1_fields.
Definition CertificateV1Extended : gotype := TStruct (CertificateV1_fields ++ [
  opt "notAfter" (TPtr TTime)]).
Definition AttestationsV1 : gotype := TStruct [
  opt "dnsRecordsProvisioned" (TMap TString); opt "domainValidation" (TPtr TString);
  opt "identityCert" (TPtr CertificateV1); opt "metadataHashes" (TMap TString);
  opt "serverCert" (TPtr CertificateV1); opt "validIdentityCerts" (TSlice CertificateV1Extended);
  opt "validServerCerts" (TSlice CertificateV1Extended)].
Definition EventV1 : gotype := TStruct [
  fld "ansId" TString; fld "ansName" TString; fld "eventType" EventTypeV1; fld "agent" AgentV1;
  fld "attestations" AttestationsV1; opt "expiresAt" (TPtr TTime); fld "issuedAt" TTime; fld "raId" TString;
  opt "renewalStatus" (TPtr TString); opt "revocationReasonCode" (TPtr RevocationReason);
  opt "revokedAt" (TPtr TTime); fld "timestamp" TTime].
Definition ProducerV1 : gotype := TStruct [
  fld "event" EventV1; fld "keyId" TString; fld "signature" TString].
Definition TransparencyLogV1 : gotype := TStruct [
  fld "logId" TString; fld "producer" ProducerV1].
Definition AttestationsV0 : gotype := TStruct [
  opt "clientCertFingerprint" (TPtr TString); opt "csrSubmission" (TPtr TString);
  opt "dnsRecordsProvisioned" (TMap TString); opt "dnsRecordsProvisionedStatus" (TPtr TString);
  opt "dnssecStatus" (TPtr TString); opt "domainValidation" (TPtr TString);
  opt "domainValidationStatus" (TPtr TString); opt "identityCertType" (TPtr TString);
  opt "protocolExtensionsVerified" (TPtr TString); opt "serverCertFingerprint" (TPtr TString);
  opt "serverCertType" (TPtr TString)].
Definition RABadge : gotype := TStruct [
  opt "ansCapabilitiesHash" (TPtr TString); fld "attestations" AttestationsV0; fld "badgeUrlStatus" TString;
  opt "expiresAt" (TPtr TTime); fld "issuedAt" TTime; fld "raId" TString; opt "renewalStatus" (TPtr TString);
  opt "revocationReasonCode" (TPtr RevocationReason)].
Definition EventMetadata : gotype := TStruct [
  opt "agentCardUrl" (TPtr TString); opt "ansCapabilities" (TSlice TString); opt "description" (TPtr TString);
  opt "endpoint" (TPtr TString); opt "raBadgeUrl" (TPtr TString)].
Definition EventV0 : gotype := TStruct [
  fld "agentFqdn" TString; fld "agentId" TString; fld "ansName" TString; fld "eventType" EventTypeV0;
  fld "protocol" TString; fld "raBadge" RABadge; fld "timestamp" TTime; opt "metadata" (TPtr EventMetadata)].
Definition ProducerV0 : gotype := TStruct [
  fld "event" EventV0; fld "keyId" TString; fld "signature" TString].
Definition TransparencyLogV0 : gotype := TStruct [
  fld "logId" TString; fld "producer" ProducerV0].
Definition APIError : gotype := TStruct [
  fld "status" TString; fld "code" TString; fld "message" TString; opt "details" (TMap TAny)].
Definition EndpointFunction : gotype := TStruct [
  fld "id" TString; fld "name" TString; opt "tags" (TSlice TString)].
Definition TrustCardEndpoint : gotype := TStruct [
  fld "protocol" TString; fld "agentUrl" TString; opt "metadataUrl" TString; opt "docUrl" TString;
  opt "transports" (TSlice TString); opt "functions" (TSlice EndpointFunction)].
Definition TrustCard : gotype := TStruct [
  fld "agentId" TString; fld "agentName" TString; fld "agentDisplayName" TString;
  fld "agentDescription" TString; fld "version" TString; fld "agentHost" TString; opt "agentSubHost" TString;
  fld "endpoints" (TSlice TrustCardEndpoint); opt "securitySchemes" (TMap TAny);
  opt "verifiableClaims" (TSlice (TMap TAny))].
Definition AgentRevocationRequest : gotype := TStruct [
  fld "reason" RevocationReason; opt "comments" TString].
Definition AgentRevocationResponse : gotype := TStruct [
  fld "agentId" TString; fld "ansName" TString; fld "status" TString; fld "revokedAt" TTime;
  fld "reason" RevocationReason].

Definition api_types : list gotype := [
  AgentFunction; AgentEndpoint; AgentRegistrationRequest; DNSRecordDetails; ChallengeInfo; DNSRecord; Link;
  NextStep; RegistrationPending; AgentStatus; AgentDetails; ChallengeDetails; AgentSearchResult;
  SearchCriteria; AgentSearchResponse; CertificateResponse; CsrSubmissionRequest; CsrSubmissionResponse;
  CsrStatusResponse; CertAttestation; EventItem; EventPageResponse; AgentCapabilityRequest;
  AgentCapabilityResponse; MerkleProof; TransparencyLog; TransparencyLogAudit; CheckpointSignature;
  CheckpointResponse; PaginationInfo; CheckpointHistoryResponse; AgentV1; CertificateV1;
  CertificateV1Extended; AttestationsV1; EventV1; ProducerV1; TransparencyLogV1; AttestationsV0; RABadge;
  EventMetadata; EventV0; ProducerV0; TransparencyLogV0; APIError; EndpointFunction; TrustCardEndpoint;
  TrustCard; AgentRevocationRequest; AgentRevocationResponse; JSONSchema].

(** ** [AgentStatus.UnmarshalJSON]: a string, or else the object *)

Definition AgentStatus_UnmarshalJSON (a : goval) (data : json) : goval * bool :=
  let '(statusString, ok) := decode TString data (VString "") in
  if ok then (VStruct (statusString :: tl (struct_fields a)), true)
  else decode (TStruct AgentStatus_fields) data a.

Lemma decode_AgentStatus (a : goval) (data : json) :
  decode AgentStatus data a = AgentStatus_UnmarshalJSON a data.
Proof. destruct data; reflexivity. Qed.

(** ** Fields by name *)

Fixpoint get_field (fs : list (string * bool * gotype)) (name : string) (vs : list goval) : goval :=
  match fs, vs with
  | f :: fs, v :: vs => if String.eqb (field_name f) name then v else get_field fs name vs
  | _, _ => VNil
  end.

Fixpoint set_field (fs : list (string * bool * gotype)) (name : string) (w : goval) (vs : list goval) : list goval :=
  match fs, vs with
  | f :: fs, v :: vs => if String.eqb (field_name f) name then w :: vs else v :: set_field fs name w vs
  | _, _ => vs
  end.

Definition type_fields (t : gotype) : list (string * bool * gotype) :=
  match t with TStruct fs | TStringOr fs => fs | _ => [] end.

Definition get (t : gotype) (name : string) (v : goval) : goval := get_field (type_fields t) name (struct_fields v).
Definition set (t : gotype) (name : string) (w v : goval) : goval :=
  VStruct (set_field (type_fields t) name w (struct_fields v)).
Definition get_string (t : gotype) (name : string) (v : goval) : string :=
  match get t name v with VString s => s | _ => "" end.

(** ** Every type is well formed *)

Lemma api_types_wf (t : gotype) : In t api_types -> type_wf t = true.
Proof.
  assert (G : forallb type_wf api_types = true) by (vm_compute; reflexivity).
  rewrite forallb_forall in G. apply G.
Qed.

(** C29: Round trip of the API types. The text [json.Marshal] writes for a value of
    an API type, in Go's field order, with [omitempty] fields left out, times in
    RFC 3339 and map keys sorted, decodes without error to the same value, for every
    value whose strings are UTF-8 and times are in the range the format can write,
    whose empty optional fields are the zero value, and whose nesting is within the
    decoder's limit. *)
Theorem api_roundtrip (t : gotype) (v : goval) :
  In t api_types -> storable t v -> depth (encode t v) <= maxNestingDepth ->
  Unmarshal_as t (Marshal_as t v) (zero t) = (v, true).
Proof. intros Ht. apply Unmarshal_Marshal_as, api_types_wf, Ht. Qed.

(** ** Examples *)

Definition example_details : goval :=
  set AgentDetails "endpoints" (VSlice [set AgentEndpoint "functions" (VSlice [zero AgentFunction]) (zero AgentEndpoint)])
  (set AgentDetails "agentStatus" (VPtr (set AgentStatus "status" (VString "ACTIVE") (zero AgentStatus)))
  (set AgentDetails "registrationTimestamp" (VTime (MkTime 2026 2 28 23 59 59 120000000 28800))
  (set AgentDetails "agentId" (VString "a-1") (zero AgentDetails)))).

Lemma example_details_storable : storable AgentDetails example_details.
Proof.
  cbn -[is_utf8]. repeat (split || exact I || (vm_compute; reflexivity) || discriminate);
    try (vm_compute; congruence); intros; first [reflexivity | discriminate].
Qed.

Lemma api_roundtrip_witness :
  storable AgentDetails example_details /\
  Unmarshal_as AgentDetails (Marshal_as AgentDetails example_details) (zero AgentDetails) = (example_details, true).
Proof.
  split; [exact example_details_storable|]. apply (api_roundtrip AgentDetails);
    [vm_compute; tauto | exact example_details_storable | vm_compute; discriminate].
Defined.
