(* ===== verification/Seal.v ===== *)
(** Seals and producer signatures ([verify/seal.go], [verify/producer.go]): the
    digests over canonical JSON, the signature checks, the key store. *)

From S2P Require Import Prelude GoStrings Utf8 Encoding Sha256 Errors Models Json Jcs TlogJson.

#[local] Open Scope string_scope.
#[local] Open Scope Z_scope.

(** Public keys and their decoding ([crypto/ecdsa], [crypto/rsa],
    [encoding/pem], [crypto/x509]). *)
Class SignatureLib := {
  ec_key : Type;
  rsa_key : Type;
  other_key : Type;
  ecdsa_VerifyASN1 : ec_key -> list byte -> list byte -> bool;
  (** [ecdsa.Verify] on the two integers *)
  ecdsa_Verify : ec_key -> list byte -> Z * Z -> bool;
  rsa_VerifyPKCS1v15 : rsa_key -> list byte -> list byte -> bool;
  (** the bytes of the first block *)
  pem_Decode : string -> option (list byte);
  ParsePKIX : list byte -> option (ec_key + rsa_key + other_key)
}.

Section Seal.
Context `{UnicodeTables} `{SignatureLib}.

(** [crypto.PublicKey]: the interface's dynamic types; nil is [None] where it
    can occur. *)
Inductive PublicKey_ :=
| KEcdsa (k : ec_key)
| KRsa (k : rsa_key)
| KOther (k : other_key).

(** ** Seals *)

Definition sealAlgorithmFamily (algorithm : string) : string :=
  if String.eqb algorithm "" then "" else
  let upper := ToUpper algorithm in
  if existsb (String.eqb upper) ["ES256"; "ES384"; "ES512"] then "ECDSA"
  else if existsb (String.eqb upper) ["RS256"; "RS384"; "RS512"] then "RSA"
  else if Contains upper "ECDSA" then "ECDSA"
  else if Contains upper "RSA" then "RSA"
  else "unknown".

Definition sealError (msg : string) : goerror :=
  NewANSError CodeTLReceiptSigInvalid SeverityHard StageTLVerify msg.
Definition sealErrorWithCause (msg : string) (cause : goerror) : goerror :=
  NewANSErrorWithCause CodeTLReceiptSigInvalid SeverityHard StageTLVerify msg cause.

Definition family_ok (algorithm family : string) : bool :=
  let fam := sealAlgorithmFamily algorithm in
  String.eqb fam "" || String.eqb fam family.

Definition verifySealDigest (key : option PublicKey_) (algorithm : string) (digest sigBytes : list byte)
  : result goerror unit :=
  match key with
  | Some (KEcdsa k) =>
      guard! family_ok algorithm "ECDSA" orelse sealError "seal declares signatureAlgorithm but key is ECDSA" in
      guard! ecdsa_VerifyASN1 k digest sigBytes orelse sealError "seal ECDSA signature verification failed" in
      Ok tt
  | Some (KRsa k) =>
      guard! family_ok algorithm "RSA" orelse sealError "seal declares signatureAlgorithm but key is RSA" in
      guard! rsa_VerifyPKCS1v15 k digest sigBytes
        orelse sealErrorWithCause "seal RSA signature verification failed" (EPlain "crypto/rsa: verification error") in
      Ok tt
  | Some (KOther _) | None => Err (sealError "unsupported TL public key type")
  end.

(** [rawOrMarshal(raw, v)]; marshalling these types cannot fail. *)
Definition rawOrMarshal (raw : option string) (v : json) : string :=
  match raw with Some r => r | None => print v end.

Definition sealed_fields (resp : TLResponse) : list (string * string) :=
  [("status", rawOrMarshal (RawStatus resp) (JString (Status resp)));
   ("schemaVersion", rawOrMarshal (RawSchemaVersion resp) (JString (SchemaVersion resp)));
   ("payload", rawOrMarshal (RawPayload resp) (payload_json (Payload resp)));
   ("evidenceRef", rawOrMarshal (RawEvidenceRef resp) (evidence_json (tr_EvidenceRef resp)))].

Definition computeSealDigest (resp : TLResponse) : result goerror (list byte) :=
  match JCSCanonicalizeFields (sealed_fields resp) with
  | Err e => Err (EWrap "seal: JCS canonicalization failed" e)
  | Ok canonical => Ok (sha256 (bytes_of_string canonical))
  end.

Definition ParsePublicKeyPEM (pemData : string) : result goerror PublicKey_ :=
  match pem_Decode pemData with
  | None => Err (EPlain "seal: failed to decode PEM public key")
  | Some block =>
      match ParsePKIX block with
      | None => Err (EWrap "seal: failed to parse public key" (EPlain "x509"))
      | Some (inl (inl k)) => Ok (KEcdsa k)
      | Some (inl (inr k)) => Ok (KRsa k)
      | Some (inr _) => Err (EPlain "seal: expected ECDSA or RSA public key")
      end
  end.

Definition ParseECDSAPublicKeyPEM (pemData : string) : result goerror ec_key :=
  let? pub := ParsePublicKeyPEM pemData in
  match pub with
  | KEcdsa k => Ok k
  | _ => Err (EPlain "seal: expected ECDSA public key")
  end.

(** The key a seal is checked with: the trusted one, or the one it embeds. *)
Definition seal_key (seal : TLSeal) (trustedKey : option PublicKey_) : result goerror PublicKey_ :=
  match trustedKey with
  | Some k => Ok k
  | None =>
      guard! negb (String.eqb (PublicKey seal) "")
        orelse sealError "no trusted TL public key and no embedded public key in seal" in
      match ParsePublicKeyPEM (PublicKey seal) with
      | Err e => Err (sealErrorWithCause "failed to parse embedded seal public key" e)
      | Ok parsed => Ok parsed
      end
  end.

Definition VerifySealSignature (resp : option TLResponse) (trustedKey : option PublicKey_) : result goerror unit :=
  match resp with
  | None => Err (EPlain "seal: nil TL response")
  | Some resp =>
      let seal := Seal resp in
      guard! negb (String.eqb (Signature seal) "") orelse sealError "seal has empty signature" in
      guard! negb (String.eqb (KeyID seal) "") orelse sealError "seal has no key ID" in
      let? key := seal_key seal trustedKey in
      match computeSealDigest resp with
      | Err e => Err (sealErrorWithCause "failed to compute seal digest" e)
      | Ok digest =>
          match b64_DecodeString (Signature seal) with
          | None => Err (sealErrorWithCause "failed to decode seal signature" (EPlain "illegal base64 data"))
          | Some sigBytes => verifySealDigest (Some key) (SignatureAlgorithm seal) digest sigBytes
          end
      end
  end.

Definition VerifyReceiptSignature := VerifySealSignature.
Definition VerifySeal := VerifySealSignature.

(** A key store: a Go map whose values are interfaces, so possibly nil. *)
Definition TLKeyStore : Type := gmap string (option PublicKey_).
Definition NewTLKeyStore (keys : gmap string (option PublicKey_)) : TLKeyStore := keys.
Definition TLKeyStore_Get (s : option TLKeyStore) (kid : string) : option (option PublicKey_) :=
  match s with None => None | Some keys => keys !! kid end.

Definition VerifySealSignatureWithKeyStore (resp : option TLResponse) (store : option TLKeyStore) : result goerror unit :=
  match resp with
  | None => Err (EPlain "seal: nil TL response")
  | Some r =>
      match store with
      | None => Err (sealError "no TL key store configured")
      | Some keys =>
          let kid := KeyID (Seal r) in
          guard! negb (String.eqb kid "") orelse sealError "seal has no key ID" in
          match TLKeyStore_Get (Some keys) kid with
          | None => Err (sealError "unknown TL key ID")
          | Some key => VerifySealSignature resp key
          end
      end
  end.

(** ** Producer signatures *)

(** [ProducerKeyLookup]; [None] where the interface is nil. *)
Definition ProducerKeyLookup : Type := string -> result goerror ec_key.

Definition producerError (msg : string) : goerror :=
  NewANSError CodeProducerSigInvalid SeverityHard StageTLVerify msg.
Definition producerErrorWithCause (msg : string) (cause : goerror) : goerror :=
  NewANSErrorWithCause CodeProducerSigInvalid SeverityHard StageTLVerify msg cause.

Definition computeProducerDigest (payload : TLPayload) : result goerror (list byte) :=
  match JCSCanonicalize (print (payload_json payload)) with
  | Err e => Err (EWrap "producer: JCS canonicalization failed" e)
  | Ok canonical => Ok (sha256 (bytes_of_string canonical))
  end.

Definition VerifyProducerSignature (resp : option TLResponse) (keys : option ProducerKeyLookup) : result goerror unit :=
  match resp with
  | None => Err (EPlain "producer: nil TL response")
  | Some resp =>
      let ev := tr_EvidenceRef resp in
      if negb (SignatureRequired ev) then Ok tt else
      match keys with
      | None => Err (EPlain "producer: nil key lookup")
      | Some GetProducerKey =>
          let kid := SubmitterID ev in
          guard! negb (String.eqb kid "") orelse producerError "evidence ref has no submitter ID" in
          match GetProducerKey kid with
          | Err e => Err (producerErrorWithCause "producer key not found" e)
          | Ok pubKey =>
              match computeProducerDigest (Payload resp) with
              | Err e => Err (producerErrorWithCause "failed to compute producer digest" e)
              | Ok digest =>
                  match b64_DecodeString (EvidenceHash ev) with
                  | None => Err (producerErrorWithCause "failed to decode producer signature" (EPlain "illegal base64 data"))
                  | Some sigBytes =>
                      guard! ecdsa_VerifyASN1 pubKey digest sigBytes
                        orelse producerError "producer ECDSA signature verification failed" in
                      Ok tt
                  end
              end
          end
      end
  end.

(** ** Seals: what acceptance means *)

(** The signature check of a key, with the algorithm family it declares. *)
Definition signature_valid (key : PublicKey_) (algorithm : string) (digest sig : list byte) : Prop :=
  match key with
  | KEcdsa k => family_ok algorithm "ECDSA" = true /\ ecdsa_VerifyASN1 k digest sig = true
  | KRsa k => family_ok algorithm "RSA" = true /\ rsa_VerifyPKCS1v15 k digest sig = true
  | KOther _ => False
  end.

Lemma verifySealDigest_ok (key : PublicKey_) (algorithm : string) (digest sig : list byte) :
  verifySealDigest (Some key) algorithm digest sig = Ok tt <-> signature_valid key algorithm digest sig.
Proof.
  unfold signature_valid. destruct key; cbn [verifySealDigest];
    repeat case_match_goal; split; intros K; try discriminate; try tauto; destruct K; congruence.
Qed.

(** The condition under which a seal is accepted with [trusted], or with the
    key it embeds when there is none. *)
Definition sealed (r : TLResponse) (trusted : option PublicKey_) : Prop :=
  Signature (Seal r) <> "" /\ KeyID (Seal r) <> "" /\
  exists key digest sig,
    seal_key (Seal r) trusted = Ok key /\ computeSealDigest r = Ok digest /\
    b64_DecodeString (Signature (Seal r)) = Some sig /\
    signature_valid key (SignatureAlgorithm (Seal r)) digest sig.

Lemma VerifySealSignature_ok (r : TLResponse) (trusted : option PublicKey_) :
  VerifySealSignature (Some r) trusted = Ok tt <-> sealed r trusted.
Proof.
  unfold VerifySealSignature, sealed. destruct (String.eqb_spec (Signature (Seal r)) "") as [E|E]; cbn [negb].
  { split; [discriminate | tauto]. }
  destruct (String.eqb_spec (KeyID (Seal r)) "") as [E1|E1]; cbn [negb].
  { split; [discriminate | tauto]. }
  rewrite rbind_Ok. split.
  - intros (key & Ek & K). destruct (computeSealDigest r) as [d|]; [|discriminate].
    destruct (b64_DecodeString _) as [sg|]; [|discriminate]. apply verifySealDigest_ok in K. eauto 10.
  - intros (_ & _ & key & d & sg & Ek & Ed & Es & K). exists key. split; [exact Ek|].
    rewrite Ed, Es. apply verifySealDigest_ok, K.
Qed.

Lemma VerifySealSignatureWithKeyStore_ok (r : TLResponse) (keys : TLKeyStore) :
  VerifySealSignatureWithKeyStore (Some r) (Some keys) = Ok tt <->
  exists key, keys !! KeyID (Seal r) = Some key /\ sealed r key.
Proof.
  unfold VerifySealSignatureWithKeyStore, TLKeyStore_Get.
  destruct (String.eqb_spec (KeyID (Seal r)) "") as [E|E]; cbn [negb].
  { split; [discriminate|]. intros (k & _ & _ & K & _). congruence. }
  destruct (keys !! KeyID (Seal r)) as [k|]; [|split; [discriminate | intros (k & K & _); discriminate K]].
  rewrite VerifySealSignature_ok. split; [eauto | intros (k' & [= <-] & K); exact K].
Qed.

(** A seal is accepted exactly when it has a signature and a key ID, its
    key is the trusted one (or, with none configured, the one it embeds), the
    declared algorithm does not contradict the key, and the key verifies the
    signature over the SHA-256 of the canonical form of the four sealed parts. *)
Theorem VerifySealSignature_spec (r : TLResponse) (trusted : option PublicKey_) :
  VerifySealSignature (Some r) trusted = Ok tt <->
  Signature (Seal r) <> "" /\ KeyID (Seal r) <> "" /\
  exists key canonical sig,
    match trusted with
    | Some k => key = k
    | None => PublicKey (Seal r) <> "" /\ ParsePublicKeyPEM (PublicKey (Seal r)) = Ok key
    end /\
    JCSCanonicalizeFields (sealed_fields r) = Ok canonical /\
    b64_DecodeString (Signature (Seal r)) = Some sig /\
    signature_valid key (SignatureAlgorithm (Seal r)) (sha256 (bytes_of_string canonical)) sig.
Proof.
  rewrite VerifySealSignature_ok. unfold sealed, seal_key, computeSealDigest.
  assert (Hk : forall key, (match trusted with
    | Some k => Ok k
    | None => guard! negb (String.eqb (PublicKey (Seal r)) "")
        orelse sealError "no trusted TL public key and no embedded public key in seal" in
        match ParsePublicKeyPEM (PublicKey (Seal r)) with
        | Err e => Err (sealErrorWithCause "failed to parse embedded seal public key" e)
        | Ok parsed => Ok parsed
        end
    end = Ok key <-> match trusted with
    | Some k => key = k
    | None => PublicKey (Seal r) <> "" /\ ParsePublicKeyPEM (PublicKey (Seal r)) = Ok key end)).
  { intros key. destruct trusted as [k|]; [split; congruence|].
    destruct (String.eqb_spec (PublicKey (Seal r)) "") as [E|E]; cbn [negb]; [split; [discriminate|tauto]|].
    destruct (ParsePublicKeyPEM _); split; try discriminate; intuition congruence. }
  split; intros (H1 & H2 & key & d & sg & H3 & H4 & H5); (split; [exact H1|]); (split; [exact H2|]); exists key.
  - destruct (JCSCanonicalizeFields _) as [c|]; [|discriminate]. injection H4 as <-.
    exists c, sg. split; [apply Hk, H3 | auto].
  - exists (sha256 (bytes_of_string d)), sg. split; [apply Hk, H3|]. rewrite H4. auto.
Qed.

(** C12: with a key store that holds no nil key, only the stored key of the
    seal's key ID counts: a response is accepted exactly when that key exists and
    verifies the seal, whatever key the response embeds. *)
Theorem VerifySealSignatureWithKeyStore_spec (r : TLResponse) (keys : TLKeyStore)
    (Hkeys : map_Forall (fun _ k => k <> None) keys) :
  VerifySealSignatureWithKeyStore (Some r) (Some keys) = Ok tt <->
  Signature (Seal r) <> "" /\ KeyID (Seal r) <> "" /\
  exists key digest sig,
    keys !! KeyID (Seal r) = Some (Some key) /\ computeSealDigest r = Ok digest /\
    b64_DecodeString (Signature (Seal r)) = Some sig /\
    signature_valid key (SignatureAlgorithm (Seal r)) digest sig.
Proof.
  rewrite VerifySealSignatureWithKeyStore_ok. unfold sealed, seal_key. split.
  - intros (key & Ek & H1 & H2 & k & d & sg & H3 & H4). pose proof (Hkeys _ _ Ek) as Hn.
    destruct key as [key|]; [|contradiction]. injection H3 as <-. split; [exact H1|]. split; [exact H2|].
    exists key, d, sg. auto.
  - intros (H1 & H2 & k & d & sg & H3 & H4). exists (Some k). split; [exact H3|].
    split; [exact H1|]. split; [exact H2|]. exists k, d, sg. auto.
Qed.

(** ** The digest binds the sealed values *)

Lemma sealed_fields_names (r : TLResponse) :
  map fst (sealed_fields r) = ["status"; "schemaVersion"; "payload"; "evidenceRef"].
Proof. reflexivity. Qed.

(** C13: the seal digest identifies what is sealed: if the canonical bytes of two
    responses are not a SHA-256 collision, their digests are equal exactly when
    the four sealed parts denote the same JSON values, part by part. *)
Theorem computeSealDigest_binds (r1 r2 : TLResponse) (d1 d2 : list byte) (m1 m2 : list (string * json)) (c1 c2 : string)
    (D1 : decodes_to (sealed_fields r1) m1) (D2 : decodes_to (sealed_fields r2) m2)
    (C1 : JCSCanonicalizeFields (sealed_fields r1) = Ok c1) (C2 : JCSCanonicalizeFields (sealed_fields r2) = Ok c2)
    (E1 : computeSealDigest r1 = Ok d1) (E2 : computeSealDigest r2 = Ok d2)
    (Hsha : sha256 (bytes_of_string c1) = sha256 (bytes_of_string c2) -> bytes_of_string c1 = bytes_of_string c2) :
  d1 = d2 <-> same_members m1 m2.
Proof.
  unfold computeSealDigest in *. rewrite C1 in E1. rewrite C2 in E2. injection E1 as <-. injection E2 as <-.
  rewrite <- (JCSCanonicalizeFields_same (sealed_fields r1) (sealed_fields r2) c1 c2 m1 m2); auto.
  - split; [|congruence]. intros E. apply Hsha in E. unfold bytes_of_string in E.
    rewrite <- (string_of_list_byte_of_string c1), <- (string_of_list_byte_of_string c2), E. reflexivity.
  - rewrite sealed_fields_names. repeat constructor; cbn; intuition discriminate.
Qed.
End Seal.

(** A symbolic instance: a key is a number; the signature of a digest is the
    number and the digest; PKIX texts are a tag and the number. *)
Definition symbolic_signatures : SignatureLib := {|
  ec_key := byte; rsa_key := byte; other_key := byte;
  ecdsa_VerifyASN1 k d s := list_byte_eqb s (k :: d);
  ecdsa_Verify k d rs := true;
  rsa_VerifyPKCS1v15 k d s := list_byte_eqb s (k :: k :: d);
  pem_Decode s := match s with String "P" t => Some (bytes_of_string t) | _ => None end;
  ParsePKIX b := match b with
    | [t; k] => if Byte.eqb t "E" then Some (inl (inl k)) else if Byte.eqb t "R" then Some (inl (inr k))
                else Some (inr k)
    | _ => None end
|}.

Section Examples.
#[local] Existing Instance plain_tables.
#[local] Existing Instance symbolic_signatures.

(** A response with the payload text [payload], sealed by the key [x01]. *)
Definition unsealed (payload : string) : TLResponse :=
  MkTLResponse "OK" "V1" empty_payload empty_evidence empty_seal empty_proof ""
    (Some (with_quotes "'OK'")) (Some (with_quotes "'V1'")) (Some (with_quotes payload)) (Some "{}").
Definition seal_of (r : TLResponse) (kid : string) : TLSeal :=
  MkTLSeal "" "SHA-256" "ES256" "" kid
    (match computeSealDigest r with Ok d => b64_EncodeToString (x01 :: d) | Err _ => "" end) "".
Definition sealed_response (payload kid : string) : TLResponse :=
  let r := unsealed payload in
  MkTLResponse (Status r) (SchemaVersion r) (Payload r) (tr_EvidenceRef r) (seal_of r kid) (tr_MerkleProof r)
    (RequestID r) (RawStatus r) (RawSchemaVersion r) (RawPayload r) (RawEvidenceRef r).

Definition example_store : TLKeyStore :=
  ({["k1" := Some (KEcdsa (x01 : ec_key))]} : gmap string (option PublicKey_)).

Lemma VerifySealSignatureWithKeyStore_spec_witness :
  VerifySealSignatureWithKeyStore (Some (sealed_response "{'agentId' : 'a'}" "k1"))
    (Some example_store) = Ok tt.
Proof.
  apply VerifySealSignatureWithKeyStore_spec.
  - intros k v Hk. unfold example_store, TLKeyStore in Hk. destruct (decide ("k1" = k)) as [<-|Hn].
    + rewrite lookup_singleton_eq in Hk. congruence.
    + rewrite lookup_singleton_ne in Hk by exact Hn. discriminate.
  - split; [vm_compute; discriminate|]. split; [discriminate|]. do 3 eexists.
    split; [vm_compute; reflexivity|]. split; [vm_compute; reflexivity|]. split; [vm_compute; reflexivity|].
    split; vm_compute; reflexivity.
Defined.

(** A changed payload is noticed. *)
Example VerifySealSignature_tampered :
  let r := sealed_response "{'agentId':'a'}" "k1" in
  VerifySealSignature (Some (MkTLResponse (Status r) (SchemaVersion r) (Payload r) (tr_EvidenceRef r) (Seal r)
    (tr_MerkleProof r) "" (RawStatus r) (RawSchemaVersion r) (Some (with_quotes "{'agentId':'b'}")) (RawEvidenceRef r)))
    (Some (KEcdsa (x01 : ec_key))) = Err (sealError "seal ECDSA signature verification failed").
Proof. vm_compute. reflexivity. Qed.

Definition example_members (payload : json) : list (string * json) :=
  [("status", JString "OK"); ("schemaVersion", JString "V1"); ("payload", payload); ("evidenceRef", JObject [])].

(** Two spellings of one payload have one digest. *)
Lemma computeSealDigest_binds_witness :
  same_members (example_members (JObject [("b", JNumber "1"); ("a", JNumber "2")]))
    (example_members (JObject [("a", JNumber "2.0"); ("b", JNumber "1")])).
Proof.
  assert (D1 : decodes_to (sealed_fields (unsealed "{'b':1,'a':2}"))
    (example_members (JObject [("b", JNumber "1"); ("a", JNumber "2")])))
    by (repeat (apply Forall2_cons; split; [split; vm_compute; reflexivity|]); apply Forall2_nil; exact I).
  assert (D2 : decodes_to (sealed_fields (unsealed "{ 'a' : 2.0, 'b' : 1}"))
    (example_members (JObject [("a", JNumber "2.0"); ("b", JNumber "1")])))
    by (repeat (apply Forall2_cons; split; [split; vm_compute; reflexivity|]); apply Forall2_nil; exact I).
  assert (E : JCSCanonicalizeFields (sealed_fields (unsealed "{'b':1,'a':2}")) =
              JCSCanonicalizeFields (sealed_fields (unsealed "{ 'a' : 2.0, 'b' : 1}"))) by (vm_compute; reflexivity).
  assert (K : exists c, JCSCanonicalizeFields (sealed_fields (unsealed "{'b':1,'a':2}")) = Ok c)
    by (eexists; vm_compute; reflexivity).
  destruct K as [c C]. rewrite C in E. symmetry in E.
  eapply (computeSealDigest_binds _ _ (sha256 (bytes_of_string c)) (sha256 (bytes_of_string c)) _ _ c c
    D1 D2 C E); [| |auto|reflexivity]; unfold computeSealDigest; [rewrite C | rewrite E]; reflexivity.
Defined.

(** The seal covers the payload as a JSON value, not the decoded struct: two
    payloads with one canonical form, so one valid seal, whose decoded agent IDs
    differ, because a field is matched up to case and the last member wins. *)
Example same_seal_different_agent :
  let p1 := with_quotes "{'agentId':'a','AGENTID':'b'}" in
  let p2 := with_quotes "{'AGENTID':'b','agentId':'a'}" in
  JCSCanonicalize p1 = JCSCanonicalize p2 /\
  AgentID (unmarshal_into set_payload (Some p1) empty_payload) = "b" /\
  AgentID (unmarshal_into set_payload (Some p2) empty_payload) = "a".
Proof. vm_compute. auto. Qed.
End Examples.
