(* ===== verification/Jws.v ===== *)
(** Detached JWS over transactions ([verify/jws_detached.go], RFC 7797):
    verification, creation, and that what is created verifies. *)

From S2P Require Import Prelude GoStrings Utf8 Encoding Sha256 Errors Models Json TlogJson Seal.

#[local] Open Scope string_scope.
#[local] Open Scope Z_scope.

Record jwsHeader := MkJwsHeader { jh_Alg : string; jh_Kid : string; jh_B64 : bool; jh_Crit : list string }.

Definition is_string_or_null (j : json) : bool := match j with JString _ | JNull => true | _ => false end.
Definition is_bool_or_null (j : json) : bool := match j with JBool _ | JNull => true | _ => false end.
Definition is_strings_or_null (j : json) : bool :=
  match j with JArray l => forallb is_string_or_null l | JNull => true | _ => false end.

(** A member of the wrong type is an error. *)
Definition header_member_ok (m : string * json) : bool :=
  implb (names (fst m) "alg") (is_string_or_null (snd m)) &&
  implb (names (fst m) "kid") (is_string_or_null (snd m)) &&
  implb (names (fst m) "b64") (is_bool_or_null (snd m)) &&
  implb (names (fst m) "crit") (is_strings_or_null (snd m)).

(** [json.Unmarshal] into a [jwsHeader]. *)
Definition parse_jwsHeader (text : string) : result goerror jwsHeader :=
  match Unmarshal text with
  | Err e => Err e
  | Ok JNull => Ok (MkJwsHeader "" "" false [])
  | Ok (JObject ms) =>
      guard! forallb header_member_ok ms orelse EPlain "json: cannot unmarshal" in
      Ok (MkJwsHeader (str "alg" ms "") (str "kid" ms "") (field set_bool "b64" ms false)
            (field set_strings "crit" ms []))
  | Ok _ => Err (EPlain "json: cannot unmarshal")
  end.

Section Jws.
Context `{UnicodeTables} `{SignatureLib}.

(** [headerB64 + "." + string(payload)] *)
Definition signingInput (headerB64 : string) (payload : list byte) : list byte :=
  (bytes_of_string (headerB64 ++ ".") ++ payload)%list.

Definition VerifyJWSDetached (signature : string) (payload : list byte) (GetProducerKey : ProducerKeyLookup)
  : result goerror unit :=
  match Split signature "." with
  | [headerB64; middle; sigB64] =>
      guard! String.eqb middle "" orelse EPlain "jws: detached JWS must have empty payload part" in
      match RawURL_DecodeString headerB64 with
      | None => Err (EWrap "jws: failed to decode header" (EPlain "illegal base64 data"))
      | Some headerBytes =>
          match parse_jwsHeader (string_of_bytes headerBytes) with
          | Err e => Err (EWrap "jws: failed to parse header" e)
          | Ok header =>
              guard! String.eqb (jh_Alg header) "ES256" orelse EPlain "jws: unsupported algorithm, expected ES256" in
              guard! negb (jh_B64 header) orelse EPlain "jws: b64 must be false for detached payload" in
              match GetProducerKey (jh_Kid header) with
              | Err e => Err (EWrap "jws: failed to get key for kid" e)
              | Ok pubKey =>
                  match RawURL_DecodeString sigB64 with
                  | None => Err (EWrap "jws: failed to decode signature" (EPlain "illegal base64 data"))
                  | Some sigBytes =>
                      let digest := sha256 (signingInput headerB64 payload) in
                      guard! (length sigBytes =? 64)%nat orelse EPlain "jws: invalid ES256 signature length, expected 64" in
                      let r := bytes_Z (firstn 32 sigBytes) in
                      let s := bytes_Z (skipn 32 sigBytes) in
                      guard! ecdsa_Verify pubKey digest (r, s) orelse EPlain "jws: signature verification failed" in
                      Ok tt
                  end
              end
          end
      end
  | _ => Err (EPlain "jws: invalid compact serialization, expected 3 parts")
  end.

(** An [ecdsa.PrivateKey]: whether its curve is P-256, its signing function,
    its public key. *)
Record private_key := MkPrivate {
  pk_is_P256 : bool;
  pk_Sign : list byte -> result goerror (Z * Z);
  pk_Public : ec_key
}.

(** [jwsHeader] as [json.Marshal] writes it. *)
Definition jws_header_json (header : jwsHeader) : json :=
  JObject ([("alg", JString (jh_Alg header))] ++ omitempty "kid" (jh_Kid header) ++
           [("b64", JBool (jh_B64 header))] ++
           match jh_Crit header with [] => [] | l => [("crit", JArray (map JString l))] end)%list.

(** A component of 2^256 or more does not fit: the slice bounds panic. *)
Definition CreateJWSDetached (payload : list byte) (privateKey : private_key) (kid : string) : result goerror string :=
  guard! pk_is_P256 privateKey orelse EPlain "jws: key must be P-256 for ES256" in
  let header := MkJwsHeader "ES256" kid false ["b64"] in
  let headerJSON := print (jws_header_json header) in
  let headerB64 := RawURL_EncodeToString (bytes_of_string headerJSON) in
  let digest := sha256 (signingInput headerB64 payload) in
  match pk_Sign privateKey digest with
  | Err e => Err (EWrap "jws: signing failed" e)
  | Ok (r, s) =>
      guard! (r <? 2 ^ 256) && (s <? 2 ^ 256) orelse EPlain "panic: slice bounds out of range" in
      let sigBytes := (be_slot 32 r ++ be_slot 32 s)%list in
      Ok (headerB64 ++ ".." ++ RawURL_EncodeToString sigBytes)
  end.

(** ** Verification *)

(** A detached JWS is accepted exactly when it is a header and a signature
    around an empty middle part, the header declares ES256 and does not set b64,
    the key of its key ID is found, and the 64-byte signature verifies over the
    header and this payload: a signature never covers another payload's input. *)
Theorem VerifyJWSDetached_spec (signature : string) (payload : list byte) (keys : ProducerKeyLookup) :
  VerifyJWSDetached signature payload keys = Ok tt <->
  exists headerB64 sigB64 hdr header key sig,
    Split signature "." = [headerB64; ""; sigB64] /\
    RawURL_DecodeString headerB64 = Some hdr /\ parse_jwsHeader (string_of_bytes hdr) = Ok header /\
    jh_Alg header = "ES256" /\ jh_B64 header = false /\ keys (jh_Kid header) = Ok key /\
    RawURL_DecodeString sigB64 = Some sig /\ length sig = 64%nat /\
    ecdsa_Verify key (sha256 (signingInput headerB64 payload))
      (bytes_Z (firstn 32 sig), bytes_Z (skipn 32 sig)) = true.
Proof.
  unfold VerifyJWSDetached. split.
  - intros E. repeat (case_match_in E; bool_hyps; subst); try discriminate. do 6 eexists.
    repeat (split; [first [reflexivity | eassumption]|]). eassumption.
  - intros (hb & sb & hdr & header & key & sig & -> & -> & -> & -> & -> & -> & -> & -> & ->). reflexivity.
Qed.

(** ** Creation, then verification *)

Lemma fold_rune_names (k : string) : names k k = true.
Proof. apply bool_decide_eq_true_2. reflexivity. Qed.

(** The header that is written is the header that is read. *)
Lemma parse_header_json (kid : string) :
  is_utf8 kid = true ->
  parse_jwsHeader (print (jws_header_json (MkJwsHeader "ES256" kid false ["b64"]))) =
  Ok (MkJwsHeader "ES256" kid false ["b64"]).
Proof.
  intros Hk. unfold parse_jwsHeader. rewrite Unmarshal_print.
  - unfold jws_header_json, omitempty. cbn [jh_Kid jh_Alg jh_B64 jh_Crit].
    destruct (String.eqb_spec kid "") as [->|_]; reflexivity.
  - unfold jws_header_json, omitempty. cbn [jh_Kid jh_Alg jh_B64 jh_Crit].
    destruct (String.eqb kid ""); cbn [app map json_wf forallb fst snd]; rewrite ?Hk; reflexivity.
  - unfold jws_header_json, omitempty. cbn [jh_Kid jh_Alg jh_B64 jh_Crit].
    destruct (String.eqb kid ""); vm_compute; discriminate.
Qed.

Lemma RawURL_no_dot (b : list byte) : contains_char "." (RawURL_EncodeToString b) = false.
Proof. unfold contains_char. apply negb_false_iff. apply (RawURL_text b). Qed.

(** ECDSA as the code relies on it: what a private key signs, its public key
    verifies, and both parts are integers of the group order's size. *)
Definition signs (privateKey : private_key) : Prop :=
  forall digest r s, pk_Sign privateKey digest = Ok (r, s) ->
    0 <= r < 2 ^ 256 /\ 0 <= s < 2 ^ 256 /\ ecdsa_Verify (pk_Public privateKey) digest (r, s) = true.

#[local] Opaque be_slot.

(** C35: what [CreateJWSDetached] signs with a P-256 key verifies: for every
    payload and every key ID of valid UTF-8, the detached JWS is accepted for
    that payload by a lookup that returns the signer's public key. *)
Theorem CreateJWSDetached_VerifyJWSDetached (payload : list byte) (privateKey : private_key)
    (kid jws : string) (keys : ProducerKeyLookup)
    (Hec : signs privateKey) (Hkid : is_utf8 kid = true) (Hkey : keys kid = Ok (pk_Public privateKey))
    (Hcreate : CreateJWSDetached payload privateKey kid = Ok jws) :
  VerifyJWSDetached jws payload keys = Ok tt.
Proof.
  unfold CreateJWSDetached in Hcreate. cbv zeta in Hcreate.
  set (hb := RawURL_EncodeToString _) in Hcreate.
  destruct (pk_is_P256 privateKey); [|discriminate].
  destruct (pk_Sign privateKey _) as [[r s]|] eqn:Es; [|discriminate].
  destruct ((r <? 2 ^ 256) && (s <? 2 ^ 256)); [|discriminate]. injection Hcreate as <-.
  destruct (Hec _ _ _ Es) as (Hr & Hs & Hv). unfold VerifyJWSDetached.
  change (hb ++ ".." ++ ?t) with (hb ++ String "." (String "." t)).
  rewrite Split_app by apply RawURL_no_dot. cbn [Split].
  rewrite Split_single by apply RawURL_no_dot. cbn [String.eqb].
  unfold hb at 1. rewrite RawURL_roundtrip. unfold string_of_bytes, bytes_of_string.
  rewrite string_of_list_byte_of_string, parse_header_json by exact Hkid.
  cbn [jh_Alg jh_B64 jh_Kid negb String.eqb Ascii.eqb Bool.eqb]. rewrite Hkey, RawURL_roundtrip.
  rewrite length_app, !be_slot_length. cbn [Nat.add Nat.eqb].
  rewrite take_app_length', drop_app_length', !bytes_be_slot, Hv by first [symmetry; apply be_slot_length | exact Hr | exact Hs].
  reflexivity.
Qed.
End Jws.

Section Examples.
#[local] Existing Instance plain_tables.
#[local] Existing Instance symbolic_signatures.

(** A key whose signature of a digest is the digest as an integer, twice. *)
Definition example_key : private_key := MkPrivate true (fun d => Ok (7, 9)) (x01 : ec_key).

Lemma CreateJWSDetached_VerifyJWSDetached_witness :
  exists jws, CreateJWSDetached [x41] example_key "k1" = Ok jws /\
    VerifyJWSDetached jws [x41] (fun _ => Ok (x01 : ec_key)) = Ok tt.
Proof.
  eexists. split; [vm_compute; reflexivity|].
  apply (CreateJWSDetached_VerifyJWSDetached [x41] example_key "k1").
  - intros d r s [= <- <-]. repeat split; lia.
  - reflexivity.
  - reflexivity.
  - vm_compute. reflexivity.
Defined.

(** A header without [b64] is taken for one with [b64: false]. *)
Example missing_b64 :
  exists h, parse_jwsHeader (with_quotes "{'alg':'ES256'}") = Ok h /\ jh_B64 h = false.
Proof. eexists. split; reflexivity. Qed.
End Examples.
