(* ===== verification/Stapling.v ===== *)
(** Stapled status credentials ([verify/stapling.go]): short-lived, signed statements
    of an agent's status that the agent brings along. *)

From S2P Require Import Prelude GoStrings Utf8 Encoding Sha256 GoTime Errors Json Number Jcs TlogJson GoJson ApiTypes Seal.

#[local] Open Scope list_scope.
#[local] Open Scope string_scope.
#[local] Open Scope Z_scope.

Record StapledCredential := MkStapled {
  sc_AnsID : string; sc_Status : string; sc_IssuedAt : Time; sc_ExpiresAt : Time; sc_Signature : string; sc_Kid : string
}.

Definition StapledCredential_json : gotype := TStruct [
  ("ansId", false, TString); ("status", false, TString); ("issuedAt", false, TTime); ("expiresAt", false, TTime);
  ("signature", false, TString); ("kid", false, TString)].

Definition stapled_of (v : goval) : StapledCredential :=
  match v with
  | VStruct [VString ansId; VString status; VTime issued; VTime expires; VString sig; VString kid] =>
      MkStapled ansId status issued expires sig kid
  | _ => MkStapled "" "" zero_time zero_time "" ""
  end.

Definition ParseStapledCredential (raw : list byte) : result goerror StapledCredential :=
  match Unmarshal_as StapledCredential_json (string_of_bytes raw) (zero StapledCredential_json) with
  | (_, false) => Err (EWrap "stapling: failed to parse credential: %w" ESyntax)
  | (v, true) =>
      let cred := stapled_of v in
      guard! negb (String.eqb (sc_AnsID cred) "") orelse EPlain "stapling: missing ansId" in
      guard! negb (String.eqb (sc_Status cred) "") orelse EPlain "stapling: missing status" in
      guard! negb (String.eqb (sc_Signature cred) "") orelse EPlain "stapling: missing signature" in
      Ok cred
  end.

Definition stapling_payload (cred : StapledCredential) : json :=
  JObject [("ansId", JString (sc_AnsID cred)); ("status", JString (sc_Status cred));
           ("issuedAt", JString (Format_RFC3339 (sc_IssuedAt cred)));
           ("expiresAt", JString (Format_RFC3339 (sc_ExpiresAt cred)))].

Definition computeStaplingDigest (cred : StapledCredential) : result goerror (list byte) :=
  let? canonical := JCSCanonicalize (print (stapling_payload cred)) in
  Ok (sha256 (bytes_of_string canonical)).

Section Stapling.
Context `{SignatureLib}.

Definition stapling_soft (msg : string) : goerror := NewANSError CodeStaplingExpired SeveritySoft StageSession msg.
Definition stapling_soft_cause (msg : string) (cause : goerror) : goerror :=
  NewANSErrorWithCause CodeStaplingExpired SeveritySoft StageSession msg cause.

Definition VerifyStapledCredential (cred : option StapledCredential) (keys : option ProducerKeyLookup) (now : Time)
  : result goerror unit :=
  match cred with
  | None => Err (stapling_soft "no stapled credential provided")
  | Some cred =>
      guard! negb (After now (sc_ExpiresAt cred))
        orelse stapling_soft ("stapled credential expired at " ++ Format_RFC3339 (sc_ExpiresAt cred)) in
      guard! negb (Before now (sc_IssuedAt cred))
        orelse stapling_soft "stapled credential issuedAt is in the future" in
      guard! negb (String.eqb (sc_Status cred) "REVOKED" || String.eqb (sc_Status cred) "EXPIRED")
        orelse NewANSError CodeStatusRevoked SeverityHard StageSession
                 ("stapled credential indicates status: " ++ sc_Status cred) in
      match keys with
      | None => Err (stapling_soft "no key lookup configured for stapling verification")
      | Some GetProducerKey =>
          match GetProducerKey (sc_Kid cred) with
          | Err err => Err (stapling_soft_cause "stapling key %q not found" err)
          | Ok pubKey =>
              match computeStaplingDigest cred with
              | Err err => Err (stapling_soft_cause "failed to compute stapling digest" err)
              | Ok digest =>
                  match b64_DecodeString (sc_Signature cred) with
                  | None => Err (stapling_soft_cause "failed to decode stapling signature" (EPlain "illegal base64 data"))
                  | Some sigBytes =>
                      guard! ecdsa_VerifyASN1 pubKey digest sigBytes
                        orelse stapling_soft "stapling signature verification failed" in
                      Ok tt
                  end
              end
          end
      end
  end.
End Stapling.

(** ** What is signed *)

(** The signed text: the four fields in the order of their names, times to the
    second. *)
Definition signed_text (cred : StapledCredential) : string :=
  print (JObject [("ansId", JString (sc_AnsID cred)); ("expiresAt", JString (Format_RFC3339 (sc_ExpiresAt cred)));
                  ("issuedAt", JString (Format_RFC3339 (sc_IssuedAt cred))); ("status", JString (sc_Status cred))]).

(** A credential as a decoder makes it. *)
Definition cred_wf (cred : StapledCredential) : Prop :=
  is_utf8 (sc_AnsID cred) = true /\ is_utf8 (sc_Status cred) = true /\ time_wf (sc_IssuedAt cred) /\ time_wf (sc_ExpiresAt cred).

Lemma Format_RFC3339_ascii (t : Time) : time_wf t -> is_utf8 (Format_RFC3339 t) = true.
Proof.
  intros W. apply is_ascii_utf8. set (t0 := MkTime (t_year t) (t_month t) (t_day t) (t_hour t) (t_min t) (t_sec t) 0 (t_offset t)).
  assert (W0 : time_wf t0) by (unfold time_wf in *; cbn; intuition lia).
  exact (Format_ascii t0 W0).
Qed.

Lemma stapling_json (cred : StapledCredential) :
  cred_wf cred -> json_wf (stapling_payload cred) = true.
Proof.
  intros (H1 & H2 & H3 & H4). unfold stapling_payload. cbn [json_wf forallb fst snd].
  rewrite H1, H2, !Format_RFC3339_ascii by assumption. reflexivity.
Qed.

Lemma computeStaplingDigest_eq (cred : StapledCredential) :
  cred_wf cred -> computeStaplingDigest cred = Ok (sha256 (bytes_of_string (signed_text cred))).
Proof.
  intros W. unfold computeStaplingDigest.
  rewrite (proj2 (JCSCanonicalize_Ok (print (stapling_payload cred)) (signed_text cred))); [reflexivity|].
  eexists _, _. split; [apply Decode_print_eq; [apply stapling_json, W | vm_compute; discriminate]|].
  split; [|reflexivity]. reflexivity.
Qed.

Lemma seconds_eq (t u : Time) :
  time_wf t -> time_wf u -> Format_RFC3339 t = Format_RFC3339 u ->
  MkTime (t_year t) (t_month t) (t_day t) (t_hour t) (t_min t) (t_sec t) 0 (t_offset t) =
  MkTime (t_year u) (t_month u) (t_day u) (t_hour u) (t_min u) (t_sec u) 0 (t_offset u).
Proof.
  intros Wt Wu E. apply (f_equal Parse_RFC3339) in E. unfold Format_RFC3339 in E.
  rewrite !Parse_Format in E by assumption. congruence.
Qed.

Lemma signed_text_inj (a b : StapledCredential) :
  cred_wf a -> cred_wf b -> signed_text a = signed_text b ->
  sc_AnsID a = sc_AnsID b /\ sc_Status a = sc_Status b /\
  Format_RFC3339 (sc_IssuedAt a) = Format_RFC3339 (sc_IssuedAt b) /\
  Format_RFC3339 (sc_ExpiresAt a) = Format_RFC3339 (sc_ExpiresAt b).
Proof.
  intros (A1 & A2 & A3 & A4) (B1 & B2 & B3 & B4) E. apply print_inj in E.
  - injection E as E1 E2 E3 E4. auto.
  - cbn [json_wf forallb fst snd]. rewrite A1, A2, !Format_RFC3339_ascii by assumption. reflexivity.
  - cbn [json_wf forallb fst snd]. rewrite B1, B2, !Format_RFC3339_ascii by assumption. reflexivity.
Qed.

Section Properties.
Context `{SignatureLib}.

(** C34: What a stapled credential proves. It is accepted exactly when the time lies in
    its period, ends included, to the nanosecond; its status is neither REVOKED nor
    EXPIRED in just this spelling; and the key that the lookup gives for its key ID
    verifies its signature over the SHA-256 of the canonical JSON of its ID, status and
    times. A refusal is hard only for one of those two statuses within the period;
    every other refusal is soft. *)
Theorem VerifyStapledCredential_spec (cred : StapledCredential) (keys : option ProducerKeyLookup) (now : Time) :
  cred_wf cred ->
  let fresh := unix_nano (sc_IssuedAt cred) <= unix_nano now <= unix_nano (sc_ExpiresAt cred) in
  let ended := sc_Status cred = "REVOKED" \/ sc_Status cred = "EXPIRED" in
  (VerifyStapledCredential (Some cred) keys now = Ok tt <->
   fresh /\ ~ ended /\
   exists GetProducerKey pubKey sig, keys = Some GetProducerKey /\ GetProducerKey (sc_Kid cred) = Ok pubKey /\
     b64_DecodeString (sc_Signature cred) = Some sig /\
     ecdsa_VerifyASN1 pubKey (sha256 (bytes_of_string (signed_text cred))) sig = true) /\
  (forall e, VerifyStapledCredential (Some cred) keys now = Err e ->
   exists code sev msg cause, e = EANS code sev StageSession msg [] cause /\ (sev = SeverityHard <-> fresh /\ ended)).
Proof.
  intros W. cbv zeta. unfold VerifyStapledCredential, After, Before.
  rewrite (computeStaplingDigest_eq cred W).
  destruct (Z.ltb_spec (unix_nano (sc_ExpiresAt cred)) (unix_nano now)) as [K1|K1]; cbn [negb].
  { split; [split; [discriminate | intros [? _]; lia]|]. intros e [= <-]. do 4 eexists. split; [reflexivity|].
    split; [discriminate | intros [? _]; lia]. }
  destruct (Z.ltb_spec (unix_nano now) (unix_nano (sc_IssuedAt cred))) as [K2|K2]; cbn [negb].
  { split; [split; [discriminate | intros [? _]; lia]|]. intros e [= <-]. do 4 eexists. split; [reflexivity|].
    split; [discriminate | intros [? _]; lia]. }
  destruct (String.eqb_spec (sc_Status cred) "REVOKED") as [K3|K3]; cbn [orb negb].
  { split; [split; [discriminate | tauto]|]. intros e [= <-]. do 4 eexists. split; [reflexivity|]. split; [|reflexivity].
    intros _. split; [lia | auto]. }
  destruct (String.eqb_spec (sc_Status cred) "EXPIRED") as [K4|K4]; cbn [orb negb].
  { split; [split; [discriminate | tauto]|]. intros e [= <-]. do 4 eexists. split; [reflexivity|]. split; [|reflexivity].
    intros _. split; [lia | auto]. }
  assert (Soft : forall msg cause, exists code sev msg' cause',
    EANS CodeStaplingExpired SeveritySoft StageSession msg [] cause = EANS code sev StageSession msg' [] cause' /\
    (sev = SeverityHard <-> unix_nano (sc_IssuedAt cred) <= unix_nano now <= unix_nano (sc_ExpiresAt cred) /\
       (sc_Status cred = "REVOKED" \/ sc_Status cred = "EXPIRED"))).
  { intros msg cause. do 4 eexists. split; [reflexivity|]. split; [discriminate | tauto]. }
  destruct keys as [lookup|].
  2: { split; [split; [discriminate | intros (_ & _ & l & k & s & El & _); discriminate El]|]. intros e [= <-]. apply Soft. }
  destruct (lookup (sc_Kid cred)) as [key|err] eqn:Ek.
  2: { split; [split; [discriminate|]|intros e [= <-]; apply Soft]. intros (_ & _ & l & k & s & [= <-] & El & _). congruence. }
  destruct (b64_DecodeString (sc_Signature cred)) as [sig|] eqn:Es.
  2: { split; [split; [discriminate|]|intros e [= <-]; apply Soft]. intros (_ & _ & l & k & s & _ & _ & El & _). congruence. }
  destruct (ecdsa_VerifyASN1 key _ sig) eqn:Ev.
  - split; [|discriminate]. split; [|reflexivity]. intros _. split; [lia|]. split; [tauto|]. exists lookup, key, sig. auto.
  - split; [split; [discriminate|]|intros e [= <-]; apply Soft].
    intros (_ & _ & l & k & s & [= <-] & El & Es' & Ev'). congruence.
Qed.

(** What the signature binds. If their signed texts are not a SHA-256 collision, two
    credentials have the same digest exactly when they have the same ID, the same
    status and the same times to the second with the same zone: neither the key ID nor
    fractions of a second are covered, and nothing else is left out. *)
Theorem stapling_digest_binds (a b : StapledCredential) :
  cred_wf a -> cred_wf b ->
  (sha256 (bytes_of_string (signed_text a)) = sha256 (bytes_of_string (signed_text b)) -> signed_text a = signed_text b) ->
  let to_second t := (t_year t, t_month t, t_day t, t_hour t, t_min t, t_sec t, t_offset t) in
  computeStaplingDigest a = computeStaplingDigest b <->
  sc_AnsID a = sc_AnsID b /\ sc_Status a = sc_Status b /\
  to_second (sc_IssuedAt a) = to_second (sc_IssuedAt b) /\ to_second (sc_ExpiresAt a) = to_second (sc_ExpiresAt b).
Proof.
  intros Wa Wb Hsha. cbv zeta. rewrite !computeStaplingDigest_eq by assumption. split.
  - revert Hsha. generalize (sha256 (bytes_of_string (signed_text a))) (sha256 (bytes_of_string (signed_text b))).
    intros da db Hsha [= E]. apply Hsha in E. apply signed_text_inj in E as (E1 & E2 & E3 & E4); [|exact Wa|exact Wb].
    destruct Wa as (_ & _ & A3 & A4), Wb as (_ & _ & B3 & B4).
    apply seconds_eq in E3; [|exact A3|exact B3]. apply seconds_eq in E4; [|exact A4|exact B4].
    injection E3. injection E4. intros. repeat split; congruence.
  - intros (E1 & E2 & E3 & E4). unfold signed_text, Format_RFC3339, appendFormatRFC3339.
    injection E3 as -> -> -> -> -> -> ->. injection E4 as -> -> -> -> -> -> ->. rewrite E1, E2. reflexivity.
Qed.
End Properties.

(** ** Examples *)

Section Examples.
#[local] Existing Instance symbolic_signatures.

Definition stapled_by (key : byte) (cred : StapledCredential) : StapledCredential :=
  MkStapled (sc_AnsID cred) (sc_Status cred) (sc_IssuedAt cred) (sc_ExpiresAt cred)
    (match computeStaplingDigest cred with Ok d => b64_EncodeToString (key :: d) | Err _ => "" end) (sc_Kid cred).

Definition one_key : ProducerKeyLookup := fun kid => if String.eqb kid "k-1" then Ok x01 else Err (EPlain "unknown key").

Definition credential (status : string) : StapledCredential :=
  MkStapled "a-1" status (MkTime 2026 1 1 0 0 0 0 0) (MkTime 2026 1 1 9 0 0 0 28800) "" "k-1".

Definition verdict (status : string) (now : Time) : bool :=
  is_ok (VerifyStapledCredential (Some (stapled_by x01 (credential status))) (Some one_key) now).

(** A lower-case status, and one the code does not know, pass. *)
Example stapling_statuses :
  map (fun s => verdict s (MkTime 2026 1 1 0 30 0 0 0)) ["ACTIVE"; "REVOKED"; "EXPIRED"; "revoked"; "SUSPENDED"] =
  [true; false; false; true; true].
Proof. vm_compute. reflexivity. Qed.

Example stapling_ends :
  map (fun t => verdict "ACTIVE" t) [MkTime 2026 1 1 0 0 0 0 0; MkTime 2026 1 1 1 0 0 0 0; MkTime 2026 1 1 1 0 0 1 0] =
  [true; true; false].
Proof. vm_compute. reflexivity. Qed.

Lemma credential_wf (status : string) : is_utf8 status = true -> cred_wf (credential status).
Proof. intros E. split; [reflexivity|]. split; [exact E|]. split; repeat split; vm_compute; congruence. Qed.

Lemma VerifyStapledCredential_spec_witness :
  let cred := stapled_by x01 (credential "ACTIVE") in
  cred_wf cred /\ exists sig, b64_DecodeString (sc_Signature cred) = Some sig /\
    ecdsa_VerifyASN1 (SignatureLib := symbolic_signatures) x01 (sha256 (bytes_of_string (signed_text cred))) sig = true.
Proof.
  cbv zeta. set (cred := stapled_by x01 (credential "ACTIVE")).
  assert (W : cred_wf cred) by exact (credential_wf "ACTIVE" eq_refl). split; [exact W|].
  destruct (VerifyStapledCredential_spec cred (Some one_key) (MkTime 2026 1 1 0 30 0 0 0) W) as [[F _] _].
  destruct F as (_ & _ & l & k & sig & [= <-] & Hk & Hs & Hv); [vm_compute; reflexivity|].
  exists sig. split; [exact Hs|]. injection Hk as <-. exact Hv.
Defined.

Lemma stapling_digest_binds_witness :
  computeStaplingDigest (credential "ACTIVE") <> computeStaplingDigest (credential "REVOKED").
Proof.
  intros E. apply stapling_digest_binds in E.
  - destruct E as (_ & E & _). discriminate E.
  - apply credential_wf. reflexivity.
  - apply credential_wf. reflexivity.
  - intros K. assert (N : list_byte_eqb (sha256 (bytes_of_string (signed_text (credential "ACTIVE"))))
      (sha256 (bytes_of_string (signed_text (credential "REVOKED")))) = false) by (vm_compute; reflexivity).
    rewrite K in N. unfold list_byte_eqb in N. rewrite bool_decide_eq_true_2 in N by reflexivity. discriminate N.
Defined.
End Examples.
