(* ===== verification/Trust.v ===== *)
(** The trust index, the trust policy and verification results:
    [verify/trust_index.go], [verify/trust_policy.go],
    [verify/verification_result.go]. *)

From S2P Require Import Prelude GoStrings Errors Float64.

#[local] Open Scope string_scope.
#[local] Open Scope Z_scope.

(** ** Trust index *)

(** [TrustLevel] is a string type; these are its constants. *)
Definition TrustLevelNone : string := "NONE".
Definition TrustLevelBasic : string := "BASIC".
Definition TrustLevelVerified : string := "VERIFIED".
Definition TrustLevelHigh : string := "HIGH".

Record TrustIndexParams := MkTrustIndexParams {
  IdentityVerified : bool; DANEVerified : bool; DNSSECValidated : bool; TLReceiptVerified : bool;
  ProducerSigValid : bool; MerkleProofValid : bool; FingerprintMatch : bool; StatusActive : bool;
  AgentCardVerified : bool; CapHashValid : bool; SchemaHashValid : bool;
  ClaimsVerified : Z; ClaimsTotal : Z; CertExpiryWarning : bool
}.

Definition weightIdentity : Z := 15.
Definition weightDANE : Z := 10.
Definition weightDNSSEC : Z := 5.
Definition weightTLReceipt : Z := 15.
Definition weightProducerSig : Z := 10.
Definition weightMerkle : Z := 10.
Definition weightFingerprint : Z := 10.
Definition weightStatus : Z := 5.
Definition weightAgentCard : Z := 5.
Definition weightCapHash : Z := 5.
Definition weightSchema : Z := 5.
Definition weightClaims : Z := 5.

(** [if flag { score += w }] *)
Definition award (flag : bool) (w score : Z) : Z := if flag then wrap_i64 (score + w) else score.

Definition claims_points (verified total : Z) : Z :=
  let ratio := f64_div (f64_of_Z verified) (f64_of_Z total) in
  f64_to_int (f64_mul (f64_of_Z weightClaims) ratio).

Definition trustLevelFromScore (score : Z) : string :=
  if 80 <=? score then TrustLevelHigh
  else if 55 <=? score then TrustLevelVerified
  else if 30 <=? score then TrustLevelBasic
  else TrustLevelNone.

(** The score before the expiry deduction and the clamp. *)
Definition raw_score (p : TrustIndexParams) : Z :=
  let score := 0 in
  let score := award (IdentityVerified p) weightIdentity score in
  let score := award (DANEVerified p) weightDANE score in
  let score := award (DNSSECValidated p) weightDNSSEC score in
  let score := award (TLReceiptVerified p) weightTLReceipt score in
  let score := award (ProducerSigValid p) weightProducerSig score in
  let score := award (MerkleProofValid p) weightMerkle score in
  let score := award (FingerprintMatch p) weightFingerprint score in
  let score := award (StatusActive p) weightStatus score in
  let score := award (AgentCardVerified p) weightAgentCard score in
  let score := award (CapHashValid p) weightCapHash score in
  let score := award (SchemaHashValid p) weightSchema score in
  if (0 <? ClaimsTotal p) && (0 <? ClaimsVerified p)
  then wrap_i64 (score + claims_points (ClaimsVerified p) (ClaimsTotal p)) else score.

Definition ComputeTrustIndex (params : TrustIndexParams) : Z * string :=
  let score := raw_score params in
  let score := if CertExpiryWarning params then wrap_i64 (score - 5) else score in
  let score := if score <? 0 then 0 else score in
  let score := if 100 <? score then 100 else score in
  (score, trustLevelFromScore score).

(** ** Trust policy *)

Definition DNSSECModeRequire : string := "REQUIRE".
Definition DNSSECModePrefer : string := "PREFER".
Definition FailureActionFail : string := "FAIL".
Definition FailureActionDegrade : string := "DEGRADE".

Record TrustPolicy := MkTrustPolicy {
  tpol_DNSSECMode : string; tpol_TLUnreachable : string; tpol_CapHashMismatch : string;
  tpol_StaplingRequired : bool; tpol_MinTrustLevel : string; tpol_OfflineMode : bool;
  tpol_LongConnRecheckInterval : Z
}.

Definition DefaultTrustPolicy : TrustPolicy :=
  MkTrustPolicy DNSSECModePrefer FailureActionDegrade FailureActionDegrade false TrustLevelBasic false (5 * minute).
Definition HighSecurityTrustPolicy : TrustPolicy :=
  MkTrustPolicy DNSSECModeRequire FailureActionFail FailureActionFail true TrustLevelVerified false (2 * minute).

Definition ShouldRejectDNSSECInsecure (p : TrustPolicy) : bool := String.eqb (tpol_DNSSECMode p) DNSSECModeRequire.
Definition ShouldRejectTLUnreachable (p : TrustPolicy) : bool := String.eqb (tpol_TLUnreachable p) FailureActionFail.
Definition ShouldRejectCapHashMismatch (p : TrustPolicy) : bool := String.eqb (tpol_CapHashMismatch p) FailureActionFail.

(** ** Verification results *)

Record VerifiableClaimResult := MkClaimResult { vc_ClaimType : string; vc_Issuer : string; vc_Valid : bool; vc_Error : string }.

Record AgentCardResult := MkAgentCardResult {
  ac_SignatureValid : bool; ac_CapHashValid : bool; ac_SchemaValid : bool;
  ac_ClaimsVerified : list VerifiableClaimResult
}.

Record VerificationResult := MkResult {
  vr_AnsName : string; vr_Connected : bool; vr_TrustLevel : string; vr_TrustIndex : Z;
  vr_IdentityVerified : bool; vr_TLVerified : bool; vr_AgentCardVerified : option AgentCardResult;
  vr_DNSSECStatus : string; vr_Status : string; vr_Warnings : list string;
  vr_Error : option goerror; vr_Timestamp : Z
}.

Definition vr_IsSuccess (r : VerificationResult) : bool :=
  vr_Connected r && match vr_Error r with None => true | Some _ => false end.
Definition vr_ToError (r : VerificationResult) : option goerror := vr_Error r.

Definition trustLevelOrd (l : string) : Z :=
  if String.eqb l TrustLevelHigh then 3
  else if String.eqb l TrustLevelVerified then 2
  else if String.eqb l TrustLevelBasic then 1
  else 0.

Definition MeetsTrustLevel (r : VerificationResult) (required : string) : bool :=
  trustLevelOrd required <=? trustLevelOrd (vr_TrustLevel r).

(** [now] is [time.Now()]. *)
Definition NewSuccessResult (now : Z) (ansName : string) (trustIndex : Z) (trustLevel : string) : VerificationResult :=
  MkResult ansName true trustLevel trustIndex true true None "" "ACTIVE" [] None now.
Definition NewFailureResult (now : Z) (ansName : string) (err : goerror) : VerificationResult :=
  MkResult ansName false TrustLevelNone 0 false false None "" "" [] (Some err) now.

(** ** Bounds and monotonicity *)

(** Up to a hundred claims the float arithmetic gives 0 to 5 points, and all of
    them exactly when every claim is verified. *)
Definition claims_ok (verified total : Z) : bool :=
  let p := claims_points verified total in
  (0 <=? p) && (p <=? 5) && Bool.eqb (p =? 5) (verified =? total).

Lemma claims_points_range (verified total : Z) :
  0 < verified <= total -> total <= 100 ->
  0 <= claims_points verified total <= 5 /\ (claims_points verified total = 5 <-> verified = total).
Proof.
  intros Hv Ht.
  assert (G : forallb (fun t => forallb (fun v => claims_ok (Z.of_nat v) (Z.of_nat t)) (seq 1 t)) (seq 1 100) = true)
    by (vm_compute; reflexivity).
  rewrite forallb_forall in G. specialize (G (Z.to_nat total) ltac:(apply in_seq; lia)).
  rewrite forallb_forall in G. specialize (G (Z.to_nat verified) ltac:(apply in_seq; lia)).
  rewrite !Z2Nat.id in G by lia. unfold claims_ok in G. apply andb_true_iff in G as [G E].
  apply Bool.eqb_prop in E. bool_hyps. split; [lia|].
  rewrite <- Z.eqb_eq, E, Z.eqb_eq. reflexivity.
Qed.

(** The points of the claims, where they are in order. *)
Definition claims_wf (p : TrustIndexParams) : Prop := ClaimsVerified p <= ClaimsTotal p <= 100.

Definition claims_term (p : TrustIndexParams) : Z :=
  if (0 <? ClaimsTotal p) && (0 <? ClaimsVerified p) then claims_points (ClaimsVerified p) (ClaimsTotal p) else 0.

Definition points (flag : bool) (w : Z) : Z := if flag then w else 0.

(** The score is the plain sum: no addition overflows. *)
Lemma raw_score_sum (p : TrustIndexParams) :
  claims_wf p ->
  raw_score p =
    points (IdentityVerified p) 15 + points (DANEVerified p) 10 + points (DNSSECValidated p) 5 +
    points (TLReceiptVerified p) 15 + points (ProducerSigValid p) 10 + points (MerkleProofValid p) 10 +
    points (FingerprintMatch p) 10 + points (StatusActive p) 5 + points (AgentCardVerified p) 5 +
    points (CapHashValid p) 5 + points (SchemaHashValid p) 5 + claims_term p /\ 0 <= claims_term p <= 5.
Proof.
  intros Hp. assert (Hc : 0 <= claims_term p <= 5).
  { unfold claims_term. destruct (0 <? ClaimsTotal p) eqn:E1; [|cbn; lia].
    destruct (0 <? ClaimsVerified p) eqn:E2; [|cbn; lia]. cbn [andb]. bool_hyps. destruct Hp.
    apply claims_points_range; lia. }
  split; [|exact Hc].
  assert (Ha : forall b w s, 0 <= s <= 1000 -> 0 <= w <= 100 -> award b w s = s + points b w).
  { intros b w s Hs Hw. unfold award, points. destruct b; [|lia]. apply wrap_i64_small.
    unfold in_i64, min_i64, max_i64. lia. }
  assert (Hp' : forall b w, 0 <= w <= 15 -> 0 <= points b w <= 15) by (intros [] w; unfold points; lia).
  unfold raw_score, weightIdentity, weightDANE, weightDNSSEC, weightTLReceipt, weightProducerSig, weightMerkle,
    weightFingerprint, weightStatus, weightAgentCard, weightCapHash, weightSchema.
  repeat match goal with |- context [award ?b ?w ?s] =>
    lazymatch s with
    | context [award] => fail
    | _ => rewrite (Ha b w s) by (repeat match goal with |- context [points ?b ?w] =>
             pose proof (Hp' b w ltac:(lia)); generalize dependent (points b w); intros end; lia)
    end
  end.
  unfold claims_term in *. destruct ((0 <? ClaimsTotal p) && (0 <? ClaimsVerified p)); [|lia].
  apply wrap_i64_small. unfold in_i64, min_i64, max_i64.
  repeat match goal with |- context [points ?b ?w] =>
    pose proof (Hp' b w ltac:(lia)); generalize dependent (points b w); intros end. lia.
Qed.

(** The order of the signals: more verified, fewer warnings, the same claims. *)
Definition implies (a b : bool) : Prop := a = true -> b = true.

Definition signals_le (p q : TrustIndexParams) : Prop :=
  implies (IdentityVerified p) (IdentityVerified q) /\ implies (DANEVerified p) (DANEVerified q) /\
  implies (DNSSECValidated p) (DNSSECValidated q) /\ implies (TLReceiptVerified p) (TLReceiptVerified q) /\
  implies (ProducerSigValid p) (ProducerSigValid q) /\ implies (MerkleProofValid p) (MerkleProofValid q) /\
  implies (FingerprintMatch p) (FingerprintMatch q) /\ implies (StatusActive p) (StatusActive q) /\
  implies (AgentCardVerified p) (AgentCardVerified q) /\ implies (CapHashValid p) (CapHashValid q) /\
  implies (SchemaHashValid p) (SchemaHashValid q) /\
  ClaimsVerified p = ClaimsVerified q /\ ClaimsTotal p = ClaimsTotal q /\
  implies (CertExpiryWarning q) (CertExpiryWarning p).

Lemma points_le (a b : bool) (w : Z) : 0 <= w -> implies a b -> points a w <= points b w.
Proof. unfold implies, points. destruct a, b; intros Hw Hab; try lia; discriminate (Hab eq_refl). Qed.

Lemma level_le (s t : Z) :
  s <= t -> trustLevelOrd (trustLevelFromScore s) <= trustLevelOrd (trustLevelFromScore t).
Proof.
  unfold trustLevelFromScore. intros Hst.
  destruct (80 <=? s) eqn:E1, (55 <=? s) eqn:E2, (30 <=? s) eqn:E3,
    (80 <=? t) eqn:F1, (55 <=? t) eqn:F2, (30 <=? t) eqn:F3; bool_hyps; try lia; cbn; lia.
Qed.

Lemma ComputeTrustIndex_eq (p : TrustIndexParams) :
  claims_wf p ->
  let score := Z.max 0 (raw_score p - points (CertExpiryWarning p) 5) in
  0 <= raw_score p <= 100 /\ ComputeTrustIndex p = (score, trustLevelFromScore score).
Proof.
  intros Hp. destruct (raw_score_sum p Hp) as [E Hc].
  assert (Hr : 0 <= raw_score p <= 100).
  { rewrite E. assert (Hp' : forall b w, 0 <= w -> 0 <= points b w <= w) by (intros [] w; unfold points; lia).
    repeat match goal with |- context [points ?b ?w] =>
      pose proof (Hp' b w ltac:(lia)); generalize dependent (points b w); intros end. lia. }
  split; [exact Hr|]. unfold ComputeTrustIndex.
  assert (Ew : (if CertExpiryWarning p then wrap_i64 (raw_score p - 5) else raw_score p) =
               raw_score p - points (CertExpiryWarning p) 5).
  { unfold points. destruct (CertExpiryWarning p); [|lia]. apply wrap_i64_small.
    unfold in_i64, min_i64, max_i64. lia. }
  rewrite Ew. assert (Hle : 0 <= points (CertExpiryWarning p) 5) by (unfold points; destruct (CertExpiryWarning p); lia).
  destruct (raw_score p - points (CertExpiryWarning p) 5 <? 0) eqn:E1; bool_hyps.
  - rewrite Z.max_l by lia. reflexivity.
  - rewrite Z.max_r by lia. destruct (100 <? _) eqn:E2; bool_hyps; [lia | reflexivity].
Qed.


Definition all_signals (b : bool) : TrustIndexParams := MkTrustIndexParams b b b b b b b b b b b 3 4 (negb b).


(** Far out of range the conversion to [int] wraps (on amd64): the score of no
    signal but a warning and absurd claims is the maximum. *)
Example claims_overflow :
  ComputeTrustIndex (MkTrustIndexParams false false false false false false false false false false false
    max_i64 1 true) = (100, TrustLevelHigh).
Proof. vm_compute. reflexivity. Qed.
