(* ===== verification/Cert.v ===== *)
(** Certificates ([verify/cert.go]): SHA-256 fingerprints and their textual
    forms, ati:// names, certificate identities, DNS-name matching and the
    validity check. An [x509.Certificate] is the record of the fields read. *)

From Stdlib Require Import Floats.SpecFloat.
From S2P Require Import Prelude GoStrings Encoding Sha256 Float64 Errors Models.

#[local] Open Scope string_scope.
#[local] Open Scope Z_scope.

(** Times are nanoseconds since the epoch; URIs are their [String()] forms. *)
Record Certificate := MkCertificate {
  Raw : list byte;
  RawSubjectPublicKeyInfo : list byte;
  SubjectCommonName : string;
  DNSNames : list string;
  URIs : list string;
  NotBefore : Z;
  NotAfter : Z;
  SerialNumber : Z;
  CRLDistributionPoints : list string;
  OCSPServer : list string
}.

(** ** Fingerprints *)

Record CertFingerprint := MkFp { fp_bytes : list byte }.

Definition fp_wf (f : CertFingerprint) : Prop := length (fp_bytes f) = 32%nat.

#[export] Instance CertFingerprint_eq_dec : EqDecision CertFingerprint.
Proof. solve_decision. Defined.

Definition CertFingerprintFromDER (der : list byte) : CertFingerprint := MkFp (sha256 der).
Definition CertFingerprintFromBytes (b : list byte) : CertFingerprint := MkFp b.

(** The text after the accepted prefix. *)
Definition fingerprint_hex (s : string) : option string :=
  if HasPrefix s "SHA256:" then Some (str_drop 7 s)
  else if HasPrefix s "sha256:" then Some (str_drop 7 s)
  else if HasPrefix s "SHA-256:" then Some (str_drop 8 s)
  else if HasPrefix s "sha-256:" then Some (str_drop 8 s)
  else None.

Definition ParseCertFingerprint (s : string) : result goerror CertFingerprint :=
  match fingerprint_hex s with
  | None => Err (EPlain "invalid fingerprint format: must start with 'SHA256:' or 'SHA-256:'")
  | Some hexStr =>
      match hex_DecodeString hexStr with
      | None => Err (EPlain "invalid fingerprint hex")
      | Some decoded =>
          guard! (length decoded =? 32)%nat orelse EPlain "invalid fingerprint length" in
          Ok (MkFp decoded)
      end
  end.

Definition ToHex (f : CertFingerprint) : string := hex_EncodeToString (fp_bytes f).
Definition Fingerprint_String (f : CertFingerprint) : string := "SHA256:" ++ ToHex f.
Definition Fingerprint_Bytes (f : CertFingerprint) : list byte := fp_bytes f.
Definition Fingerprint_Equal (f g : CertFingerprint) : bool := list_byte_eqb (fp_bytes f) (fp_bytes g).
Definition Fingerprint_IsZero (f : CertFingerprint) : bool :=
  list_byte_eqb (fp_bytes f) (repeat x00 32).

Definition Matches (f : CertFingerprint) (other : string) : bool :=
  match ParseCertFingerprint other with
  | Err _ => false
  | Ok parsed => list_byte_eqb (fp_bytes f) (fp_bytes parsed)
  end.

Definition MatchesAny (f : CertFingerprint) (candidates : list string) : bool :=
  existsb (fun c => negb (String.eqb c "") && Matches f c) candidates.

Definition MatchesWithRenewal (f : CertFingerprint) (current previous : string) : bool :=
  if String.eqb (TrimSpace current) "" then false else MatchesAny f [current; previous].

Lemma list_byte_eqb_true (a b : list byte) : list_byte_eqb a b = true <-> a = b.
Proof. apply bool_decide_eq_true. Qed.

Lemma fp_eta (f : CertFingerprint) (b : list byte) : fp_bytes f = b <-> f = MkFp b.
Proof. destruct f; simpl; split; congruence. Qed.

Lemma Matches_spec (f : CertFingerprint) (s : string) :
  Matches f s = true <-> ParseCertFingerprint s = Ok f.
Proof.
  unfold Matches. destruct (ParseCertFingerprint s) as [[p]|e].
  - rewrite list_byte_eqb_true, fp_eta. simpl. split; congruence.
  - split; discriminate.
Qed.

Lemma ParseCertFingerprint_String (f : CertFingerprint) :
  fp_wf f -> ParseCertFingerprint (Fingerprint_String f) = Ok f.
Proof.
  intros Hf. unfold ParseCertFingerprint, Fingerprint_String, fingerprint_hex.
  rewrite HasPrefix_app. change 7%nat with (String.length "SHA256:").
  rewrite str_drop_app. unfold ToHex. rewrite hex_roundtrip.
  unfold fp_wf in Hf. rewrite Hf. destruct f; reflexivity.
Qed.

Lemma ParseCertFingerprint_wf (s : string) (f : CertFingerprint) :
  ParseCertFingerprint s = Ok f -> fp_wf f.
Proof.
  unfold ParseCertFingerprint. intros E. repeat case_match_in E. injection E as <-.
  bool_hyps. assumption.
Qed.

Lemma MatchesAny_spec (f : CertFingerprint) (cs : list string) :
  MatchesAny f cs = true <-> exists c, In c cs /\ ParseCertFingerprint c = Ok f.
Proof.
  unfold MatchesAny. rewrite existsb_exists. split.
  - intros (c & Hin & E). bool_hyps. exists c. rewrite <- Matches_spec. auto.
  - intros (c & Hin & E). exists c. split; [exact Hin|].
    apply andb_true_iff. split; [|apply Matches_spec, E].
    destruct c; [discriminate E|reflexivity].
Qed.

(** The empty candidate is never parsed as a fingerprint, so the renewal rule
    is: the current fingerprint is present, and one of the two matches. *)
Lemma MatchesWithRenewal_spec (f : CertFingerprint) (current previous : string) :
  MatchesWithRenewal f current previous = true <->
  TrimSpace current <> "" /\
  (ParseCertFingerprint current = Ok f \/ ParseCertFingerprint previous = Ok f).
Proof.
  unfold MatchesWithRenewal. destruct (String.eqb (TrimSpace current) "") eqn:E; bool_hyps.
  - split; [discriminate | tauto].
  - rewrite MatchesAny_spec. simpl. split.
    + intros (c & [<-|[<-|[]]] & H); auto.
    + intros (_ & [H|H]); eauto.
Qed.

(** ** ati:// names *)

Record ATIName := MkATIName { an_Version : Version; an_Host : string; an_raw : string }.

Section Names.
Context `{UnicodeTables}.

Definition ParseATIName (uri : string) : result goerror ATIName :=
  guard! negb (String.eqb uri "") orelse EPlain "empty ATI name" in
  guard! HasPrefix uri "ati://" orelse EPlain "ATI name must start with 'ati://'" in
  let rest := str_drop 6 uri in
  guard! HasPrefix rest "v" orelse EPlain "ATI name version must start with 'v'" in
  match SplitN rest "." 4 with
  | [p0; p1; p2; p3] =>
      match ParseVersion (p0 ++ "." ++ p1 ++ "." ++ p2) with
      | Err e => Err (EWrap "invalid version in ATI name" e)
      | Ok version => Ok (MkATIName version (ToLower p3) uri)
      end
  | _ => Err (EPlain "ATI name must have version and FQDN")
  end.

Definition ATIName_String (a : ATIName) : string := an_raw a.

(** The canonical name of a version and a host. *)
Definition ati_uri (v : Version) (host : string) : string :=
  "ati://" ++ Version_String v ++ "." ++ host.

Lemma ParseATIName_raw (uri : string) (a : ATIName) :
  ParseATIName uri = Ok a -> an_raw a = uri /\ Version_wf (an_Version a).
Proof.
  unfold ParseATIName. intros E. repeat case_match_in E. injection E as <-. simpl.
  split; [reflexivity|]. eapply ParseVersion_wf; eassumption.
Qed.

Lemma v_fmt_no_dot (n : Z) : contains_char "." ("v" ++ fmt_d n) = false.
Proof. exact (no_dot_fmt n). Qed.

Lemma ParseATIName_uri (v : Version) (host : string) :
  Version_wf v -> ParseATIName (ati_uri v host) = Ok (MkATIName v (ToLower host) (ati_uri v host)).
Proof.
  intros Hv. unfold ParseATIName.
  set (u := ati_uri v host).
  assert (Hd : str_drop 6 u = Version_String v ++ "." ++ host) by reflexivity.
  assert (Hp : HasPrefix u "ati://" = true) by reflexivity.
  assert (Hne : String.eqb u "" = false) by reflexivity.
  rewrite Hne, Hp, Hd. simpl negb. cbn iota.
  assert (Hs : SplitN (Version_String v ++ "." ++ host) "." 4
               = ["v" ++ fmt_d (Major v); fmt_d (Minor v); fmt_d (Patch v); host]).
  { unfold SplitN, Version_String. change (4 - 1)%nat with 3%nat.
    replace (("v" ++ fmt_d (Major v) ++ "." ++ fmt_d (Minor v) ++ "." ++ fmt_d (Patch v)) ++ "." ++ host)
      with (("v" ++ fmt_d (Major v)) ++ String "." (fmt_d (Minor v)
             ++ String "." (fmt_d (Patch v) ++ String "." host)))
      by (rewrite !str_app_assoc; reflexivity).
    rewrite SplitN_cuts_app by apply v_fmt_no_dot.
    rewrite !SplitN_cuts_app by apply no_dot_fmt.
    rewrite SplitN_cuts_0. reflexivity. }
  rewrite Hs. change (HasPrefix (Version_String v ++ "." ++ host) "v") with true. cbn iota.
  assert (Hv' : ("v" ++ fmt_d (Major v)) ++ "." ++ fmt_d (Minor v) ++ "." ++ fmt_d (Patch v)
                = Version_String v) by reflexivity.
  rewrite Hv', ParseVersion_String by exact Hv. reflexivity.
Qed.

End Names.

(** ** Certificate identities *)

Record CertIdentity := MkCertIdentity {
  CommonName : option string;
  DNSSANs : list string;
  URISANs : list string;
  Fingerprint : CertFingerprint;
  SPKIFingerprint : CertFingerprint
}.

Definition zero_fp : CertFingerprint := MkFp (repeat x00 32).

Definition NewCertIdentity (cn : option string) (dns uris : list string) (fp : CertFingerprint)
  : CertIdentity := MkCertIdentity cn dns uris fp zero_fp.

Definition CertIdentityFromX509 (cert : Certificate) : CertIdentity :=
  let cn := if negb (String.eqb (SubjectCommonName cert) "")
            then Some (SubjectCommonName cert) else None in
  MkCertIdentity cn (DNSNames cert) (URIs cert)
    (CertFingerprintFromDER (Raw cert))
    (MkFp (sha256 (RawSubjectPublicKeyInfo cert))).

Definition CertIdentityFromFingerprintAndCN (fp : CertFingerprint) (cn : string) : CertIdentity :=
  MkCertIdentity (Some cn) [cn] [] fp zero_fp.

Definition CertIdentity_FQDN (c : CertIdentity) : option string :=
  match DNSSANs c with
  | d :: _ => Some d
  | [] => CommonName c
  end.

Section Identity.
Context `{UnicodeTables}.

Definition matchesDNSName (pattern host : string) : bool :=
  let pattern := ToLower (TrimSuffix pattern ".") in
  let host := ToLower (TrimSuffix host ".") in
  if String.eqb pattern "" || String.eqb host "" then false
  else if negb (HasPrefix pattern "*.") then String.eqb pattern host
  else
    let suffix := str_drop 1 pattern in
    if negb (HasSuffix host suffix) then false
    else
      let label := str_take (String.length host - String.length suffix) host in
      negb (String.eqb label "") && negb (Contains label ".").

Definition CoversHost (c : CertIdentity) (host : string) : bool :=
  existsb (fun san => matchesDNSName san host) (DNSSANs c).

(** The loop body shared by the three name searches: a URI SAN that starts
    with ati:// and parses. *)
Definition ati_of_uri (uri : string) : option ATIName :=
  if HasPrefix uri "ati://" then
    match ParseATIName uri with Ok name => Some name | Err _ => None end
  else None.

Fixpoint first_ati (uris : list string) : option ATIName :=
  match uris with
  | [] => None
  | u :: rest => match ati_of_uri u with Some n => Some n | None => first_ati rest end
  end.

Definition CertIdentity_ATIName (c : CertIdentity) : option ATIName := first_ati (URISANs c).

Definition CertIdentity_ATINames (c : CertIdentity) : list ATIName :=
  filter_map ati_of_uri (URISANs c).

Fixpoint ati_for_host (host : string) (first : option ATIName) (uris : list string)
  : option ATIName :=
  match uris with
  | [] => first
  | u :: rest =>
      match ati_of_uri u with
      | Some name =>
          let first := match first with None => Some name | Some _ => first end in
          if String.eqb (an_Host name) host then Some name else ati_for_host host first rest
      | None => ati_for_host host first rest
      end
  end.

Definition ATINameForHost (c : CertIdentity) (host : string) : option ATIName :=
  ati_for_host (ToLower host) None (URISANs c).

Definition CertIdentity_Version (c : CertIdentity) : option Version :=
  option_map an_Version (CertIdentity_ATIName c).

(** The RFC 6125 section 6.4.3 reading of a SAN pattern: either the same name,
    or a wildcard that stands for exactly one non-empty label. *)
Definition dns_covers (pattern host : string) : Prop :=
  pattern <> "" /\ host <> "" /\
  ((HasPrefix pattern "*." = false /\ pattern = host) \/
   exists suffix label, pattern = "*" ++ suffix /\ HasPrefix suffix "." = true /\
     host = label ++ suffix /\ label <> "" /\ contains_char "." label = false).

Definition dns_normal (s : string) : string := ToLower (TrimSuffix s ".").

Lemma wildcard_split (p : string) :
  HasPrefix p "*." = true ->
  exists suf, p = "*" ++ suf /\ HasPrefix suf "." = true /\ str_drop 1 p = suf.
Proof.
  intros E. apply HasPrefix_spec in E as [t ->]. exists ("." ++ t).
  repeat split.
Qed.

Lemma matchesDNSName_covers (pattern host : string) :
  matchesDNSName pattern host = true <-> dns_covers (dns_normal pattern) (dns_normal host).
Proof.
  unfold matchesDNSName, dns_covers, dns_normal.
  set (p := ToLower (TrimSuffix pattern ".")). set (h := ToLower (TrimSuffix host ".")).
  clearbody p h. destruct (String.eqb p "") eqn:Ep, (String.eqb h "") eqn:Eh; bool_hyps; cbn [orb];
    try (split; [discriminate | tauto]).
  destruct (HasPrefix p "*.") eqn:Epre; cbn [negb].
  - destruct (wildcard_split p Epre) as (suf & Hp & Hsuf & Hdrop).
    cbv zeta. rewrite Hdrop.
    destruct (HasSuffix h suf) eqn:Es; cbn [negb].
    + apply HasSuffix_spec in Es as [lab ->]. rewrite str_length_app.
      replace (String.length lab + String.length suf - String.length suf)%nat
        with (String.length lab) by lia.
      rewrite str_take_app, Contains_char, andb_true_iff, !negb_true_iff, String.eqb_neq.
      split.
      * intros [H1 H2]. repeat split; auto. right. exists suf, lab. auto.
      * intros (_ & _ & [[Hbad _]|(suf' & lab' & Hp' & _ & Hh & Hn & Hc)]); [congruence|].
        assert (suf' = suf) as -> by (rewrite Hp in Hp'; injection Hp'; auto).
        assert (lab = lab') as ->; [|auto].
        apply (f_equal (fun s => TrimSuffix s suf)) in Hh. rewrite !TrimSuffix_app in Hh. exact Hh.
    + split; [discriminate|]. intros (_ & _ & [[Hbad _]|(suf' & lab' & Hp' & _ & Hh & _)]);
        [congruence|]. assert (suf' = suf) as -> by (rewrite Hp in Hp'; injection Hp'; auto).
      assert (HasSuffix h suf = true) by (apply HasSuffix_spec; eauto). congruence.
  - rewrite String.eqb_eq. split; [auto|].
    intros (_ & _ & [[_ E]|(suf & lab & -> & Hs & _)]); [exact E|].
    apply HasPrefix_spec in Hs as [t ->]. discriminate Epre.
Qed.

Lemma CoversHost_spec (c : CertIdentity) (host : string) :
  CoversHost c host = true <->
  exists san, In san (DNSSANs c) /\ dns_covers (dns_normal san) (dns_normal host).
Proof.
  unfold CoversHost. rewrite existsb_exists.
  split; intros (s & Hin & E); exists s; (split; [exact Hin | apply matchesDNSName_covers; exact E]).
Qed.

Lemma first_ati_hd (uris : list string) : first_ati uris = head (filter_map ati_of_uri uris).
Proof.
  induction uris as [|u rest IH]; simpl; [reflexivity|].
  destruct (ati_of_uri u); [reflexivity | exact IH].
Qed.

Lemma ati_for_host_spec (host : string) (first : option ATIName) (uris : list string) :
  ati_for_host host first uris =
  match List.find (fun n => String.eqb (an_Host n) host) (filter_map ati_of_uri uris) with
  | Some n => Some n
  | None => match first with Some n => Some n | None => first_ati uris end
  end.
Proof.
  revert first. induction uris as [|u rest IH]; intros first; simpl; [destruct first; reflexivity|].
  destruct (ati_of_uri u) as [n|]; simpl; [|exact (IH first)].
  destruct (String.eqb (an_Host n) host); [reflexivity|].
  rewrite IH. destruct (List.find _ _); [reflexivity|]. destruct first; reflexivity.
Qed.

End Identity.

(** ** Validity period *)

Record CertValidityCheck := MkCertValidityCheck {
  Valid : bool;
  RemainingPercent : float64;
  ExpiresAt : Z;
  Warning : string
}.

(** 0.2 as the nearest binary64 value, 7205759403792794 * 2^-55. *)
Definition f64_one_fifth : float64 := SpecFloat.S754_finite false 7205759403792794 (-55).

Definition CheckCertValidity (cert : Certificate) (now : Z) : CertValidityCheck :=
  if (now <? NotBefore cert) || (NotAfter cert <? now) then
    MkCertValidityCheck false f64_zero (NotAfter cert)
      (if NotAfter cert <? now then "certificate has expired" else "certificate is not yet valid")
  else
    let total := Duration_Seconds (clamp_i64 (NotAfter cert - NotBefore cert)) in
    let remaining := Duration_Seconds (clamp_i64 (NotAfter cert - now)) in
    let percent := if f64_ltb f64_zero total then f64_div remaining total else f64_zero in
    MkCertValidityCheck true percent (NotAfter cert)
      (if f64_ltb percent f64_one_fifth
       then "certificate expires in %d days (%.0f%% lifetime remaining)" else "").

Lemma CheckCertValidity_valid (cert : Certificate) (now : Z) :
  Valid (CheckCertValidity cert now) = true <-> NotBefore cert <= now <= NotAfter cert.
Proof.
  unfold CheckCertValidity. destruct (_ || _) eqn:E; simpl.
  - split; [discriminate|]. apply orb_true_iff in E. destruct E; bool_hyps; lia.
  - bool_hyps. split; [lia | reflexivity].
Qed.
