(* ===== verification/Merkle.v ===== *)
(** RFC 9162 inclusion proofs: [verify/scitt/merkle.go] (the SCITT walk from
    the event bytes) and [verify/merkle.go] (the badge walk from the leaf hash
    of a TL response). The reference definitions of the RFC, [MTH] and [PATH],
    are stated here and the two walks are compared with them. *)

From S2P Require Import Prelude GoStrings Encoding Sha256 Errors Models.

#[local] Open Scope string_scope.
#[local] Open Scope list_scope.
#[local] Open Scope Z_scope.

Notation hash := (list byte).

Definition hash_wf (h : hash) : Prop := length h = 32%nat.

(** ** [verify/scitt/merkle.go] *)

Definition MaxHashPathLen : Z := 63.

Definition leaf_input (data : list byte) : list byte := x00 :: data.
Definition node_input (left right : hash) : list byte := x01 :: left ++ right.

Definition ComputeLeafHash (data : list byte) : hash := sha256 (leaf_input data).
Definition ComputeNodeHash (left right : hash) : hash := sha256 (node_input left right).

(** [for fn&1 == 0 && fn != 0 { fn >>= 1; sn >>= 1 }]; 64 rounds clear every
    trailing zero of a [uint64]. *)
Fixpoint strip_zeros (fuel : nat) (fn sn : Z) : Z * Z :=
  match fuel with
  | O => (fn, sn)
  | S fuel =>
      if (Z.land fn 1 =? 0) && negb (fn =? 0)
      then strip_zeros fuel (Z.shiftr fn 1) (Z.shiftr sn 1)
      else (fn, sn)
  end.

Definition invalid_proof : goerror := EMerkle MerkleErrInvalidProof.

(** The loop over [hashPath], from the state [(r, fn, sn)]. *)
Fixpoint walk_path (r : hash) (fn sn : Z) (hashPath : list hash) : result goerror hash :=
  match hashPath with
  | [] => guard! (sn =? 0) orelse invalid_proof in Ok r
  | p :: rest =>
      if sn =? 0 then Err invalid_proof
      else if (Z.land fn 1 =? 1) || (fn =? sn) then
        let '(fn, sn) := strip_zeros 64 fn sn in
        walk_path (ComputeNodeHash p r) (Z.shiftr fn 1) (Z.shiftr sn 1) rest
      else walk_path (ComputeNodeHash r p) (Z.shiftr fn 1) (Z.shiftr sn 1) rest
  end.

Definition WalkInclusionPath (eventBytes : list byte) (leafIndex treeSize : Z)
    (hashPath : list hash) : result goerror hash :=
  if treeSize =? 0 then Err invalid_proof
  else if treeSize <=? leafIndex then Err invalid_proof
  else if MaxHashPathLen <? Z.of_nat (length hashPath) then Err invalid_proof
  else walk_path (ComputeLeafHash eventBytes) leafIndex (treeSize - 1) hashPath.

Definition VerifyMerkleInclusion (eventBytes : list byte) (leafIndex treeSize : Z)
    (hashPath : list hash) (expectedRoot : hash) : result goerror unit :=
  let? computedRoot := WalkInclusionPath eventBytes leafIndex treeSize hashPath in
  guard! ConstantTimeCompare computedRoot expectedRoot
    orelse EMerkle MerkleErrRootMismatch in
  Ok tt.

(** ** [verify/merkle.go] *)

Definition incl_err (msg : string) : goerror :=
  NewANSError CodeTLInclusionProofFailed SeverityHard StageTLVerify msg.

Definition hex_error : goerror := EPlain "encoding/hex".

Definition hex_err (msg : string) : goerror :=
  NewANSErrorWithCause CodeTLInclusionProofFailed SeverityHard StageTLVerify msg hex_error.

(** [merkleNodeHash] *)
Definition merkleNodeHash (left right : list byte) : list byte := sha256 (x01 :: left ++ right).

(** Decoding one hash: the two checks made for rootHash, leafHash and each
    path element. *)
Definition decode_hash (what s : string) : result goerror hash :=
  match hex_DecodeString s with
  | None => Err (hex_err ("invalid " ++ what ++ " hex")%string)
  | Some h =>
      guard! (Z.of_nat (length h) =? 32)
        orelse incl_err (what ++ " must be %d bytes, got %d")%string in Ok h
  end.

Fixpoint decode_path (path : list string) : result goerror (list hash) :=
  match path with
  | [] => Ok []
  | p :: rest =>
      let? h := decode_hash "path[%d]" p in
      let? hs := decode_path rest in
      Ok (h :: hs)
  end.

(** [for fn%2 == 0 && fn != 0 { ... }] *)
Fixpoint strip_even (fuel : nat) (fn sn : Z) : Z * Z :=
  match fuel with
  | O => (fn, sn)
  | S fuel =>
      if (fn mod 2 =? 0) && negb (fn =? 0)
      then strip_even fuel (Z.shiftr fn 1) (Z.shiftr sn 1)
      else (fn, sn)
  end.

Fixpoint audit_walk (computed : list byte) (fn sn : Z) (path : list hash)
  : result goerror (list byte) :=
  match path with
  | [] => guard! (sn =? 0) orelse incl_err "insufficient audit path elements" in Ok computed
  | sibling :: rest =>
      if sn =? 0 then Err (incl_err "excess audit path elements")
      else if (fn mod 2 =? 1) || (fn =? sn) then
        let '(fn, sn) := strip_even 64 fn sn in
        audit_walk (merkleNodeHash sibling computed) (Z.shiftr fn 1) (Z.shiftr sn 1) rest
      else audit_walk (merkleNodeHash computed sibling) (Z.shiftr fn 1) (Z.shiftr sn 1) rest
  end.

(** [VerifyInclusionProof(resp)]; a nil response is [None]. [LeafIndex] and
    [TreeSize] are Go [int]s. *)
Definition VerifyInclusionProof (resp : option TLResponse) : result goerror unit :=
  match resp with
  | None => Err (EPlain "merkle: nil TL response")
  | Some resp =>
      let proof := tr_MerkleProof resp in
      if String.eqb (RootHash proof) "" then Err (incl_err "rootHash is empty")
      else if TreeSize proof <=? 0 then Err (incl_err "treeSize must be positive")
      else if (LeafIndex proof <? 0) || (TreeSize proof <=? LeafIndex proof)
      then Err (incl_err "leafIndex %d out of range [0, %d)")
      else if String.eqb (LeafHash proof) "" then Err (incl_err "leafHash is empty")
      else
        let? rootHash := decode_hash "rootHash" (RootHash proof) in
        let? leafHash := decode_hash "leafHash" (LeafHash proof) in
        let? pathHashes := decode_path (Path proof) in
        let? computed := audit_walk leafHash (wrap_u64 (LeafIndex proof))
                           (wrap_u64 (TreeSize proof - 1)) pathHashes in
        guard! ConstantTimeCompare computed rootHash
          orelse incl_err "computed root does not match rootHash" in
        Ok tt
  end.

(** ** The reference: RFC 9162 section 2.1

    [MTH D] is the Merkle tree hash of the leaf inputs [D], [PATH m D] the
    inclusion proof of leaf [m]; both split at the largest power of two
    strictly smaller than the number of leaves. *)

Definition split_point (n : nat) : nat := (2 ^ Nat.log2 (n - 1))%nat.

Fixpoint mth (fuel : nat) (D : list (list byte)) : hash :=
  match fuel, D with
  | _, [] => sha256 []
  | _, [d] => ComputeLeafHash d
  | O, _ => sha256 []
  | S fuel, _ =>
      let k := split_point (length D) in
      ComputeNodeHash (mth fuel (take k D)) (mth fuel (drop k D))
  end.

Fixpoint path (fuel : nat) (m : nat) (D : list (list byte)) : list hash :=
  match fuel, D with
  | _, [] | _, [_] | O, _ => []
  | S fuel, _ =>
      let k := split_point (length D) in
      if (m <? k)%nat then path fuel m (take k D) ++ [mth fuel (drop k D)]
      else path fuel (m - k) (drop k D) ++ [mth fuel (take k D)]
  end.

Definition MTH (D : list (list byte)) : hash := mth (length D) D.
Definition PATH (m : nat) (D : list (list byte)) : list hash := path (length D) m D.

(** ** Arithmetic of the walk *)

Lemma shiftr1 (z : Z) : Z.shiftr z 1 = z / 2.
Proof. apply (Z.shiftr_div_pow2 z 1). lia. Qed.

Lemma land1 (z : Z) : Z.land z 1 = z mod 2.
Proof. apply (Z.land_ones z 1). lia. Qed.

Lemma pow2_S (j : nat) : 2 ^ Z.of_nat (S j) = 2 * 2 ^ Z.of_nat j.
Proof. rewrite Nat2Z.inj_succ, Z.pow_succ_r by lia. reflexivity. Qed.

Lemma pow2_pos (j : nat) : 1 <= 2 ^ Z.of_nat j.
Proof. pose proof (Z.pow_pos_nonneg 2 (Z.of_nat j)). lia. Qed.

Lemma div_pow2_S (z : Z) (j : nat) : z / 2 ^ Z.of_nat (S j) = z / 2 ^ Z.of_nat j / 2.
Proof.
  rewrite Z.div_div by (pose proof (pow2_pos j); lia).
  f_equal. rewrite pow2_S. lia.
Qed.

Lemma split_point_spec (n : nat) :
  (2 <= n)%nat ->
  exists j : nat, split_point n = (2 ^ j)%nat /\
    2 ^ Z.of_nat j < Z.of_nat n <= 2 * 2 ^ Z.of_nat j.
Proof.
  intros H. exists (Nat.log2 (n - 1)). split; [reflexivity|].
  destruct (Nat.log2_spec (n - 1)) as [H1 H2]; [lia|].
  rewrite Nat.pow_succ_r' in H2.
  apply Nat2Z.inj_le in H1. apply Nat2Z.inj_lt in H2.
  rewrite Nat2Z.inj_mul in H2. rewrite !Nat2Z.inj_pow in *. simpl Z.of_nat in *. lia.
Qed.

Lemma pow2_nat_Z (j : nat) : Z.of_nat (2 ^ j) = 2 ^ Z.of_nat j.
Proof. rewrite Nat2Z.inj_pow. reflexivity. Qed.

(** An odd number times a power of two is stripped to the odd number. *)
Lemma strip_zeros_pow (fuel e : nat) (c : Z) :
  0 < c -> c mod 2 = 1 -> (e < fuel)%nat ->
  strip_zeros fuel (c * 2 ^ Z.of_nat e) (c * 2 ^ Z.of_nat e) = (c, c).
Proof.
  intros Hc Hodd. revert e. induction fuel as [|fuel IH]; intros e He; [lia|].
  simpl. rewrite land1. destruct e as [|e].
  - simpl (2 ^ Z.of_nat 0). rewrite Z.mul_1_r, Hodd. reflexivity.
  - rewrite pow2_S.
    replace (c * (2 * 2 ^ Z.of_nat e)) with (c * 2 ^ Z.of_nat e * 2) by ring.
    rewrite Z.mod_mul, !shiftr1, Z.div_mul by lia. simpl (0 =? 0).
    destruct (c * 2 ^ Z.of_nat e * 2 =? 0) eqn:E.
    + pose proof (pow2_pos e). bool_hyps. nia.
    + apply IH. lia.
Qed.

Lemma strip_zeros_odd (fuel : nat) (fn sn : Z) :
  fn mod 2 = 1 -> strip_zeros fuel fn sn = (fn, sn).
Proof. intros H. destruct fuel; simpl; [reflexivity|]. rewrite land1, H. reflexivity. Qed.

(** ** One step of the walk *)

Lemma walk_right (r p : hash) (rest : list hash) (c sn : Z) :
  0 <= c -> 2 * c < sn ->
  walk_path r (2 * c) sn (p :: rest) = walk_path (ComputeNodeHash r p) c (sn / 2) rest.
Proof.
  intros Hc Hlt. cbn [walk_path]. rewrite land1, !shiftr1.
  replace (2 * c) with (c * 2) by ring. rewrite Z.mod_mul, Z.div_mul by lia.
  destruct (sn =? 0) eqn:E1, (c * 2 =? sn) eqn:E2; bool_hyps; try lia.
  replace (0 =? 1) with false by reflexivity. reflexivity.
Qed.

Lemma walk_left_odd (r p : hash) (rest : list hash) (c sn : Z) :
  0 <= c -> 0 < sn ->
  walk_path r (2 * c + 1) sn (p :: rest) = walk_path (ComputeNodeHash p r) c (sn / 2) rest.
Proof.
  intros Hc Hsn.
  assert (Hm : (2 * c + 1) mod 2 = 1) by (rewrite Z.add_comm, Z.mul_comm, Z.mod_add; [reflexivity|lia]).
  cbn [walk_path]. rewrite land1, Hm, (strip_zeros_odd _ _ _ Hm), !shiftr1.
  destruct (sn =? 0) eqn:E1; bool_hyps; [lia|].
  replace ((2 * c + 1) / 2) with c; [reflexivity|].
  apply (Z.div_unique _ 2 c 1); lia.
Qed.

Lemma walk_left_last (r p : hash) (rest : list hash) (c : Z) (e : nat) :
  0 <= c -> (e < 64)%nat ->
  walk_path r ((2 * c + 1) * 2 ^ Z.of_nat e) ((2 * c + 1) * 2 ^ Z.of_nat e) (p :: rest)
  = walk_path (ComputeNodeHash p r) c c rest.
Proof.
  intros Hc He. pose proof (pow2_pos e).
  assert (Hm : (2 * c + 1) mod 2 = 1) by (rewrite Z.add_comm, Z.mul_comm, Z.mod_add; [reflexivity|lia]).
  cbn [walk_path]. rewrite strip_zeros_pow by (auto; lia).
  rewrite Z.eqb_refl, orb_true_r, !shiftr1.
  destruct (_ =? 0) eqn:E1; bool_hyps; [nia|].
  replace ((2 * c + 1) / 2) with c; [reflexivity|].
  apply (Z.div_unique _ 2 c 1); lia.
Qed.

(** ** Completeness: walking [PATH m D] computes [MTH D] *)

Lemma mth_split (fuel : nat) (D : list (list byte)) :
  (2 <= length D)%nat ->
  mth (S fuel) D =
  ComputeNodeHash (mth fuel (take (split_point (length D)) D))
                  (mth fuel (drop (split_point (length D)) D)).
Proof. destruct D as [|x [|y D]]; simpl length; try lia. reflexivity. Qed.

Lemma path_split (fuel m : nat) (D : list (list byte)) :
  (2 <= length D)%nat ->
  path (S fuel) m D =
  (if (m <? split_point (length D))%nat
   then path fuel m (take (split_point (length D)) D) ++ [mth fuel (drop (split_point (length D)) D)]
   else path fuel (m - split_point (length D)) (drop (split_point (length D)) D)
          ++ [mth fuel (take (split_point (length D)) D)]).
Proof. destruct D as [|x [|y D]]; simpl length; try lia. reflexivity. Qed.

(** A complete subtree that is not the last one of its level. *)
Lemma walk_complete (fuel j : nat) (D : list (list byte)) (m : nat) (d : list byte)
    (c sn : Z) (rest : list hash) :
  length D = (2 ^ j)%nat -> (length D <= fuel)%nat -> D !! m = Some d ->
  0 <= c < sn / 2 ^ Z.of_nat j ->
  walk_path (ComputeLeafHash d) (c * 2 ^ Z.of_nat j + Z.of_nat m) sn (path fuel m D ++ rest)
  = walk_path (mth fuel D) c (sn / 2 ^ Z.of_nat j) rest.
Proof.
  revert fuel D m d c sn rest.
  induction j as [|j IH]; intros fuel D m d c sn rest HD Hf Hd Hc.
  - destruct D as [|x [|y D]]; try discriminate HD.
    destruct m; [|discriminate Hd]. injection Hd as ->.
    change (2 ^ Z.of_nat 0) with 1 in *. rewrite Z.div_1_r in *.
    replace (c * 1 + Z.of_nat 0) with c by lia.
    destruct fuel; reflexivity.
  - pose proof (pow2_nat_Z j). pose proof (pow2_pos j). pose proof (pow2_S j).
    assert (HD2 : length D = (2 ^ j + 2 ^ j)%nat) by (rewrite HD; simpl; lia).
    assert (Hpos : (1 <= 2 ^ j)%nat) by (pose proof (Nat.pow_nonzero 2 j); lia).
    destruct (split_point_spec (length D)) as (i & Hi & Hi1); [lia|].
    assert (Hk : split_point (length D) = (2 ^ j)%nat).
    { rewrite Hi. f_equal. apply Nat2Z.inj.
      assert (2 ^ Z.of_nat i < 2 ^ Z.of_nat (S j)) by (rewrite pow2_S; lia).
      assert (2 ^ Z.of_nat j < 2 ^ Z.of_nat (S i)) by (rewrite pow2_S; lia).
      apply Z.pow_lt_mono_r_iff in H2, H3; lia. }
    destruct fuel as [|fuel]; [lia|].
    rewrite mth_split, path_split, Hk by lia. rewrite div_pow2_S in *.
    set (s := sn / 2 ^ Z.of_nat j) in *.
    assert (Hs : 2 * c + 1 < s) by (pose proof (Z.mul_div_le s 2); lia).
    pose proof (lookup_lt_Some _ _ _ Hd).
    destruct (m <? 2 ^ j)%nat eqn:Em; bool_hyps; rewrite <- app_assoc; simpl app.
    + rewrite pow2_S.
      replace (c * (2 * 2 ^ Z.of_nat j) + Z.of_nat m)
        with (2 * c * 2 ^ Z.of_nat j + Z.of_nat m) by ring.
      rewrite (IH fuel _ m d (2 * c) sn); fold s;
        [apply walk_right; lia | rewrite length_take; lia | rewrite length_take; lia
        | rewrite lookup_take_lt by lia; exact Hd | lia].
    + rewrite pow2_S.
      replace (c * (2 * 2 ^ Z.of_nat j) + Z.of_nat m)
        with ((2 * c + 1) * 2 ^ Z.of_nat j + Z.of_nat (m - 2 ^ j)) by lia.
      rewrite (IH fuel _ (m - 2 ^ j)%nat d (2 * c + 1) sn); fold s;
        [apply walk_left_odd; lia | rewrite length_drop; lia | rewrite length_drop; lia
        | rewrite lookup_drop; rewrite <- Hd; f_equal; lia | lia].
Qed.

(** The last subtree of its level: [D] has at most [2^J] leaves. *)
Lemma walk_last (fuel J : nat) (D : list (list byte)) (m : nat) (d : list byte)
    (c : Z) (rest : list hash) :
  Z.of_nat (length D) <= 2 ^ Z.of_nat J -> (length D <= fuel)%nat -> (J <= 64)%nat ->
  D !! m = Some d -> 0 <= c ->
  exists e : nat, (e <= J)%nat /\
    walk_path (ComputeLeafHash d) (c * 2 ^ Z.of_nat J + Z.of_nat m)
    (c * 2 ^ Z.of_nat J + Z.of_nat (length D) - 1) (path fuel m D ++ rest)
  = walk_path (mth fuel D) (c * 2 ^ Z.of_nat e) (c * 2 ^ Z.of_nat e) rest.
Proof.
  revert J D m d c rest.
  induction fuel as [|fuel IH]; intros J D m d c rest HD Hf HJ Hd Hc;
    pose proof (lookup_lt_Some _ _ _ Hd) as Hm; [lia|].
  destruct (decide (length D = 1%nat)) as [H1|H1].
  { destruct D as [|x [|y D]]; try discriminate H1. destruct m; [|discriminate Hd].
    injection Hd as ->. exists J. split; [lia|].
    cbn [path mth app length]. f_equal; lia. }
  destruct (split_point_spec (length D)) as (j & Hk & Hj); [lia|].
  pose proof (pow2_nat_Z j). pose proof (pow2_pos j).
  assert (HjJ : (j < J)%nat).
  { assert (2 ^ Z.of_nat j < 2 ^ Z.of_nat J) by lia.
    apply Z.pow_lt_mono_r_iff in H2; lia. }
  set (q := (J - S j)%nat).
  assert (HqJ : 2 ^ Z.of_nat J = 2 * 2 ^ Z.of_nat q * 2 ^ Z.of_nat j).
  { replace J with (S q + j)%nat by lia.
    rewrite Nat2Z.inj_add, Z.pow_add_r, pow2_S by lia. reflexivity. }
  pose proof (pow2_pos q). set (c' := c * 2 ^ Z.of_nat q).
  assert (HcJ : c * 2 ^ Z.of_nat J = 2 * c' * 2 ^ Z.of_nat j) by (rewrite HqJ; unfold c'; ring).
  rewrite HcJ. exists q. split; [lia|]. fold c'.
  assert (Hc' : 0 <= c') by (unfold c'; lia). clearbody c'.
  rewrite mth_split, path_split, Hk by lia.
  destruct (m <? 2 ^ j)%nat eqn:Em; bool_hyps; rewrite <- app_assoc; simpl app.
  - set (sn := _ - 1).
    assert (Hsn : sn / 2 ^ Z.of_nat j = 2 * c' + 1).
    { symmetry. apply (Z.div_unique _ _ _ (Z.of_nat (length D) - 1 - 2 ^ Z.of_nat j)); lia. }
    rewrite (walk_complete fuel j _ m d (2 * c') sn);
      [ rewrite Hsn, walk_right by lia | rewrite length_take; lia | rewrite length_take; lia
      | rewrite lookup_take_lt by lia; exact Hd | lia ].
    replace ((2 * c' + 1) / 2) with c'; [reflexivity|]. apply (Z.div_unique _ 2 c' 1); lia.
  - destruct (IH j (drop (2 ^ j) D) (m - 2 ^ j)%nat d (2 * c' + 1)
                (mth fuel (take (2 ^ j) D) :: rest)) as (e & He & IHe);
      try (rewrite length_drop; lia); try lia.
    { rewrite lookup_drop. rewrite <- Hd. f_equal. lia. }
    rewrite walk_left_last in IHe by lia. rewrite <- IHe. f_equal; [lia|].
    rewrite length_drop. lia.
Qed.

Lemma path_length (fuel J m : nat) (D : list (list byte)) :
  Z.of_nat (length D) <= 2 ^ Z.of_nat J -> (length (path fuel m D) <= J)%nat.
Proof.
  revert J m D. induction fuel as [|fuel IH]; intros J m D HD.
  { destruct D as [|x [|y D]]; simpl; lia. }
  destruct (decide (2 <= length D)%nat) as [H2|H2];
    [|destruct D as [|x [|y D]]; simpl in *; lia].
  destruct (split_point_spec (length D)) as (j & Hk & Hj); [lia|].
  pose proof (pow2_nat_Z j).
  assert (HjJ : (j < J)%nat).
  { assert (2 ^ Z.of_nat j < 2 ^ Z.of_nat J) by lia. apply Z.pow_lt_mono_r_iff in H0; lia. }
  rewrite path_split, Hk by lia.
  destruct (m <? 2 ^ j)%nat; rewrite length_app; simpl.
  - assert (length (path fuel m (take (2 ^ j) D)) <= j)%nat; [|lia].
    apply IH. rewrite length_take. lia.
  - assert (length (path fuel (m - 2 ^ j) (drop (2 ^ j) D)) <= j)%nat; [|lia].
    apply IH. rewrite length_drop. lia.
Qed.

Lemma walk_PATH (D : list (list byte)) (m : nat) (d : list byte) :
  D !! m = Some d -> Z.of_nat (length D) <= 2 ^ 64 ->
  walk_path (ComputeLeafHash d) (Z.of_nat m) (Z.of_nat (length D) - 1) (PATH m D) = Ok (MTH D).
Proof.
  intros Hd Hn. unfold PATH, MTH.
  destruct (walk_last (length D) 64 D m d 0 []) as (e & _ & E); try assumption; try lia.
  rewrite app_nil_r, !Z.mul_0_l, !Z.add_0_l in E. rewrite E. reflexivity.
Qed.

Lemma mth_wf (fuel : nat) (D : list (list byte)) : hash_wf (mth fuel D).
Proof. destruct fuel, D as [|x [|y D]]; apply sha256_length. Qed.

Lemma path_wf (fuel m : nat) (D : list (list byte)) : Forall hash_wf (path fuel m D).
Proof.
  revert m D. induction fuel as [|fuel IH]; intros m D; destruct D as [|x [|y D]]; simpl; auto.
  case_match; apply Forall_app; auto using mth_wf.
Qed.

(** ** Injectivity: one root, one proof *)

(** The strings hashed by the loop. *)
Fixpoint walk_inputs (r : hash) (fn sn : Z) (hashPath : list hash) : list (list byte) :=
  match hashPath with
  | [] => []
  | p :: rest =>
      if (Z.land fn 1 =? 1) || (fn =? sn) then
        let '(fn, sn) := strip_zeros 64 fn sn in
        node_input p r :: walk_inputs (ComputeNodeHash p r) (Z.shiftr fn 1) (Z.shiftr sn 1) rest
      else
        node_input r p :: walk_inputs (ComputeNodeHash r p) (Z.shiftr fn 1) (Z.shiftr sn 1) rest
  end.

(** Every string hashed while verifying [hashPath] for the event [e]. *)
Definition inclusion_inputs (e : list byte) (m n : Z) (hashPath : list hash) : list (list byte) :=
  leaf_input e :: walk_inputs (ComputeLeafHash e) m (n - 1) hashPath.

(** SHA-256 does not collide between the two (finite) sets of strings. *)
Definition no_collision (xs ys : list (list byte)) : Prop :=
  forall x y, In x xs -> In y ys -> sha256 x = sha256 y -> x = y.

Lemma ComputeNodeHash_wf (l r : hash) : hash_wf (ComputeNodeHash l r).
Proof. apply sha256_length. Qed.

Lemma node_input_inj (l r l' r' : hash) :
  hash_wf l -> hash_wf l' -> node_input l r = node_input l' r' -> l = l' /\ r = r'.
Proof.
  unfold hash_wf, node_input. intros H1 H2 [= E]. apply app_inj_1 in E; [exact E | congruence].
Qed.

Lemma walk_path_inj (p p' : list hash) (r r' root : hash) (fn sn : Z) :
  walk_path r fn sn p = Ok root -> walk_path r' fn sn p' = Ok root ->
  hash_wf r -> hash_wf r' -> Forall hash_wf p -> Forall hash_wf p' ->
  no_collision (walk_inputs r fn sn p) (walk_inputs r' fn sn p') ->
  r = r' /\ p = p'.
Proof.
  revert p' r r' fn sn.
  induction p as [|x p IH]; intros [|x' p'] r r' fn sn; cbn [walk_path walk_inputs].
  - destruct (sn =? 0); intros [= ->] [= ->]; auto.
  - destruct (sn =? 0); [intros _ [=] | intros [=]].
  - destruct (sn =? 0); [intros [=] | intros _ [=]].
  - destruct (sn =? 0); [intros [=]|].
    destruct (_ || _); [destruct (strip_zeros 64 fn sn) as [fn' sn']|];
      intros H1 H2 Hr Hr' Hp Hp' Hc; inversion_clear Hp; inversion_clear Hp';
      destruct (IH p' _ _ _ _ H1 H2) as [E ->]; auto using ComputeNodeHash_wf;
      try (intros a b Ha Hb; apply Hc; right; assumption);
      apply Hc in E; try (left; reflexivity);
      apply node_input_inj in E as [-> ->]; auto.
Qed.

Lemma walk_path_length (p p' : list hash) (r r' root root' : hash) (fn sn : Z) :
  walk_path r fn sn p = Ok root -> walk_path r' fn sn p' = Ok root' -> length p = length p'.
Proof.
  revert p' r r' fn sn.
  induction p as [|x p IH]; intros [|x' p'] r r' fn sn; cbn [walk_path];
    destruct (sn =? 0); try discriminate; try reflexivity.
  destruct (_ || _); [destruct (strip_zeros 64 fn sn)|];
    intros H1 H2; simpl; f_equal; exact (IH _ _ _ _ _ H1 H2).
Qed.

Lemma Walk_ok (e : list byte) (m n : Z) (p : list hash) (root : hash) :
  WalkInclusionPath e m n p = Ok root <->
  n <> 0 /\ m < n /\ Z.of_nat (length p) <= 63 /\
  walk_path (ComputeLeafHash e) m (n - 1) p = Ok root.
Proof.
  unfold WalkInclusionPath, MaxHashPathLen.
  destruct (n =? 0) eqn:E1; [bool_hyps; split; [discriminate | lia]|].
  destruct (n <=? m) eqn:E2; [bool_hyps; split; [discriminate | lia]|].
  destruct (63 <? _) eqn:E3; bool_hyps; [split; [discriminate | lia]|]. tauto.
Qed.

Lemma VerifyMerkle_ok (e : list byte) (m n : Z) (p : list hash) (root : hash) :
  VerifyMerkleInclusion e m n p root = Ok tt <-> WalkInclusionPath e m n p = Ok root.
Proof.
  unfold VerifyMerkleInclusion. rewrite rbind_Ok. split.
  - intros (r & Hr & E). destruct (ConstantTimeCompare r root) eqn:Ec; [|discriminate E].
    apply ConstantTimeCompare_true in Ec as ->. exact Hr.
  - intros H. exists root. split; [exact H|].
    rewrite (proj2 (ConstantTimeCompare_true root root) eq_refl). reflexivity.
Qed.

Lemma strip_even_eq (fuel : nat) (fn sn : Z) : strip_even fuel fn sn = strip_zeros fuel fn sn.
Proof.
  revert fn sn. induction fuel as [|fuel IH]; intros fn sn; simpl; [reflexivity|].
  rewrite land1, IH. reflexivity.
Qed.

Lemma audit_walk_ok (p : list hash) (r : hash) (fn sn : Z) (root : hash) :
  audit_walk r fn sn p = Ok root <-> walk_path r fn sn p = Ok root.
Proof.
  revert r fn sn. induction p as [|x p IH]; intros r fn sn; cbn [audit_walk walk_path].
  - destruct (sn =? 0); [reflexivity | split; discriminate].
  - destruct (sn =? 0); [split; discriminate|].
    rewrite land1, strip_even_eq.
    destruct (_ || _); [destruct (strip_zeros 64 fn sn)|]; apply IH.
Qed.

(** ** The badge verifier *)

Lemma decode_hash_ok (what s : string) (h : hash) :
  decode_hash what s = Ok h <-> hex_DecodeString s = Some h /\ hash_wf h.
Proof.
  unfold decode_hash, hash_wf. destruct (hex_DecodeString s) as [b|]; [|split; [discriminate | intros [[=] _]]].
  destruct (_ =? 32) eqn:E; bool_hyps; split; intros H.
  - injection H as <-. split; [reflexivity | lia].
  - destruct H as [[= ->] _]. reflexivity.
  - discriminate H.
  - destruct H as [[= ->] H]. lia.
Qed.

Lemma decode_path_ok (ps : list string) (hs : list hash) :
  decode_path ps = Ok hs <->
  Forall2 (fun s h => hex_DecodeString s = Some h) ps hs /\ Forall hash_wf hs.
Proof.
  revert hs. induction ps as [|s ps IH]; intros hs; simpl.
  - split; [intros [= <-]; split; constructor | intros [H _]; inversion H; reflexivity].
  - rewrite rbind_Ok. setoid_rewrite rbind_Ok. setoid_rewrite decode_hash_ok. split.
    + intros (h & [Hh Hw] & hs' & Hhs & [= <-]). apply IH in Hhs as [H1 H2].
      split; constructor; assumption.
    + intros [H1 H2]. inversion H1 as [|? h ? hs' Hh Hr]; subst. inversion_clear H2.
      exists h. split; [auto|]. exists hs'. split; [apply IH; auto | reflexivity].
Qed.

(** What an accepted TL response contains. *)
Definition inclusion_proved (proof : MerkleProof) : Prop :=
  exists (root leaf : hash) (hs : list hash),
    RootHash proof <> ""%string /\ LeafHash proof <> ""%string /\
    0 <= LeafIndex proof < TreeSize proof /\
    hex_DecodeString (RootHash proof) = Some root /\ hash_wf root /\
    hex_DecodeString (LeafHash proof) = Some leaf /\ hash_wf leaf /\
    Forall2 (fun s h => hex_DecodeString s = Some h) (Path proof) hs /\ Forall hash_wf hs /\
    walk_path leaf (LeafIndex proof) (TreeSize proof - 1) hs = Ok root.

Lemma u64_of_int (z : Z) : 0 <= z -> in_i64 z -> wrap_u64 z = z.
Proof.
  unfold in_i64, max_i64. intros H1 H2. apply wrap_u64_small. unfold two64. lia.
Qed.

(** Every rejection of a response is a hard ANS-3002 error. *)
Definition inclusion_error (e : goerror) : Prop :=
  exists msg cause, e = EANS CodeTLInclusionProofFailed SeverityHard StageTLVerify msg [] cause.

Lemma inclusion_error_plain (msg : string) : inclusion_error (incl_err msg).
Proof. exists msg, None. reflexivity. Qed.

Lemma decode_hash_error (what s : string) (e : goerror) :
  decode_hash what s = Err e -> inclusion_error e.
Proof.
  unfold decode_hash. destruct (hex_DecodeString s) as [h|].
  - destruct (_ =? 32); intros [= <-]. apply inclusion_error_plain.
  - intros [= <-]. eexists _, _. reflexivity.
Qed.

Lemma decode_path_error (ps : list string) (e : goerror) :
  decode_path ps = Err e -> inclusion_error e.
Proof.
  revert e. induction ps as [|s ps IH]; intros e; simpl; [discriminate|].
  destruct (decode_hash _ s) as [h|e'] eqn:E; simpl; [|intros [= <-]; eapply decode_hash_error; eauto].
  destruct (decode_path ps); simpl; [discriminate | intros [= <-]; auto].
Qed.

Lemma audit_walk_error (p : list hash) (r : hash) (fn sn : Z) (e : goerror) :
  audit_walk r fn sn p = Err e -> inclusion_error e.
Proof.
  revert r fn sn. induction p as [|x p IH]; intros r fn sn; cbn [audit_walk].
  - destruct (sn =? 0); intros [= <-]. apply inclusion_error_plain.
  - destruct (sn =? 0); [intros [= <-]; apply inclusion_error_plain|].
    destruct (_ || _); [destruct (strip_even 64 fn sn)|]; apply IH.
Qed.

#[export] Hint Resolve inclusion_error_plain decode_hash_error decode_path_error
  audit_walk_error : ati.

Lemma VerifyInclusionProof_ok (resp : TLResponse) :
  in_i64 (TreeSize (tr_MerkleProof resp)) ->
  VerifyInclusionProof (Some resp) = Ok tt <-> inclusion_proved (tr_MerkleProof resp).
Proof.
  unfold VerifyInclusionProof, inclusion_proved. destruct (tr_MerkleProof resp) as [lh rh rs ts tv li ps].
  cbn [RootHash LeafHash TreeSize LeafIndex Path]. intros Hts.
  destruct (String.eqb rh "") eqn:E1; [split; [discriminate | bool_hyps; intros (?&?&?&?&_); contradiction]|].
  destruct (ts <=? 0) eqn:E2; [split; [discriminate | bool_hyps; intros (?&?&?&?&?&?&_); lia]|].
  destruct (_ || _) eqn:E3.
  { split; [discriminate|]. intros (?&?&?&?&?&?&_). apply orb_true_iff in E3 as [E3|E3]; bool_hyps; lia. }
  destruct (String.eqb lh "") eqn:E4; [split; [discriminate | bool_hyps; intros (?&?&?&?&?&_); contradiction]|].
  bool_hyps. assert (0 <= li < ts) by lia.
  unfold in_i64, max_i64, min_i64 in Hts.
  rewrite !u64_of_int by (unfold in_i64, max_i64, min_i64; lia).
  rewrite rbind_Ok. setoid_rewrite rbind_Ok. setoid_rewrite rbind_Ok. setoid_rewrite rbind_Ok.
  setoid_rewrite decode_hash_ok. setoid_rewrite decode_path_ok. setoid_rewrite audit_walk_ok.
  split.
  - intros (root & [R1 R2] & leaf & [L1 L2] & hs & [P1 P2] & c & Hw & Hc).
    destruct (ConstantTimeCompare c root) eqn:Ec; [|discriminate Hc].
    apply ConstantTimeCompare_true in Ec as ->. exists root, leaf, hs. tauto.
  - intros (root & leaf & hs & _ & _ & _ & R1 & R2 & L1 & L2 & P1 & P2 & Hw).
    exists root. split; [auto|]. exists leaf. split; [auto|]. exists hs. split; [auto|].
    exists root. split; [exact Hw|].
    rewrite (proj2 (ConstantTimeCompare_true root root) eq_refl). reflexivity.
Qed.

(** ** Properties *)

(** C11: (completeness against RFC 9162) for every non-empty log [D] of at most
    2^63 leaves and every leaf [d] of it at position [m], the inclusion proof
    [PATH m D] of the RFC is accepted for [d] against the root [MTH D]: the
    bit-manipulating walk is a correct implementation of the recursive
    definition, the inner stripping loop ends within its 64 rounds, and the cap
    of 63 path elements never rejects an honest proof. *)
Theorem VerifyMerkleInclusion_complete (D : list (list byte)) (m : nat) (d : list byte) :
  D !! m = Some d -> Z.of_nat (length D) <= 2 ^ 63 ->
  VerifyMerkleInclusion d (Z.of_nat m) (Z.of_nat (length D)) (PATH m D) (MTH D) = Ok tt.
Proof.
  intros Hd Hn. pose proof (lookup_lt_Some _ _ _ Hd).
  pose proof (path_length (length D) 63 m D Hn).
  apply VerifyMerkle_ok, Walk_ok. repeat split; try (unfold PATH; lia).
  apply walk_PATH; [exact Hd | lia].
Qed.

Definition sample_log : list (list byte) :=
  map bytes_of_string ["a"; "b"; "c"; "d"; "e"]%string.

Lemma VerifyMerkleInclusion_complete_witness :
  VerifyMerkleInclusion (bytes_of_string "e") 4 5 (PATH 4 sample_log) (MTH sample_log) = Ok tt.
Proof.
  apply (VerifyMerkleInclusion_complete sample_log 4).
  - reflexivity.
  - vm_compute. discriminate.
Defined.

(** C10: (soundness) if a proof is accepted for the event [e] at index [m]
    against the root of the log [D] of the claimed size, then, unless SHA-256
    collides between the strings hashed by this verification and those hashed
    when verifying the honest proof, [e] is the leaf of [D] at [m] and the proof
    is exactly [PATH m D]: no other event and no other path can be accepted. *)
Theorem VerifyMerkleInclusion_sound (D : list (list byte)) (m : nat) (d e : list byte)
    (p : list hash) :
  D !! m = Some d -> Z.of_nat (length D) <= 2 ^ 63 -> Forall hash_wf p ->
  no_collision (inclusion_inputs e (Z.of_nat m) (Z.of_nat (length D)) p)
    (inclusion_inputs d (Z.of_nat m) (Z.of_nat (length D)) (PATH m D)) ->
  VerifyMerkleInclusion e (Z.of_nat m) (Z.of_nat (length D)) p (MTH D) = Ok tt ->
  e = d /\ p = PATH m D.
Proof.
  intros Hd Hn Hp Hc Hv. apply VerifyMerkle_ok, Walk_ok in Hv as (_ & _ & _ & Hv).
  destruct (walk_path_inj _ _ _ _ _ _ _ Hv (walk_PATH D m d Hd ltac:(lia))) as [E ->];
    auto; try apply sha256_length; [apply path_wf|..].
  - intros x y Hx Hy. apply Hc; right; assumption.
  - split; [|reflexivity]. apply Hc in E; try (left; reflexivity). injection E as ->. reflexivity.
Qed.

(** Executable form of [no_collision]. *)
Definition no_collision_b (xs ys : list (list byte)) : bool :=
  forallb (fun x => forallb (fun y =>
    negb (list_byte_eqb (sha256 x) (sha256 y)) || list_byte_eqb x y) ys) xs.

Lemma no_collision_b_true (xs ys : list (list byte)) :
  no_collision_b xs ys = true -> no_collision xs ys.
Proof.
  unfold no_collision_b, no_collision, list_byte_eqb. intros H x y Hx Hy E.
  rewrite forallb_forall in H. specialize (H x Hx). rewrite forallb_forall in H.
  specialize (H y Hy). rewrite E, bool_decide_true in H by reflexivity. simpl in H.
  apply bool_decide_eq_true in H. exact H.
Qed.

Lemma VerifyMerkleInclusion_sound_witness :
  VerifyMerkleInclusion (bytes_of_string "c") 2 5 (PATH 2 sample_log) (MTH sample_log) = Ok tt /\
  bytes_of_string "c" = bytes_of_string "c" /\ PATH 2 sample_log = PATH 2 sample_log.
Proof.
  split; [vm_compute; reflexivity|].
  apply (VerifyMerkleInclusion_sound sample_log 2).
  - reflexivity.
  - vm_compute. discriminate.
  - apply path_wf.
  - apply no_collision_b_true. vm_compute. reflexivity.
  - vm_compute. reflexivity.
Defined.

(** (functional specification of the badge check) a TL response is accepted
    exactly when its proof carries a 32-byte hex root, a 32-byte hex leaf and
    32-byte hex siblings, the leaf index lies inside the tree, and the RFC walk
    from the leaf hash over the siblings computes the root. *)
Theorem VerifyInclusionProof_spec (resp : TLResponse) :
  in_i64 (TreeSize (tr_MerkleProof resp)) ->
  VerifyInclusionProof (Some resp) = Ok tt <-> inclusion_proved (tr_MerkleProof resp).
Proof. apply VerifyInclusionProof_ok. Qed.

Definition sample_response (leafHash rootHash : string) (n i : Z) (p : list string) : TLResponse :=
  MkTLResponse "ACTIVE" "" (MkTLPayload "" "" "" "" "" "" "" "" "" "" (MkTLCertificates "" "" "" ""))
    (MkEvidenceRef "" "" "" "" "" "" "" "" "" false) (MkTLSeal "" "" "" "" "" "" "")
    (MkMerkleProof leafHash rootHash "" n 0 i p) "" None None None None.

Definition badge_of (d : list byte) (m n : Z) (p : list hash) (root : hash) : TLResponse :=
  sample_response (hex_EncodeToString (ComputeLeafHash d)) (hex_EncodeToString root) n m
    (map hex_EncodeToString p).

Lemma VerifyInclusionProof_spec_witness :
  inclusion_proved
    (tr_MerkleProof (badge_of (bytes_of_string "d") 3 5 (PATH 3 sample_log) (MTH sample_log))).
Proof.
  apply VerifyInclusionProof_spec; [vm_compute; split; discriminate | vm_compute; reflexivity].
Defined.

Lemma hex_not_empty (h : hash) : hash_wf h -> hex_EncodeToString h <> ""%string.
Proof. destruct h; [discriminate | discriminate]. Qed.

Lemma hex_list_inj (p hs : list hash) :
  Forall2 (fun s h => hex_DecodeString s = Some h) (map hex_EncodeToString p) hs <-> hs = p.
Proof.
  revert hs. induction p as [|x p IH]; intros hs; simpl.
  - split; [intros H; inversion H; reflexivity | intros ->; constructor].
  - split.
    + intros H. inversion H as [|? y ? hs' E Hr]; subst. rewrite hex_roundtrip in E.
      injection E as <-. apply IH in Hr as ->. reflexivity.
    + intros ->. constructor; [apply hex_roundtrip | apply IH; reflexivity].
Qed.

(** (the two implementations agree) the badge verifier, given the hex
    encoding of a proof and the leaf hash of the event, accepts exactly the
    proofs the SCITT verifier accepts from the event bytes, for every index and
    size of an [int] and every path within the SCITT cap. *)
Theorem VerifyInclusionProof_VerifyMerkleInclusion (resp : TLResponse) (d : list byte)
    (m n : Z) (p : list hash) (root : hash) :
  tr_MerkleProof resp =
    MkMerkleProof (hex_EncodeToString (ComputeLeafHash d)) (hex_EncodeToString root)
      (RootSignature (tr_MerkleProof resp)) n (TreeVersion (tr_MerkleProof resp)) m
      (map hex_EncodeToString p) ->
  0 <= m -> 0 <= n <= max_i64 -> hash_wf root -> Forall hash_wf p ->
  Z.of_nat (length p) <= MaxHashPathLen ->
  VerifyInclusionProof (Some resp) = Ok tt <-> VerifyMerkleInclusion d m n p root = Ok tt.
Proof.
  intros Hr Hm Hn Hroot Hp Hlen. rewrite VerifyMerkle_ok, Walk_ok, VerifyInclusionProof_ok.
  2: { rewrite Hr. unfold in_i64, min_i64, max_i64 in *. simpl. lia. }
  rewrite Hr. unfold inclusion_proved. cbn [RootHash LeafHash TreeSize LeafIndex Path].
  unfold MaxHashPathLen in Hlen. split.
  - intros (root' & leaf & hs & _ & _ & Hi & R1 & _ & L1 & _ & P & _ & Hw).
    rewrite hex_roundtrip in R1, L1. injection R1 as <-. injection L1 as <-.
    apply hex_list_inj in P as ->. repeat split; auto; lia.
  - intros (Hn0 & Hi & _ & Hw). exists root, (ComputeLeafHash d), p.
    assert (hash_wf (ComputeLeafHash d)) by apply sha256_length.
    repeat split; auto using hex_not_empty, hex_roundtrip. apply hex_list_inj. reflexivity.
Qed.

Lemma VerifyInclusionProof_VerifyMerkleInclusion_witness :
  VerifyInclusionProof
    (Some (badge_of (bytes_of_string "a") 0 5 (PATH 0 sample_log) (MTH sample_log))) = Ok tt.
Proof.
  apply (VerifyInclusionProof_VerifyMerkleInclusion _ (bytes_of_string "a") 0 5
           (PATH 0 sample_log) (MTH sample_log)).
  - reflexivity.
  - lia.
  - unfold max_i64. lia.
  - apply mth_wf.
  - apply path_wf.
  - vm_compute. discriminate.
  - vm_compute. reflexivity.
Defined.

(** (errors) every rejection of a non-nil TL response is a hard ANS-3002
    error of the TL-verification stage, whatever the response holds. *)
Theorem VerifyInclusionProof_error (resp : TLResponse) (e : goerror) :
  VerifyInclusionProof (Some resp) = Err e -> inclusion_error e /\ IsHard e = true.
Proof.
  intros H. cut (inclusion_error e); [intros (msg & c & ->); split; [eexists _, _|]; reflexivity|].
  revert H. unfold VerifyInclusionProof.
  repeat (case_match; [intros [= <-]; auto with ati|]).
  destruct (decode_hash _ (RootHash _)) as [root|e1] eqn:E1; simpl; [|intros [= <-]; eauto with ati].
  destruct (decode_hash _ (LeafHash _)) as [leaf|e2] eqn:E2; simpl; [|intros [= <-]; eauto with ati].
  destruct (decode_path _) as [hs|e3] eqn:E3; simpl; [|intros [= <-]; eauto with ati].
  destruct (audit_walk _ _ _ _) as [c|e4] eqn:E4; simpl; [|intros [= <-]; eauto with ati].
  destruct (ConstantTimeCompare _ _); intros [= <-]. auto with ati.
Qed.

Lemma VerifyInclusionProof_error_witness :
  IsHard (incl_err "insufficient audit path elements") = true.
Proof.
  apply (VerifyInclusionProof_error
           (badge_of (bytes_of_string "a") 0 5 [] (MTH sample_log))).
  vm_compute. reflexivity.
Defined.
