(* ===== verification/Url.v ===== *)
(** [net/url] as far as the SDK uses it: [url.Parse], [URL.String],
    [URL.Port], [URL.Hostname] and [url.PathEscape], after the Go 1.25 sources;
    and [verify/url_validator.go], which rewrites the host of a badge URL. *)

From S2P Require Import Prelude GoStrings Encoding Errors.

#[local] Open Scope string_scope.
#[local] Open Scope Z_scope.

(** ** Escaping *)

Inductive encoding :=
| encodePath | encodePathSegment | encodeHost | encodeZone | encodeUserPassword | encodeFragment.

Definition is_host_mode (m : encoding) : bool :=
  match m with encodeHost | encodeZone => true | _ => false end.

Definition one_of (s : string) (c : ascii) : bool := contains_char c s.

Definition is_alnum (c : ascii) : bool := is_lower c || is_upper c || is_digit c.

Definition shouldEscape (c : ascii) (mode : encoding) : bool :=
  if is_alnum c then false
  else if is_host_mode mode && (one_of "!$&'()*+,;=:[]<>" c || Ascii.eqb c quote_char) then false
  else if one_of "-_.~" c then false
  else if one_of "$&+,/:;=?@" c then
    match mode with
    | encodePath => one_of "?" c
    | encodePathSegment => one_of "/;,?" c
    | encodeUserPassword => one_of "@/?:" c
    | encodeFragment => false
    | _ => true
    end
  else match mode with
       | encodeFragment => negb (one_of "!()*" c)
       | _ => true
       end.

Definition unhex (c : ascii) : option Z := from_hex_char c.

Fixpoint unescape (s : string) (mode : encoding) : option string :=
  match s with
  | "" => Some ""
  | String "%" (String a (String b rest)) =>
      match unhex a, unhex b with
      | Some x, Some y =>
          let v := chr (x * 16 + y) in
          let is25 := Ascii.eqb a "2" && Ascii.eqb b "5" in
          let rejected :=
            match mode with
            | encodeHost => (x <? 8) && negb is25
            | encodeZone => negb is25 && negb (Ascii.eqb v " ") && shouldEscape v encodeHost
            | _ => false
            end in
          if rejected then None else option_map (String v) (unescape rest mode)
      | _, _ => None
      end
  | String "%" _ => None
  | String c rest =>
      if is_host_mode mode && is_ascii_char c && shouldEscape c mode then None
      else option_map (String c) (unescape rest mode)
  end.

Definition upper_hex (d : Z) : ascii := if d <? 10 then chr (d + 48) else chr (d + 55).

Fixpoint escape (s : string) (mode : encoding) : string :=
  match s with
  | "" => ""
  | String c rest =>
      if shouldEscape c mode
      then String "%" (String (upper_hex (code c / 16)) (String (upper_hex (code c mod 16))
             (escape rest mode)))
      else String c (escape rest mode)
  end.

(** [url.PathEscape] *)
Definition PathEscape (s : string) : string := escape s encodePathSegment.

Definition validEncoded (s : string) (mode : encoding) : bool :=
  str_forallb (fun c => one_of "!$&'()*+,;=:@[]%" c || negb (shouldEscape c mode)) s.

(** ** The parsed form *)

Record URL := MkURL {
  Scheme : string;
  Opaque : string;
  User : option (string * option string);
  Host : string;
  UPath : string;
  RawPath : string;
  OmitHost : bool;
  ForceQuery : bool;
  RawQuery : string;
  Fragment : string;
  RawFragment : string
}.

Definition is_alpha (c : ascii) : bool := is_lower c || is_upper c.

(** The loop of [getScheme] from position [i > 0], [acc] being the bytes read:
    [None] when there is no scheme. *)
Fixpoint scheme_loop (acc s : string) : option (string * string) :=
  match s with
  | "" => None
  | String c rest =>
      if is_alpha c || is_digit c || one_of "+-." c then scheme_loop (acc ++ String c "") rest
      else if Ascii.eqb c ":" then Some (acc, rest)
      else None
  end.

Definition getScheme (rawURL : string) : option (string * string) :=
  match rawURL with
  | String ":" _ => None
  | String c _ =>
      if is_alpha c then
        match scheme_loop "" rawURL with Some r => Some r | None => Some ("", rawURL) end
      else Some ("", rawURL)
  | "" => Some ("", "")
  end.

(** [strings.LastIndexByte] as a split around the last occurrence. *)
Fixpoint CutLast (s : string) (sep : ascii) : option (string * string) :=
  match s with
  | "" => None
  | String c s' =>
      match CutLast s' sep with
      | Some (a, b) => Some (String c a, b)
      | None => if Ascii.eqb c sep then Some ("", s') else None
      end
  end.

Definition validOptionalPort (port : string) : bool :=
  match port with
  | "" => true
  | String c rest => Ascii.eqb c ":" && str_forallb is_digit rest
  end.

Definition parseHost (host : string) : option string :=
  if HasPrefix host "[" then
    match CutLast host "]" with
    | None => None
    | Some (inside, colonPort) =>
        if negb (validOptionalPort colonPort) then None
        else
          match Index inside "%25" with
          | Some zone =>
              match unescape (str_take zone host) encodeHost,
                    unescape (str_drop zone inside) encodeZone,
                    unescape ("]" ++ colonPort) encodeHost with
              | Some host1, Some host2, Some host3 => Some (host1 ++ host2 ++ host3)
              | _, _, _ => None
              end
          | None => unescape host encodeHost
          end
    end
  else
    match CutLast host ":" with
    | Some (_, port) =>
        if negb (validOptionalPort (":" ++ port)) then None else unescape host encodeHost
    | None => unescape host encodeHost
    end.

Definition validUserinfo (s : string) : bool :=
  str_forallb (fun c => is_alnum c || one_of "-._:~!$&'()*+,;=%@" c) s.

(** [parseAuthority]: [(user, host)]. *)
Definition parseAuthority (authority : string)
  : option (option (string * option string) * string) :=
  match CutLast authority "@" with
  | None => option_map (fun h => (None, h)) (parseHost authority)
  | Some (userinfo, h) =>
      match parseHost h with
      | None => None
      | Some host =>
          if negb (validUserinfo userinfo) then None
          else
            match Cut userinfo ":" with
            | None =>
                option_map (fun u => (Some (u, None), host)) (unescape userinfo encodeUserPassword)
            | Some (username, password) =>
                match unescape username encodeUserPassword, unescape password encodeUserPassword with
                | Some u, Some p => Some (Some (u, Some p), host)
                | _, _ => None
                end
            end
      end
  end.

Definition is_ctl (c : ascii) : bool := (code c <? 32) || (code c =? 127).

Definition count_char (c : ascii) (s : string) : nat :=
  (length (Split s c) - 1)%nat.

(** [setPath]: the pair [(Path, RawPath)]. *)
Definition setPath (p : string) : option (string * string) :=
  match unescape p encodePath with
  | None => None
  | Some path => Some (path, if String.eqb p (escape path encodePath) then "" else p)
  end.

Definition setFragment (f : string) : option (string * string) :=
  match unescape f encodeFragment with
  | None => None
  | Some frag => Some (frag, if String.eqb f (escape frag encodeFragment) then "" else f)
  end.

(** The query part: [(rest, ForceQuery, RawQuery)]. *)
Definition split_query (rest : string) : string * bool * string :=
  if HasSuffix rest "?" && (count_char "?" rest =? 1)%nat
  then (str_take (String.length rest - 1) rest, true, "")
  else match Cut rest "?" with
       | Some (a, q) => (a, false, q)
       | None => (rest, false, "")
       end.

(** The first segment of a relative path. *)
Definition first_segment (s : string) : string :=
  match Cut s "/" with Some (a, _) => a | None => s end.

(** [authority, rest] of what follows [//]. *)
Definition split_authority (s : string) : string * string :=
  match Cut s "/" with
  | Some (a, r) => (a, String "/" r)
  | None => (s, "")
  end.

Section Parsing.
Context `{UnicodeTables}.

(** [parse(rawURL, false)] *)
Definition parse (rawURL : string) : option URL :=
  if negb (str_forallb (fun c => negb (is_ctl c)) rawURL) then None
  else if String.eqb rawURL "*" then Some (MkURL "" "" None "" "*" "" false false "" "" "")
  else
    match getScheme rawURL with
    | None => None
    | Some (scheme, rest) =>
        let scheme := ToLower scheme in
        let '(rest, fq, q) := split_query rest in
        if negb (HasPrefix rest "/") && negb (String.eqb scheme "")
        then Some (MkURL scheme rest None "" "" "" false fq q "" "")
        else if negb (HasPrefix rest "/") && Contains (first_segment rest) ":" then None
        else
          let has_authority :=
            (negb (String.eqb scheme "") || negb (HasPrefix rest "///")) && HasPrefix rest "//" in
          let auth :=
            if has_authority then
              let '(authority, rest') := split_authority (str_drop 2 rest) in
              option_map (fun uh => (uh, rest')) (parseAuthority authority)
            else Some ((None, ""), rest) in
          match auth with
          | None => None
          | Some ((user, host), rest') =>
              match setPath rest' with
              | None => None
              | Some (path, rawPath) =>
                  Some (MkURL scheme "" user host path rawPath
                          (negb has_authority && negb (String.eqb scheme "") && HasPrefix rest "/")
                          fq q "" "")
              end
          end
    end.

(** [url.Parse] *)
Definition url_Parse (rawURL : string) : option URL :=
  match Cut rawURL "#" with
  | None => parse rawURL
  | Some (u, frag) =>
      match parse u with
      | None => None
      | Some url =>
          if String.eqb frag "" then Some url
          else
            match setFragment frag with
            | None => None
            | Some (f, rf) =>
                Some (MkURL (Scheme url) (Opaque url) (User url) (Host url) (UPath url)
                        (RawPath url) (OmitHost url) (ForceQuery url) (RawQuery url) f rf)
            end
      end
  end.

End Parsing.

(** ** Printing *)

Definition EscapedPath (u : URL) : string :=
  if negb (String.eqb (RawPath u) "") && validEncoded (RawPath u) encodePath
     && (match unescape (RawPath u) encodePath with
         | Some p => String.eqb p (UPath u)
         | None => false
         end)
  then RawPath u
  else if String.eqb (UPath u) "*" then "*"
  else escape (UPath u) encodePath.

Definition EscapedFragment (u : URL) : string :=
  if negb (String.eqb (RawFragment u) "") && validEncoded (RawFragment u) encodeFragment
     && (match unescape (RawFragment u) encodeFragment with
         | Some f => String.eqb f (Fragment u)
         | None => false
         end)
  then RawFragment u
  else escape (Fragment u) encodeFragment.

Definition Userinfo_String (u : string * option string) : string :=
  escape (fst u) encodeUserPassword ++
  match snd u with Some p => ":" ++ escape p encodeUserPassword | None => "" end.

(** The part before the path, [None] when nothing is written. *)
Definition url_prefix (u : URL) : string :=
  (if negb (String.eqb (Scheme u) "") then Scheme u ++ ":" else "") ++
  (if negb (String.eqb (Scheme u) "") || negb (String.eqb (Host u) "") || is_some (User u) then
     if OmitHost u && String.eqb (Host u) "" && negb (is_some (User u)) then ""
     else
       (if negb (String.eqb (Host u) "") || negb (String.eqb (UPath u) "") || is_some (User u)
        then "//" else "") ++
       (match User u with Some ui => Userinfo_String ui ++ "@" | None => "" end) ++
       escape (Host u) encodeHost
   else "").

(** [URL.String] *)
Definition URL_String (u : URL) : string :=
  let body :=
    if negb (String.eqb (Opaque u) "") then
      (if negb (String.eqb (Scheme u) "") then Scheme u ++ ":" else "") ++ Opaque u
    else
      let pre := url_prefix u in
      let path := EscapedPath u in
      let pre :=
        if negb (String.eqb path "") && negb (HasPrefix path "/") && negb (String.eqb (Host u) "")
        then pre ++ "/" else pre in
      let pre :=
        if String.eqb pre "" && Contains (first_segment path) ":" then "./" else pre in
      pre ++ path in
  body ++
  (if ForceQuery u || negb (String.eqb (RawQuery u) "") then "?" ++ RawQuery u else "") ++
  (if negb (String.eqb (Fragment u) "") then "#" ++ EscapedFragment u else "").

(** [splitHostPort]: [(hostname, port)]. *)
Definition splitHostPort (hostPort : string) : string * string :=
  let '(host, port) :=
    match CutLast hostPort ":" with
    | Some (h, p) => if validOptionalPort (":" ++ p) then (h, p) else (hostPort, "")
    | None => (hostPort, "")
    end in
  if HasPrefix host "[" && HasSuffix host "]"
  then (str_take (String.length host - 2) (str_drop 1 host), port)
  else (host, port).

Definition Hostname (u : URL) : string := fst (splitHostPort (Host u)).
Definition Port (u : URL) : string := snd (splitHostPort (Host u)).

Definition set_Host (u : URL) (h : string) : URL :=
  MkURL (Scheme u) (Opaque u) (User u) h (UPath u) (RawPath u) (OmitHost u) (ForceQuery u)
    (RawQuery u) (Fragment u) (RawFragment u).

(** ** [verify/url_validator.go] *)

Section Rewrite.
Context `{UnicodeTables}.

Definition RewriteBadgeURLHost (rawURL trustedHost : string) : result goerror string :=
  match url_Parse rawURL with
  | None => Err (EPlain "invalid badge URL")
  | Some parsed =>
      let parsed :=
        if Contains trustedHost ":" then set_Host parsed trustedHost
        else
          let origPort := Port parsed in
          if negb (String.eqb origPort "") then set_Host parsed (trustedHost ++ ":" ++ origPort)
          else set_Host parsed trustedHost in
      Ok (URL_String parsed)
  end.

End Rewrite.

#[local] Existing Instance plain_tables.

Example parse_ex :
  url_Parse "HTTPS://tl.example.com:8443/v1/agents/a%2Fb?x=1#frag" =
  Some (MkURL "https" "" None "tl.example.com:8443" "/v1/agents/a/b" "/v1/agents/a%2Fb"
          false false "x=1" "frag" "").
Proof. vm_compute. reflexivity. Qed.

Example parse_userinfo_ex :
  option_map User (url_Parse "https://u:p@h/") = Some (Some ("u", Some "p")).
Proof. vm_compute. reflexivity. Qed.

Example parse_bad_host_ex : url_Parse "https://h:8x/" = None.
Proof. vm_compute. reflexivity. Qed.

Example rewrite_ex :
  RewriteBadgeURLHost "https://evil.example:8443/v1/agents/1" "tl.trusted.example"
  = Ok "https://tl.trusted.example:8443/v1/agents/1".
Proof. vm_compute. reflexivity. Qed.

(** ** Lemmas *)

Lemma escape_fixed (m : encoding) (s : string) :
  str_forallb (fun c => negb (shouldEscape c m)) s = true -> escape s m = s.
Proof.
  induction s as [|c s IH]; cbn -[shouldEscape]; [reflexivity|].
  intros H. bool_hyps. rewrite H, IH by assumption. reflexivity.
Qed.

(** Host bytes that are printed as they are. *)
Definition is_host_char (c : ascii) : bool := is_alnum c || one_of "-.:" c.

Lemma host_char_plain (c : ascii) : is_host_char c = true -> shouldEscape c encodeHost = false.
Proof.
  assert (E : negb (is_host_char c) || negb (shouldEscape c encodeHost) = true)
    by by_chars (fun c => negb (is_host_char c) || negb (shouldEscape c encodeHost)) c.
  intros H. rewrite H in E. apply negb_true_iff. exact E.
Qed.

Lemma escape_host (s : string) :
  str_forallb is_host_char s = true -> escape s encodeHost = s.
Proof.
  intros H. apply escape_fixed. revert H. apply str_forallb_impl.
  intros c Hc. rewrite host_char_plain by exact Hc. reflexivity.
Qed.

Lemma parse_host_not_opaque `{UnicodeTables} (raw : string) (u : URL) :
  parse raw = Some u -> Host u <> "" -> Opaque u = "".
Proof.
  unfold parse. intros E Hh. repeat case_match_in E; injection E as <-; simpl in *; congruence.
Qed.

Lemma url_Parse_not_opaque `{UnicodeTables} (raw : string) (u : URL) :
  url_Parse raw = Some u -> Host u <> "" -> Opaque u = "".
Proof.
  unfold url_Parse. intros E Hh. repeat case_match_in E;
    try (injection E as <-; simpl in *); eauto using parse_host_not_opaque.
Qed.

Lemma Port_digits (u : URL) : str_forallb is_digit (Port u) = true.
Proof.
  unfold Port, splitHostPort.
  destruct (CutLast (Host u) ":") as [[h p]|]; [destruct (validOptionalPort (":" ++ p)) eqn:E|];
    cbn [fst snd]; destruct (_ && _); try reflexivity; exact E.
Qed.

Lemma digit_host_char (c : ascii) : is_digit c = true -> is_host_char c = true.
Proof. unfold is_host_char, is_alnum. intros ->. rewrite orb_true_r. reflexivity. Qed.

(** What may follow the authority of a printed URL. *)
Definition after_authority (tail : string) : Prop :=
  tail = "" \/ HasPrefix tail "/" = true \/ HasPrefix tail "?" = true \/ HasPrefix tail "#" = true.

Lemma EscapedPath_empty (u : URL) (t : string) :
  after_authority t ->
  after_authority
    ((if negb (String.eqb (EscapedPath u) "") && negb (HasPrefix (EscapedPath u) "/")
      then "/" else "") ++ EscapedPath u ++ t).
Proof.
  intros Ht. destruct (EscapedPath u) as [|c p]; [exact Ht|].
  unfold after_authority. destruct (HasPrefix (String c p) "/") eqn:E; cbn -[HasPrefix].
  - right. left. apply HasPrefix_spec in E as [t' [= -> ->]]. reflexivity.
  - right. left. reflexivity.
Qed.

Lemma URL_String_authority (u : URL) :
  Opaque u = "" -> User u = None -> Scheme u <> "" -> Host u <> "" ->
  str_forallb is_host_char (Host u) = true ->
  exists tail, URL_String u = Scheme u ++ "://" ++ Host u ++ tail /\ after_authority tail.
Proof.
  intros Ho Hu Hs Hh Hc. unfold URL_String, url_prefix. rewrite Ho, Hu, escape_host by exact Hc.
  apply String.eqb_neq in Hs, Hh. rewrite Hs, Hh. cbn [negb is_some orb andb String.eqb Ascii.eqb].
  rewrite !andb_false_r, !andb_true_r. cbn [orb].
  set (q := if ForceQuery u || negb (String.eqb (RawQuery u) "") then "?" ++ RawQuery u else "").
  set (f := if negb (String.eqb (Fragment u) "") then "#" ++ EscapedFragment u else "").
  assert (Hqf : after_authority (q ++ f)).
  { unfold q, f, after_authority. destruct (ForceQuery u || _); [right; right; left; reflexivity|].
    destruct (negb (String.eqb (Fragment u) "")); [right; right; right|left]; reflexivity. }
  exists ((if negb (String.eqb (EscapedPath u) "") && negb (HasPrefix (EscapedPath u) "/")
           then "/" else "") ++ EscapedPath u ++ q ++ f).
  split; [|apply EscapedPath_empty, Hqf].
  apply String.eqb_neq in Hs. destruct (Scheme u) as [|c sch]; [congruence|].
  cbn [OmitHost andb]. 
  destruct (negb (String.eqb (EscapedPath u) "") && _); cbn -[EscapedPath HasPrefix];
    rewrite ?str_app_assoc; cbn -[EscapedPath HasPrefix]; rewrite ?str_app_assoc; reflexivity.
Qed.

(** Rewriting an accepted badge URL. *)
Lemma rewrite_host `{UnicodeTables} (raw trusted : string) (u : URL) :
  url_Parse raw = Some u -> Scheme u <> "" -> Host u <> "" -> User u = None ->
  trusted <> "" -> str_forallb is_host_char trusted = true -> contains_char ":" trusted = false ->
  exists port tail,
    RewriteBadgeURLHost raw trusted = Ok (Scheme u ++ "://" ++ trusted ++ port ++ tail) /\
    port = (if String.eqb (Port u) "" then "" else ":" ++ Port u) /\
    str_forallb is_digit (Port u) = true /\ after_authority tail.
Proof.
  intros Hp Hs Hh Hu Ht Hc Hcolon.
  pose proof (url_Parse_not_opaque raw u Hp Hh) as Ho.
  unfold RewriteBadgeURLHost. rewrite Hp, Contains_char, Hcolon.
  set (port := if String.eqb (Port u) "" then "" else ":" ++ Port u).
  pose proof (Port_digits u) as Hd.
  assert (Hport : str_forallb is_host_char port = true).
  { unfold port. destruct (String.eqb (Port u) ""); [reflexivity|].
    cbn -[is_host_char]. revert Hd. apply str_forallb_impl, digit_host_char. }
  destruct (URL_String_authority (set_Host u (trusted ++ port))) as (tail & E & Ha);
    try assumption.
  - cbn. destruct trusted; [congruence | discriminate].
  - cbn -[is_host_char]. rewrite str_forallb_app, Hc. exact Hport.
  - exists port, tail. split; [|auto].
    cbn -[URL_String] in E. rewrite str_app_assoc in E.
    change (Scheme u ++ "://" ++ trusted ++ port ++ tail) with
      (Scheme u ++ String ":" (String "/" (String "/" (trusted ++ port ++ tail)))).
    unfold port in *. destruct (String.eqb (Port u) "") eqn:Ep; cbn -[URL_String] in *.
    + rewrite ?str_app_nil_r in E. rewrite E. reflexivity.
    + rewrite E. reflexivity.
Qed.

(** (host pinning) rewriting an accepted badge URL to a trusted host of
    DNS characters yields a URL whose text is the original scheme, then
    [://], then exactly the trusted host with the original port if there is
    one, and then a path, a query, a fragment or nothing: no part of the
    untrusted URL can move the request to another authority. *)
Theorem RewriteBadgeURLHost_host `{UnicodeTables} (raw trusted : string) (u : URL) :
  url_Parse raw = Some u -> Scheme u <> "" -> Host u <> "" -> User u = None ->
  trusted <> "" -> str_forallb is_host_char trusted = true -> contains_char ":" trusted = false ->
  exists port tail,
    RewriteBadgeURLHost raw trusted = Ok (Scheme u ++ "://" ++ trusted ++ port ++ tail) /\
    port = (if String.eqb (Port u) "" then "" else ":" ++ Port u) /\
    str_forallb is_digit (Port u) = true /\ after_authority tail.
Proof. apply rewrite_host. Qed.

Lemma RewriteBadgeURLHost_host_witness :
  exists port tail,
    RewriteBadgeURLHost "https://evil.example:8443/v1?q=1" "tl.example" =
      Ok ("https" ++ "://" ++ "tl.example" ++ port ++ tail) /\ port = ":8443".
Proof.
  destruct (RewriteBadgeURLHost_host "https://evil.example:8443/v1?q=1" "tl.example"
    (MkURL "https" "" None "evil.example:8443" "/v1" "" false false "q=1" "" ""))
    as (port & tail & E & Hport & _); try discriminate; try (vm_compute; reflexivity).
  exists port, tail. split; [exact E | rewrite Hport; vm_compute; reflexivity].
Defined.
