(* ===== verification/UrlQuery.v ===== *)
(** Path segments and query strings of URLs: [url.PathEscape] keeps a text inside
    one segment; [url.QueryEscape] and [url.Values], their encoding and parsing. *)

From stdpp Require Import sorting.
From S2P Require Import Prelude GoStrings Encoding Errors Json Jcs Url.

#[local] Open Scope string_scope.
#[local] Open Scope list_scope.
#[local] Open Scope Z_scope.

(** ** Path segments *)

Lemma escaped_char (c d : ascii) :
  one_of "/?#" d = true ->
  (if shouldEscape c encodePathSegment
   then contains_char d (String "%" (String (upper_hex (code c / 16)) (String (upper_hex (code c mod 16)) "")))
   else Ascii.eqb c d) = false.
Proof.
  intros Hd. assert (G : forallb (fun d => negb (if shouldEscape c encodePathSegment
   then contains_char d (String "%" (String (upper_hex (code c / 16)) (String (upper_hex (code c mod 16)) "")))
   else Ascii.eqb c d)) ["/"; "?"; "#"]%char = true)
    by by_chars (fun c => forallb (fun d => negb (if shouldEscape c encodePathSegment
   then contains_char d (String "%" (String (upper_hex (code c / 16)) (String (upper_hex (code c mod 16)) "")))
   else Ascii.eqb c d)) ["/"; "?"; "#"]%char) c.
  rewrite forallb_forall in G. apply negb_true_iff, G. clear -Hd. revert Hd.
  assert (K : implb (one_of "/?#" d) (existsb (Ascii.eqb d) ["/"; "?"; "#"]%char) = true)
    by by_chars (fun d => implb (one_of "/?#" d) (existsb (Ascii.eqb d) ["/"; "?"; "#"]%char)) d.
  intros Hd. rewrite Hd in K. cbn [implb] in K. apply existsb_exists in K as (x & Hin & E).
  apply Ascii.eqb_eq in E. subst. exact Hin.
Qed.

Lemma unescape_plain (c : ascii) (rest : string) :
  c <> "%"%char ->
  unescape (String c rest) encodePathSegment = option_map (String c) (unescape rest encodePathSegment).
Proof. intros Hc. destruct c as [[] [] [] [] [] [] [] []]; try reflexivity. destruct (Hc eq_refl). Qed.

Lemma unescape_hex (c : ascii) (rest : string) :
  unescape (String "%" (String (upper_hex (code c / 16)) (String (upper_hex (code c mod 16)) rest))) encodePathSegment =
  option_map (String c) (unescape rest encodePathSegment).
Proof.
  assert (G : (match unhex (upper_hex (code c / 16)), unhex (upper_hex (code c mod 16)) with
               | Some x, Some y => Ascii.eqb (chr (x * 16 + y)) c | _, _ => false end) = true)
    by by_chars (fun c => match unhex (upper_hex (code c / 16)), unhex (upper_hex (code c mod 16)) with
               | Some x, Some y => Ascii.eqb (chr (x * 16 + y)) c | _, _ => false end) c.
  cbn [unescape]. destruct (unhex (upper_hex (code c / 16))) as [x|]; [|discriminate].
  destruct (unhex (upper_hex (code c mod 16))) as [y|]; [|discriminate].
  apply Ascii.eqb_eq in G. rewrite G. reflexivity.
Qed.

Lemma PathEscape_confined (s : string) (d : ascii) :
  one_of "/?#" d = true ->
  contains_char d (PathEscape s) = false /\ unescape (PathEscape s) encodePathSegment = Some s.
Proof.
  intros Hd. unfold PathEscape. induction s as [|c s [IH1 IH2]]; [auto|]. cbn [escape].
  pose proof (escaped_char c d Hd) as Hc. destruct (shouldEscape c encodePathSegment) eqn:Es.
  - rewrite unescape_hex, IH2. split; [|reflexivity].
    unfold contains_char in *. cbn [str_forallb] in *. apply negb_false_iff in Hc, IH1. apply negb_false_iff.
    rewrite !andb_true_iff in *. tauto.
  - rewrite unescape_plain, IH2 by (intros ->; discriminate Es). split; [|reflexivity].
    unfold contains_char in *. cbn [str_forallb]. apply negb_false_iff in IH1. apply negb_false_iff.
    rewrite Hc, IH1. reflexivity.
Qed.

(** No separator of a URL's parts. *)
Definition clean_segment (s : string) : bool := str_forallb (fun d => negb (one_of "/?#" d)) s.

Lemma PathEscape_segment (s : string) : clean_segment (PathEscape s) = true.
Proof.
  assert (K : forall d, one_of "/?#" d = true -> contains_char d (PathEscape s) = false)
    by (intros d Hd; apply (PathEscape_confined s d Hd)).
  unfold clean_segment. induction (PathEscape s) as [|x t IH]; [reflexivity|]. cbn [str_forallb].
  apply andb_true_iff. split.
  - destruct (one_of "/?#" x) eqn:E; [|reflexivity]. specialize (K x E). unfold contains_char in K.
    cbn [str_forallb] in K. rewrite Ascii.eqb_refl in K. discriminate K.
  - apply IH. intros d Hd. specialize (K d Hd). unfold contains_char in *. apply negb_false_iff in K.
    cbn [str_forallb] in K. apply andb_true_iff in K as [_ K]. rewrite K. reflexivity.
Qed.

Lemma PathEscape_decodes (s : string) : unescape (PathEscape s) encodePathSegment = Some s.
Proof. apply (PathEscape_confined s "/"). reflexivity. Qed.

(** ** Query components *)

Definition query_plain (c : ascii) : bool := is_alnum c || one_of "-_.~" c.

(** [url.QueryEscape] *)
Fixpoint QueryEscape (s : string) : string :=
  match s with
  | "" => ""
  | String c rest =>
      if query_plain c then String c (QueryEscape rest)
      else if Ascii.eqb c " " then String "+" (QueryEscape rest)
      else String "%" (String (upper_hex (code c / 16)) (String (upper_hex (code c mod 16)) (QueryEscape rest)))
  end.

(** [url.QueryUnescape] *)
Fixpoint QueryUnescape (s : string) : option string :=
  match s with
  | "" => Some ""
  | String "%" (String a (String b rest)) =>
      match unhex a, unhex b with
      | Some x, Some y => option_map (String (chr (x * 16 + y))) (QueryUnescape rest)
      | _, _ => None
      end
  | String "%" _ => None
  | String "+" rest => option_map (String " ") (QueryUnescape rest)
  | String c rest => option_map (String c) (QueryUnescape rest)
  end.

Lemma QueryUnescape_plain (c : ascii) (rest : string) :
  query_plain c = true -> QueryUnescape (String c rest) = option_map (String c) (QueryUnescape rest).
Proof. intros Hc. destruct c as [[] [] [] [] [] [] [] []]; reflexivity || discriminate Hc. Qed.

Lemma hex_char (c : ascii) :
  unhex (upper_hex (code c / 16)) = Some (code c / 16) /\ unhex (upper_hex (code c mod 16)) = Some (code c mod 16).
Proof.
  assert (G : bool_decide (unhex (upper_hex (code c / 16)) = Some (code c / 16)) &&
              bool_decide (unhex (upper_hex (code c mod 16)) = Some (code c mod 16)) = true)
    by by_chars (fun c => bool_decide (unhex (upper_hex (code c / 16)) = Some (code c / 16)) &&
              bool_decide (unhex (upper_hex (code c mod 16)) = Some (code c mod 16))) c.
  apply andb_true_iff in G as [G1 G2]. split; [exact (bool_decide_eq_true_1 _ G1) | exact (bool_decide_eq_true_1 _ G2)].
Qed.

Lemma QueryUnescape_Escape (s : string) : QueryUnescape (QueryEscape s) = Some s.
Proof.
  induction s as [|c s IH]; [reflexivity|]. cbn [QueryEscape]. destruct (query_plain c) eqn:Ep.
  - rewrite QueryUnescape_plain, IH by exact Ep. reflexivity.
  - destruct (Ascii.eqb_spec c " ") as [->|Hc].
    + cbn [QueryUnescape]. rewrite IH. reflexivity.
    + destruct (hex_char c) as [E1 E2]. cbn [QueryUnescape]. rewrite E1, E2, IH. cbn [option_map].
      do 2 f_equal. rewrite <- (chr_code c) at 3. f_equal. pose proof (Z.div_mod (code c) 16). lia.
Qed.

(** No separator of a query, nor the mark of a fragment, is left. *)
Lemma QueryEscape_clean (s : string) (d : ascii) :
  one_of "&=;#" d = true -> contains_char d (QueryEscape s) = false.
Proof.
  intros Hd.
  assert (Hin : In d ["&"; "="; ";"; "#"]%char).
  { assert (K : implb (one_of "&=;#" d) (existsb (Ascii.eqb d) ["&"; "="; ";"; "#"]%char) = true)
      by by_chars (fun d => implb (one_of "&=;#" d) (existsb (Ascii.eqb d) ["&"; "="; ";"; "#"]%char)) d.
    rewrite Hd in K. cbn [implb] in K. apply existsb_exists in K as (x & Hx & E). apply Ascii.eqb_eq in E. subst. exact Hx. }
  unfold contains_char. apply negb_false_iff. induction s as [|c s IH]; [reflexivity|].
  assert (G : forallb (fun d => (if query_plain c then negb (Ascii.eqb c d) else true) &&
      negb (Ascii.eqb (upper_hex (code c / 16)) d) && negb (Ascii.eqb (upper_hex (code c mod 16)) d))
      ["&"; "="; ";"; "#"]%char = true)
    by by_chars (fun c => forallb (fun d => (if query_plain c then negb (Ascii.eqb c d) else true) &&
      negb (Ascii.eqb (upper_hex (code c / 16)) d) && negb (Ascii.eqb (upper_hex (code c mod 16)) d))
      ["&"; "="; ";"; "#"]%char) c.
  rewrite forallb_forall in G. specialize (G d Hin). rewrite !andb_true_iff in G. destruct G as [[G1 G2] G3].
  cbn [QueryEscape]. destruct (query_plain c); [cbn [str_forallb]; rewrite G1; exact IH|].
  destruct (Ascii.eqb c " "); cbn [str_forallb]; rewrite ?G2, ?G3, IH;
    destruct Hin as [<-|[<-|[<-|[<-|[]]]]]; reflexivity.
Qed.

(** ** [url.Values] *)

(** A map from keys to one value each. *)
Definition Values : Type := list (string * string).

Definition Values_Set (params : Values) (key value : string) : Values :=
  (key, value) :: List.filter (fun p => negb (String.eqb (fst p) key)) params.

(** The entries in the order of their keys. *)
Definition sorted_values (params : Values) : Values :=
  filter_map (fun k => option_map (pair k) (last_value k params)) (sort_Strings (map fst params)).

Definition pair_text (p : string * string) : string := QueryEscape (fst p) ++ "=" ++ QueryEscape (snd p).

Definition Values_Encode (params : Values) : string := Join (map pair_text (sorted_values params)) "&".

(** [url.ParseQuery]; [None] stands for any error. *)
Definition parse_pair (s : string) : option (string * string) :=
  if contains_char ";" s then None else
  let '(key, value) := match Cut s "=" with Some kv => kv | None => (s, "") end in
  match QueryUnescape key, QueryUnescape value with
  | Some k, Some v => Some (k, v)
  | _, _ => None
  end.

Fixpoint all_some {A : Type} (l : list (option A)) : option (list A) :=
  match l with
  | [] => Some []
  | o :: l =>
      match o, all_some l with
      | Some x, Some xs => Some (x :: xs)
      | _, _ => None
      end
  end.

Definition ParseQuery (query : string) : option (list (string * string)) :=
  all_some (map parse_pair (List.filter (fun s => negb (String.eqb s "")) (Split query "&"))).

Lemma contains_char_app (c : ascii) (a b : string) :
  contains_char c (a ++ b) = contains_char c a || contains_char c b.
Proof. unfold contains_char. rewrite str_forallb_app, negb_andb. reflexivity. Qed.

Lemma pair_text_clean (d : ascii) (p : string * string) :
  one_of "&;" d = true -> contains_char d (pair_text p) = false.
Proof.
  intros Hd. unfold pair_text. rewrite !contains_char_app, !QueryEscape_clean;
    unfold one_of, contains_char in *; cbn [str_forallb] in *;
    destruct (Ascii.eqb_spec "&" d) as [<-|_]; try reflexivity;
    destruct (Ascii.eqb_spec ";" d) as [<-|_]; reflexivity || discriminate Hd.
Qed.

Lemma parse_pair_text (p : string * string) : parse_pair (pair_text p) = Some p.
Proof.
  unfold parse_pair. rewrite pair_text_clean by reflexivity. unfold pair_text. cbn [String.append].
  rewrite Cut_app by (apply QueryEscape_clean; reflexivity). rewrite !QueryUnescape_Escape. destruct p. reflexivity.
Qed.

Lemma ParseQuery_Join (ps : Values) : ParseQuery (Join (map pair_text ps) "&") = Some ps.
Proof.
  unfold ParseQuery. destruct ps as [|p ps]; [reflexivity|].
  rewrite Split_Join; [|discriminate|apply List.Forall_map, List.Forall_forall; intros; apply pair_text_clean; reflexivity].
  induction (p :: ps) as [|q qs IH]; [reflexivity|]. cbn [map List.filter].
  replace (negb (String.eqb (pair_text q) "")) with true.
  - cbn [map all_some]. rewrite parse_pair_text, IH. reflexivity.
  - symmetry. apply negb_true_iff, String.eqb_neq. unfold pair_text. destruct (QueryEscape (fst q)); discriminate.
Qed.

Lemma sorted_values_in (params : Values) (k v : string) :
  List.NoDup (map fst params) -> In (k, v) (sorted_values params) <-> In (k, v) params.
Proof.
  intros Hn. unfold sorted_values. rewrite in_filter_map. split.
  - intros (x & _ & E). destruct (last_value x params) eqn:El; [|discriminate]. injection E as -> ->.
    apply last_value_in, El.
  - intros Hi. exists k. rewrite sort_in. split; [apply in_map_iff; exists (k, v); auto|].
    rewrite (last_value_unique k v params Hn Hi). reflexivity.
Qed.

Lemma Values_Set_NoDup (params : Values) (key value : string) :
  List.NoDup (map fst params) -> List.NoDup (map fst (Values_Set params key value)).
Proof.
  intros Hn. cbn [Values_Set map fst]. constructor.
  - intros Hi. apply in_map_iff in Hi as (p & E & Hp). apply filter_In in Hp as [_ Hp].
    rewrite E, String.eqb_refl in Hp. discriminate.
  - clear value. induction params as [|p params IH]; [constructor|]. inversion Hn as [|? ? Hx Hn']; subst. cbn [List.filter].
    destruct (negb (String.eqb (fst p) key)); [|apply IH, Hn']. cbn [map]. constructor; [|apply IH, Hn'].
    intros Hi. apply Hx. apply in_map_iff in Hi as (q & E & Hq). apply filter_In in Hq as [Hq _].
    apply in_map_iff. eauto.
Qed.

Lemma sorted_values_NoDup (params : Values) :
  List.NoDup (map fst params) -> List.NoDup (map fst (sorted_values params)).
Proof.
  intros Hn. unfold sorted_values. rewrite filter_map_keys.
  - unfold sort_Strings. apply NoDup_ListNoDup. rewrite merge_sort_Permutation. apply NoDup_ListNoDup, Hn.
  - intros k Hk. apply last_value_key, (proj1 (sort_in _ _)), Hk.
Qed.
