(* ===== verification/PemCert.v ===== *)
(** Certificates from text ([CertIdentityFromDER] and [CertIdentityFromPEM] of
    [verify/cert.go]): PEM as it is, or URL-encoded as a proxy forwards it. *)

From S2P Require Import Prelude GoStrings Encoding Errors UrlQuery Cert.

#[local] Open Scope list_scope.
#[local] Open Scope string_scope.
#[local] Open Scope Z_scope.

Section PemCert.
(** [x509.ParseCertificate], and the bytes of the first block [pem.Decode] finds. *)
Context (ParseCertificate : list byte -> result goerror Certificate) (pem_block : string -> option (list byte)).

Definition CertIdentityFromDER (der : list byte) : result goerror CertIdentity :=
  match ParseCertificate der with
  | Err err => Err (EWrap "failed to parse certificate: %w" err)
  | Ok cert => Ok (CertIdentityFromX509 cert)
  end.

Definition CertIdentityFromPEM (pemData : string) : result goerror CertIdentity :=
  let escaped :=
    let decoded := default pemData (QueryUnescape pemData) in
    match pem_block decoded with
    | None => Err (EPlain "failed to decode PEM block")
    | Some bytes => CertIdentityFromDER bytes
    end in
  match pem_block pemData with
  | Some bytes =>
      match CertIdentityFromDER bytes with
      | Ok ident => Ok ident
      | Err _ => escaped
      end
  | None => escaped
  end.

(** A text that holds the certificate of this identity. *)
Definition holds (text : string) (ident : CertIdentity) : Prop :=
  exists bytes cert, pem_block text = Some bytes /\ ParseCertificate bytes = Ok cert /\ ident = CertIdentityFromX509 cert.

Lemma holds_DER (text : string) (ident : CertIdentity) :
  holds text ident <-> exists bytes, pem_block text = Some bytes /\ CertIdentityFromDER bytes = Ok ident.
Proof.
  unfold holds, CertIdentityFromDER. split.
  - intros (bytes & cert & -> & E & ->). exists bytes. rewrite E. split; reflexivity.
  - intros (bytes & -> & E). destruct (ParseCertificate bytes) as [cert|] eqn:Ep; [|discriminate].
    injection E as <-. exists bytes, cert. split; [reflexivity|]. split; [exact Ep | reflexivity].
Qed.

(** The identity is that of the certificate in the text, else that of the certificate in
    the unescaped text; a PEM text is read the same raw, plus signs and all, and
    URL-encoded, unless the encoded text is itself a PEM text of another certificate. *)
Theorem CertIdentityFromPEM_spec (text : string) (ident : CertIdentity) :
  (CertIdentityFromPEM text = Ok ident <->
   holds text ident \/
   (forall i, ~ holds text i) /\ holds (default text (QueryUnescape text)) ident) /\
  ((forall i, ~ holds (QueryEscape text) i) -> holds text ident ->
   CertIdentityFromPEM text = Ok ident /\ CertIdentityFromPEM (QueryEscape text) = Ok ident).
Proof.
  assert (G : forall text ident, CertIdentityFromPEM text = Ok ident <->
    holds text ident \/ (forall i, ~ holds text i) /\ holds (default text (QueryUnescape text)) ident).
  { clear text ident. intros text ident. unfold CertIdentityFromPEM.
    assert (Hrest : match pem_block (default text (QueryUnescape text)) with
      | None => Err (EPlain "failed to decode PEM block") | Some bytes => CertIdentityFromDER bytes end = Ok ident <->
      holds (default text (QueryUnescape text)) ident).
    { rewrite holds_DER. destruct (pem_block (default text _)) as [bytes|]; [|split; [discriminate | intros (? & [=] & _)]].
      split; [eauto | intros (? & [= <-] & K); exact K]. }
    destruct (pem_block text) as [bytes|] eqn:Eb; [destruct (CertIdentityFromDER bytes) as [i|err] eqn:Ed|].
    - assert (Hi : holds text i) by (apply holds_DER; eauto). split.
      + intros [= <-]. left. exact Hi.
      + intros [K|[K _]]; [|destruct (K i Hi)]. apply holds_DER in K as (b & K1 & K2). congruence.
    - assert (Hn : forall i, ~ holds text i) by (intros i K; apply holds_DER in K as (b & K1 & K2); congruence).
      rewrite Hrest. split; [auto | intros [K|[_ K]]; [destruct (Hn _ K) | exact K]].
    - assert (Hn : forall i, ~ holds text i) by (intros i K; apply holds_DER in K as (b & K1 & K2); congruence).
      rewrite Hrest. split; [auto | intros [K|[_ K]]; [destruct (Hn _ K) | exact K]]. }
  split; [apply G|]. intros Hn Hi. split; apply G; [left; exact Hi|]. right. split; [exact Hn|].
  rewrite QueryUnescape_Escape. exact Hi.
Qed.
End PemCert.

(** A text read the wrong way round loses its plus signs: it must be tried raw first. *)
Example raw_first : QueryUnescape "-----BEGIN A+B/C%3D" = Some "-----BEGIN A B/C=".
Proof. reflexivity. Qed.
