(* ===== verification/Http.v ===== *)
(** Requests ([net/http]): the method of a request, what the answer to a GET is,
    how much of a body is read, and the interface of a client. *)

From S2P Require Import Prelude GoStrings Encoding Errors Url.

#[local] Open Scope string_scope.
#[local] Open Scope Z_scope.

(** What a GET of a URI gives: no request, no response, or a status code, the
    bytes the body delivers and the error that ends it, if it is not EOF. *)
Inductive http_answer :=
| InvalidURI
| DoFailed (err : goerror)
| Responded (StatusCode : Z) (Body : list byte) (readErr : option goerror).

(** [io.ReadAll(io.LimitReader(body, limit))]: at the limit the reader ends
    before it meets the error. *)
Definition ReadAll_limit (limit : Z) (Body : list byte) (readErr : option goerror) : result goerror (list byte) :=
  if limit <=? Z.of_nat (length Body) then Ok (firstn (Z.to_nat limit) Body)
  else match readErr with Some e => Err e | None => Ok Body end.

(** The bytes of an HTTP token (RFC 9110). *)
Definition is_token_char (c : ascii) : bool :=
  is_digit c || is_lower c || is_upper c || one_of "!#$%&'*+-.^_`|~" c.

Definition validMethod (method : string) : bool :=
  negb (String.eqb method "") && str_forallb is_token_char method.

(** The method [http.NewRequestWithContext] gives a request: the empty one stands
    for GET, one that is not a token is an error. *)
Definition request_method (method : string) : option string :=
  let method := if String.eqb method "" then "GET" else method in
  if validMethod method then Some method else None.

(** [Do] of a GET request with a URL and header fields, over the state of the
    client and of the servers it talks to. *)
Class HttpGet (C : Type) := {
  http_get : C -> string -> list (string * string) -> http_answer * C
}.

(** [http.NewRequestWithContext] of a GET without a body fails exactly when the
    URL does not parse; then nothing is sent. *)
Definition get_request `{UnicodeTables} {C : Type} `{HttpGet C} (c : C) (url : string) (header : list (string * string)) : http_answer * C :=
  match url_Parse url with
  | None => (InvalidURI, c)
  | Some _ => http_get c url header
  end.

Lemma ReadAll_limit_whole (limit : Z) (Body : list byte) :
  Z.of_nat (length Body) < limit -> ReadAll_limit limit Body None = Ok Body.
Proof. intros K. unfold ReadAll_limit. destruct (limit <=? _) eqn:E; [bool_hyps; lia | reflexivity]. Qed.

Lemma ReadAll_limit_exact (limit : Z) (Body : list byte) :
  Z.of_nat (length Body) <= limit -> ReadAll_limit limit Body None = Ok Body.
Proof.
  intros K. unfold ReadAll_limit. destruct (limit <=? _) eqn:E; [|reflexivity]. bool_hyps.
  rewrite firstn_all2 by lia. reflexivity.
Qed.
