(* ===== verification/Ocsp.v ===== *)
(** OCSP checks ([verify/ocsp.go]): a stapled response if it is usable, else a query
    to the certificate's responder. *)

From S2P Require Import Prelude GoStrings Encoding Errors Url Http Cert.

#[local] Open Scope list_scope.
#[local] Open Scope string_scope.
#[local] Open Scope Z_scope.

(** A parsed response ([golang.org/x/crypto/ocsp]); times in nanoseconds. *)
Record ocsp_Response := MkOcspResponse { or_Status : Z; or_ProducedAt : Z; or_NextUpdate : Z; or_RevokedAt : Z }.

(** The library, and the responders a certificate names: a parsed response is signed
    for the certificate by the issuer or a responder the issuer delegates to. *)
Class OcspLib := {
  OCSPServer : Certificate -> list string;
  ParseResponseForCert : list byte -> Certificate -> Certificate -> result goerror ocsp_Response;
  CreateRequest : Certificate -> Certificate -> result goerror (list byte)
}.

Definition ocsp_Good : Z := 0.
Definition ocsp_Revoked : Z := 1.

(** [Do] of a POST with a content type and a body. *)
Class HttpPost (C : Type) := {
  http_post : C -> string -> string -> list byte -> http_answer * C
}.

Inductive OCSPStatus := OCSPStatusGood | OCSPStatusRevoked | OCSPStatusUnknown.

Definition OCSPStatus_String (s : OCSPStatus) : string :=
  match s with OCSPStatusGood => "good" | OCSPStatusRevoked => "revoked" | OCSPStatusUnknown => "unknown" end.

(** Times that are not set are those of the zero [time.Time]: [None]. *)
Record OCSPResult := MkOCSPResult {
  oc_Status_ : OCSPStatus; oc_ProducedAt : option Z; oc_RevokedAt : option Z; oc_Source : string
}.

(** ** Configuration; the HTTP client is its timeout *)

Record OCSPChecker := MkOCSPChecker { oc_httpClient : option Z; oc_timeout : Z }.

Definition OCSPOption : Type := OCSPChecker -> result goerror OCSPChecker.

Definition WithOCSPHTTPClient (client : option Z) : OCSPOption := fun c => Ok (MkOCSPChecker client (oc_timeout c)).
(** It sets the client's timeout too, and panics without a client. *)
Definition WithOCSPTimeout (timeout : Z) : OCSPOption := fun c =>
  match oc_httpClient c with
  | Some _ => Ok (MkOCSPChecker (Some timeout) timeout)
  | None => Err (EPlain "panic: nil pointer dereference")
  end.

Definition NewOCSPChecker (opts : list OCSPOption) : result goerror OCSPChecker :=
  fold_left (fun c opt => let? c := c in opt c) opts (Ok (MkOCSPChecker (Some (5 * second)) (5 * second))).

Section Check.
Context `{UnicodeTables} `{OcspLib} {C : Type} `{HttpPost C}.

(** ** The check *)

(** The result a response stands for. *)
Definition result_of (resp : ocsp_Response) (source : string) : OCSPResult :=
  if or_Status resp =? ocsp_Good then MkOCSPResult OCSPStatusGood (Some (or_ProducedAt resp)) None source
  else if or_Status resp =? ocsp_Revoked
  then MkOCSPResult OCSPStatusRevoked (Some (or_ProducedAt resp)) (Some (or_RevokedAt resp)) source
  else MkOCSPResult OCSPStatusUnknown (Some (or_ProducedAt resp)) None source.

(** [now] is the clock when the response has been parsed. *)
Definition verifyStapledOCSP (now : Z) (raw : list byte) (cert issuer : Certificate) : result goerror OCSPResult :=
  match ParseResponseForCert raw cert issuer with
  | Err err => Err (EWrap "ocsp: failed to parse stapled response: %w" err)
  | Ok resp =>
      guard! negb (or_NextUpdate resp <? now) orelse EPlain "ocsp: stapled response expired at %s" in
      Ok (result_of resp "stapled")
  end.

Definition activeOCSPQuery (st : C) (cert issuer : Certificate) : result goerror OCSPResult * C :=
  match OCSPServer cert with
  | [] => (Ok (MkOCSPResult OCSPStatusUnknown None None "active"), st)
  | ocspURL :: _ =>
      match CreateRequest cert issuer with
      | Err err => (Err (EWrap "ocsp: failed to create request: %w" err), st)
      | Ok ocspReq =>
          match url_Parse ocspURL with
          | None => (Err (EWrap "ocsp: failed to create HTTP request: %w" (EPlain "url.Error")), st)
          | Some _ =>
              let '(answer, st) := http_post st ocspURL "application/ocsp-request" ocspReq in
              (match answer with
               | InvalidURI => Err (EWrap "ocsp: active query failed: %w" (EPlain "url.Error"))
               | DoFailed err => Err (EWrap "ocsp: active query failed: %w" err)
               | Responded StatusCode Body readErr =>
                   guard! StatusCode =? 200 orelse EPlain "ocsp: responder returned status %d" in
                   match ReadAll_limit 1048576 Body readErr with
                   | Err err => Err (EWrap "ocsp: failed to read response: %w" err)
                   | Ok respBytes =>
                       match ParseResponseForCert respBytes cert issuer with
                       | Err err => Err (EWrap "ocsp: failed to parse active response: %w" err)
                       | Ok resp => Ok (result_of resp "active")
                       end
                   end
               end, st)
          end
      end
  end.

Definition CheckOCSP (now : Z) (st : C) (cert issuer : option Certificate) (stapledResp : list byte)
  : result goerror OCSPResult * C :=
  match cert, issuer with
  | None, _ => (Err (EPlain "ocsp: certificate is nil"), st)
  | _, None => (Err (EPlain "ocsp: issuer certificate is nil"), st)
  | Some cert, Some issuer =>
      match stapledResp with
      | [] => activeOCSPQuery st cert issuer
      | _ =>
          match verifyStapledOCSP now stapledResp cert issuer with
          | Ok result => (Ok result, st)
          | Err _ => activeOCSPQuery st cert issuer
          end
      end
  end.

(** ** What a result rests on *)

(** A stapled response that is used. *)
Definition usable_staple (now : Z) (raw : list byte) (cert issuer : Certificate) (resp : ocsp_Response) : Prop :=
  raw <> [] /\ ParseResponseForCert raw cert issuer = Ok resp /\ now <= or_NextUpdate resp.

(** The responder that is asked, and its answer. *)
Definition answered (st st' : C) (cert issuer : Certificate) (resp : ocsp_Response) : Prop :=
  exists url rest req body data readErr, OCSPServer cert = url :: rest /\ CreateRequest cert issuer = Ok req /\
    http_post st url "application/ocsp-request" req = (Responded 200 body readErr, st') /\
    ReadAll_limit 1048576 body readErr = Ok data /\ ParseResponseForCert data cert issuer = Ok resp.

Lemma activeOCSPQuery_Ok (st st' : C) (cert issuer : Certificate) (r : OCSPResult) :
  activeOCSPQuery st cert issuer = (Ok r, st') ->
  (OCSPServer cert = [] /\ st' = st /\ r = MkOCSPResult OCSPStatusUnknown None None "active") \/
  (exists resp, answered st st' cert issuer resp /\ r = result_of resp "active").
Proof.
  unfold activeOCSPQuery. destruct (OCSPServer cert) as [|url rest] eqn:Es.
  { intros [= <- <-]. left. auto. }
  destruct (CreateRequest cert issuer) as [req|err] eqn:Er; [|discriminate].
  destruct (url_Parse url); [|discriminate].
  destruct (http_post st url _ req) as [[|err|code body readErr] st1] eqn:Ep; try discriminate.
  destruct (Z.eqb_spec code 200) as [->|]; [|discriminate].
  destruct (ReadAll_limit 1048576 body readErr) as [data|err] eqn:Ed; [|discriminate].
  destruct (ParseResponseForCert data cert issuer) as [resp|err] eqn:Ea; [|discriminate].
  intros [= <- <-]. right. exists resp. split; [|reflexivity]. exists url, rest, req, body, data, readErr. auto 6.
Qed.

Lemma result_status (resp : ocsp_Response) (source : string) :
  (oc_Status_ (result_of resp source) = OCSPStatusGood <-> or_Status resp = ocsp_Good) /\
  (oc_Status_ (result_of resp source) = OCSPStatusRevoked <-> or_Status resp = ocsp_Revoked) /\
  oc_Source (result_of resp source) = source.
Proof.
  unfold result_of, ocsp_Good, ocsp_Revoked.
  destruct (Z.eqb_spec (or_Status resp) 0) as [E|E]; [rewrite E; repeat split; intros; cbn in *; congruence|].
  destruct (Z.eqb_spec (or_Status resp) 1) as [F|F]; [rewrite F; repeat split; intros; cbn in *; congruence|].
  repeat split; intros; cbn in *; congruence.
Qed.

(** What an OCSP verdict rests on. A usable staple (it parses for this certificate and
    issuer and its next update has not passed) decides alone and no responder is asked,
    so a fresh stapled revocation is never overruled. Otherwise only the first responder
    of the certificate counts: "good" is reported only on a response that says good,
    parsed for this certificate and issuer, from the staple or from a responder that
    answered 200, and "revoked" likewise; a certificate without a responder gives
    "unknown" and no error. *)
Theorem CheckOCSP_sound (now : Z) (st : C) (cert issuer : Certificate) (stapledResp : list byte) :
  let '(r, st') := CheckOCSP now st (Some cert) (Some issuer) stapledResp in
  (forall resp, usable_staple now stapledResp cert issuer resp -> r = Ok (result_of resp "stapled") /\ st' = st) /\
  (forall res, r = Ok res -> oc_Source res = "active" ->
     (forall resp, ~ usable_staple now stapledResp cert issuer resp) /\
     (oc_Status_ res <> OCSPStatusUnknown ->
      exists resp, answered st st' cert issuer resp /\ res = result_of resp "active")) /\
  (forall res, r = Ok res -> oc_Status_ res = OCSPStatusGood ->
     exists resp, or_Status resp = ocsp_Good /\
       (usable_staple now stapledResp cert issuer resp \/ answered st st' cert issuer resp)) /\
  ((forall resp, ~ usable_staple now stapledResp cert issuer resp) -> OCSPServer cert = [] ->
     exists res, r = Ok res /\ oc_Status_ res = OCSPStatusUnknown).
Proof.
  assert (Hst : (exists resp, usable_staple now stapledResp cert issuer resp /\
                   CheckOCSP now st (Some cert) (Some issuer) stapledResp = (Ok (result_of resp "stapled"), st)) \/
                ((forall resp, ~ usable_staple now stapledResp cert issuer resp) /\
                   CheckOCSP now st (Some cert) (Some issuer) stapledResp = activeOCSPQuery st cert issuer)).
  { unfold CheckOCSP, usable_staple, verifyStapledOCSP. destruct stapledResp as [|b raw]; [right; tauto|].
    destruct (ParseResponseForCert (b :: raw) cert issuer) as [resp|err] eqn:E.
    - destruct (Z.ltb_spec (or_NextUpdate resp) now) as [L|L]; cbn [negb].
      + right. split; [|reflexivity]. intros resp' (_ & [= <-] & L'). lia.
      + left. exists resp. split; [|reflexivity]. repeat split; [discriminate | exact L].
    - right. split; [|reflexivity]. intros resp (_ & E' & _). discriminate E'. }
  destruct Hst as [(resp & Hu & ->)|(Hn & ->)].
  - destruct (result_status resp "stapled") as (Hg & _ & Hs). split; [|split; [|split]].
    + intros resp' (_ & E & _). destruct Hu as (_ & E' & _). split; congruence.
    + intros res [= <-] K. congruence.
    + intros res [= <-] K. exists resp. split; [apply Hg, K | left; exact Hu].
    + intros K. destruct (K resp Hu).
  - destruct (activeOCSPQuery st cert issuer) as [r st'] eqn:E. split; [|split; [|split]].
    + intros resp Hu. destruct (Hn resp Hu).
    + intros res -> _. split; [exact Hn|]. intros K.
      apply activeOCSPQuery_Ok in E as [(_ & _ & ->)|E]; [destruct (K eq_refl) | exact E].
    + intros res -> K. apply activeOCSPQuery_Ok in E as [(_ & _ & ->)|(resp & Ha & ->)]; [discriminate K|].
      exists resp. split; [apply (result_status resp "active"), K | right; exact Ha].
    + intros _ Es. unfold activeOCSPQuery in E. rewrite Es in E. injection E as <- <-. eexists. split; reflexivity.
Qed.
End Check.

(** ** Examples *)

Section Examples.
#[local] Existing Instance plain_tables.

(** A response is its status, and its next update in seconds. *)
#[local] Instance toy_ocsp : OcspLib := {|
  OCSPServer cert := ["http://ocsp.example"];
  ParseResponseForCert raw cert issuer :=
    match raw with
    | [s; t] => Ok (MkOcspResponse (byte_Z s) 0 (byte_Z t) 7)
    | _ => Err (EPlain "asn1: structure error")
    end;
  CreateRequest cert issuer := Ok []
|}.
#[local] Instance toy_post : HttpPost http_answer := {| http_post st url ct body := (st, st) |}.

Definition toy_cert : Certificate := MkCertificate [x02] [x07] "a" [] [] 0 100 5 [] [].
Definition ocsp_verdict (now : Z) (staple answer : list byte) : option (OCSPStatus * string) :=
  match fst (CheckOCSP now (Responded 200 answer None) (Some toy_cert) (Some toy_cert) staple) with
  | Ok r => Some (oc_Status_ r, oc_Source r)
  | Err _ => None
  end.

(** A revocation stapled in time counts; once its next update has passed, an older
    "good" from the responder is taken, whatever its next update. *)
Example ocsp_ex :
  (ocsp_verdict 5 [x01; x05] [x00; x01], ocsp_verdict 6 [x01; x05] [x00; x01], ocsp_verdict 6 [] [x09]) =
  (Some (OCSPStatusRevoked, "stapled"), Some (OCSPStatusGood, "active"), None).
Proof. reflexivity. Qed.
End Examples.
