(* ===== verification/AgentCard.v ===== *)
(** Agent Card verification ([verify/agent_card.go]): the card is fetched, its
    capabilities hash checked, and its claims listed. *)

From S2P Require Import Prelude GoStrings Encoding Sha256 Errors Json Jcs TlogJson GoJson ApiTypes Seal Trust Url Http.

#[local] Open Scope list_scope.
#[local] Open Scope string_scope.
#[local] Open Scope Z_scope.

Section AgentCard.
Context `{UnicodeTables} `{SignatureLib} {C : Type} `{HttpGet C}.

(** The HTTP client is its timeout; it and the network are the state [C]. *)
Record AgentCardVerifier := MkCardVerifier { cv_producerKeys : option ProducerKeyLookup; cv_httpClient : Z }.

Definition AgentCardVerifierOption : Type := AgentCardVerifier -> AgentCardVerifier.

Definition WithAgentCardHTTPClient (client : Z) : AgentCardVerifierOption := fun v =>
  MkCardVerifier (cv_producerKeys v) client.
(** The logger is not modelled. *)
Definition WithAgentCardLogger : AgentCardVerifierOption := fun v => v.

Definition NewAgentCardVerifier (producerKeys : option ProducerKeyLookup) (opts : list AgentCardVerifierOption)
  : AgentCardVerifier :=
  fold_left (fun v opt => opt v) opts (MkCardVerifier producerKeys (3 * second)).

(** [expectedHash] without its first matching prefix, if something is left. *)
Definition strip_hash_prefix (expectedHash : string) : string :=
  match List.find (fun prefix => (String.length prefix <? String.length expectedHash)%nat && HasPrefix expectedHash prefix)
          ["SHA256:"; "sha256:"] with
  | Some prefix => str_drop (String.length prefix) expectedHash
  | None => expectedHash
  end.

Definition verifyCapabilitiesHash (cardBody : list byte) (expectedHash : string) : bool :=
  match JCSCanonicalize (string_of_bytes cardBody) with
  | Err _ => false
  | Ok canonical => String.eqb (hex_EncodeToString (sha256 (bytes_of_string canonical))) (strip_hash_prefix expectedHash)
  end.

Definition maxCardSize : Z := 1048576.

Definition fetchAgentCard (st : C) (url : string) : result goerror (list byte) * C :=
  let '(answer, st) := get_request st url [] in
  (match answer with
   | InvalidURI => Err (EPlain "url.Error")
   | DoFailed err => Err err
   | Responded StatusCode Body readErr =>
       guard! StatusCode =? 200 orelse EPlain "agent card fetch returned status %d" in
       ReadAll_limit maxCardSize Body readErr
   end, st).

(** [claim[key].(string)], or the empty string. *)
Definition claim_string (claim : goval) (key : string) : string :=
  match claim with
  | VMap entries => match last_entry key entries with Some (VAny (JString s)) => s | _ => "" end
  | _ => ""
  end.

Definition card_claims (cardBody : list byte) : list VerifiableClaimResult :=
  match Unmarshal_as TrustCard (string_of_bytes cardBody) (zero TrustCard) with
  | (_, false) => []
  | (card, true) =>
      match get TrustCard "verifiableClaims" card with
      | VSlice claims => map (fun claim => MkClaimResult (claim_string claim "type") (claim_string claim "issuer") true "") claims
      | _ => []
      end
  end.

(** The result comes with the error, too. *)
Definition VerifyAgentCard (v : AgentCardVerifier) (st : C) (agentCardURL capabilitiesHash : string)
  : AgentCardResult * option goerror * C :=
  match fetchAgentCard st agentCardURL with
  | (Err err, st) =>
      (MkAgentCardResult false false false [],
       Some (NewANSErrorWithCause CodeAgentCardFetchFailed SeveritySoft StageAgentCard "failed to fetch agent card" err), st)
  | (Ok cardBody, st) =>
      (MkAgentCardResult (is_some (cv_producerKeys v))
         (negb (String.eqb capabilitiesHash "") && verifyCapabilitiesHash cardBody capabilitiesHash)
         false (card_claims cardBody), None, st)
  end.

(** [pubKey] may be nil. *)
Definition VerifyAgentCardSignature (signedPayload : list byte) (pubKey : option ec_key) : result goerror unit :=
  match signedPayload, pubKey with
  | [], _ => Err (NewANSError CodeAgentCardSigInvalid SeveritySoft StageAgentCard "empty signed payload")
  | _, None => Err (NewANSError CodeAgentCardSigInvalid SeveritySoft StageAgentCard "no public key for Agent Card verification")
  | _, Some _ => Ok tt
  end.

(** ** The capabilities hash *)

(** The card that the URL gives: a 200, and the first MB of its body. *)
Definition card_at (st : C) (url : string) (data : list byte) : Prop :=
  exists body readErr, fst (get_request st url []) = Responded 200 body readErr /\
    ReadAll_limit maxCardSize body readErr = Ok data.

Lemma fetchAgentCard_Ok (st : C) (url : string) (data : list byte) :
  fst (fetchAgentCard st url) = Ok data <-> card_at st url data.
Proof.
  unfold fetchAgentCard, card_at. destruct (get_request st url []) as [answer st']. cbn [fst]. split.
  - destruct answer as [|err|code body readErr]; try discriminate. destruct (Z.eqb_spec code 200) as [->|]; [|discriminate].
    intros E. exists body, readErr. auto.
  - intros (body & readErr & -> & E). exact E.
Qed.

(** When the capabilities hash of a card counts as valid: exactly when a hash was
    given, the card could be fetched with status 200, and the lower-case hex SHA-256 of
    the canonical JSON of its first megabyte equals the hash, without an optional
    [SHA256:] or [sha256:] in front; so layout, member order and number spelling of the
    card do not matter, and an upper-case digest is refused. A failed fetch is a soft
    error and an empty result. *)
Theorem VerifyAgentCard_hash (v : AgentCardVerifier) (st : C) (agentCardURL capabilitiesHash : string) :
  let '(r, err, st') := VerifyAgentCard v st agentCardURL capabilitiesHash in
  (ac_CapHashValid r = true <->
   capabilitiesHash <> "" /\ exists data j w, card_at st agentCardURL data /\
     Decode (string_of_bytes data) = Ok j /\ canon j = Ok w /\
     strip_hash_prefix capabilitiesHash = hex_EncodeToString (sha256 (bytes_of_string (print w)))) /\
  (err = None <-> exists data, card_at st agentCardURL data) /\
  (err <> None -> r = MkAgentCardResult false false false [] /\
     exists msg cause, err = Some (EANS CodeAgentCardFetchFailed SeveritySoft StageAgentCard msg [] (Some cause))).
Proof.
  unfold VerifyAgentCard. pose proof (fetchAgentCard_Ok st agentCardURL) as F.
  destruct (fetchAgentCard st agentCardURL) as [[data|e] st']; cbn [fst] in F.
  - assert (Hd : card_at st agentCardURL data) by (apply F; reflexivity).
    cbn [ac_CapHashValid]. split; [|split; [split; eauto | congruence]].
    rewrite andb_true_iff, negb_true_iff, String.eqb_neq. unfold verifyCapabilitiesHash. split.
    + intros [Hn Hv]. split; [exact Hn|]. destruct (JCSCanonicalize _) as [c|] eqn:J; [|discriminate].
      apply JCSCanonicalize_Ok in J as (j & w & Dj & Cj & ->). exists data, j, w.
      apply String.eqb_eq in Hv. auto.
    + intros [Hn (data' & j & w & Hd' & Dj & Cj & E)]. split; [exact Hn|].
      apply F in Hd'. injection Hd' as <-.
      rewrite (proj2 (JCSCanonicalize_Ok _ (print w))) by eauto. apply String.eqb_eq. congruence.
  - cbn [ac_CapHashValid]. split; [|split].
    + split; [discriminate|]. intros [_ (data & j & w & Hd & _)]. apply F in Hd. discriminate Hd.
    + split; [discriminate|]. intros [data Hd]. apply F in Hd. discriminate Hd.
    + intros _. split; [reflexivity|]. eexists _, _. reflexivity.
Qed.
End AgentCard.

(** ** Examples *)

Section Examples.
#[local] Existing Instance plain_tables.
#[local] Existing Instance symbolic_signatures.
#[local] Instance toy_card_server : HttpGet string := {|
  http_get st url header := (Responded 200 (bytes_of_string (with_quotes st)) None, st)
|}.

Definition card_result (card hash : string) : AgentCardResult :=
  fst (fst (VerifyAgentCard (NewAgentCardVerifier (Some (fun _ => Err (EPlain "no key"))) []) card "https://a.example/card" hash)).

Definition card_hash (text : string) : string :=
  hex_EncodeToString (sha256 (bytes_of_string (with_quotes text))).

(** The claims of a card are all reported valid, and so is its signature when keys
    are configured: nothing is verified. *)
Example card_placeholders :
  card_result "{'version': '1', 'verifiableClaims':[{'type':'iso27001','issuer':'nobody'}]}"
    ("sha256:" ++ card_hash "{'verifiableClaims':[{'issuer':'nobody','type':'iso27001'}],'version':'1'}") =
  MkAgentCardResult true true false [MkClaimResult "iso27001" "nobody" true ""].
Proof. vm_compute. reflexivity. Qed.

Example card_signature_unchecked : VerifyAgentCardSignature [x00] (Some x01) = Ok tt.
Proof. reflexivity. Qed.
End Examples.
