(* ===== verification/Records.v ===== *)
(** DNS TXT records of the protocol: [verify/ati_record.go] (discovery records)
    and [verify/badge_record.go] (badge records), with the field splitter they
    share and a printer of canonical records for the round trips. *)

From S2P Require Import Prelude GoStrings Encoding Errors Models Url.

#[local] Open Scope string_scope.
#[local] Open Scope Z_scope.

(** ** [parseSemicolonFields] *)

Definition field_step (result : gmap string string) (part : string) : gmap string string :=
  let part := TrimSpace part in
  if String.eqb part "" then result
  else match Cut part "=" with
       | None => result
       | Some (k, v) => <[TrimSpace k := TrimSpace v]> result
       end.

Definition parseSemicolonFields (txt : string) : gmap string string :=
  fold_left field_step (Split txt ";") ∅.

(** Indexing a Go map: the zero value when the key is absent. *)
Definition field (m : gmap string string) (k : string) : string := default "" (m !! k).

(** The first non-empty of several fields. *)
Definition or_field (s : string) (alt : string) : string := if String.eqb s "" then alt else s.

(** ** [verify/ati_record.go] *)

Inductive ATIRecordMode := ATIRecordModeCard | ATIRecordModeDirect.

Record ATIRecord := MkATIRecord {
  rec_ID : string; rec_RA : string; rec_Version : Version;
  rec_Mode : ATIRecordMode; rec_Protocol : string; rec_URL : string
}.

Definition ATIRecordMode_String (m : ATIRecordMode) : string :=
  match m with ATIRecordModeCard => "card" | ATIRecordModeDirect => "direct" end.

Definition agents_marker : string := "/agents/".

Definition extractAgentIDFromURL (rawURL : string) : string :=
  match Index rawURL agents_marker with
  | None => ""
  | Some idx =>
      let rest := str_drop (idx + String.length agents_marker) rawURL in
      match Index rest "/" with
      | Some (S k) => str_take (S k) rest
      | _ => rest
      end
  end.

Definition ParseATIRecord (txt : string) : result goerror ATIRecord :=
  let fields := parseSemicolonFields txt in
  guard! (match fields !! "v" with Some v => String.eqb v "ati1" | None => false end)
    orelse EPlain "missing or invalid version field: expected v=ati1" in
  let id := field fields "id" in
  let ra := field fields "ra" in
  let versionStr := or_field (or_field (field fields "av") (field fields "version"))
                      (field fields "ver") in
  guard! negb (String.eqb versionStr "")
    orelse EPlain "missing required field: av (or version/ver)" in
  match ParseVersion versionStr with
  | Err e => Err (EWrap "invalid version %q: %w" e)
  | Ok version =>
      let protocol := or_field (field fields "p") (field fields "proto") in
      let recordURL := or_field (field fields "u") (field fields "url") in
      let id := if String.eqb id "" && negb (String.eqb recordURL "")
                then extractAgentIDFromURL recordURL else id in
      let modeStr := or_field (field fields "mode") (field fields "m") in
      if negb (String.eqb modeStr "") then
        if String.eqb modeStr "card"
        then Ok (MkATIRecord id ra version ATIRecordModeCard protocol recordURL)
        else if String.eqb modeStr "direct"
        then Ok (MkATIRecord id ra version ATIRecordModeDirect protocol recordURL)
        else Err (EPlain "invalid mode %q: must be 'card' or 'direct'")
      else Ok (MkATIRecord id ra version ATIRecordModeDirect protocol recordURL)
  end.

(** [FilterATIRecordsByProtocol]; the elements are pointers, nil being [None].
    Only [protocol] is lowered before the case-insensitive comparison. *)
Definition FilterATIRecordsByProtocol `{UnicodeTables} (records : list (option ATIRecord))
    (protocol : string) : list (option ATIRecord) :=
  if String.eqb protocol "" then records
  else
    let want := ToLower protocol in
    List.filter (fun r =>
      match r with
      | None => false
      | Some r => String.eqb (rec_Protocol r) "" || EqualFold (rec_Protocol r) want
      end) records.

(** ** [verify/badge_record.go] *)

Inductive BadgeRecordSource := BadgeRecordSourceATIBadge | BadgeRecordSourceRaBadge.

Definition BadgeRecordSource_String (s : BadgeRecordSource) : string :=
  match s with
  | BadgeRecordSourceATIBadge => "ati-badge"
  | BadgeRecordSourceRaBadge => "ra-badge"
  end.

Record ATIBadgeRecord := MkATIBadgeRecord {
  FormatVersion : string;
  br_Version : option Version;
  br_URL : string;
  br_Source : BadgeRecordSource
}.

Definition getValidFormatVersions : list string := ["ati-badge1"; "ra-badge1"].
Definition isValidFormatVersion (v : string) : bool :=
  existsb (String.eqb v) getValidFormatVersions.

Definition ParseATIBadgeRecord `{UnicodeTables} (txt : string) : result goerror ATIBadgeRecord :=
  guard! negb (String.eqb txt "") orelse EPlain "empty TXT record" in
  let fields := parseSemicolonFields txt in
  let formatVersion := field fields "v" in
  guard! negb (String.eqb formatVersion "") orelse EPlain "missing format version (v=)" in
  guard! isValidFormatVersion formatVersion orelse EPlain "unsupported format version: %s" in
  let versionStr := or_field (field fields "av") (field fields "version") in
  let version :=
    if negb (String.eqb versionStr "")
    then match ParseVersion versionStr with Ok v => Some v | Err _ => None end
    else None in
  guard! negb (String.eqb formatVersion "ati-badge1" && negb (is_some version))
    orelse EPlain "missing required field: version" in
  let badgeURL := or_field (field fields "u") (field fields "url") in
  guard! negb (String.eqb badgeURL "") orelse EPlain "missing URL (url= or u=)" in
  match url_Parse badgeURL with
  | None => Err (EPlain "invalid URL: %w")
  | Some parsed =>
      guard! String.eqb (Scheme parsed) "https" orelse EPlain "invalid URL: must use https scheme" in
      guard! negb (String.eqb (Host parsed) "") orelse EPlain "invalid URL: missing host" in
      guard! negb (is_some (User parsed)) orelse EPlain "invalid URL: userinfo not allowed" in
      guard! String.eqb (Fragment parsed) "" orelse EPlain "invalid URL: fragment not allowed" in
      Ok (MkATIBadgeRecord formatVersion version badgeURL BadgeRecordSourceATIBadge)
  end.

(** ** The canonical text of a record *)

(** Printable ASCII without the separator. *)
Definition is_visible (c : ascii) : bool :=
  (33 <=? code c) && (code c <=? 126) && negb (Ascii.eqb c ";").

Definition visible (s : string) : Prop := str_forallb is_visible s = true.

Definition field_wf (kv : string * string) : Prop :=
  visible (fst kv) /\ visible (snd kv) /\ contains_char "=" (fst kv) = false.

Definition field_text (kv : string * string) : string := fst kv ++ "=" ++ snd kv.

(** [k1=v1; k2=v2; ...] *)
Definition print_fields (l : list (string * string)) : string := Join (map field_text l) "; ".

Lemma trim_left_none (fuel : nat) (s : string) : leading_space s = None -> trim_left fuel s = s.
Proof. intros E. destruct fuel; simpl; [reflexivity|]. rewrite E. reflexivity. Qed.

Lemma trim_right_none (fuel : nat) (s : string) : trailing_space s = None -> trim_right fuel s = s.
Proof. intros E. destruct fuel; simpl; [reflexivity|]. rewrite E. reflexivity. Qed.

Lemma TrimSpace_clean (s : string) :
  leading_space s = None -> trailing_space s = None -> TrimSpace s = s.
Proof.
  intros H1 H2. unfold TrimSpace. rewrite trim_left_none by exact H1. apply trim_right_none, H2.
Qed.

Lemma TrimSpace_blank (s : string) :
  leading_space s = None -> trailing_space s = None -> TrimSpace (" " ++ s) = s.
Proof.
  intros H1 H2. unfold TrimSpace.
  assert (E : trim_left (String.length (" " ++ s)) (" " ++ s) = s).
  { change (String.length (" " ++ s)) with (S (String.length s)). cbn [trim_left].
    change (leading_space (" " ++ s)) with (Some 1%nat). cbn -[leading_space trim_left].
    apply trim_left_none, H1. }
  rewrite E. apply trim_right_none, H2.
Qed.

Lemma space_not_visible (e : string) :
  In e space_encodings -> str_forallb is_visible e = false.
Proof.
  intros He. apply negb_true_iff. revert e He. apply forallb_forall. vm_compute. reflexivity.
Qed.

Lemma visible_app (s t : string) : visible (s ++ t) <-> visible s /\ visible t.
Proof. unfold visible. rewrite str_forallb_app. apply andb_true_iff. Qed.

Lemma visible_leading (s : string) : visible s -> leading_space s = None.
Proof.
  intros H. unfold leading_space. destruct (List.find _ _) as [e|] eqn:E; [|reflexivity].
  apply find_Some_split in E as [He Hp]. apply HasPrefix_spec in Hp as [t ->].
  apply visible_app in H as [H _]. unfold visible in H.
  rewrite space_not_visible in H by exact He. discriminate.
Qed.

Lemma visible_trailing (s : string) : visible s -> trailing_space s = None.
Proof.
  intros H. unfold trailing_space. destruct (List.find _ _) as [e|] eqn:E; [|reflexivity].
  apply find_Some_split in E as [He Hp]. apply HasSuffix_spec in Hp as [t ->].
  apply visible_app in H as [_ H]. unfold visible in H.
  rewrite space_not_visible in H by exact He. discriminate.
Qed.

Lemma visible_no_semicolon (s : string) : visible s -> contains_char ";" s = false.
Proof.
  intros H. unfold contains_char. apply negb_false_iff. revert H. apply str_forallb_impl.
  unfold is_visible. intros c Hc. bool_hyps. apply negb_true_iff. assumption.
Qed.

Lemma visible_Trim (s : string) : visible s -> TrimSpace s = s.
Proof. intros H. apply TrimSpace_clean; [apply visible_leading | apply visible_trailing]; exact H. Qed.

Lemma field_text_visible (kv : string * string) : field_wf kv -> visible (field_text kv).
Proof. intros (H1 & H2 & _). unfold field_text. rewrite !visible_app. repeat split; auto. Qed.

(** One printed field, with or without the blank that follows a separator. *)
Lemma field_step_text (m : gmap string string) (pre : string) (kv : string * string) :
  field_wf kv -> pre = "" \/ pre = " " ->
  field_step m (pre ++ field_text kv) = <[fst kv := snd kv]> m.
Proof.
  intros Hkv Hpre. pose proof (field_text_visible kv Hkv) as Hv. unfold field_step.
  assert (E : TrimSpace (pre ++ field_text kv) = field_text kv).
  { destruct Hpre as [-> | ->]; [apply visible_Trim, Hv|].
    apply TrimSpace_blank; [apply visible_leading | apply visible_trailing]; exact Hv. }
  rewrite E. destruct Hkv as (Hk & Hw & He). destruct kv as [k v]. cbn [fst snd] in *.
  replace (String.eqb (field_text (k, v)) "") with false.
  2: { symmetry. apply String.eqb_neq. unfold field_text. destruct k; discriminate. }
  unfold field_text. cbn [fst snd]. change ("=" ++ v) with (String "=" v).
  rewrite (Cut_app k v "=" He), !visible_Trim by assumption. reflexivity.
Qed.

Lemma fold_fields (l : list (string * string)) (pre : string) (m : gmap string string) :
  Forall field_wf l -> pre = "" \/ pre = " " ->
  fold_left field_step (Split (pre ++ print_fields l) ";") m
  = fold_left (fun m kv => <[fst kv := snd kv]> m) l m.
Proof.
  revert pre m. induction l as [|kv l IH]; intros pre m Hl Hpre.
  - destruct Hpre as [-> | ->]; reflexivity.
  - inversion Hl as [|? ? Hkv Hrest]; subst.
    assert (Hns : contains_char ";" (pre ++ field_text kv) = false).
    { pose proof (visible_no_semicolon _ (field_text_visible kv Hkv)) as H.
      destruct Hpre as [-> | ->]; exact H. }
    destruct l as [|kv' l].
    + unfold print_fields. cbn [map Join]. rewrite Split_single by exact Hns.
      cbn [fold_left]. rewrite field_step_text by assumption. reflexivity.
    + unfold print_fields. cbn [map]. rewrite Join_cons by discriminate.
      change (map field_text (kv' :: l)) with (map field_text (kv' :: l)).
      replace (pre ++ field_text kv ++ "; " ++ Join (field_text kv' :: map field_text l) "; ")
        with ((pre ++ field_text kv) ++ String ";" (" " ++ print_fields (kv' :: l)))
        by (rewrite str_app_assoc; reflexivity).
      rewrite Split_app by exact Hns. cbn [fold_left].
      rewrite field_step_text by assumption. apply (IH " "); auto.
Qed.

Lemma parse_print_fields (l : list (string * string)) :
  Forall field_wf l ->
  parseSemicolonFields (print_fields l) = fold_left (fun m kv => <[fst kv := snd kv]> m) l ∅.
Proof. intros Hl. apply (fold_fields l "" ∅ Hl). auto. Qed.

Lemma digits_visible (s : string) : str_forallb is_digit s = true -> visible s.
Proof.
  apply str_forallb_impl. intros c H.
  assert (E : negb (is_digit c) || is_visible c = true)
    by by_chars (fun c => negb (is_digit c) || is_visible c) c.
  rewrite H in E. exact E.
Qed.

Lemma Version_String_visible (v : Version) : visible (Version_String v).
Proof.
  unfold Version_String. rewrite !visible_app.
  repeat split; try reflexivity; apply digits_visible, fmt_d_digits.
Qed.

(** The canonical discovery record. *)
Definition print_ATIRecord (r : ATIRecord) : string :=
  print_fields [("v", "ati1"); ("id", rec_ID r); ("ra", rec_RA r);
                ("av", Version_String (rec_Version r)); ("mode", ATIRecordMode_String (rec_Mode r));
                ("p", rec_Protocol r); ("u", rec_URL r)].

(** The canonical badge record. *)
Definition print_badge (format : string) (v : Version) (u : string) : string :=
  print_fields [("v", format); ("av", Version_String v); ("u", u)].

(** (round trip) a discovery record with printable fields, a version of
    [uint32] components and an explicit agent ID, written in the canonical
    [k=v; k=v] form, parses back to itself. *)
Theorem ParseATIRecord_print (r : ATIRecord) :
  visible (rec_ID r) -> visible (rec_RA r) -> visible (rec_Protocol r) -> visible (rec_URL r) ->
  Version_wf (rec_Version r) -> rec_ID r <> "" ->
  ParseATIRecord (print_ATIRecord r) = Ok r.
Proof.
  intros Hid Hra Hp Hu Hv Hne. unfold ParseATIRecord, print_ATIRecord.
  rewrite parse_print_fields.
  2: { repeat apply List.Forall_cons; try apply List.Forall_nil;
       unfold field_wf; repeat apply conj; cbn [fst snd]; try reflexivity; auto using Version_String_visible.
       destruct (rec_Mode r); reflexivity. }
  cbn [fold_left fst snd]. unfold field. simplify_map_eq. cbn [default].
  assert (Hvs : String.eqb (Version_String (rec_Version r)) "" = false) by reflexivity.
  unfold or_field at 3 4. cbn [String.eqb Ascii.eqb negb]. 
  unfold or_field. rewrite !Hvs. cbn [negb]. rewrite ParseVersion_String by exact Hv.
  apply String.eqb_neq in Hne. rewrite Hne. cbn [andb]. simplify_map_eq. cbn [default].
  assert (Hor : forall s, (if String.eqb s "" then "" else s) = s).
  { intros s. destruct (String.eqb s "") eqn:E; bool_hyps; congruence. }
  destruct r as [id ra v mode p u]. cbn in *. destruct mode; cbn; rewrite ?Hor; reflexivity.
Qed.

Definition sample_record : ATIRecord :=
  MkATIRecord "a-1" "aliyun" (MkVersion 1 2 3) ATIRecordModeCard "a2a"
    "https://platform.example.com/agents/a-1/a2a".

Lemma ParseATIRecord_print_witness :
  ParseATIRecord "v=ati1; id=a-1; ra=aliyun; av=v1.2.3; mode=card; p=a2a; u=https://platform.example.com/agents/a-1/a2a"
  = Ok sample_record.
Proof.
  apply (ParseATIRecord_print sample_record); try (vm_compute; reflexivity);
    [vm_compute; intuition discriminate | discriminate].
Defined.

(** An accepted badge URL: https, a host, no credentials, no fragment. *)
Definition badge_url_safe `{UnicodeTables} (s : string) : Prop :=
  exists u : URL, url_Parse s = Some u /\ Scheme u = "https" /\ Host u <> "" /\
    User u = None /\ Fragment u = "".

(** (what an accepted badge record guarantees) its format version is one
    of the two known ones, an [ati-badge1] record carries a well-formed version,
    the source is not claimed to be the legacy one, and its URL is an https URL
    with a host, without credentials and without fragment. *)
Theorem ParseATIBadgeRecord_safe `{UnicodeTables} (txt : string) (b : ATIBadgeRecord) :
  ParseATIBadgeRecord txt = Ok b ->
  In (FormatVersion b) getValidFormatVersions /\
  (FormatVersion b = "ati-badge1" -> br_Version b <> None) /\
  (forall v, br_Version b = Some v -> Version_wf v) /\
  br_Source b = BadgeRecordSourceATIBadge /\ badge_url_safe (br_URL b).
Proof.
  unfold ParseATIBadgeRecord. cbv zeta.
  set (fv := field _ "v"). set (vs := or_field _ (field _ "version")). set (u := or_field _ (field _ "url")).
  set (ver := if negb (String.eqb vs "") then _ else None).
  assert (Hver : forall v, ver = Some v -> Version_wf v).
  { unfold ver. intros v Hv. repeat case_match_in Hv. injection Hv as <-.
    eapply ParseVersion_wf; eassumption. }
  intros E. repeat case_match_in E. injection E as <-. cbn [FormatVersion br_Version br_Source br_URL].
  split; [|split; [|split; [exact Hver | split; [reflexivity|]]]].
  - unfold isValidFormatVersion in *.
    match goal with F : existsb _ _ = true |- _ => apply existsb_exists in F as (x & Hx & Hq) end.
    apply String.eqb_eq in Hq as ->. exact Hx.
  - intros Hf Hn. rewrite Hf, Hn in *. discriminate.
  - bool_hyps. match goal with F : url_Parse u = Some ?p |- _ => exists p end.
    repeat split; auto. destruct (User _); [discriminate | reflexivity].
Qed.

Lemma ParseATIBadgeRecord_safe_witness :
  badge_url_safe (H := plain_tables) "https://tl.example/v1/agents/1".
Proof.
  apply (ParseATIBadgeRecord_safe (H := plain_tables)
    "v=ati-badge1; av=1.0.0; url=https://tl.example/v1/agents/1"
    (MkATIBadgeRecord "ati-badge1" (Some (MkVersion 1 0 0)) "https://tl.example/v1/agents/1"
       BadgeRecordSourceATIBadge)).
  vm_compute. reflexivity.
Defined.

(** A record kept by the protocol filter serves the protocol or is a wildcard;
    every such record is kept, in order. *)
Lemma FilterATIRecordsByProtocol_spec `{UnicodeTables} (rs : list (option ATIRecord)) (p : string)
    (r : option ATIRecord) :
  p <> "" ->
  In r (FilterATIRecordsByProtocol rs p) <->
  In r rs /\ exists a, r = Some a /\
    (rec_Protocol a = "" \/ EqualFold (rec_Protocol a) (ToLower p) = true).
Proof.
  intros Hp. unfold FilterATIRecordsByProtocol. apply String.eqb_neq in Hp. rewrite Hp.
  rewrite List.filter_In. apply and_iff_compat_l. destruct r as [a|].
  - rewrite orb_true_iff, String.eqb_eq. split; [eauto | intros (a' & [= <-] & H'); exact H'].
  - split; [discriminate | intros (a & [=] & _)].
Qed.
