(* ===== verification/VersionPolicy.v ===== *)
(** Version selection ([ati/version_policy.go] and [normalizeVersionExpr] of
    [ati/mtls_client.go]) over the discovery records of an agent. The semantic
    version library is a parameter. *)

From Stdlib Require Import Sorting.Permutation.
From S2P Require Import Prelude GoStrings Errors Models Url Records.

#[local] Open Scope string_scope.
#[local] Open Scope Z_scope.

(** [github.com/Masterminds/semver]: parsing, the two comparisons used, and
    constraints. *)
Class SemverLib := {
  semver : Type;
  NewVersion : string -> option semver;
  semver_Equal : semver -> semver -> bool;
  GreaterThan : semver -> semver -> bool;
  semver_String : semver -> string;
  Constraints : Type;
  NewConstraint : string -> option Constraints;
  Constraint_Check : Constraints -> semver -> bool
}.

(** Precedence is a total preorder, and [Equal] is its equivalence. *)
Class SemverLaws `{SemverLib} := {
  precedence : semver -> semver -> comparison;
  precedence_antisym a b : precedence a b = CompOpp (precedence b a);
  precedence_trans a b c : precedence a b = Lt -> precedence b c = Lt -> precedence a c = Lt;
  precedence_eq a b c : precedence a b = Eq -> precedence a c = precedence b c;
  semver_Equal_spec a b : semver_Equal a b = true <-> precedence a b = Eq;
  GreaterThan_spec a b : GreaterThan a b = true <-> precedence b a = Lt
}.

(** ** The policies *)

Inductive VersionPolicy :=
| VersionPolicyExact | VersionPolicyLatest | VersionPolicyLatestCompatible
| OtherVersionPolicy (text : string).

Definition VersionPolicy_text (p : VersionPolicy) : string :=
  match p with
  | VersionPolicyExact => "EXACT" | VersionPolicyLatest => "LATEST"
  | VersionPolicyLatestCompatible => "LATEST_COMPATIBLE" | OtherVersionPolicy t => t
  end.

(** Dereferencing a nil record. *)
Definition nil_record_panic : goerror := EPlain "panic: nil pointer dereference".

Definition preferRecord (candidate : ATIRecord) (current : option ATIRecord) : bool :=
  match current with
  | None => true
  | Some current =>
      if negb (String.eqb (rec_Protocol candidate) (rec_Protocol current))
      then String.ltb (rec_Protocol candidate) (rec_Protocol current)
      else String.ltb (rec_URL candidate) (rec_URL current)
  end.

Section Policy.
Context `{UnicodeTables} `{SemverLib}.

Definition record_version (r : ATIRecord) : option semver := NewVersion (Version_String (rec_Version r)).

(** The test that replaces the best record so far. *)
Definition better (r : ATIRecord) (v : semver) (best : option (ATIRecord * semver)) : bool :=
  match best with
  | None => true
  | Some (b, bestVer) => GreaterThan v bestVer || semver_Equal v bestVer && preferRecord r (Some b)
  end.

(** The loop of [resolveLatest], and of [resolveLatestCompatible] with the
    constraint as [accept]. *)
Fixpoint latest_loop (accept : semver -> bool) (best : option (ATIRecord * semver))
    (records : list (option ATIRecord)) : result goerror (option (ATIRecord * semver)) :=
  match records with
  | [] => Ok best
  | None :: _ => Err nil_record_panic
  | Some r :: rest =>
      match record_version r with
      | None => latest_loop accept best rest
      | Some v =>
          if accept v && better r v best then latest_loop accept (Some (r, v)) rest
          else latest_loop accept best rest
      end
  end.

Definition best_of (accept : semver -> bool) (records : list (option ATIRecord)) (none : goerror)
  : result goerror ATIRecord :=
  match latest_loop accept None records with
  | Err e => Err e
  | Ok None => Err none
  | Ok (Some (best, _)) => Ok best
  end.

(** The loop of [resolveExact] and [findExact]. *)
Fixpoint exact_loop (reqVersion : semver) (records : list (option ATIRecord)) : result goerror ATIRecord :=
  match records with
  | [] => Err (EPlain "exact version %s not found")
  | None :: _ => Err nil_record_panic
  | Some r :: rest =>
      match record_version r with
      | None => exact_loop reqVersion rest
      | Some v => if semver_Equal v reqVersion then Ok r else exact_loop reqVersion rest
      end
  end.

Definition resolveExact (records : list (option ATIRecord)) (requested : string) : result goerror ATIRecord :=
  guard! negb (String.eqb requested "") orelse EPlain "EXACT policy requires a version" in
  match NewVersion requested with
  | None => Err (EPlain "invalid requested version %q: %w")
  | Some reqVersion => exact_loop reqVersion records
  end.

Definition findExact (records : list (option ATIRecord)) (requested : string) : result goerror ATIRecord :=
  match NewVersion requested with
  | None => Err (EPlain "invalid version expression %q: %w")
  | Some reqVer => exact_loop reqVer records
  end.

Definition resolveLatest (records : list (option ATIRecord)) : result goerror ATIRecord :=
  best_of (fun _ => true) records (EPlain "no valid semver records found").

Definition resolveLatestCompatible (records : list (option ATIRecord)) (requested : string)
  : result goerror ATIRecord :=
  if String.eqb requested "" then resolveLatest records
  else
    match NewConstraint requested with
    | None => findExact records requested
    | Some constraint =>
        best_of (Constraint_Check constraint) records (EPlain "no records satisfy constraint %q")
    end.

Definition resolve_by (policy : VersionPolicy) (requested : string) (records : list (option ATIRecord))
  : result goerror ATIRecord :=
  match policy with
  | VersionPolicyExact => resolveExact records requested
  | VersionPolicyLatest => resolveLatest records
  | VersionPolicyLatestCompatible => resolveLatestCompatible records requested
  | OtherVersionPolicy _ => resolveLatest records
  end.

Definition ResolveVersionForProtocol (records : list (option ATIRecord)) (policy : VersionPolicy)
    (requested protocol : string) : result goerror ATIRecord :=
  guard! negb (length records =? 0)%nat orelse EPlain "no ATI records available" in
  let? records :=
    (if negb (String.eqb protocol "") then
       let records := FilterATIRecordsByProtocol records protocol in
       guard! negb (length records =? 0)%nat orelse EPlain "no ATI records for protocol %q" in Ok records
     else Ok records) in
  resolve_by policy requested records.

Definition ResolveVersion (records : list (option ATIRecord)) (policy : VersionPolicy) (requested : string)
  : result goerror ATIRecord := ResolveVersionForProtocol records policy requested "".

(** [normalizeVersionExpr] of the client's options. *)
Definition normalizeVersionExpr (expr : string) : result goerror string :=
  match NewVersion expr with
  | Some v => Ok (semver_String v)
  | None =>
      match NewConstraint expr with
      | None => Err (EPlain "invalid version expression %q: %w")
      | Some _ => Ok expr
      end
  end.

End Policy.

(** ** The order of strings *)

Definition str_lt (a b : string) : Prop := String.compare a b = Lt.

Lemma ltb_lt (a b : string) : String.ltb a b = true <-> str_lt a b.
Proof. unfold String.ltb, str_lt. destruct (String.compare a b); split; congruence. Qed.

Lemma str_compare_refl (a : string) : String.compare a a = Eq.
Proof. pose proof (String.compare_antisym a a) as E. destruct (String.compare a a); cbn in E; congruence. Qed.

Lemma ascii_compare_trans (a b c : ascii) :
  Ascii.compare a b = Lt -> Ascii.compare b c = Lt -> Ascii.compare a c = Lt.
Proof. unfold Ascii.compare. rewrite !N.compare_lt_iff. lia. Qed.

Lemma ascii_compare_refl (a : ascii) : Ascii.compare a a = Eq.
Proof. unfold Ascii.compare. apply N.compare_refl. Qed.

Lemma str_lt_trans (a b c : string) : str_lt a b -> str_lt b c -> str_lt a c.
Proof.
  unfold str_lt. revert b c. induction a as [|x a IH]; intros [|y b] [|z c]; cbn; try congruence.
  destruct (Ascii.compare x y) eqn:E1, (Ascii.compare y z) eqn:E2; try congruence; intros H1 H2.
  - apply Ascii.compare_eq_iff in E1 as ->. apply Ascii.compare_eq_iff in E2 as ->.
    rewrite ascii_compare_refl. eapply IH; eassumption.
  - apply Ascii.compare_eq_iff in E1 as ->. rewrite E2. reflexivity.
  - apply Ascii.compare_eq_iff in E2 as ->. rewrite E1. reflexivity.
  - rewrite (ascii_compare_trans x y z E1 E2). reflexivity.
Qed.

Lemma str_lt_total (a b : string) : ~ str_lt a b -> ~ str_lt b a -> a = b.
Proof.
  unfold str_lt. intros H1 H2. apply String.compare_eq_iff.
  pose proof (String.compare_antisym a b) as E. destruct (String.compare a b); try congruence.
  destruct (String.compare b a); cbn in E; congruence.
Qed.

(** Records of equal version, by protocol then URL. *)
Definition record_lt (a b : ATIRecord) : Prop :=
  str_lt (rec_Protocol a) (rec_Protocol b) \/
  rec_Protocol a = rec_Protocol b /\ str_lt (rec_URL a) (rec_URL b).

Lemma preferRecord_lt (a b : ATIRecord) : preferRecord a (Some b) = true <-> record_lt a b.
Proof.
  unfold preferRecord, record_lt. destruct (String.eqb (rec_Protocol a) (rec_Protocol b)) eqn:E; cbn [negb]; bool_hyps;
    rewrite ltb_lt; [|tauto].
  split; [auto|]. intros [H|[_ H]]; [|exact H].
  unfold str_lt in H. rewrite E, str_compare_refl in H. discriminate.
Qed.

Lemma record_lt_trans (a b c : ATIRecord) : record_lt a b -> record_lt b c -> record_lt a c.
Proof.
  unfold record_lt. intros [H1|[E1 H1]] [H2|[E2 H2]].
  - left. eapply str_lt_trans; eassumption.
  - left. rewrite <- E2. exact H1.
  - left. rewrite E1. exact H2.
  - right. split; [congruence | eapply str_lt_trans; eassumption].
Qed.

Lemma record_lt_irrefl (a : ATIRecord) : ~ record_lt a a.
Proof. unfold record_lt, str_lt. rewrite !str_compare_refl. intros [[=]|[_ [=]]]. Qed.

Lemma record_lt_total (a b : ATIRecord) :
  ~ record_lt a b -> ~ record_lt b a -> rec_Protocol a = rec_Protocol b /\ rec_URL a = rec_URL b.
Proof.
  unfold record_lt. intros H1 H2.
  assert (Hp : rec_Protocol a = rec_Protocol b) by (apply str_lt_total; tauto).
  split; [exact Hp|]. apply str_lt_total; intros H; [apply H1 | apply H2]; auto.
Qed.

(** ** What the policies select *)

Section Selection.
Context `{UnicodeTables} `{SemverLib} `{!SemverLaws}.

(** The order the loop maximises. *)
Definition beats (a b : ATIRecord * semver) : Prop :=
  precedence (snd b) (snd a) = Lt \/ (precedence (snd a) (snd b) = Eq /\ record_lt (fst a) (fst b)).

Lemma precedence_refl (a : semver) : precedence a a = Eq.
Proof. pose proof (precedence_antisym a a) as E. destruct (precedence a a); cbn in E; congruence. Qed.

Lemma precedence_sym (a b : semver) : precedence a b = Eq -> precedence b a = Eq.
Proof. intros E. rewrite precedence_antisym, E. reflexivity. Qed.

Lemma precedence_eq_r (a b c : semver) : precedence a b = Eq -> precedence c a = precedence c b.
Proof.
  intros E. rewrite (precedence_antisym c a), (precedence_antisym c b), (precedence_eq a b c E). reflexivity.
Qed.

Lemma better_beats (r : ATIRecord) (v : semver) (b : ATIRecord * semver) :
  better r v (Some b) = true <-> beats (r, v) b.
Proof.
  destruct b as [b bv]. unfold better, beats. cbn [fst snd].
  rewrite orb_true_iff, andb_true_iff, GreaterThan_spec, semver_Equal_spec, preferRecord_lt. reflexivity.
Qed.

Lemma beats_trans (a b c : ATIRecord * semver) : beats a b -> beats b c -> beats a c.
Proof.
  unfold beats. intros [K1|[E1 K1]] [K2|[E2 K2]].
  - left. eapply precedence_trans; eassumption.
  - left. rewrite <- (precedence_eq _ _ (snd a) E2). exact K1.
  - left. rewrite (precedence_eq_r _ _ (snd c) E1). exact K2.
  - right. split; [rewrite (precedence_eq _ _ (snd c) E1); exact E2 | eapply record_lt_trans; eassumption].
Qed.

Lemma beats_irrefl (a : ATIRecord * semver) : ~ beats a a.
Proof.
  unfold beats. rewrite precedence_refl. intros [[=]|[_ Hr]]. exact (record_lt_irrefl _ Hr).
Qed.

(** A record of the list with its version, when the policy admits it. *)
Definition candidate (accept : semver -> bool) (records : list (option ATIRecord)) (x : ATIRecord * semver) : Prop :=
  In (Some (fst x)) records /\ record_version (fst x) = Some (snd x) /\ accept (snd x) = true.

(** [x] is a candidate that no other candidate beats. *)
Definition winner (accept : semver -> bool) (records : list (option ATIRecord)) (x : ATIRecord * semver) : Prop :=
  candidate accept records x /\ forall y, candidate accept records y -> ~ beats y x.

Lemma latest_loop_spec (accept : semver -> bool) (seen records : list (option ATIRecord))
    (best : option (ATIRecord * semver)) :
  Forall (fun r => r <> None) records ->
  match best with
  | None => forall y, ~ candidate accept seen y
  | Some b => winner accept seen b
  end ->
  exists best', latest_loop accept best records = Ok best' /\
    match best' with
    | None => forall y, ~ candidate accept (seen ++ records)%list y
    | Some b => winner accept (seen ++ records)%list b
    end.
Proof.
  revert seen best. induction records as [|[r|] rest IH]; intros seen best Hn Hb; cbn [latest_loop].
  - exists best. rewrite app_nil_r. auto.
  - inversion Hn as [|? ? _ Hn']; subst.
    assert (Hstep : forall best', match best' with
        | None => forall y, ~ candidate accept (seen ++ [Some r])%list y
        | Some b => winner accept (seen ++ [Some r])%list b end ->
      exists best'', latest_loop accept best' rest = Ok best'' /\
        match best'' with
        | None => forall y, ~ candidate accept (seen ++ Some r :: rest)%list y
        | Some b => winner accept (seen ++ Some r :: rest)%list b end).
    { intros best' Hb'. destruct (IH (seen ++ [Some r])%list best' Hn' Hb') as (b'' & E & Hw).
      rewrite <- app_assoc in Hw. eauto. }
    assert (Hc : forall y, candidate accept (seen ++ [Some r])%list y <->
      candidate accept seen y \/ (fst y = r /\ record_version r = Some (snd y) /\ accept (snd y) = true)).
    { intros [y yv]. unfold candidate. cbn [fst snd]. rewrite in_app_iff. cbn.
      split; [intros ([Hin|[Hin|[]]] & E1 & E2) | intros [(Hin & E1 & E2)|(-> & E1 & E2)]]; auto.
      injection Hin as ->. auto. }
    destruct (record_version r) as [v|] eqn:Ev.
    2: { apply Hstep. destruct best as [b|].
         - destruct Hb as [Hb1 Hb2]. split; [apply Hc; auto|]. intros y Hy. apply Hc in Hy as [Hy|(_ & [=] & _)]. auto.
         - intros y Hy. apply Hc in Hy as [Hy|(_ & [=] & _)]. exact (Hb y Hy). }
    destruct (accept v && better r v best) eqn:Eb.
    + apply andb_true_iff in Eb as [Ea Eb]. apply Hstep. split; [apply Hc; cbn; auto|].
      intros [y yv] Hy. apply Hc in Hy as [Hy|(E1 & E2 & _)]; cbn [fst snd] in *.
      * destruct best as [b|]; [|destruct (Hb _ Hy)]. apply better_beats in Eb.
        intros Hbt. exact (proj2 Hb _ Hy (beats_trans _ _ _ Hbt Eb)).
      * injection E2 as <-. subst y. apply beats_irrefl.
    + apply Hstep. apply andb_false_iff in Eb. destruct best as [b|].
      * destruct Hb as [Hb1 Hb2]. split; [apply Hc; auto|]. intros [y yv] Hy.
        apply Hc in Hy as [Hy|(E1 & E2 & Ey)]; [exact (Hb2 _ Hy)|]. cbn [fst snd] in *. injection E2 as <-. subst y.
        destruct Eb as [Eb|Eb]; [congruence|]. intros Hbt. apply better_beats in Hbt. congruence.
      * intros [y yv] Hy. apply Hc in Hy as [Hy|(E1 & E2 & Ey)]; [exact (Hb _ Hy)|]. cbn in *. injection E2 as <-.
        destruct Eb as [Eb|Eb]; [congruence | discriminate].
  - inversion Hn. contradiction.
Qed.

Definition no_nil (records : list (option ATIRecord)) : Prop := Forall (fun r => r <> None) records.

Lemma best_of_spec (accept : semver -> bool) (records : list (option ATIRecord)) (none : goerror) :
  no_nil records ->
  match best_of accept records none with
  | Ok r => exists v, winner accept records (r, v)
  | Err e => e = none /\ forall y, ~ candidate accept records y
  end.
Proof.
  intros Hn. destruct (latest_loop_spec accept [] records None Hn) as (b & E & Hb); [intros y [[] _]|].
  unfold best_of. rewrite E. cbn [app] in Hb. destruct b as [[r v]|]; eauto.
Qed.

Lemma winner_unique (accept : semver -> bool) (records : list (option ATIRecord)) x y :
  winner accept records x -> winner accept records y ->
  precedence (snd x) (snd y) = Eq /\ rec_Protocol (fst x) = rec_Protocol (fst y) /\ rec_URL (fst x) = rec_URL (fst y).
Proof.
  intros [Hx1 Hx2] [Hy1 Hy2]. specialize (Hx2 _ Hy1). specialize (Hy2 _ Hx1). unfold beats in *.
  assert (E : precedence (snd x) (snd y) = Eq).
  { pose proof (precedence_antisym (snd x) (snd y)) as Ha.
    destruct (precedence (snd x) (snd y)) eqn:E; [reflexivity | tauto | ].
    destruct (precedence (snd y) (snd x)); cbn in Ha; try congruence. tauto. }
  split; [exact E|]. pose proof (precedence_sym _ _ E) as E'.
  apply record_lt_total; intros Hl; [apply Hy2 | apply Hx2]; auto.
Qed.

Lemma best_of_none (accept : semver -> bool) (l : list (option ATIRecord)) (e f : goerror) :
  is_ok (best_of accept l e) = is_ok (best_of accept l f) /\
  forall r, best_of accept l e = Ok r <-> best_of accept l f = Ok r.
Proof.
  unfold best_of. destruct (latest_loop accept None l) as [[[b v]|]|e']; split; try reflexivity; intros r; split; congruence.
Qed.

(** Two results that agree in version, protocol and URL, or fail alike. *)
Definition same_choice (a b : result goerror ATIRecord) : Prop :=
  match a, b with
  | Ok r, Ok s =>
      rec_Protocol r = rec_Protocol s /\ rec_URL r = rec_URL s /\
      exists v w, record_version r = Some v /\ record_version s = Some w /\ precedence v w = Eq
  | Err e, Err f => e = f
  | _, _ => False
  end.

Lemma winner_perm (accept : semver -> bool) (l l' : list (option ATIRecord)) x :
  Permutation l l' -> winner accept l x -> winner accept l' x.
Proof.
  intros Hp [[Hin Hx] Hw]. split; [split; [exact (Permutation_in _ Hp Hin) | exact Hx]|].
  intros y [Hy Hy']. apply Hw. split; [exact (Permutation_in _ (Permutation_sym Hp) Hy) | exact Hy'].
Qed.

Lemma best_of_perm (accept : semver -> bool) (l l' : list (option ATIRecord)) (none : goerror) :
  Permutation l l' -> no_nil l -> same_choice (best_of accept l none) (best_of accept l' none).
Proof.
  intros Hp Hn. assert (Hn' : no_nil l').
  { unfold no_nil in *. rewrite List.Forall_forall in *. intros r Hr. apply Hn.
    exact (Permutation_in _ (Permutation_sym Hp) Hr). }
  pose proof (best_of_spec accept l none Hn) as K1. pose proof (best_of_spec accept l' none Hn') as K2.
  destruct (best_of accept l none) as [r|e], (best_of accept l' none) as [s|f].
  - destruct K1 as [v K1], K2 as [w K2]. apply (winner_perm _ _ _ _ Hp) in K1.
    destruct (winner_unique _ _ _ _ K1 K2) as (E1 & E2 & E3). cbn in *.
    split; [exact E2|]. split; [exact E3|]. exists v, w. destruct K1 as [(_ & Hv & _) _], K2 as [(_ & Hw & _) _]. auto.
  - destruct K1 as [v K1]. apply (winner_perm _ _ _ _ Hp) in K1. destruct (proj2 K2 _ (proj1 K1)).
  - destruct K2 as [w K2]. apply (winner_perm _ _ _ _ (Permutation_sym Hp)) in K2. destruct (proj2 K1 _ (proj1 K2)).
  - destruct K1 as [-> _], K2 as [-> _]. reflexivity.
Qed.

Lemma exact_loop_spec (v : semver) (records : list (option ATIRecord)) :
  no_nil records ->
  match exact_loop v records with
  | Ok r => In (Some r) records /\ exists w, record_version r = Some w /\ semver_Equal w v = true
  | Err e => e = EPlain "exact version %s not found" /\
      forall r w, In (Some r) records -> record_version r = Some w -> semver_Equal w v = false
  end.
Proof.
  induction records as [|[r|] rest IH]; intros Hn; cbn [exact_loop].
  - split; [reflexivity | intros ? ? []].
  - inversion Hn as [|? ? _ Hn']; subst. specialize (IH Hn'). destruct (record_version r) as [w|] eqn:Ew.
    + destruct (semver_Equal w v) eqn:Ee; [split; [left; reflexivity | eauto]|].
      destruct (exact_loop v rest) as [s|e]; [split; [right|]; apply IH|]. destruct IH as [IH1 IH2].
      split; [exact IH1|]. intros s u [[= <-]|Hin] Hu; [congruence | eauto].
    + destruct (exact_loop v rest) as [s|e]; [split; [right|]; apply IH|]. destruct IH as [IH1 IH2].
      split; [exact IH1|]. intros s u [[= <-]|Hin] Hu; [congruence | eauto].
  - inversion Hn. contradiction.
Qed.

(** ** The policies as specifications *)

(** A policy asks for the best of the versions it admits, or for one version. *)
Inductive selection :=
| Best (accept : semver -> bool)
| Exactly (v : semver).

Definition policy_selection (policy : VersionPolicy) (requested : string) : option selection :=
  match policy with
  | VersionPolicyExact => if String.eqb requested "" then None else option_map Exactly (NewVersion requested)
  | VersionPolicyLatestCompatible =>
      if String.eqb requested "" then Some (Best (fun _ => true))
      else match NewConstraint requested with
           | Some constraint => Some (Best (Constraint_Check constraint))
           | None => option_map Exactly (NewVersion requested)
           end
  | _ => Some (Best (fun _ => true))
  end.

Definition selects (s : selection) (pool : list (option ATIRecord)) (r : ATIRecord) : Prop :=
  match s with
  | Best accept => exists v, winner accept pool (r, v)
  | Exactly q => In (Some r) pool /\ exists v, record_version r = Some v /\ semver_Equal v q = true
  end.

Definition selects_none (s : selection) (pool : list (option ATIRecord)) : Prop :=
  match s with
  | Best accept => forall y, ~ candidate accept pool y
  | Exactly q => forall r v, In (Some r) pool -> record_version r = Some v -> semver_Equal v q = false
  end.

(** The records for the protocol asked for: its own and those without one. *)
Definition protocol_pool (records : list (option ATIRecord)) (protocol : string) : list (option ATIRecord) :=
  FilterATIRecordsByProtocol records protocol.

Definition run_selection (s : selection) (pool : list (option ATIRecord)) (none : goerror) : result goerror ATIRecord :=
  match s with Best accept => best_of accept pool none | Exactly q => exact_loop q pool end.

Lemma run_selection_spec (s : selection) (pool : list (option ATIRecord)) (none : goerror) :
  no_nil pool ->
  match run_selection s pool none with Ok r => selects s pool r | Err _ => selects_none s pool end.
Proof.
  intros Hn. destruct s as [accept|q]; cbn [run_selection selects selects_none].
  - pose proof (best_of_spec accept pool none Hn) as Hb. destruct (best_of accept pool none); [exact Hb | apply Hb].
  - pose proof (exact_loop_spec q pool Hn) as Hb. destruct (exact_loop q pool); [exact Hb | apply Hb].
Qed.

(** Resolution in terms of the selection. *)
Lemma Resolve_cases (records : list (option ATIRecord)) (policy : VersionPolicy) (requested protocol : string) :
  let pool := protocol_pool records protocol in
  match policy_selection policy requested with
  | None => is_ok (ResolveVersionForProtocol records policy requested protocol) = false
  | Some s =>
      pool = [] /\ is_ok (ResolveVersionForProtocol records policy requested protocol) = false \/
      pool <> [] /\ exists none, ResolveVersionForProtocol records policy requested protocol = run_selection s pool none
  end.
Proof.
  cbv zeta. unfold ResolveVersionForProtocol, protocol_pool.
  set (pool := FilterATIRecordsByProtocol records protocol).
  assert (Hpool : protocol = "" -> pool = records) by (intros ->; reflexivity).
  assert (Hnil : records = [] -> pool = []).
  { intros ->. subst pool. unfold FilterATIRecordsByProtocol. destruct (String.eqb protocol ""); reflexivity. }
  set (run := resolve_by policy requested).
  assert (Hrun : match policy_selection policy requested with
    | None => forall l, is_ok (run l) = false
    | Some s => forall l, exists none, run l = run_selection s l none end).
  { subst run. unfold resolve_by, policy_selection, resolveExact, resolveLatestCompatible, resolveLatest, findExact.
    destruct policy; cbn; try (intros l; eexists; reflexivity).
    - destruct (String.eqb requested ""); cbn; [reflexivity|].
      destruct (NewVersion requested); cbn; [intros l; exists nil_record_panic; reflexivity | reflexivity].
    - destruct (String.eqb requested ""); cbn; [intros l; eexists; reflexivity|].
      destruct (NewConstraint requested); cbn; [intros l; eexists; reflexivity|].
      destruct (NewVersion requested); cbn; [intros l; exists nil_record_panic; reflexivity | reflexivity]. }
  assert (E : (guard! negb (length records =? 0)%nat orelse EPlain "no ATI records available" in
     let? records := (if negb (String.eqb protocol "") then
        guard! negb (length pool =? 0)%nat orelse EPlain "no ATI records for protocol %q" in Ok pool
      else Ok records) in run records) = (if negb (length records =? 0)%nat
       then if negb (length pool =? 0)%nat then run pool
            else Err (EPlain "no ATI records for protocol %q") else Err (EPlain "no ATI records available"))).
  { destruct (length records =? 0)%nat eqn:Er; cbn [negb]; [reflexivity|].
    destruct (String.eqb protocol "") eqn:Ep; cbn [negb].
    - apply String.eqb_eq in Ep. rewrite (Hpool Ep), Er. reflexivity.
    - destruct (length pool =? 0)%nat; reflexivity. }
  rewrite E. clear E.
  destruct (length records =? 0)%nat eqn:Er; cbn [negb]; bool_hyps.
  { apply length_zero_iff_nil in Er. destruct (policy_selection policy requested); [left|]; auto. }
  destruct (length pool =? 0)%nat eqn:Ep; cbn [negb]; bool_hyps.
  { apply length_zero_iff_nil in Ep. destruct (policy_selection policy requested); [left|]; auto. }
  assert (Hne : pool <> []) by (intros Hc; rewrite Hc in Ep; contradiction).
  destruct (policy_selection policy requested); [right; auto | apply Hrun].
Qed.

Lemma pool_no_nil (records : list (option ATIRecord)) (protocol : string) :
  no_nil records -> no_nil (protocol_pool records protocol).
Proof.
  unfold no_nil, protocol_pool, FilterATIRecordsByProtocol. intros Hn.
  destruct (String.eqb protocol ""); [exact Hn|]. rewrite List.Forall_forall in *. intros r Hr.
  apply filter_In in Hr as [Hr _]. exact (Hn r Hr).
Qed.

(** C39: (version resolution meets the policy) for records without nil pointers,
    resolution succeeds exactly when the policy and the request make sense and
    some record of the protocol fits; the record returned then is one of them: for
    EXACT it has the requested version; for LATEST and LATEST_COMPATIBLE it is
    admitted by the constraint and no other admitted record has a higher version,
    or the same and an earlier protocol or URL. *)
Theorem ResolveVersion_spec (records : list (option ATIRecord)) (policy : VersionPolicy) (requested protocol : string) :
  no_nil records ->
  let pool := protocol_pool records protocol in
  match ResolveVersionForProtocol records policy requested protocol with
  | Ok r => exists s, policy_selection policy requested = Some s /\ selects s pool r
  | Err _ => pool = [] \/ policy_selection policy requested = None \/
      exists s, policy_selection policy requested = Some s /\ selects_none s pool
  end.
Proof.
  intros Hn. cbv zeta. pose proof (Resolve_cases records policy requested protocol) as Hc. cbv zeta in Hc.
  destruct (policy_selection policy requested) as [s|].
  - destruct Hc as [[Hp Hc]|[_ [none Hc]]].
    + destruct (ResolveVersionForProtocol _ _ _ _); [discriminate | left; exact Hp].
    + rewrite Hc. pose proof (run_selection_spec s _ none (pool_no_nil records protocol Hn)) as Hs.
      destruct (run_selection s _ none); eauto.
  - destruct (ResolveVersionForProtocol _ _ _ _); [discriminate | auto].
Qed.

Lemma filter_Permutation {A : Type} (f : A -> bool) (l l' : list A) :
  Permutation l l' -> Permutation (List.filter f l) (List.filter f l').
Proof.
  induction 1 as [|x l l' _ IH|x y l|l1 l2 l3 _ IH1 _ IH2]; cbn.
  - constructor.
  - destruct (f x); [constructor|]; exact IH.
  - destruct (f x), (f y); try constructor; apply Permutation_refl.
  - eapply Permutation_trans; eassumption.
Qed.

Lemma pool_perm (l l' : list (option ATIRecord)) (protocol : string) :
  Permutation l l' -> Permutation (protocol_pool l protocol) (protocol_pool l' protocol).
Proof.
  intros Hp. unfold protocol_pool, FilterATIRecordsByProtocol.
  destruct (String.eqb protocol ""); [exact Hp | apply filter_Permutation, Hp].
Qed.

(** (the order of the DNS answer does not matter) for a policy that asks for
    the best version, any reordering of the records gives a record of the same
    version, protocol and URL, or fails as well. *)
Theorem ResolveVersion_order (l l' : list (option ATIRecord)) (policy : VersionPolicy) (requested protocol : string)
    (accept : semver -> bool) :
  policy_selection policy requested = Some (Best accept) -> no_nil l -> Permutation l l' ->
  match ResolveVersionForProtocol l policy requested protocol,
        ResolveVersionForProtocol l' policy requested protocol with
  | Ok r, Ok r' => same_choice (Ok r) (Ok r')
  | Err _, Err _ => True
  | _, _ => False
  end.
Proof.
  intros Hs Hn Hp. pose proof (pool_perm l l' protocol Hp) as Hpp.
  assert (Hn' : no_nil l').
  { unfold no_nil in *. rewrite List.Forall_forall in *. intros r Hr. apply Hn.
    exact (Permutation_in _ (Permutation_sym Hp) Hr). }
  pose proof (Resolve_cases l policy requested protocol) as Hc. cbv zeta in Hc.
  pose proof (Resolve_cases l' policy requested protocol) as Hc'. cbv zeta in Hc'. rewrite Hs in Hc, Hc'.
  assert (Hnil : protocol_pool l protocol = [] <-> protocol_pool l' protocol = []).
  { split; intros Hx; rewrite Hx in Hpp; [apply Permutation_nil, Hpp | apply Permutation_nil, Permutation_sym, Hpp]. }
  destruct Hc as [[Hp1 Hc]|[Hp1 [n1 Hc]]], Hc' as [[Hp2 Hc']|[Hp2 [n2 Hc']]]; try tauto.
  - destruct (ResolveVersionForProtocol l _ _ _), (ResolveVersionForProtocol l' _ _ _); try discriminate; exact I.
  - rewrite Hc, Hc'. cbn [run_selection].
    destruct (best_of_none accept (protocol_pool l' protocol) n2 n1) as [Ho Hr].
    pose proof (best_of_perm accept _ _ n1 Hpp (pool_no_nil l protocol Hn)) as Hx.
    destruct (best_of accept (protocol_pool l protocol) n1) as [r|],
      (best_of accept (protocol_pool l' protocol) n1) as [r'|], (best_of accept (protocol_pool l' protocol) n2) as [r2|];
      try discriminate Ho; try exact I; try contradiction.
    pose proof (proj1 (Hr r2) eq_refl) as [= ->]. exact Hx.
Qed.

End Selection.

(** ** A version library for the examples: plain versions and caret ranges *)

Definition version_precedence (a b : Version) : comparison :=
  match Major a ?= Major b, Minor a ?= Minor b with
  | Eq, Eq => Patch a ?= Patch b
  | Eq, c => c
  | c, _ => c
  end.

Definition is_Eq (c : comparison) : bool := match c with Eq => true | _ => false end.
Definition is_Gt (c : comparison) : bool := match c with Gt => true | _ => false end.

Definition plain_semver : SemverLib := {|
  semver := Version;
  NewVersion s := match ParseVersion s with Ok v => Some v | Err _ => None end;
  semver_Equal a b := is_Eq (version_precedence a b);
  GreaterThan a b := is_Gt (version_precedence a b);
  semver_String := Version_String;
  Constraints := Version;
  NewConstraint s :=
    if HasPrefix s "^" then match ParseVersion (str_drop 1 s) with Ok v => Some v | Err _ => None end else None;
  Constraint_Check lo v := (Major lo =? Major v) && negb (is_Gt (version_precedence lo v))
|}.

#[local] Existing Instance plain_semver.

Ltac precedence_cases :=
  unfold version_precedence; intros;
  repeat match goal with
  | H : context [?a ?= ?b] |- _ => destruct (Z.compare_spec a b); try discriminate
  | |- context [?a ?= ?b] => destruct (Z.compare_spec a b)
  end; try reflexivity; try lia.

#[export] Instance plain_laws : SemverLaws.
Proof.
  refine {| precedence := version_precedence : semver -> semver -> comparison |}; cbn [semver plain_semver].
  - intros a b. unfold version_precedence.
    rewrite (Z.compare_antisym (Major b)), (Z.compare_antisym (Minor b)), (Z.compare_antisym (Patch b)).
    destruct (Major b ?= Major a), (Minor b ?= Minor a), (Patch b ?= Patch a); reflexivity.
  - intros a b c. precedence_cases.
  - intros [a1 a2 a3] [b1 b2 b3] c E. assert (E' : a1 = b1 /\ a2 = b2 /\ a3 = b3).
    { revert E. unfold version_precedence. cbn [Major Minor Patch].
      destruct (Z.compare_spec a1 b1), (Z.compare_spec a2 b2), (Z.compare_spec a3 b3); try discriminate; auto. }
    destruct E' as (-> & -> & ->). reflexivity.
  - intros a b. cbn. destruct (version_precedence a b); cbn; split; congruence.
  - intros a b. cbn. unfold version_precedence.
    rewrite (Z.compare_antisym (Major a)), (Z.compare_antisym (Minor a)), (Z.compare_antisym (Patch a)).
    destruct (Major a ?= Major b), (Minor a ?= Minor b), (Patch a ?= Patch b); cbn; split; congruence.
Qed.

#[local] Existing Instance plain_tables.

Definition sample_rec (id protocol url : string) (v : Version) : option ATIRecord :=
  Some (MkATIRecord id "" v ATIRecordModeDirect protocol url).
Definition sample_records : list (option ATIRecord) :=
  [sample_rec "1" "mcp" "u1" (MkVersion 1 2 0); sample_rec "2" "a2a" "u2" (MkVersion 1 2 0);
   sample_rec "3" "a2a" "u3" (MkVersion 2 0 0); sample_rec "4" "" "u4" (MkVersion 1 1 9)].

Definition resolved (l : list (option ATIRecord)) (policy : VersionPolicy) (requested protocol : string) : option string :=
  match ResolveVersionForProtocol l policy requested protocol with Ok r => Some (rec_ID r) | Err _ => None end.

Example resolve_ex :
  resolved sample_records VersionPolicyLatest "" "" = Some "3" /\
  resolved sample_records VersionPolicyLatest "" "mcp" = Some "1" /\
  resolved sample_records VersionPolicyLatestCompatible "^1.0.0" "" = Some "2" /\
  resolved sample_records VersionPolicyLatestCompatible "^1.0.0" "MCP" = Some "1" /\
  resolved sample_records VersionPolicyExact "1.1.9" "a2a" = Some "4" /\
  resolved sample_records VersionPolicyExact "3.0.0" "" = None.
Proof. vm_compute. auto 10. Qed.

(** The tie between equal versions is broken for the best version only: an exact
    request takes the first record of the answer. *)
Example exact_depends_on_order :
  resolved sample_records VersionPolicyExact "1.2.0" "" = Some "1" /\
  resolved (rev sample_records) VersionPolicyExact "1.2.0" "" = Some "2".
Proof. vm_compute. auto. Qed.

Lemma sample_no_nil : no_nil sample_records.
Proof. repeat constructor; discriminate. Qed.

Lemma ResolveVersion_spec_witness :
  exists r s, ResolveVersionForProtocol sample_records VersionPolicyLatestCompatible "^1.0.0" "" = Ok r /\
    policy_selection VersionPolicyLatestCompatible "^1.0.0" = Some s /\ selects s (protocol_pool sample_records "") r.
Proof.
  pose proof (ResolveVersion_spec sample_records VersionPolicyLatestCompatible "^1.0.0" "" sample_no_nil) as Hs.
  cbv zeta in Hs. destruct (ResolveVersionForProtocol _ _ _ _) as [r|e] eqn:E; [|vm_compute in E; discriminate E].
  destruct Hs as (s & Hp & Hsel). exists r, s. auto.
Defined.

Lemma ResolveVersion_order_witness :
  exists r r', ResolveVersionForProtocol sample_records VersionPolicyLatest "" "" = Ok r /\
    ResolveVersionForProtocol (rev sample_records) VersionPolicyLatest "" "" = Ok r' /\ same_choice (Ok r) (Ok r').
Proof.
  pose proof (ResolveVersion_order sample_records (rev sample_records) VersionPolicyLatest "" "" (fun _ => true)
    eq_refl sample_no_nil (Permutation_rev _)) as Hs.
  destruct (ResolveVersionForProtocol sample_records _ _ _) as [r|e] eqn:E; [|vm_compute in E; discriminate E].
  destruct (ResolveVersionForProtocol (rev sample_records) _ _ _) as [r'|e] eqn:E'; [|vm_compute in E'; discriminate E'].
  exists r, r'. auto.
Defined.
