(* ===== verification/Resolver.v ===== *)
(** The DNS resolver of [verify/dns_resolver.go] and [verify/dns.go]: a cache
    in front of TXT lookups, the fallback from [_ati-badge] to [_ra-badge] and
    the selection of a badge record. A lookup is a function of the queried name
    (the answers of [net.Resolver.LookupTXT] during one call); times are
    nanoseconds. *)

From Stdlib Require Import Sorting.Permutation Sorting.Sorted.
From S2P Require Import Prelude GoStrings Errors Models Url Records.

#[local] Open Scope string_scope.
#[local] Open Scope Z_scope.

Record DNSLookupResult := MkLookup { Found : bool; lr_Records : list ATIBadgeRecord }.
Record ATIDiscoveryResult := MkDiscovery { ad_Found : bool; ad_Records : list ATIRecord }.

(** The [interface{}] stored in a cache entry. *)
Inductive cached :=
| CBadge (r : DNSLookupResult)
| CDiscovery (r : ATIDiscoveryResult).

Record dnsCacheEntry := MkDnsEntry { ce_result : cached; ce_createdAt : Z }.

Record StandardDNSResolver := MkResolver {
  dr_cache : gmap string dnsCacheEntry;
  dr_cacheTTL : Z
}.

Definition defaultDNSCacheTTL : Z := 5 * 60 * 1000000000.

Definition NewStandardDNSResolver : StandardDNSResolver := MkResolver ∅ defaultDNSCacheTTL.
Definition WithCacheTTL (r : StandardDNSResolver) (ttl : Z) : StandardDNSResolver :=
  MkResolver (dr_cache r) ttl.
Definition ClearCache (r : StandardDNSResolver) : StandardDNSResolver :=
  MkResolver ∅ (dr_cacheTTL r).

(** [getCached]: an expired entry is deleted. *)
Definition getCached (r : StandardDNSResolver) (now : Z) (key : string)
  : option cached * StandardDNSResolver :=
  match dr_cache r !! key with
  | None => (None, r)
  | Some entry =>
      if dr_cacheTTL r <? clamp_i64 (now - ce_createdAt entry)
      then (None, MkResolver (delete key (dr_cache r)) (dr_cacheTTL r))
      else (Some (ce_result entry), r)
  end.

Definition setCache (r : StandardDNSResolver) (now : Z) (key : string) (v : cached)
  : StandardDNSResolver :=
  MkResolver (<[key := MkDnsEntry v now]> (dr_cache r)) (dr_cacheTTL r).

(** A failed type assertion panics. *)
Definition type_assertion_panic : goerror := EPlain "panic: interface conversion".

Definition badge_key (f : Fqdn) : string := "badge:" ++ Fqdn_String f.
Definition discovery_key (f : Fqdn) : string := "discovery:" ++ Fqdn_String f.

Definition handleLookupError (err : goerror) (queryName : string)
  : result goerror DNSLookupResult :=
  match errors_As as_NetDNSError err with
  | None => Err (EDNS DNSErrorLookupFailed queryName "err.Error()")
  | Some (isNotFound, isTimeout) =>
      if isNotFound then Ok (MkLookup false [])
      else if isTimeout then Err (EDNS DNSErrorTimeout queryName "")
      else Err (EDNS DNSErrorLookupFailed queryName "err.Error()")
  end.

Definition net_not_found (err : goerror) : bool :=
  match errors_As as_NetDNSError err with Some (nf, _) => nf | None => false end.

(** The [less] function given to [sort.Slice]: newest first, nil last. *)
Definition badge_less (a b : ATIBadgeRecord) : bool :=
  match br_Version a, br_Version b with
  | None, _ => false
  | Some _, None => true
  | Some vi, Some vj => 0 <? Version_Compare vi vj
  end.

(** [sort.Slice] with [badge_less]: some permutation in which no element is
    less than an earlier one ([sort.Slice] is not stable). *)
Class BadgeSort := {
  sort_badges : list ATIBadgeRecord -> list ATIBadgeRecord;
  sort_badges_perm : forall l, Permutation (sort_badges l) l;
  sort_badges_sorted : forall l, StronglySorted (fun a b => badge_less b a = false) (sort_badges l)
}.

Section Resolver.
Context `{UnicodeTables} `{BadgeSort}.
(** [net.Resolver.LookupTXT] during one call. *)
Variable LookupTXT : string -> result goerror (list string).

(** The parse-and-skip loop; the source is overwritten on each record. *)
Definition badge_of_txt (source : BadgeRecordSource) (txt : string) : option ATIBadgeRecord :=
  match ParseATIBadgeRecord txt with
  | Ok b => Some (MkATIBadgeRecord (FormatVersion b) (br_Version b) (br_URL b) source)
  | Err _ => None
  end.

Definition lookupBadgeRecords (queryName : string) (source : BadgeRecordSource)
  : result goerror DNSLookupResult :=
  match LookupTXT queryName with
  | Err err =>
      if net_not_found err then Ok (MkLookup false []) else handleLookupError err queryName
  | Ok txts =>
      let records := filter_map (badge_of_txt source) txts in
      if (length records =? 0)%nat then Ok (MkLookup false []) else Ok (MkLookup true records)
  end.

(** [LookupATIBadge]; [t1] is the time of the cache read, [t2] of the write. *)
Definition LookupATIBadge (r : StandardDNSResolver) (t1 t2 : Z) (fqdn : Fqdn)
  : result goerror DNSLookupResult * StandardDNSResolver :=
  let cacheKey := badge_key fqdn in
  match getCached r t1 cacheKey with
  | (Some (CBadge res), r) => (Ok res, r)
  | (Some (CDiscovery _), r) => (Err type_assertion_panic, r)
  | (None, r) =>
      match lookupBadgeRecords (ATIBadgeName fqdn) BadgeRecordSourceATIBadge with
      | Err e => (Err e, r)
      | Ok res =>
          if Found res then (Ok res, setCache r t2 cacheKey (CBadge res))
          else
            match lookupBadgeRecords (RaBadgeName fqdn) BadgeRecordSourceRaBadge with
            | Ok res => (Ok res, setCache r t2 cacheKey (CBadge res))
            | Err e => (Err e, r)
            end
      end
  end.

Definition GetATIBadgeRecords (r : StandardDNSResolver) (t1 t2 : Z) (fqdn : Fqdn)
  : result goerror (list ATIBadgeRecord) * StandardDNSResolver :=
  match LookupATIBadge r t1 t2 fqdn with
  | (Err e, r) => (Err e, r)
  | (Ok res, r) =>
      if Found res then (Ok (lr_Records res), r)
      else (Err (EDNS DNSErrorNotFound (Fqdn_String fqdn) ""), r)
  end.

Definition isNotFoundError (err : goerror) : bool :=
  match errors_As as_DNSError err with Some DNSErrorNotFound => true | _ => false end.

Definition map_not_found (err : goerror) : goerror :=
  if isNotFoundError err then ERecordNotFound else err.

Definition version_matches (v : Version) (b : ATIBadgeRecord) : bool :=
  match br_Version b with Some v' => Version_Equal v' v | None => false end.
Definition versionless (b : ATIBadgeRecord) : bool := negb (is_some (br_Version b)).

(** The two passes over the records. *)
Definition select_for_version (records : list ATIBadgeRecord) (version : Version)
  : result goerror ATIBadgeRecord :=
  match List.find (version_matches version) records with
  | Some b => Ok b
  | None =>
      match List.find versionless records with
      | Some b => Ok b
      | None => Err ERecordNotFound
      end
  end.

Definition FindBadgeForVersion (r : StandardDNSResolver) (t1 t2 : Z) (fqdn : Fqdn)
    (version : Version) : result goerror ATIBadgeRecord * StandardDNSResolver :=
  match GetATIBadgeRecords r t1 t2 fqdn with
  | (Err e, r) => (Err (map_not_found e), r)
  | (Ok records, r) => (select_for_version records version, r)
  end.

(** [sort.Slice] works in place on the slice the cache entry also holds. *)
Definition sort_cached (r : StandardDNSResolver) (key : string) : StandardDNSResolver :=
  match dr_cache r !! key with
  | Some (MkDnsEntry (CBadge res) t) =>
      MkResolver
        (<[key := MkDnsEntry (CBadge (MkLookup (Found res) (sort_badges (lr_Records res)))) t]>
           (dr_cache r)) (dr_cacheTTL r)
  | _ => r
  end.

Definition FindPreferredBadge (r : StandardDNSResolver) (t1 t2 : Z) (fqdn : Fqdn)
  : result goerror ATIBadgeRecord * StandardDNSResolver :=
  match GetATIBadgeRecords r t1 t2 fqdn with
  | (Err e, r) => (Err (map_not_found e), r)
  | (Ok records, r) =>
      if (length records =? 0)%nat then (Err ERecordNotFound, r)
      else
        match sort_badges records with
        | b :: _ => (Ok b, sort_cached r (badge_key fqdn))
        | [] => (Err (EPlain "panic: index out of range"), r)
        end
  end.

Definition ati_of_txt (txt : string) : option ATIRecord :=
  match ParseATIRecord txt with Ok r => Some r | Err _ => None end.

Definition LookupATIDiscovery (r : StandardDNSResolver) (t1 t2 : Z) (fqdn : Fqdn)
  : result goerror ATIDiscoveryResult * StandardDNSResolver :=
  let cacheKey := discovery_key fqdn in
  match getCached r t1 cacheKey with
  | (Some (CDiscovery res), r) => (Ok res, r)
  | (Some (CBadge _), r) => (Err type_assertion_panic, r)
  | (None, r) =>
      let queryName := ATIDiscoveryName fqdn in
      match LookupTXT queryName with
      | Err err =>
          if net_not_found err then
            let res := MkDiscovery false [] in
            (Ok res, setCache r t2 cacheKey (CDiscovery res))
          else (Err (EDNS DNSErrorLookupFailed queryName "err.Error()"), r)
      | Ok txts =>
          let records := filter_map ati_of_txt txts in
          let res := MkDiscovery (negb (length records =? 0)%nat) records in
          (Ok res, setCache r t2 cacheKey (CDiscovery res))
      end
  end.

End Resolver.

(** ** The order of [badge_less] *)

Definition rank_lt (a b : option Version) : Prop :=
  match a, b with
  | None, None => False
  | None, Some _ => True
  | Some _, None => False
  | Some x, Some y => Version_lt x y
  end.

Lemma badge_less_true (a b : ATIBadgeRecord) :
  badge_less a b = true <-> rank_lt (br_Version b) (br_Version a).
Proof.
  unfold badge_less, rank_lt. destruct (br_Version a) as [x|], (br_Version b) as [y|];
    try (split; [discriminate | tauto]); [|tauto].
  rewrite Z.ltb_lt, <- Version_Compare_gt.
  destruct (Version_Compare_values x y) as [E|[E|E]]; rewrite E; lia.
Qed.

Lemma badge_less_false (a b : ATIBadgeRecord) :
  badge_less a b = false <-> ~ rank_lt (br_Version b) (br_Version a).
Proof. rewrite <- badge_less_true, not_true_iff_false. reflexivity. Qed.

Lemma rank_lt_asym (a b : option Version) : rank_lt a b -> ~ rank_lt b a.
Proof.
  destruct a as [x|], b as [y|]; simpl; try tauto. intros H1 H2.
  exact (Version_lt_irrefl x (Version_lt_trans _ _ _ H1 H2)).
Qed.

Lemma rank_not_lt_trans (a b c : option Version) :
  ~ rank_lt b a -> ~ rank_lt c b -> ~ rank_lt c a.
Proof.
  destruct a as [x|], b as [y|], c as [z|]; simpl; try tauto. intros H1 H2 H3.
  destruct (Version_total x y) as [E|[->|E]]; [|tauto|tauto].
  apply H2. exact (Version_lt_trans _ _ _ H3 E).
Qed.

(** An instance of the sorting contract: insertion sort. *)
Fixpoint insert_badge (b : ATIBadgeRecord) (l : list ATIBadgeRecord) : list ATIBadgeRecord :=
  match l with
  | [] => [b]
  | x :: l' => if badge_less x b then x :: insert_badge b l' else b :: l
  end.

Definition insertion_sort (l : list ATIBadgeRecord) : list ATIBadgeRecord :=
  fold_right insert_badge [] l.

Lemma insert_badge_perm (b : ATIBadgeRecord) (l : list ATIBadgeRecord) :
  Permutation (insert_badge b l) (b :: l).
Proof.
  induction l as [|x l IH]; simpl; [reflexivity|]. destruct (badge_less x b); [|reflexivity].
  rewrite IH. apply Permutation_swap.
Qed.

Lemma insert_badge_sorted (b : ATIBadgeRecord) (l : list ATIBadgeRecord) :
  StronglySorted (fun a b => badge_less b a = false) l ->
  StronglySorted (fun a b => badge_less b a = false) (insert_badge b l).
Proof.
  induction 1 as [|x l Hl IH Hx]; simpl; [repeat constructor|].
  destruct (badge_less x b) eqn:E; constructor; auto.
  - assert (Hb : badge_less b x = false).
    { apply badge_less_false, rank_lt_asym, badge_less_true, E. }
    rewrite (insert_badge_perm b l). constructor; assumption.
  - constructor; assumption.
  - constructor; [exact E|]. eapply Forall_impl; [exact Hx|]. intros y Hy.
    rewrite badge_less_false in *. eapply rank_not_lt_trans; eauto.
Qed.

Definition insertion_BadgeSort : BadgeSort.
Proof.
  refine {| sort_badges := insertion_sort |}.
  - induction l as [|b l IH]; simpl; [reflexivity|]. rewrite insert_badge_perm, IH. reflexivity.
  - induction l as [|b l IH]; simpl; [constructor | apply insert_badge_sorted, IH].
Defined.

(** ** The cache invariant *)

Section Invariant.
Context `{UnicodeTables} `{BadgeSort}.

(** A badge record as the resolver hands it out. *)
Definition badge_record_safe (b : ATIBadgeRecord) : Prop :=
  (forall v, br_Version b = Some v -> Version_wf v) /\ badge_url_safe (br_URL b).

Definition lookup_ok (res : DNSLookupResult) : Prop :=
  Forall badge_record_safe (lr_Records res) /\ (Found res = true <-> lr_Records res <> []).

(** Badge keys hold badge results, discovery keys discovery results. *)
Definition entry_ok (key : string) (e : dnsCacheEntry) : Prop :=
  match ce_result e with
  | CBadge res => HasPrefix key "badge:" = true /\ lookup_ok res
  | CDiscovery res => HasPrefix key "discovery:" = true
  end.

Definition resolver_ok (r : StandardDNSResolver) : Prop := map_Forall entry_ok (dr_cache r).

(** One call of a public method, in any DNS world, at any time. *)
Inductive resolver_step : StandardDNSResolver -> StandardDNSResolver -> Prop :=
| step_badge dns r t1 t2 f : resolver_step r (snd (LookupATIBadge dns r t1 t2 f))
| step_discovery dns r t1 t2 f : resolver_step r (snd (LookupATIDiscovery dns r t1 t2 f))
| step_version dns r t1 t2 f v : resolver_step r (snd (FindBadgeForVersion dns r t1 t2 f v))
| step_preferred dns r t1 t2 f : resolver_step r (snd (FindPreferredBadge dns r t1 t2 f))
| step_clear r : resolver_step r (ClearCache r)
| step_ttl r ttl : resolver_step r (WithCacheTTL r ttl).

Inductive reachable : StandardDNSResolver -> Prop :=
| reach_new : reachable NewStandardDNSResolver
| reach_step r r' : reachable r -> resolver_step r r' -> reachable r'.

Lemma badge_of_txt_safe (src : BadgeRecordSource) (txt : string) (b : ATIBadgeRecord) :
  badge_of_txt src txt = Some b -> badge_record_safe b /\ br_Source b = src.
Proof.
  unfold badge_of_txt, ParseATIBadgeRecord. cbv zeta. intros E.
  case_match_in E. injection E as <-. split; [|reflexivity]. unfold badge_record_safe, badge_url_safe.
  match goal with F : _ = Ok _ |- _ => revert F end. cbn [br_Version br_URL].
  set (vs := or_field _ (field _ "version")). set (u := or_field _ (field _ "url")).
  intros F. repeat case_match_in F; injection F as <-; cbn [br_Version br_URL];
    bool_hyps; (split; [intros v' E'; try discriminate E'; injection E' as <-;
                         eapply ParseVersion_wf; eassumption|]);
    eexists; repeat split; try eassumption;
    match goal with F : is_some (User ?x) = false |- _ => destruct (User x); [discriminate F | reflexivity] end.
Qed.

Lemma lookupBadgeRecords_ok dns (q : string) (src : BadgeRecordSource) (res : DNSLookupResult) :
  lookupBadgeRecords dns q src = Ok res ->
  lookup_ok res /\ Forall (fun b => br_Source b = src) (lr_Records res).
Proof.
  assert (Hnone : lookup_ok (MkLookup false [])).
  { split; [constructor | split; [discriminate | intros []; reflexivity]]. }
  unfold lookupBadgeRecords, handleLookupError. intros E.
  destruct (dns q) as [txts|err].
  - destruct (length (filter_map _ _) =? 0)%nat eqn:El; injection E as <-; [auto|].
    bool_hyps. split; [split|]; cbn [lr_Records Found].
    + apply Forall_forall. intros b Hb. apply list_elem_of_In, in_filter_map in Hb as (t & _ & Ht).
      eapply badge_of_txt_safe; eauto.
    + split; [|reflexivity]. intros _ E0. apply El. rewrite E0. reflexivity.
    + apply Forall_forall. intros b Hb. apply list_elem_of_In, in_filter_map in Hb as (t & _ & Ht).
      eapply badge_of_txt_safe; eauto.
  - repeat case_match_in E; injection E as <-; auto.
Qed.

Lemma lookupBadgeRecords_error dns (q : string) (src : BadgeRecordSource) (e : goerror) :
  lookupBadgeRecords dns q src = Err e -> exists t reason, e = EDNS t q reason /\ t <> DNSErrorNotFound.
Proof.
  unfold lookupBadgeRecords, handleLookupError. intros E.
  repeat case_match_in E; injection E as <-; eexists _, _; split; (reflexivity || discriminate).
Qed.

Lemma getCached_ok (r : StandardDNSResolver) (now : Z) (key : string) (c : option cached) r' :
  resolver_ok r -> getCached r now key = (c, r') ->
  resolver_ok r' /\ forall x, c = Some x -> exists t, entry_ok key (MkDnsEntry x t).
Proof.
  unfold getCached, resolver_ok. intros Hr E.
  destruct (dr_cache r !! key) as [[x t]|] eqn:El; [|injection E as <- <-; split; [exact Hr | discriminate]].
  destruct (_ <? _); injection E as <- <-; cbn [dr_cache].
  - split; [apply map_Forall_delete, Hr | discriminate].
  - split; [exact Hr|]. intros y [= <-]. exists t. exact (Hr _ _ El).
Qed.

Lemma setCache_ok (r : StandardDNSResolver) (now : Z) (key : string) (x : cached) :
  resolver_ok r -> entry_ok key (MkDnsEntry x now) -> resolver_ok (setCache r now key x).
Proof. intros Hr Hx. apply map_Forall_insert_2; assumption. Qed.

(** What every call of [LookupATIBadge] returns. *)
Definition badge_result_ok (res : result goerror DNSLookupResult) : Prop :=
  match res with
  | Ok res => lookup_ok res
  | Err e => exists t q reason, e = EDNS t q reason /\ t <> DNSErrorNotFound
  end.

Lemma LookupATIBadge_ok dns (r : StandardDNSResolver) (t1 t2 : Z) (f : Fqdn) :
  resolver_ok r ->
  resolver_ok (snd (LookupATIBadge dns r t1 t2 f)) /\
  badge_result_ok (fst (LookupATIBadge dns r t1 t2 f)).
Proof.
  intros Hr. unfold LookupATIBadge.
  destruct (getCached r t1 (badge_key f)) as [c r1] eqn:Ec.
  apply getCached_ok in Ec as [Hr1 Hc]; [|exact Hr].
  destruct c as [[res|res]|].
  - destruct (Hc _ eq_refl) as (t & _ & Hres). auto.
  - destruct (Hc _ eq_refl) as (t & Hbad). discriminate Hbad.
  - destruct (lookupBadgeRecords dns (ATIBadgeName f) _) as [res|e] eqn:E1.
    + apply lookupBadgeRecords_ok in E1 as [E1 _].
      destruct (Found res); [split; [apply setCache_ok; [|split; [reflexivity|]]|]; assumption|].
      destruct (lookupBadgeRecords dns (RaBadgeName f) _) as [res2|e] eqn:E2.
      * apply lookupBadgeRecords_ok in E2 as [E2 _].
        split; [apply setCache_ok; [|split; [reflexivity|]]|]; assumption.
      * apply lookupBadgeRecords_error in E2 as (t & reason & -> & Ht).
        split; [assumption|]. eexists _, _, _; eauto.
    + apply lookupBadgeRecords_error in E1 as (t & reason & -> & Ht).
      split; [assumption|]. eexists _, _, _; eauto.
Qed.

Lemma LookupATIDiscovery_ok dns (r : StandardDNSResolver) (t1 t2 : Z) (f : Fqdn) :
  resolver_ok r ->
  resolver_ok (snd (LookupATIDiscovery dns r t1 t2 f)) /\
  fst (LookupATIDiscovery dns r t1 t2 f) <> Err type_assertion_panic.
Proof.
  intros Hr. unfold LookupATIDiscovery.
  destruct (getCached r t1 (discovery_key f)) as [c r1] eqn:Ec.
  apply getCached_ok in Ec as [Hr1 Hc]; [|exact Hr].
  destruct c as [[res|res]|].
  - destruct (Hc _ eq_refl) as (t & Hbad & _). discriminate Hbad.
  - split; [assumption | discriminate].
  - destruct (dns _) as [txts|err]; [|destruct (net_not_found err)];
      (split; [try apply setCache_ok; (assumption || reflexivity) | discriminate]).
Qed.

Lemma GetATIBadgeRecords_ok dns (r : StandardDNSResolver) (t1 t2 : Z) (f : Fqdn) :
  resolver_ok r ->
  resolver_ok (snd (GetATIBadgeRecords dns r t1 t2 f)) /\
  forall l, fst (GetATIBadgeRecords dns r t1 t2 f) = Ok l -> l <> [] /\ Forall badge_record_safe l.
Proof.
  intros Hr. destruct (LookupATIBadge_ok dns r t1 t2 f Hr) as [H1 H2]. unfold GetATIBadgeRecords.
  destruct (LookupATIBadge dns r t1 t2 f) as [[res|e] r']; cbn in *; [|split; [assumption | discriminate]].
  destruct H2 as [H2 H3]. destruct (Found res) eqn:E; (split; [assumption|]); [|discriminate].
  intros l [= <-]. split; [apply H3; reflexivity | assumption].
Qed.

Lemma sort_cached_ok (r : StandardDNSResolver) (key : string) :
  resolver_ok r -> resolver_ok (sort_cached r key).
Proof.
  intros Hr. unfold sort_cached. destruct (dr_cache r !! key) as [[[res|res] t]|] eqn:E; auto.
  apply map_Forall_insert_2; [|exact Hr]. destruct (Hr _ _ E) as [Hk [H1 H2]]. split; [exact Hk|].
  pose proof (sort_badges_perm (lr_Records res)) as Hp. split; cbn [lr_Records Found].
  - rewrite Hp. exact H1.
  - rewrite H2. split; intros Hn E0; apply Hn.
    + rewrite E0 in Hp. apply Permutation_nil in Hp. exact Hp.
    + rewrite E0 in *. apply Permutation_nil. symmetry. exact Hp.
Qed.

Lemma FindPreferredBadge_ok dns (r : StandardDNSResolver) (t1 t2 : Z) (f : Fqdn) :
  resolver_ok r ->
  resolver_ok (snd (FindPreferredBadge dns r t1 t2 f)) /\
  forall b, fst (FindPreferredBadge dns r t1 t2 f) = Ok b -> badge_record_safe b.
Proof.
  intros Hr. destruct (GetATIBadgeRecords_ok dns r t1 t2 f Hr) as [H1 H2]. unfold FindPreferredBadge.
  destruct (GetATIBadgeRecords dns r t1 t2 f) as [[l|e] r']; cbn in *; [|split; [assumption | discriminate]].
  destruct (H2 l eq_refl) as [_ Hs]. destruct (length l =? 0)%nat; [split; [assumption | discriminate]|].
  pose proof (sort_badges_perm l) as Hp. rewrite <- Hp in Hs.
  destruct (sort_badges l) as [|b l']; [split; [assumption | discriminate]|].
  split; [apply sort_cached_ok; assumption|]. intros b' [= <-]. inversion Hs; assumption.
Qed.

Lemma FindBadgeForVersion_ok dns (r : StandardDNSResolver) (t1 t2 : Z) (f : Fqdn) (v : Version) :
  resolver_ok r ->
  resolver_ok (snd (FindBadgeForVersion dns r t1 t2 f v)) /\
  forall b, fst (FindBadgeForVersion dns r t1 t2 f v) = Ok b -> badge_record_safe b.
Proof.
  intros Hr. destruct (GetATIBadgeRecords_ok dns r t1 t2 f Hr) as [H1 H2]. unfold FindBadgeForVersion.
  destruct (GetATIBadgeRecords dns r t1 t2 f) as [[l|e] r']; cbn in *; [|split; [assumption | discriminate]].
  split; [assumption|]. destruct (H2 l eq_refl) as [_ Hs]. rewrite Forall_forall in Hs.
  intros b Hb. unfold select_for_version in Hb.
  destruct (List.find (version_matches v) l) as [b1|] eqn:E1;
    [injection Hb as <-; apply find_Some_split in E1 as [E1 _]; apply Hs, list_elem_of_In, E1|].
  destruct (List.find versionless l) as [b2|] eqn:E2; [|discriminate Hb].
  injection Hb as <-; apply find_Some_split in E2 as [E2 _]; apply Hs, list_elem_of_In, E2.
Qed.

Lemma step_resolver_ok (r r' : StandardDNSResolver) :
  resolver_ok r -> resolver_step r r' -> resolver_ok r'.
Proof.
  intros Hr Hs. revert Hr. destruct Hs; intros Hr.
  - apply LookupATIBadge_ok, Hr.
  - apply LookupATIDiscovery_ok, Hr.
  - apply FindBadgeForVersion_ok, Hr.
  - apply FindPreferredBadge_ok, Hr.
  - apply map_Forall_empty.
  - exact Hr.
Qed.

Lemma reachable_resolver_ok (r : StandardDNSResolver) : reachable r -> resolver_ok r.
Proof. induction 1; [apply map_Forall_empty | eauto using step_resolver_ok]. Qed.

End Invariant.

(** ** Properties *)

Section Properties.
Context `{UnicodeTables} `{BadgeSort}.

(** (safety over every history) in every state the resolver can reach by
    any sequence of calls, in any DNS worlds and at any times, a lookup never
    fails the type assertion on a cached value, fails only with a typed DNS error
    that is not "not found", and otherwise returns records all of which carry a
    well-formed version and an https URL with a host, without credentials and
    without fragment; [Found] tells exactly whether there is a record. *)
Theorem LookupATIBadge_reachable (dns : string -> result goerror (list string))
    (r : StandardDNSResolver) (t1 t2 : Z) (f : Fqdn) :
  reachable r -> badge_result_ok (fst (LookupATIBadge dns r t1 t2 f)).
Proof. intros Hr. apply LookupATIBadge_ok, reachable_resolver_ok, Hr. Qed.

(** (fallback) with nothing cached, the legacy [_ra-badge] name is used
    exactly when the [_ati-badge] lookup succeeded without a valid record: a hard
    DNS error (timeout, SERVFAIL) is returned as it is and nothing is cached, a
    found result is returned with its source and cached, and otherwise the result
    is that of the legacy name, cached when it is not an error. *)
Theorem LookupATIBadge_fallback (dns : string -> result goerror (list string))
    (r : StandardDNSResolver) (t1 t2 : Z) (f : Fqdn) :
  dr_cache r !! badge_key f = None ->
  LookupATIBadge dns r t1 t2 f =
  match lookupBadgeRecords dns (ATIBadgeName f) BadgeRecordSourceATIBadge with
  | Err e => (Err e, r)
  | Ok (MkLookup true records) =>
      (Ok (MkLookup true records), setCache r t2 (badge_key f) (CBadge (MkLookup true records)))
  | Ok (MkLookup false _) =>
      match lookupBadgeRecords dns (RaBadgeName f) BadgeRecordSourceRaBadge with
      | Err e => (Err e, r)
      | Ok res => (Ok res, setCache r t2 (badge_key f) (CBadge res))
      end
  end.
Proof.
  intros Hc. unfold LookupATIBadge, getCached. rewrite Hc.
  destruct (lookupBadgeRecords dns (ATIBadgeName f) _) as [[[|] l]|e]; reflexivity.
Qed.

(** (freshness) a cached answer is served, whatever the DNS says now, for
    exactly [cacheTTL] after it was stored, and later the names are queried
    again. *)
Theorem LookupATIBadge_cached (dns : string -> result goerror (list string))
    (r : StandardDNSResolver) (t t1 t2 : Z) (f : Fqdn) (res : DNSLookupResult) :
  dr_cache r !! badge_key f = Some (MkDnsEntry (CBadge res) t) -> in_i64 (t1 - t) ->
  LookupATIBadge dns r t1 t2 f =
  if t1 - t <=? dr_cacheTTL r then (Ok res, r)
  else LookupATIBadge dns (MkResolver (delete (badge_key f) (dr_cache r)) (dr_cacheTTL r)) t1 t2 f.
Proof.
  intros Hc Ht. unfold LookupATIBadge, getCached. rewrite Hc. cbn [ce_createdAt ce_result dr_cache].
  rewrite lookup_delete_eq. unfold clamp_i64, in_i64, max_i64, min_i64 in *.
  replace (Z.max _ _) with (t1 - t) by lia. rewrite Z.ltb_antisym.
  destruct (t1 - t <=? dr_cacheTTL r); reflexivity.
Qed.

(** (selection) the preferred badge is one of the records found, and no
    record found has a newer version: a versioned record is always preferred to
    a versionless one. *)
Theorem FindPreferredBadge_newest (dns : string -> result goerror (list string))
    (r : StandardDNSResolver) (t1 t2 : Z) (f : Fqdn) (records : list ATIBadgeRecord) :
  fst (GetATIBadgeRecords dns r t1 t2 f) = Ok records -> records <> [] ->
  exists b, fst (FindPreferredBadge dns r t1 t2 f) = Ok b /\ In b records /\
    forall b', In b' records -> ~ rank_lt (br_Version b) (br_Version b').
Proof.
  intros Hg Hne. unfold FindPreferredBadge.
  destruct (GetATIBadgeRecords dns r t1 t2 f) as [res r']. cbn in Hg. subst res.
  destruct (length records =? 0)%nat eqn:El; [bool_hyps; destruct records; [congruence | discriminate]|].
  pose proof (sort_badges_perm records) as Hp. pose proof (sort_badges_sorted records) as Hs.
  destruct (sort_badges records) as [|b l];
    [apply Permutation_nil in Hp; congruence|].
  exists b. split; [reflexivity|]. split.
  - eapply Permutation_in; [exact Hp | left; reflexivity].
  - intros b' Hb'. apply (Permutation_in _ (Permutation_sym Hp)) in Hb' as [<-|Hin].
    + intros E. exact (rank_lt_asym _ _ E E).
    + inversion Hs as [|? ? _ Hf]; subst. rewrite List.Forall_forall in Hf.
      apply badge_less_false, Hf, Hin.
Qed.

(** (selection by version) a lookup for a version returns the first record
    of exactly that version if there is one, else the first versionless record,
    else "not found": never a record of another version. *)
Theorem FindBadgeForVersion_exact (dns : string -> result goerror (list string))
    (r : StandardDNSResolver) (t1 t2 : Z) (f : Fqdn) (v : Version) (records : list ATIBadgeRecord) :
  fst (GetATIBadgeRecords dns r t1 t2 f) = Ok records ->
  match fst (FindBadgeForVersion dns r t1 t2 f v) with
  | Ok b => In b records /\
      (br_Version b = Some v \/
       br_Version b = None /\ forall b', In b' records -> br_Version b' <> Some v)
  | Err e => e = ERecordNotFound /\
      forall b', In b' records -> exists v', br_Version b' = Some v' /\ v' <> v
  end.
Proof.
  intros Hg. unfold FindBadgeForVersion.
  destruct (GetATIBadgeRecords dns r t1 t2 f) as [res r']. cbn in Hg. subst res. cbn [fst].
  assert (Hm : forall b, version_matches v b = true <-> br_Version b = Some v).
  { intros b. unfold version_matches. destruct (br_Version b) as [v'|]; [|split; discriminate].
    rewrite Version_Equal_true. split; congruence. }
  unfold select_for_version. destruct (List.find (version_matches v) records) as [b|] eqn:E1.
  { apply find_Some_split in E1 as [Hin E1]. apply Hm in E1. auto. }
  assert (Hno : forall b', In b' records -> br_Version b' <> Some v).
  { intros b' Hb' E. apply (List.find_none _ _ E1) in Hb'. apply Hm in E. congruence. }
  destruct (List.find versionless records) as [b|] eqn:E2.
  - apply find_Some_split in E2 as [Hin E2]. split; [exact Hin|]. right. split; [|exact Hno].
    unfold versionless in E2. destruct (br_Version b); [discriminate | reflexivity].
  - split; [reflexivity|]. intros b' Hb'. pose proof (Hno b' Hb') as Hv.
    apply (List.find_none _ _ E2) in Hb'. unfold versionless in Hb'.
    destruct (br_Version b') as [v'|]; [|discriminate]. exists v'. split; congruence.
Qed.

End Properties.

(** ** Witnesses *)

Definition sample_dns (name : string) : result goerror (list string) :=
  if String.eqb name "_ati-badge.a.example" then Err (ENet true false)
  else if String.eqb name "_ra-badge.a.example" then
    Ok ["v=ra-badge1; url=https://tl.example/0"; "v=ra-badge1; av=1.2.0; url=https://tl.example/1";
        "junk"; "v=ra-badge1; av=1.10.0; url=https://tl.example/2"]
  else Err (ENet false true).

Definition sample_fqdn : Fqdn := MkFqdn "a.example".

Definition sample_records : list ATIBadgeRecord :=
  [MkATIBadgeRecord "ra-badge1" None "https://tl.example/0" BadgeRecordSourceRaBadge;
   MkATIBadgeRecord "ra-badge1" (Some (MkVersion 1 2 0)) "https://tl.example/1" BadgeRecordSourceRaBadge;
   MkATIBadgeRecord "ra-badge1" (Some (MkVersion 1 10 0)) "https://tl.example/2" BadgeRecordSourceRaBadge].

#[local] Existing Instance plain_tables.
#[local] Existing Instance insertion_BadgeSort.

Lemma LookupATIBadge_reachable_witness :
  badge_result_ok
    (fst (LookupATIBadge sample_dns
            (snd (FindPreferredBadge sample_dns NewStandardDNSResolver 0 1 sample_fqdn))
            2 3 sample_fqdn)).
Proof.
  apply LookupATIBadge_reachable.
  apply (reach_step NewStandardDNSResolver); [apply reach_new | apply step_preferred].
Defined.

Lemma LookupATIBadge_fallback_witness :
  fst (LookupATIBadge sample_dns NewStandardDNSResolver 0 1 sample_fqdn)
  = Ok (MkLookup true sample_records).
Proof. rewrite LookupATIBadge_fallback; vm_compute; reflexivity. Defined.

Lemma LookupATIBadge_cached_witness :
  fst (LookupATIBadge (fun _ => Err (ENet false true))
         (setCache NewStandardDNSResolver 5 (badge_key sample_fqdn)
            (CBadge (MkLookup true sample_records))) 1005 1006 sample_fqdn)
  = Ok (MkLookup true sample_records).
Proof.
  rewrite (LookupATIBadge_cached _ _ 5 1005 1006 sample_fqdn (MkLookup true sample_records)).
  - vm_compute. reflexivity.
  - vm_compute. reflexivity.
  - vm_compute. split; discriminate.
Defined.

Lemma FindPreferredBadge_newest_witness :
  exists b, fst (FindPreferredBadge sample_dns NewStandardDNSResolver 0 1 sample_fqdn) = Ok b /\
    In b sample_records.
Proof.
  destruct (FindPreferredBadge_newest sample_dns NewStandardDNSResolver 0 1 sample_fqdn sample_records)
    as (b & Hb & Hin & _); [vm_compute; reflexivity | discriminate | eauto].
Defined.

Lemma FindBadgeForVersion_exact_witness :
  match fst (FindBadgeForVersion sample_dns NewStandardDNSResolver 0 1 sample_fqdn (MkVersion 1 2 0)) with
  | Ok b => In b sample_records /\
      (br_Version b = Some (MkVersion 1 2 0) \/
       br_Version b = None /\ forall b', In b' sample_records -> br_Version b' <> Some (MkVersion 1 2 0))
  | Err e => e = ERecordNotFound /\
      forall b', In b' sample_records -> exists v', br_Version b' = Some v' /\ v' <> MkVersion 1 2 0
  end.
Proof. apply (FindBadgeForVersion_exact _ _ _ _ _ _ sample_records). vm_compute. reflexivity. Defined.
