(* ===== verification/Dnssec.v ===== *)
(** Local DNSSEC chain validation: [verify/dnssec.go].

    The network, the clock and the context are functions of a tick that every
    consultation advances, so that two queries of one name may be answered
    differently. [github.com/miekg/dns] (key tags, RRSIG verification, DS
    digests, name handling) is the class [DnsLib]. *)

From S2P Require Import Prelude GoStrings Errors Models.

#[local] Open Scope string_scope.
#[local] Open Scope Z_scope.

(** ** Resource records *)

Record RR_Header := MkHdr { hdr_Name : string; hdr_Ttl : Z }.

Inductive rrtype := TypeTLSA | TypeDNSKEY | TypeDS | TypeOther.

#[export] Instance rrtype_eq_dec : EqDecision rrtype.
Proof. solve_decision. Defined.

Record TLSA := MkTLSA {
  tlsa_Usage : Z; tlsa_Selector : Z; tlsa_MatchingType : Z; tlsa_Certificate : string
}.

(** [key_Name] is the owner name of the key's header. *)
Record DNSKEY := MkDNSKEY {
  key_Name : string; Flags : Z; key_Algorithm : Z; PublicKey_ : string
}.

#[export] Instance DNSKEY_eq_dec : EqDecision DNSKEY.
Proof. solve_decision. Defined.

Record DS := MkDS { ds_KeyTag : Z; ds_Algorithm : Z; DigestType : Z; Digest : string }.

Record RRSIG := MkRRSIG {
  TypeCovered : rrtype; sig_Algorithm : Z; Labels : Z; Expiration : Z; Inception : Z;
  sig_KeyTag : Z; SignerName : string; sig_Signature : string
}.

Inductive rdata :=
| RTLSA (t : TLSA)
| RDNSKEY (k : DNSKEY)
| RDS (d : DS)
| RRRSIG (s : RRSIG)
| ROther (text : string).

Record RR := MkRR { hdr : RR_Header; data : rdata }.

Record Msg := MkMsg { Rcode : Z; Truncated : bool; Answer : list RR }.

Definition RcodeServerFailure : Z := 2.
Definition RcodeNameError : Z := 3.

(** [dns.Copy] followed by the assignment of [Header().Name]. *)
Definition set_Name (name : string) (rr : RR) : RR :=
  MkRR (MkHdr name (hdr_Ttl (hdr rr))) (data rr).

(** ** The library *)

Class DnsLib := {
  KeyTag : DNSKEY -> Z;
  (** [rrsig.Verify(key, rrset) == nil] *)
  sig_Verify : RRSIG -> DNSKEY -> list RR -> bool;
  ToDS : DNSKEY -> Z -> option DS;
  dns_Fqdn : string -> string;
  CountLabel : string -> Z;
  SplitDomainName : string -> list string
}.

(** The documented behaviour of [dns.Fqdn] on names without escapes. *)
Class DnsLibLaws `{DnsLib} := {
  dns_Fqdn_id : forall s,
    contains_char "\" s = false -> HasSuffix s "." = true -> dns_Fqdn s = s;
  dns_Fqdn_add : forall s,
    contains_char "\" s = false -> HasSuffix s "." = false -> dns_Fqdn s = s ++ "."
}.

Definition question : Type := string * rrtype.

(** What the code consults outside itself. Errors are their texts. *)
Record world := MkWorld {
  w_udp : nat -> question -> result string Msg;
  w_tcp : nat -> question -> result string Msg;
  w_ctx_err : nat -> option string;
  w_now : nat -> Z
}.

Record dnssecCacheEntry := MkKeys { ce_keys : list DNSKEY; ce_expires : Z }.

(** The validator: its trust anchor and cache, and the tick. *)
Record dnssecValidator := MkValidator {
  dv_trustAnchor : DS;
  dv_cache : gmap string dnssecCacheEntry;
  dv_tick : nat
}.

Definition defaultRootTrustAnchor : DS :=
  MkDS 20326 8 2 "e06d44b80b8f1d39a95c0b0d7c65d08458e880409bbc683457104237c7f8ec8d".

Definition newDNSSECValidator (trustAnchor : option DS) : dnssecValidator :=
  MkValidator (default defaultRootTrustAnchor trustAnchor) ∅ 0.

Definition tick (v : dnssecValidator) : dnssecValidator :=
  MkValidator (dv_trustAnchor v) (dv_cache v) (S (dv_tick v)).

Definition set_cache (v : dnssecValidator) (c : gmap string dnssecCacheEntry) : dnssecValidator :=
  MkValidator (dv_trustAnchor v) c (dv_tick v).

(** The state monad of the validator. *)
Definition M (A : Type) : Type := dnssecValidator -> result goerror A * dnssecValidator.

Definition mret {A : Type} (a : A) : M A := fun v => (Ok a, v).
Definition mfail {A : Type} (e : string) : M A := fun v => (Err (EPlain e), v).
Definition mbind {A B : Type} (m : M A) (k : A -> M B) : M B :=
  fun v => match m v with
           | (Ok a, v) => k a v
           | (Err e, v) => (Err e, v)
           end.

Notation "'do?' x ':=' m 'in' k" := (mbind m (fun x => k))
  (at level 200, x name, m at level 100, k at level 200, right associativity) : go_scope.

Section Validator.
Context `{UnicodeTables} `{DnsLib}.
Variable w : world.

(** ** Queries *)

Definition isTimeout (text : string) : bool :=
  Contains text "timeout" || Contains text "i/o timeout".

(** [doExchange]: UDP, then TCP when the answer is truncated. *)
Definition doExchange (q : question) (v : dnssecValidator) : result string Msg * dnssecValidator :=
  match w_udp w (dv_tick v) q with
  | Err e => (Err e, tick v)
  | Ok resp =>
      let v := tick v in
      if Truncated resp then (w_tcp w (dv_tick v) q, tick v) else (Ok resp, v)
  end.

Definition daneMaxRetries : nat := 2.

(** The attempts after the first one: [retries] of them remain. *)
Fixpoint exchange_retry (retries : nat) (q : question) (lastErr : string) : M Msg :=
  fun v =>
    match retries with
    | O => (Err (EWrap "DNS query timeout after %d retries: %w" (EPlain lastErr)), v)
    | S retries =>
        let n := dv_tick v in
        let v := tick v in
        match w_ctx_err w n with
        | Some e => (Err (EPlain e), v)
        | None =>
            match doExchange q v with
            | (Ok resp, v) => (Ok resp, v)
            | (Err e, v) => if negb (isTimeout e) then (Err (EPlain e), v) else exchange_retry retries q e v
            end
        end
    end.

Definition exchange (q : question) : M Msg :=
  fun v =>
    match doExchange q v with
    | (Ok resp, v) => (Ok resp, v)
    | (Err e, v) =>
        if negb (isTimeout e) then (Err (EPlain e), v) else exchange_retry daneMaxRetries q e v
    end.

(** ** Reading answers *)

Definition answer_keys (answer : list RR) : list DNSKEY :=
  filter_map (fun rr => match data rr with RDNSKEY k => Some k | _ => None end) answer.

Definition answer_sigs (t : rrtype) (answer : list RR) : list RRSIG :=
  filter_map (fun rr =>
    match data rr with
    | RRRSIG s => if bool_decide (TypeCovered s = t) then Some s else None
    | _ => None
    end) answer.

Definition is_key (rr : RR) : bool := match data rr with RDNSKEY _ => true | _ => false end.
Definition is_ds (rr : RR) : bool := match data rr with RDS _ => true | _ => false end.

Definition answer_ds (answer : list RR) : list DS :=
  filter_map (fun rr => match data rr with RDS d => Some d | _ => None end) answer.

(** The smallest TTL of the DNSKEY records, at most a day. *)
Definition min_key_ttl (answer : list RR) : Z :=
  fold_left (fun m rr => if hdr_Ttl (hdr rr) <? m then hdr_Ttl (hdr rr) else m)
    (List.filter is_key answer) 86400.

Definition fetchDNSKEYs (zone : string) : M (list DNSKEY) :=
  fun v =>
    let cached :=
      match dv_cache v !! zone with
      | Some ce =>
          let t := w_now w (dv_tick v) in
          let v := tick v in
          if t <? ce_expires ce then (Some (ce_keys ce), v)
          else (None, set_cache v (delete zone (dv_cache v)))
      | None => (None, v)
      end in
    match cached with
    | (Some keys, v) => (Ok keys, v)
    | (None, v) =>
        match exchange (dns_Fqdn zone, TypeDNSKEY) v with
        | (Err e, v) => (Err (EWrap "failed to query DNSKEY for %s: %w" e), v)
        | (Ok resp, v) =>
            let keys := answer_keys (Answer resp) in
            if (0 <? Z.of_nat (length keys)) then
              let t := w_now w (dv_tick v) in
              let v := tick v in
              let e := MkKeys keys (t + min_key_ttl (Answer resp) * 1000000000) in
              (Ok keys, set_cache v (<[zone := e]> (dv_cache v)))
            else (Ok keys, v)
        end
    end.

(** [key.Flags == 257]: a key-signing key. *)
Definition is_ksk (k : DNSKEY) : bool := Flags k =? 257.

(** The self-signature loop of [validateDNSKEYSet]. *)
Definition self_signed (rrsigs : list RRSIG) (dnskeys : list DNSKEY) (rrset : list RR) : bool :=
  existsb (fun s =>
    existsb (fun k => is_ksk k && (KeyTag k =? sig_KeyTag s) && sig_Verify s k rrset) dnskeys) rrsigs.

Definition validateDNSKEYSet (zone : string) (dnskeys : list DNSKEY) : M unit :=
  fun v =>
    match exchange (dns_Fqdn zone, TypeDNSKEY) v with
    | (Err e, v) => (Err (EWrap "failed to query DNSKEY RRSIG for %s: %w" e), v)
    | (Ok resp, v) =>
        let dnskeyRRset := List.filter is_key (Answer resp) in
        let rrsigs := answer_sigs TypeDNSKEY (Answer resp) in
        if (length rrsigs =? 0)%nat then (Err (EPlain "no RRSIG for DNSKEY in zone %s"), v)
        else if self_signed rrsigs dnskeys dnskeyRRset then (Ok tt, v)
        else (Err (EPlain "DNSKEY self-signature validation failed for zone %s"), v)
    end.

(** A KSK whose digest is [digest]. *)
Definition ksk_with_digest (digestType : Z) (digest : string) (k : DNSKEY) : bool :=
  is_ksk k &&
  match ToDS k digestType with Some d => EqualFold (Digest d) digest | None => false end.

Definition verifyRootKeys (dnskeys : list DNSKEY) : M bool :=
  fun v =>
    if existsb (ksk_with_digest (DigestType (dv_trustAnchor v)) (Digest (dv_trustAnchor v))) dnskeys
    then (Ok true, v)
    else (Err (EPlain "no root DNSKEY matches trust anchor (key tag %d)"), v).

Definition ds_matches (dsRecords : list DS) (dnskeys : list DNSKEY) : bool :=
  existsb (fun d => existsb (ksk_with_digest (DigestType d) (Digest d)) dnskeys) dsRecords.

(** ** Names *)

Definition wildcardOwner (name : string) (sigLabels : Z) : string :=
  let labels := SplitDomainName name in
  if Z.of_nat (length labels) <=? sigLabels then name
  else "*." ++ Join (drop (length labels - Z.to_nat sigLabels) labels) "." ++ ".".

Definition parentOf (zone : string) : string :=
  let zone := dns_Fqdn zone in
  if String.eqb zone "." then "."
  else
    match Index zone "." with
    | None => "."
    | Some idx =>
        let parent := str_drop (S idx) zone in
        if String.eqb parent "" then "." else parent
    end.

(** The RRset as signed: wildcard owners restored. *)
Definition verify_rrset (rrset : list RR) (rrsig : RRSIG) : list RR :=
  match rrset with
  | [] => rrset
  | rr :: _ =>
      if Labels rrsig <? CountLabel (hdr_Name (hdr rr))
      then map (set_Name (wildcardOwner (hdr_Name (hdr rr)) (Labels rrsig))) rrset
      else rrset
  end.

(** The key loop of step 3. *)
Definition signed_by (dnskeys : list DNSKEY) (rrsig : RRSIG) (rrset : list RR) : bool :=
  existsb (fun k => (KeyTag k =? sig_KeyTag rrsig) && sig_Verify rrsig k rrset) dnskeys.

(** [validateDSChain] with the recursive call as [parent]. *)
Definition validateDSChain (parent : string -> list RR -> RRSIG -> M bool)
    (zone : string) (dnskeys : list DNSKEY) : M bool :=
  fun v =>
    match exchange (dns_Fqdn zone, TypeDS) v with
    | (Err e, v) => (Err (EWrap "failed to query DS for %s: %w" e), v)
    | (Ok resp, v) =>
        let dsRecords := answer_ds (Answer resp) in
        let dsRRset := List.filter is_ds (Answer resp) in
        if (length dsRecords =? 0)%nat then (Ok false, v)
        else if negb (ds_matches dsRecords dnskeys)
        then (Err (EPlain "no KSK in zone %s matches parent DS record"), v)
        else
          match answer_sigs TypeDS (Answer resp) with
          | [] => (Err (EPlain "no RRSIG for DS records of %s"), v)
          | sig :: _ => parent (parentOf zone) dsRRset sig v
          end
    end.

Definition out_of_fuel : goerror := EPlain "out of fuel".

(** One level of [validateZoneChain] per unit of fuel. *)
Fixpoint validateZoneChain (fuel : nat) (zone : string) (rrset : list RR) (rrsig : RRSIG) : M bool :=
  match fuel with
  | O => fun v => (Err out_of_fuel, v)
  | S fuel =>
      do? dnskeys := fetchDNSKEYs zone in
      if (length dnskeys =? 0)%nat then mret false
      else if negb (signed_by dnskeys rrsig (verify_rrset rrset rrsig))
      then mfail "RRSIG verification failed for zone %s (key tag %d)"
      else
        do? u := validateDNSKEYSet zone dnskeys in
        if String.eqb zone "." then verifyRootKeys dnskeys
        else validateDSChain (validateZoneChain fuel) zone dnskeys
  end.

Definition validateRRset (fuel : nat) (rrset : list RR) (rrsigs : list RRSIG) : M bool :=
  match rrset, rrsigs with
  | [], _ => mret false
  | _, [] => mret false
  | _, rrsig :: _ => validateZoneChain fuel (SignerName rrsig) rrset rrsig
  end.

End Validator.

(** ** What a validated chain consists of *)

Section Chain.
Context `{UnicodeTables} `{DnsLib}.
Variable w : world.

(** [resp] was an accepted answer to [q] at some moment. *)
Definition answered (q : question) (resp : Msg) : Prop :=
  exists n, (w_udp w n q = Ok resp /\ Truncated resp = false) \/ w_tcp w n q = Ok resp.

(** [keys] are the DNSKEY records of an answer for [zone]. *)
Definition published (zone : string) (keys : list DNSKEY) : Prop :=
  exists resp, answered (dns_Fqdn zone, TypeDNSKEY) resp /\ keys = answer_keys (Answer resp).

(** [k] signs the DNSKEY RRset of [resp]. *)
Definition self_signs (resp : Msg) (k : DNSKEY) : bool :=
  existsb (fun s => (KeyTag k =? sig_KeyTag s) && sig_Verify s k (List.filter is_key (Answer resp)))
    (answer_sigs TypeDNSKEY (Answer resp)).

(** The key-signing key [k] has the digest of [d]. *)
Definition digest_of (d : DS) (k : DNSKEY) : Prop :=
  ksk_with_digest (DigestType d) (Digest d) k = true.

(** The DNSKEY RRset of an accepted answer authenticates [zsk] for [zone]: [ksk]
    is a key-signing key of that RRset that signs it, [zsk] is in it. *)
Definition key_set_of (zone : string) (ksk zsk : DNSKEY) : Prop :=
  exists resp, answered (dns_Fqdn zone, TypeDNSKEY) resp /\
    In ksk (answer_keys (Answer resp)) /\ is_ksk ksk = true /\ self_signs resp ksk = true /\
    In zsk (answer_keys (Answer resp)).

(** The signature on the RRset, with wildcard owners restored, is by [zsk]. *)
Definition signs (zsk : DNSKEY) (rrset : list RR) (sig : RRSIG) : Prop :=
  KeyTag zsk = sig_KeyTag sig /\ sig_Verify sig zsk (verify_rrset rrset sig) = true.

(** A chain of trust from the anchor to a signed RRset: the key that signs the
    RRset is in a DNSKEY RRset of the zone, that RRset is signed by one of its
    key-signing keys, and this very key is the one designated from above: by the
    anchor for the root, by a DS record that is secure in the parent for any other
    zone. *)
Inductive secure (anchor : DS) : string -> list RR -> RRSIG -> Prop :=
| secure_root ksk zsk rrset sig :
    key_set_of "." ksk zsk -> signs zsk rrset sig ->
    digest_of anchor ksk ->
    secure anchor "." rrset sig
| secure_delegation zone ksk zsk rrset sig resp ds dssig :
    zone <> "." ->
    key_set_of zone ksk zsk -> signs zsk rrset sig ->
    answered (dns_Fqdn zone, TypeDS) resp ->
    In ds (answer_ds (Answer resp)) -> digest_of ds ksk ->
    head (answer_sigs TypeDS (Answer resp)) = Some dssig ->
    secure anchor (parentOf zone) (List.filter is_ds (Answer resp)) dssig ->
    secure anchor zone rrset sig.

(** What the walk itself checks at a zone: [keys] of one accepted answer sign the
    RRset, and a key-signing key among them signs the DNSKEY RRset of [resp], which
    may be another answer. *)
Definition walked (zone : string) (keys : list DNSKEY) (resp : Msg) (rrset : list RR) (sig : RRSIG) : Prop :=
  published zone keys /\ signed_by keys sig (verify_rrset rrset sig) = true /\
  answered (dns_Fqdn zone, TypeDNSKEY) resp /\
  self_signed (answer_sigs TypeDNSKEY (Answer resp)) keys (List.filter is_key (Answer resp)) = true.

(** The two ways in which this is less than [key_set_of]. First, a key of the one
    answer, the signer of the RRset or a key-signing key, is missing in the other. *)
Definition split_keys (keys : list DNSKEY) (resp : Msg) (rrset : list RR) (sig : RRSIG) : Prop :=
  exists k, In k keys /\ ~ In k (answer_keys (Answer resp)) /\ (signs k rrset sig \/ is_ksk k = true).

(** [k] is designated from above as the key-signing key of [zone]. *)
Definition designated (anchor : DS) (zone : string) (k : DNSKEY) : Prop :=
  (zone = "." /\ digest_of anchor k) \/
  exists resp ds, answered (dns_Fqdn zone, TypeDS) resp /\
    In ds (answer_ds (Answer resp)) /\ digest_of ds k.

(** Second, the DNSKEY RRset is signed by a key-signing key of its own, but not by
    the designated one it lists. *)
Definition rival_ksk (anchor : DS) (zone : string) (resp : Msg) : Prop :=
  exists k rival,
    In k (answer_keys (Answer resp)) /\ designated anchor zone k /\ self_signs resp k = false /\
    In rival (answer_keys (Answer resp)) /\ is_ksk rival = true /\ self_signs resp rival = true.

(** A walk that is a chain of trust below some zone and has one of the two there. *)
Inductive chain_gap (anchor : DS) : string -> list RR -> RRSIG -> Prop :=
| gap_here zone keys resp rrset sig :
    walked zone keys resp rrset sig ->
    split_keys keys resp rrset sig \/ rival_ksk anchor zone resp ->
    chain_gap anchor zone rrset sig
| gap_above zone ksk zsk rrset sig resp ds dssig :
    zone <> "." ->
    key_set_of zone ksk zsk -> signs zsk rrset sig ->
    answered (dns_Fqdn zone, TypeDS) resp ->
    In ds (answer_ds (Answer resp)) -> digest_of ds ksk ->
    head (answer_sigs TypeDS (Answer resp)) = Some dssig ->
    chain_gap anchor (parentOf zone) (List.filter is_ds (Answer resp)) dssig ->
    chain_gap anchor zone rrset sig.

(** Every cached key set was published. *)
Definition cache_ok (v : dnssecValidator) : Prop :=
  map_Forall (fun zone ce => published zone (ce_keys ce)) (dv_cache v).

(** A step that only advances the tick. *)
Definition same_store (v v' : dnssecValidator) : Prop :=
  dv_cache v' = dv_cache v /\ dv_trustAnchor v' = dv_trustAnchor v.

Lemma doExchange_answered (q : question) (v v' : dnssecValidator) (r : result string Msg) :
  doExchange w q v = (r, v') ->
  same_store v v' /\ forall resp, r = Ok resp -> answered q resp.
Proof.
  unfold doExchange, answered. intros E.
  destruct (w_udp w (dv_tick v) q) as [resp|e] eqn:Eu; [destruct (Truncated resp) eqn:Et|];
    injection E as <- <-; (split; [split; reflexivity|]); intros x Hx; try discriminate Hx.
  - eauto.
  - injection Hx as <-. eauto.
Qed.

Lemma exchange_retry_answered (retries : nat) (q : question) (e : string)
    (v v' : dnssecValidator) (r : result goerror Msg) :
  exchange_retry w retries q e v = (r, v') ->
  same_store v v' /\ forall resp, r = Ok resp -> answered q resp.
Proof.
  revert e v. induction retries as [|n IH]; intros e v; cbn [exchange_retry].
  - intros [= <- <-]. split; [split; reflexivity | discriminate].
  - destruct (w_ctx_err w (dv_tick v)); [intros [= <- <-]; split; [split; reflexivity | discriminate]|].
    destruct (doExchange w q (tick v)) as [[resp|t] v1] eqn:E1;
      apply doExchange_answered in E1 as [[H1 H2] H3]; cbn [tick dv_cache dv_trustAnchor] in *.
    + intros [= <- <-]. split; [split; assumption|]. intros x [= <-]. auto.
    + destruct (negb (isTimeout t)); [intros [= <- <-]; split; [split; assumption | discriminate]|].
      intros E. apply IH in E as [[H4 H5] H6]. split; [split; congruence | exact H6].
Qed.

Lemma exchange_answered (q : question) (v v' : dnssecValidator) (r : result goerror Msg) :
  exchange w q v = (r, v') -> same_store v v' /\ forall resp, r = Ok resp -> answered q resp.
Proof.
  unfold exchange. destruct (doExchange w q v) as [[resp|t] v1] eqn:E1;
    apply doExchange_answered in E1 as [[H1 H2] H3].
  - intros [= <- <-]. split; [split; assumption|]. intros x [= <-]. auto.
  - destruct (negb (isTimeout t)); [intros [= <- <-]; split; [split; assumption | discriminate]|].
    intros E. apply exchange_retry_answered in E as [[H4 H5] H6]. split; [split; congruence | exact H6].
Qed.

Lemma same_store_cache_ok (v v' : dnssecValidator) : same_store v v' -> cache_ok v -> cache_ok v'.
Proof. unfold cache_ok. intros [-> _]. auto. Qed.

(** What one stage of the validation keeps. *)
Definition keeps (v v' : dnssecValidator) : Prop :=
  cache_ok v' /\ dv_trustAnchor v' = dv_trustAnchor v.

Lemma fetchDNSKEYs_published (zone : string) (v v' : dnssecValidator) (r : result goerror (list DNSKEY)) :
  cache_ok v -> fetchDNSKEYs w zone v = (r, v') ->
  keeps v v' /\ forall keys, r = Ok keys -> published zone keys.
Proof.
  unfold fetchDNSKEYs. intros Hv.
  set (cached := match dv_cache v !! zone with Some _ => _ | None => _ end).
  assert (Hc : cache_ok (snd cached) /\ dv_trustAnchor (snd cached) = dv_trustAnchor v /\
               forall keys, fst cached = Some keys -> published zone keys).
  { unfold cached. destruct (dv_cache v !! zone) as [ce|] eqn:Ec.
    - destruct (_ <? _); cbn [fst snd]; repeat split; try reflexivity.
      + exact Hv.
      + intros keys [= <-]. exact (Hv _ _ Ec).
      + apply map_Forall_delete, Hv.
      + discriminate.
    - repeat split; [exact Hv | discriminate]. }
  clearbody cached. destruct cached as [[keys|] v1]; cbn [fst snd] in Hc; destruct Hc as (H1 & H2 & H3).
  - intros [= <- <-]. split; [split; assumption|]. intros k [= <-]. auto.
  - destruct (exchange w (dns_Fqdn zone, TypeDNSKEY) v1) as [[resp|e] v2] eqn:E;
      apply exchange_answered in E as [Hs Ha].
    + assert (Hp : published zone (answer_keys (Answer resp))) by (exists resp; auto).
      pose proof (same_store_cache_ok _ _ Hs H1) as H4. destruct Hs as [_ Hs].
      destruct (0 <? _); intros [= <- <-]; (split; [split|]); try (intros k [= <-]; exact Hp);
        try (cbn; congruence); [|exact H4].
      apply map_Forall_insert_2; assumption.
    + intros [= <- <-]. split; [split|discriminate]; [exact (same_store_cache_ok _ _ Hs H1)|].
      destruct Hs; congruence.
Qed.

Lemma validateDNSKEYSet_signed (zone : string) (keys : list DNSKEY) (v v' : dnssecValidator)
    (r : result goerror unit) :
  cache_ok v -> validateDNSKEYSet w zone keys v = (r, v') ->
  keeps v v' /\
  (r = Ok tt -> exists resp, answered (dns_Fqdn zone, TypeDNSKEY) resp /\
     self_signed (answer_sigs TypeDNSKEY (Answer resp)) keys (List.filter is_key (Answer resp)) = true).
Proof.
  unfold validateDNSKEYSet. intros Hv.
  destruct (exchange w (dns_Fqdn zone, TypeDNSKEY) v) as [[resp|e] v2] eqn:E;
    apply exchange_answered in E as [Hs Ha]; pose proof (same_store_cache_ok _ _ Hs Hv) as H1;
    destruct Hs as [_ Hs].
  - destruct (length _ =? 0)%nat; [intros [= <- <-]; split; [split; assumption | discriminate]|].
    destruct (self_signed _ _ _) eqn:Eq; intros [= <- <-]; (split; [split; assumption|]);
      [eauto | discriminate].
  - intros [= <- <-]. split; [split; assumption | discriminate].
Qed.

Lemma digest_of_ksk (d : DS) (k : DNSKEY) : digest_of d k -> is_ksk k = true.
Proof. unfold digest_of, ksk_with_digest. intros [Hk _]%andb_prop. exact Hk. Qed.

Lemma designated_ksk (anchor : DS) (zone : string) (k : DNSKEY) : designated anchor zone k -> is_ksk k = true.
Proof. intros [[_ Hd]|(? & ? & _ & _ & Hd)]; exact (digest_of_ksk _ _ Hd). Qed.

(** A key that matters is in the other answer, or the answers are split. *)
Lemma key_in_answer (keys : list DNSKEY) (k : DNSKEY) (resp : Msg) (rrset : list RR) (sig : RRSIG) :
  In k keys -> signs k rrset sig \/ is_ksk k = true ->
  In k (answer_keys (Answer resp)) \/ split_keys keys resp rrset sig.
Proof.
  intros Hk Hr. destruct (decide (k ∈ answer_keys (Answer resp))) as [Hi|Hi]; rewrite list_elem_of_In in Hi;
    [left; exact Hi | right; exists k; auto].
Qed.

(** One level: the designated key authenticates the key that signed, or the
    zone has a gap. *)
Lemma level_authenticated (anchor : DS) (zone : string) (keys : list DNSKEY) (rrset : list RR)
    (sig : RRSIG) (resp : Msg) (ksk : DNSKEY) :
  walked zone keys resp rrset sig -> In ksk keys -> designated anchor zone ksk ->
  (exists zsk, key_set_of zone ksk zsk /\ signs zsk rrset sig) \/ chain_gap anchor zone rrset sig.
Proof.
  intros Hw Hk Hd. pose proof (designated_ksk _ _ _ Hd) as Hksk. pose proof (gap_here anchor zone keys resp rrset sig Hw) as Hg.
  destruct Hw as (_ & (zsk & Hz & Hs)%existsb_exists & Ha &
    (s & Hsig & (rival & Hr & Hself)%existsb_exists)%existsb_exists). bool_hyps.
  assert (Hrival : self_signs resp rival = true).
  { apply existsb_exists. exists s. split; [exact Hsig|]. apply andb_true_iff.
    split; [apply Z.eqb_eq|]; assumption. }
  assert (Hsz : signs zsk rrset sig) by (split; assumption).
  destruct (key_in_answer keys zsk resp rrset sig Hz) as [Hz'|]; [auto | | right; auto].
  destruct (key_in_answer keys rival resp rrset sig Hr) as [Hr'|]; [auto | | right; auto].
  destruct (key_in_answer keys ksk resp rrset sig Hk) as [Hk'|]; [auto | | right; auto].
  destruct (self_signs resp ksk) eqn:Eself.
  - left. exists zsk. split; [exists resp; auto 10 | exact Hsz].
  - right. apply Hg. right. exists ksk, rival. auto 10.
Qed.

Lemma validateZoneChain_secure (fuel : nat) (zone : string) (rrset : list RR) (sig : RRSIG)
    (v v' : dnssecValidator) :
  cache_ok v -> validateZoneChain w fuel zone rrset sig v = (Ok true, v') ->
  secure (dv_trustAnchor v) zone rrset sig \/ chain_gap (dv_trustAnchor v) zone rrset sig.
Proof.
  revert zone rrset sig v v'. induction fuel as [|fuel IH]; intros zone rrset sig v v' Hv;
    cbn [validateZoneChain]; [discriminate|]. unfold mbind.
  destruct (fetchDNSKEYs w zone v) as [[keys|e] v1] eqn:E1; [|discriminate].
  apply fetchDNSKEYs_published in E1 as [[Hv1 Ht1] Hp]; [|exact Hv].
  specialize (Hp keys eq_refl).
  destruct (length keys =? 0)%nat; [discriminate|].
  destruct (signed_by _ _ _) eqn:Es; cbn [negb]; [|discriminate].
  destruct (validateDNSKEYSet w zone keys v1) as [[[]|e] v2] eqn:E2; [|discriminate].
  apply validateDNSKEYSet_signed in E2 as [[Hv2 Ht2] Hk]; [|exact Hv1].
  destruct (Hk eq_refl) as (kresp & Hka & Hself). rewrite <- Ht1, <- Ht2.
  assert (Hw : walked zone keys kresp rrset sig) by (repeat split; assumption).
  destruct (String.eqb zone ".") eqn:Ez; bool_hyps.
  - subst zone. unfold verifyRootKeys. destruct (existsb _ keys) eqn:Er; [|discriminate].
    intros _. apply existsb_exists in Er as (ksk & Hin & Hdig).
    destruct (level_authenticated (dv_trustAnchor v2) _ _ _ _ _ ksk Hw Hin) as [(zsk & Hset & Hsg)|Hg];
      [left; auto | left | right; exact Hg].
    exact (secure_root _ ksk zsk rrset sig Hset Hsg Hdig).
  - unfold validateDSChain.
    destruct (exchange w (dns_Fqdn zone, TypeDS) v2) as [[resp|e] v3] eqn:E3; [|discriminate].
    apply exchange_answered in E3 as [Hs3 Ha]. specialize (Ha resp eq_refl).
    destruct (length _ =? 0)%nat; [discriminate|].
    destruct (ds_matches _ _) eqn:Ed; cbn [negb]; [|discriminate].
    apply existsb_exists in Ed as (ds & Hds & (ksk & Hin & Hdig)%existsb_exists).
    destruct (answer_sigs TypeDS (Answer resp)) as [|dssig rest] eqn:Eg; [discriminate|].
    assert (Hh : head (answer_sigs TypeDS (Answer resp)) = Some dssig) by (rewrite Eg; reflexivity).
    intros Hrec. apply IH in Hrec; [|exact (same_store_cache_ok _ _ Hs3 Hv2)].
    destruct Hs3 as [_ Hs3]. rewrite Hs3 in Hrec.
    destruct (level_authenticated (dv_trustAnchor v2) _ _ _ _ _ ksk Hw Hin) as [(zsk & Hset & Hsg)|Hg];
      [right; eauto | | right; exact Hg].
    destruct Hrec as [Hrec|Hrec]; [left | right].
    + exact (secure_delegation _ zone ksk zsk rrset sig resp ds dssig Ez Hset Hsg Ha Hds Hdig Hh Hrec).
    + exact (gap_above _ zone ksk zsk rrset sig resp ds dssig Ez Hset Hsg Ha Hds Hdig Hh Hrec).
Qed.

(** The ordinary network has neither exception: two answers for a zone list the
    same keys, and at most one key-signing key. *)
Definition steady : Prop :=
  forall zone resp1 resp2, answered (dns_Fqdn zone, TypeDNSKEY) resp1 ->
    answered (dns_Fqdn zone, TypeDNSKEY) resp2 -> answer_keys (Answer resp1) = answer_keys (Answer resp2).

Definition one_ksk : Prop :=
  forall zone resp k1 k2, answered (dns_Fqdn zone, TypeDNSKEY) resp ->
    In k1 (answer_keys (Answer resp)) -> In k2 (answer_keys (Answer resp)) ->
    is_ksk k1 = true -> is_ksk k2 = true -> k1 = k2.

Lemma steady_no_gap (anchor : DS) (zone : string) (rrset : list RR) (sig : RRSIG) :
  steady -> one_ksk -> ~ chain_gap anchor zone rrset sig.
Proof.
  intros Hst Hone. induction 1 as [zone keys resp rrset sig Hw Hgap | ]; [|assumption].
  destruct Hw as ((resp1 & H1 & ->) & _ & Ha & _). destruct Hgap as [(k & Hi & Hn & _)|Hr].
  - rewrite (Hst _ _ _ H1 Ha) in Hi. exact (Hn Hi).
  - destruct Hr as (k & rival & Hk & Hd & Hno & Hr & Hksk & Hself).
    rewrite (Hone _ _ _ _ Ha Hk Hr (designated_ksk _ _ _ Hd) Hksk), Hself in Hno. discriminate Hno.
Qed.

End Chain.

(** ** Termination *)

Definition count_dots (s : string) : nat := (length (Split s ".") - 1)%nat.

Section Termination.
Context `{UnicodeTables} `{DnsLibLaws}.

(** Levels still to climb. *)
Definition zone_levels (zone : string) : nat :=
  if String.eqb zone "." then 0 else count_dots (dns_Fqdn zone).

Lemma first_dot (s : string) (i : nat) :
  Index s "." = Some i -> count_dots s = S (count_dots (str_drop (S i) s)).
Proof.
  unfold count_dots. revert i. induction s as [|c s IH]; intros i; cbn -[Ascii.eqb Split]; [discriminate|].
  rewrite andb_true_r, (Ascii.eqb_sym "."). destruct (Ascii.eqb c ".") eqn:Ec.
  - intros [= <-]. cbn -[Ascii.eqb Split str_drop]. cbn [Split]. rewrite Ec.
    replace (str_drop 0 s) with s by (destruct s; reflexivity).
    pose proof (Split_not_nil s "."). destruct (Split s "."); [congruence | simpl; lia].
  - destruct (Index s ".") as [j|]; [|discriminate]. intros [= <-].
    specialize (IH j eq_refl). cbn [Split]. rewrite Ec.
    change (str_drop (S (S j)) (String c s)) with (str_drop (S j) s).
    destruct (Split s ".") as [|x l]; [simpl in *; lia|]. exact IH.
Qed.

Lemma drop_no_char (c : ascii) (n : nat) (s : string) :
  contains_char c s = false -> contains_char c (str_drop n s) = false.
Proof.
  unfold contains_char. rewrite !negb_false_iff. revert s.
  induction n as [|n IH]; intros s Hs; [destruct s; exact Hs|].
  destruct s as [|d s]; [reflexivity|]. cbn in *. bool_hyps. auto.
Qed.

Lemma drop_ends_dot (n : nat) (s : string) :
  HasSuffix s "." = true -> str_drop n s <> "" -> HasSuffix (str_drop n s) "." = true.
Proof.
  intros Hs Hne. apply HasSuffix_spec in Hs as [t ->]. apply HasSuffix_spec.
  revert t Hne. induction n as [|n IH]; intros t Hne; [exists t; destruct t; reflexivity|].
  destruct t as [|c t]; [destruct n; cbn in Hne; congruence|]. cbn in *. apply IH, Hne.
Qed.

Lemma Fqdn_plain (zone : string) :
  contains_char "\" zone = false ->
  contains_char "\" (dns_Fqdn zone) = false /\ HasSuffix (dns_Fqdn zone) "." = true.
Proof.
  intros Hz. destruct (HasSuffix zone ".") eqn:E.
  - rewrite dns_Fqdn_id by assumption. auto.
  - rewrite dns_Fqdn_add by assumption. split.
    + unfold contains_char in *. rewrite negb_false_iff in *. rewrite str_forallb_app, Hz. reflexivity.
    + apply HasSuffix_spec. eauto.
Qed.

Lemma parentOf_levels (zone : string) :
  contains_char "\" zone = false -> zone <> "." ->
  (zone_levels (parentOf zone) < zone_levels zone)%nat /\ contains_char "\" (parentOf zone) = false.
Proof.
  intros Hz Hr. destruct (Fqdn_plain zone Hz) as [Hb Hdot].
  assert (Hlev : zone_levels zone = count_dots (dns_Fqdn zone)).
  { unfold zone_levels. apply String.eqb_neq in Hr. rewrite Hr. reflexivity. }
  rewrite Hlev. unfold parentOf.
  destruct (String.eqb (dns_Fqdn zone) ".") eqn:Ef.
  { apply String.eqb_eq in Ef. rewrite Ef. split; [vm_compute; lia | reflexivity]. }
  destruct (Index (dns_Fqdn zone) ".") as [i|] eqn:Ei.
  2: { exfalso. apply HasSuffix_spec in Hdot as [t Ht]. rewrite Ht in Ei.
       assert (Contains (t ++ ".") "." = false) as Hn by (unfold Contains; rewrite Ei; reflexivity).
       rewrite Contains_char in Hn. unfold contains_char in Hn. rewrite str_forallb_app in Hn.
       cbn in Hn. rewrite andb_false_r in Hn. discriminate Hn. }
  pose proof (first_dot _ _ Ei) as Hd. pose proof (drop_no_char "\" (S i) _ Hb) as Hpb.
  set (parent := str_drop (S i) (dns_Fqdn zone)) in *.
  destruct (String.eqb parent "") eqn:Ep; bool_hyps.
  { split; [unfold zone_levels; cbn; lia | reflexivity]. }
  split; [|exact Hpb]. unfold zone_levels. destruct (String.eqb parent ".") eqn:E; [lia|].
  rewrite dns_Fqdn_id; [lia | exact Hpb |].
  apply drop_ends_dot; assumption.
Qed.

Variable w : world.

Lemma validateZoneChain_terminates (fuel : nat) (zone : string) (rrset : list RR) (sig : RRSIG)
    (v : dnssecValidator) :
  contains_char "\" zone = false -> (zone_levels zone < fuel)%nat ->
  fst (validateZoneChain w fuel zone rrset sig v) <> Err out_of_fuel.
Proof.
  revert zone rrset sig v. induction fuel as [|fuel IH]; intros zone rrset sig v Hz Hf; [lia|].
  cbn [validateZoneChain]. unfold mbind, mret, mfail.
  destruct (fetchDNSKEYs w zone v) as [[keys|e] v1] eqn:E1.
  2: { cbn. unfold fetchDNSKEYs in E1. repeat case_match_in E1; try discriminate.
       injection E1 as <- _. discriminate. }
  destruct (length keys =? 0)%nat; [discriminate|].
  destruct (signed_by _ _ _); cbn [negb]; [|discriminate].
  destruct (validateDNSKEYSet w zone keys v1) as [[[]|e] v2] eqn:E2.
  2: { cbn. unfold validateDNSKEYSet in E2. repeat case_match_in E2; injection E2 as <- _; discriminate. }
  destruct (String.eqb zone ".") eqn:Ez; bool_hyps.
  - unfold verifyRootKeys. destruct (existsb _ keys); discriminate.
  - destruct (parentOf_levels zone Hz Ez) as [Hl Hp]. unfold validateDSChain.
    destruct (exchange w (dns_Fqdn zone, TypeDS) v2) as [[resp|e] v3]; [|discriminate].
    destruct (length _ =? 0)%nat; [discriminate|].
    destruct (ds_matches _ _); cbn [negb]; [|discriminate].
    destruct (answer_sigs TypeDS (Answer resp)) as [|dssig rest]; [discriminate|].
    apply IH; [exact Hp | lia].
Qed.

End Termination.

(** ** Properties *)

Section Properties.
Context `{UnicodeTables} `{DnsLib}.

(** C15: (soundness of the chain walk) whatever the network answers, whenever
    the validator declares an RRset validated there is a chain of trust among the
    answers it received, for the zone that the first RRSIG names as its signer: at
    every level the key that signs the RRset is in a DNSKEY RRset of the zone,
    that RRset is signed by a key-signing key of its own, the same key has the
    digest of a DS record of the parent, and the DS RRset is secure in the parent
    in the same sense, up to the root, whose key has the digest of the configured
    anchor.

    There are two exceptions, and only two ([chain_gap]), at a zone up to which
    the walk is such a chain: the key that signs there, or a key-signing key, is in
    one DNSKEY answer for the zone and missing in the other one, whose RRset is
    checked ([split_keys]); or that RRset is signed by a key-signing key of its own
    but not by the one the DS record or the anchor designates ([rival_ksk]). The
    code compares neither the two answers nor the two keys:
    [validateRRset_split_answers] and [validateRRset_rival_ksk] show that it
    validates an attacker's records in both, and [steady_no_gap] that neither arises
    when the answers for a zone agree and list one key-signing key. Owner names,
    and whether the signer's zone holds the RRset, are for [dns.RRSIG.Verify] of the
    library; validity periods are not checked by the code. *)
Theorem validateRRset_secure (w : world) (fuel : nat) (rrset : list RR) (rrsigs : list RRSIG)
    (v v' : dnssecValidator) :
  cache_ok w v -> validateRRset w fuel rrset rrsigs v = (Ok true, v') ->
  exists sig, head rrsigs = Some sig /\ rrset <> [] /\
    (secure w (dv_trustAnchor v) (SignerName sig) rrset sig \/
     chain_gap w (dv_trustAnchor v) (SignerName sig) rrset sig).
Proof.
  unfold validateRRset. intros Hv. destruct rrset as [|rr rrset]; [discriminate|].
  destruct rrsigs as [|sig rest]; [discriminate|]. intros E. exists sig.
  split; [reflexivity|]. split; [discriminate|]. exact (validateZoneChain_secure w _ _ _ _ _ _ Hv E).
Qed.

(** (invariant) the key cache only ever holds key sets published for their
    zone, and the trust anchor never changes, whatever a validation returns. *)
Theorem validateRRset_cache_ok (w : world) (fuel : nat) (rrset : list RR) (rrsigs : list RRSIG)
    (v : dnssecValidator) :
  cache_ok w v -> keeps w v (snd (validateRRset w fuel rrset rrsigs v)).
Proof.
  intros Hv. assert (Hrefl : keeps w v v) by (split; auto).
  unfold validateRRset. destruct rrset as [|rr rrset]; [exact Hrefl|].
  destruct rrsigs as [|sig rest]; [exact Hrefl|]. clear Hrefl rest.
  generalize (SignerName sig) (rr :: rrset). revert sig v Hv.
  induction fuel as [|fuel IH]; intros sig v Hv zone rrs; cbn [validateZoneChain]; [split; auto|].
  unfold mbind, mret, mfail.
  destruct (fetchDNSKEYs w zone v) as [[keys|e] v1] eqn:E1;
    apply fetchDNSKEYs_published in E1 as [H1 _]; try exact Hv; [|exact H1].
  destruct (length keys =? 0)%nat; [exact H1|].
  destruct (negb (signed_by _ _ _)); [exact H1|].
  destruct (validateDNSKEYSet w zone keys v1) as [[[]|e] v2] eqn:E2;
    apply validateDNSKEYSet_signed in E2 as [H2 _]; try exact (proj1 H1);
    assert (H3 : keeps w v v2) by (destruct H1, H2; split; [assumption | congruence]); [|exact H3].
  destruct (String.eqb zone "."); [unfold verifyRootKeys; destruct (existsb _ _); exact H3|].
  unfold validateDSChain.
  destruct (exchange w (dns_Fqdn zone, TypeDS) v2) as [[resp|e] v3] eqn:E3;
    apply exchange_answered in E3 as [Hs _];
    assert (H4 : keeps w v v3) by
      (destruct H3; split; [eapply same_store_cache_ok; eauto | destruct Hs; congruence]); [|exact H4].
  destruct (length _ =? 0)%nat; [exact H4|]. destruct (negb (ds_matches _ _)); [exact H4|].
  destruct (answer_sigs _ _) as [|dssig rest]; [exact H4|].
  destruct (IH dssig v3 (proj1 H4) (parentOf zone) (List.filter is_ds (Answer resp))) as [H5 H6].
  split; [exact H5 | destruct H4; congruence].
Qed.

(** C22: (termination) The climb to the root ends: for a signer name without
    escapes, as many levels as the name has dots, plus one, are enough for
    [validateRRset] to return, whatever the network answers and the caches hold:
    each parent is a shorter name, and the root is its own end. *)
Theorem validateRRset_terminates `{!DnsLibLaws} (w : world) (fuel : nat) (rrset : list RR)
    (rrsigs : list RRSIG) (v : dnssecValidator) :
  Forall (fun s => contains_char "\" (SignerName s) = false /\
                   (zone_levels (SignerName s) < fuel)%nat) rrsigs ->
  fst (validateRRset w fuel rrset rrsigs v) <> Err out_of_fuel.
Proof.
  unfold validateRRset. intros Hs. destruct rrset as [|rr rrset]; [discriminate|].
  destruct Hs as [|sig rest [Hz Hl] _]; [discriminate|].
  apply validateZoneChain_terminates; assumption.
Qed.

End Properties.

(** ** A symbolic instance of the library *)

Definition rr_text (rr : RR) : string :=
  hdr_Name (hdr rr) ++
  match data rr with
  | RTLSA t => "TLSA" ++ tlsa_Certificate t
  | RDNSKEY k => "DNSKEY" ++ PublicKey_ k
  | RDS d => "DS" ++ Digest d
  | RRRSIG s => "RRSIG" ++ sig_Signature s
  | ROther t => t
  end.

(** The only string that verifies under a key, for an RRset. *)
Definition symbolic_signature (k : DNSKEY) (rrset : list RR) : string :=
  PublicKey_ k ++ " signs " ++ Join (map rr_text rrset) ",".

Definition symbolic_lib : DnsLib := {|
  KeyTag k := Z.of_nat (String.length (PublicKey_ k));
  sig_Verify s k rrset := String.eqb (sig_Signature s) (symbolic_signature k rrset);
  ToDS k t := Some (MkDS 0 (key_Algorithm k) t (key_Name k ++ PublicKey_ k));
  dns_Fqdn s := if HasSuffix s "." then s else s ++ ".";
  CountLabel s := Z.of_nat (length (Split (TrimSuffix s ".") "."));
  SplitDomainName s := Split (TrimSuffix s ".") "."
|}.

#[local] Existing Instance plain_tables.
#[local] Existing Instance symbolic_lib.

#[export] Instance symbolic_laws : DnsLibLaws (H := symbolic_lib).
Proof. split; intros s _ E; cbn; rewrite E; reflexivity. Qed.

Definition rr_of (name : string) (d : rdata) : RR := MkRR (MkHdr name 300) d.
Definition sig_of (t : rrtype) (signer : string) (k : DNSKEY) (rrset : list RR) : RRSIG :=
  MkRRSIG t 8 9 0 0 (KeyTag k) signer (symbolic_signature k rrset).

Definition root_ksk : DNSKEY := MkDNSKEY "." 257 8 "root-ksk".
Definition zone_ksk : DNSKEY := MkDNSKEY "example." 257 8 "zone-ksk1".
Definition zone_zsk : DNSKEY := MkDNSKEY "example." 256 8 "zone-zsk".
Definition sample_anchor : DS := MkDS 0 8 2 ".root-ksk".

Definition root_keys : list RR := [rr_of "." (RDNSKEY root_ksk)].
Definition zone_keys : list RR :=
  [rr_of "example." (RDNSKEY zone_ksk); rr_of "example." (RDNSKEY zone_zsk)].
Definition zone_ds : list RR := [rr_of "example." (RDS (MkDS 0 8 2 "example.zone-ksk1"))].

Definition honest_answer (q : question) : list RR :=
  match q with
  | (n, TypeDNSKEY) =>
      if String.eqb n "." then root_keys ++ [rr_of "." (RRRSIG (sig_of TypeDNSKEY "." root_ksk root_keys))]
      else zone_keys ++ [rr_of n (RRRSIG (sig_of TypeDNSKEY n zone_ksk zone_keys))]
  | (n, TypeDS) => zone_ds ++ [rr_of n (RRRSIG (sig_of TypeDS "." root_ksk zone_ds))]
  | _ => []
  end%list.

Definition honest_world : world :=
  MkWorld (fun n q => if (n =? 0)%nat then Err "read udp: i/o timeout"
                      else Ok (MkMsg 0 false (honest_answer q)))
    (fun _ _ => Err "unused") (fun _ => None) (fun n => Z.of_nat n).

Definition sample_tlsa : list RR :=
  [rr_of "_443._tcp.a.example." (RTLSA (MkTLSA 3 1 1 "ab12"))].

Lemma honest_answered (q : question) (resp : Msg) :
  answered honest_world q resp -> Answer resp = honest_answer q.
Proof.
  intros (n & [[E _]|E]); cbn in E; [|discriminate E].
  destruct (n =? 0)%nat; [discriminate E|]. injection E as <-. reflexivity.
Qed.

Lemma honest_one_ksk : one_ksk honest_world.
Proof.
  intros zone resp k1 k2 Ha. rewrite (honest_answered _ _ Ha). unfold honest_answer.
  destruct (String.eqb (dns_Fqdn zone) "."); cbn; intuition (subst; cbn in *; congruence).
Qed.

Lemma honest_steady : steady honest_world.
Proof.
  intros zone resp1 resp2 Ha1 Ha2. rewrite (honest_answered _ _ Ha1), (honest_answered _ _ Ha2). reflexivity.
Qed.

Lemma validateRRset_secure_witness :
  secure honest_world sample_anchor "example." sample_tlsa
    (sig_of TypeTLSA "example." zone_zsk sample_tlsa).
Proof.
  destruct (validateRRset_secure honest_world 5 sample_tlsa
      [sig_of TypeTLSA "example." zone_zsk sample_tlsa] (newDNSSECValidator (Some sample_anchor))
      (snd (validateRRset honest_world 5 sample_tlsa
              [sig_of TypeTLSA "example." zone_zsk sample_tlsa] (newDNSSECValidator (Some sample_anchor)))))
    as (sig & [= <-] & _ & [Hs|Hg]).
  - apply map_Forall_empty.
  - vm_compute. reflexivity.
  - exact Hs.
  - destruct (steady_no_gap _ _ _ _ _ honest_steady honest_one_ksk Hg).
Defined.

Lemma validateRRset_cache_ok_witness :
  keeps honest_world (newDNSSECValidator None)
    (snd (validateRRset honest_world 3 sample_tlsa
            [sig_of TypeTLSA "example." zone_zsk sample_tlsa] (newDNSSECValidator None))).
Proof. apply validateRRset_cache_ok. apply map_Forall_empty. Defined.

Lemma validateRRset_terminates_witness :
  fst (validateRRset honest_world 3 sample_tlsa
         [sig_of TypeTLSA "example." zone_zsk sample_tlsa] (newDNSSECValidator None)) <> Err out_of_fuel.
Proof.
  apply validateRRset_terminates. constructor; [|constructor].
  split; [reflexivity | vm_compute; lia].
Defined.

(** The DNSKEY set of [zone] that verifies the RRset is read from one answer,
    the self-signature is checked on another: a network that adds a foreign
    zone-signing key to the first answer only gets an RRset signed by that key
    validated, although no signature covers the key. *)
Definition foreign_zsk : DNSKEY := MkDNSKEY "example." 256 8 "attacker".

Definition split_world : world :=
  MkWorld (fun n q =>
      Ok (MkMsg 0 false
            (if (n =? 0)%nat then rr_of "example." (RDNSKEY foreign_zsk) :: zone_keys
             else honest_answer q)))
    (fun _ _ => Err "unused") (fun _ => None) (fun n => Z.of_nat n).

Example validateRRset_split_answers :
  fst (validateRRset split_world 3 sample_tlsa
         [sig_of TypeTLSA "example." foreign_zsk sample_tlsa]
         (newDNSSECValidator (Some sample_anchor))) = Ok true /\
  ~ In foreign_zsk (answer_keys (honest_answer ("example.", TypeDNSKEY))).
Proof. split; [vm_compute; reflexivity | vm_compute; intuition discriminate]. Qed.

(** A zone's own key-signing key is public, so a network can list it next to a
    key of its own, which signs the set and the RRset: one key matches the DS
    record, the other signs, and the RRset is validated although none of the
    signatures at the zone is by a key the zone holds. *)
Definition attacker_ksk : DNSKEY := MkDNSKEY "example." 257 8 "attacker-ksk".

Definition rival_keys : list RR :=
  [rr_of "example." (RDNSKEY zone_ksk); rr_of "example." (RDNSKEY attacker_ksk)].

Definition rival_answer (q : question) : list RR :=
  if bool_decide (q = ("example.", TypeDNSKEY))
  then (rival_keys ++ [rr_of "example." (RRRSIG (sig_of TypeDNSKEY "example." attacker_ksk rival_keys))])%list
  else honest_answer q.

Definition rival_world : world :=
  MkWorld (fun _ q => Ok (MkMsg 0 false (rival_answer q)))
    (fun _ _ => Err "unused") (fun _ => None) (fun n => Z.of_nat n).

Example validateRRset_rival_ksk :
  fst (validateRRset rival_world 3 sample_tlsa
         [sig_of TypeTLSA "example." attacker_ksk sample_tlsa]
         (newDNSSECValidator (Some sample_anchor))) = Ok true /\
  In zone_ksk (answer_keys (rival_answer ("example.", TypeDNSKEY))) /\
  self_signs (MkMsg 0 false (rival_answer ("example.", TypeDNSKEY))) zone_ksk = false.
Proof. split; [|split]; vm_compute; [reflexivity | auto | reflexivity]. Qed.
