(* ===== verification/Dane.v ===== *)
(** DANE/TLSA verification: [verify/dane.go]. The resolver's lookup runs in the
    state monad of the DNSSEC validator; the verifier sees its result only. *)

From S2P Require Import Prelude GoStrings Encoding Errors Models Cert Dnssec.

#[local] Open Scope string_scope.
#[local] Open Scope Z_scope.

Record TLSARecord := MkTLSARecord { Usage : Z; Selector : Z; MatchingType : Z; CertHash : string }.

Record TLSALookupResult := MkTLSALookup {
  tl_Found : bool; tl_Records : list TLSARecord; DNSSECValid : bool
}.

Inductive DANEOutcomeType :=
| DANEVerified | DANEMismatch | DANESkipped | DANEDNSSECFailed | DANENoRecords | DANELookupError.

Definition DANEOutcomeType_String (t : DANEOutcomeType) : string :=
  match t with
  | DANEVerified => "DANEVerified" | DANEMismatch => "DANEMismatch" | DANESkipped => "DANESkipped"
  | DANEDNSSECFailed => "DANEDNSSECFailed" | DANENoRecords => "DANENoRecords"
  | DANELookupError => "DANELookupError"
  end.

Record DANEOutcome := MkDANEOutcome {
  do_Type : DANEOutcomeType; do_Records : list TLSARecord;
  CertHashUsed : string; do_Error : option goerror
}.

Definition IsPass (o : DANEOutcome) : bool :=
  match do_Type o with DANEVerified | DANESkipped | DANENoRecords => true | _ => false end.
Definition IsReject (o : DANEOutcome) : bool :=
  match do_Type o with DANEMismatch | DANEDNSSECFailed => true | _ => false end.
Definition IsError (o : DANEOutcome) : bool :=
  match do_Type o with DANELookupError => true | _ => false end.
Definition IsVerified (o : DANEOutcome) : bool :=
  match do_Type o with DANEVerified => true | _ => false end.

Definition tlsaUsageDANEEE : Z := 3.

Section Verifier.
Context `{UnicodeTables}.

(** The hash a record is compared with: [None] for a skipped record. *)
Definition record_hash (certFullHex spkiHex : string) (rec : TLSARecord) : option string :=
  if negb (Usage rec =? tlsaUsageDANEEE) then None
  else if Selector rec =? 0 then Some certFullHex
  else if Selector rec =? 1 then Some spkiHex
  else None.

(** The loop over the records: the hash that matched, or the last one tried. *)
Fixpoint tlsa_loop (certFullHex spkiHex lastCertHex : string) (records : list TLSARecord)
  : bool * string :=
  match records with
  | [] => (false, lastCertHex)
  | rec :: rest =>
      match record_hash certFullHex spkiHex rec with
      | None => tlsa_loop certFullHex spkiHex lastCertHex rest
      | Some certHex =>
          if String.eqb (ToLower (CertHash rec)) certHex then (true, certHex)
          else tlsa_loop certFullHex spkiHex certHex rest
      end
  end.

(** [verifyWithLookup]; [cert] is nil as [None]; [lookup] is called only when
    the certificate is there. *)
Definition verifyWithLookup (cert : option CertIdentity)
    (lookup : unit -> result goerror TLSALookupResult) : DANEOutcome :=
  match cert with
  | None => MkDANEOutcome DANELookupError [] "" (Some (EPlain "nil certificate identity"))
  | Some cert =>
      match lookup tt with
      | Err err =>
          match errors_As as_DANEError err with
          | Some DANEErrorDNSSECFailed => MkDANEOutcome DANEDNSSECFailed [] "" (Some err)
          | _ => MkDANEOutcome DANELookupError [] "" (Some err)
          end
      | Ok res =>
          if negb (tl_Found res)
          then MkDANEOutcome DANENoRecords [] "" (Some (EPlain "no TLSA records found for %s"))
          else if negb (DNSSECValid res)
          then MkDANEOutcome DANESkipped (tl_Records res) ""
                 (Some (EPlain "TLSA records found but DNSSEC validation failed for %s"))
          else
            let certFullHex := ToLower (ToHex (Fingerprint cert)) in
            let spkiHex := ToLower (ToHex (SPKIFingerprint cert)) in
            match tlsa_loop certFullHex spkiHex "" (tl_Records res) with
            | (true, certHex) => MkDANEOutcome DANEVerified (tl_Records res) certHex None
            | (false, last) =>
                MkDANEOutcome DANEMismatch (tl_Records res)
                  (if String.eqb last "" then spkiHex else last)
                  (Some (EPlain "TLSA fingerprint mismatch"))
            end
      end
  end.

End Verifier.

(** ** The DNSSEC-aware resolver *)

(** The resolver's settings; its validator is made once they are known. *)
Record StandardDANEResolver `{DnsLib} := MkDANEResolver {
  sd_server : string; sd_timeout : Z; sd_trustAnchor : option DS; sd_validator : option dnssecValidator
}.

Definition DANEResolverOption `{DnsLib} : Type := StandardDANEResolver -> StandardDANEResolver.
Definition WithDANEServer `{DnsLib} (server : string) : DANEResolverOption := fun r =>
  MkDANEResolver _ server (sd_timeout r) (sd_trustAnchor r) (sd_validator r).
Definition WithDANETimeout `{DnsLib} (timeout : Z) : DANEResolverOption := fun r =>
  MkDANEResolver _ (sd_server r) timeout (sd_trustAnchor r) (sd_validator r).
Definition WithDANETrustAnchor `{DnsLib} (ds : option DS) : DANEResolverOption := fun r =>
  MkDANEResolver _ (sd_server r) (sd_timeout r) ds (sd_validator r).

Definition defaultDANETimeout : Z := 5 * second.
Definition defaultDANEServer : string := "8.8.8.8:53".

Definition NewStandardDANEResolver `{DnsLib} (opts : list DANEResolverOption) : StandardDANEResolver :=
  let r := fold_left (fun r opt => opt r) opts (MkDANEResolver _ defaultDANEServer defaultDANETimeout None None) in
  MkDANEResolver _ (sd_server r) (sd_timeout r) (sd_trustAnchor r) (Some (newDNSSECValidator (sd_trustAnchor r))).

Section StandardResolver.
Context `{UnicodeTables} `{DnsLib}.
Variable w : world.
Variable fuel : nat.

Definition tlsa_record (rr : RR) : option TLSARecord :=
  match data rr with
  | RTLSA v =>
      Some (MkTLSARecord (tlsa_Usage v) (tlsa_Selector v) (tlsa_MatchingType v)
              (ToLower (tlsa_Certificate v)))
  | _ => None
  end.

Definition is_tlsa (rr : RR) : bool := match data rr with RTLSA _ => true | _ => false end.

Definition lookupTLSAByName (tlsaName fqdnStr : string) : M TLSALookupResult :=
  fun v =>
    match exchange w (tlsaName, TypeTLSA) v with
    | (Err _, v) => (Err (EDANE DANEErrorLookupFailed fqdnStr "err.Error()"), v)
    | (Ok resp, v) =>
        if Rcode resp =? RcodeServerFailure then
          (Err (EDANE DANEErrorDNSSECFailed fqdnStr
                  "SERVFAIL response (possible DNSSEC validation failure)"), v)
        else if (Rcode resp =? RcodeNameError) || (length (Answer resp) =? 0)%nat
        then (Ok (MkTLSALookup false [] false), v)
        else
          let records := filter_map tlsa_record (Answer resp) in
          let tlsaRRset := List.filter is_tlsa (Answer resp) in
          let rrsigs := answer_sigs TypeTLSA (Answer resp) in
          if (length records =? 0)%nat then (Ok (MkTLSALookup false [] false), v)
          else if (0 <? Z.of_nat (length rrsigs)) then
            match validateRRset w fuel tlsaRRset rrsigs v with
            | (Ok valid, v) => (Ok (MkTLSALookup true records valid), v)
            | (Err _, v) => (Ok (MkTLSALookup true records false), v)
            end
          else (Ok (MkTLSALookup true records false), v)
    end.

Definition LookupTLSA (fqdn : Fqdn) (port : Z) : M TLSALookupResult :=
  lookupTLSAByName (TlsaName fqdn port ++ ".") (Fqdn_String fqdn).

Definition LookupIdentityTLSA (fqdn : Fqdn) : M TLSALookupResult :=
  lookupTLSAByName (IdentityTLSAName fqdn ++ ".") (Fqdn_String fqdn).

(** [DANEVerifier.Verify] and [VerifyIdentity] over this resolver. *)
Definition DANE_Verify (fqdn : Fqdn) (port : Z) (cert : option CertIdentity) (v : dnssecValidator)
  : DANEOutcome :=
  verifyWithLookup cert (fun _ => fst (LookupTLSA fqdn port v)).

Definition DANE_VerifyIdentity (fqdn : Fqdn) (cert : option CertIdentity) (v : dnssecValidator)
  : DANEOutcome :=
  verifyWithLookup cert (fun _ => fst (LookupIdentityTLSA fqdn v)).

End StandardResolver.

(** ** Lemmas *)

Section Lemmas.
Context `{UnicodeTables}.

(** A TLSA record that names this certificate: DANE-EE, a known selector, and
    the SHA-256 of the selected part. *)
Definition tlsa_names (cert : CertIdentity) (rec : TLSARecord) : Prop :=
  Usage rec = 3 /\
  ((Selector rec = 0 /\ ToLower (CertHash rec) = ToHex (Fingerprint cert)) \/
   (Selector rec = 1 /\ ToLower (CertHash rec) = ToHex (SPKIFingerprint cert))).

Lemma ToLower_ToHex (f : CertFingerprint) : ToLower (ToHex f) = ToHex f.
Proof.
  unfold ToHex. rewrite ToLower_ascii by apply lower_hex_ascii, hex_Encode_lower.
  apply lower_hex_fixed, hex_Encode_lower.
Qed.

Lemma record_hash_names (cert : CertIdentity) (rec : TLSARecord) :
  tlsa_names cert rec <->
  exists h, record_hash (ToHex (Fingerprint cert)) (ToHex (SPKIFingerprint cert)) rec = Some h /\
    ToLower (CertHash rec) = h.
Proof.
  unfold tlsa_names, record_hash, tlsaUsageDANEEE.
  destruct (Usage rec =? 3) eqn:E1, (Selector rec =? 0) eqn:E2, (Selector rec =? 1) eqn:E3;
    bool_hyps; cbn [negb]; (split; [intros [? Hs] | intros (h & [= <-] & ?)]); try lia; eauto;
    intuition (eauto; lia).
Qed.

Lemma tlsa_loop_true (full spki last : string) (rs : list TLSARecord) :
  fst (tlsa_loop full spki last rs) = true <->
  exists rec h, In rec rs /\ record_hash full spki rec = Some h /\ ToLower (CertHash rec) = h.
Proof.
  revert last. induction rs as [|rec rs IH]; intros last; cbn [tlsa_loop].
  - split; [discriminate | intros (? & ? & [] & _)].
  - destruct (record_hash full spki rec) as [h|] eqn:Eh.
    + destruct (String.eqb (ToLower (CertHash rec)) h) eqn:Ec; bool_hyps.
      * split; [|reflexivity]. intros _. exists rec, h. repeat split; auto. left; reflexivity.
      * rewrite IH. split; intros (r & h' & Hin & E1 & E2); exists r, h'; (split; [|auto]).
        -- right; exact Hin.
        -- destruct Hin as [<-|Hin]; [congruence | exact Hin].
    + rewrite IH. split; intros (r & h' & Hin & E1 & E2); exists r, h'; (split; [|auto]).
      * right; exact Hin.
      * destruct Hin as [<-|Hin]; [congruence | exact Hin].
Qed.

Lemma verify_Verified (cert : option CertIdentity) lookup :
  do_Type (verifyWithLookup cert lookup) = DANEVerified <->
  exists c res rec, cert = Some c /\ lookup tt = Ok res /\ tl_Found res = true /\
    DNSSECValid res = true /\ In rec (tl_Records res) /\ tlsa_names c rec.
Proof.
  unfold verifyWithLookup. destruct cert as [c|]; [|split; [discriminate | intros (?&?&?&[=]&_)]].
  destruct (lookup tt) as [res|e]; [|split; [|intros (?&?&?&_&[=]&_)]].
  2: { destruct (errors_As as_DANEError e) as [[]|]; discriminate. }
  destruct (tl_Found res) eqn:E1; cbn [negb];
    [|split; [discriminate | intros (?&?&?&_&[= <-]&?&_); congruence]].
  destruct (DNSSECValid res) eqn:E2; cbn [negb];
    [|split; [discriminate | intros (?&?&?&_&[= <-]&_&?&_); congruence]].
  rewrite !ToLower_ToHex.
  pose proof (tlsa_loop_true (ToHex (Fingerprint c)) (ToHex (SPKIFingerprint c)) "" (tl_Records res)) as Hl.
  destruct (tlsa_loop _ _ _ _) as [[|] h]; cbn [fst] in Hl; (split; [intros Ht|intros (c'&res'&rec&[= <-]&[= <-]&_&_&Hin&Hn)]).
  - destruct (proj1 Hl eq_refl) as (rec & h' & Hin & Hr). exists c, res, rec.
    do 5 (split; [assumption || reflexivity|]). apply record_hash_names. eauto.
  - reflexivity.
  - discriminate Ht.
  - apply record_hash_names in Hn as (h' & Hr). discriminate (proj2 Hl (ex_intro _ rec (ex_intro _ h' (conj Hin Hr)))).
Qed.

End Lemmas.

(** The TLSA records of the accepted answers to the question for [name] are
    records of [name]. *)
Definition own_tlsa `{DnsLib} (w : world) (name : string) : Prop :=
  forall resp rr, answered w (name, TypeTLSA) resp ->
    In rr (List.filter is_tlsa (Answer resp)) -> hdr_Name (hdr rr) = name.

(** ** Properties *)

Section Properties.
Context `{UnicodeTables}.

(** (decision of the verifier) the certificate is DANE-verified exactly
    when the lookup succeeded with a DNSSEC-validated answer that contains a
    DANE-EE record whose data is the SHA-256 of the certificate (selector 0) or of
    its public key (selector 1); a missing certificate, a failed lookup, an
    unvalidated or an empty answer never verify. *)
Theorem verifyWithLookup_Verified (cert : option CertIdentity)
    (lookup : unit -> result goerror TLSALookupResult) :
  IsVerified (verifyWithLookup cert lookup) = true <->
  exists c res rec, cert = Some c /\ lookup tt = Ok res /\ tl_Found res = true /\
    DNSSECValid res = true /\ In rec (tl_Records res) /\ tlsa_names c rec.
Proof.
  rewrite <- verify_Verified. unfold IsVerified.
  destruct (do_Type _); split; (reflexivity || discriminate).
Qed.

(** (rejection is an affirmative negative) the outcome rejects exactly when
    the lookup reported a DNSSEC failure, or validated TLSA records exist and
    none names the certificate; every outcome is exactly one of pass, reject and
    error. *)
Theorem verifyWithLookup_Reject (cert : option CertIdentity)
    (lookup : unit -> result goerror TLSALookupResult) :
  (IsReject (verifyWithLookup cert lookup) = true <->
   exists c, cert = Some c /\
     ((exists e, lookup tt = Err e /\ errors_As as_DANEError e = Some DANEErrorDNSSECFailed) \/
      (exists res, lookup tt = Ok res /\ tl_Found res = true /\ DNSSECValid res = true /\
         forall rec, In rec (tl_Records res) -> ~ tlsa_names c rec))) /\
  (forall o, Nat.b2n (IsPass o) + Nat.b2n (IsReject o) + Nat.b2n (IsError o) = 1)%nat.
Proof.
  split; [|intros [[] ? ? ?]; reflexivity].
  pose proof (verify_Verified cert lookup) as Hver. revert Hver.
  unfold IsReject, verifyWithLookup.
  destruct cert as [c|]; [|intros _; split; [discriminate | intros (?&[=]&_)]].
  destruct (lookup tt) as [res|e].
  - intros Hver. destruct (tl_Found res) eqn:E1; cbn [negb];
      [|split; [discriminate | intros (?&_&[(?&[=]&_)|(?&[= <-]&?&_)]); congruence]].
    destruct (DNSSECValid res) eqn:E2; cbn [negb] in *;
      [|split; [discriminate | intros (?&_&[(?&[=]&_)|(?&[= <-]&_&?&_)]); congruence]].
    destruct (tlsa_loop _ _ _ _) as [[|] h]; cbn [do_Type] in *.
    + split; [discriminate|]. intros (c'&[= <-]&[(?&[=]&_)|(?&[= <-]&_&_&Hno)]).
      destruct (proj1 Hver eq_refl) as (c0&res0&rec&[= <-]&[= <-]&_&_&Hin&Hn).
      destruct (Hno rec Hin Hn).
    + split; [|reflexivity]. intros _. exists c. split; [reflexivity|]. right. exists res.
      repeat split; auto. intros rec Hin Hn.
      discriminate (proj2 Hver (ex_intro _ c (ex_intro _ res (ex_intro _ rec
        (conj eq_refl (conj eq_refl (conj E1 (conj E2 (conj Hin Hn))))))))).
  - intros _. destruct (errors_As as_DANEError e) as [[]|] eqn:Ee; cbn [do_Type]; split;
      try discriminate; try reflexivity.
    + intros _. exists c. split; [reflexivity|]. left. eauto.
    + intros (?&_&[(?&[= <-]&?)|(?&[=]&_)]); congruence.
    + intros (?&_&[(?&[= <-]&?)|(?&[=]&_)]); congruence.
Qed.

(** C16: (end to end) where the answers to a TLSA question hold TLSA records of
    the name asked ([own_tlsa]: the code never compares the names, and
    [DANE_Verify_foreign_owner] is what it does otherwise), if DANE verification
    over the DNSSEC-aware resolver verifies a certificate, then among the answers
    received to the TLSA question of the host and port there is one with a TLSA
    record of that very name which names the certificate; and the TLSA RRset it
    belongs to is secured under its first RRSIG by a chain of trust up to the
    configured anchor ([secure], see Dnssec), apart from the two exceptions of
    [chain_gap] on the way up: a key missing in one of two DNSKEY answers, and a
    key-signing key that signs in place of the designated one. *)
Theorem DANE_Verify_secure `{DnsLib} (w : world) (fuel : nat) (fqdn : Fqdn) (port : Z)
    (cert : option CertIdentity) (v : dnssecValidator) :
  cache_ok w v -> own_tlsa w (TlsaName fqdn port ++ ".") ->
  IsVerified (DANE_Verify w fuel fqdn port cert v) = true ->
  exists c resp sig rr rec,
    cert = Some c /\ answered w (TlsaName fqdn port ++ ".", TypeTLSA) resp /\
    In rr (List.filter is_tlsa (Answer resp)) /\ hdr_Name (hdr rr) = TlsaName fqdn port ++ "." /\
    tlsa_record rr = Some rec /\ tlsa_names c rec /\
    head (answer_sigs TypeTLSA (Answer resp)) = Some sig /\
    (secure w (dv_trustAnchor v) (SignerName sig) (List.filter is_tlsa (Answer resp)) sig \/
     chain_gap w (dv_trustAnchor v) (SignerName sig) (List.filter is_tlsa (Answer resp)) sig).
Proof.
  intros Hv Hown Ho. unfold IsVerified in Ho. destruct (do_Type _) eqn:Et in Ho; try discriminate Ho.
  apply verify_Verified in Et as (c & res & rec & -> & El & Hf & Hd & Hin & Hn). clear Ho.
  unfold LookupTLSA, lookupTLSAByName in El.
  destruct (exchange w _ v) as [[resp|e] v1] eqn:Ex; [|discriminate El].
  apply exchange_answered in Ex as [Hs Ha]. specialize (Ha resp eq_refl).
  destruct (Rcode resp =? RcodeServerFailure); [discriminate El|].
  destruct (_ || _); [injection El as <-; discriminate Hf|].
  destruct (length _ =? 0)%nat; [injection El as <-; discriminate Hf|].
  destruct (0 <? _); [|injection El as <-; discriminate Hd].
  pose proof (same_store_cache_ok w _ _ Hs Hv) as Hv1.
  destruct (validateRRset w fuel _ _ v1) as [[valid|e] v2] eqn:Eval; injection El as <-;
    [|discriminate Hd].
  cbn [DNSSECValid tl_Records] in *. subst valid.
  apply in_filter_map in Hin as (rr & Hrr & Hrec).
  assert (Hsec : exists sig, head (answer_sigs TypeTLSA (Answer resp)) = Some sig /\
    (secure w (dv_trustAnchor v1) (SignerName sig) (List.filter is_tlsa (Answer resp)) sig \/
     chain_gap w (dv_trustAnchor v1) (SignerName sig) (List.filter is_tlsa (Answer resp)) sig)).
  { revert Eval. unfold validateRRset.
    destruct (List.filter is_tlsa (Answer resp)) as [|rr0 rrs]; [discriminate|].
    destruct (answer_sigs TypeTLSA (Answer resp)) as [|sig rest]; [discriminate|].
    intros Eval. exists sig. split; [reflexivity|].
    exact (validateZoneChain_secure w _ _ _ _ _ _ Hv1 Eval). }
  destruct Hsec as (sig & Hsig & Hsec). destruct Hs as [_ Hs]. rewrite Hs in Hsec.
  assert (Ht : In rr (List.filter is_tlsa (Answer resp))).
  { apply List.filter_In. split; [exact Hrr|]. unfold is_tlsa. unfold tlsa_record in Hrec.
    destruct (data rr); try discriminate Hrec. reflexivity. }
  exists c, resp, sig, rr, rec. do 3 (split; [reflexivity || assumption|]).
  split; [exact (Hown _ _ Ha Ht)|]. auto.
Qed.

End Properties.

(** ** Witnesses *)

#[local] Existing Instance plain_tables.
#[local] Existing Instance symbolic_lib.

Definition sample_cert : CertIdentity :=
  MkCertIdentity (Some "a.example") ["a.example"] [] (MkFp [x01; x02]) (MkFp [xab; x12]).

Definition tlsa_rrset : list RR := sample_tlsa.

(** The honest two-level world, answering TLSA questions too. *)
Definition dane_world : world :=
  MkWorld (fun n q =>
      match q with
      | (_, TypeTLSA) =>
          Ok (MkMsg 0 false (sample_tlsa ++
                [rr_of "_443._tcp.a.example." (RRRSIG (sig_of TypeTLSA "example." zone_zsk sample_tlsa))]))
      | _ => Ok (MkMsg 0 false (honest_answer q))
      end)
    (fun _ _ => Err "unused") (fun _ => None) (fun n => Z.of_nat n).

Lemma dane_answered (q : question) (resp : Msg) :
  answered dane_world q resp ->
  match q with
  | (_, TypeTLSA) => List.filter is_tlsa (Answer resp) = sample_tlsa
  | _ => Answer resp = honest_answer q
  end.
Proof.
  destruct q as [name []]; intros (n & [[E _]|E]); cbn in E; try discriminate E; injection E as <-; reflexivity.
Qed.

Lemma dane_no_gap (anchor : DS) (zone : string) (rrset : list RR) (sig : RRSIG) :
  ~ chain_gap dane_world anchor zone rrset sig.
Proof.
  apply steady_no_gap.
  - intros z resp1 resp2 Ha1 Ha2.
    rewrite (dane_answered _ _ Ha1 : Answer resp1 = _), (dane_answered _ _ Ha2 : Answer resp2 = _). reflexivity.
  - intros z resp k1 k2 Ha. rewrite (dane_answered _ _ Ha : Answer resp = _). unfold honest_answer.
    destruct (String.eqb (dns_Fqdn z) "."); cbn; intuition (subst; cbn in *; congruence).
Qed.

Lemma DANE_Verify_secure_witness :
  exists resp sig,
    answered dane_world ("_443._tcp.a.example.", TypeTLSA) resp /\
    secure dane_world sample_anchor (SignerName sig) (List.filter is_tlsa (Answer resp)) sig.
Proof.
  destruct (DANE_Verify_secure dane_world 3 (MkFqdn "a.example") 443 (Some sample_cert)
              (newDNSSECValidator (Some sample_anchor)))
    as (c & resp & sig & rr & rec & _ & Ha & _ & _ & _ & _ & _ & [Hs|Hg]).
  - apply map_Forall_empty.
  - intros resp rr Ha. rewrite (dane_answered _ _ Ha). intros [<-|[]]. reflexivity.
  - vm_compute. reflexivity.
  - exists resp, sig. split; [exact Ha | exact Hs].
  - destruct (dane_no_gap _ _ _ _ Hg).
Defined.

(** The owner names of the answer are not compared with the question: the
    validated records of another name verify the certificate. *)
Example DANE_Verify_foreign_owner :
  IsVerified (DANE_Verify dane_world 3 (MkFqdn "victim.test") 443 (Some sample_cert)
                (newDNSSECValidator (Some sample_anchor))) = true /\
  map (fun rr => hdr_Name (hdr rr)) sample_tlsa = ["_443._tcp.a.example."].
Proof. split; vm_compute; reflexivity. Qed.

(** The matching type is not read: a record with the SHA-512 of the very
    certificate is a mismatch, since only 32-byte hashes are compared. *)
Lemma sha512_record_mismatch `{UnicodeTables} (cert : CertIdentity) (rec : TLSARecord) :
  fp_wf (Fingerprint cert) -> fp_wf (SPKIFingerprint cert) ->
  is_ascii (CertHash rec) = true -> String.length (CertHash rec) = 128%nat ->
  IsReject (verifyWithLookup (Some cert) (fun _ => Ok (MkTLSALookup true [rec] true))) = true.
Proof.
  intros H1 H2 Ha Hlen. unfold IsReject, verifyWithLookup. cbn [tl_Found DNSSECValid negb tl_Records].
  rewrite !ToLower_ToHex.
  pose proof (tlsa_loop_true (ToHex (Fingerprint cert)) (ToHex (SPKIFingerprint cert)) "" [rec]) as Hl.
  destruct (tlsa_loop _ _ _ _) as [[|] h]; [|reflexivity]. exfalso.
  destruct (proj1 Hl eq_refl) as (r & h' & [<-|[]] & Hr & E).
  assert (Hlen' : String.length h' = 64%nat).
  { unfold record_hash in Hr. unfold fp_wf in *. unfold ToHex in Hr.
    repeat case_match_in Hr; injection Hr as <-; rewrite hex_Encode_length; lia. }
  rewrite ToLower_ascii in E by exact Ha. rewrite <- E, str_length_map in Hlen'. lia.
Qed.
