(* ===== verification/Crl.v ===== *)
(** Certificate revocation lists ([verify/crl]): the distribution point and the
    issuer of a certificate, the downloading and caching fetcher with its guard
    against requests to internal hosts, and the fail-closed check. *)

From S2P Require Import Prelude GoStrings Encoding Errors Http Models Cert.

#[local] Open Scope string_scope.
#[local] Open Scope list_scope.
#[local] Open Scope Z_scope.

(** A [*x509.Certificate]: the code compares the addresses. *)
Record CertPtr := MkCertPtr { addr : Z; deref : Certificate }.

(** What the code reads of an [x509.RevocationList]: the serial numbers of the
    entries and the next update, [None] for the zero time. *)
Record RevocationList := MkRevocationList {
  rl_Raw : list byte; RevokedCertificateEntries : list Z; NextUpdate : option Z
}.

(** [crypto/x509]: DER decoding and signature checks, true for a nil error. *)
Class X509Lib := {
  cert_CheckSignatureFrom : Certificate -> Certificate -> bool;
  x509_ParseRevocationList : list byte -> option RevocationList;
  rl_CheckSignatureFrom : RevocationList -> Certificate -> bool
}.

(** ** [cdp.go] *)

Inductive CDPStatus := CDPSkipped | CDPFound | CDPFailed.
Record CDPResult := MkCDPResult { cdp_Status : CDPStatus; cdp_URI : string; cdp_Message : string }.

Definition isHTTPURI (uri : string) : bool := HasPrefix uri "http://" || HasPrefix uri "https://".

Fixpoint cdp_loop (chain : list CertPtr) : CDPResult :=
  match chain with
  | [] => MkCDPResult CDPSkipped "" "no CDP extension in certificate chain"
  | cert :: rest =>
      let dps := CRLDistributionPoints (deref cert) in
      if (0 <? length dps)%nat then
        match List.find isHTTPURI dps with
        | Some dp => MkCDPResult CDPFound dp ""
        | None => MkCDPResult CDPFailed "" "CDP present but no HTTP(S) URI found"
        end
      else cdp_loop rest
  end.

Definition ResolveCDP (chain : list CertPtr) : CDPResult :=
  if (length chain =? 0)%nat then MkCDPResult CDPSkipped "" "empty certificate chain"
  else cdp_loop chain.

(** ** [fetcher.go]: the guard of the dialler *)

(** A [net.IP] is a slice of 4 or 16 bytes. *)
Definition IP : Type := list byte.
Definition ip_at (ip : IP) (i : nat) : Z := byte_Z (nth i ip x00).

Definition v4InV6Prefix : list byte := repeat x00 10 ++ [xff; xff].
Definition To4 (ip : IP) : option IP :=
  if (length ip =? 4)%nat then Some ip
  else if (length ip =? 16)%nat && list_byte_eqb (firstn 12 ip) v4InV6Prefix then Some (skipn 12 ip)
  else None.

Definition ip_Equal (ip x : IP) : bool :=
  if (length ip =? length x)%nat then list_byte_eqb ip x
  else if (length ip =? 4)%nat && (length x =? 16)%nat
  then list_byte_eqb (firstn 12 x) v4InV6Prefix && list_byte_eqb ip (skipn 12 x)
  else if (length ip =? 16)%nat && (length x =? 4)%nat
  then list_byte_eqb (firstn 12 ip) v4InV6Prefix && list_byte_eqb (skipn 12 ip) x
  else false.

Definition IPv4zero : IP := v4InV6Prefix ++ repeat x00 4.
Definition IPv6unspecified : IP := repeat x00 16.
Definition IPv6loopback : IP := repeat x00 15 ++ [x01].

Definition IsUnspecified (ip : IP) : bool := ip_Equal ip IPv4zero || ip_Equal ip IPv6unspecified.
Definition IsLoopback (ip : IP) : bool :=
  match To4 ip with Some ip4 => ip_at ip4 0 =? 127 | None => ip_Equal ip IPv6loopback end.
Definition IsPrivate (ip : IP) : bool :=
  match To4 ip with
  | Some ip4 =>
      (ip_at ip4 0 =? 10)
      || (ip_at ip4 0 =? 172) && (Z.land (ip_at ip4 1) 240 =? 16)
      || (ip_at ip4 0 =? 192) && (ip_at ip4 1 =? 168)
  | None => (length ip =? 16)%nat && (Z.land (ip_at ip 0) 254 =? 252)
  end.
Definition IsMulticast (ip : IP) : bool :=
  match To4 ip with
  | Some ip4 => Z.land (ip_at ip4 0) 240 =? 224
  | None => (length ip =? 16)%nat && (ip_at ip 0 =? 255)
  end.
Definition IsLinkLocalMulticast (ip : IP) : bool :=
  match To4 ip with
  | Some ip4 => (ip_at ip4 0 =? 224) && (ip_at ip4 1 =? 0) && (ip_at ip4 2 =? 0)
  | None => (length ip =? 16)%nat && (ip_at ip 0 =? 255) && (Z.land (ip_at ip 1) 15 =? 2)
  end.
Definition IsLinkLocalUnicast (ip : IP) : bool :=
  match To4 ip with
  | Some ip4 => (ip_at ip4 0 =? 169) && (ip_at ip4 1 =? 254)
  | None => (length ip =? 16)%nat && (ip_at ip 0 =? 254) && (Z.land (ip_at ip 1) 192 =? 128)
  end.

Definition isDisallowedTarget (ip : IP) : bool :=
  IsLoopback ip || IsPrivate ip || IsLinkLocalUnicast ip || IsLinkLocalMulticast ip
  || IsUnspecified ip || IsMulticast ip.

(** Dialling in order until one address answers: the connection (its address)
    or the last error, and the addresses dialled. *)
Fixpoint dial_each (dial : IP -> string -> option goerror) (port : string) (lastErr : option goerror)
    (ips : list IP) : result (option goerror) IP * list IP :=
  match ips with
  | [] => (Err lastErr, [])
  | ip :: rest =>
      match dial ip port with
      | None => (Ok ip, [ip])
      | Some dialErr =>
          let '(res, dialled) := dial_each dial port (Some dialErr) rest in (res, ip :: dialled)
      end
  end.

(** The installed [DialContext]; an [Err None] is a nil connection with a nil
    error. *)
Definition DialContext (SplitHostPort : string -> option (string * string))
    (LookupIPAddr : string -> result goerror (list IP)) (baseDial : IP -> string -> option goerror)
    (address : string) : result (option goerror) IP * list IP :=
  match SplitHostPort address with
  | None => (Err (Some (EPlain "crl fetch SSRF guard: invalid address %q: %w")), [])
  | Some (host, port) =>
      match LookupIPAddr host with
      | Err e => (Err (Some (EWrap "crl fetch SSRF guard: cannot resolve %q: %w" e)), [])
      | Ok ips =>
          if existsb isDisallowedTarget ips
          then (Err (Some (EPlain "crl fetch SSRF guard: host %q resolves to disallowed address %s")), [])
          else dial_each baseDial port None ips
      end
  end.

(** ** [fetcher.go]: the cache *)

Definition defaultMaxAge : Z := 12 * 3600 * 1000000000.
Definition maxCRLBodySize : Z := 10 * 1024 * 1024.

Record cachedEntry := MkCachedEntry { ce_data : list byte; ce_fetchedAt : Z; ce_ttl : Z }.
Definition isExpired (e : cachedEntry) (now : Z) : bool := ce_ttl e <? clamp_i64 (now - ce_fetchedAt e).

(** The HTTP client is an argument of [Fetch]. *)
Record Fetcher := MkFetcher {
  ft_cache : gmap string cachedEntry; ft_maxAge : Z; allowPrivateNetworks : bool
}.
Definition NewFetcher : Fetcher := MkFetcher ∅ defaultMaxAge false.
Definition WithMaxAge (d : Z) (f : Fetcher) : Fetcher := MkFetcher (ft_cache f) d (allowPrivateNetworks f).
Definition WithAllowPrivateNetworks (allow : bool) (f : Fetcher) : Fetcher :=
  MkFetcher (ft_cache f) (ft_maxAge f) allow.

(** [io.ReadAll(io.LimitReader(Body, maxCRLBodySize+1))]. *)
Definition read_limited (Body : list byte) (readErr : option goerror) : result goerror (list byte) :=
  if maxCRLBodySize <? Z.of_nat (length Body)
  then Ok (firstn (Z.to_nat (maxCRLBodySize + 1)) Body)
  else match readErr with Some e => Err e | None => Ok Body end.

Definition download (answer : http_answer) : result goerror (list byte) :=
  match answer with
  | InvalidURI => Err (EPlain "crl fetch: invalid URI %q: %w")
  | DoFailed err => Err (EWrap "crl fetch: HTTP request failed: %w" err)
  | Responded StatusCode Body readErr =>
      guard! StatusCode =? 200 orelse EPlain "crl fetch: HTTP %d from %s" in
      match read_limited Body readErr with
      | Err err => Err (EWrap "crl fetch: read body failed: %w" err)
      | Ok data =>
          guard! negb (maxCRLBodySize <? Z.of_nat (length data))
            orelse EPlain "crl fetch: response from %s exceeds %d byte limit" in
          Ok data
      end
  end.

Section Crl.
Context `{X509Lib}.

(** ** [validator.go] *)

Inductive crl_error := ErrRevoked | ErrInvalidSignature | ErrParseFailed.

Definition Parse (crlBytes : list byte) : result crl_error RevocationList :=
  match x509_ParseRevocationList crlBytes with Some rl => Ok rl | None => Err ErrParseFailed end.

Definition VerifySignature (rl : RevocationList) (issuer : Certificate) : option crl_error :=
  if rl_CheckSignatureFrom rl issuer then None else Some ErrInvalidSignature.

Definition IsRevoked (rl : RevocationList) (serial : Z) : bool :=
  existsb (fun entry => entry =? serial) (RevokedCertificateEntries rl).

Definition ValidateNotRevoked (crlBytes : list byte) (issuer : Certificate) (serial : Z) : option crl_error :=
  match Parse crlBytes with
  | Err err => Some err
  | Ok rl =>
      match VerifySignature rl issuer with
      | Some err => Some err
      | None => if IsRevoked rl serial then Some ErrRevoked else None
      end
  end.

Definition findIssuingCA (leaf : CertPtr) (chain : list CertPtr) : option CertPtr :=
  List.find (fun cert => negb (addr cert =? addr leaf) && cert_CheckSignatureFrom (deref leaf) (deref cert))
    chain.

(** The lifetime of a downloaded list in the cache. *)
Definition cache_ttl (maxAge : Z) (data : list byte) (now : Z) : Z :=
  match Parse data with
  | Ok rl =>
      match NextUpdate rl with
      | Some next =>
          let nextUpdateTTL := clamp_i64 (next - now) in
          if nextUpdateTTL <=? 0 then 0
          else if nextUpdateTTL <? maxAge then nextUpdateTTL else maxAge
      | None => maxAge
      end
  | Err _ => maxAge
  end.

(** The clock readings of a call: the expiry test, the rest until the next
    update, the time of the store. *)
Record fetch_clock := MkFetchClock { fc_get : Z; fc_until : Z; fc_store : Z }.

Definition Fetch (httpClient : string -> http_answer) (ck : fetch_clock) (cdpURI : string) (f : Fetcher)
  : result goerror (list byte) * Fetcher :=
  let refetch :=
    match download (httpClient cdpURI) with
    | Err err => (Err err, f)
    | Ok data =>
        let entry := MkCachedEntry data (fc_store ck) (cache_ttl (ft_maxAge f) data (fc_until ck)) in
        (Ok data, MkFetcher (<[cdpURI := entry]> (ft_cache f)) (ft_maxAge f) (allowPrivateNetworks f))
    end in
  match ft_cache f !! cdpURI with
  | Some entry => if negb (isExpired entry (fc_get ck)) then (Ok (ce_data entry), f) else refetch
  | None => refetch
  end.

(** ** [result.go] and [checker.go] *)

Inductive Status := Skipped | Passed | Revoked | Failed.
Record Result := MkResult { cr_Status : Status; cr_Message : string; cr_CDPURI : string }.

Definition Status_String (s : Status) : string :=
  match s with Skipped => "SKIPPED" | Passed => "PASSED" | Revoked => "REVOKED" | Failed => "FAILED" end.

Definition ShouldReject (r : Result) : bool :=
  match cr_Status r with Revoked | Failed => true | _ => false end.

Definition Check_CRL (httpClient : string -> http_answer) (ck : fetch_clock)
    (leaf : CertPtr) (chain : list CertPtr) (f : Fetcher) : Result * Fetcher :=
  let cdp := ResolveCDP chain in
  match cdp_Status cdp with
  | CDPSkipped => (MkResult Skipped (cdp_Message cdp) "", f)
  | CDPFailed => (MkResult Failed (cdp_Message cdp) "", f)
  | CDPFound =>
      match findIssuingCA leaf chain with
      | None => (MkResult Failed "issuing CA not found in chain" (cdp_URI cdp), f)
      | Some issuer =>
          match Fetch httpClient ck (cdp_URI cdp) f with
          | (Err _, f) => (MkResult Failed "CRL fetch failed: %v" (cdp_URI cdp), f)
          | (Ok crlBytes, f) =>
              match ValidateNotRevoked crlBytes (deref issuer) (SerialNumber (deref leaf)) with
              | Some ErrRevoked => (MkResult Revoked "certificate serial is revoked" (cdp_URI cdp), f)
              | Some _ => (MkResult Failed "CRL validation failed: %v" (cdp_URI cdp), f)
              | None => (MkResult Passed "certificate not revoked" (cdp_URI cdp), f)
              end
          end
      end
  end.

End Crl.

(** ** Distribution points and issuers *)

(** The distribution point of a chain: the first http(s) URI of the first
    certificate that has any. *)
Definition cdp_of (chain : list CertPtr) (uri : string) : Prop :=
  exists before c after, chain = before ++ c :: after /\
    Forall (fun b => CRLDistributionPoints (deref b) = []) before /\
    CRLDistributionPoints (deref c) <> [] /\
    List.find isHTTPURI (CRLDistributionPoints (deref c)) = Some uri.

Definition no_cdp (chain : list CertPtr) : Prop :=
  Forall (fun c => CRLDistributionPoints (deref c) = []) chain.

Lemma cdp_loop_spec (chain : list CertPtr) :
  match cdp_Status (cdp_loop chain) with
  | CDPSkipped => no_cdp chain
  | CDPFound => cdp_of chain (cdp_URI (cdp_loop chain))
  | CDPFailed => ~ no_cdp chain /\ forall uri, ~ cdp_of chain uri
  end.
Proof.
  induction chain as [|c rest IH]; simpl; [constructor|].
  destruct (CRLDistributionPoints (deref c)) as [|d ds] eqn:Ed.
  - simpl. destruct (cdp_Status (cdp_loop rest)).
    + constructor; assumption.
    + destruct IH as (b & c' & a & Hr & Hb & Hc). exists (c :: b), c', a.
      split; [rewrite Hr; reflexivity|]. split; [constructor; assumption | exact Hc].
    + destruct IH as [Hn Hu]. split; [intros Ha; inversion Ha; contradiction|].
      intros uri ([|b0 b] & c' & a & Hr & Hb & Hc & Hf); injection Hr as <- Hr.
      * congruence.
      * inversion Hb. apply (Hu uri). exists b, c', a. auto.
  - cbn [length Nat.ltb Nat.leb]. destruct (List.find isHTTPURI (d :: ds)) as [dp|] eqn:Ef; cbn [cdp_Status cdp_URI].
    + exists [], c, rest. rewrite Ed. repeat split; auto; discriminate.
    + split; [intros Ha; inversion Ha; congruence|].
      intros uri ([|b0 b] & c' & a & Hr & Hb & Hc & Hf); injection Hr as <- Hr.
      * congruence.
      * inversion Hb. congruence.
Qed.

Lemma ResolveCDP_loop (chain : list CertPtr) : cdp_Status (ResolveCDP chain) = cdp_Status (cdp_loop chain) /\
  cdp_URI (ResolveCDP chain) = cdp_URI (cdp_loop chain).
Proof. destruct chain; split; reflexivity. Qed.

Lemma cdp_of_unique (chain : list CertPtr) (u v : string) : cdp_of chain u -> cdp_of chain v -> u = v.
Proof.
  intros (b & c & a & -> & Hb & Hc & Hf) (b' & c' & a' & E & Hb' & Hc' & Hf').
  revert b' E Hb'. induction b as [|x b IH]; intros [|x' b'] E Hb'; injection E as <- E.
  - congruence.
  - inversion Hb'. contradiction.
  - inversion Hb. contradiction.
  - inversion Hb. inversion Hb'. eapply IH; eauto.
Qed.

Lemma cdp_of_http (chain : list CertPtr) (uri : string) :
  cdp_of chain uri -> HasPrefix uri "http://" = true \/ HasPrefix uri "https://" = true.
Proof.
  intros (b & c & a & _ & _ & _ & Hf). apply List.find_some in Hf as [_ Hu]. apply orb_true_iff, Hu.
Qed.

Section CheckProps.
Context `{X509Lib}.

Lemma IsRevoked_In (rl : RevocationList) (serial : Z) :
  IsRevoked rl serial = true <-> In serial (RevokedCertificateEntries rl).
Proof.
  unfold IsRevoked. rewrite existsb_exists. split.
  - intros (e & Hin & E). bool_hyps. subst. exact Hin.
  - intros Hin. exists serial. split; [exact Hin | apply Z.eqb_refl].
Qed.

(** A list that clears a serial number: it parses, is signed by the issuer and
    does not have the number. *)
Definition clears (data : list byte) (issuer : Certificate) (serial : Z) : Prop :=
  exists rl, x509_ParseRevocationList data = Some rl /\ rl_CheckSignatureFrom rl issuer = true /\
    ~ In serial (RevokedCertificateEntries rl).

Lemma ValidateNotRevoked_clears (data : list byte) (issuer : Certificate) (serial : Z) :
  ValidateNotRevoked data issuer serial = None <-> clears data issuer serial.
Proof.
  unfold ValidateNotRevoked, Parse, VerifySignature, clears.
  destruct (x509_ParseRevocationList data) as [rl|]; [|split; [discriminate | intros (rl & [=] & _)]].
  destruct (rl_CheckSignatureFrom rl issuer) eqn:Es.
  - pose proof (IsRevoked_In rl serial) as Hi. destruct (IsRevoked rl serial).
    + split; [discriminate|]. intros (rl' & [= <-] & _ & Hn). tauto.
    + split; [|reflexivity]. intros _. exists rl. intuition congruence.
  - split; [discriminate|]. intros (rl' & [= <-] & E & _). congruence.
Qed.

Lemma findIssuingCA_spec (leaf issuer : CertPtr) (chain : list CertPtr) :
  findIssuingCA leaf chain = Some issuer ->
  In issuer chain /\ addr issuer <> addr leaf /\ cert_CheckSignatureFrom (deref leaf) (deref issuer) = true.
Proof.
  intros E. apply List.find_some in E as [Hin E]. bool_hyps. auto.
Qed.

Lemma Check_Passed (http : string -> http_answer) (ck : fetch_clock) (leaf : CertPtr) (chain : list CertPtr)
    (f : Fetcher) :
  cr_Status (fst (Check_CRL http ck leaf chain f)) = Passed <->
  exists uri issuer data, cdp_of chain uri /\ findIssuingCA leaf chain = Some issuer /\
    fst (Fetch http ck uri f) = Ok data /\ clears data (deref issuer) (SerialNumber (deref leaf)).
Proof.
  unfold Check_CRL. pose proof (cdp_loop_spec chain) as Hc. destruct (ResolveCDP_loop chain) as [E1 E2].
  rewrite <- E1, <- E2 in Hc. destruct (cdp_Status (ResolveCDP chain)).
  - split; [discriminate|]. intros (uri & _ & _ & (b & c & a & -> & _ & Hn & _) & _).
    apply Forall_app in Hc as [_ Hc]. inversion Hc. contradiction.
  - assert (Hu : forall u, cdp_of chain u -> u = cdp_URI (ResolveCDP chain))
      by (intros u Hu; exact (cdp_of_unique _ _ _ Hu Hc)).
    destruct (findIssuingCA leaf chain) as [issuer|];
      [|split; [discriminate | intros (? & ? & ? & _ & [=] & _)]].
    destruct (Fetch http ck _ f) as [[data|err] f'] eqn:Ef.
    + pose proof (ValidateNotRevoked_clears data (deref issuer) (SerialNumber (deref leaf))) as Hv.
      destruct (ValidateNotRevoked _ _ _) as [er|] eqn:Ev.
      * split; [destruct er; discriminate|]. intros (u & i & d & Hd & [= <-] & Hf & Hcl).
        rewrite (Hu u Hd), Ef in Hf. injection Hf as <-. apply Hv in Hcl. discriminate.
      * split; [|reflexivity]. intros _. exists (cdp_URI (ResolveCDP chain)), issuer, data. rewrite Ef.
        intuition.
    + split; [discriminate|]. intros (u & i & d & Hd & _ & Hf & _). rewrite (Hu u Hd), Ef in Hf. discriminate.
  - split; [discriminate|]. intros (u & _ & _ & Hd & _). destruct (proj2 Hc u Hd).
Qed.

Lemma Check_Skipped (http : string -> http_answer) (ck : fetch_clock) (leaf : CertPtr) (chain : list CertPtr)
    (f : Fetcher) :
  cr_Status (fst (Check_CRL http ck leaf chain f)) = Skipped <-> no_cdp chain.
Proof.
  unfold Check_CRL. pose proof (cdp_loop_spec chain) as Hc. destruct (ResolveCDP_loop chain) as [E1 E2].
  rewrite <- E1, <- E2 in Hc. destruct (cdp_Status (ResolveCDP chain)).
  - tauto.
  - assert (~ no_cdp chain).
    { intros Hn. destruct Hc as (b & c & a & -> & _ & Hne & _). apply Forall_app in Hn as [_ Hn].
      inversion Hn. contradiction. }
    split; [|contradiction]. destruct (findIssuingCA _ _); [|discriminate].
    destruct (Fetch _ _ _ _) as [[d|e] f']; [|discriminate]. destruct (ValidateNotRevoked _ _ _) as [[]|]; discriminate.
  - split; [discriminate | tauto].
Qed.

Lemma ShouldReject_false (r : Result) :
  ShouldReject r = false <-> cr_Status r = Skipped \/ cr_Status r = Passed.
Proof. unfold ShouldReject. destruct (cr_Status r); intuition discriminate. Qed.

(** C23: (revocation checking is fail-closed) a peer is let through exactly in
    two cases: no certificate of its chain has a distribution point, or a list
    obtained from the first http(s) point of the first certificate that has one
    parses, is signed by another certificate of the chain that also signed the
    leaf, and does not have the leaf's serial number. A point without http(s) URI,
    a missing issuer, a failed download and a bad list all reject. *)
Theorem Check_spec (http : string -> http_answer) (ck : fetch_clock) (leaf : CertPtr) (chain : list CertPtr)
    (f : Fetcher) :
  ShouldReject (fst (Check_CRL http ck leaf chain f)) = false <->
  no_cdp chain \/
  exists uri issuer data, cdp_of chain uri /\ findIssuingCA leaf chain = Some issuer /\
    fst (Fetch http ck uri f) = Ok data /\ clears data (deref issuer) (SerialNumber (deref leaf)).
Proof. rewrite ShouldReject_false, Check_Skipped, Check_Passed. reflexivity. Qed.

(** ** The cache of the fetcher *)

(** [served uri tu ts data]: the server of [uri] answered 200 with [data] in a
    call whose clock read [tu] before the store at [ts]. *)
Variable served : string -> Z -> Z -> list byte -> Prop.

Definition answers (http : string -> http_answer) (ck : fetch_clock) : Prop :=
  forall uri data err, http uri = Responded 200 data err -> served uri (fc_until ck) (fc_store ck) data.

Definition entry_ok (maxAge : Z) (uri : string) (e : cachedEntry) : Prop :=
  Z.of_nat (length (ce_data e)) <= maxCRLBodySize /\
  exists tu, served uri tu (ce_fetchedAt e) (ce_data e) /\ ce_ttl e = cache_ttl maxAge (ce_data e) tu.

Definition fetcher_ok (f : Fetcher) : Prop := map_Forall (entry_ok (ft_maxAge f)) (ft_cache f).

Inductive fetcher_reachable : Fetcher -> Prop :=
| fetcher_new d allow : fetcher_reachable (WithAllowPrivateNetworks allow (WithMaxAge d NewFetcher))
| fetcher_step http ck uri f :
    fetcher_reachable f -> answers http ck -> fetcher_reachable (snd (Fetch http ck uri f)).

Lemma download_Ok (a : http_answer) (data : list byte) :
  download a = Ok data -> Z.of_nat (length data) <= maxCRLBodySize /\ exists err, a = Responded 200 data err.
Proof.
  unfold download. destruct a as [|e|code body err]; try discriminate. intros E.
  destruct (code =? 200) eqn:Ec; [|discriminate]. bool_hyps. subst.
  unfold read_limited in E. destruct (maxCRLBodySize <? Z.of_nat (length body)) eqn:El.
  - assert (Hl : length (firstn (Z.to_nat (maxCRLBodySize + 1)) body) = Z.to_nat (maxCRLBodySize + 1)).
    { rewrite length_firstn. bool_hyps. lia. }
    rewrite Hl in E. rewrite Z2Nat.id in E by (unfold maxCRLBodySize; lia).
    destruct (maxCRLBodySize <? maxCRLBodySize + 1) eqn:E'; [discriminate | bool_hyps; lia].
  - destruct err as [e|]; [discriminate|]. rewrite El in E. injection E as <-. bool_hyps. eauto.
Qed.

Lemma Fetch_cases (http : string -> http_answer) (ck : fetch_clock) (uri : string) (f : Fetcher) :
  (exists e, ft_cache f !! uri = Some e /\ isExpired e (fc_get ck) = false /\
     Fetch http ck uri f = (Ok (ce_data e), f)) \/
  ((forall e, ft_cache f !! uri = Some e -> isExpired e (fc_get ck) = true) /\
   Fetch http ck uri f =
     match download (http uri) with
     | Err err => (Err err, f)
     | Ok data => (Ok data,
         MkFetcher (<[uri := MkCachedEntry data (fc_store ck) (cache_ttl (ft_maxAge f) data (fc_until ck))]>
                      (ft_cache f)) (ft_maxAge f) (allowPrivateNetworks f))
     end).
Proof.
  unfold Fetch. cbv zeta. destruct (ft_cache f !! uri) as [e|].
  - destruct (isExpired e (fc_get ck)) eqn:Ex; cbn [negb].
    + right. split; [intros e' [= <-]; exact Ex | reflexivity].
    + left. eauto.
  - right. split; [discriminate | reflexivity].
Qed.

Lemma Fetch_ok (http : string -> http_answer) (ck : fetch_clock) (uri : string) (f : Fetcher) :
  answers http ck -> fetcher_ok f -> fetcher_ok (snd (Fetch http ck uri f)).
Proof.
  intros Ha Hf. destruct (Fetch_cases http ck uri f) as [(e & _ & _ & ->)|[_ ->]]; [exact Hf|].
  destruct (download (http uri)) as [data|err] eqn:Ed; [|exact Hf].
  apply download_Ok in Ed as [Hl [err Ed]]. unfold fetcher_ok. cbn.
  apply map_Forall_insert_2; [|exact Hf]. split; [exact Hl|]. exists (fc_until ck).
  split; [eapply Ha, Ed | reflexivity].
Qed.

Lemma fetcher_reachable_ok (f : Fetcher) : fetcher_reachable f -> fetcher_ok f.
Proof. induction 1; [apply map_Forall_empty | apply Fetch_ok; assumption]. Qed.

Lemma Check_CRL_fetcher_ok (http : string -> http_answer) (ck : fetch_clock) (leaf : CertPtr)
    (chain : list CertPtr) (f : Fetcher) :
  answers http ck -> fetcher_ok f -> fetcher_ok (snd (Check_CRL http ck leaf chain f)).
Proof.
  intros Ha Hf. unfold Check_CRL. destruct (cdp_Status _); [exact Hf | | exact Hf].
  destruct (findIssuingCA _ _); [|exact Hf].
  pose proof (Fetch_ok http ck (cdp_URI (ResolveCDP chain)) f Ha Hf) as Hk.
  destruct (Fetch _ _ _ _) as [[d|e] f']; [|exact Hk]. destruct (ValidateNotRevoked _ _ _) as [[]|]; exact Hk.
Qed.

Lemma cache_ttl_bound (maxAge : Z) (data : list byte) (now : Z) :
  cache_ttl maxAge data now <= Z.max 0 maxAge /\
  forall rl next, x509_ParseRevocationList data = Some rl -> NextUpdate rl = Some next ->
    cache_ttl maxAge data now <= Z.max 0 (next - now).
Proof.
  unfold cache_ttl, Parse, clamp_i64, min_i64, max_i64.
  destruct (x509_ParseRevocationList data) as [rl|]; [|split; [lia | discriminate]].
  destruct (NextUpdate rl) as [next|] eqn:En; [|split; [lia | intros rl' n [= <-]; congruence]].
  split; [|intros rl' n [= <-] E; replace n with next in * by congruence];
    destruct (_ <=? 0) eqn:E1; bool_hyps; try lia; destruct (_ <? maxAge) eqn:E2; bool_hyps; lia.
Qed.

(** (the CRL cache serves only fresh downloads) in every state the fetcher
    can reach, the bytes [Fetch] returns are at most 10 MiB and were answered with
    status 200 by the server of exactly this URI; if they were not downloaded in
    this call, they are no older than the maximal age, nor than the rest of the
    list's validity at the time it was stored. *)
Theorem Fetch_fresh (http : string -> http_answer) (ck : fetch_clock) (uri : string) (f : Fetcher)
    (data : list byte) :
  fetcher_reachable f -> answers http ck -> ft_maxAge f < max_i64 ->
  fst (Fetch http ck uri f) = Ok data ->
  Z.of_nat (length data) <= maxCRLBodySize /\
  exists tu ts, served uri tu ts data /\
    ((tu, ts) = (fc_until ck, fc_store ck) \/
     fc_get ck <= ts + Z.max 0 (ft_maxAge f) /\
     forall rl next, x509_ParseRevocationList data = Some rl -> NextUpdate rl = Some next ->
       fc_get ck <= ts + Z.max 0 (next - tu)).
Proof.
  intros Hr Ha Hm E. apply fetcher_reachable_ok in Hr.
  destruct (Fetch_cases http ck uri f) as [(e & He & Hx & Hf)|[_ Hf]]; rewrite Hf in E.
  - injection E as <-. destruct (Hr uri e He) as (Hl & tu & Hs & Ht). split; [exact Hl|].
    exists tu, (ce_fetchedAt e). split; [exact Hs|]. right.
    destruct (cache_ttl_bound (ft_maxAge f) (ce_data e) tu) as [Hb1 Hb2].
    unfold isExpired, clamp_i64, min_i64 in Hx. unfold max_i64 in *. bool_hyps.
    split; [lia|]. intros rl next Hp Hn. specialize (Hb2 rl next Hp Hn). lia.
  - destruct (download (http uri)) as [d|err] eqn:Ed; [|discriminate]. injection E as ->.
    apply download_Ok in Ed as [Hl [err Ed]]. split; [exact Hl|].
    exists (fc_until ck), (fc_store ck). split; [eapply Ha, Ed | left; reflexivity].
Qed.

End CheckProps.

(** ** The guard against internal hosts *)

(** The ranges the guard names, as an administrator would write them. *)
Definition internal_v4 (a b c d : Z) : Prop :=
  a = 127 \/ a = 10 \/ (a = 172 /\ 16 <= b < 32) \/ (a = 192 /\ b = 168) \/ (a = 169 /\ b = 254)
  \/ 224 <= a < 240 \/ (a = 0 /\ b = 0 /\ c = 0 /\ d = 0).

Definition internal_v6 (ip : IP) : Prop :=
  ip = IPv6loopback \/ ip = IPv6unspecified \/ 252 <= ip_at ip 0 < 254
  \/ (ip_at ip 0 = 254 /\ 128 <= ip_at ip 1 < 192) \/ ip_at ip 0 = 255.

Lemma byte_masks (b : byte) :
  (Z.land (byte_Z b) 240 =? 16) = (16 <=? byte_Z b) && (byte_Z b <? 32) /\
  (Z.land (byte_Z b) 240 =? 224) = (224 <=? byte_Z b) && (byte_Z b <? 240) /\
  (Z.land (byte_Z b) 254 =? 252) = (252 <=? byte_Z b) && (byte_Z b <? 254) /\
  (Z.land (byte_Z b) 192 =? 128) = (128 <=? byte_Z b) && (byte_Z b <? 192).
Proof. destruct b; repeat split; reflexivity. Qed.

Lemma byte_Z_zero (b : byte) : byte_Z b = 0 <-> b = x00.
Proof. split; [|intros ->; reflexivity]. intros E. rewrite <- (Z_byte_Z b), E. reflexivity. Qed.

Lemma unspecified_v4 (a b c d : byte) :
  IsUnspecified [a; b; c; d] = true <-> byte_Z a = 0 /\ byte_Z b = 0 /\ byte_Z c = 0 /\ byte_Z d = 0.
Proof.
  assert (E : IsUnspecified [a; b; c; d] = list_byte_eqb [a; b; c; d] [x00; x00; x00; x00] || false) by reflexivity.
  rewrite E, orb_false_r, list_byte_eqb_true, !byte_Z_zero.
  split; [intros [= -> -> -> ->]; auto | intros (-> & -> & -> & ->); reflexivity].
Qed.

Lemma disallowed_v4 (a b c d : byte) :
  isDisallowedTarget [a; b; c; d] = true <-> internal_v4 (byte_Z a) (byte_Z b) (byte_Z c) (byte_Z d).
Proof.
  unfold isDisallowedTarget, internal_v4. rewrite !orb_true_iff, unspecified_v4.
  unfold IsLoopback, IsPrivate, IsLinkLocalUnicast, IsLinkLocalMulticast, IsMulticast, ip_at.
  cbn [To4 length Nat.eqb nth].
  destruct (byte_masks a) as (_ & -> & _). destruct (byte_masks b) as (-> & _).
  rewrite !orb_true_iff, !andb_true_iff, !Z.eqb_eq, !Z.leb_le, !Z.ltb_lt. intuition lia.
Qed.

(** An IPv4 address hidden in an IPv6 one is treated like the address. *)
Lemma disallowed_mapped (a b c d : byte) :
  isDisallowedTarget (v4InV6Prefix ++ [a; b; c; d]) = isDisallowedTarget [a; b; c; d].
Proof.
  unfold isDisallowedTarget, IsLoopback, IsPrivate, IsLinkLocalUnicast, IsLinkLocalMulticast, IsMulticast.
  assert (E : To4 (v4InV6Prefix ++ [a; b; c; d]) = Some [a; b; c; d]) by reflexivity.
  assert (U : IsUnspecified (v4InV6Prefix ++ [a; b; c; d]) = IsUnspecified [a; b; c; d]).
  { apply eq_true_iff_eq. rewrite unspecified_v4, !byte_Z_zero.
    assert (El : IsUnspecified (v4InV6Prefix ++ [a; b; c; d]) =
      list_byte_eqb (v4InV6Prefix ++ [a; b; c; d]) IPv4zero
      || list_byte_eqb (v4InV6Prefix ++ [a; b; c; d]) IPv6unspecified) by reflexivity.
    rewrite El, orb_true_iff, !list_byte_eqb_true.
    split; [intros [[= -> -> -> ->]|[=]]; auto | intros (-> & -> & -> & ->); left; reflexivity]. }
  rewrite E, U. reflexivity.
Qed.

Lemma disallowed_v6 (ip : IP) :
  length ip = 16%nat -> To4 ip = None -> (isDisallowedTarget ip = true <-> internal_v6 ip).
Proof.
  intros Hl H4. unfold isDisallowedTarget, IsLoopback, IsPrivate, IsLinkLocalUnicast, IsLinkLocalMulticast,
    IsUnspecified, IsMulticast, internal_v6. rewrite H4, Hl. cbn [Nat.eqb andb].
  unfold ip_Equal. rewrite Hl. change (length IPv6loopback) with 16%nat. change (length IPv4zero) with 16%nat.
  change (length IPv6unspecified) with 16%nat. cbn [Nat.eqb]. unfold list_byte_eqb.
  assert (Hz : ip <> IPv4zero) by (intros ->; discriminate H4).
  unfold ip_at. destruct (byte_masks (nth 0 ip x00)) as (_ & _ & -> & _).
  destruct (byte_masks (nth 1 ip x00)) as (_ & _ & _ & ->).
  rewrite !orb_true_iff, !andb_true_iff, !Z.eqb_eq, !Z.leb_le, !Z.ltb_lt, !bool_decide_eq_true.
  intuition.
Qed.

(** The addresses that may be dialled. *)
Definition external (ip : IP) : Prop :=
  match ip with
  | [a; b; c; d] => ~ internal_v4 (byte_Z a) (byte_Z b) (byte_Z c) (byte_Z d)
  | _ =>
      match To4 ip with
      | Some [a; b; c; d] => ~ internal_v4 (byte_Z a) (byte_Z b) (byte_Z c) (byte_Z d)
      | _ => ~ internal_v6 ip
      end
  end.

Lemma To4_mapped (ip ip4 : IP) : length ip = 16%nat -> To4 ip = Some ip4 ->
  ip = v4InV6Prefix ++ ip4 /\ length ip4 = 4%nat.
Proof.
  intros Hl E. unfold To4 in E. rewrite Hl in E. cbn [Nat.eqb andb] in E.
  destruct (list_byte_eqb (firstn 12 ip) v4InV6Prefix) eqn:Ep; [|discriminate]. injection E as <-.
  apply list_byte_eqb_true in Ep. rewrite <- Ep, firstn_skipn, length_skipn, Hl. split; reflexivity.
Qed.

Lemma allowed_external (ip : IP) :
  (length ip = 4 \/ length ip = 16)%nat -> isDisallowedTarget ip = false -> external ip.
Proof.
  intros [Hl|Hl] Hd.
  - destruct ip as [|a [|b [|c [|d [|? ?]]]]]; try discriminate Hl. cbn. rewrite <- disallowed_v4. congruence.
  - assert (G : match To4 ip with
      | Some [a; b; c; d] => ~ internal_v4 (byte_Z a) (byte_Z b) (byte_Z c) (byte_Z d)
      | _ => ~ internal_v6 ip end).
    { destruct (To4 ip) as [ip4|] eqn:E.
      - destruct (To4_mapped _ _ Hl E) as [-> Hl4].
        destruct ip4 as [|a [|b [|c [|d [|? ?]]]]]; try discriminate Hl4.
        rewrite disallowed_mapped in Hd. rewrite <- disallowed_v4. congruence.
      - rewrite <- disallowed_v6 by assumption. congruence. }
    destruct ip as [|a [|b [|c [|d [|? ?]]]]]; try discriminate Hl. exact G.
Qed.

Lemma dial_each_prefix dial port (ips : list IP) (last : option goerror) :
  exists rest, ips = snd (dial_each dial port last ips) ++ rest /\
    (forall ip, fst (dial_each dial port last ips) = Ok ip -> In ip (snd (dial_each dial port last ips))).
Proof.
  revert last. induction ips as [|ip ips IH]; intros last; [exists []; split; [reflexivity | discriminate]|].
  cbn [dial_each]. destruct (dial ip port) as [e|].
  - destruct (IH (Some e)) as (rest & E & Hi). destruct (dial_each dial port (Some e) ips) as [r l].
    exists rest. cbn in *. split; [rewrite E at 1; reflexivity | intros x Hx; right; apply Hi, Hx].
  - exists ips. split; [reflexivity|]. intros x [= <-]. left. reflexivity.
Qed.

(** C24: (no request to an internal host) the guarded dialler dials only a prefix
    of the one DNS answer it inspected, nothing at all if any address of that
    answer is internal, and never a loopback, private, link-local, multicast or
    unspecified address, be it written as IPv4, IPv6 or IPv4-mapped IPv6. *)
Theorem DialContext_guard split lookup dial (address : string) :
  (forall host ips, lookup host = Ok ips -> Forall (fun ip => length ip = 4 \/ length ip = 16)%nat ips) ->
  let '(res, dialled) := DialContext split lookup dial address in
  Forall external dialled /\
  (forall ip, res = Ok ip -> In ip dialled) /\
  (dialled <> [] -> exists host port rest, split address = Some (host, port) /\
     lookup host = Ok (dialled ++ rest) /\ Forall external (dialled ++ rest)).
Proof.
  intros Hlen. unfold DialContext.
  destruct (split address) as [[host port]|]; [|repeat split; [constructor | discriminate | contradiction]].
  destruct (lookup host) as [ips|e] eqn:El; [|repeat split; [constructor | discriminate | contradiction]].
  destruct (existsb isDisallowedTarget ips) eqn:Ed; [repeat split; [constructor | discriminate | contradiction]|].
  assert (Hall : Forall external ips).
  { apply List.Forall_forall. intros ip Hin. apply allowed_external.
    - exact (proj1 (List.Forall_forall _ _) (Hlen host ips El) ip Hin).
    - exact (proj1 (existsb_false_forall _ _) Ed ip Hin). }
  destruct (dial_each_prefix dial port ips None) as (rest & E & Hi).
  destruct (dial_each dial port None ips) as [res dialled]. cbn [fst snd] in *. rewrite E in Hall.
  split; [apply Forall_app in Hall; tauto|]. split; [exact Hi|].
  intros _. exists host, port, rest. rewrite <- E in Hall |- *. auto.
Qed.

(** The metadata service of Alibaba Cloud, 100.100.100.200, is not among the
    ranges, nor is the rest of the shared address space 100.64.0.0/10. *)
Example metadata_address_allowed : isDisallowedTarget [x64; x64; x64; xc8] = false.
Proof. reflexivity. Qed.

(** ** Concrete runs *)

(** A toy X.509: a certificate's key is its subject-key bytes, a signature names
    its issuer's key; a list is [key :: flag :: serials], the flag 0 for no next
    update, else the next update in seconds. *)
Definition toy_x509 : X509Lib := {|
  cert_CheckSignatureFrom leaf parent :=
    list_byte_eqb (firstn 1 (Raw leaf)) (RawSubjectPublicKeyInfo parent);
  x509_ParseRevocationList data :=
    match data with
    | key :: next :: serials =>
        Some (MkRevocationList [key] (map byte_Z serials)
                (if byte_Z next =? 0 then None else Some (byte_Z next * 1000000000)))
    | _ => None
    end;
  rl_CheckSignatureFrom rl issuer := list_byte_eqb (rl_Raw rl) (RawSubjectPublicKeyInfo issuer)
|}.

#[local] Existing Instance toy_x509.

Definition toy_ca : CertPtr := MkCertPtr 2 (MkCertificate [x02] [x02] "ca" [] [] 0 100 1 [] []).
Definition toy_leaf (cdp : list string) (serial : Z) : CertPtr :=
  MkCertPtr 1 (MkCertificate [x02] [x07] "leaf" [] [] 0 100 serial cdp []).
Definition toy_cdp : list string := ["ldap://ca/crl"; "http://ca/crl"].
Definition crl_server (data : list byte) : string -> http_answer :=
  fun uri => if String.eqb uri "http://ca/crl" then Responded 200 data None else DoFailed (EPlain "no such host").
Definition toy_clock (t : Z) : fetch_clock := MkFetchClock t t t.

Definition crl_run (serial now : Z) (data : list byte) (f : Fetcher) : Status * Fetcher :=
  let '(r, f) := Check_CRL (crl_server data) (toy_clock now) (toy_leaf toy_cdp serial)
                   [toy_leaf toy_cdp serial; toy_ca] f in (cr_Status r, f).

Example Check_ex :
  fst (crl_run 5 0 [x02; x00; x09] NewFetcher) = Passed /\
  fst (crl_run 9 0 [x02; x00; x09] NewFetcher) = Revoked /\
  fst (crl_run 5 0 [x03; x00; x09] NewFetcher) = Failed.
Proof. vm_compute. auto. Qed.

(** A list whose next update has long passed clears the certificate: only its
    time in the cache is limited. *)
Example stale_list_accepted : fst (crl_run 5 (defaultMaxAge * 1000) [x02; x01; x09] NewFetcher) = Passed.
Proof. vm_compute. reflexivity. Qed.

(** When only an issuer above the leaf has a distribution point, the leaf is
    looked for in that issuer's own list, whose signature then is not the leaf's
    issuer's: the peer is rejected. *)
Example parent_cdp_rejects :
  let mid := MkCertPtr 2 (MkCertificate [x03] [x02] "mid" [] [] 0 100 1 ["http://ca/crl"] []) in
  let root := MkCertPtr 3 (MkCertificate [x03] [x03] "root" [] [] 0 100 1 [] []) in
  cr_Status (fst (Check_CRL (crl_server [x03; x00]) (toy_clock 0) (toy_leaf [] 5) [toy_leaf [] 5; mid; root]
    NewFetcher)) = Failed.
Proof. vm_compute. reflexivity. Qed.

Definition served_at (data : list byte) (uri : string) (tu ts : Z) (d : list byte) : Prop :=
  uri = "http://ca/crl" /\ d = data /\ tu = ts.

Lemma Fetch_fresh_witness :
  exists tu ts, served_at [x02; x00; x09] "http://ca/crl" tu ts [x02; x00; x09] /\
    (10 = ts \/ 10 <= ts + defaultMaxAge).
Proof.
  pose (f := snd (Fetch (crl_server [x02; x00; x09]) (toy_clock 0) "http://ca/crl" NewFetcher)).
  assert (Ha : forall t, answers (served_at [x02; x00; x09]) (crl_server [x02; x00; x09]) (toy_clock t)).
  { intros t uri d err. unfold crl_server, served_at. destruct (String.eqb uri "http://ca/crl") eqn:E; [|discriminate].
    apply String.eqb_eq in E. intros [= <- <-]. repeat split; assumption. }
  destruct (Fetch_fresh (served_at [x02; x00; x09]) (crl_server [x02; x00; x09]) (toy_clock 10) "http://ca/crl" f
    [x02; x00; x09]) as (_ & tu & ts & Hs & Ht).
  - apply (fetcher_step _ (crl_server [x02; x00; x09]) (toy_clock 0) "http://ca/crl"); [|apply Ha].
    exact (fetcher_new _ defaultMaxAge false).
  - apply Ha.
  - vm_compute. reflexivity.
  - vm_compute. reflexivity.
  - exists tu, ts. split; [exact Hs|]. destruct Ht as [[= _ <-]|[Ht _]]; [left; reflexivity | right; exact Ht].
Defined.

Lemma DialContext_guard_witness :
  let '(res, dialled) := DialContext (fun _ => Some ("ca", "80")) (fun _ => Ok [[x08; x08; x08; x08]])
                           (fun _ _ => None) "ca:80" in
  Forall external dialled /\ dialled = [[x08; x08; x08; x08]].
Proof.
  pose proof (DialContext_guard (fun _ => Some ("ca", "80")) (fun _ => Ok [[x08; x08; x08; x08]])
                (fun _ _ => None) "ca:80") as Hg.
  split; [|reflexivity]. apply Hg. intros host ips [= <-]. constructor; [left; reflexivity | constructor].
Defined.
