(* ===== verification/BadgeCache.v ===== *)
(** The badge cache: [verify/cache.go]. Times are nanoseconds; each operation
    takes the time it reads. Go iterates over maps in an unspecified order, so the
    operations that do take the order of the keys as an argument. *)

From Stdlib Require Import Sorting.Permutation.
From S2P Require Import Prelude GoStrings Errors Models.

#[local] Open Scope string_scope.
#[local] Open Scope Z_scope.

Definition defaultMaxStalenessMinutes : Z := 10.

Record CacheConfig := MkCacheConfig {
  MaxEntries : Z; DefaultTTL : Z; RefreshThreshold : Z; StaleRetention : Z
}.

Definition DefaultCacheConfig : CacheConfig :=
  MkCacheConfig 1000 (5 * minute) (1 * minute) (defaultMaxStalenessMinutes * minute).

Record CachedBadge := MkCachedBadge { cb_TLResponse : TLResponse; FetchedAt : Z; cb_ExpiresAt : Z }.

Definition IsExpired (c : CachedBadge) (now : Z) : bool := cb_ExpiresAt c <? now.
Definition ShouldRefresh (c : CachedBadge) (now threshold : Z) : bool :=
  cb_ExpiresAt c <? now + threshold.

Record cacheEntry := MkEntry { ent_badge : CachedBadge; ent_expiresAt : Z }.

Record BadgeCache := MkBadgeCache {
  bc_config : CacheConfig;
  byFqdn : gmap string cacheEntry;
  byFqdnVer : gmap string cacheEntry
}.

Definition NewBadgeCache (config : CacheConfig) : BadgeCache := MkBadgeCache config ∅ ∅.
Definition NewBadgeCacheWithDefaults : BadgeCache := NewBadgeCache DefaultCacheConfig.

Definition fqdnKey (fqdn : Fqdn) : string := Fqdn_String fqdn.
Definition fqdnVersionKey (fqdn : Fqdn) (version : Version) : string :=
  Fqdn_String fqdn ++ ":" ++ Version_String version.

(** The two lookups of a map: fresh, and stale within a window. *)
Definition get_fresh (m : gmap string cacheEntry) (now : Z) (key : string) : option CachedBadge :=
  match m !! key with
  | None => None
  | Some entry => if ent_expiresAt entry <? now then None else Some (ent_badge entry)
  end.

Definition get_stale (m : gmap string cacheEntry) (now : Z) (key : string) (maxStaleness : Z)
  : option CachedBadge :=
  match m !! key with
  | None => None
  | Some entry =>
      if maxStaleness <? clamp_i64 (now - ent_expiresAt entry) then None else Some (ent_badge entry)
  end.

Definition GetByFqdn (c : BadgeCache) (now : Z) (fqdn : Fqdn) : option CachedBadge :=
  get_fresh (byFqdn c) now (fqdnKey fqdn).
Definition GetByFqdnVersion (c : BadgeCache) (now : Z) (fqdn : Fqdn) (version : Version)
  : option CachedBadge :=
  get_fresh (byFqdnVer c) now (fqdnVersionKey fqdn version).
Definition GetStaleByFqdn (c : BadgeCache) (now : Z) (fqdn : Fqdn) (maxStaleness : Z)
  : option CachedBadge :=
  get_stale (byFqdn c) now (fqdnKey fqdn) maxStaleness.
Definition GetStaleByFqdnVersion (c : BadgeCache) (now : Z) (fqdn : Fqdn) (version : Version)
    (maxStaleness : Z) : option CachedBadge :=
  get_stale (byFqdnVer c) now (fqdnVersionKey fqdn version) maxStaleness.

(** ** Cleanup *)

(** An iteration order: each key once. *)
Definition map_order : Type := gmap string cacheEntry -> list string.
Definition order_ok (o : map_order) : Prop :=
  forall m, Permutation (o m) (map fst (map_to_list m)).

(** [for key := range m { if removed >= toRemove { break }; delete(m, key); removed++ }] *)
Fixpoint remove_loop (keys : list string) (removed toRemove : Z) (m : gmap string cacheEntry)
  : gmap string cacheEntry * Z :=
  match keys with
  | [] => (m, removed)
  | key :: rest =>
      if toRemove <=? removed then (m, removed)
      else remove_loop rest (removed + 1) toRemove (delete key m)
  end.

Definition not_too_stale (staleDeadline : Z) (entry : cacheEntry) : bool :=
  negb (ent_expiresAt entry <? staleDeadline).

Definition drop_stale (staleDeadline : Z) (m : gmap string cacheEntry) : gmap string cacheEntry :=
  filter (fun kv => not_too_stale staleDeadline (snd kv) = true) m.

Definition entries (c : BadgeCache) : Z := Z.of_nat (size (byFqdn c)) + Z.of_nat (size (byFqdnVer c)).

Definition cleanupLocked (o : map_order) (now : Z) (c : BadgeCache) : BadgeCache :=
  let staleDeadline := now - StaleRetention (bc_config c) in
  let c := MkBadgeCache (bc_config c) (drop_stale staleDeadline (byFqdn c))
             (drop_stale staleDeadline (byFqdnVer c)) in
  let totalEntries := entries c in
  if MaxEntries (bc_config c) <? totalEntries then
    let toRemove := totalEntries - MaxEntries (bc_config c) in
    let '(m1, removed) := remove_loop (o (byFqdn c)) 0 toRemove (byFqdn c) in
    let '(m2, _) := remove_loop (o (byFqdnVer c)) removed toRemove (byFqdnVer c) in
    MkBadgeCache (bc_config c) m1 m2
  else c.

(** ** Insertion *)

Definition new_entry (c : BadgeCache) (now : Z) (tlResp : TLResponse) : cacheEntry :=
  let expiresAt := now + DefaultTTL (bc_config c) in
  MkEntry (MkCachedBadge tlResp now expiresAt) expiresAt.

Definition Insert (o : map_order) (now now' : Z) (fqdn : Fqdn) (tlResp : TLResponse) (c : BadgeCache)
  : BadgeCache :=
  cleanupLocked o now'
    (MkBadgeCache (bc_config c) (<[fqdnKey fqdn := new_entry c now tlResp]> (byFqdn c)) (byFqdnVer c)).

Definition InsertForVersion (o : map_order) (now now' : Z) (fqdn : Fqdn) (version : Version)
    (tlResp : TLResponse) (c : BadgeCache) : BadgeCache :=
  cleanupLocked o now'
    (MkBadgeCache (bc_config c) (byFqdn c)
       (<[fqdnVersionKey fqdn version := new_entry c now tlResp]> (byFqdnVer c))).

Definition Clear (c : BadgeCache) : BadgeCache := MkBadgeCache (bc_config c) ∅ ∅.

(** ** Background refresh *)

Section Refresh.
Context `{UnicodeTables}.

Definition keys_to_refresh (o : map_order) (now : Z) (c : BadgeCache) : list string :=
  List.filter (fun key =>
    match byFqdn c !! key with
    | Some entry => ShouldRefresh (ent_badge entry) now (RefreshThreshold (bc_config c))
    | None => false
    end) (o (byFqdn c)).

(** One key of [refreshExpiring]; [clock] gives the time of the insertion. *)
Definition refresh_key (o : map_order) (refreshFn : string -> result goerror TLResponse)
    (clock : string -> Z) (c : BadgeCache) (key : string) : BadgeCache :=
  match refreshFn key with
  | Err _ => c
  | Ok tlResp =>
      match NewFqdn key with
      | Err _ => c
      | Ok fqdn => Insert o (clock key) (clock key) fqdn tlResp c
      end
  end.

Definition refreshExpiring (o : map_order) (now : Z)
    (refreshFn : string -> result goerror TLResponse) (clock : string -> Z) (c : BadgeCache)
  : BadgeCache :=
  fold_left (refresh_key o refreshFn clock) (keys_to_refresh o now c) c.

(** What one tick of the background goroutine meets. *)
Record tick := MkTick {
  tick_order : map_order; tick_now : Z; tick_fetch : string -> result goerror TLResponse; tick_clock : string -> Z
}.

(** [backgroundRefreshLoop] up to its cancellation. *)
Definition backgroundRefreshLoop (ticks : list tick) (c : BadgeCache) : BadgeCache :=
  fold_left (fun c t => refreshExpiring (tick_order t) (tick_now t) (tick_fetch t) (tick_clock t) c) ticks c.

End Refresh.

(** ** Cleanup removes entries and bounds their number *)

Lemma remove_loop_subseteq (keys : list string) (removed toRemove : Z) (m : gmap string cacheEntry) :
  fst (remove_loop keys removed toRemove m) ⊆ m.
Proof.
  revert removed m. induction keys as [|k keys IH]; intros removed m; simpl; [reflexivity|].
  destruct (toRemove <=? removed); [reflexivity|]. etransitivity; [apply IH | apply delete_subseteq].
Qed.

Lemma remove_loop_size (keys : list string) (removed toRemove : Z) (m : gmap string cacheEntry) :
  NoDup keys -> (forall k, In k keys -> is_Some (m !! k)) -> removed <= toRemove ->
  let '(m', removed') := remove_loop keys removed toRemove m in
  Z.of_nat (size m') = Z.of_nat (size m) - (removed' - removed) /\
  removed' = Z.min toRemove (removed + Z.of_nat (length keys)).
Proof.
  intros Hnd. revert removed m. induction Hnd as [|k keys Hk Hnd IH]; intros removed m Hin Hle; simpl.
  - lia.
  - destruct (toRemove <=? removed) eqn:E; bool_hyps; [lia|].
    assert (Hkm : is_Some (m !! k)) by (apply Hin; left; reflexivity).
    assert (Hsize : size (delete k m) = pred (size m)) by (apply map_size_delete_Some; exact Hkm).
    assert (Hpos : size m <> 0%nat).
    { intros Hz. apply map_size_empty_inv in Hz. rewrite Hz in Hkm. rewrite lookup_empty in Hkm.
      destruct Hkm; discriminate. }
    specialize (IH (removed + 1) (delete k m)).
    destruct (remove_loop keys (removed + 1) toRemove (delete k m)) as [m' r'].
    destruct IH as [H1 H2]; [| lia | lia].
    intros k' Hk'. rewrite lookup_delete_ne; [apply Hin; right; exact Hk'|].
    intros ->. apply Hk, list_elem_of_In, Hk'.
Qed.

Lemma order_keys (o : map_order) (m : gmap string cacheEntry) :
  order_ok o ->
  NoDup (o m) /\ (forall k, In k (o m) -> is_Some (m !! k)) /\ length (o m) = size m.
Proof.
  intros Ho. specialize (Ho m). split; [|split].
  - rewrite Ho. apply NoDup_fst_map_to_list.
  - intros k Hk. apply (Permutation_in _ Ho) in Hk. apply in_map_iff in Hk as ([k' e] & <- & Hk).
    apply list_elem_of_In, elem_of_map_to_list in Hk. eauto.
  - rewrite (Permutation_length Ho), length_map. apply length_map_to_list.
Qed.

Lemma drop_stale_subseteq (d : Z) (m : gmap string cacheEntry) : drop_stale d m ⊆ m.
Proof. apply map_filter_subseteq. Qed.

Lemma cleanup_subseteq (o : map_order) (now : Z) (c : BadgeCache) :
  byFqdn (cleanupLocked o now c) ⊆ byFqdn c /\ byFqdnVer (cleanupLocked o now c) ⊆ byFqdnVer c /\
  bc_config (cleanupLocked o now c) = bc_config c.
Proof.
  unfold cleanupLocked. cbv zeta. cbn [bc_config byFqdn byFqdnVer].
  set (d := now - _).
  pose proof (drop_stale_subseteq d (byFqdn c)) as S1.
  pose proof (drop_stale_subseteq d (byFqdnVer c)) as S2.
  destruct (_ <? _); [|auto].
  destruct (remove_loop _ 0 _ _) as [m1 r1] eqn:E1, (remove_loop _ r1 _ _) as [m2 r2] eqn:E2.
  cbn [byFqdn byFqdnVer bc_config].
  assert (m1 ⊆ drop_stale d (byFqdn c)).
  { change m1 with (fst (m1, r1)). rewrite <- E1. apply remove_loop_subseteq. }
  assert (m2 ⊆ drop_stale d (byFqdnVer c)).
  { change m2 with (fst (m2, r2)). rewrite <- E2. apply remove_loop_subseteq. }
  split; [|split; [|reflexivity]]; etransitivity; eassumption.
Qed.

Lemma cleanup_size (o : map_order) (now : Z) (c : BadgeCache) :
  order_ok o -> 0 <= MaxEntries (bc_config c) ->
  entries (cleanupLocked o now c) <= MaxEntries (bc_config c).
Proof.
  intros Ho Hmax. unfold cleanupLocked. cbv zeta. cbn [bc_config byFqdn byFqdnVer].
  set (c' := MkBadgeCache _ _ _). destruct (_ <? entries c') eqn:E; bool_hyps;
    [|exact E].
  destruct (order_keys o (byFqdn c') Ho) as (N1 & I1 & L1).
  destruct (order_keys o (byFqdnVer c') Ho) as (N2 & I2 & L2).
  change (drop_stale _ (byFqdn c)) with (byFqdn c').
  change (drop_stale _ (byFqdnVer c)) with (byFqdnVer c').
  set (toRemove := entries c' - _). assert (Htr : 0 <= toRemove) by (unfold toRemove; lia).
  pose proof (remove_loop_size (o (byFqdn c')) 0 toRemove (byFqdn c') N1 I1 Htr) as R1.
  destruct (remove_loop (o (byFqdn c')) 0 toRemove (byFqdn c')) as [m1 r1]. destruct R1 as [S1 E1].
  assert (Hr1 : r1 <= toRemove) by lia.
  pose proof (remove_loop_size (o (byFqdnVer c')) r1 toRemove (byFqdnVer c') N2 I2 Hr1) as R2.
  destruct (remove_loop (o (byFqdnVer c')) r1 toRemove (byFqdnVer c')) as [m2 r2]. destruct R2 as [S2 E2].
  unfold entries at 1. cbn [byFqdn byFqdnVer]. unfold toRemove, entries in *. lia.
Qed.

Lemma cleanup_noop (o : map_order) (now : Z) (c : BadgeCache) :
  entries c <= MaxEntries (bc_config c) ->
  byFqdn (cleanupLocked o now c) = drop_stale (now - StaleRetention (bc_config c)) (byFqdn c) /\
  byFqdnVer (cleanupLocked o now c) = drop_stale (now - StaleRetention (bc_config c)) (byFqdnVer c).
Proof.
  intros Hle. unfold cleanupLocked. cbv zeta. cbn [bc_config byFqdn byFqdnVer].
  set (c' := MkBadgeCache _ _ _).
  assert (Hle' : entries c' <= entries c).
  { unfold entries, c'. cbn [byFqdn byFqdnVer].
    pose proof (map_subseteq_size _ _ (drop_stale_subseteq (now - StaleRetention (bc_config c)) (byFqdn c))).
    pose proof (map_subseteq_size _ _ (drop_stale_subseteq (now - StaleRetention (bc_config c)) (byFqdnVer c))).
    lia. }
  destruct (_ <? _) eqn:E; bool_hyps; [lia|]. split; reflexivity.
Qed.

Lemma drop_stale_lookup (d : Z) (m : gmap string cacheEntry) (k : string) (e : cacheEntry) :
  m !! k = Some e -> d <= ent_expiresAt e -> drop_stale d m !! k = Some e.
Proof.
  intros Hk Hd. apply map_lookup_filter_Some. split; [exact Hk|]. unfold not_too_stale. cbn [snd].
  apply negb_true_iff, Z.ltb_ge, Hd.
Qed.

(** ** Provenance: what the cache can return *)

Inductive event :=
| EvFqdn (t : Z) (f : Fqdn) (r : TLResponse)
| EvVer (t : Z) (f : Fqdn) (v : Version) (r : TLResponse).

(** The states a cache goes through, with the insertions made so far. *)
Inductive history (cfg : CacheConfig) : BadgeCache -> list event -> Prop :=
| hist_new : history cfg (NewBadgeCache cfg) []
| hist_insert o t t' f r c log :
    history cfg c log -> history cfg (Insert o t t' f r c) (EvFqdn t f r :: log)
| hist_version o t t' f v r c log :
    Fqdn_wf f -> Version_wf v -> history cfg c log ->
    history cfg (InsertForVersion o t t' f v r c) (EvVer t f v r :: log)
| hist_clear c log : history cfg c log -> history cfg (Clear c) log.

Definition badge_at (cfg : CacheConfig) (t : Z) (r : TLResponse) : CachedBadge :=
  MkCachedBadge r t (t + DefaultTTL cfg).

Definition logged_fqdn (cfg : CacheConfig) (log : list event) (k : string) (e : cacheEntry) : Prop :=
  exists t f r, In (EvFqdn t f r) log /\ k = fqdnKey f /\
    e = MkEntry (badge_at cfg t r) (t + DefaultTTL cfg).
Definition logged_ver (cfg : CacheConfig) (log : list event) (k : string) (e : cacheEntry) : Prop :=
  exists t f v r, In (EvVer t f v r) log /\ Fqdn_wf f /\ Version_wf v /\ k = fqdnVersionKey f v /\
    e = MkEntry (badge_at cfg t r) (t + DefaultTTL cfg).

Lemma history_logged (cfg : CacheConfig) (c : BadgeCache) (log : list event) :
  history cfg c log ->
  bc_config c = cfg /\ map_Forall (logged_fqdn cfg log) (byFqdn c) /\
  map_Forall (logged_ver cfg log) (byFqdnVer c).
Proof.
  assert (Hmono1 : forall ev log (m : gmap string cacheEntry), map_Forall (logged_fqdn cfg log) m -> map_Forall (logged_fqdn cfg (ev :: log)) m).
  { intros ev l m Hm k e Hk. destruct (Hm k e Hk) as (t & f & r & Hin & Hr). exists t, f, r.
    split; [right; exact Hin | exact Hr]. }
  assert (Hmono2 : forall ev log (m : gmap string cacheEntry), map_Forall (logged_ver cfg log) m -> map_Forall (logged_ver cfg (ev :: log)) m).
  { intros ev l m Hm k e Hk. destruct (Hm k e Hk) as (t & f & v & r & Hin & Hr). exists t, f, v, r.
    split; [right; exact Hin | exact Hr]. }
  assert (Hsub : forall P (m m' : gmap string cacheEntry), m ⊆ m' -> map_Forall P m' -> map_Forall P m).
  { intros P m m' Hs Hm k e Hk. apply Hm. eapply lookup_weaken; eassumption. }
  induction 1 as [|o t t' f r c log _ (Hc & H1 & H2)|o t t' f v r c log Hf Hv _ (Hc & H1 & H2)
                  |c log _ (Hc & H1 & H2)].
  - repeat split; apply map_Forall_empty.
  - unfold Insert. set (c1 := MkBadgeCache _ _ _).
    destruct (cleanup_subseteq o t' c1) as (S1 & S2 & S3). rewrite S3. cbn.
    split; [exact Hc|]. split; eapply Hsub; try eassumption; unfold c1; cbn [byFqdn byFqdnVer]; auto.
    apply map_Forall_insert_2; [|auto]. exists t, f, r. split; [left; reflexivity|].
    unfold new_entry, badge_at. rewrite Hc. auto.
  - unfold InsertForVersion. set (c1 := MkBadgeCache _ _ _).
    destruct (cleanup_subseteq o t' c1) as (S1 & S2 & S3). rewrite S3. cbn.
    split; [exact Hc|]. split; eapply Hsub; try eassumption; unfold c1; cbn [byFqdn byFqdnVer]; auto.
    apply map_Forall_insert_2; [|auto]. exists t, f, v, r. split; [left; reflexivity|].
    unfold new_entry, badge_at. rewrite Hc. auto.
  - split; [exact Hc|]. split; apply map_Forall_empty.
Qed.

Lemma fqdnKey_inj (f g : Fqdn) : fqdnKey f = fqdnKey g -> f = g.
Proof. destruct f, g. unfold fqdnKey, Fqdn_String. simpl. congruence. Qed.

Lemma fqdnVersionKey_inj (f g : Fqdn) (v u : Version) :
  Fqdn_wf f -> Fqdn_wf g -> Version_wf v -> Version_wf u ->
  fqdnVersionKey f v = fqdnVersionKey g u -> f = g /\ v = u.
Proof.
  intros Hf Hg Hv Hu E. unfold fqdnVersionKey in E.
  assert (Nf : contains_char ":" (Fqdn_String f) = false) by (apply Fqdn_wf_no_char; auto).
  assert (Ng : contains_char ":" (Fqdn_String g) = false) by (apply Fqdn_wf_no_char; auto).
  assert (Es : Split (Fqdn_String f ++ String ":" (Version_String v)) ":" =
               Split (Fqdn_String g ++ String ":" (Version_String u)) ":")
    by (f_equal; exact E).
  rewrite !Split_app in Es by assumption. injection Es as Ef _. split; [apply fqdnKey_inj, Ef|].
  rewrite Ef in E. apply str_app_inj_l in E. apply (str_app_inj_l ":") in E.
  apply Version_String_inj; assumption.
Qed.

(** ** Refresh is a sequence of insertions *)

Section RefreshHistory.
Context `{UnicodeTables}.

(** The insertions a refresh may make. *)
Definition refresh_events (refreshFn : string -> result goerror TLResponse) (clock : string -> Z)
    (log : list event) : Prop :=
  Forall (fun ev => exists key f r, refreshFn key = Ok r /\ NewFqdn key = Ok f /\
                      ev = EvFqdn (clock key) f r) log.

Lemma refresh_history (cfg : CacheConfig) (o : map_order) refreshFn clock keys (c : BadgeCache) log :
  history cfg c log ->
  exists log', refresh_events refreshFn clock log' /\
    history cfg (fold_left (refresh_key o refreshFn clock) keys c) (log' ++ log)%list.
Proof.
  revert c log. induction keys as [|k keys IH]; intros c log Hh; simpl.
  - exists []. split; [constructor | exact Hh].
  - assert (Hk : exists l1, refresh_events refreshFn clock l1 /\
                   history cfg (refresh_key o refreshFn clock c k) (l1 ++ log)%list).
    { unfold refresh_key. destruct (refreshFn k) as [r|e] eqn:Er; [|exists []; split; [constructor | exact Hh]].
      destruct (NewFqdn k) as [f|e] eqn:Ef; [|exists []; split; [constructor | exact Hh]].
      exists [EvFqdn (clock k) f r]. split.
      - constructor; [|constructor]. exists k, f, r. auto.
      - apply hist_insert, Hh. }
    destruct Hk as (l1 & H1 & Hh1). destruct (IH _ _ Hh1) as (l2 & H2 & Hh2).
    exists (l2 ++ l1)%list. split; [apply Forall_app; split; assumption|].
    rewrite <- app_assoc. exact Hh2.
Qed.

(** The background goroutine inserts answers of the refresh function and nothing else,
    each under the host it asked for, however long it runs. *)
Theorem backgroundRefreshLoop_history (cfg : CacheConfig) (ticks : list tick) (c : BadgeCache) (log : list event) :
  history cfg c log ->
  exists log', history cfg (backgroundRefreshLoop ticks c) (log' ++ log)%list /\
    Forall (fun ev => exists t key f r, In t ticks /\ tick_fetch t key = Ok r /\ NewFqdn key = Ok f /\
                        ev = EvFqdn (tick_clock t key) f r) log'.
Proof.
  revert c log. induction ticks as [|t ticks IH]; intros c log Hh; [exists []; split; [exact Hh | constructor]|].
  destruct (refresh_history cfg (tick_order t) (tick_fetch t) (tick_clock t)
              (keys_to_refresh (tick_order t) (tick_now t) c) c log Hh) as (l1 & H1 & Hh1).
  destruct (IH _ _ Hh1) as (l2 & Hh2 & H2). exists (l2 ++ l1)%list. rewrite <- app_assoc. split; [exact Hh2|].
  apply Forall_app. split; (eapply Forall_impl; [eassumption|]); cbn beta.
  - intros ev (t' & key & f & r & Ht & K). exists t', key, f, r. split; [right; exact Ht | exact K].
  - intros ev (key & f & r & K). exists t, key, f, r. split; [left; reflexivity | exact K].
Qed.

End RefreshHistory.

(** ** Properties *)

(** (bound) whatever the iteration order of the maps, an insertion leaves at
    most [MaxEntries] entries in the two maps together. *)
Theorem Insert_bounded (o : map_order) (t t' : Z) (f : Fqdn) (v : option Version) (r : TLResponse)
    (c : BadgeCache) :
  order_ok o -> 0 <= MaxEntries (bc_config c) ->
  entries (match v with
           | None => Insert o t t' f r c
           | Some v => InsertForVersion o t t' f v r c
           end) <= MaxEntries (bc_config c).
Proof. 
  intros Ho Hmax. destruct v; unfold Insert, InsertForVersion;
    match goal with |- entries (cleanupLocked _ _ ?x) <= _ => apply (cleanup_size o t' x) end; assumption.
Qed.

Definition keys_order : map_order := fun m => map fst (map_to_list m).

Definition sample_tlresp (status : string) : TLResponse :=
  MkTLResponse status "" (MkTLPayload "" "" "" "ati://v1.0.0.a.example" "" "a.example" "" "v1.0.0" "1"
      status (MkTLCertificates "" "" "" ""))
    (MkEvidenceRef "" "" "" "" "" "" "" "" "" false) (MkTLSeal "" "" "" "" "" "" "")
    (MkMerkleProof "" "" "" 0 0 0 []) "" None None None None.

Lemma Insert_bounded_witness :
  entries (Insert keys_order 0 0 (MkFqdn "b.example") (sample_tlresp "ACTIVE")
             (Insert keys_order 0 0 (MkFqdn "a.example") (sample_tlresp "ACTIVE")
                (NewBadgeCache (MkCacheConfig 1 minute 0 0)))) <= 1.
Proof.
  apply (Insert_bounded keys_order 0 0 (MkFqdn "b.example") None (sample_tlresp "ACTIVE")
           (Insert keys_order 0 0 (MkFqdn "a.example") (sample_tlresp "ACTIVE")
              (NewBadgeCache (MkCacheConfig 1 minute 0 0)))).
  - intros m. reflexivity.
  - vm_compute. discriminate.
Defined.

(** C37: (provenance and freshness) in every state a cache can reach, a badge
    returned for a host was inserted for exactly that host, at a time from which
    its TTL has not run out; a badge returned for a host and a version was
    inserted for exactly that host and that version: the textual keys never
    confuse two of them. *)
Theorem Get_provenance (cfg : CacheConfig) (c : BadgeCache) (log : list event) (now : Z) (f : Fqdn) :
  history cfg c log ->
  (forall b, GetByFqdn c now f = Some b ->
     exists t r, In (EvFqdn t f r) log /\ b = badge_at cfg t r /\ now <= t + DefaultTTL cfg) /\
  (forall v b, Fqdn_wf f -> Version_wf v -> GetByFqdnVersion c now f v = Some b ->
     exists t r, In (EvVer t f v r) log /\ b = badge_at cfg t r /\ now <= t + DefaultTTL cfg).
Proof.
  intros Hh. destruct (history_logged _ _ _ Hh) as (_ & H1 & H2). split.
  - intros b Hb. unfold GetByFqdn, get_fresh in Hb.
    destruct (byFqdn c !! fqdnKey f) as [e|] eqn:Ee; [|discriminate Hb].
    destruct (H1 _ _ Ee) as (t & g & r & Hin & Hk & ->). apply fqdnKey_inj in Hk as <-.
    cbn [ent_expiresAt ent_badge] in Hb. destruct (_ <? now) eqn:El; [discriminate Hb|].
    injection Hb as <-. bool_hyps. exists t, r. auto.
  - intros v b Hf Hv Hb. unfold GetByFqdnVersion, get_fresh in Hb.
    destruct (byFqdnVer c !! fqdnVersionKey f v) as [e|] eqn:Ee; [|discriminate Hb].
    destruct (H2 _ _ Ee) as (t & g & u & r & Hin & Hg & Hu & Hk & ->).
    apply fqdnVersionKey_inj in Hk as [<- <-]; try assumption.
    cbn [ent_expiresAt ent_badge] in Hb. destruct (_ <? now) eqn:El; [discriminate Hb|].
    injection Hb as <-. bool_hyps. exists t, r. auto.
Qed.

Definition sample_cfg : CacheConfig := MkCacheConfig 10 minute 0 0.

Lemma Get_provenance_witness :
  exists t r, In (EvFqdn t (MkFqdn "a.example") r) [EvFqdn 7 (MkFqdn "a.example") (sample_tlresp "ACTIVE")] /\
    badge_at sample_cfg 7 (sample_tlresp "ACTIVE") = badge_at sample_cfg t r /\ 100 <= t + minute.
Proof.
  apply (proj1 (Get_provenance sample_cfg
    (Insert keys_order 7 8 (MkFqdn "a.example") (sample_tlresp "ACTIVE") (NewBadgeCache sample_cfg))
    [EvFqdn 7 (MkFqdn "a.example") (sample_tlresp "ACTIVE")] 100 (MkFqdn "a.example")
    (hist_insert sample_cfg _ _ _ _ _ _ _ (hist_new sample_cfg)))).
  vm_compute. reflexivity.
Defined.

(** Looking up after an insertion. *)
Lemma get_after_insert (o : map_order) (t t' now : Z) (f g : Fqdn) (r : TLResponse) (c : BadgeCache) :
  entries c < MaxEntries (bc_config c) ->
  t' - StaleRetention (bc_config c) <= t + DefaultTTL (bc_config c) -> t' <= now -> 0 <= StaleRetention (bc_config c) ->
  GetByFqdn (Insert o t t' f r c) now g =
  if decide (f = g) then
    if t + DefaultTTL (bc_config c) <? now then None else Some (badge_at (bc_config c) t r)
  else GetByFqdn c now g.
Proof.
  intros Hroom Hkeep Hnow Hret. unfold GetByFqdn, get_fresh, Insert.
  set (c1 := MkBadgeCache _ _ _).
  assert (Hsz : entries c1 <= MaxEntries (bc_config c1)).
  { unfold entries, c1 in *. cbn [byFqdn byFqdnVer bc_config] in *.
    rewrite map_size_insert. destruct (byFqdn c !! fqdnKey f); simpl; lia. }
  destruct (cleanup_noop o t' c1 Hsz) as [-> _]. unfold c1. cbn [byFqdn bc_config].
  destruct (decide (f = g)) as [<-|Hne].
  - erewrite drop_stale_lookup; [|apply lookup_insert_eq|].
    + reflexivity.
    + cbn. lia.
  - set (d := t' - _).
    destruct (byFqdn c !! fqdnKey g) as [e|] eqn:Ee.
    + destruct (Z.le_gt_cases d (ent_expiresAt e)) as [Hle|Hgt].
      * erewrite drop_stale_lookup; [|rewrite lookup_insert_ne; [exact Ee|]|exact Hle]; [reflexivity|].
        intros E. apply Hne, fqdnKey_inj, E.
      * destruct (drop_stale d _ !! fqdnKey g) as [e'|] eqn:Ed.
        -- apply map_lookup_filter_Some in Ed as [Ed Hs].
           rewrite lookup_insert_ne in Ed by (intros E; apply Hne, fqdnKey_inj, E).
           unfold not_too_stale in Hs. cbn [snd] in Hs. bool_hyps.
           assert (e = e') by congruence. subst e'. lia.
        -- destruct (_ <? now) eqn:El; [reflexivity|]. bool_hyps. unfold d in Hgt. lia.
    + destruct (drop_stale d _ !! fqdnKey g) as [e'|] eqn:Ed; [|reflexivity].
      apply map_lookup_filter_Some in Ed as [Ed _].
      rewrite lookup_insert_ne in Ed by (intros E; apply Hne, fqdnKey_inj, E). congruence.
Qed.

(** (insert then look up) with room for one more entry, an inserted badge
    is returned for its host until its TTL runs out, and the answers for other
    hosts that were still within the stale window do not change. *)
Theorem GetByFqdn_Insert (o : map_order) (t t' now : Z) (f g : Fqdn) (r : TLResponse) (c : BadgeCache) :
  entries c < MaxEntries (bc_config c) ->
  t' - StaleRetention (bc_config c) <= t + DefaultTTL (bc_config c) -> t' <= now -> 0 <= StaleRetention (bc_config c) ->
  GetByFqdn (Insert o t t' f r c) now g =
  if decide (f = g) then
    if t + DefaultTTL (bc_config c) <? now then None else Some (badge_at (bc_config c) t r)
  else GetByFqdn c now g.
Proof. apply get_after_insert. Qed.

Lemma GetByFqdn_Insert_witness :
  GetByFqdn (Insert keys_order 7 8 (MkFqdn "a.example") (sample_tlresp "ACTIVE") (NewBadgeCache sample_cfg))
    100 (MkFqdn "a.example") = Some (badge_at sample_cfg 7 (sample_tlresp "ACTIVE")).
Proof.
  rewrite (GetByFqdn_Insert keys_order 7 8 100); vm_compute; (reflexivity || discriminate).
Defined.
