(* ===== verification/Cose.v ===== *)
(** COSE_Sign1 structures and their signatures: [verify/scitt/cose.go] and the
    ECDSA check of [verify/scitt/status_token.go]. The CBOR codec
    ([github.com/fxamacker/cbor/v2], decoding with the limits of [newDecMode],
    which are valid options) and the public-key primitives are classes. *)

From S2P Require Import Prelude GoStrings Encoding Sha256 Errors.

#[local] Open Scope string_scope.
#[local] Open Scope list_scope.
#[local] Open Scope Z_scope.

#[export] Instance byte_countable : Countable byte :=
  inj_countable Byte.to_N Byte.of_N Byte.of_to_N.

(** [cbor.RawMessage] *)
Definition raw : Type := list byte.

(** Keys of a [map[interface{}]cbor.RawMessage]. *)
Inductive anykey := KUint64 (n : Z) | KInt64 (n : Z) | KText (s : string).

#[export] Instance anykey_eq_dec : EqDecision anykey.
Proof. solve_decision. Defined.

(** [dm.Unmarshal] at each target type the code uses. *)
Class CborLib := {
  un_raw : list byte -> option raw;
  un_tag : raw -> option (Z * raw);
  un_array : raw -> option (list raw);
  un_bytes : raw -> option (list byte);
  un_string : raw -> option string;
  un_int64 : raw -> option Z;
  un_uint64 : raw -> option Z;
  un_intmap : raw -> option (gmap Z raw);
  un_anymap : raw -> option (anykey -> option raw);
  un_strmap : raw -> option (gmap string string);
  (** [cbor.Marshal] of [["Signature1", protected, h'', payload]] *)
  marshal_sig_structure : list byte -> list byte -> list byte
}.

(** [crypto/ecdsa] and [crypto/x509]; [VerifyASN1] on the DER encoding of the
    pair of integers. *)
Class CryptoLib := {
  ecdsa_key : Type;
  is_P256 : ecdsa_key -> bool;
  VerifyASN1 : ecdsa_key -> list byte -> Z * Z -> bool;
  (** the inner [None] is a key that is not an ECDSA key *)
  ParsePKIXPublicKey : list byte -> option (option ecdsa_key)
}.

Definition MaxCoseInputSize : Z := 1048576.
Definition coseAlgES256 : Z := -7.
Definition p1363SignatureLen : Z := 64.
Definition coseHeaderAlg : Z := 1.
Definition coseHeaderContentType : Z := 3.
Definition coseHeaderKid : Z := 4.
Definition coseHeaderCWTClaims : Z := 15.
Definition coseHeaderVDS : Z := 395.

Record ProtectedHeader := MkProtected {
  Alg : Z; Kid : list byte; Vds : option Z; ContentType_ : option string;
  CwtIss : option string; CwtIat : option Z
}.

Record ParsedCoseSign1 := MkParsed {
  ProtectedBytes : list byte; Protected : ProtectedHeader; Unprotected : raw;
  Payload_ : list byte; Signature_ : list byte
}.

Definition cose_err (t : CoseErrorType) : goerror := ECose t None.
Definition cbor_error : goerror := EPlain "cbor".

(** [err != nil] of an [Unmarshal] turned into a [CoseError] with a cause. *)
Definition decode_or {A : Type} (t : CoseErrorType) (o : option A) : result goerror A :=
  match o with Some a => Ok a | None => Err (ECose t (Some cbor_error)) end.

Section Parser.
Context `{CborLib}.

Definition unwrapTag18 (r : raw) : raw :=
  match un_tag r with
  | Some (n, content) => if n =? 18 then content else r
  | None => r
  end.

(** An optional map field, ignored when it does not decode. *)
Definition opt_field {A : Type} (m : gmap Z raw) (k : Z) (dec : raw -> option A) : option A :=
  match m !! k with Some r => dec r | None => None end.

Definition parseCWTClaims (cwtRaw : raw) : option string * option Z :=
  match un_intmap cwtRaw with
  | None => (None, None)
  | Some m => (opt_field m 1 un_string, opt_field m 6 un_int64)
  end.

Definition parseProtectedHeader (protectedBytes : list byte) : result goerror ProtectedHeader :=
  let? headerMap := decode_or CoseErrInvalidProtectedHeader (un_intmap protectedBytes) in
  match headerMap !! coseHeaderAlg with
  | None => Err (cose_err CoseErrUnsupportedAlgorithm)
  | Some algRaw =>
      let? alg := decode_or CoseErrUnsupportedAlgorithm (un_int64 algRaw) in
      guard! (alg =? coseAlgES256) orelse cose_err CoseErrUnsupportedAlgorithm in
      let contentType := opt_field headerMap coseHeaderContentType un_string in
      match headerMap !! coseHeaderKid with
      | None => Err (cose_err CoseErrMissingKid)
      | Some kidRaw =>
          let? kidBytes := decode_or CoseErrMissingKid (un_bytes kidRaw) in
          guard! (Z.of_nat (length kidBytes) =? 4) orelse cose_err CoseErrMissingKid in
          let cwt :=
            match headerMap !! coseHeaderCWTClaims with
            | Some cwtRaw => parseCWTClaims cwtRaw
            | None => (None, None)
            end in
          Ok (MkProtected alg kidBytes (opt_field headerMap coseHeaderVDS un_int64) contentType
                (fst cwt) (snd cwt))
      end
  end.

Definition ParseCoseSign1 (data : list byte) : result goerror ParsedCoseSign1 :=
  guard! (Z.of_nat (length data) <=? MaxCoseInputSize) orelse cose_err CoseErrOversizedInput in
  let? rawOuter := decode_or CoseErrCborDecode (un_raw data) in
  let? elements := decode_or CoseErrNotACoseSign1 (un_array (unwrapTag18 rawOuter)) in
  match elements with
  | [e0; e1; e2; e3] =>
      let? protectedBytes := decode_or CoseErrInvalidProtectedHeader (un_bytes e0) in
      let? header := parseProtectedHeader protectedBytes in
      let? payload := decode_or CoseErrNotACoseSign1 (un_bytes e2) in
      guard! negb (length payload =? 0)%nat orelse cose_err CoseErrNotACoseSign1 in
      let? signature := decode_or CoseErrInvalidSignatureLength (un_bytes e3) in
      guard! (Z.of_nat (length signature) =? p1363SignatureLen)
        orelse cose_err CoseErrInvalidSignatureLength in
      Ok (MkParsed protectedBytes header e1 payload signature)
  | _ => Err (cose_err CoseErrInvalidArrayLength)
  end.

Definition BuildSigStructure (protectedBytes payload : list byte) : list byte :=
  marshal_sig_structure protectedBytes payload.

Definition ComputeSigStructureDigest (protectedBytes payload : list byte) : list byte :=
  sha256 (BuildSigStructure protectedBytes payload).

End Parser.

Definition hashLen : nat := 32.

Section Signature.
Context `{CborLib} `{CryptoLib}.

(** The two halves of a P1363 signature. *)
Definition p1363_pair (sig : list byte) : Z * Z :=
  (bytes_Z (take hashLen sig), bytes_Z (take hashLen (drop hashLen sig))).

Definition verifyECDSA (key : ecdsa_key) (protectedBytes payload sig kid : list byte)
  : result goerror unit :=
  let digest := ComputeSigStructureDigest protectedBytes payload in
  guard! VerifyASN1 key digest (p1363_pair sig) orelse ESignature SigErrSignatureInvalid kid in
  Ok tt.

(** What a parsed structure satisfies. *)
Definition cose_wf (c : ParsedCoseSign1) : Prop :=
  Alg (Protected c) = coseAlgES256 /\ length (Kid (Protected c)) = 4%nat /\
  Payload_ c <> [] /\ length (Signature_ c) = 64%nat.

Lemma decode_or_Ok {A : Type} (t : CoseErrorType) (o : option A) (a : A) :
  decode_or t o = Ok a <-> o = Some a.
Proof. destruct o; simpl; split; congruence. Qed.

Lemma parseProtectedHeader_wf (b : list byte) (h : ProtectedHeader) :
  parseProtectedHeader b = Ok h -> Alg h = coseAlgES256 /\ length (Kid h) = 4%nat.
Proof.
  unfold parseProtectedHeader. rewrite rbind_Ok. intros (m & _ & E).
  case_match_in E. rewrite rbind_Ok in E. destruct E as (alg & _ & E). case_match_in E.
  case_match_in E. rewrite rbind_Ok in E. destruct E as (kid & _ & E). case_match_in E.
  injection E as <-. bool_hyps. simpl. split; lia.
Qed.

Lemma ParseCoseSign1_wf (data : list byte) (c : ParsedCoseSign1) :
  ParseCoseSign1 data = Ok c -> cose_wf c /\ Z.of_nat (length data) <= MaxCoseInputSize.
Proof.
  unfold ParseCoseSign1. intros E. case_match_in E. rewrite rbind_Ok in E.
  destruct E as (ro & _ & E). rewrite rbind_Ok in E. destruct E as (els & _ & E).
  repeat (destruct els as [|? els]; try discriminate E).
  rewrite rbind_Ok in E. destruct E as (pb & _ & E). rewrite rbind_Ok in E.
  destruct E as (h & Hh & E). rewrite rbind_Ok in E. destruct E as (p & _ & E). case_match_in E.
  rewrite rbind_Ok in E. destruct E as (s & _ & E). case_match_in E. injection E as <-.
  apply parseProtectedHeader_wf in Hh as [H1 H2]. bool_hyps. unfold cose_wf, p1363SignatureLen in *.
  simpl. repeat split; auto; try lia. intros ->. simpl in *. congruence.
Qed.

End Signature.

#[export] Hint Resolve ParseCoseSign1_wf : ati.
