(* ===== verification/KeyStore.v ===== *)
(** Trusted root keys: [verify/scitt/root_keys.go] and the refreshable store of
    [verify/scitt/refreshable_key_store.go]. *)

From S2P Require Import Prelude GoStrings Encoding Sha256 Errors Cose.

#[local] Open Scope string_scope.
#[local] Open Scope list_scope.
#[local] Open Scope Z_scope.

Section Keys.
Context `{CryptoLib}.

Record TrustedKey := MkTrustedKey { tk_Name : string; tk_Kid : list byte; tk_Key : ecdsa_key }.

(** The [KeyLookup] interface. *)
Definition KeyLookup : Type := list byte -> result goerror TrustedKey.

Definition sig_err (t : SignatureErrorType) : goerror := ESignature t [].

(** [if len(spkiDer) > 0 && spkiDer[0] == 0x02 { spkiDer = spkiDer[1:] }] *)
Definition strip_type_byte (spkiRaw : list byte) : list byte :=
  match spkiRaw with
  | b :: rest => if byte_Z b =? 2 then rest else spkiRaw
  | [] => spkiRaw
  end.

Definition ParseC2SPKey (s : string) : result goerror TrustedKey :=
  match SplitN s "+" 3 with
  | [name; kidHex; spki64] =>
      guard! negb (String.eqb name "") orelse sig_err SigErrInvalidKeyFormat in
      match hex_DecodeString kidHex with
      | None => Err (sig_err SigErrInvalidKeyFormat)
      | Some kid =>
          guard! (Z.of_nat (length kid) =? 4) orelse sig_err SigErrInvalidKeyFormat in
          match b64_DecodeString spki64 with
          | None => Err (sig_err SigErrInvalidKeyFormat)
          | Some spkiRaw =>
              let spkiDer := strip_type_byte spkiRaw in
              match ParsePKIXPublicKey spkiDer with
              | None => Err (sig_err SigErrInvalidPublicKey)
              | Some None => Err (sig_err SigErrInvalidPublicKey)
              | Some (Some ecKey) =>
                  guard! is_P256 ecKey orelse sig_err SigErrInvalidPublicKey in
                  guard! list_byte_eqb (take 4 (sha256 spkiDer)) kid
                    orelse ESignature SigErrKeyHashMismatch kid in
                  Ok (MkTrustedKey name kid ecKey)
              end
          end
      end
  | _ => Err (sig_err SigErrInvalidKeyFormat)
  end.

Record KeyStore := MkKeyStore { ks_keys : gmap (list byte) TrustedKey }.

Definition add_new_key (acc : result goerror (gmap (list byte) TrustedKey)) (s : string)
  : result goerror (gmap (list byte) TrustedKey) :=
  let? keys := acc in
  let? tk := ParseC2SPKey s in
  match keys !! tk_Kid tk with
  | Some _ => Err (ESignature SigErrInvalidKeyFormat (tk_Kid tk))
  | None => Ok (<[tk_Kid tk := tk]> keys)
  end.

Definition NewKeyStore (keyStrings : list string) : result goerror KeyStore :=
  let? keys := fold_left add_new_key keyStrings (Ok ∅) in Ok (MkKeyStore keys).

Definition KeyStore_Get (s : KeyStore) : KeyLookup :=
  fun kid =>
    match ks_keys s !! kid with
    | None => Err (ESignature SigErrUnknownKeyID kid)
    | Some tk => Ok tk
    end.

Definition KeyStore_Len (s : KeyStore) : Z := Z.of_nat (size (ks_keys s)).
Definition KeyStore_IsEmpty (s : KeyStore) : bool := KeyStore_Len s =? 0.

(** ** [MergeFrom] *)

Record MergeResult := MkMerge {
  Added : Z; Skipped : Z; SkippedUnparseable : Z; SkippedDuplicate : Z; Collisions : list string
}.

Definition merge_step (st : gmap (list byte) TrustedKey * MergeResult) (ks : string)
  : gmap (list byte) TrustedKey * MergeResult :=
  let '(merged, res) := st in
  match ParseC2SPKey ks with
  | Err _ =>
      (merged, MkMerge (Added res) (Skipped res + 1) (SkippedUnparseable res + 1)
                 (SkippedDuplicate res) (Collisions res))
  | Ok tk =>
      match merged !! tk_Kid tk with
      | Some existing =>
          (merged, MkMerge (Added res) (Skipped res + 1) (SkippedUnparseable res)
             (SkippedDuplicate res + 1)
             (if String.eqb (tk_Name existing) (tk_Name tk) then Collisions res
              else Collisions res ++ [hex_EncodeToString (tk_Kid tk)]))
      | None =>
          (<[tk_Kid tk := tk]> merged,
           MkMerge (Added res + 1) (Skipped res) (SkippedUnparseable res) (SkippedDuplicate res)
             (Collisions res))
      end
  end.

Definition MergeFrom (s : KeyStore) (keyStrings : list string) : KeyStore * MergeResult :=
  let '(merged, res) := fold_left merge_step keyStrings (ks_keys s, MkMerge 0 0 0 0 []) in
  (MkKeyStore merged, res).

(** ** The refreshable store *)

(** [client] is nil as [false]; [clock] readings are arguments. *)
Record RefreshableKeyStore := MkRefreshable {
  rk_has_client : bool;
  rk_cooldown : Z;
  rk_snapshot : KeyStore;
  rk_lastRefreshed : option Z
}.

Definition DefaultOnDemandCooldown : Z := 5 * 60 * 1000000000.

Definition NewRefreshableKeyStore (initial : KeyStore) (has_client : bool) (cooldown : Z)
  : RefreshableKeyStore := MkRefreshable has_client cooldown initial None.

Definition Refreshable_Get (r : RefreshableKeyStore) : KeyLookup := KeyStore_Get (rk_snapshot r).
Definition Refreshable_Len (r : RefreshableKeyStore) : Z := KeyStore_Len (rk_snapshot r).
Definition Refreshable_IsEmpty (r : RefreshableKeyStore) : bool := KeyStore_IsEmpty (rk_snapshot r).
Definition LastRefreshed (r : RefreshableKeyStore) : option Z := rk_lastRefreshed r.
Definition CurrentSnapshot (r : RefreshableKeyStore) : KeyStore := rk_snapshot r.

(** [DoRefresh]; [fetch] is the answer of [FetchRootKeys]. *)
Definition DoRefresh (fetch : result goerror (list string)) (now : Z) (r : RefreshableKeyStore)
  : result goerror unit * RefreshableKeyStore :=
  if negb (rk_has_client r) then (Ok tt, r)
  else
    match fetch with
    | Err e => (Err e, r)
    | Ok keys =>
        let '(merged, _) := MergeFrom (rk_snapshot r) keys in
        (Ok tt, MkRefreshable (rk_has_client r) (rk_cooldown r) merged (Some now))
    end.

Definition within_cooldown (r : RefreshableKeyStore) (now : Z) : bool :=
  match rk_lastRefreshed r with
  | Some lr => clamp_i64 (now - lr) <? rk_cooldown r
  | None => false
  end.

(** Refreshes completed one after the other. *)
Definition do_refreshes (l : list (result goerror (list string) * Z)) (r : RefreshableKeyStore)
  : RefreshableKeyStore :=
  fold_left (fun r fn => snd (DoRefresh (fst fn) (snd fn) r)) l r.

(** [RefreshIfCooldownElapsed]: the quick check at [t1]; the refreshes [others]
    that callers holding the gate complete while this one waits for it; then the
    re-check at [t2] and the refresh at [t3]. *)
Definition RefreshIfCooldownElapsed (fetch : result goerror (list string)) (t1 t2 t3 : Z)
    (others : list (result goerror (list string) * Z)) (r : RefreshableKeyStore)
  : result goerror bool * RefreshableKeyStore :=
  if negb (rk_has_client r) then (Ok false, r)
  else if within_cooldown r t1 then (Ok false, r)
  else
    let r := do_refreshes others r in
    if within_cooldown r t2 then (Ok false, r)
    else
      match DoRefresh fetch t3 r with
      | (Err e, r) => (Err e, r)
      | (Ok _, r) => (Ok true, r)
      end.

(** ** Lemmas *)

(** A key that [ParseC2SPKey] accepts: P-256, and its identifier is the prefix
    of the SHA-256 of some encoding of that very key. *)
Definition key_wf (tk : TrustedKey) : Prop :=
  tk_Name tk <> "" /\ length (tk_Kid tk) = 4%nat /\ is_P256 (tk_Key tk) = true /\
  exists der, ParsePKIXPublicKey der = Some (Some (tk_Key tk)) /\ take 4 (sha256 der) = tk_Kid tk.

Definition store_wf (m : gmap (list byte) TrustedKey) : Prop :=
  map_Forall (fun kid tk => tk_Kid tk = kid /\ key_wf tk) m.

Lemma ParseC2SPKey_wf (s : string) (tk : TrustedKey) : ParseC2SPKey s = Ok tk -> key_wf tk.
Proof.
  unfold ParseC2SPKey. intros E. repeat case_match_in E. injection E as <-. bool_hyps.
  unfold key_wf. cbn [tk_Name tk_Kid tk_Key]. repeat split; auto; try lia.
  eexists. split; [eassumption|]. apply ConstantTimeCompare_true. assumption.
Qed.

Lemma add_new_keys_wf (l : list string) (acc : result goerror (gmap (list byte) TrustedKey)) m :
  (forall m0, acc = Ok m0 -> store_wf m0) -> fold_left add_new_key l acc = Ok m -> store_wf m.
Proof.
  revert acc. induction l as [|s l IH]; intros acc Hacc; simpl; [auto|]. apply IH.
  intros m0. unfold add_new_key. rewrite rbind_Ok. intros (m1 & -> & E).
  rewrite rbind_Ok in E. destruct E as (tk & Htk & E). case_match_in E. injection E as <-.
  apply map_Forall_insert_2; [|apply Hacc; reflexivity].
  split; [reflexivity | eapply ParseC2SPKey_wf; eassumption].
Qed.

Lemma NewKeyStore_wf (l : list string) (s : KeyStore) : NewKeyStore l = Ok s -> store_wf (ks_keys s).
Proof.
  unfold NewKeyStore. rewrite rbind_Ok. intros (m & Hm & [= <-]). eapply add_new_keys_wf; [|exact Hm].
  intros m0 [= <-]. apply map_Forall_empty.
Qed.

(** The bookkeeping of one merge. *)
Definition merge_ok (n : Z) (before : gmap (list byte) TrustedKey)
    (st : gmap (list byte) TrustedKey * MergeResult) : Prop :=
  before ⊆ fst st /\
  Z.of_nat (size (fst st)) = Z.of_nat (size before) + Added (snd st) /\
  Skipped (snd st) = SkippedUnparseable (snd st) + SkippedDuplicate (snd st) /\
  Added (snd st) + Skipped (snd st) = n.

Lemma merge_steps_ok (l : list string) (n : Z) (before : gmap (list byte) TrustedKey) st :
  merge_ok n before st -> merge_ok (n + Z.of_nat (length l)) before (fold_left merge_step l st).
Proof.
  revert n st. induction l as [|s l IH]; intros n st Hst; cbn [fold_left length].
  - rewrite Z.add_0_r. exact Hst.
  - replace (n + Z.of_nat (S (length l))) with ((n + 1) + Z.of_nat (length l)) by lia. apply IH.
    destruct st as [m res], Hst as (H1 & H2 & H3 & H4). cbn [fst snd] in *. unfold merge_step, merge_ok.
    destruct (ParseC2SPKey s) as [tk|e]; cbn [fst snd Added Skipped SkippedUnparseable SkippedDuplicate];
      [|repeat split; auto; lia].
    destruct (m !! tk_Kid tk) as [ex|] eqn:Em;
      cbn [fst snd Added Skipped SkippedUnparseable SkippedDuplicate]; [repeat split; auto; lia|].
    repeat split; try lia.
    + etransitivity; [exact H1 | apply insert_subseteq, Em].
    + rewrite map_size_insert_None by exact Em. lia.
Qed.

Lemma merge_steps_wf (l : list string) st :
  store_wf (fst st) -> store_wf (fst (fold_left merge_step l st)).
Proof.
  revert st. induction l as [|s l IH]; intros [m res] Hst; simpl; [exact Hst|]. apply IH.
  unfold merge_step. destruct (ParseC2SPKey s) as [tk|e] eqn:Es; [|exact Hst].
  destruct (m !! tk_Kid tk); [exact Hst|].
  apply map_Forall_insert_2; [split; [reflexivity | eapply ParseC2SPKey_wf; eassumption] | exact Hst].
Qed.

(** ** Properties *)

(** (merge) merging refreshed keys never drops or replaces a key that is
    already trusted, only adds well-formed keys (P-256, identified by the hash of
    their encoding), and its counters account for every input string and for the
    growth of the store. *)
Theorem MergeFrom_spec (s : KeyStore) (l : list string) :
  let '(s', res) := MergeFrom s l in
  ks_keys s ⊆ ks_keys s' /\ (store_wf (ks_keys s) -> store_wf (ks_keys s')) /\
  KeyStore_Len s' = KeyStore_Len s + Added res /\
  Added res + Skipped res = Z.of_nat (length l) /\
  Skipped res = SkippedUnparseable res + SkippedDuplicate res.
Proof.
  unfold MergeFrom, KeyStore_Len.
  pose proof (merge_steps_ok l 0 (ks_keys s) (ks_keys s, MkMerge 0 0 0 0 [])) as Hm.
  pose proof (merge_steps_wf l (ks_keys s, MkMerge 0 0 0 0 [])) as Hw.
  destruct (fold_left merge_step l _) as [m res]. cbn [fst snd ks_keys] in *.
  destruct Hm as (H1 & H2 & H3 & H4); [repeat split; simpl; auto; lia|].
  cbn [fst snd] in *. split; [exact H1|]. split; [exact Hw|]. lia.
Qed.

(** One event in the life of a refreshable store: a refresh, on demand or in
    the background, with any answer of the key server, at any time. *)
Inductive refresh_step : RefreshableKeyStore -> RefreshableKeyStore -> Prop :=
| rstep_refresh fetch now r : refresh_step r (snd (DoRefresh fetch now r))
| rstep_on_demand fetch t1 t2 t3 others r :
    refresh_step r (snd (RefreshIfCooldownElapsed fetch t1 t2 t3 others r)).

Inductive refreshes : RefreshableKeyStore -> RefreshableKeyStore -> Prop :=
| refreshes_nil r : refreshes r r
| refreshes_cons r1 r2 r3 : refresh_step r1 r2 -> refreshes r2 r3 -> refreshes r1 r3.

(** What a refresh keeps. *)
Definition store_le (r r' : RefreshableKeyStore) : Prop :=
  ks_keys (rk_snapshot r) ⊆ ks_keys (rk_snapshot r') /\
  (store_wf (ks_keys (rk_snapshot r)) -> store_wf (ks_keys (rk_snapshot r'))) /\
  (rk_has_client r = false -> r' = r) /\ rk_has_client r' = rk_has_client r.

Lemma store_le_refl (r : RefreshableKeyStore) : store_le r r.
Proof. split; [reflexivity|]. auto. Qed.

Lemma store_le_trans (r1 r2 r3 : RefreshableKeyStore) :
  store_le r1 r2 -> store_le r2 r3 -> store_le r1 r3.
Proof.
  intros (A1 & A2 & A3 & A4) (B1 & B2 & B3 & B4).
  split; [etransitivity; eassumption|]. split; [auto|]. split; [|congruence].
  intros Hc. rewrite (B3 (eq_trans A4 Hc)). apply A3, Hc.
Qed.

Lemma DoRefresh_le fetch (now : Z) (r : RefreshableKeyStore) : store_le r (snd (DoRefresh fetch now r)).
Proof.
  unfold DoRefresh. destruct (rk_has_client r) eqn:Ec; cbn [negb]; [|apply store_le_refl].
  destruct fetch as [keys|e]; [|apply store_le_refl].
  pose proof (merge_steps_ok keys 0 (ks_keys (rk_snapshot r)) (ks_keys (rk_snapshot r), MkMerge 0 0 0 0 [])) as Hm.
  pose proof (merge_steps_wf keys (ks_keys (rk_snapshot r), MkMerge 0 0 0 0 [])) as Hw.
  unfold MergeFrom. destruct (fold_left merge_step keys _) as [m res]. cbn [fst snd] in *.
  destruct Hm as (H1 & _); [repeat split; simpl; auto; lia|].
  split; [exact H1|]. split; [exact Hw|]. split; cbn; congruence.
Qed.

Lemma do_refreshes_le l (r : RefreshableKeyStore) : store_le r (do_refreshes l r).
Proof.
  revert r. induction l as [|[f t] l IH]; intros r; simpl; [apply store_le_refl|].
  eapply store_le_trans; [apply DoRefresh_le | apply IH].
Qed.

Lemma refresh_step_le (r r' : RefreshableKeyStore) : refresh_step r r' -> store_le r r'.
Proof.
  intros []; [apply DoRefresh_le|]. unfold RefreshIfCooldownElapsed.
  destruct (negb _); [apply store_le_refl|]. destruct (within_cooldown r0 t1); [apply store_le_refl|].
  destruct (within_cooldown _ t2); [apply do_refreshes_le|].
  eapply store_le_trans; [apply do_refreshes_le|].
  pose proof (DoRefresh_le fetch t3 (do_refreshes others r0)) as Hd.
  destruct (DoRefresh _ _ _) as [[u|e] r2]; exact Hd.
Qed.

(** C38: (monotone trust) over any sequence of refreshes, whatever the key server
    answers or fails to answer, every key the store resolved keeps resolving to
    the same key, and a store without a client never changes. *)
Theorem refreshes_monotone (r r' : RefreshableKeyStore) (kid : list byte) (tk : TrustedKey) :
  refreshes r r' ->
  (Refreshable_Get r kid = Ok tk -> Refreshable_Get r' kid = Ok tk) /\
  (rk_has_client r = false -> r' = r).
Proof.
  intros Hr. assert (Hle : store_le r r').
  { induction Hr as [r|r1 r2 r3 Hs _ IH]; [apply store_le_refl|].
    eapply store_le_trans; [apply refresh_step_le, Hs | exact IH]. }
  destruct Hle as (H1 & _ & H3 & _). split; [|exact H3].
  unfold Refreshable_Get, KeyStore_Get. intros Hg. case_match_in Hg. injection Hg as <-.
  erewrite lookup_weaken by eassumption. reflexivity.
Qed.

(** (cooldown) after a refresh completed at time [t0], an on-demand refresh
    whose clock reads within the cooldown performs no fetch and changes nothing;
    and when the refresh that held the gate was the successful one, the callers
    that waited for the gate do not fetch again. *)
Theorem RefreshIfCooldownElapsed_skips fetch (t1 t2 t3 t0 : Z)
    (others : list (result goerror (list string) * Z)) (r : RefreshableKeyStore) :
  (rk_lastRefreshed r = Some t0 -> clamp_i64 (t1 - t0) < rk_cooldown r ->
   RefreshIfCooldownElapsed fetch t1 t2 t3 others r = (Ok false, r)) /\
  (rk_lastRefreshed (do_refreshes others r) = Some t0 ->
   clamp_i64 (t2 - t0) < rk_cooldown (do_refreshes others r) ->
   fst (RefreshIfCooldownElapsed fetch t1 t2 t3 others r) = Ok false).
Proof.
  unfold RefreshIfCooldownElapsed. split.
  - intros Hl Hc. unfold within_cooldown at 1. rewrite Hl. apply Z.ltb_lt in Hc. rewrite Hc.
    destruct (negb _); reflexivity.
  - intros Hl Hc. destruct (negb _); [reflexivity|]. destruct (within_cooldown r t1); [reflexivity|].
    unfold within_cooldown. rewrite Hl. apply Z.ltb_lt in Hc. rewrite Hc. reflexivity.
Qed.

End Keys.

(** A symbolic instance: a key is a name, its encoding the bytes of the name;
    a signature is the digest next to the key. *)
Definition symbolic_crypto : CryptoLib := {|
  ecdsa_key := string;
  is_P256 _ := true;
  VerifyASN1 k digest rs := (fst rs =? bytes_Z digest) && (snd rs =? bytes_Z (bytes_of_string k));
  ParsePKIXPublicKey der := Some (Some (string_of_bytes der))
|}.

#[local] Existing Instance symbolic_crypto.

Definition c2sp (name key : string) : string :=
  (name ++ "+" ++ hex_EncodeToString (take 4 (sha256 (bytes_of_string key))) ++ "+" ++
   b64_EncodeToString (bytes_of_string key))%string.

Definition sample_kid (key : string) : list byte := take 4 (sha256 (bytes_of_string key)).

Definition sample_store : RefreshableKeyStore :=
  snd (DoRefresh (Ok [c2sp "tl" "key-a"]) 0 (NewRefreshableKeyStore (MkKeyStore ∅) true 100)).

Lemma refreshes_monotone_witness :
  Refreshable_Get
    (snd (RefreshIfCooldownElapsed (Ok ["junk"; c2sp "other" "key-a"]%string) 500 501 502 [] sample_store))
    (sample_kid "key-a") = Ok (MkTrustedKey "tl" (sample_kid "key-a") "key-a"%string).
Proof.
  apply (refreshes_monotone sample_store).
  - eapply refreshes_cons; [apply rstep_on_demand | apply refreshes_nil].
  - vm_compute. reflexivity.
Defined.

Lemma RefreshIfCooldownElapsed_skips_witness :
  RefreshIfCooldownElapsed (Ok []) 50 51 52 [] sample_store = (Ok false, sample_store).
Proof.
  apply (proj1 (RefreshIfCooldownElapsed_skips (Ok []) 50 51 52 0 [] sample_store));
    vm_compute; reflexivity.
Defined.
