(* ===== verification/Receipt.v ===== *)
(** SCITT receipts: [verify/scitt/receipt.go]. *)

From S2P Require Import Prelude GoStrings Encoding Sha256 Errors Merkle Cose KeyStore.

#[local] Open Scope string_scope.
#[local] Open Scope list_scope.
#[local] Open Scope Z_scope.

Definition vdsRFC9162 : Z := 1.
Definition vdpCBORKey : Z := 396.
Definition vdpKeyTreeSize : Z := -1.
Definition vdpKeyLeafIndex : Z := -2.
Definition vdpKeyInclusionPath : Z := -3.

Record VerifiedReceipt := MkVerifiedReceipt {
  vr_TreeSize : Z; vr_LeafIndex : Z; vr_RootHash : hash; vr_EventBytes : list byte;
  vr_KeyID : list byte; vr_Iss : option string; vr_Iat : option Z
}.

Definition validateVDS (vds : option Z) : result goerror unit :=
  match vds with
  | None => Err (cose_err CoseErrInvalidProtectedHeader)
  | Some v => guard! (v =? vdsRFC9162) orelse cose_err CoseErrInvalidProtectedHeader in Ok tt
  end.

Section Receipt.
Context `{CborLib} `{CryptoLib}.

Definition verifyIssuerBinding (iss : option string) (key : TrustedKey) : result goerror unit :=
  match iss with
  | None => Ok tt
  | Some i => guard! String.eqb i (tk_Name key) orelse ESignature SigErrIssuerMismatch (tk_Kid key) in Ok tt
  end.

(** The loop over the elements of the inclusion path. *)
Fixpoint decode_hashes (rawHashes : list raw) : result goerror (list hash) :=
  match rawHashes with
  | [] => Ok []
  | r :: rest =>
      let? hashBytes := decode_or CoseErrInvalidUnprotectedHeader (un_bytes r) in
      guard! (length hashBytes =? hashLen)%nat orelse cose_err CoseErrInvalidUnprotectedHeader in
      let? hs := decode_hashes rest in
      Ok (hashBytes :: hs)
  end.

(** A required unsigned field of the VDP map. *)
Definition vdp_uint (vdpMap : gmap Z raw) (key : Z) : result goerror Z :=
  match vdpMap !! key with
  | None => Err (cose_err CoseErrInvalidUnprotectedHeader)
  | Some r => decode_or CoseErrInvalidUnprotectedHeader (un_uint64 r)
  end.

Definition extractVDP (unprotected : raw) : result goerror (Z * Z * list hash) :=
  let? unprotectedMap := decode_or CoseErrInvalidUnprotectedHeader (un_intmap unprotected) in
  match unprotectedMap !! vdpCBORKey with
  | None => Err (cose_err CoseErrInvalidUnprotectedHeader)
  | Some vdpRaw =>
      let? vdpMap := decode_or CoseErrInvalidUnprotectedHeader (un_intmap vdpRaw) in
      let? treeSize := vdp_uint vdpMap vdpKeyTreeSize in
      let? leafIndex := vdp_uint vdpMap vdpKeyLeafIndex in
      match vdpMap !! vdpKeyInclusionPath with
      | None => Ok (treeSize, leafIndex, [])
      | Some pathRaw =>
          let? rawHashes := decode_or CoseErrInvalidUnprotectedHeader (un_array pathRaw) in
          let? hashPath := decode_hashes rawHashes in
          Ok (treeSize, leafIndex, hashPath)
      end
  end.

Definition verifyInclusionProof (parsed : ParsedCoseSign1) : result goerror (Z * Z * hash) :=
  let? vdp := extractVDP (Unprotected parsed) in
  let '(treeSize, leafIndex, hashPath) := vdp in
  let? rootHash := WalkInclusionPath (Payload_ parsed) leafIndex treeSize hashPath in
  Ok (treeSize, leafIndex, rootHash).

Definition VerifyReceipt (receiptBytes : list byte) (keys : KeyLookup)
  : result goerror VerifiedReceipt :=
  let? parsed := ParseCoseSign1 receiptBytes in
  let? u1 := validateVDS (Vds (Protected parsed)) in
  let? trustedKey := keys (Kid (Protected parsed)) in
  let? u2 := verifyECDSA (tk_Key trustedKey) (ProtectedBytes parsed) (Payload_ parsed)
               (Signature_ parsed) (Kid (Protected parsed)) in
  let? u3 := verifyIssuerBinding (CwtIss (Protected parsed)) trustedKey in
  let? proof := verifyInclusionProof parsed in
  let '(treeSize, leafIndex, rootHash) := proof in
  Ok (MkVerifiedReceipt treeSize leafIndex rootHash (Payload_ parsed) (Kid (Protected parsed))
        (CwtIss (Protected parsed)) (CwtIat (Protected parsed))).

(** ** Specification *)

(** The signature of [c] under [k] over its Sig_structure1. *)
Definition signed_by_key (c : ParsedCoseSign1) (k : TrustedKey) : Prop :=
  VerifyASN1 (tk_Key k) (sha256 (marshal_sig_structure (ProtectedBytes c) (Payload_ c)))
    (p1363_pair (Signature_ c)) = true.

(** The issuer claim, when there is one, is the name of the key. *)
Definition issued_by (c : ParsedCoseSign1) (k : TrustedKey) : Prop :=
  forall iss, CwtIss (Protected c) = Some iss -> iss = tk_Name k.

Lemma verifyECDSA_ok (k : TrustedKey) (c : ParsedCoseSign1) (u : unit) :
  verifyECDSA (tk_Key k) (ProtectedBytes c) (Payload_ c) (Signature_ c) (Kid (Protected c)) = Ok u <->
  signed_by_key c k.
Proof.
  unfold verifyECDSA, signed_by_key, ComputeSigStructureDigest, BuildSigStructure.
  destruct (VerifyASN1 _ _ _), u; split; congruence.
Qed.

Lemma verifyIssuerBinding_ok (k : TrustedKey) (c : ParsedCoseSign1) (u : unit) :
  verifyIssuerBinding (CwtIss (Protected c)) k = Ok u <-> issued_by c k.
Proof.
  unfold verifyIssuerBinding, issued_by. destruct u, (CwtIss (Protected c)) as [i|].
  - destruct (String.eqb i (tk_Name k)) eqn:E; bool_hyps; split; try discriminate.
    + intros _ j [= <-]. exact E.
    + reflexivity.
    + intros Hj. destruct (E (Hj i eq_refl)).
  - split; [discriminate 2 | reflexivity].
Qed.

Lemma validateVDS_ok (vds : option Z) (u : unit) : validateVDS vds = Ok u <-> vds = Some 1.
Proof.
  unfold validateVDS, vdsRFC9162. destruct u, vds as [v|]; [|split; discriminate].
  destruct (v =? 1) eqn:E; bool_hyps; split; congruence.
Qed.

Lemma decode_hashes_wf (rs : list raw) (hs : list hash) :
  decode_hashes rs = Ok hs -> Forall hash_wf hs.
Proof.
  revert hs. induction rs as [|r rs IH]; intros hs; simpl.
  - intros [= <-]. constructor.
  - rewrite rbind_Ok. intros (b & _ & E). case_match_in E. rewrite rbind_Ok in E.
    destruct E as (hs' & Hhs & [= <-]). bool_hyps. constructor; [assumption | auto].
Qed.

Lemma extractVDP_wf (u : raw) (n m : Z) (p : list hash) :
  extractVDP u = Ok (n, m, p) -> Forall hash_wf p.
Proof.
  unfold extractVDP. rewrite rbind_Ok. intros (um & _ & E). case_match_in E.
  rewrite rbind_Ok in E. destruct E as (vm & _ & E). rewrite rbind_Ok in E.
  destruct E as (ts & _ & E). rewrite rbind_Ok in E. destruct E as (li & _ & E). case_match_in E.
  - rewrite rbind_Ok in E. destruct E as (rh & _ & E). rewrite rbind_Ok in E.
    destruct E as (hp & Hp & [= <- <- <-]). eapply decode_hashes_wf; eassumption.
  - injection E as <- <- <-. constructor.
Qed.

(** What a verified receipt stands for. *)
Definition receipt_valid (receiptBytes : list byte) (keys : KeyLookup) (r : VerifiedReceipt) : Prop :=
  exists (c : ParsedCoseSign1) (k : TrustedKey) (p : list hash),
    ParseCoseSign1 receiptBytes = Ok c /\ Vds (Protected c) = Some 1 /\
    keys (Kid (Protected c)) = Ok k /\ signed_by_key c k /\ issued_by c k /\
    extractVDP (Unprotected c) = Ok (vr_TreeSize r, vr_LeafIndex r, p) /\
    WalkInclusionPath (Payload_ c) (vr_LeafIndex r) (vr_TreeSize r) p = Ok (vr_RootHash r) /\
    vr_EventBytes r = Payload_ c /\ vr_KeyID r = Kid (Protected c) /\
    vr_Iss r = CwtIss (Protected c) /\ vr_Iat r = CwtIat (Protected c).

Lemma VerifyReceipt_ok (b : list byte) (keys : KeyLookup) (r : VerifiedReceipt) :
  VerifyReceipt b keys = Ok r <-> receipt_valid b keys r.
Proof.
  unfold VerifyReceipt, receipt_valid, verifyInclusionProof. split.
  - rewrite rbind_Ok. intros (c & Hc & E). rewrite rbind_Ok in E. destruct E as (u1 & H1 & E).
    rewrite rbind_Ok in E. destruct E as (k & Hk & E). rewrite rbind_Ok in E.
    destruct E as (u2 & H2 & E). rewrite rbind_Ok in E. destruct E as (u3 & H3 & E).
    rewrite rbind_Ok in E. destruct E as (proof & Hp & E). rewrite rbind_Ok in Hp.
    destruct Hp as ([[n m] p] & Hv & Hw). rewrite rbind_Ok in Hw. destruct Hw as (root & Hw & [= <-]).
    injection E as <-. apply validateVDS_ok in H1. apply verifyECDSA_ok in H2.
    apply verifyIssuerBinding_ok in H3. exists c, k, p. cbn. repeat split; assumption.
  - intros (c & k & p & Hc & H1 & Hk & H2 & H3 & Hv & Hw & E1 & E2 & E3 & E4).
    rewrite Hc. cbn [rbind]. rewrite (proj2 (validateVDS_ok _ tt) H1). cbn [rbind]. rewrite Hk.
    cbn [rbind]. rewrite (proj2 (verifyECDSA_ok k c tt) H2). cbn [rbind].
    rewrite (proj2 (verifyIssuerBinding_ok k c tt) H3). cbn [rbind]. rewrite Hv. cbn [rbind].
    rewrite Hw. cbn [rbind]. destruct r; cbn in *. congruence.
Qed.

(** C8: (what a verified receipt guarantees) [VerifyReceipt] accepts exactly
    the receipts that parse as COSE_Sign1 with ES256 and vds 1, whose key
    identifier resolves to a trusted key, whose signature over the Sig_structure
    verifies under that key, whose issuer claim (if any) is the key's name, and
    whose inclusion path walks from the signed payload; it returns the root of
    that walk and the signed payload itself. *)
Theorem VerifyReceipt_spec (b : list byte) (keys : KeyLookup) (r : VerifiedReceipt) :
  VerifyReceipt b keys = Ok r <-> receipt_valid b keys r.
Proof. apply VerifyReceipt_ok. Qed.

(** A receipt whose root is the root of a known log proves that its payload is
    the leaf of that log at its index, up to the collisions of the two walks. *)
Lemma receipt_in_log (b : list byte) (keys : KeyLookup) (r : VerifiedReceipt)
    (D : list (list byte)) (m : nat) (d : list byte) (p : list hash) (c : ParsedCoseSign1) :
  ParseCoseSign1 b = Ok c -> extractVDP (Unprotected c) = Ok (vr_TreeSize r, vr_LeafIndex r, p) ->
  VerifyReceipt b keys = Ok r ->
  D !! m = Some d -> vr_LeafIndex r = Z.of_nat m -> vr_TreeSize r = Z.of_nat (length D) ->
  Z.of_nat (length D) <= 2 ^ 63 -> vr_RootHash r = MTH D ->
  no_collision (inclusion_inputs (vr_EventBytes r) (Z.of_nat m) (Z.of_nat (length D)) p)
    (inclusion_inputs d (Z.of_nat m) (Z.of_nat (length D)) (PATH m D)) ->
  vr_EventBytes r = d.
Proof.
  intros Hc Hv Hr Hd Hm Hn Hle Hroot Hcol.
  apply VerifyReceipt_ok in Hr as (c' & k & p' & Hc' & _ & _ & _ & _ & Hv' & Hw & He & _).
  assert (c' = c) as -> by congruence. assert (p' = p) as -> by congruence.
  rewrite Hroot, Hm, Hn in Hw. rewrite <- He in Hw. apply Walk_ok in Hw as (_ & _ & _ & Hw).
  destruct (walk_path_inj _ _ _ _ _ _ _ Hw (walk_PATH D m d Hd ltac:(lia))) as [E _];
    try apply sha256_length.
  - eapply extractVDP_wf; eassumption.
  - apply path_wf.
  - intros x y Hx Hy. apply Hcol; right; assumption.
  - apply Hcol in E; try (left; reflexivity). injection E as E. exact E.
Qed.

End Receipt.
