(* ===== verification/StatusToken.v ===== *)
(** Status tokens: [verify/scitt/types.go] and [verify/scitt/status_token.go]. *)

From S2P Require Import Prelude GoStrings Encoding Sha256 Errors Cose KeyStore Receipt.

#[local] Open Scope string_scope.
#[local] Open Scope list_scope.
#[local] Open Scope Z_scope.

(** [AgentStatus] and [CertType] are string types. *)
Definition StatusDeprecated : string := "DEPRECATED".

Definition Status_IsValidForConnection (s : string) : bool :=
  String.eqb s "ACTIVE" || String.eqb s "WARNING" || String.eqb s "DEPRECATED".
Definition Status_IsTerminal (s : string) : bool :=
  String.eqb s "EXPIRED" || String.eqb s "REVOKED".

Record CertEntry := MkCertEntry { ce_Fingerprint : list byte; ce_CertType : string }.

Record StatusTokenPayload := MkTokenPayload {
  st_AgentID : string; st_ATIName : string; st_Status : string; st_Iat : Z; st_Exp : Z;
  ValidIdentityCerts : list CertEntry; ValidServerCerts : list CertEntry;
  MetadataHashes : gmap string string
}.

Record VerifiedStatusToken := MkVerifiedToken { vt_Payload : StatusTokenPayload; vt_KeyID : list byte }.

Definition MaxClockSkew : Z := 10 * 60 * second.
Definition MaxCertArrayLen : Z := 128.

Definition token_err (t : TokenErrorType) (msg : string) : goerror := EToken t msg.

Section StatusToken.
Context `{UnicodeTables} `{CborLib} `{CryptoLib}.

(** [newPayloadFieldGetter]: an unsigned, a signed, then a text key. *)
Definition get_field (m : anykey -> option raw) (intKey : Z) (strKey : string) : option raw :=
  match m (KUint64 intKey) with
  | Some r => Some r
  | None =>
      match m (KInt64 intKey) with
      | Some r => Some r
      | None => m (KText strKey)
      end
  end.

Definition decodeStringField (r : raw) : string := default "" (un_string r).
Definition decodeInt64Field (r : raw) : Z := default 0 (un_int64 r).

Definition zero_hash : list byte := repeat x00 32.

Definition parseHexFingerprint (s : string) : option (list byte) :=
  let hexStr := if HasPrefix (ToLower s) "sha256:" then str_drop 7 s else s in
  match hex_DecodeString hexStr with
  | Some decoded => if (length decoded =? 32)%nat then Some decoded else None
  | None => None
  end.

Definition decodeFingerprintField (r : raw) : list byte :=
  let as_text :=
    match un_string r with
    | Some s => match parseHexFingerprint s with Some fp => fp | None => zero_hash end
    | None => zero_hash
    end in
  match un_bytes r with
  | Some fp => if (length fp =? 32)%nat then fp else as_text
  | None => as_text
  end.

(** One element of a cert array; [None] is skipped. *)
Definition decode_cert (item : raw) : option CertEntry :=
  match un_anymap item with
  | None => None
  | Some certMap =>
      let fp := match get_field certMap 1 "fingerprint" with
                | Some r => decodeFingerprintField r
                | None => zero_hash
                end in
      let ct := match get_field certMap 2 "cert_type" with
                | Some r => decodeStringField r
                | None => ""
                end in
      if list_byte_eqb fp zero_hash then None else Some (MkCertEntry fp ct)
  end.

Definition decodeCertArray (r : raw) : result goerror (list CertEntry) :=
  match un_array r with
  | None => Err (EWrap "failed to decode cert array: %w" cbor_error)
  | Some arr =>
      guard! (Z.of_nat (length arr) <=? MaxCertArrayLen)
        orelse token_err TokenErrPayloadInvalid "cert array length %d exceeds maximum %d" in
      Ok (filter_map decode_cert arr)
  end.

Definition cert_field (m : anykey -> option raw) (k : Z) (name : string)
  : result goerror (list CertEntry) :=
  match get_field m k name with
  | None => Ok []
  | Some r => decodeCertArray r
  end.

Definition string_field (m : anykey -> option raw) (k : Z) (name : string) : string :=
  match get_field m k name with Some r => decodeStringField r | None => "" end.
Definition int64_field (m : anykey -> option raw) (k : Z) (name : string) : Z :=
  match get_field m k name with Some r => decodeInt64Field r | None => 0 end.

Definition decodePayloadFields (m : anykey -> option raw) : result goerror StatusTokenPayload :=
  let? identityCerts := cert_field m 6 "valid_identity_certs" in
  let? serverCerts := cert_field m 7 "valid_server_certs" in
  let metadata := match get_field m 8 "metadata_hashes" with
                  | Some r => default ∅ (un_strmap r)
                  | None => ∅
                  end in
  Ok (MkTokenPayload (string_field m 1 "agent_id") (string_field m 5 "ans_name")
        (string_field m 2 "status") (int64_field m 3 "iat") (int64_field m 4 "exp")
        identityCerts serverCerts metadata).

Definition decodeStatusPayload (data : list byte) : result goerror StatusTokenPayload :=
  guard! negb (length data =? 0)%nat orelse token_err TokenErrPayloadEmpty "payload is empty" in
  match un_anymap data with
  | None => Err (token_err TokenErrPayloadEmpty "failed to decode payload: %v")
  | Some rawMap =>
      let? payload := decodePayloadFields rawMap in
      guard! negb (String.eqb (st_AgentID payload) "") orelse token_err TokenErrMissingField "agent_id" in
      guard! negb (String.eqb (st_Status payload) "") orelse token_err TokenErrMissingField "status" in
      guard! negb (st_Exp payload =? 0) orelse token_err TokenErrMissingField "exp" in
      guard! negb (String.eqb (st_ATIName payload) "") orelse token_err TokenErrMissingField "ans_name" in
      Ok payload
  end.

Definition clamp_skew (clockSkew : Z) : Z :=
  let clockSkew := if clockSkew <? 0 then 0 else clockSkew in
  if MaxClockSkew <? clockSkew then MaxClockSkew else clockSkew.

Definition skew_seconds (clockSkew : Z) : Z := Z.quot (clamp_skew clockSkew) second.

Definition VerifyStatusTokenAt (tokenBytes : list byte) (keys : KeyLookup) (clockSkew now : Z)
  : result goerror VerifiedStatusToken :=
  let? cose := ParseCoseSign1 tokenBytes in
  let kid := Kid (Protected cose) in
  let? trustedKey := keys kid in
  let? u1 := verifyECDSA (tk_Key trustedKey) (ProtectedBytes cose) (Payload_ cose) (Signature_ cose) kid in
  guard! (match CwtIss (Protected cose) with
          | Some iss => String.eqb iss (tk_Name trustedKey)
          | None => true
          end) orelse ESignature SigErrIssuerMismatch kid in
  let? payload := decodeStatusPayload (Payload_ cose) in
  guard! (now <=? wrap_i64 (st_Exp payload + skew_seconds clockSkew))
    orelse token_err TokenErrExpired "token expired at %d, now %d (skew %ds)" in
  guard! negb (Status_IsTerminal (st_Status payload))
    orelse token_err TokenErrTerminalStatus "agent status is %s" in
  Ok (MkVerifiedToken payload kid).

Definition MatchesServerCert (payload : StatusTokenPayload) (fingerprint : list byte) : bool :=
  existsb (fun c => ConstantTimeCompare (ce_Fingerprint c) fingerprint) (ValidServerCerts payload).
Definition MatchesIdentityCert (payload : StatusTokenPayload) (fingerprint : list byte) : bool :=
  existsb (fun c => ConstantTimeCompare (ce_Fingerprint c) fingerprint) (ValidIdentityCerts payload).

(** ** Specification *)

Definition cert_wf (c : CertEntry) : Prop :=
  length (ce_Fingerprint c) = 32%nat /\ ce_Fingerprint c <> zero_hash.

Definition payload_wf (p : StatusTokenPayload) : Prop :=
  st_AgentID p <> "" /\ st_Status p <> "" /\ st_Exp p <> 0 /\ st_ATIName p <> "" /\
  Forall cert_wf (ValidServerCerts p) /\ Forall cert_wf (ValidIdentityCerts p).

Lemma decodeFingerprintField_length (r : raw) : length (decodeFingerprintField r) = 32%nat.
Proof.
  unfold decodeFingerprintField, parseHexFingerprint.
  repeat case_match; simplify_eq; bool_hyps; try assumption; reflexivity.
Qed.

Lemma decodeCertArray_wf (r : raw) (l : list CertEntry) :
  decodeCertArray r = Ok l -> Forall cert_wf l /\ Z.of_nat (length l) <= MaxCertArrayLen.
Proof.
  unfold decodeCertArray. intros E. repeat case_match_in E. injection E as <-. bool_hyps. split.
  - apply Forall_forall. intros c Hc. apply list_elem_of_In, in_filter_map in Hc as (i & _ & Hi).
    unfold decode_cert in Hi. case_match_in Hi.
    destruct (list_byte_eqb _ zero_hash) eqn:Ez; [discriminate Hi|]. injection Hi as <-.
    split; cbn [ce_Fingerprint].
    + destruct (get_field _ 1 _); [apply decodeFingerprintField_length | reflexivity].
    + intros E. unfold list_byte_eqb in Ez. rewrite bool_decide_eq_false in Ez. exact (Ez E).
  - etransitivity; [|eassumption].
    match goal with |- context [filter_map _ ?a] => generalize a end. intros a.
    induction a as [|x a IH]; cbn [filter_map length]; [lia|]. destruct (decode_cert x); cbn [length]; lia.
Qed.

Lemma decodeStatusPayload_wf (data : list byte) (p : StatusTokenPayload) :
  decodeStatusPayload data = Ok p -> payload_wf p.
Proof.
  unfold decodeStatusPayload. intros E. repeat case_match_in E. rewrite rbind_Ok in E.
  destruct E as (q & Hq & E). repeat case_match_in E. injection E as ->. bool_hyps.
  assert (Hcert : forall m k n l, cert_field m k n = Ok l -> Forall cert_wf l).
  { intros m k n l. unfold cert_field. destruct (get_field m k n); [|intros [= <-]; constructor].
    intros Hl. eapply decodeCertArray_wf; eassumption. }
  unfold decodePayloadFields in Hq. rewrite rbind_Ok in Hq. destruct Hq as (ic & Hic & Hq).
  rewrite rbind_Ok in Hq. destruct Hq as (sc & Hsc & [= <-]). cbn in *.
  unfold payload_wf. cbn. repeat split; try assumption; eapply Hcert; eassumption.
Qed.

Lemma skew_seconds_range (d : Z) : 0 <= skew_seconds d <= 600.
Proof.
  unfold skew_seconds, clamp_skew, MaxClockSkew, second.
  destruct (d <? 0) eqn:E1.
  - vm_compute. split; discriminate.
  - destruct (_ <? d) eqn:E2; [vm_compute; split; discriminate|]. bool_hyps.
    split; [apply Z.quot_pos; lia|]. rewrite Z.quot_div_nonneg by lia.
    apply Z.div_le_upper_bound; lia.
Qed.

(** C9: (what an accepted status token guarantees) it parses as COSE_Sign1, is
    signed by a trusted key whose name is the issuer claim (if any), carries an
    agent ID, a name and a status that is not terminal, lists only non-zero
    32-byte fingerprints, and the clock is not past its expiry by more than the
    tolerance, which is never more than ten minutes whatever tolerance is
    configured. *)
Theorem VerifyStatusTokenAt_sound (b : list byte) (keys : KeyLookup) (clockSkew now : Z)
    (t : VerifiedStatusToken) :
  VerifyStatusTokenAt b keys clockSkew now = Ok t ->
  exists (c : ParsedCoseSign1) (k : TrustedKey),
    ParseCoseSign1 b = Ok c /\ keys (Kid (Protected c)) = Ok k /\ signed_by_key c k /\ issued_by c k /\
    decodeStatusPayload (Payload_ c) = Ok (vt_Payload t) /\ vt_KeyID t = Kid (Protected c) /\
    payload_wf (vt_Payload t) /\ Status_IsTerminal (st_Status (vt_Payload t)) = false /\
    (in_i64 (st_Exp (vt_Payload t) + 600) -> in_i64 (st_Exp (vt_Payload t)) ->
     now <= st_Exp (vt_Payload t) + 600).
Proof.
  unfold VerifyStatusTokenAt. rewrite rbind_Ok. intros (c & Hc & E).
  rewrite rbind_Ok in E. destruct E as (k & Hk & E). rewrite rbind_Ok in E.
  destruct E as (u & Hs & E). apply verifyECDSA_ok in Hs.
  destruct (match CwtIss (Protected c) with Some _ => _ | None => _ end) eqn:Ei; [|discriminate E].
  rewrite rbind_Ok in E. destruct E as (p & Hp & E). repeat case_match_in E. injection E as <-.
  exists c, k. cbn [vt_Payload vt_KeyID]. repeat split; try assumption; try reflexivity.
  - intros iss Hiss. rewrite Hiss in Ei. apply String.eqb_eq, Ei.
  - apply (decodeStatusPayload_wf _ _ Hp).
  - apply (decodeStatusPayload_wf _ _ Hp).
  - apply (decodeStatusPayload_wf _ _ Hp).
  - apply (decodeStatusPayload_wf _ _ Hp).
  - apply (decodeStatusPayload_wf _ _ Hp).
  - apply (decodeStatusPayload_wf _ _ Hp).
  - apply negb_true_iff. assumption.
  - intros H3 H4. bool_hyps. pose proof (skew_seconds_range clockSkew).
    unfold in_i64, min_i64, max_i64 in *.
    rewrite wrap_i64_small in * by (unfold in_i64, min_i64, max_i64; lia). lia.
Qed.

End StatusToken.

(** ** A symbolic codec

    Raw values are one-byte tags of the nodes of a fixed token and a fixed
    receipt: enough to evaluate the verifiers on accepted inputs. *)

Definition sample_root_key : string := "root-key".
Definition sample_key : TrustedKey (H := symbolic_crypto) :=
  MkTrustedKey (H := symbolic_crypto) "tl" (sample_kid sample_root_key) sample_root_key.

Definition sample_fp : list byte := repeat xab 32.

(** 32 big-endian bytes holding the key name, as the symbolic signature wants. *)
Definition key_half : list byte :=
  repeat x00 (32 - String.length sample_root_key) ++ bytes_of_string sample_root_key.

Definition symbolic_sign (protectedBytes payload : list byte) : list byte :=
  sha256 (protectedBytes ++ payload) ++ key_half.

Definition token_payload (k : anykey) : option raw :=
  match k with
  | KUint64 1 => Some [x20]
  | KText s => if String.eqb s "status" then Some [x21] else None
  | KUint64 4 => Some [x22]
  | KInt64 5 => Some [x23]
  | KUint64 7 => Some [x24]
  | _ => None
  end.

Definition symbolic_cbor : CborLib := {|
  un_raw b := Some b;
  un_tag r := match r with [x12] => Some (18, [x01]) | _ => None end;
  un_array r :=
    match r with
    | [x01] => Some [[x02]; [x03]; [x04]; [x05]]
    | [x09] => Some [[x02]; [x0a]; [x04]; [x05]]
    | [x24] => Some [[x25]; [x26]]
    | _ => None
    end;
  un_bytes r :=
    match r with
    | [x02] => Some [x10]
    | [x04] => Some [x11]
    | [x05] => Some (symbolic_sign [x10] [x11])
    | [x07] => Some (sample_kid sample_root_key)
    | [x27] => Some sample_fp
    | _ => None
    end;
  un_string r :=
    match r with
    | [x20] => Some "agent-1"
    | [x21] => Some "ACTIVE"
    | [x23] => Some "ati://v1.0.0.a.example"
    | [x28] => Some "x509-dv-server"
    | [x30] => Some "tl"
    | _ => None
    end;
  un_int64 r := match r with [x06] => Some (-7) | [x08] => Some 1 | [x22] => Some 5000 | _ => None end;
  un_uint64 r := match r with [x0b] => Some 1 | [x0c] => Some 0 | _ => None end;
  un_intmap r :=
    match r with
    | [x10] => Some (<[1 := [x06]]> (<[4 := [x07]]> (<[15 := [x2f]]> (<[395 := [x08]]> ∅))))
    | [x2f] => Some {[ 1 := [x30] ]}
    | [x0a] => Some {[ 396 := [x0d] ]}
    | [x0d] => Some (<[-1 := [x0b]]> {[ -2 := [x0c] ]})
    | _ => None
    end;
  un_anymap r :=
    match r with
    | [x11] => Some token_payload
    | [x25] => Some (fun k => match k with KUint64 1 => Some [x27] | KUint64 2 => Some [x28] | _ => None end)
    | _ => None
    end;
  un_strmap _ := None;
  marshal_sig_structure p q := p ++ q
|}.

#[local] Existing Instance plain_tables.
#[local] Existing Instance symbolic_crypto.
#[local] Existing Instance symbolic_cbor.

Definition sample_lookup : KeyLookup :=
  fun kid => if list_byte_eqb kid (sample_kid sample_root_key) then Ok sample_key
             else Err (ESignature SigErrUnknownKeyID kid).

Definition sample_token : VerifiedStatusToken :=
  MkVerifiedToken
    (MkTokenPayload "agent-1" "ati://v1.0.0.a.example" "ACTIVE" 0 5000 []
       [MkCertEntry sample_fp "x509-dv-server"] ∅)
    (sample_kid sample_root_key).

Example VerifyStatusTokenAt_ex :
  VerifyStatusTokenAt [x12] sample_lookup (30 * second) 5030 = Ok sample_token.
Proof. vm_compute. reflexivity. Qed.

Example VerifyStatusTokenAt_expired :
  VerifyStatusTokenAt [x12] sample_lookup (30 * second) 5031
  = Err (EToken TokenErrExpired "token expired at %d, now %d (skew %ds)").
Proof. vm_compute. reflexivity. Qed.

Example VerifyReceipt_ex :
  match VerifyReceipt [x09] sample_lookup with
  | Ok r => (vr_TreeSize r, vr_LeafIndex r, vr_EventBytes r)
  | Err _ => (0, 0, [])
  end = (1, 0, [x11]).
Proof. vm_compute. reflexivity. Qed.

Lemma VerifyStatusTokenAt_sound_witness :
  payload_wf (vt_Payload sample_token) /\ 5030 <= 5000 + 600.
Proof.
  destruct (VerifyStatusTokenAt_sound [x12] sample_lookup (30 * second) 5030 sample_token)
    as (c & k & _ & _ & _ & _ & _ & _ & Hw & _ & Hexp); [vm_compute; reflexivity|].
  split; [exact Hw|]. apply Hexp; vm_compute; split; discriminate.
Defined.
