(* ===== verification/Headers.v ===== *)
(** SCITT headers on the wire: [verify/scitt/headers.go],
    [verify/scitt/outgoing.go] and the outgoing headers of
    [verify/scitt/supplier.go]. An [http.Header] is a map from canonical keys. *)

From S2P Require Import Prelude GoStrings Encoding Errors Http Cose.

#[local] Open Scope string_scope.
#[local] Open Scope Z_scope.

(** ** [net/http.Header] *)

Fixpoint canonical_loop (upper : bool) (s : string) : string :=
  match s with
  | "" => ""
  | String c rest =>
      String (if upper then upper_char c else lower_char c) (canonical_loop (Ascii.eqb c "-") rest)
  end.

(** [textproto.CanonicalMIMEHeaderKey] *)
Definition CanonicalHeaderKey (s : string) : string :=
  if str_forallb is_token_char s then canonical_loop true s else s.

Definition Header : Type := gmap string (list string).

Definition Header_Get (h : Header) (key : string) : string :=
  match h !! CanonicalHeaderKey key with Some (v :: _) => v | _ => "" end.
Definition Header_Set (h : Header) (key value : string) : Header :=
  <[CanonicalHeaderKey key := [value]]> h.

(** ** [headers.go] *)

Definition HeaderReceipt : string := "X-SCITT-Receipt".
Definition HeaderStatusToken : string := "X-ANS-Status-Token".
Definition MaxBase64HeaderSize : Z := (MaxCoseInputSize + 2) / 3 * 4.

Record Headers := MkHeaders { h_Receipt : list byte; h_StatusToken : list byte }.

Definition nonempty {A : Type} (l : list A) : bool := negb (length l =? 0)%nat.

Definition Headers_IsEmpty (h : Headers) : bool :=
  negb (nonempty (h_Receipt h)) && negb (nonempty (h_StatusToken h)).
Definition HasBoth (h : Headers) : bool := nonempty (h_Receipt h) && nonempty (h_StatusToken h).

Definition decodeHeaderValue (encoded headerName : string) : result goerror (list byte) :=
  guard! (len encoded <=? MaxBase64HeaderSize) orelse ETransport TransportErrBase64Decode 0 None in
  match b64_DecodeString encoded with
  | None => Err (ETransport TransportErrBase64Decode 0 (Some (EPlain "base64")))
  | Some decoded => Ok decoded
  end.

(** An absent header decodes to a nil slice. *)
Definition decode_present (rawValue headerName : string) : result goerror (list byte) :=
  if String.eqb rawValue "" then Ok [] else decodeHeaderValue rawValue headerName.

Definition ExtractHeaders (h : Header) : result goerror Headers :=
  let rawReceipt := Header_Get h HeaderReceipt in
  let rawStatusToken := Header_Get h HeaderStatusToken in
  if String.eqb rawReceipt "" && String.eqb rawStatusToken "" then Ok (MkHeaders [] [])
  else
    let? receipt := decode_present rawReceipt HeaderReceipt in
    let? statusToken := decode_present rawStatusToken HeaderStatusToken in
    Ok (MkHeaders receipt statusToken).

(** ** [outgoing.go] *)

Definition GenerateHeaders (receipt statusToken : list byte) : Header :=
  let h := ∅ in
  let h := if nonempty receipt then Header_Set h HeaderReceipt (b64_EncodeToString receipt) else h in
  if nonempty statusToken then Header_Set h HeaderStatusToken (b64_EncodeToString statusToken) else h.

(** [encodeIfNonEmpty] and [OutgoingHeaders] of [supplier.go]. *)
Definition encodeIfNonEmpty (data : list byte) : string :=
  if nonempty data then b64_EncodeToString data else "".

Record OutgoingHeaders := MkOutgoing { ReceiptBase64 : string; StatusTokenBase64 : string }.

Definition Outgoing_IsEmpty (h : OutgoingHeaders) : bool :=
  String.eqb (ReceiptBase64 h) "" && String.eqb (StatusTokenBase64 h) "".

Definition Outgoing_String (h : OutgoingHeaders) : string :=
  if Outgoing_IsEmpty h then "OutgoingHeaders{empty}"
  else "OutgoingHeaders{receipt=" ++ fmt_d (len (ReceiptBase64 h)) ++ " chars, token=" ++
       fmt_d (len (StatusTokenBase64 h)) ++ " chars}".

Definition decode_field (s : string) : result goerror (list byte) :=
  if String.eqb s "" then Ok []
  else match b64_DecodeString s with
       | None => Err (EWrap "decode base64: %w" (EPlain "base64"))
       | Some b => Ok b
       end.

Definition ToHTTPHeaders (h : OutgoingHeaders) : result goerror Header :=
  let? receipt := decode_field (ReceiptBase64 h) in
  let? token := decode_field (StatusTokenBase64 h) in
  Ok (GenerateHeaders receipt token).

(** ** Lemmas *)

Lemma b64_length (b : list byte) :
  Z.of_nat (String.length (b64_EncodeToString b)) = (Z.of_nat (length b) + 2) / 3 * 4.
Proof.
  induction b as [|x|x y|x y z b IH] using list_ind3; try reflexivity.
  cbn [b64_EncodeToString length String.length].
  replace (Z.of_nat (S (S (S (length b)))) + 2) with ((Z.of_nat (length b) + 2) + 1 * 3) by lia.
  rewrite Z.div_add by lia. lia.
Qed.

Lemma encode_not_empty (b : list byte) :
  nonempty b = true -> String.eqb (b64_EncodeToString b) "" = false.
Proof. destruct b as [|x [|y [|z b]]]; [discriminate|..]; reflexivity. Qed.

Definition fits (b : list byte) : Prop := Z.of_nat (length b) <= MaxCoseInputSize.

Lemma decodeHeaderValue_encode (b : list byte) (name : string) :
  fits b -> decodeHeaderValue (b64_EncodeToString b) name = Ok b.
Proof.
  intros Hb. unfold decodeHeaderValue, len, MaxBase64HeaderSize. rewrite b64_length, b64_roundtrip.
  assert (Hle : (Z.of_nat (length b) + 2) / 3 <= (MaxCoseInputSize + 2) / 3).
  { apply Z.div_le_mono; unfold fits in Hb; lia. }
  destruct (_ <=? _) eqn:E; [reflexivity | bool_hyps; lia].
Qed.

Lemma decode_present_encode (b : list byte) (name : string) :
  fits b -> decode_present (encodeIfNonEmpty b) name = Ok b.
Proof.
  intros Hb. unfold decode_present, encodeIfNonEmpty. destruct (nonempty b) eqn:E.
  - rewrite encode_not_empty by exact E. apply decodeHeaderValue_encode, Hb.
  - destruct b; [reflexivity | discriminate E].
Qed.

Lemma Get_GenerateHeaders (r t : list byte) :
  Header_Get (GenerateHeaders r t) HeaderReceipt = encodeIfNonEmpty r /\
  Header_Get (GenerateHeaders r t) HeaderStatusToken = encodeIfNonEmpty t.
Proof.
  unfold GenerateHeaders, Header_Get, Header_Set, encodeIfNonEmpty, Header.
  set (k1 := CanonicalHeaderKey HeaderReceipt). set (k2 := CanonicalHeaderKey HeaderStatusToken).
  assert (Hne : k1 <> k2) by (vm_compute; discriminate). clearbody k1 k2.
  split; destruct (nonempty r), (nonempty t);
    repeat (rewrite lookup_insert_eq || rewrite lookup_insert_ne by congruence || rewrite lookup_empty);
    reflexivity.
Qed.

(** (round trip of the proofs on the wire) the headers an agent generates
    from a receipt and a status token are decoded by the peer to exactly that
    receipt and that token, absent ones included, for all artifacts within the
    COSE size limit; and the size limit of the encoded header is never the reason
    to refuse such an artifact. *)
Theorem ExtractHeaders_GenerateHeaders (receipt statusToken : list byte) :
  fits receipt -> fits statusToken ->
  ExtractHeaders (GenerateHeaders receipt statusToken) = Ok (MkHeaders receipt statusToken).
Proof.
  intros Hr Ht. unfold ExtractHeaders.
  destruct (Get_GenerateHeaders receipt statusToken) as [-> ->].
  rewrite !decode_present_encode by assumption. cbn [rbind].
  unfold encodeIfNonEmpty. destruct (nonempty receipt) eqn:E1; [rewrite encode_not_empty by exact E1; reflexivity|].
  destruct (nonempty statusToken) eqn:E2; [rewrite encode_not_empty by exact E2; reflexivity|].
  destruct receipt, statusToken; try discriminate. reflexivity.
Qed.

Lemma ExtractHeaders_GenerateHeaders_witness :
  ExtractHeaders (GenerateHeaders [x01; x02] []) = Ok (MkHeaders [x01; x02] []).
Proof. apply ExtractHeaders_GenerateHeaders; vm_compute; discriminate. Defined.

Lemma decode_field_encode (b : list byte) : decode_field (encodeIfNonEmpty b) = Ok b.
Proof.
  unfold decode_field, encodeIfNonEmpty. destruct (nonempty b) eqn:E.
  - rewrite encode_not_empty, b64_roundtrip by exact E. reflexivity.
  - destruct b; [reflexivity | discriminate E].
Qed.

Lemma ToHTTPHeaders_encode (r t : list byte) :
  ToHTTPHeaders (MkOutgoing (encodeIfNonEmpty r) (encodeIfNonEmpty t)) = Ok (GenerateHeaders r t).
Proof. unfold ToHTTPHeaders. cbn [ReceiptBase64 StatusTokenBase64]. rewrite !decode_field_encode. reflexivity. Qed.
