(* ===== verification/ScittCache.v ===== *)
(** The FIFO caches of [verify/scitt/cache.go]. The receipt cache and the token
    cache are the same structure over two kinds of values; [fifo] is that
    structure, [ReceiptCache_*] and [StatusTokenCache_*] its two uses. *)

From S2P Require Import Prelude GoStrings Errors Cose Receipt StatusToken.

#[local] Open Scope string_scope.
#[local] Open Scope list_scope.
#[local] Open Scope Z_scope.

Record fifo (E : Type) := MkFifo {
  entries : gmap string E;
  insertOrder : list string;
  maxEntries : Z
}.
Arguments MkFifo {E}.
Arguments entries {E}.
Arguments insertOrder {E}.
Arguments maxEntries {E}.

Section Fifo.
Context {E : Type}.

(** The loop of [evictLocked]: [n] rounds, or until the queue is empty. *)
Fixpoint evict_loop (n : nat) (m : gmap string E) (order : list string)
  : gmap string E * list string :=
  match n, order with
  | S n, oldest :: rest => evict_loop n (delete oldest m) rest
  | _, _ => (m, order)
  end.

Definition evictLocked (c : fifo E) : fifo E :=
  if Z.of_nat (size (entries c)) <=? maxEntries c then c
  else
    let toRemove := Z.of_nat (size (entries c)) - maxEntries c in
    let '(m, order) := evict_loop (Z.to_nat toRemove) (entries c) (insertOrder c) in
    MkFifo m order (maxEntries c).

Definition Insert (agentID : string) (e : E) (c : fifo E) : fifo E :=
  let order := match entries c !! agentID with
               | Some _ => insertOrder c
               | None => insertOrder c ++ [agentID]
               end in
  evictLocked (MkFifo (<[agentID := e]> (entries c)) order (maxEntries c)).

(** [removeFromOrderLocked]: the first occurrence. *)
Fixpoint removeFromOrder (agentID : string) (order : list string) : list string :=
  match order with
  | [] => []
  | id :: rest => if String.eqb id agentID then rest else id :: removeFromOrder agentID rest
  end.

Definition Invalidate (agentID : string) (c : fifo E) : fifo E :=
  match entries c !! agentID with
  | Some _ => MkFifo (delete agentID (entries c)) (removeFromOrder agentID (insertOrder c)) (maxEntries c)
  | None => c
  end.

Definition Len (c : fifo E) : Z := Z.of_nat (size (entries c)).

(** The queue lists the keys of the map, each once. *)
Definition fifo_ok (c : fifo E) : Prop :=
  NoDup (insertOrder c) /\ (forall k, In k (insertOrder c) <-> is_Some (entries c !! k)).

(** ** Invariant *)

Lemma fifo_ok_size (c : fifo E) : fifo_ok c -> size (entries c) = length (insertOrder c).
Proof.
  intros [H1 H2]. rewrite <- size_dom.
  rewrite <- (size_list_to_set (C := gset string) (insertOrder c)) by exact H1.
  f_equal. apply set_eq. intros k. rewrite elem_of_list_to_set, elem_of_dom, <- H2. symmetry. apply list_elem_of_In.
Qed.

Lemma evict_loop_spec (n : nat) (m : gmap string E) (order : list string) :
  NoDup order -> (forall k, In k order <-> is_Some (m !! k)) ->
  let '(m', order') := evict_loop n m order in
  order' = drop n order /\ m' ⊆ m /\ (forall k, In k order' <-> is_Some (m' !! k)).
Proof.
  intros Hnd. revert n m. induction Hnd as [|o order Ho Hnd IH]; intros n m Hm.
  - destruct n; simpl; auto.
  - destruct n as [|n]; simpl; [auto|].
    specialize (IH n (delete o m)). destruct (evict_loop n (delete o m) order) as [m' order'].
    destruct IH as (H1 & H2 & H3).
    + intros k. specialize (Hm k). simpl in Hm. destruct (decide (o = k)) as [<-|Hne].
      * rewrite lookup_delete_eq. split; [|intros [? [=]]].
        intros Hin. exfalso. apply Ho, list_elem_of_In, Hin.
      * rewrite lookup_delete_ne by exact Hne. rewrite <- Hm. split; [auto|].
        intros [E1|Hin]; [contradiction | exact Hin].
    + split; [exact H1|]. split; [|exact H3]. etransitivity; [exact H2 | apply delete_subseteq].
Qed.

Lemma evictLocked_spec (c : fifo E) :
  fifo_ok c ->
  fifo_ok (evictLocked c) /\ entries (evictLocked c) ⊆ entries c /\
  insertOrder (evictLocked c) =
    drop (Z.to_nat (Z.of_nat (length (insertOrder c)) - maxEntries c)) (insertOrder c) /\
  maxEntries (evictLocked c) = maxEntries c.
Proof.
  intros Hc. pose proof (fifo_ok_size c Hc) as Hs. unfold evictLocked. rewrite Hs.
  destruct (_ <=? _) eqn:El; bool_hyps.
  - split; [exact Hc|]. split; [reflexivity|]. split; [|reflexivity].
    replace (Z.to_nat _) with 0%nat by lia. reflexivity.
  - destruct Hc as [H1 H2].
    pose proof (evict_loop_spec (Z.to_nat (Z.of_nat (length (insertOrder c)) - maxEntries c))
                  (entries c) (insertOrder c) H1 H2) as Hl.
    destruct (evict_loop _ _ _) as [m' order']. destruct Hl as (-> & H3 & H4). cbn.
    split; [split; [apply (sublist_NoDup _ _ H1), sublist_drop | exact H4]|]. auto.
Qed.

Lemma Insert_pre_ok (agentID : string) (e : E) (c : fifo E) :
  fifo_ok c ->
  fifo_ok (MkFifo (<[agentID := e]> (entries c))
             (match entries c !! agentID with Some _ => insertOrder c | None => insertOrder c ++ [agentID] end)
             (maxEntries c)).
Proof.
  intros [H1 H2]. destruct (entries c !! agentID) as [e0|] eqn:E0; split; cbn.
  - exact H1.
  - intros k. rewrite H2. destruct (decide (agentID = k)) as [<-|Hne].
    + rewrite lookup_insert_eq, E0. split; eauto.
    + rewrite lookup_insert_ne by exact Hne. reflexivity.
  - apply NoDup_app. split; [exact H1|]. split; [|apply NoDup_singleton].
    intros k Hk Hk'. apply list_elem_of_singleton in Hk' as ->.
    apply list_elem_of_In, H2 in Hk. rewrite E0 in Hk. destruct Hk; discriminate.
  - intros k. rewrite in_app_iff, H2. destruct (decide (agentID = k)) as [<-|Hne].
    + rewrite lookup_insert_eq. simpl. split; eauto.
    + rewrite lookup_insert_ne by exact Hne. simpl. split; [|auto].
      intros [Hk|[Hk|[]]]; [exact Hk | contradiction].
Qed.

Lemma Insert_ok (agentID : string) (e : E) (c : fifo E) : fifo_ok c -> fifo_ok (Insert agentID e c).
Proof. intros Hc. apply evictLocked_spec, Insert_pre_ok, Hc. Qed.

Lemma removeFromOrder_spec (agentID : string) (order : list string) :
  NoDup order ->
  NoDup (removeFromOrder agentID order) /\
  forall k, In k (removeFromOrder agentID order) <-> In k order /\ k <> agentID.
Proof.
  induction 1 as [|o order Ho Hnd IH]; simpl; [split; [constructor | tauto]|].
  destruct IH as [IH1 IH2]. destruct (String.eqb o agentID) eqn:Eo; bool_hyps.
  - subst o. split; [exact Hnd|]. intros k. split.
    + intros Hk. split; [auto|]. intros ->. apply Ho, list_elem_of_In, Hk.
    + intros [[<-|Hk] Hne]; [contradiction | exact Hk].
  - split.
    + constructor; [|exact IH1]. intros Hk. apply list_elem_of_In, IH2 in Hk as [Hk _].
      apply Ho, list_elem_of_In, Hk.
    + intros k. simpl. rewrite IH2. split.
      * intros [<-|[Hk Hne]]; auto.
      * intros [[<-|Hk] Hne]; auto.
Qed.

Lemma Invalidate_ok (agentID : string) (c : fifo E) : fifo_ok c -> fifo_ok (Invalidate agentID c).
Proof.
  intros [H1 H2]. unfold Invalidate. destruct (entries c !! agentID) as [e0|] eqn:E0; [|split; assumption].
  destruct (removeFromOrder_spec agentID (insertOrder c) H1) as [H3 H4]. split; cbn; [exact H3|].
  intros k. rewrite H4, H2. destruct (decide (agentID = k)) as [<-|Hne].
  - rewrite lookup_delete_eq. split; [intros [_ []]; reflexivity | intros [? [=]]].
  - rewrite lookup_delete_ne by exact Hne. split; [tauto|]. auto.
Qed.

(** The states of a cache of a given capacity. *)
Inductive reachable (max : Z) : fifo E -> Prop :=
| reach_new : reachable max (MkFifo ∅ [] max)
| reach_insert k e c : reachable max c -> reachable max (Insert k e c)
| reach_invalidate k c : reachable max c -> reachable max (Invalidate k c).

Lemma reachable_ok (max : Z) (c : fifo E) : reachable max c -> fifo_ok c /\ maxEntries c = max.
Proof.
  induction 1 as [|k e c _ [IH1 IH2]|k c _ [IH1 IH2]].
  - split; [|reflexivity]. split; [constructor|]. intros k. cbn [entries insertOrder]. rewrite lookup_empty. simpl.
    split; [tauto | intros [? [=]]].
  - split; [apply Insert_ok, IH1|]. unfold Insert. cbv zeta.
    destruct (evictLocked_spec _ (Insert_pre_ok k e c IH1)) as (_ & _ & _ & ->). exact IH2.
  - split; [apply Invalidate_ok, IH1|]. unfold Invalidate. destruct (entries c !! k); exact IH2.
Qed.

(** (FIFO invariant) in every reachable state the queue lists exactly the
    cached agents, each once; an insertion keeps at most [maxEntries] of them and
    drops exactly the oldest of the queue, so with a positive capacity the
    inserted agent is always kept. *)
Theorem Insert_fifo (max : Z) (c : fifo E) (agentID : string) (e : E) :
  reachable max c -> 0 < max ->
  let order := match entries c !! agentID with
               | Some _ => insertOrder c
               | None => insertOrder c ++ [agentID]
               end in
  fifo_ok (Insert agentID e c) /\ Len (Insert agentID e c) <= max /\
  insertOrder (Insert agentID e c) = drop (Z.to_nat (Z.of_nat (length order) - max)) order /\
  (entries c !! agentID = None -> entries (Insert agentID e c) !! agentID = Some e).
Proof.
  intros Hr Hmax. apply reachable_ok in Hr as [Hc Hm]. cbv zeta.
  pose proof (Insert_pre_ok agentID e c Hc) as Hp. unfold Insert.
  destruct (evictLocked_spec _ Hp) as (H1 & H2 & H3 & H4). cbn [insertOrder maxEntries entries] in *.
  rewrite Hm in *. split; [exact H1|]. split; [|split; [exact H3|]].
  - unfold Len. rewrite (fifo_ok_size _ H1), H3, length_drop. lia.
  - intros E0. rewrite E0 in *.
    set (c' := evictLocked _) in *.
    assert (Hin : In agentID (insertOrder c')).
    { rewrite H3. rewrite drop_app_le by (rewrite length_app; simpl; lia).
      apply in_app_iff. right. left. reflexivity. }
    apply H1 in Hin as [e' He']. rewrite He'. pose proof (lookup_weaken _ _ _ _ He' H2) as Hw.
    rewrite lookup_insert_eq in Hw. congruence.
Qed.

End Fifo.

(** ** [ReceiptCache] *)

Record receiptEntry := MkReceiptEntry { re_receipt : VerifiedReceipt; re_expiresAt : Z }.

Record ReceiptCache := MkReceiptCache { rc_fifo : fifo receiptEntry; rc_ttl : Z }.

Definition NewReceiptCache (ttl maxEntries : Z) : ReceiptCache :=
  MkReceiptCache (MkFifo ∅ [] maxEntries) ttl.

Definition defaultReceiptTTL : Z := 24 * 3600 * 1000000000.
Definition defaultCacheMaxEntries : Z := 1000.
Definition NewReceiptCacheWithDefaults : ReceiptCache := NewReceiptCache defaultReceiptTTL defaultCacheMaxEntries.

Definition ReceiptCache_Get (c : ReceiptCache) (now : Z) (agentID : string) : option VerifiedReceipt :=
  match entries (rc_fifo c) !! agentID with
  | None => None
  | Some entry => if re_expiresAt entry <? now then None else Some (re_receipt entry)
  end.

Definition ReceiptCache_Insert (agentID : string) (receipt : VerifiedReceipt) (now : Z) (c : ReceiptCache)
  : ReceiptCache :=
  MkReceiptCache (Insert agentID (MkReceiptEntry receipt (now + rc_ttl c)) (rc_fifo c)) (rc_ttl c).

Definition ReceiptCache_Invalidate (agentID : string) (c : ReceiptCache) : ReceiptCache :=
  MkReceiptCache (Invalidate agentID (rc_fifo c)) (rc_ttl c).

(** ** [StatusTokenCache]: the expiry is that of the token, in seconds *)

Record tokenEntry := MkTokenEntry { te_token : VerifiedStatusToken; te_expiresAt : Z }.

Definition StatusTokenCache : Type := fifo tokenEntry.

Definition NewStatusTokenCache (maxEntries : Z) : StatusTokenCache := MkFifo ∅ [] maxEntries.
Definition NewStatusTokenCacheWithDefaults : StatusTokenCache := NewStatusTokenCache defaultCacheMaxEntries.

Definition StatusTokenCache_Get (c : StatusTokenCache) (nowUnix : Z) (agentID : string)
  : option VerifiedStatusToken :=
  match entries c !! agentID with
  | None => None
  | Some entry => if te_expiresAt entry <? nowUnix then None else Some (te_token entry)
  end.

Definition StatusTokenCache_Insert (agentID : string) (token : VerifiedStatusToken)
    (c : StatusTokenCache) : StatusTokenCache :=
  Insert agentID (MkTokenEntry token (st_Exp (vt_Payload token))) c.

Definition StatusTokenCache_Invalidate (agentID : string) (c : StatusTokenCache) : StatusTokenCache :=
  Invalidate agentID c.
Definition StatusTokenCache_Len (c : StatusTokenCache) : Z := Len c.

(** A token read from the cache has not passed its own expiry. *)
Definition token_entry_ok (e : tokenEntry) : Prop := te_expiresAt e = st_Exp (vt_Payload (te_token e)).

Lemma StatusTokenCache_Get_fresh (c : fifo tokenEntry) (now : Z) (agentID : string) (t : VerifiedStatusToken) :
  map_Forall (fun _ e => token_entry_ok e) (entries c) ->
  StatusTokenCache_Get c now agentID = Some t -> now <= st_Exp (vt_Payload t).
Proof.
  unfold StatusTokenCache_Get. intros Hc E. destruct (entries c !! agentID) as [e|] eqn:Ee; [|discriminate].
  case_match_in E. injection E as <-. bool_hyps. rewrite <- (Hc _ _ Ee). assumption.
Qed.

Lemma Insert_fifo_witness :
  insertOrder (Insert "c" 3 (Insert "b" 2 (Insert "a" 1 (MkFifo (∅ : gmap string Z) [] 2)))) = ["b"; "c"].
Proof.
  destruct (Insert_fifo 2 (Insert "b" 2 (Insert "a" 1 (MkFifo (∅ : gmap string Z) [] 2))) "c" 3)
    as (_ & _ & H & _).
  - apply reach_insert, reach_insert, reach_new.
  - lia.
  - exact H.
Defined.
