(* ===== verification/Supplier.v ===== *)
(** The header supplier of [verify/scitt/supplier.go]: fetch, verify, keep and
    serve an agent's own SCITT proofs. The lock makes each critical section one
    step; [supplier_step] are these steps, in whatever order goroutines take
    them. Times of the clock are seconds, of the scheduler nanoseconds. *)

From S2P Require Import Prelude GoStrings Encoding Float64 Errors Cose KeyStore Receipt StatusToken Headers.

#[local] Open Scope string_scope.
#[local] Open Scope list_scope.
#[local] Open Scope Z_scope.

Definition defaultSupplierClockSkew : Z := 30 * second.
Definition minAutoRefreshInterval : Z := 10 * second.

(** A nil byte slice is []: the code never distinguishes it from an empty one
    in what it serves. *)
Record HeaderSupplier := MkSupplier {
  hs_receipt : list byte;
  hs_statusToken : list byte;
  hs_tokenExp : option Z;
  hs_initialized : bool;
  hs_lastError : option goerror;
  hs_clockSkew : Z
}.

Definition NewHeaderSupplier : HeaderSupplier :=
  MkSupplier [] [] None false None defaultSupplierClockSkew.

Definition WithSupplierClockSkew (d : Z) (s : HeaderSupplier) : HeaderSupplier :=
  let d := if d <? 0 then 0 else d in
  let d := if MaxClockSkew <? d then MaxClockSkew else d in
  MkSupplier (hs_receipt s) (hs_statusToken s) (hs_tokenExp s) (hs_initialized s) (hs_lastError s) d.

Definition set_lastError (e : option goerror) (s : HeaderSupplier) : HeaderSupplier :=
  MkSupplier (hs_receipt s) (hs_statusToken s) (hs_tokenExp s) (hs_initialized s) e (hs_clockSkew s).

Definition set_initialized (s : HeaderSupplier) : HeaderSupplier :=
  MkSupplier (hs_receipt s) (hs_statusToken s) (hs_tokenExp s) true (hs_lastError s) (hs_clockSkew s).

Definition recordError (err : goerror) (s : HeaderSupplier) : HeaderSupplier := set_lastError (Some err) s.

Section Supplier.
Context `{UnicodeTables} `{CborLib} `{CryptoLib}.

(** What one fetch meets: the answers of the client, the key store at the two
    verifications (a refresh may come between them) and the clock. *)
Record attempt := MkAttempt {
  at_receipt : result goerror (list byte);
  at_token : result goerror (list byte);
  at_keys_receipt : KeyLookup;
  at_keys_token : KeyLookup;
  at_now : Z
}.

Definition fetchAndVerify (a : attempt) (s : HeaderSupplier) : result goerror unit * HeaderSupplier :=
  match at_receipt a with
  | Err err => (Err err, recordError err s)
  | Ok receiptBytes =>
      match at_token a with
      | Err err => (Err err, recordError err s)
      | Ok tokenBytes =>
          match VerifyReceipt receiptBytes (at_keys_receipt a) with
          | Err err => (Err err, recordError err s)
          | Ok _ =>
              match VerifyStatusTokenAt tokenBytes (at_keys_token a) (hs_clockSkew s) (at_now a) with
              | Err err => (Err err, recordError err s)
              | Ok verified =>
                  (Ok tt, MkSupplier receiptBytes tokenBytes (Some (st_Exp (vt_Payload verified)))
                            (hs_initialized s) None (hs_clockSkew s))
              end
          end
      end
  end.

Definition RefreshNow (a : attempt) (s : HeaderSupplier) : result goerror unit * HeaderSupplier :=
  fetchAndVerify a s.

Definition initOnce (a : attempt) (s : HeaderSupplier) : HeaderSupplier :=
  if hs_initialized s then s
  else
    match fetchAndVerify a s with
    | (Err err, s) => set_lastError (Some err) s
    | (Ok _, s) => set_lastError None (set_initialized s)
    end.

(** One round of [autoRefreshLoop] whose timer fires. *)
Definition autoRefreshRound (a : attempt) (s : HeaderSupplier) : HeaderSupplier :=
  match fetchAndVerify a s with
  | (Err _, s) => s
  | (Ok _, s) => set_initialized s
  end.

(** The headers served from a state at a time. *)
Definition serve (s : HeaderSupplier) (nowUnix : Z) : OutgoingHeaders :=
  let token := match hs_tokenExp s with
               | Some exp => if exp <=? nowUnix then [] else hs_statusToken s
               | None => hs_statusToken s
               end in
  MkOutgoing (encodeIfNonEmpty (hs_receipt s)) (encodeIfNonEmpty token).

Definition CurrentHeaders (a : attempt) (nowUnix : Z) (s : HeaderSupplier)
  : OutgoingHeaders * HeaderSupplier :=
  let s' := if negb (hs_initialized s) then initOnce a s else s in
  (serve s' nowUnix, s').

Definition LastError (s : HeaderSupplier) : option goerror := hs_lastError s.
Definition Healthy (s : HeaderSupplier) : bool :=
  hs_initialized s && match hs_lastError s with None => true | Some _ => false end.

(** [computeRefreshInterval]: [now] is the wall clock, [r] the value of
    [rand.Float64()]. *)
Definition f64_const_0_1 : float64 := SpecFloat.S754_finite false 7205759403792794 (-56).
Definition f64_sub (a b : float64) : float64 := SpecFloat.SFsub 53 1024 a b.

Definition computeRefreshInterval (s : HeaderSupplier) (now : Z) (r : float64) : Z :=
  match hs_tokenExp s with
  | None => minAutoRefreshInterval
  | Some exp =>
      let remaining := clamp_i64 (exp * second - now) in
      let half := Z.quot remaining 2 in
      let jitter := f64_mul (f64_mul (f64_of_Z half) f64_const_0_1)
                      (f64_sub (f64_mul (f64_of_Z 2) r) (f64_of_Z 1)) in
      let interval := f64_to_int (f64_add (f64_of_Z half) jitter) in
      if interval <? minAutoRefreshInterval then minAutoRefreshInterval else interval
  end.

(** ** The states of a supplier *)

(** The atomic steps. The step that marks the supplier initialized is taken
    after a successful [fetchAndVerify] of the same goroutine, which has set the
    expiry. *)
Inductive supplier_step : HeaderSupplier -> HeaderSupplier -> Prop :=
| sstep_fetch a s : supplier_step s (snd (fetchAndVerify a s))
| sstep_error e s : supplier_step s (set_lastError e s)
| sstep_initialized s : hs_tokenExp s <> None -> supplier_step s (set_initialized s).

Inductive supplier_reachable (skew : Z) : HeaderSupplier -> Prop :=
| sreach_new : supplier_reachable skew (WithSupplierClockSkew skew NewHeaderSupplier)
| sreach_step s s' : supplier_reachable skew s -> supplier_step s s' -> supplier_reachable skew s'.

(** Both artifacts were accepted, in one fetch, with the clock at [t]. *)
Definition accepted_pair (skew : Z) (receipt token : list byte) (exp : Z) : Prop :=
  exists keys1 keys2 t vr vt,
    VerifyReceipt receipt keys1 = Ok vr /\
    VerifyStatusTokenAt token keys2 (clamp_skew skew) t = Ok vt /\ st_Exp (vt_Payload vt) = exp.

Definition supplier_ok (skew : Z) (s : HeaderSupplier) : Prop :=
  hs_clockSkew s = clamp_skew skew /\
  match hs_tokenExp s with
  | None => hs_receipt s = [] /\ hs_statusToken s = [] /\ hs_initialized s = false
  | Some exp => accepted_pair skew (hs_receipt s) (hs_statusToken s) exp
  end.

(** The outcome of a fetch: all or nothing. *)
Lemma fetchAndVerify_cases (a : attempt) (s : HeaderSupplier) :
  (exists e, fetchAndVerify a s = (Err e, set_lastError (Some e) s)) \/
  (exists rb tb vr vt,
     at_receipt a = Ok rb /\ at_token a = Ok tb /\ VerifyReceipt rb (at_keys_receipt a) = Ok vr /\
     VerifyStatusTokenAt tb (at_keys_token a) (hs_clockSkew s) (at_now a) = Ok vt /\
     fetchAndVerify a s =
       (Ok tt, MkSupplier rb tb (Some (st_Exp (vt_Payload vt))) (hs_initialized s) None (hs_clockSkew s))).
Proof.
  unfold fetchAndVerify, recordError. destruct (at_receipt a) as [rb|e]; [|eauto].
  destruct (at_token a) as [tb|e]; [|eauto].
  destruct (VerifyReceipt rb _) as [vr|e] eqn:Er; [|eauto].
  destruct (VerifyStatusTokenAt tb _ _ _) as [vt|e] eqn:Et; [|eauto].
  right. exists rb, tb, vr, vt. auto.
Qed.

Lemma step_supplier_ok (skew : Z) (s s' : HeaderSupplier) :
  supplier_step s s' -> supplier_ok skew s -> supplier_ok skew s'.
Proof.
  intros [a s0|e s0|s0 He] [Hk Hp].
  - destruct (fetchAndVerify_cases a s0) as [[e ->]|(rb & tb & vr & vt & _ & _ & Er & Et & ->)].
    + split; [exact Hk | exact Hp].
    + split; [exact Hk|]. cbn. exists (at_keys_receipt a), (at_keys_token a), (at_now a), vr, vt.
      rewrite <- Hk. auto.
  - split; [exact Hk | exact Hp].
  - split; [exact Hk|]. cbn. destruct (hs_tokenExp s0); [exact Hp | congruence].
Qed.

Lemma reachable_supplier_ok (skew : Z) (s : HeaderSupplier) :
  supplier_reachable skew s -> supplier_ok skew s.
Proof.
  induction 1 as [|s s' _ IH Hs]; [|eapply step_supplier_ok; eassumption].
  split; [reflexivity|]. cbn. auto.
Qed.

(** The operations are sequences of atomic steps. *)
Lemma initOnce_reachable (skew : Z) (a : attempt) (s : HeaderSupplier) :
  supplier_reachable skew s -> supplier_reachable skew (initOnce a s).
Proof.
  intros Hs. unfold initOnce. destruct (hs_initialized s); [exact Hs|].
  pose proof (sreach_step _ _ _ Hs (sstep_fetch a s)) as Hf.
  destruct (fetchAndVerify_cases a s) as [[e E]|(rb & tb & vr & vt & _ & _ & _ & _ & E)]; rewrite E in Hf |- *.
  - eapply sreach_step; [exact Hf | apply sstep_error].
  - eapply sreach_step; [|apply sstep_error]. eapply sreach_step; [exact Hf | apply sstep_initialized].
    discriminate.
Qed.

Lemma autoRefreshRound_reachable (skew : Z) (a : attempt) (s : HeaderSupplier) :
  supplier_reachable skew s -> supplier_reachable skew (autoRefreshRound a s).
Proof.
  intros Hs. unfold autoRefreshRound. pose proof (sreach_step _ _ _ Hs (sstep_fetch a s)) as Hf.
  destruct (fetchAndVerify_cases a s) as [[e E]|(rb & tb & vr & vt & _ & _ & _ & _ & E)]; rewrite E in Hf |- *.
  - exact Hf.
  - eapply sreach_step; [exact Hf | apply sstep_initialized]. discriminate.
Qed.

Lemma CurrentHeaders_reachable (skew : Z) (a : attempt) (now : Z) (s : HeaderSupplier) :
  supplier_reachable skew s -> supplier_reachable skew (snd (CurrentHeaders a now s)).
Proof. intros Hs. unfold CurrentHeaders. destruct (hs_initialized s); [exact Hs | apply initOnce_reachable, Hs]. Qed.

(** ** Properties *)

(** C33: (what is served) in every state the supplier can reach by any
    interleaving of fetches, refreshes and initialisations, with any answers of
    the client, the headers it serves are empty or encode a receipt and a token
    that were both verified in one fetch; the token is left out from its expiry
    on, even when the receipt is still served. *)
Theorem CurrentHeaders_verified (skew : Z) (a : attempt) (now : Z) (s : HeaderSupplier) :
  supplier_reachable skew s ->
  let out := fst (CurrentHeaders a now s) in
  out = MkOutgoing "" "" \/
  exists receipt token exp,
    accepted_pair skew receipt token exp /\
    ReceiptBase64 out = encodeIfNonEmpty receipt /\
    StatusTokenBase64 out = (if now <? exp then encodeIfNonEmpty token else "").
Proof.
  intros Hs out. pose proof (reachable_supplier_ok _ _ (CurrentHeaders_reachable skew a now s Hs)) as [_ Hok].
  assert (Hout : out = serve (snd (CurrentHeaders a now s)) now) by reflexivity.
  rewrite Hout. clearbody out. clear Hout. set (s' := snd _) in *. clearbody s'. unfold serve.
  destruct (hs_tokenExp s') as [exp|].
  - right. exists (hs_receipt s'), (hs_statusToken s'), exp. split; [exact Hok|]. split; [reflexivity|].
    cbn [StatusTokenBase64]. rewrite Z.ltb_antisym. destruct (exp <=? now); reflexivity.
  - left. destruct Hok as (-> & -> & _). reflexivity.
Qed.

(** (a failed refresh keeps the last good artifacts) a fetch either records
    its error and changes nothing that is served, or replaces receipt, token and
    expiry together and clears the error. *)
Theorem fetchAndVerify_atomic (a : attempt) (s : HeaderSupplier) (now : Z) :
  let '(res, s') := fetchAndVerify a s in
  match res with
  | Err e => LastError s' = Some e /\ serve s' now = serve s now /\ hs_initialized s' = hs_initialized s
  | Ok _ => LastError s' = None /\ at_receipt a = Ok (hs_receipt s') /\ at_token a = Ok (hs_statusToken s') /\
      exists vt, VerifyStatusTokenAt (hs_statusToken s') (at_keys_token a) (hs_clockSkew s) (at_now a) = Ok vt /\
        hs_tokenExp s' = Some (st_Exp (vt_Payload vt))
  end.
Proof.
  destruct (fetchAndVerify_cases a s) as [[e ->]|(rb & tb & vr & vt & Hr & Ht & _ & Et & ->)].
  - auto.
  - cbn. eauto 6.
Qed.

(** (scheduling) whatever the token's expiry, the clock and the random
    jitter, the background refresh never waits less than ten seconds: a long
    expired token does not make it spin. *)
Theorem computeRefreshInterval_min (s : HeaderSupplier) (now : Z) (r : float64) :
  minAutoRefreshInterval <= computeRefreshInterval s now r.
Proof.
  unfold computeRefreshInterval. destruct (hs_tokenExp s) as [exp|]; [|lia]. cbv zeta.
  destruct (_ <? minAutoRefreshInterval) eqn:E; bool_hyps; lia.
Qed.

(** A successful forced refresh does not mark the supplier initialized: it is
    reported unhealthy, and the next call fetches again. *)
Lemma RefreshNow_not_healthy (a : attempt) (s : HeaderSupplier) :
  hs_initialized s = false -> Healthy (snd (RefreshNow a s)) = false.
Proof.
  intros Hi. unfold RefreshNow, Healthy.
  destruct (fetchAndVerify_cases a s) as [[e ->]|(rb & tb & vr & vt & _ & _ & _ & _ & ->)];
    cbn; rewrite Hi; reflexivity.
Qed.

End Supplier.

#[local] Existing Instance plain_tables.
#[local] Existing Instance symbolic_crypto.
#[local] Existing Instance symbolic_cbor.

Definition sample_attempt (now : Z) : attempt :=
  MkAttempt (Ok [x09]) (Ok [x12]) sample_lookup sample_lookup now.

Example CurrentHeaders_ex :
  fst (CurrentHeaders (sample_attempt 4000) 4001 NewHeaderSupplier) = MkOutgoing "CQ==" "Eg==".
Proof. vm_compute. reflexivity. Qed.

Lemma CurrentHeaders_verified_witness :
  MkOutgoing "CQ==" "Eg==" = MkOutgoing "" "" \/
  exists receipt token exp,
    accepted_pair (30 * second) receipt token exp /\
    "CQ==" = encodeIfNonEmpty receipt /\
    "Eg==" = (if 4001 <? exp then encodeIfNonEmpty token else "").
Proof.
  exact (CurrentHeaders_verified (30 * second) (sample_attempt 4000) 4001
    (WithSupplierClockSkew (30 * second) NewHeaderSupplier) (sreach_new (30 * second))).
Defined.
