(* ===== verification/Outcome.v ===== *)
(** Verification outcomes and the failure policy: [verify/outcome.go] and
    [verify/policy.go]. An outcome is a record; [None] is a nil pointer. *)

From S2P Require Import Prelude GoStrings Errors Models Cert Dnssec Dane BadgeCache.

#[local] Open Scope string_scope.
#[local] Open Scope list_scope.
#[local] Open Scope Z_scope.

(** ** [policy.go] *)

Inductive FailurePolicy := FailClosed | FailOpenWithCache | FailOpen.

Record FailurePolicyConfig := MkFailurePolicyConfig { MaxStaleness : Z }.
Definition DefaultFailurePolicyConfig : FailurePolicyConfig :=
  MkFailurePolicyConfig (defaultMaxStalenessMinutes * minute).

(** ** [outcome.go] *)

Inductive OutcomeType :=
| OutcomeVerified | OutcomeNotATIAgent | OutcomeInvalidStatus | OutcomeFingerprintMismatch
| OutcomeHostnameMismatch | OutcomeATINameMismatch | OutcomeDNSError | OutcomeTlogError
| OutcomeCertError | OutcomeFailOpen | OutcomeURLValidationError | OutcomeDANERejection
| OutcomeScittError | OutcomeGoldError.

#[export] Instance OutcomeType_eq_dec : EqDecision OutcomeType.
Proof. solve_decision. Defined.

Inductive VerificationTier := TierBadgeOnly | TierFullScitt | TierGold.

Definition Tier_String (t : VerificationTier) : string :=
  match t with TierBadgeOnly => "BadgeOnly" | TierFullScitt => "FullScitt" | TierGold => "Gold" end.

Record VerificationOutcome := MkOutcome {
  oc_Type : OutcomeType;
  oc_Tier : VerificationTier;
  oc_TLResponse : option TLResponse;
  MatchedFingerprint : option CertFingerprint;
  oc_Expected : string;
  oc_Actual : string;
  oc_Status : string;
  oc_Host : string;
  oc_Error : option goerror;
  Warnings : list string;
  oc_DANEOutcome : option DANEOutcome
}.

Definition NewVerifiedOutcome (r : TLResponse) (fp : CertFingerprint) : VerificationOutcome :=
  MkOutcome OutcomeVerified TierBadgeOnly (Some r) (Some fp) "" "" "" "" None [] None.
Definition NewNotATIAgentOutcome (host : string) : VerificationOutcome :=
  MkOutcome OutcomeNotATIAgent TierBadgeOnly None None "" "" "" host None [] None.
Definition NewInvalidStatusOutcome (r : TLResponse) (status : string) : VerificationOutcome :=
  MkOutcome OutcomeInvalidStatus TierBadgeOnly (Some r) None "" "" status "" None [] None.

(** The three mismatch constructors. *)
Definition mismatch (t : OutcomeType) (r : TLResponse) (expected actual : string) : VerificationOutcome :=
  MkOutcome t TierBadgeOnly (Some r) None expected actual "" "" None [] None.
Definition NewFingerprintMismatchOutcome := mismatch OutcomeFingerprintMismatch.
Definition NewHostnameMismatchOutcome := mismatch OutcomeHostnameMismatch.
Definition NewATINameMismatchOutcome := mismatch OutcomeATINameMismatch.

(** The constructors that only carry an error. *)
Definition error_outcome (t : OutcomeType) (err : option goerror) : VerificationOutcome :=
  MkOutcome t TierBadgeOnly None None "" "" "" "" err [] None.
Definition NewDNSErrorOutcome (err : goerror) := error_outcome OutcomeDNSError (Some err).
Definition NewTlogErrorOutcome (err : goerror) := error_outcome OutcomeTlogError (Some err).
Definition NewURLValidationErrorOutcome (err : goerror) := error_outcome OutcomeURLValidationError (Some err).
Definition NewFailOpenOutcome (err : option goerror) := error_outcome OutcomeFailOpen err.
Definition NewCertErrorOutcome (err : goerror) := error_outcome OutcomeCertError (Some err).
Definition NewScittErrorOutcome (err : goerror) := error_outcome OutcomeScittError (Some err).
Definition NewGoldErrorOutcome (err : goerror) := error_outcome OutcomeGoldError (Some err).

Definition NewDANERejectionOutcome (r : option TLResponse) (d : DANEOutcome) : VerificationOutcome :=
  MkOutcome OutcomeDANERejection TierBadgeOnly r None "" "" "" "" (do_Error d) [] (Some d).
Definition NewGoldVerifiedOutcome (fp : CertFingerprint) : VerificationOutcome :=
  MkOutcome OutcomeVerified TierGold None (Some fp) "" "" "" "" None [] None.

(** [&VerificationOutcome{Type: OutcomeFailOpen, TLResponse: cached.TLResponse}]. *)
Definition stale_outcome (r : TLResponse) : VerificationOutcome :=
  MkOutcome OutcomeFailOpen TierBadgeOnly (Some r) None "" "" "" "" None [] None.

Definition add_warning (w : string) (o : VerificationOutcome) : VerificationOutcome :=
  MkOutcome (oc_Type o) (oc_Tier o) (oc_TLResponse o) (MatchedFingerprint o) (oc_Expected o) (oc_Actual o)
    (oc_Status o) (oc_Host o) (oc_Error o) (Warnings o ++ [w]) (oc_DANEOutcome o).
Definition set_dane (d : DANEOutcome) (o : VerificationOutcome) : VerificationOutcome :=
  MkOutcome (oc_Type o) (oc_Tier o) (oc_TLResponse o) (MatchedFingerprint o) (oc_Expected o) (oc_Actual o)
    (oc_Status o) (oc_Host o) (oc_Error o) (Warnings o) (Some d).

Definition IsSuccess (o : VerificationOutcome) : bool :=
  match oc_Type o with OutcomeVerified | OutcomeFailOpen => true | _ => false end.
Definition IsFailOpen (o : VerificationOutcome) : bool :=
  match oc_Type o with OutcomeFailOpen => true | _ => false end.
Definition IsNotATIAgent (o : VerificationOutcome) : bool :=
  match oc_Type o with OutcomeNotATIAgent => true | _ => false end.

Definition ToError (o : VerificationOutcome) : option goerror :=
  match oc_Type o with
  | OutcomeVerified | OutcomeFailOpen => None
  | OutcomeNotATIAgent =>
      match oc_Error o with
      | Some e => Some e
      | None => Some (EDNS DNSErrorNotFound (if String.eqb (oc_Host o) "" then "unknown" else oc_Host o) "")
      end
  | OutcomeInvalidStatus => Some (EVerification VerificationErrorInvalidStatus "" (oc_Status o))
  | OutcomeFingerprintMismatch =>
      Some (EVerification VerificationErrorFingerprintMismatch (oc_Expected o) (oc_Actual o))
  | OutcomeHostnameMismatch =>
      Some (EVerification VerificationErrorHostnameMismatch (oc_Expected o) (oc_Actual o))
  | OutcomeATINameMismatch =>
      Some (EVerification VerificationErrorATINameMismatch (oc_Expected o) (oc_Actual o))
  | _ => oc_Error o
  end.

(** ** Well-formed outcomes: the error types carry their error *)

Definition carries_error (t : OutcomeType) : bool :=
  match t with
  | OutcomeDNSError | OutcomeTlogError | OutcomeCertError | OutcomeURLValidationError
  | OutcomeDANERejection | OutcomeScittError | OutcomeGoldError => true
  | _ => false
  end.

Definition outcome_wf (o : VerificationOutcome) : Prop :=
  carries_error (oc_Type o) = true -> oc_Error o <> None.

Lemma ToError_wf (o : VerificationOutcome) :
  outcome_wf o -> (ToError o = None <-> IsSuccess o = true).
Proof.
  unfold outcome_wf, ToError, IsSuccess. intros Hw.
  destruct (oc_Type o); cbn [carries_error] in Hw;
    try (split; (reflexivity || discriminate));
    try (split; [intros E; destruct (Hw eq_refl E) | discriminate]).
  split; [destruct (oc_Error o); discriminate | discriminate].
Qed.

(** The reject outcomes of the DANE verifier carry an error. *)
Lemma verifyWithLookup_reject_error `{UnicodeTables} (cert : option CertIdentity) lookup :
  IsReject (verifyWithLookup cert lookup) = true -> do_Error (verifyWithLookup cert lookup) <> None.
Proof.
  unfold verifyWithLookup, IsReject. destruct cert as [c|]; [|discriminate].
  destruct (lookup tt) as [res|e].
  - destruct (negb (tl_Found res)); [discriminate|]. destruct (negb (DNSSECValid res)); [discriminate|].
    destruct (tlsa_loop _ _ _ _) as [[|] l]; cbn; discriminate.
  - destruct (errors_As as_DANEError e) as [[]|]; cbn; discriminate.
Qed.

#[export] Hint Unfold outcome_wf : ati.
