(* ===== verification/Verifier.v ===== *)
(** The server and client verifiers: [verify/verify.go] and the options of
    [verify/options.go] it reads. The resolver, the transparency-log client and
    the DANE resolver are Go interfaces: type classes over a state of their own.
    The state of a verifier is the record [env] of these three states and the
    badge cache; the times and iteration orders a call meets are a [clock]. *)

From S2P Require Import Prelude GoStrings Errors Models Cert Url Records Resolver Dnssec Dane.
From S2P Require Import BadgeCache Cose KeyStore Receipt StatusToken Headers Outcome.

#[local] Open Scope string_scope.
#[local] Open Scope list_scope.
#[local] Open Scope Z_scope.

(** ** The interfaces *)

(** [DNSResolver]: the two methods the verifiers call, a nil record being
    [None], and the discovery of the clients. *)
Class DNSResolver (R : Type) := {
  dns_FindBadgeForVersion : R -> Fqdn -> Version -> result goerror (option ATIBadgeRecord) * R;
  dns_FindPreferredBadge : R -> Fqdn -> result goerror (option ATIBadgeRecord) * R;
  dns_LookupATIDiscovery : R -> Fqdn -> result goerror ATIDiscoveryResult * R
}.

(** [TransparencyLogClient]; a nil response comes with an error. *)
Class TransparencyLogClient (T : Type) := {
  FetchTLResponse : T -> string -> result goerror TLResponse * T
}.

(** [DANEResolver]. *)
Class DANEResolver (D : Type) := {
  dane_LookupTLSA : D -> Fqdn -> Z -> result goerror TLSALookupResult * D;
  dane_LookupIdentityTLSA : D -> Fqdn -> result goerror TLSALookupResult * D
}.

(** ** Configuration *)

Record verifierConfig := MkConfig {
  cf_failurePolicy : FailurePolicy;
  cf_failurePolicyConfig : FailurePolicyConfig;
  cf_trustedTLHost : string;
  cf_clockSkewTolerance : Z
}.

Definition defaultClockSkewTolerance : Z := 120 * second.
Definition DefaultTrustedTLHost : string := "ati-tl.cnnic.cn".
Definition defaultConfig : verifierConfig :=
  MkConfig FailClosed DefaultFailurePolicyConfig "" defaultClockSkewTolerance.

Definition WithClockSkewTolerance (d : Z) (c : verifierConfig) : verifierConfig :=
  let d := if d <? 0 then 0 else d in
  let maxSkew := 10 * minute in
  let d := if maxSkew <? d then maxSkew else d in
  MkConfig (cf_failurePolicy c) (cf_failurePolicyConfig c) (cf_trustedTLHost c) d.

Definition WithFailurePolicy (p : FailurePolicy) (c : verifierConfig) : verifierConfig :=
  MkConfig p (cf_failurePolicyConfig c) (cf_trustedTLHost c) (cf_clockSkewTolerance c).
Definition WithTrustedTLHost (host : string) (c : verifierConfig) : verifierConfig :=
  MkConfig (cf_failurePolicy c) (cf_failurePolicyConfig c) host (cf_clockSkewTolerance c).

Definition defaultDANEPort : Z := 443.

Inductive certRole := roleServer | roleIdentity.

(** The readings of the clock and the map orders of one call. *)
Record clock := MkClock {
  ck_get : Z; ck_stale : Z; ck_insert : Z; ck_cleanup : Z; ck_unix : Z; ck_order : map_order
}.

Section Verifier.
Context `{UnicodeTables} {R T D : Type} `{DNSResolver R} `{TransparencyLogClient T} `{DANEResolver D}.

(** [daneResolver] and [cache] may be nil. *)
Record env := MkEnv { e_dns : R; e_tlog : T; e_dane : option D; e_cache : option BadgeCache }.

Definition with_cache (e : env) (c : option BadgeCache) : env := MkEnv (e_dns e) (e_tlog e) (e_dane e) c.

Variable config : verifierConfig.

(** ** Failure policy *)

Definition get_stale_response (ck : clock) (c : BadgeCache) (fqdn : Fqdn) (version : option Version)
  : option CachedBadge :=
  let maxStale := MaxStaleness (cf_failurePolicyConfig config) in
  match version with
  | Some v => GetStaleByFqdnVersion c (ck_stale ck) fqdn v maxStale
  | None => GetStaleByFqdn c (ck_stale ck) fqdn maxStale
  end.

Definition applyFailOpenWithCache (ck : clock) (e : env) (fqdn : Fqdn) (version : option Version)
    (errorOutcome : VerificationOutcome) : VerificationOutcome :=
  match e_cache e with
  | None => errorOutcome
  | Some c =>
      match get_stale_response ck c fqdn version with
      | Some cached => stale_outcome (cb_TLResponse cached)
      | None => errorOutcome
      end
  end.

Definition applyFailurePolicy (ck : clock) (e : env) (fqdn : Fqdn) (version : option Version)
    (errorOutcome : VerificationOutcome) : VerificationOutcome :=
  match cf_failurePolicy config with
  | FailClosed => errorOutcome
  | FailOpenWithCache => applyFailOpenWithCache ck e fqdn version errorOutcome
  | FailOpen => NewFailOpenOutcome (oc_Error errorOutcome)
  end.

(** ** DANE *)

(** [verifyDANE] and [applyDANE], which return the rejection or nil and enrich
    the outcome in place; the callers return the rejection if there is one. *)
Definition verifyDANE (fqdn : Fqdn) (cert : CertIdentity) (outcome : VerificationOutcome) (e : env)
  : VerificationOutcome * env :=
  match e_dane e with
  | None => (outcome, e)
  | Some d =>
      let '(res, d') := dane_LookupTLSA d fqdn defaultDANEPort in
      let e := MkEnv (e_dns e) (e_tlog e) (Some d') (e_cache e) in
      let daneOutcome := verifyWithLookup (Some cert) (fun _ => res) in
      if IsReject daneOutcome then (NewDANERejectionOutcome (oc_TLResponse outcome) daneOutcome, e)
      else if IsPass daneOutcome && IsVerified daneOutcome then (set_dane daneOutcome outcome, e)
      else (outcome, e)
  end.

Definition applyDANE (fqdn : Fqdn) (cert : CertIdentity) (outcome : VerificationOutcome) (e : env)
  : VerificationOutcome * env :=
  match oc_Type outcome with
  | OutcomeVerified => verifyDANE fqdn cert outcome e
  | _ => (outcome, e)
  end.

Definition rewriteTLHost (rawURL : string) : string :=
  if String.eqb (cf_trustedTLHost config) "" then rawURL
  else
    match RewriteBadgeURLHost rawURL (cf_trustedTLHost config) with
    | Ok rewritten => rewritten
    | Err _ => rawURL
    end.

(** ** Fetching: a DNS lookup, then the transparency log

    The two [fetchTLResponse] methods differ in the lookup and in the version
    they give to the failure policy. [Err] is the returned outcome. *)
Definition fetch_with (lookup : R -> result goerror (option ATIBadgeRecord) * R)
    (ck : clock) (fqdn : Fqdn) (version : option Version) (e : env)
  : result VerificationOutcome TLResponse * env :=
  let '(found, r) := lookup (e_dns e) in
  let e := MkEnv r (e_tlog e) (e_dane e) (e_cache e) in
  match found with
  | Err err =>
      if Is_ErrRecordNotFound err then (Err (NewNotATIAgentOutcome (Fqdn_String fqdn)), e)
      else (Err (applyFailurePolicy ck e fqdn version (NewDNSErrorOutcome err)), e)
  | Ok None => (Err (NewNotATIAgentOutcome (Fqdn_String fqdn)), e)
  | Ok (Some record) =>
      let tlURL := rewriteTLHost (br_URL record) in
      let '(fetched, t) := FetchTLResponse (e_tlog e) tlURL in
      let e := MkEnv (e_dns e) t (e_dane e) (e_cache e) in
      match fetched with
      | Err err => (Err (applyFailurePolicy ck e fqdn version (NewTlogErrorOutcome err)), e)
      | Ok tlResp => (Ok tlResp, e)
      end
  end.

Definition server_fetchTLResponse (ck : clock) (fqdn : Fqdn) (e : env)
  : result VerificationOutcome TLResponse * env :=
  fetch_with (fun r => dns_FindPreferredBadge r fqdn) ck fqdn None e.

Definition client_fetchTLResponse (ck : clock) (fqdn : Fqdn) (version : Version) (e : env)
  : result VerificationOutcome TLResponse * env :=
  fetch_with (fun r => dns_FindBadgeForVersion r fqdn version) ck fqdn (Some version) e.

(** ** Matching a certificate with a record *)

Definition deprecated_warning : string := "agent status is DEPRECATED".

Definition verified (tlResp : TLResponse) (cert : CertIdentity) : VerificationOutcome :=
  let outcome := NewVerifiedOutcome tlResp (Fingerprint cert) in
  if String.eqb (AgentStatus (Payload tlResp)) TLStatusDeprecated
  then add_warning deprecated_warning outcome else outcome.

(** The name of the record must be the name looked up. *)
Definition server_name_check (tlResp : TLResponse) (fqdn : Fqdn) : option VerificationOutcome :=
  let identityHost := IdentityHost (Payload tlResp) in
  match ParseATIName (AgentName (Payload tlResp)) with
  | Ok tlATIName =>
      if negb (EqualFold (an_Host tlATIName) (Fqdn_String fqdn))
      then Some (NewATINameMismatchOutcome tlResp (AgentName (Payload tlResp)) (Fqdn_String fqdn))
      else None
  | Err _ =>
      if negb (EqualFold identityHost (Fqdn_String fqdn))
      then Some (NewHostnameMismatchOutcome tlResp (Fqdn_String fqdn) identityHost)
      else None
  end.

Definition server_verifyWithTLResponse (tlResp : TLResponse) (cert : CertIdentity) (fqdn : Fqdn)
  : VerificationOutcome :=
  let p := Payload tlResp in
  let status := AgentStatus p in
  if negb (TL_IsValidForConnection status) then NewInvalidStatusOutcome tlResp status
  else
    let expectedFP := ServerCertFingerprint p in
    if negb (MatchesWithRenewal (Fingerprint cert) expectedFP (PreviousServerCertFingerprint p))
    then NewFingerprintMismatchOutcome tlResp expectedFP (Fingerprint_String (Fingerprint cert))
    else
      match server_name_check tlResp fqdn with
      | Some rejection => rejection
      | None =>
          let accessHost := AccessHost p in
          if negb (String.eqb accessHost "") && (0 <? Z.of_nat (length (DNSSANs cert)))
             && negb (CoversHost cert accessHost)
          then NewHostnameMismatchOutcome tlResp accessHost (Join (DNSSANs cert) ", ")
          else verified tlResp cert
      end.

Definition client_verifyWithTLResponse (tlResp : TLResponse) (cert : CertIdentity) : VerificationOutcome :=
  let p := Payload tlResp in
  let status := AgentStatus p in
  if negb (TL_IsValidForConnection status) then NewInvalidStatusOutcome tlResp status
  else
    let expectedFP := IdentityCertFingerprint p in
    if negb (MatchesWithRenewal (Fingerprint cert) expectedFP (PreviousIdentityCertFingerprint p))
    then NewFingerprintMismatchOutcome tlResp expectedFP (Fingerprint_String (Fingerprint cert))
    else
      let tlATIName := AgentName p in
      if existsb (fun name => EqualFold tlATIName (ATIName_String name)) (CertIdentity_ATINames cert)
      then verified tlResp cert
      else
        NewATINameMismatchOutcome tlResp tlATIName
          (match CertIdentity_ATIName cert with Some first => ATIName_String first | None => "" end).

(** ** [ServerVerifier] *)

Definition is_type (t : OutcomeType) (o : VerificationOutcome) : bool := bool_decide (oc_Type o = t).

Definition insert_fqdn (ck : clock) (fqdn : Fqdn) (tlResp : TLResponse) (e : env) : env :=
  with_cache e (option_map (Insert (ck_order ck) (ck_insert ck) (ck_cleanup ck) fqdn tlResp) (e_cache e)).

Definition insert_version (ck : clock) (fqdn : Fqdn) (version : Version) (tlResp : TLResponse) (e : env)
  : env :=
  with_cache e (option_map (InsertForVersion (ck_order ck) (ck_insert ck) (ck_cleanup ck) fqdn version tlResp)
                  (e_cache e)).

Definition cached_fqdn (ck : clock) (fqdn : Fqdn) (e : env) : option CachedBadge :=
  match e_cache e with Some c => GetByFqdn c (ck_get ck) fqdn | None => None end.
Definition cached_version (ck : clock) (fqdn : Fqdn) (version : Version) (e : env) : option CachedBadge :=
  match e_cache e with Some c => GetByFqdnVersion c (ck_get ck) fqdn version | None => None end.

(** Steps 2 to 4 of [ServerVerifier.Verify]. *)
Definition Server_fetch_and_verify (ck : clock) (fqdn : Fqdn) (cert : CertIdentity) (e : env)
  : VerificationOutcome * env :=
  match server_fetchTLResponse ck fqdn e with
  | (Err outcome, e) => (outcome, e)
  | (Ok tlResp, e) =>
      let e := insert_fqdn ck fqdn tlResp e in
      applyDANE fqdn cert (server_verifyWithTLResponse tlResp cert fqdn) e
  end.

Definition Server_Verify (ck : clock) (fqdn : Fqdn) (cert : CertIdentity) (e : env)
  : VerificationOutcome * env :=
  match cached_fqdn ck fqdn e with
  | Some cached =>
      let result := server_verifyWithTLResponse (cb_TLResponse cached) cert fqdn in
      if negb (is_type OutcomeFingerprintMismatch result) then applyDANE fqdn cert result e
      else Server_fetch_and_verify ck fqdn cert e
  | None => Server_fetch_and_verify ck fqdn cert e
  end.

(** [Prefetch]; the pair is the response pointer and the error. *)
Definition Server_Prefetch (ck : clock) (fqdn : Fqdn) (e : env)
  : (option TLResponse * option goerror) * env :=
  match cached_fqdn ck fqdn e with
  | Some cached => ((Some (cb_TLResponse cached), None), e)
  | None =>
      match server_fetchTLResponse ck fqdn e with
      | (Err outcome, e) => ((None, ToError outcome), e)
      | (Ok tlResp, e) => ((Some tlResp, None), insert_fqdn ck fqdn tlResp e)
      end
  end.

(** ** [ClientVerifier] *)

Definition Client_Verify (ck : clock) (cert : CertIdentity) (e : env) : VerificationOutcome * env :=
  match CertIdentity_FQDN cert with
  | None => (NewCertErrorOutcome (EVerification VerificationErrorNoCN "" ""), e)
  | Some _ =>
      match CertIdentity_ATIName cert with
      | None => (NewCertErrorOutcome (EVerification VerificationErrorNoURISAN "" ""), e)
      | Some atiName =>
          match NewFqdn (an_Host atiName) with
          | Err err => (NewCertErrorOutcome err, e)
          | Ok fqdn =>
              let version := an_Version atiName in
              match cached_version ck fqdn version e with
              | Some cached =>
                  applyDANE fqdn cert (client_verifyWithTLResponse (cb_TLResponse cached) cert) e
              | None =>
                  match client_fetchTLResponse ck fqdn version e with
                  | (Err outcome, e) => (outcome, e)
                  | (Ok tlResp, e) =>
                      let e := insert_version ck fqdn version tlResp e in
                      applyDANE fqdn cert (client_verifyWithTLResponse tlResp cert) e
                  end
              end
          end
      end
  end.

(** ** SCITT: [verifyWithHeaders] and the two [VerifyWithScitt] *)

Section Scitt.
Context `{CborLib} `{CryptoLib}.
(** [scittKeyLookup]; nil is [None]. *)
Variable scittKeyLookup : option KeyLookup.

Definition should_fall_back (err : goerror) : bool :=
  match errors_As as_TransportError err with
  | Some t => ShouldFallbackToBadge t
  | None => false
  end.

Definition matches_role (role : certRole) (p : StatusTokenPayload) (fp : list byte) : bool :=
  match role with
  | roleServer => MatchesServerCert p fp
  | roleIdentity => MatchesIdentityCert p fp
  end.

Definition scitt_verified (token : VerifiedStatusToken) (cert : CertIdentity) : VerificationOutcome :=
  let outcome := MkOutcome OutcomeVerified TierFullScitt None (Some (Fingerprint cert)) "" "" "" "" None [] None in
  if String.eqb (st_Status (vt_Payload token)) StatusDeprecated
  then add_warning deprecated_warning outcome else outcome.

(** The checks after both artifacts are verified. *)
Definition check_token (role : certRole) (fqdn : Fqdn) (cert : CertIdentity) (token : VerifiedStatusToken)
  : VerificationOutcome :=
  let p := vt_Payload token in
  if negb (Status_IsValidForConnection (st_Status p))
  then NewScittErrorOutcome (EPlain "agent status %s does not allow connections")
  else if negb (matches_role role p (Fingerprint_Bytes (Fingerprint cert)))
  then NewScittErrorOutcome (EPlain "certificate fingerprint does not match any cert in status token")
  else
    match ParseATIName (st_ATIName p) with
    | Err err => NewScittErrorOutcome (EWrap "invalid ATIName in status token: %w" err)
    | Ok atiName =>
        if negb (EqualFold (an_Host atiName) (Fqdn_String fqdn))
        then NewScittErrorOutcome (EPlain "status token ATIName host %q does not match requested fqdn %q")
        else scitt_verified token cert
    end.

Definition verifyWithHeaders (ck : clock) (fqdn : Fqdn) (cert : CertIdentity) (headers : Headers)
    (role : certRole) (badgeFallback : env -> VerificationOutcome * env) (e : env)
  : VerificationOutcome * env :=
  match scittKeyLookup with
  | None => (NewScittErrorOutcome (EPlain "SCITT headers present but no key lookup configured; use WithScittKeyLookup option"), e)
  | Some keys =>
      match VerifyReceipt (h_Receipt headers) keys with
      | Err err => if should_fall_back err then badgeFallback e else (NewScittErrorOutcome err, e)
      | Ok _ =>
          match VerifyStatusTokenAt (h_StatusToken headers) keys (cf_clockSkewTolerance config) (ck_unix ck) with
          | Err err => if should_fall_back err then badgeFallback e else (NewScittErrorOutcome err, e)
          | Ok token => (check_token role fqdn cert token, e)
          end
      end
  end.

Definition both_required : goerror :=
  EPlain "both X-SCITT-Receipt and X-ANS-Status-Token headers are required".

(** [headers] may be nil. *)
Definition Server_VerifyWithScitt (ck : clock) (fqdn : Fqdn) (cert : CertIdentity)
    (headers : option Headers) (e : env) : VerificationOutcome * env :=
  match headers with
  | None => Server_Verify ck fqdn cert e
  | Some h =>
      if Headers_IsEmpty h then Server_Verify ck fqdn cert e
      else if negb (HasBoth h) then (NewScittErrorOutcome both_required, e)
      else verifyWithHeaders ck fqdn cert h roleServer (Server_Verify ck fqdn cert) e
  end.

Definition Client_VerifyWithScitt (ck : clock) (cert : CertIdentity) (headers : option Headers) (e : env)
  : VerificationOutcome * env :=
  match headers with
  | None => Client_Verify ck cert e
  | Some h =>
      if Headers_IsEmpty h then Client_Verify ck cert e
      else if negb (HasBoth h) then (NewScittErrorOutcome both_required, e)
      else
        match CertIdentity_FQDN cert with
        | None => (NewCertErrorOutcome (EVerification VerificationErrorNoCN "" ""), e)
        | Some fqdnStr =>
            match NewFqdn fqdnStr with
            | Err err => (NewCertErrorOutcome err, e)
            | Ok fqdn =>
                match CertIdentity_ATIName cert with
                | None => (NewCertErrorOutcome (EVerification VerificationErrorNoURISAN "" ""), e)
                | Some _ => verifyWithHeaders ck fqdn cert h roleIdentity (Client_Verify ck cert) e
                end
            end
        end
  end.

(** ** [AnsVerifier]: one configuration and one cache for both roles *)

Definition with_fqdn (fqdnStr : string) (k : Fqdn -> env -> VerificationOutcome * env) (e : env)
  : VerificationOutcome * env :=
  match NewFqdn fqdnStr with
  | Err err => (NewCertErrorOutcome err, e)
  | Ok fqdn => k fqdn e
  end.

Definition VerifyServer (ck : clock) (fqdnStr : string) (cert : CertIdentity) : env -> VerificationOutcome * env :=
  with_fqdn fqdnStr (fun fqdn => Server_Verify ck fqdn cert).
Definition VerifyClient (ck : clock) (cert : CertIdentity) : env -> VerificationOutcome * env :=
  Client_Verify ck cert.
Definition VerifyServerWithScitt (ck : clock) (fqdnStr : string) (cert : CertIdentity)
    (headers : option Headers) : env -> VerificationOutcome * env :=
  with_fqdn fqdnStr (fun fqdn => Server_VerifyWithScitt ck fqdn cert headers).
Definition VerifyClientWithScitt (ck : clock) (cert : CertIdentity) (headers : option Headers)
  : env -> VerificationOutcome * env := Client_VerifyWithScitt ck cert headers.
Definition Prefetch (ck : clock) (fqdnStr : string) (e : env)
  : (option TLResponse * option goerror) * env :=
  match NewFqdn fqdnStr with
  | Err err => ((None, Some err), e)
  | Ok fqdn => Server_Prefetch ck fqdn e
  end.

End Scitt.
End Verifier.

Arguments MkEnv {R T D}.
Arguments env : clear implicits.

(** ** The resolver of the SDK implements the interface *)

Section StandardResolver.
Context `{UnicodeTables} `{BadgeSort}.

(** The DNS answers and clock readings of the calls still to come, used up one
    per call; with none left the lookup fails. *)
Record dns_call := MkDnsCall { dc_LookupTXT : string -> result goerror (list string); dc_t1 : Z; dc_t2 : Z }.
Definition standard_resolver : Type := StandardDNSResolver * list dns_call.

Definition next_call (calls : list dns_call) : dns_call * list dns_call :=
  match calls with
  | c :: rest => (c, rest)
  | [] => (MkDnsCall (fun _ => Err (ENet false false)) 0 0, [])
  end.

Definition some_record (res : result goerror ATIBadgeRecord) : result goerror (option ATIBadgeRecord) :=
  match res with Ok b => Ok (Some b) | Err e => Err e end.

#[export] Instance Standard_DNSResolver : DNSResolver standard_resolver := {|
  dns_FindBadgeForVersion := fun '(r, calls) f v =>
    let '(c, rest) := next_call calls in
    let '(res, r') := FindBadgeForVersion (dc_LookupTXT c) r (dc_t1 c) (dc_t2 c) f v in
    (some_record res, (r', rest));
  dns_FindPreferredBadge := fun '(r, calls) f =>
    let '(c, rest) := next_call calls in
    let '(res, r') := FindPreferredBadge (dc_LookupTXT c) r (dc_t1 c) (dc_t2 c) f in
    (some_record res, (r', rest));
  dns_LookupATIDiscovery := fun '(r, calls) f =>
    let '(c, rest) := next_call calls in
    let '(res, r') := LookupATIDiscovery (dc_LookupTXT c) r (dc_t1 c) (dc_t2 c) f in
    (res, (r', rest))
|}.

End StandardResolver.
