(* ===== verification/VerifierLemmas.v ===== *)
(** What the verifiers promise: the binding of a certificate to a record, the
    origin of the records they use, and the lemmas that relate the definitions
    of [Verifier] to them. *)

From S2P Require Import Prelude GoStrings Errors Models Cert Url Records Resolver Dnssec Dane.
From S2P Require Import BadgeCache Cose KeyStore Receipt StatusToken Headers Outcome Verifier.

#[local] Open Scope string_scope.
#[local] Open Scope list_scope.
#[local] Open Scope Z_scope.

(** ** Bindings: the specification of a match *)

Section Bindings.
Context `{UnicodeTables}.

(** A fingerprint is the current one of a record, or the previous one while a
    current one is there. *)
Definition fp_listed (fp : CertFingerprint) (current previous : string) : Prop :=
  TrimSpace current <> "" /\
  (ParseCertFingerprint current = Ok fp \/ ParseCertFingerprint previous = Ok fp).

(** The name of a record, or its identity host when the name does not parse. *)
Definition record_named (p : TLPayload) (fqdn : Fqdn) : Prop :=
  match ParseATIName (AgentName p) with
  | Ok n => EqualFold (an_Host n) (Fqdn_String fqdn) = true
  | Err _ => EqualFold (IdentityHost p) (Fqdn_String fqdn) = true
  end.

Definition server_binding (r : TLResponse) (cert : CertIdentity) (fqdn : Fqdn) : Prop :=
  let p := Payload r in
  TL_IsValidForConnection (AgentStatus p) = true /\
  fp_listed (Fingerprint cert) (ServerCertFingerprint p) (PreviousServerCertFingerprint p) /\
  record_named p fqdn /\
  (AccessHost p = "" \/ DNSSANs cert = [] \/
   exists san, In san (DNSSANs cert) /\ dns_covers (dns_normal san) (dns_normal (AccessHost p))).

Definition client_binding (r : TLResponse) (cert : CertIdentity) : Prop :=
  let p := Payload r in
  TL_IsValidForConnection (AgentStatus p) = true /\
  fp_listed (Fingerprint cert) (IdentityCertFingerprint p) (PreviousIdentityCertFingerprint p) /\
  exists n, In n (CertIdentity_ATINames cert) /\ EqualFold (AgentName p) (ATIName_String n) = true.

Definition token_binding (role : certRole) (p : StatusTokenPayload) (cert : CertIdentity) (fqdn : Fqdn)
  : Prop :=
  Status_IsValidForConnection (st_Status p) = true /\
  (exists c, In c (match role with roleServer => ValidServerCerts p | roleIdentity => ValidIdentityCerts p end) /\
     ce_Fingerprint c = fp_bytes (Fingerprint cert)) /\
  exists n, ParseATIName (st_ATIName p) = Ok n /\ EqualFold (an_Host n) (Fqdn_String fqdn) = true.

Lemma verified_fields (r : TLResponse) (cert : CertIdentity) :
  oc_Type (verified r cert) = OutcomeVerified /\ oc_TLResponse (verified r cert) = Some r /\
  MatchedFingerprint (verified r cert) = Some (Fingerprint cert).
Proof. unfold verified. destruct (String.eqb _ _); auto. Qed.

Lemma server_name_check_spec (r : TLResponse) (fqdn : Fqdn) :
  match server_name_check r fqdn with
  | None => record_named (Payload r) fqdn
  | Some o => ~ record_named (Payload r) fqdn /\ oc_Type o <> OutcomeVerified /\ outcome_wf o /\
      oc_Type o <> OutcomeFailOpen
  end.
Proof.
  unfold server_name_check, record_named. cbv zeta.
  destruct (ParseATIName _) as [n|e]; destruct (EqualFold _ _); cbn [negb]; try reflexivity;
    (split; [discriminate|]); repeat split; discriminate.
Qed.

Lemma server_verify_Verified (r : TLResponse) (cert : CertIdentity) (fqdn : Fqdn) :
  oc_Type (server_verifyWithTLResponse r cert fqdn) = OutcomeVerified <-> server_binding r cert fqdn.
Proof.
  unfold server_verifyWithTLResponse, server_binding. cbv zeta.
  destruct (TL_IsValidForConnection _); cbn [negb]; [|split; [discriminate | intros [[=] _]]].
  unfold fp_listed. rewrite <- MatchesWithRenewal_spec.
  destruct (MatchesWithRenewal _ _ _); cbn [negb]; [|split; [discriminate | intros (_ & [=] & _)]].
  pose proof (server_name_check_spec r fqdn) as Hn.
  destruct (server_name_check r fqdn) as [o|]; [split; [tauto | intros (_ & _ & Hr & _); tauto]|].
  rewrite <- CoversHost_spec.
  destruct (String.eqb (AccessHost (Payload r)) "") eqn:E1; bool_hyps; cbn [negb andb].
  { split; intros _; [auto 8 | apply verified_fields]. }
  destruct (0 <? _) eqn:E2; bool_hyps; cbn [andb].
  - destruct (CoversHost cert _); cbn [negb].
    + split; intros _; [auto 10 | apply verified_fields].
    + split; [discriminate|]. intros (_ & _ & _ & [E|[E|E]]); [congruence | | discriminate].
      rewrite E in E2. discriminate.
  - split; [|intros _; apply verified_fields]. intros _. repeat split; auto. right. left.
    destruct (DNSSANs cert); [reflexivity | simpl in E2; lia].
Qed.

Lemma client_verify_Verified (r : TLResponse) (cert : CertIdentity) :
  oc_Type (client_verifyWithTLResponse r cert) = OutcomeVerified <-> client_binding r cert.
Proof.
  unfold client_verifyWithTLResponse, client_binding. cbv zeta.
  destruct (TL_IsValidForConnection _); cbn [negb]; [|split; [discriminate | intros [[=] _]]].
  unfold fp_listed. rewrite <- MatchesWithRenewal_spec.
  destruct (MatchesWithRenewal _ _ _); cbn [negb]; [|split; [discriminate | intros (_ & [=] & _)]].
  rewrite <- existsb_exists. destruct (existsb _ _).
  - split; intros _; [auto 8 | apply verified_fields].
  - split; [discriminate | intros (_ & _ & [=])].
Qed.

(** The shape of what the two matchers return. *)
Definition match_outcome (o : VerificationOutcome) (r : TLResponse) (cert : CertIdentity) : Prop :=
  outcome_wf o /\ oc_Type o <> OutcomeFailOpen /\ oc_TLResponse o = Some r /\
  (oc_Type o = OutcomeVerified -> MatchedFingerprint o = Some (Fingerprint cert)).

Lemma verified_match (r : TLResponse) (cert : CertIdentity) : match_outcome (verified r cert) r cert.
Proof.
  destruct (verified_fields r cert) as (E1 & E2 & E3). unfold match_outcome, outcome_wf.
  rewrite E1, E2, E3. repeat split; discriminate.
Qed.

Lemma server_verify_match (r : TLResponse) (cert : CertIdentity) (fqdn : Fqdn) :
  match_outcome (server_verifyWithTLResponse r cert fqdn) r cert.
Proof.
  unfold server_verifyWithTLResponse, server_name_check. cbv zeta.
  repeat (case_match; try apply verified_match); simplify_eq; repeat split; discriminate.
Qed.

Lemma client_verify_match (r : TLResponse) (cert : CertIdentity) :
  match_outcome (client_verifyWithTLResponse r cert) r cert.
Proof.
  unfold client_verifyWithTLResponse. cbv zeta.
  repeat (case_match; try apply verified_match); simplify_eq; repeat split; discriminate.
Qed.

Lemma matches_role_spec (role : certRole) (p : StatusTokenPayload) (fp : list byte) :
  matches_role role p fp = true <->
  exists c, In c (match role with roleServer => ValidServerCerts p | roleIdentity => ValidIdentityCerts p end) /\
    ce_Fingerprint c = fp.
Proof.
  destruct role; unfold matches_role, MatchesServerCert, MatchesIdentityCert; rewrite existsb_exists;
    split; intros (c & Hin & E); exists c; rewrite ConstantTimeCompare_true in *; auto.
Qed.

Lemma check_token_Verified (role : certRole) (fqdn : Fqdn) (cert : CertIdentity) (t : VerifiedStatusToken) :
  oc_Type (check_token role fqdn cert t) = OutcomeVerified <-> token_binding role (vt_Payload t) cert fqdn.
Proof.
  unfold check_token, token_binding. cbv zeta.
  destruct (Status_IsValidForConnection _); cbn [negb]; [|split; [discriminate | intros [[=] _]]].
  rewrite <- matches_role_spec. unfold Fingerprint_Bytes.
  destruct (matches_role _ _ _); cbn [negb]; [|split; [discriminate | intros (_ & [=] & _)]].
  destruct (ParseATIName _) as [n|e]; [|split; [discriminate | intros (_ & _ & ? & [=] & _)]].
  destruct (EqualFold _ _) eqn:E; cbn [negb].
  - split; [eauto|]. intros _. unfold scitt_verified. destruct (String.eqb _ _); reflexivity.
  - split; [discriminate|]. intros (_ & _ & n' & [= <-] & E'). congruence.
Qed.

Lemma check_token_type (role : certRole) (fqdn : Fqdn) (cert : CertIdentity) (t : VerifiedStatusToken) :
  oc_Type (check_token role fqdn cert t) = OutcomeVerified \/
  oc_Type (check_token role fqdn cert t) = OutcomeScittError /\ oc_Error (check_token role fqdn cert t) <> None.
Proof.
  unfold check_token, scitt_verified. cbv zeta.
  repeat case_match; (left; reflexivity) || (right; split; [reflexivity | discriminate]).
Qed.

End Bindings.

(** ** The verifiers over any collaborators *)

Section Lemmas.
Context `{UnicodeTables} {R T D : Type} `{DNSResolver R} `{TransparencyLogClient T} `{DANEResolver D}.
Variable config : verifierConfig.

Notation env := (env R T D).

(** DANE has no objection: not configured, or the outcome is not a rejection. *)
Definition dane_accepts (fqdn : Fqdn) (cert : CertIdentity) (e : env) : Prop :=
  match e_dane e with
  | None => True
  | Some d =>
      IsReject (verifyWithLookup (Some cert) (fun _ => fst (dane_LookupTLSA d fqdn defaultDANEPort))) = false
  end.

Lemma applyDANE_Verified (fqdn : Fqdn) (cert : CertIdentity) (o : VerificationOutcome) (e : env) :
  oc_Type (fst (applyDANE fqdn cert o e)) = OutcomeVerified <->
  oc_Type o = OutcomeVerified /\ dane_accepts fqdn cert e.
Proof.
  unfold applyDANE, verifyDANE, dane_accepts. destruct (oc_Type o) eqn:Eo; cbn [fst]; rewrite ?Eo;
    try (split; [discriminate | intros [[=] _]]).
  destruct (e_dane e) as [d|]; [|cbn [fst]; rewrite Eo; tauto].
  destruct (dane_LookupTLSA d fqdn defaultDANEPort) as [res d']. cbn [fst].
  destruct (IsReject _) eqn:Er; [split; [discriminate | intros [_ [=]]]|].
  destruct (_ && _); cbn [fst oc_Type set_dane]; rewrite Eo; tauto.
Qed.

(** DANE only ever turns a success into a rejection. *)
Lemma applyDANE_fields (fqdn : Fqdn) (cert : CertIdentity) (o : VerificationOutcome) (e : env) :
  let '(o', e') := applyDANE fqdn cert o e in
  (outcome_wf o -> outcome_wf o') /\ oc_TLResponse o' = oc_TLResponse o /\
  (oc_Type o' = OutcomeFailOpen -> oc_Type o = OutcomeFailOpen) /\
  (oc_Type o' = OutcomeVerified -> MatchedFingerprint o' = MatchedFingerprint o) /\
  e_cache e' = e_cache e /\ e_dns e' = e_dns e /\ e_tlog e' = e_tlog e.
Proof.
  unfold applyDANE, verifyDANE. destruct (oc_Type o) eqn:Eo;
    try (split; [auto|]; repeat split; congruence).
  destruct (e_dane e) as [d|]; [|split; [auto|]; repeat split; congruence].
  destruct (dane_LookupTLSA d fqdn defaultDANEPort) as [res d'].
  pose proof (verifyWithLookup_reject_error (Some cert) (fun _ => res)) as Hr.
  destruct (IsReject _); cbn [e_cache e_dns e_tlog oc_TLResponse oc_Type].
  - repeat split; try discriminate. intros _ _. apply Hr. reflexivity.
  - destruct (_ && _); cbn -[outcome_wf]; (split; [|repeat split; congruence]); [|auto].
    intros Hw. unfold outcome_wf. cbn. rewrite Eo. discriminate.
Qed.

(** ** Fetching *)

Lemma policy_type (ck : clock) (e : env) (fqdn : Fqdn) (v : option Version) (o : VerificationOutcome) :
  applyFailurePolicy config ck e fqdn v o = o \/
  oc_Type (applyFailurePolicy config ck e fqdn v o) = OutcomeFailOpen /\
  cf_failurePolicy config <> FailClosed.
Proof.
  unfold applyFailurePolicy, applyFailOpenWithCache.
  destruct (cf_failurePolicy config); [left; reflexivity | | right; split; [reflexivity | discriminate]].
  destruct (e_cache e); [|left; reflexivity]. destruct (get_stale_response _ _ _ _ _); [right|left; reflexivity].
  split; [reflexivity | discriminate].
Qed.

(** An outcome returned instead of a response. *)
Definition fetch_failure (o : VerificationOutcome) : Prop :=
  outcome_wf o /\ oc_Type o <> OutcomeVerified /\
  (oc_Type o = OutcomeFailOpen -> cf_failurePolicy config <> FailClosed).

Lemma policy_failure (ck : clock) (e : env) (fqdn : Fqdn) (v : option Version) (o : VerificationOutcome) :
  fetch_failure o -> fetch_failure (applyFailurePolicy config ck e fqdn v o).
Proof.
  intros Ho. destruct (policy_type ck e fqdn v o) as [->|[E Hp]]; [exact Ho|].
  unfold fetch_failure, outcome_wf. rewrite E. repeat split; (discriminate || auto).
Qed.

(** What a fetch does: it leaves cache and DANE resolver alone, and a response
    comes from the URL of the record found. *)
Lemma fetch_with_cases lookup (ck : clock) (fqdn : Fqdn) (v : option Version) (e : env) :
  exists r t,
    (exists rec tl,
       lookup (e_dns e) = (Ok (Some rec), r) /\
       FetchTLResponse (e_tlog e) (rewriteTLHost config (br_URL rec)) = (Ok tl, t) /\
       fetch_with config lookup ck fqdn v e = (Ok tl, MkEnv r t (e_dane e) (e_cache e))) \/
    (exists o,
       fetch_with config lookup ck fqdn v e = (Err o, MkEnv r t (e_dane e) (e_cache e)) /\ fetch_failure o).
Proof.
  unfold fetch_with. destruct (lookup (e_dns e)) as [[[rec|]|err] r]; cbn [e_dns e_tlog e_dane e_cache].
  - destruct (FetchTLResponse (e_tlog e) _) as [[tl|err] t] eqn:Ef; exists r, t.
    + left. eauto.
    + right. eexists. split; [reflexivity|]. apply policy_failure. repeat split; discriminate.
  - exists r, (e_tlog e). right. eexists. split; [reflexivity|]. repeat split; discriminate.
  - exists r, (e_tlog e). right.
    destruct (Is_ErrRecordNotFound err); eexists; (split; [reflexivity|]);
      [repeat split; discriminate | apply policy_failure; repeat split; discriminate].
Qed.

(** Where a record comes from: at some moment the resolver gave a badge for the
    name, and at some moment the log gave the record at the badge's URL. *)
Definition fetched_from (lookup : R -> result goerror (option ATIBadgeRecord) * R) (r : TLResponse) : Prop :=
  exists dns rec tlog,
    fst (lookup dns) = Ok (Some rec) /\
    fst (FetchTLResponse tlog (rewriteTLHost config (br_URL rec))) = Ok r.

Definition origin (fqdn : Fqdn) : TLResponse -> Prop := fetched_from (fun r => dns_FindPreferredBadge r fqdn).
Definition origin_version (fqdn : Fqdn) (v : Version) : TLResponse -> Prop :=
  fetched_from (fun r => dns_FindBadgeForVersion r fqdn v).

Lemma fetch_origin lookup (ck : clock) (fqdn : Fqdn) (v : option Version) (e e' : env) (tl : TLResponse) :
  fetch_with config lookup ck fqdn v e = (Ok tl, e') ->
  fetched_from lookup tl /\ e_dane e' = e_dane e /\ e_cache e' = e_cache e.
Proof.
  intros E. destruct (fetch_with_cases lookup ck fqdn v e) as (r & t & [(rec & tl' & El & Ef & E')|(o & E' & _)]);
    rewrite E in E'; [|discriminate E'].
  injection E' as <- ->. split; [|auto]. exists (e_dns e), rec, (e_tlog e). rewrite El, Ef. auto.
Qed.

Lemma fetch_error lookup (ck : clock) (fqdn : Fqdn) (v : option Version) (e e' : env) (o : VerificationOutcome) :
  fetch_with config lookup ck fqdn v e = (Err o, e') -> fetch_failure o /\ e_cache e' = e_cache e.
Proof.
  intros E. destruct (fetch_with_cases lookup ck fqdn v e) as (r & t & [(rec & tl' & El & Ef & E')|(o' & E' & Hf)]);
    rewrite E in E'; [discriminate E'|].
  injection E' as <- ->. auto.
Qed.

(** ** The states of a verifier: every cached record has its origin *)

Definition cache_ok (c : BadgeCache) : Prop :=
  map_Forall (fun k x => exists f, k = fqdnKey f /\ origin f (cb_TLResponse (ent_badge x))) (byFqdn c) /\
  map_Forall (fun k x => exists f v, Fqdn_wf f /\ Version_wf v /\ k = fqdnVersionKey f v /\
                origin_version f v (cb_TLResponse (ent_badge x))) (byFqdnVer c).

Definition env_ok (e : env) : Prop := match e_cache e with None => True | Some c => cache_ok c end.

Lemma map_Forall_subseteq {A : Type} (P : string -> A -> Prop) (m m' : gmap string A) :
  m ⊆ m' -> map_Forall P m' -> map_Forall P m.
Proof. intros Hs Hm k x Hk. apply Hm. eapply lookup_weaken; eassumption. Qed.

Lemma cleanup_ok (o : map_order) (now : Z) (c : BadgeCache) : cache_ok c -> cache_ok (cleanupLocked o now c).
Proof.
  intros [H1' H2']. destruct (cleanup_subseteq o now c) as (S1 & S2 & _).
  split; eapply map_Forall_subseteq; eassumption.
Qed.

Lemma insert_fqdn_ok (ck : clock) (fqdn : Fqdn) (tl : TLResponse) (e : env) :
  origin fqdn tl -> env_ok e -> env_ok (insert_fqdn ck fqdn tl e).
Proof.
  intros Ho He. unfold env_ok, insert_fqdn, with_cache in *. destruct (e_cache e) as [c|]; [|exact I].
  apply cleanup_ok. destruct He as [H1' H2']. split; [|exact H2'].
  apply map_Forall_insert_2; [|exact H1']. exists fqdn. auto.
Qed.

Lemma insert_version_ok (ck : clock) (fqdn : Fqdn) (v : Version) (tl : TLResponse) (e : env) :
  Fqdn_wf fqdn -> Version_wf v -> origin_version fqdn v tl -> env_ok e ->
  env_ok (insert_version ck fqdn v tl e).
Proof.
  intros Hf Hv Ho He. unfold env_ok, insert_version, with_cache in *. destruct (e_cache e) as [c|]; [|exact I].
  apply cleanup_ok. destruct He as [H1' H2']. split; [exact H1'|].
  apply map_Forall_insert_2; [|exact H2']. exists fqdn, v. auto.
Qed.

Lemma cached_fqdn_origin (ck : clock) (fqdn : Fqdn) (e : env) (b : CachedBadge) :
  env_ok e -> cached_fqdn ck fqdn e = Some b -> origin fqdn (cb_TLResponse b).
Proof.
  unfold env_ok, cached_fqdn, GetByFqdn, get_fresh. intros He E.
  destruct (e_cache e) as [c|]; [|discriminate E]. destruct He as [He _].
  destruct (byFqdn c !! fqdnKey fqdn) as [x|] eqn:Ex; [|discriminate E].
  destruct (_ <? _); [discriminate E|]. injection E as <-.
  destruct (He _ _ Ex) as (f & Hk & Ho). apply fqdnKey_inj in Hk as <-. exact Ho.
Qed.

Lemma cached_version_origin (ck : clock) (fqdn : Fqdn) (v : Version) (e : env) (b : CachedBadge) :
  Fqdn_wf fqdn -> Version_wf v -> env_ok e -> cached_version ck fqdn v e = Some b ->
  origin_version fqdn v (cb_TLResponse b).
Proof.
  unfold env_ok, cached_version, GetByFqdnVersion, get_fresh. intros Hf Hv He E.
  destruct (e_cache e) as [c|]; [|discriminate E]. destruct He as [_ He].
  destruct (byFqdnVer c !! fqdnVersionKey fqdn v) as [x|] eqn:Ex; [|discriminate E].
  destruct (_ <? _); [discriminate E|]. injection E as <-.
  destruct (He _ _ Ex) as (f & u & Hf' & Hu & Hk & Ho).
  apply fqdnVersionKey_inj in Hk as [<- <-]; assumption.
Qed.

End Lemmas.
