(* ===== verification/VerifierProps.v ===== *)
(** Theorems about the server and client verifiers: soundness of a positive
    outcome, the failure policies, SCITT verification, the cache. *)

From S2P Require Import Prelude GoStrings Encoding Sha256 Errors Models Cert Merkle Url Records.
From S2P Require Import Resolver Dnssec Dane BadgeCache Cose KeyStore Receipt StatusToken Headers Outcome Verifier VerifierLemmas.

#[local] Open Scope string_scope.
#[local] Open Scope list_scope.
#[local] Open Scope Z_scope.

(** ** Errors of SCITT artifacts are never transport errors

    [safe m]: no error of [m] makes the verifiers fall back to the badge. *)

Definition safe {A : Type} (m : result goerror A) : Prop :=
  forall e, m = Err e -> should_fall_back e = false.

Lemma safe_Ok {A : Type} (a : A) : safe (Ok a).
Proof. intros e [=]. Qed.

Lemma safe_Err {A : Type} (e : goerror) : should_fall_back e = false -> safe (@Err goerror A e).
Proof. intros He e' [= <-]. exact He. Qed.

Lemma safe_bind {A B : Type} (m : result goerror A) (k : A -> result goerror B) :
  safe m -> (forall a, safe (k a)) -> safe (rbind m k).
Proof. intros Hm Hk e. destruct m as [a|e0]; cbn; [apply Hk | intros [= <-]; apply Hm; reflexivity]. Qed.

Lemma safe_decode_or {A : Type} (t : CoseErrorType) (o : option A) : safe (decode_or t o).
Proof. destruct o; [apply safe_Ok | apply safe_Err; reflexivity]. Qed.

Create HintDb safe.
#[export] Hint Resolve safe_Ok safe_decode_or : safe.

Ltac safe_step :=
  first
    [ solve [auto with safe]
    | apply safe_Err; reflexivity
    | apply safe_bind; [|intros ?]
    | match goal with |- safe (match ?x with _ => _ end) => destruct x end ].
Ltac solve_safe := repeat safe_step.

Section Safe.
Context `{UnicodeTables} `{CborLib} `{CryptoLib}.

Lemma safe_ParseCoseSign1 (b : list byte) : safe (ParseCoseSign1 b).
Proof. unfold ParseCoseSign1, parseProtectedHeader. solve_safe. Qed.

Lemma safe_decode_hashes (l : list raw) : safe (decode_hashes l).
Proof. induction l as [|r l IH]; cbn [decode_hashes]; solve_safe. Qed.

Lemma safe_walk_path (p : list hash) (r : hash) (fn sn : Z) : safe (walk_path r fn sn p).
Proof. revert r fn sn. induction p as [|x p IH]; intros r fn sn; cbn [walk_path]; solve_safe. Qed.

#[local] Hint Resolve safe_walk_path : safe.

Lemma safe_WalkInclusionPath (b : list byte) (i n : Z) (p : list hash) : safe (WalkInclusionPath b i n p).
Proof. unfold WalkInclusionPath. solve_safe. Qed.

#[local] Hint Resolve safe_ParseCoseSign1 safe_decode_hashes safe_WalkInclusionPath : safe.

(** The key stores of the SDK answer with a signature error or a key. *)
Lemma safe_Refreshable_Get (r : RefreshableKeyStore) (kid : list byte) : safe (Refreshable_Get r kid).
Proof. unfold Refreshable_Get, KeyStore_Get. solve_safe. Qed.

Lemma safe_VerifyReceipt (b : list byte) (keys : KeyLookup) :
  (forall kid, safe (keys kid)) -> safe (VerifyReceipt b keys).
Proof.
  intros Hk. unfold VerifyReceipt, validateVDS, verifyECDSA, verifyIssuerBinding, verifyInclusionProof,
    extractVDP, vdp_uint. solve_safe.
Qed.

Lemma safe_VerifyStatusTokenAt (b : list byte) (keys : KeyLookup) (skew now : Z) :
  (forall kid, safe (keys kid)) -> safe (VerifyStatusTokenAt b keys skew now).
Proof.
  intros Hk. unfold VerifyStatusTokenAt, verifyECDSA, decodeStatusPayload, decodePayloadFields,
    cert_field, decodeCertArray. solve_safe.
Qed.

End Safe.
#[export] Hint Resolve safe_Refreshable_Get : safe.

(** ** The verifiers *)

Section Properties.
Context `{UnicodeTables} {R T D : Type} `{DNSResolver R} `{TransparencyLogClient T} `{DANEResolver D}.
Variable config : verifierConfig.

Notation env := (env R T D).

(** What a call of [Server_Verify] amounts to: a record with its origin,
    matched and passed to DANE, or a failed fetch. *)
Lemma Server_Verify_cases (ck : clock) (fqdn : Fqdn) (cert : CertIdentity) (e : env) :
  (exists r e1,
     Server_Verify config ck fqdn cert e =
       applyDANE fqdn cert (server_verifyWithTLResponse r cert fqdn) e1 /\
     (env_ok config e -> origin config fqdn r /\ env_ok config e1) /\ e_dane e1 = e_dane e) \/
  (exists o e1, Server_Verify config ck fqdn cert e = (o, e1) /\ fetch_failure config o /\
     (env_ok config e -> env_ok config e1)).
Proof.
  assert (Hfetch : forall p, p = Server_fetch_and_verify config ck fqdn cert e ->
    (exists r e1, p = applyDANE fqdn cert (server_verifyWithTLResponse r cert fqdn) e1 /\
       (env_ok config e -> origin config fqdn r /\ env_ok config e1) /\ e_dane e1 = e_dane e) \/
    (exists o e1, p = (o, e1) /\ fetch_failure config o /\ (env_ok config e -> env_ok config e1))).
  { intros p ->. unfold Server_fetch_and_verify.
    destruct (server_fetchTLResponse config ck fqdn e) as [[r|o] e1] eqn:Ef.
    - left. exists r, (insert_fqdn ck fqdn r e1). split; [reflexivity|].
      unfold server_fetchTLResponse in Ef; apply fetch_origin in Ef as (Ho & Hd & Hc). split; [|exact Hd].
      intros He. split; [exact Ho|]. apply insert_fqdn_ok; [exact Ho|]. unfold env_ok. rewrite Hc. exact He.
    - right. exists o, e1. split; [reflexivity|]. unfold server_fetchTLResponse in Ef; apply fetch_error in Ef as (Hf & Hc).
      split; [exact Hf|]. unfold env_ok. rewrite Hc. auto. }
  unfold Server_Verify. destruct (cached_fqdn ck fqdn e) as [b|] eqn:Eb; [|auto].
  destruct (negb _); [|auto].
  left. exists (cb_TLResponse b), e. split; [reflexivity|]. split; [|reflexivity].
  intros He. split; [eapply cached_fqdn_origin; eassumption | exact He].
Qed.

(** The same for the client verifier; the other failures are about the
    certificate itself. *)
Lemma Client_Verify_cases (ck : clock) (cert : CertIdentity) (e : env) :
  (exists a fqdn r e1,
     CertIdentity_ATIName cert = Some a /\ NewFqdn (an_Host a) = Ok fqdn /\
     Client_Verify config ck cert e = applyDANE fqdn cert (client_verifyWithTLResponse r cert) e1 /\
     (env_ok config e -> origin_version config fqdn (an_Version a) r /\ env_ok config e1) /\
     e_dane e1 = e_dane e) \/
  (exists o e1, Client_Verify config ck cert e = (o, e1) /\ fetch_failure config o /\
     (env_ok config e -> env_ok config e1)).
Proof.
  unfold Client_Verify.
  destruct (CertIdentity_FQDN cert); [|right; eexists _, e; repeat split; auto; discriminate].
  destruct (CertIdentity_ATIName cert) as [a|] eqn:Ea; [|right; eexists _, e; repeat split; auto; discriminate].
  destruct (NewFqdn (an_Host a)) as [fqdn|err] eqn:Ef; [|right; eexists _, e; repeat split; auto; discriminate].
  assert (Hw : Fqdn_wf fqdn /\ Version_wf (an_Version a)).
  { split; [eapply NewFqdn_wf; eassumption|]. unfold CertIdentity_ATIName in Ea. rewrite first_ati_hd in Ea.
    assert (Hin : In a (filter_map ati_of_uri (URISANs cert))).
    { destruct (filter_map _ _); [discriminate Ea | injection Ea as ->; left; reflexivity]. }
    apply in_filter_map in Hin as (u & _ & Hu). unfold ati_of_uri in Hu. repeat case_match_in Hu.
    injection Hu as ->. eapply ParseATIName_raw; eassumption. }
  destruct Hw as [Hw1 Hw2].
  destruct (cached_version ck fqdn (an_Version a) e) as [b|] eqn:Eb.
  { left. exists a, fqdn, (cb_TLResponse b), e. repeat split; auto.
    eapply cached_version_origin; eassumption. }
  destruct (client_fetchTLResponse config ck fqdn (an_Version a) e) as [[r|o] e1] eqn:Er.
  - left. exists a, fqdn, r, (insert_version ck fqdn (an_Version a) r e1).
    unfold client_fetchTLResponse in Er; apply fetch_origin in Er as (Ho & Hd & Hc).
    split; [reflexivity|]. split; [exact Ef|]. split; [reflexivity|]. split; [|exact Hd].
    intros He. split; [exact Ho|]. apply insert_version_ok; try assumption. unfold env_ok. rewrite Hc. exact He.
  - right. exists o, e1. split; [reflexivity|]. unfold client_fetchTLResponse in Er; apply fetch_error in Er as (Hf & Hc).
    split; [exact Hf|]. unfold env_ok. rewrite Hc. auto.
Qed.

Lemma applyDANE_env_ok (fqdn : Fqdn) (cert : CertIdentity) (o : VerificationOutcome) (e : env) :
  env_ok config e -> env_ok config (snd (applyDANE fqdn cert o e)).
Proof.
  intros He. pose proof (applyDANE_fields fqdn cert o e) as Hf.
  destruct (applyDANE fqdn cert o e) as [o' e']. destruct Hf as (_ & _ & _ & _ & Hc & _).
  unfold env_ok. cbn [snd]. rewrite Hc. exact He.
Qed.

Lemma Server_Verify_env_ok (ck : clock) (fqdn : Fqdn) (cert : CertIdentity) (e : env) :
  env_ok config e -> env_ok config (snd (Server_Verify config ck fqdn cert e)).
Proof.
  intros He. destruct (Server_Verify_cases ck fqdn cert e) as [(r & e1 & -> & Hr & _)|(o & e1 & -> & _ & H')];
    [apply applyDANE_env_ok, Hr, He | exact (H' He)].
Qed.

Lemma Client_Verify_env_ok (ck : clock) (cert : CertIdentity) (e : env) :
  env_ok config e -> env_ok config (snd (Client_Verify config ck cert e)).
Proof.
  intros He.
  destruct (Client_Verify_cases ck cert e) as [(a & f & r & e1 & _ & _ & -> & Hr & _)|(o & e1 & -> & _ & H')];
    [apply applyDANE_env_ok, Hr, He | exact (H' He)].
Qed.

Lemma Server_Prefetch_env_ok (ck : clock) (fqdn : Fqdn) (e : env) :
  env_ok config e -> env_ok config (snd (Server_Prefetch config ck fqdn e)).
Proof.
  intros He. unfold Server_Prefetch. destruct (cached_fqdn ck fqdn e); [exact He|].
  destruct (server_fetchTLResponse config ck fqdn e) as [[r|o] e1] eqn:Ef; cbn [snd].
  - unfold server_fetchTLResponse in Ef; apply fetch_origin in Ef as (Ho & _ & Hc). apply insert_fqdn_ok; [exact Ho|].
    unfold env_ok. rewrite Hc. exact He.
  - unfold server_fetchTLResponse in Ef; apply fetch_error in Ef as (_ & Hc). unfold env_ok. rewrite Hc. exact He.
Qed.

(** The states a verifier goes through: it starts with an empty cache or none,
    its methods are called, the cache is cleared, and the collaborators change on
    their own. A SCITT verification changes the state as a badge verification
    does, or not at all. *)
Inductive env_reachable : env -> Prop :=
| env_new r t d c : env_reachable (MkEnv r t d (option_map NewBadgeCache c))
| env_server ck f cert e : env_reachable e -> env_reachable (snd (Server_Verify config ck f cert e))
| env_client ck cert e : env_reachable e -> env_reachable (snd (Client_Verify config ck cert e))
| env_prefetch ck f e : env_reachable e -> env_reachable (snd (Server_Prefetch config ck f e))
| env_clear e : env_reachable e -> env_reachable (with_cache e (option_map Clear (e_cache e)))
| env_outside r t d e : env_reachable e -> env_reachable (MkEnv r t d (e_cache e)).

Lemma env_reachable_ok (e : env) : env_reachable e -> env_ok config e.
Proof.
  induction 1 as [r t d [cfg|]|ck f cert e _ IH|ck cert e _ IH|ck f e _ IH|e _ IH|r t d e _ IH].
  - split; apply map_Forall_empty.
  - exact I.
  - apply Server_Verify_env_ok, IH.
  - apply Client_Verify_env_ok, IH.
  - apply Server_Prefetch_env_ok, IH.
  - unfold env_ok, with_cache in *. cbn. destruct (e_cache e); [|exact I]. split; apply map_Forall_empty.
  - exact IH.
Qed.

(** What a verified server certificate rests on. *)
Lemma Server_Verify_verified (ck : clock) (fqdn : Fqdn) (cert : CertIdentity) (e : env) :
  env_ok config e ->
  let o := fst (Server_Verify config ck fqdn cert e) in
  oc_Type o = OutcomeVerified ->
  MatchedFingerprint o = Some (Fingerprint cert) /\ dane_accepts fqdn cert e /\
  exists r, oc_TLResponse o = Some r /\ origin config fqdn r /\ server_binding r cert fqdn.
Proof.
  intros He. cbv zeta.
  destruct (Server_Verify_cases ck fqdn cert e) as [(r & e1 & -> & Hr & Hd)|(o & e1 & -> & Hf & _)].
  - intros Ho. pose proof (applyDANE_fields fqdn cert (server_verifyWithTLResponse r cert fqdn) e1) as Hfi.
    apply applyDANE_Verified in Ho as Ho'. destruct Ho' as [Hv Ha].
    destruct (applyDANE fqdn cert _ e1) as [o' e']. destruct Hfi as (_ & Ht & _ & Hm & _).
    destruct (server_verify_match r cert fqdn) as (_ & _ & Hr' & Hm'). cbn [fst] in *.
    split; [rewrite (Hm Ho); apply Hm', Hv|]. split; [unfold dane_accepts in *; rewrite <- Hd; exact Ha|].
    exists r. rewrite Ht, Hr'. split; [reflexivity|]. split; [apply Hr, He|]. apply server_verify_Verified, Hv.
  - intros Ho. destruct (proj1 (proj2 Hf) Ho).
Qed.

(** What a verified client certificate rests on. *)
Lemma Client_Verify_verified (ck : clock) (cert : CertIdentity) (e : env) :
  env_ok config e ->
  let o := fst (Client_Verify config ck cert e) in
  oc_Type o = OutcomeVerified ->
  exists a fqdn r,
    CertIdentity_ATIName cert = Some a /\ NewFqdn (an_Host a) = Ok fqdn /\
    oc_TLResponse o = Some r /\ origin_version config fqdn (an_Version a) r /\
    client_binding r cert /\ dane_accepts fqdn cert e.
Proof.
  intros He. cbv zeta.
  destruct (Client_Verify_cases ck cert e) as [(a & f & r & e1 & Ha & Hf & -> & Hr & Hd)|(o & e1 & -> & Hf & _)].
  - intros Ho. pose proof (applyDANE_fields f cert (client_verifyWithTLResponse r cert) e1) as Hfi.
    apply applyDANE_Verified in Ho as [Hv Hacc].
    destruct (applyDANE f cert _ e1) as [o' e']. destruct Hfi as (_ & Ht & _).
    destruct (client_verify_match r cert) as (_ & _ & Hr' & _). cbn [fst] in *.
    exists a, f, r. rewrite Ht, Hr'. split; [exact Ha|]. split; [exact Hf|]. split; [reflexivity|].
    split; [apply Hr, He|]. split; [apply client_verify_Verified, Hv|].
    unfold dane_accepts in *. rewrite <- Hd. exact Hacc.
  - intros Ho. destruct (proj1 (proj2 Hf) Ho).
Qed.

(** C1: (end-to-end soundness of server verification) in every state the
    verifier can reach, a server is verified only on a transparency-log record
    that was fetched, now or for the cache, from the URL of a badge the resolver
    gave for exactly this host; whose status allows connections; that lists the
    fingerprint of the certificate as current or previous server certificate; that
    is named after this host; whose access host is covered by the certificate's
    SANs; and only if DANE, when configured, does not reject. *)
Theorem Server_Verify_sound (ck : clock) (fqdn : Fqdn) (cert : CertIdentity) (e : env) :
  env_reachable e ->
  let o := fst (Server_Verify config ck fqdn cert e) in
  oc_Type o = OutcomeVerified ->
  MatchedFingerprint o = Some (Fingerprint cert) /\ dane_accepts fqdn cert e /\
  exists r, oc_TLResponse o = Some r /\ origin config fqdn r /\ server_binding r cert fqdn.
Proof. intros He. apply Server_Verify_verified, env_reachable_ok, He. Qed.

(** C5: (end-to-end soundness of client verification) a client is verified only
    if its certificate carries an ati:// name, on a record that was fetched from
    the URL of a badge the resolver gave for the host and the version of that
    name, that lists the certificate's fingerprint as identity certificate, and
    whose agent name is one of the certificate's ati:// names. *)
Theorem Client_Verify_sound (ck : clock) (cert : CertIdentity) (e : env) :
  env_reachable e ->
  let o := fst (Client_Verify config ck cert e) in
  oc_Type o = OutcomeVerified ->
  exists a fqdn r,
    CertIdentity_ATIName cert = Some a /\ NewFqdn (an_Host a) = Ok fqdn /\
    oc_TLResponse o = Some r /\ origin_version config fqdn (an_Version a) r /\
    client_binding r cert /\ dane_accepts fqdn cert e.
Proof. intros He. apply Client_Verify_verified, env_reachable_ok, He. Qed.

(** (decision of the server matcher) the record is accepted exactly for a
    certificate it binds to the host. *)
Theorem server_verifyWithTLResponse_spec (r : TLResponse) (cert : CertIdentity) (fqdn : Fqdn) :
  oc_Type (server_verifyWithTLResponse r cert fqdn) = OutcomeVerified <-> server_binding r cert fqdn.
Proof. apply server_verify_Verified. Qed.

(** (decision of the client matcher) the record is accepted exactly for a
    certificate it binds to the agent. *)
Theorem client_verifyWithTLResponse_spec (r : TLResponse) (cert : CertIdentity) :
  oc_Type (client_verifyWithTLResponse r cert) = OutcomeVerified <-> client_binding r cert.
Proof. apply client_verify_Verified. Qed.

(** ** Failure policies *)

(** The outcomes the policy does not touch. *)
Lemma Server_Verify_wf (ck : clock) (fqdn : Fqdn) (cert : CertIdentity) (e : env) :
  let o := fst (Server_Verify config ck fqdn cert e) in
  outcome_wf o /\ (oc_Type o = OutcomeFailOpen -> cf_failurePolicy config <> FailClosed).
Proof.
  cbv zeta.
  destruct (Server_Verify_cases ck fqdn cert e) as [(r & e1 & -> & _)|(o & e1 & -> & Hf & _)].
  - pose proof (applyDANE_fields fqdn cert (server_verifyWithTLResponse r cert fqdn) e1) as Hfi.
    destruct (server_verify_match r cert fqdn) as (Hw & Hn & _).
    destruct (applyDANE fqdn cert _ e1) as [o' e']. destruct Hfi as (Hw' & _ & Hn' & _). cbn [fst].
    split; [auto|]. intros E. destruct (Hn (Hn' E)).
  - destruct Hf as (Hw & _ & Hn). auto.
Qed.

Lemma Client_Verify_wf (ck : clock) (cert : CertIdentity) (e : env) :
  let o := fst (Client_Verify config ck cert e) in
  outcome_wf o /\ (oc_Type o = OutcomeFailOpen -> cf_failurePolicy config <> FailClosed).
Proof.
  cbv zeta.
  destruct (Client_Verify_cases ck cert e) as [(a & f & r & e1 & _ & _ & -> & _)|(o & e1 & -> & Hf & _)].
  - pose proof (applyDANE_fields f cert (client_verifyWithTLResponse r cert) e1) as Hfi.
    destruct (client_verify_match r cert) as (Hw & Hn & _).
    destruct (applyDANE f cert _ e1) as [o' e']. destruct Hfi as (Hw' & _ & Hn' & _). cbn [fst].
    split; [auto|]. intros E. destruct (Hn (Hn' E)).
  - destruct Hf as (Hw & _ & Hn). auto.
Qed.

(** Under the strict policy a success is a verification. *)
Lemma Server_Verify_success (ck : clock) (fqdn : Fqdn) (cert : CertIdentity) (e : env) :
  cf_failurePolicy config = FailClosed ->
  IsSuccess (fst (Server_Verify config ck fqdn cert e)) = true ->
  oc_Type (fst (Server_Verify config ck fqdn cert e)) = OutcomeVerified.
Proof.
  intros Hp. destruct (Server_Verify_wf ck fqdn cert e) as [_ Hn]. unfold IsSuccess.
  destruct (oc_Type _); try discriminate; [reflexivity | destruct (Hn eq_refl Hp)].
Qed.

Lemma Client_Verify_success (ck : clock) (cert : CertIdentity) (e : env) :
  cf_failurePolicy config = FailClosed ->
  IsSuccess (fst (Client_Verify config ck cert e)) = true ->
  oc_Type (fst (Client_Verify config ck cert e)) = OutcomeVerified.
Proof.
  intros Hp. destruct (Client_Verify_wf ck cert e) as [_ Hn]. unfold IsSuccess.
  destruct (oc_Type _); try discriminate; [reflexivity | destruct (Hn eq_refl Hp)].
Qed.

(** C31: (the failure policy decides what a DNS failure means) when nothing
    usable is cached and the resolver fails with an error other than "not found",
    the outcome is the DNS error under fail-closed; success without verification
    under fail-open; and under fail-open-with-cache a success with the stale record
    of this host within the staleness bound, or else the error. The certificate
    plays no part in any of them. *)
Theorem Server_Verify_dns_failure (ck : clock) (fqdn : Fqdn) (cert : CertIdentity) (e : env)
    (err : goerror) (r : R) :
  cached_fqdn ck fqdn e = None ->
  dns_FindPreferredBadge (e_dns e) fqdn = (Err err, r) -> Is_ErrRecordNotFound err = false ->
  fst (Server_Verify config ck fqdn cert e) =
  match cf_failurePolicy config with
  | FailClosed => NewDNSErrorOutcome err
  | FailOpen => NewFailOpenOutcome (Some err)
  | FailOpenWithCache =>
      match e_cache e with
      | None => NewDNSErrorOutcome err
      | Some c =>
          match GetStaleByFqdn c (ck_stale ck) fqdn (MaxStaleness (cf_failurePolicyConfig config)) with
          | Some b => stale_outcome (cb_TLResponse b)
          | None => NewDNSErrorOutcome err
          end
      end
  end.
Proof.
  intros Hc Hd He. unfold Server_Verify, Server_fetch_and_verify, server_fetchTLResponse, fetch_with.
  rewrite Hc, Hd, He. cbn [fst]. unfold applyFailurePolicy, applyFailOpenWithCache, get_stale_response.
  destruct (cf_failurePolicy config); reflexivity.
Qed.

(** (errors and success agree) for every certificate and every state,
    [ToError] of the outcome is nil exactly when [IsSuccess] holds: no failed
    verification is converted to a nil error, no success to an error. *)
Theorem Verify_ToError (ck : clock) (fqdn : Fqdn) (cert : CertIdentity) (e : env) :
  (ToError (fst (Server_Verify config ck fqdn cert e)) = None <->
   IsSuccess (fst (Server_Verify config ck fqdn cert e)) = true) /\
  (ToError (fst (Client_Verify config ck cert e)) = None <->
   IsSuccess (fst (Client_Verify config ck cert e)) = true).
Proof.
  split; apply ToError_wf; [apply Server_Verify_wf | apply Client_Verify_wf].
Qed.

(** [Prefetch] under fail-open returns a nil response and a nil error when the
    resolver fails. *)
Lemma Prefetch_FailOpen_nil (ck : clock) (fqdn : Fqdn) (e : env) (err : goerror) (r : R) :
  cf_failurePolicy config = FailOpen -> cached_fqdn ck fqdn e = None ->
  dns_FindPreferredBadge (e_dns e) fqdn = (Err err, r) -> Is_ErrRecordNotFound err = false ->
  fst (Server_Prefetch config ck fqdn e) = (None, None).
Proof.
  intros Hp Hc Hd He. unfold Server_Prefetch, server_fetchTLResponse, fetch_with.
  rewrite Hc, Hd, He. unfold applyFailurePolicy. rewrite Hp. reflexivity.
Qed.

(** ** The cache *)

(** (a verified record is reused) after a fetched record was cached, and
    there was room for it, a later verification of the host within the TTL uses
    that record: the resolver and the log are not asked, unless the record does
    not list the certificate's fingerprint, in which case a fresh record is
    fetched (so a renewed server certificate is not refused for the TTL). *)
Theorem Server_Verify_reuses (ck ck' : clock) (fqdn : Fqdn) (cert : CertIdentity) (e e1 : env)
    (c : BadgeCache) (r : TLResponse) :
  e_cache e = Some c -> BadgeCache.entries c < MaxEntries (bc_config c) ->
  0 <= StaleRetention (bc_config c) -> ck_cleanup ck <= ck_get ck' ->
  ck_cleanup ck - StaleRetention (bc_config c) <= ck_insert ck + DefaultTTL (bc_config c) ->
  ck_get ck' <= ck_insert ck + DefaultTTL (bc_config c) ->
  e_dns e1 = e_dns e -> e_tlog e1 = e_tlog e -> e_cache e1 = e_cache (insert_fqdn ck fqdn r e) ->
  let o := server_verifyWithTLResponse r cert fqdn in
  if is_type OutcomeFingerprintMismatch o
  then Server_Verify config ck' fqdn cert e1 = Server_fetch_and_verify config ck' fqdn cert e1
  else
    Server_Verify config ck' fqdn cert e1 = applyDANE fqdn cert o e1 /\
    e_dns (snd (Server_Verify config ck' fqdn cert e1)) = e_dns e /\
    e_tlog (snd (Server_Verify config ck' fqdn cert e1)) = e_tlog e.
Proof.
  intros Hc Hroom Hret Hnow Hkeep Httl Hd Ht Hc1 o.
  assert (Hget : cached_fqdn ck' fqdn e1 = Some (badge_at (bc_config c) (ck_insert ck) r)).
  { unfold cached_fqdn. rewrite Hc1. unfold insert_fqdn, with_cache. cbn [e_cache]. rewrite Hc. cbn [option_map].
    rewrite get_after_insert by lia. rewrite decide_True by reflexivity.
    destruct (_ <? ck_get ck') eqn:E; [bool_hyps; lia | reflexivity]. }
  unfold Server_Verify. rewrite Hget. cbn [badge_at cb_TLResponse]. fold o.
  destruct (is_type _ o); cbn [negb]; [reflexivity|].
  split; [reflexivity|]. pose proof (applyDANE_fields fqdn cert o e1) as Hf.
  destruct (applyDANE fqdn cert o e1) as [o' e']. cbn [snd].
  destruct Hf as (_ & _ & _ & _ & _ & -> & ->). auto.
Qed.

(** ** SCITT *)

Section ScittProps.
Context `{CborLib} `{CryptoLib}.

(** What verified headers establish. *)
Definition scitt_evidence (role : certRole) (keys : KeyLookup) (h : Headers) (now : Z)
    (cert : CertIdentity) (fqdn : Fqdn) : Prop :=
  (exists vr, VerifyReceipt (h_Receipt h) keys = Ok vr) /\
  exists t, VerifyStatusTokenAt (h_StatusToken h) keys (cf_clockSkewTolerance config) now = Ok t /\
    token_binding role (vt_Payload t) cert fqdn.

Lemma verifyWithHeaders_spec (store : RefreshableKeyStore) (ck : clock) (fqdn : Fqdn) (cert : CertIdentity)
    (h : Headers) (role : certRole) fallback (e : env) :
  let '(o, e') := verifyWithHeaders config (Some (Refreshable_Get store)) ck fqdn cert h role fallback e in
  e' = e /\ (oc_Type o = OutcomeVerified \/ oc_Type o = OutcomeScittError /\ oc_Error o <> None) /\
  (oc_Type o = OutcomeVerified <->
   scitt_evidence role (Refreshable_Get store) h (ck_unix ck) cert fqdn).
Proof.
  unfold verifyWithHeaders, scitt_evidence.
  pose proof (safe_VerifyReceipt (h_Receipt h) _ (safe_Refreshable_Get store)) as Hs1.
  pose proof (safe_VerifyStatusTokenAt (h_StatusToken h) _ (cf_clockSkewTolerance config) (ck_unix ck)
                (safe_Refreshable_Get store)) as Hs2.
  destruct (VerifyReceipt _ _) as [vr|e1].
  2: { rewrite (Hs1 e1 eq_refl). split; [reflexivity|]. split; [right; split; [reflexivity | discriminate]|].
       split; [discriminate | intros [[vr [=]] _]]. }
  destruct (VerifyStatusTokenAt _ _ _ _) as [t|e1].
  2: { rewrite (Hs2 e1 eq_refl). split; [reflexivity|]. split; [right; split; [reflexivity | discriminate]|].
       split; [discriminate | intros (_ & t & [=] & _)]. }
  split; [reflexivity|]. split; [apply check_token_type|]. rewrite check_token_Verified. split.
  - eauto.
  - intros (_ & t' & [= <-] & Hb). exact Hb.
Qed.

(** C6: (SCITT is decisive) when a server presents a receipt and a status token
    and the keys come from a key store of the SDK, the outcome is "verified" or a
    SCITT error whatever the failure policy: never fail-open, never a fallback to
    the badge, and neither DNS, nor the log, nor the cache is touched. It is
    "verified" exactly if receipt and token verify and the token binds the
    certificate, as a server certificate, to the host. *)
Theorem Server_VerifyWithScitt_decisive (store : RefreshableKeyStore) (ck : clock) (fqdn : Fqdn)
    (cert : CertIdentity) (h : Headers) (e : env) :
  HasBoth h = true ->
  let '(o, e') := Server_VerifyWithScitt config (Some (Refreshable_Get store)) ck fqdn cert (Some h) e in
  e' = e /\ (oc_Type o = OutcomeVerified \/ oc_Type o = OutcomeScittError) /\
  (oc_Type o = OutcomeVerified <->
   scitt_evidence roleServer (Refreshable_Get store) h (ck_unix ck) cert fqdn).
Proof.
  intros Hb. unfold Server_VerifyWithScitt. rewrite Hb. cbn [negb].
  assert (Hne : Headers_IsEmpty h = false).
  { revert Hb. unfold HasBoth, Headers_IsEmpty, nonempty.
    destruct (length (h_Receipt h) =? 0)%nat; [discriminate | reflexivity]. }
  rewrite Hne.
  pose proof (verifyWithHeaders_spec store ck fqdn cert h roleServer (Server_Verify config ck fqdn cert) e) as Hs.
  destruct (verifyWithHeaders _ _ _ _ _ _ _ _ _) as [o e']. tauto.
Qed.

(** (roles do not mix) a certificate that a valid token lists only as an
    identity certificate is never accepted for a server, and one listed only as a
    server certificate is never accepted for a client. *)
Theorem Scitt_roles (store : RefreshableKeyStore) (ck : clock) (fqdn : Fqdn) (cert : CertIdentity)
    (h : Headers) (role : certRole) fallback (e : env) (t : VerifiedStatusToken) :
  VerifyStatusTokenAt (h_StatusToken h) (Refreshable_Get store) (cf_clockSkewTolerance config) (ck_unix ck) = Ok t ->
  matches_role role (vt_Payload t) (fp_bytes (Fingerprint cert)) = false ->
  oc_Type (fst (verifyWithHeaders config (Some (Refreshable_Get store)) ck fqdn cert h role fallback e))
  = OutcomeScittError.
Proof.
  intros Ht Hm.
  pose proof (verifyWithHeaders_spec store ck fqdn cert h role fallback e) as Hs.
  destruct (verifyWithHeaders _ _ _ _ _ _ _ _ _) as [o e']. cbn [fst]. destruct Hs as (_ & [Ho|[Ho _]] & Hv); [|exact Ho].
  apply Hv in Ho as (_ & t' & Et & _ & Hc & _). assert (t' = t) as -> by congruence.
  apply matches_role_spec in Hc. congruence.
Qed.

(** The SCITT path never adds a fail-open outcome. *)
Lemma verifyWithHeaders_closed (keys : option KeyLookup) (ck : clock) (fqdn : Fqdn) (cert : CertIdentity)
    (h : Headers) (role : certRole) (fallback : env -> VerificationOutcome * env) (e : env) :
  (forall e, oc_Type (fst (fallback e)) = OutcomeFailOpen -> cf_failurePolicy config <> FailClosed) ->
  oc_Type (fst (verifyWithHeaders config keys ck fqdn cert h role fallback e)) = OutcomeFailOpen ->
  cf_failurePolicy config <> FailClosed.
Proof.
  intros Hfb. unfold verifyWithHeaders. destruct keys as [k|]; [|discriminate].
  destruct (VerifyReceipt _ k) as [vr|err]; [|destruct (should_fall_back err); [apply Hfb | discriminate]].
  destruct (VerifyStatusTokenAt _ k _ _) as [t|err]; [|destruct (should_fall_back err); [apply Hfb | discriminate]].
  cbn [fst]. destruct (check_token_type role fqdn cert t) as [E|[E _]]; rewrite E; discriminate.
Qed.

(** C21: (fail-closed never lets anything through) under the default policy a
    server or client verification, by badge or by SCITT with any key lookup,
    succeeds only as "verified". *)
Theorem FailClosed_strict (keys : option KeyLookup) (ck : clock) (fqdn : Fqdn) (cert : CertIdentity)
    (h : option Headers) (e : env) :
  cf_failurePolicy config = FailClosed ->
  (IsSuccess (fst (Server_VerifyWithScitt config keys ck fqdn cert h e)) = true ->
   oc_Type (fst (Server_VerifyWithScitt config keys ck fqdn cert h e)) = OutcomeVerified) /\
  (IsSuccess (fst (Client_VerifyWithScitt config keys ck cert h e)) = true ->
   oc_Type (fst (Client_VerifyWithScitt config keys ck cert h e)) = OutcomeVerified).
Proof.
  intros Hp.
  assert (Hclosed : forall o, (oc_Type o = OutcomeFailOpen -> cf_failurePolicy config <> FailClosed) ->
            IsSuccess o = true -> oc_Type o = OutcomeVerified).
  { intros o Hw. unfold IsSuccess. destruct (oc_Type o); (reflexivity || discriminate || idtac).
    destruct (Hw eq_refl Hp). }
  assert (Hs : forall e, oc_Type (fst (Server_Verify config ck fqdn cert e)) = OutcomeFailOpen ->
            cf_failurePolicy config <> FailClosed) by (intros; eapply Server_Verify_wf; eassumption).
  assert (Hc : forall e, oc_Type (fst (Client_Verify config ck cert e)) = OutcomeFailOpen ->
            cf_failurePolicy config <> FailClosed) by (intros; eapply Client_Verify_wf; eassumption).
  split; apply Hclosed.
  - unfold Server_VerifyWithScitt. destruct h as [h|]; [|apply Hs].
    destruct (Headers_IsEmpty h); [apply Hs|]. destruct (negb (HasBoth h)); [discriminate|]. apply verifyWithHeaders_closed, Hs.
  - unfold Client_VerifyWithScitt. destruct h as [h|]; [|apply Hc].
    destruct (Headers_IsEmpty h); [apply Hc|]. destruct (negb (HasBoth h)); [discriminate|].
    destruct (CertIdentity_FQDN cert) as [s|]; [|discriminate].
    destruct (NewFqdn s) as [f|err]; [|discriminate].
    destruct (CertIdentity_ATIName cert); [|discriminate]. apply verifyWithHeaders_closed, Hc.
Qed.

End ScittProps.
End Properties.

(** ** Concrete collaborators *)

#[local] Existing Instance plain_tables.
#[local] Existing Instance symbolic_crypto.
#[local] Existing Instance symbolic_cbor.

Definition sample_host : Fqdn := MkFqdn "a.example".
Definition sample_badge : ATIBadgeRecord :=
  MkATIBadgeRecord "ati-badge1" (Some (MkVersion 1 0 0)) "https://tl.example/1" BadgeRecordSourceATIBadge.

(** A resolver that works or times out, a log with one record, a DANE resolver
    that gives one answer. *)
#[local] Instance sample_DNS : DNSResolver bool := {|
  dns_FindBadgeForVersion up f v := (if up : bool then Ok (Some sample_badge) else Err (EDNS DNSErrorTimeout "" ""), up);
  dns_FindPreferredBadge up f := (if up : bool then Ok (Some sample_badge) else Err (EDNS DNSErrorTimeout "" ""), up);
  dns_LookupATIDiscovery up f := (Ok (MkDiscovery up []), up)
|}.

Definition sample_fp_text : string := Fingerprint_String (MkFp sample_fp).
Definition sample_record (status : string) : TLResponse :=
  MkTLResponse status "" (MkTLPayload "" "" "" "ati://v1.0.0.a.example" "" "a.example" "" "v1.0.0" "1"
      status (MkTLCertificates sample_fp_text sample_fp_text "" ""))
    (MkEvidenceRef "" "" "" "" "" "" "" "" "" false) (MkTLSeal "" "" "" "" "" "" "")
    (MkMerkleProof "" "" "" 0 0 0 []) "" None None None None.

#[local] Instance sample_TLog : TransparencyLogClient unit := {|
  FetchTLResponse u url :=
    (if String.eqb url "https://tl.example/1" then Ok (sample_record "ACTIVE")
     else Err (ETlog TlogErrorNotFound url "" 404), u)
|}.

#[local] Instance sample_DANE : DANEResolver TLSALookupResult := {|
  dane_LookupTLSA d f p := (Ok d, d); dane_LookupIdentityTLSA d f := (Ok d, d)
|}.

Definition sample_identity (fp : CertFingerprint) : CertIdentity :=
  NewCertIdentity (Some "a.example") ["a.example"] ["ati://v1.0.0.a.example"] fp.
Definition sample_cert : CertIdentity := sample_identity (MkFp sample_fp).
Definition other_cert : CertIdentity := sample_identity zero_fp.

Definition sample_clock (t : Z) : clock := MkClock t t t t t keys_order.
Definition sample_env (up : bool) : env bool unit TLSALookupResult :=
  MkEnv up tt None (Some (NewBadgeCache sample_cfg)).

(** The state after the sample host was verified and then its DNS went down. *)
Definition warm_env : env bool unit TLSALookupResult :=
  let e := snd (Server_Verify defaultConfig (sample_clock 0) sample_host sample_cert (sample_env true)) in
  MkEnv false tt (e_dane e) (e_cache e).

Example Server_Verify_ex :
  oc_Type (fst (Server_Verify defaultConfig (sample_clock 0) sample_host sample_cert (sample_env true)))
  = OutcomeVerified.
Proof. vm_compute. reflexivity. Qed.

(** DANE overrides: a validated TLSA record for another key rejects. *)
Example Server_Verify_dane_rejects :
  oc_Type (fst (Server_Verify defaultConfig (sample_clock 0) sample_host sample_cert
    (MkEnv true tt (Some (MkTLSALookup true [MkTLSARecord 3 1 1 "00"] true)) None))) = OutcomeDANERejection.
Proof. vm_compute. reflexivity. Qed.

(** Fail-open with cache does not compare the certificate with the stale
    record: an intruder's certificate, which the record refutes, is a success
    once DNS is down and the entry has expired. *)
Example FailOpenWithCache_unchecked :
  let config := WithFailurePolicy FailOpenWithCache defaultConfig in
  let o := fst (Server_Verify config (sample_clock (2 * minute)) sample_host other_cert warm_env) in
  IsSuccess o = true /\
  oc_Type (server_verifyWithTLResponse (sample_record "ACTIVE") other_cert sample_host)
    = OutcomeFingerprintMismatch /\ oc_TLResponse o = Some (sample_record "ACTIVE").
Proof. vm_compute. auto. Qed.

(** ** Witnesses *)

Lemma warm_env_reachable : env_reachable defaultConfig warm_env.
Proof. apply env_outside, env_server, (env_new defaultConfig true tt None (Some sample_cfg)). Qed.

Lemma Server_Verify_sound_witness :
  exists r, oc_TLResponse (fst (Server_Verify defaultConfig (sample_clock minute) sample_host sample_cert warm_env))
    = Some r /\ server_binding r sample_cert sample_host.
Proof.
  destruct (Server_Verify_sound defaultConfig (sample_clock minute) sample_host sample_cert warm_env)
    as (_ & _ & r & Hr & _ & Hb).
  - apply warm_env_reachable.
  - vm_compute. reflexivity.
  - exists r. split; [exact Hr | exact Hb].
Defined.

Lemma Client_Verify_sound_witness :
  exists r, oc_TLResponse (fst (Client_Verify defaultConfig (sample_clock 0) sample_cert (sample_env true)))
    = Some r /\ client_binding r sample_cert.
Proof.
  destruct (Client_Verify_sound defaultConfig (sample_clock 0) sample_cert (sample_env true))
    as (_ & _ & r & _ & _ & Hr & _ & Hb & _).
  - exact (env_new defaultConfig true tt None (Some sample_cfg)).
  - vm_compute. reflexivity.
  - exists r. split; [exact Hr | exact Hb].
Defined.

Lemma Server_Verify_dns_failure_witness :
  fst (Server_Verify (WithFailurePolicy FailOpen defaultConfig) (sample_clock 0) sample_host other_cert
         (sample_env false)) = NewFailOpenOutcome (Some (EDNS DNSErrorTimeout "" "")).
Proof.
  rewrite (Server_Verify_dns_failure (WithFailurePolicy FailOpen defaultConfig) (sample_clock 0) sample_host
    other_cert (sample_env false) (EDNS DNSErrorTimeout "" "") false); vm_compute; reflexivity.
Defined.

Lemma Server_Verify_reuses_witness :
  oc_Type (fst (Server_Verify defaultConfig (sample_clock 5) sample_host sample_cert warm_env)) = OutcomeVerified.
Proof.
  pose proof (Server_Verify_reuses defaultConfig (sample_clock 0) (sample_clock 5) sample_host sample_cert
    (sample_env false) warm_env (NewBadgeCache sample_cfg) (sample_record "ACTIVE")) as Hr.
  cbv zeta in Hr.
  assert (E : is_type OutcomeFingerprintMismatch
    (server_verifyWithTLResponse (sample_record "ACTIVE") sample_cert sample_host) = false)
    by (vm_compute; reflexivity).
  rewrite E in Hr.
  destruct Hr as [Hr _]; [..|rewrite Hr]; vm_compute; (reflexivity || discriminate).
Defined.

Definition root_store : RefreshableKeyStore :=
  snd (DoRefresh (Ok [c2sp "tl" sample_root_key]) 0 (NewRefreshableKeyStore (MkKeyStore ∅) true 100)).
Definition sample_headers : Headers := MkHeaders [x09] [x12].

Lemma Server_VerifyWithScitt_decisive_witness :
  scitt_evidence defaultConfig roleServer (Refreshable_Get root_store) sample_headers 100 sample_cert sample_host.
Proof.
  pose proof (Server_VerifyWithScitt_decisive defaultConfig root_store (sample_clock 100) sample_host sample_cert
    sample_headers (sample_env false) eq_refl) as Hd.
  assert (Ho : oc_Type (fst (Server_VerifyWithScitt defaultConfig (Some (Refreshable_Get root_store))
    (sample_clock 100) sample_host sample_cert (Some sample_headers) (sample_env false))) = OutcomeVerified)
    by (vm_compute; reflexivity).
  destruct (Server_VerifyWithScitt _ _ _ _ _ _ _) as [o e']. destruct Hd as (_ & _ & Hd).
  exact (proj1 Hd Ho).
Defined.

Lemma Scitt_roles_witness :
  oc_Type (fst (verifyWithHeaders defaultConfig (Some (Refreshable_Get root_store)) (sample_clock 100) sample_host
    sample_cert sample_headers roleIdentity (fun e => (NewFailOpenOutcome None, e)) (sample_env false)))
  = OutcomeScittError.
Proof.
  apply (Scitt_roles defaultConfig root_store (sample_clock 100) sample_host sample_cert sample_headers
    roleIdentity (fun e => (NewFailOpenOutcome None, e)) (sample_env false) sample_token).
  - vm_compute. reflexivity.
  - vm_compute. reflexivity.
Defined.

Lemma FailClosed_strict_witness :
  oc_Type (fst (Client_VerifyWithScitt defaultConfig None (sample_clock 0) sample_cert None (sample_env true)))
  = OutcomeVerified.
Proof.
  apply (proj2 (FailClosed_strict defaultConfig None (sample_clock 0) sample_host sample_cert None
    (sample_env true) eq_refl)).
  vm_compute. reflexivity.
Defined.
