(* ===== verification/Pinning.v ===== *)
(** Which URLs the verifiers fetch. A resolver promises (class
    [SafeDNSResolver]) that the badges it returns are well formed; the resolver of
    the SDK keeps the promise; and a verifier with a trusted log host asks no
    other host. The requests are seen by a recording client around any client. *)

From S2P Require Import Prelude GoStrings Errors Models Cert Url Records Resolver Dnssec Dane.
From S2P Require Import BadgeCache Cose KeyStore Receipt StatusToken Headers Outcome Verifier VerifierLemmas.

#[local] Open Scope list_scope.
#[local] Open Scope string_scope.
#[local] Open Scope Z_scope.

(** The promise of a resolver: an invariant its methods keep, under which every
    record returned is safe. *)
Class SafeDNSResolver `{UnicodeTables} (R : Type) `{DNSResolver R} := {
  dns_inv : R -> Prop;
  dns_preferred_inv r f : dns_inv r -> dns_inv (snd (dns_FindPreferredBadge r f));
  dns_version_inv r f v : dns_inv r -> dns_inv (snd (dns_FindBadgeForVersion r f v));
  dns_preferred_safe r f b :
    dns_inv r -> fst (dns_FindPreferredBadge r f) = Ok (Some b) -> badge_record_safe b;
  dns_version_safe r f v b :
    dns_inv r -> fst (dns_FindBadgeForVersion r f v) = Ok (Some b) -> badge_record_safe b
}.

(** A client that records the URLs it is asked for, latest first. *)
#[export] Instance recording {T : Type} `{TransparencyLogClient T} : TransparencyLogClient (T * list string) := {|
  FetchTLResponse := fun '(t, urls) url =>
    let '(res, t') := FetchTLResponse t url in (res, (t', url :: urls))
|}.

Section Pinning.
Context `{UnicodeTables} {R T D : Type} `{DNSResolver R} `{!SafeDNSResolver R} `{TransparencyLogClient T} `{DANEResolver D}.
Variable config : verifierConfig.

(** A trusted host as the options take it: DNS characters, no port. *)
Definition plain_host (h : string) : Prop :=
  h <> "" /\ str_forallb is_host_char h = true /\ contains_char ":" h = false.

(** An https URL of exactly that host. *)
Definition pinned_to (h url : string) : Prop :=
  exists port tail,
    url = "https://" ++ h ++ port ++ tail /\ after_authority tail /\
    (port = "" \/ exists digits, port = ":" ++ digits /\ str_forallb is_digit digits = true).

Lemma rewriteTLHost_pinned (u : string) :
  plain_host (cf_trustedTLHost config) -> badge_url_safe u ->
  pinned_to (cf_trustedTLHost config) (rewriteTLHost config u).
Proof.
  intros (H1' & H2' & H3') (p & Hp & Hs & Hh & Hu & _). unfold rewriteTLHost.
  destruct (String.eqb _ "") eqn:E; bool_hyps; [contradiction|].
  destruct (rewrite_host u (cf_trustedTLHost config) p) as (port & tail & -> & Hport & Hd & Ha);
    try assumption; [rewrite Hs; discriminate|].
  exists port, tail. split; [rewrite Hs; reflexivity|]. split; [exact Ha|].
  rewrite Hport. destruct (String.eqb (Port p) ""); [left; reflexivity | right; eauto].
Qed.

Notation env := (env R (T * list string) D).

(** The state invariant: the resolver's, and every URL asked so far is pinned. *)
Definition requests_ok (e : env) : Prop :=
  dns_inv (e_dns e) /\ Forall (pinned_to (cf_trustedTLHost config)) (snd (e_tlog e)).

Definition safe_lookup (lookup : R -> result goerror (option ATIBadgeRecord) * R) : Prop :=
  forall r, dns_inv r ->
    dns_inv (snd (lookup r)) /\ forall b, fst (lookup r) = Ok (Some b) -> badge_record_safe b.

Lemma fetch_requests_ok lookup (ck : clock) (f : Fqdn) (v : option Version) (e : env) :
  plain_host (cf_trustedTLHost config) -> safe_lookup lookup -> requests_ok e ->
  requests_ok (snd (fetch_with config lookup ck f v e)).
Proof.
  intros Hh Hl [Hd Ht]. unfold fetch_with. destruct (Hl _ Hd) as [Hd' Hb].
  destruct (lookup (e_dns e)) as [[[b|]|err] r]; cbn [fst snd] in *.
  - specialize (Hb b eq_refl). destruct Hb as [_ Hb]. cbn [FetchTLResponse recording e_tlog e_dns].
    destruct (e_tlog e) as [t urls]. cbn [snd] in Ht.
    destruct (FetchTLResponse t _) as [[tl|err] t'];
      (split; [exact Hd'|]; constructor; [apply rewriteTLHost_pinned; assumption | exact Ht]).
  - split; assumption.
  - destruct (Is_ErrRecordNotFound err); split; assumption.
Qed.

Lemma applyDANE_requests (f : Fqdn) (cert : CertIdentity) (o : VerificationOutcome) (e : env) :
  requests_ok e -> requests_ok (snd (applyDANE f cert o e)).
Proof.
  intros He. pose proof (applyDANE_fields f cert o e) as Hf. destruct (applyDANE f cert o e) as [o' e'].
  destruct Hf as (_ & _ & _ & _ & _ & Hd & Ht). unfold requests_ok in *. cbn [snd]. rewrite Hd, Ht. exact He.
Qed.

Lemma preferred_safe (f : Fqdn) : safe_lookup (fun r => dns_FindPreferredBadge r f).
Proof. intros r Hr. split; [apply dns_preferred_inv, Hr | intros b; apply dns_preferred_safe, Hr]. Qed.

Lemma version_safe (f : Fqdn) (v : Version) : safe_lookup (fun r => dns_FindBadgeForVersion r f v).
Proof. intros r Hr. split; [apply dns_version_inv, Hr | intros b; apply dns_version_safe, Hr]. Qed.

Lemma Server_Verify_requests (ck : clock) (f : Fqdn) (cert : CertIdentity) (e : env) :
  plain_host (cf_trustedTLHost config) -> requests_ok e ->
  requests_ok (snd (Server_Verify config ck f cert e)).
Proof.
  intros Hh He.
  assert (Hfetch : requests_ok (snd (Server_fetch_and_verify config ck f cert e))).
  { unfold Server_fetch_and_verify, server_fetchTLResponse.
    pose proof (fetch_requests_ok _ ck f None e Hh (preferred_safe f) He) as Hf.
    destruct (fetch_with _ _ _ _ _ _) as [[tl|o] e1]; [|exact Hf]. apply applyDANE_requests, Hf. }
  unfold Server_Verify. destruct (cached_fqdn ck f e); [|exact Hfetch].
  destruct (negb _); [apply applyDANE_requests, He | exact Hfetch].
Qed.

Lemma Client_Verify_requests (ck : clock) (cert : CertIdentity) (e : env) :
  plain_host (cf_trustedTLHost config) -> requests_ok e ->
  requests_ok (snd (Client_Verify config ck cert e)).
Proof.
  intros Hh He. unfold Client_Verify. destruct (CertIdentity_FQDN cert); [|exact He].
  destruct (CertIdentity_ATIName cert) as [a|]; [|exact He].
  destruct (NewFqdn (an_Host a)) as [f|]; [|exact He].
  destruct (cached_version ck f (an_Version a) e); [apply applyDANE_requests, He|].
  unfold client_fetchTLResponse.
  pose proof (fetch_requests_ok _ ck f (Some (an_Version a)) e Hh (version_safe f (an_Version a)) He) as Hf.
  destruct (fetch_with _ _ _ _ _ _) as [[tl|o] e1]; [|exact Hf]. apply applyDANE_requests, Hf.
Qed.

Lemma Prefetch_requests (ck : clock) (f : Fqdn) (e : env) :
  plain_host (cf_trustedTLHost config) -> requests_ok e ->
  requests_ok (snd (Server_Prefetch config ck f e)).
Proof.
  intros Hh He. unfold Server_Prefetch. destruct (cached_fqdn ck f e); [exact He|].
  unfold server_fetchTLResponse.
  pose proof (fetch_requests_ok _ ck f None e Hh (preferred_safe f) He) as Hf.
  destruct (fetch_with _ _ _ _ _ _) as [[tl|o] e1]; exact Hf.
Qed.

(** Any sequence of verifications and prefetches. *)
Inductive calls : env -> env -> Prop :=
| calls_nil e : calls e e
| calls_server ck f cert e e' : calls e e' -> calls e (snd (Server_Verify config ck f cert e'))
| calls_client ck cert e e' : calls e e' -> calls e (snd (Client_Verify config ck cert e'))
| calls_prefetch ck f e e' : calls e e' -> calls e (snd (Server_Prefetch config ck f e')).

(** C26: (the trusted host is the only one asked) with a trusted log host
    configured and a resolver that keeps its promise, over any sequence of
    verifications and prefetches every URL requested from the log client is an
    https URL of exactly that host, whatever hosts the badge records name. *)
Theorem requests_pinned (e e' : env) :
  plain_host (cf_trustedTLHost config) -> dns_inv (e_dns e) -> snd (e_tlog e) = [] -> calls e e' ->
  Forall (pinned_to (cf_trustedTLHost config)) (snd (e_tlog e')).
Proof.
  intros Hh Hd Ht Hc. assert (He : requests_ok e) by (split; [exact Hd | rewrite Ht; constructor]).
  assert (He' : requests_ok e').
  { induction Hc; [exact He | apply Server_Verify_requests | apply Client_Verify_requests
                  | apply Prefetch_requests]; auto. }
  apply He'.
Qed.

End Pinning.

(** ** The resolver of the SDK keeps the promise *)

Section Standard.
Context `{UnicodeTables} `{BadgeSort}.

#[export] Instance Standard_SafeDNSResolver : SafeDNSResolver standard_resolver.
Proof.
  refine {| dns_inv := fun r : standard_resolver => resolver_ok (fst r) |}.
  - intros [r calls] f Hr. cbn [dns_FindPreferredBadge Standard_DNSResolver]. destruct (next_call calls) as [c rest].
    pose proof (FindPreferredBadge_ok (dc_LookupTXT c) r (dc_t1 c) (dc_t2 c) f Hr) as [Hk _].
    destruct (FindPreferredBadge _ _ _ _ _) as [res r']. exact Hk.
  - intros [r calls] f v Hr. cbn [dns_FindBadgeForVersion Standard_DNSResolver]. destruct (next_call calls) as [c rest].
    pose proof (FindBadgeForVersion_ok (dc_LookupTXT c) r (dc_t1 c) (dc_t2 c) f v Hr) as [Hk _].
    destruct (FindBadgeForVersion _ _ _ _ _ _) as [res r']. exact Hk.
  - intros [r calls] f b Hr. cbn [dns_FindPreferredBadge Standard_DNSResolver]. destruct (next_call calls) as [c rest].
    pose proof (FindPreferredBadge_ok (dc_LookupTXT c) r (dc_t1 c) (dc_t2 c) f Hr) as [_ Hb].
    destruct (FindPreferredBadge _ _ _ _ _) as [[b'|e] r']; [|discriminate]. intros [= <-]. apply Hb. reflexivity.
  - intros [r calls] f v b Hr. cbn [dns_FindBadgeForVersion Standard_DNSResolver]. destruct (next_call calls) as [c rest].
    pose proof (FindBadgeForVersion_ok (dc_LookupTXT c) r (dc_t1 c) (dc_t2 c) f v Hr) as [_ Hb].
    destruct (FindBadgeForVersion _ _ _ _ _ _) as [[b'|e] r']; [|discriminate]. intros [= <-]. apply Hb. reflexivity.
Defined.

End Standard.

(** ** A run over the SDK's resolver *)

#[local] Existing Instance plain_tables.
#[local] Existing Instance insertion_BadgeSort.

#[local] Instance failing_TLog : TransparencyLogClient unit := {|
  FetchTLResponse u url := (Err (ETlog TlogErrorServiceUnavailable url "" 503), u)
|}.
#[local] Instance no_DANE : DANEResolver unit := {|
  dane_LookupTLSA d f p := (Err (EPlain "no resolver"), d);
  dane_LookupIdentityTLSA d f := (Err (EPlain "no resolver"), d)
|}.

(** The DNS answers with a record that names a hostile host. *)
Definition hostile_dns : dns_call :=
  MkDnsCall (fun _ => Ok ["v=ati-badge1; av=1.0.0; url=https://evil.example:8443/x?y=1"]%list) 0 1.
Definition pinned_env : Verifier.env standard_resolver (unit * list string) unit :=
  MkEnv (NewStandardDNSResolver, [hostile_dns]%list) (tt, []%list) None None.
Definition any_cert : CertIdentity := NewCertIdentity None []%list []%list zero_fp.
Definition any_clock : clock := MkClock 0 0 0 0 0 keys_order.
Definition asked (config : verifierConfig) : list string :=
  snd (e_tlog (snd (Server_Verify config any_clock (MkFqdn "a.example") any_cert pinned_env))).

Example asked_trusted :
  asked (WithTrustedTLHost "tl.example" defaultConfig) = ["https://tl.example:8443/x?y=1"]%list.
Proof. vm_compute. reflexivity. Qed.

(** Without the option nothing is rewritten: the default configuration asks the
    host the record names. *)
Example asked_default : asked defaultConfig = ["https://evil.example:8443/x?y=1"]%list.
Proof. vm_compute. reflexivity. Qed.

Lemma requests_pinned_witness :
  Forall (pinned_to "tl.example") (asked (WithTrustedTLHost "tl.example" defaultConfig)).
Proof.
  apply (requests_pinned (WithTrustedTLHost "tl.example" defaultConfig) pinned_env).
  - split; [discriminate | split; reflexivity].
  - apply map_Forall_empty.
  - reflexivity.
  - apply calls_server, calls_nil.
Defined.
