(* ===== verification/AtiServer.v ===== *)
(** The agent server ([ati/verification_policy.go], [ati/trust_level.go],
    [ati/server.go]): the options, the TLS configuration they give, and the
    callback that decides on a client's certificate. The TLS library verifies the
    certificate chain before the callback runs, when [ClientAuth] asks for it. *)

From S2P Require Import Prelude GoStrings Encoding Sha256 Errors Models Cert Url Records Resolver.
From S2P Require Import Dnssec Dane Http Crl.
From S2P Require Import BadgeCache Cose KeyStore Receipt StatusToken Headers Outcome Verifier.
From S2P Require Import VerifierLemmas VerifierProps.

#[local] Open Scope string_scope.
#[local] Open Scope list_scope.
#[local] Open Scope Z_scope.

(** ** [verification_policy.go]: levels are integers *)

Definition VerificationPolicy : Type := Z.
Definition PolicyBasic : VerificationPolicy := 0.
Definition PolicyEnhanced : VerificationPolicy := 1.
Definition PolicyAdvanced : VerificationPolicy := 2.
Definition PolicyNone : VerificationPolicy := -1.

Definition TrustLevel : Type := VerificationPolicy.
Definition PKIOnly : TrustLevel := PolicyBasic.
Definition BadgeRequired : TrustLevel := PolicyEnhanced.
Definition DANEAndBadge : TrustLevel := PolicyAdvanced.

Definition HasBadgeVerification (p : VerificationPolicy) : bool := PolicyEnhanced <=? p.
Definition HasDANEVerification (p : VerificationPolicy) : bool := PolicyAdvanced <=? p.
Definition ValidForClient (p : VerificationPolicy) : bool :=
  (p =? PolicyNone) || (PolicyBasic <=? p) && (p <=? PolicyAdvanced).
Definition ValidForServer (p : VerificationPolicy) : bool :=
  (p =? PolicyNone) || (PolicyBasic <=? p) && (p <=? PolicyAdvanced).

Definition DisplayName (p : VerificationPolicy) : string :=
  if p =? PolicyNone then "L0 None" else if p =? PolicyBasic then "L1 Basic"
  else if p =? PolicyEnhanced then "L2 Enhanced" else if p =? PolicyAdvanced then "L3 Advanced"
  else "Unknown(%d)".
Definition Policy_String (p : VerificationPolicy) : string :=
  if p =? PolicyNone then "NONE" else if p =? PolicyBasic then "BASIC"
  else if p =? PolicyEnhanced then "ENHANCED" else if p =? PolicyAdvanced then "ADVANCED"
  else "VerificationPolicy(%d)".

(** ** Parts the operating system and the TLS library provide *)

Inductive ClientAuthType := NoClientCert | RequireAndVerifyClientCert.

(** Files and PEM decoding; a pool is [None] when no certificate is in it. *)
Record Files (KeyPair CertPool : Type) := MkFiles {
  LoadX509KeyPair : string -> string -> result goerror KeyPair;
  ReadFile : string -> result goerror (list byte);
  AppendCertsFromPEM : list byte -> option CertPool;
  embeddedIdcaChainPEM : list byte
}.
Arguments MkFiles {KeyPair CertPool}.
Arguments LoadX509KeyPair {KeyPair CertPool}.
Arguments ReadFile {KeyPair CertPool}.
Arguments AppendCertsFromPEM {KeyPair CertPool}.
Arguments embeddedIdcaChainPEM {KeyPair CertPool}.

Definition loadEmbeddedIdcaChain {K P : Type} (fs : Files K P) : result goerror P :=
  match AppendCertsFromPEM fs (embeddedIdcaChainPEM fs) with
  | Some pool => Ok pool
  | None => Err (EPlain "embedded IDCA chain contains no valid PEM certificates")
  end.

(** The bundle the two configurations read. *)
Definition load_bundle {K P : Type} (fs : Files K P) (caBundleFile : string) : result goerror P :=
  match ReadFile fs caBundleFile with
  | Err readErr => Err (EWrap "无法读取 CA bundle %s: %w" readErr)
  | Ok pem =>
      match AppendCertsFromPEM fs pem with
      | Some pool => Ok pool
      | None => Err (EPlain "%s 不包含有效的 PEM 证书")
      end
  end.

Definition nil_dereference_panic : goerror := EPlain "panic: nil pointer dereference".

Section Server.
Context `{UnicodeTables} {R T D : Type} `{DNSResolver R} `{TransparencyLogClient T} `{DANEResolver D} `{X509Lib}.

(** What the constructors of the SDK give when an option is not set: the DNS
    resolver, the log client, and a DANE resolver for a DNS server name. *)
Record Defaults := MkDefaults { df_dns : R; df_tlog : T; df_dane : string -> D; globalDNSServer : string }.

(** ** Options *)

(** [clientVerifier] is its environment; the HTTP client of the CRL checker is an
    argument of the callback. [peerLevels] maps fingerprints to levels. *)
Record serverConfig := MkServerConfig {
  serverCertFile : string;
  privateKeyFile : string;
  caBundleFile : string;
  trustLevel : option TrustLevel;
  dnsResolver : option R;
  daneResolver : option D;
  tlogClient : option T;
  clientVerifier : option (env R T D);
  peerLevels : gmap string TrustLevel;
  crlEnabled : option bool;
  crlChecker : option Fetcher
}.

Definition set_daneResolver (d : option D) (c : serverConfig) : serverConfig :=
  MkServerConfig (serverCertFile c) (privateKeyFile c) (caBundleFile c) (trustLevel c) (dnsResolver c) d
    (tlogClient c) (clientVerifier c) (peerLevels c) (crlEnabled c) (crlChecker c).
Definition set_clientVerifier (e : env R T D) (c : serverConfig) : serverConfig :=
  MkServerConfig (serverCertFile c) (privateKeyFile c) (caBundleFile c) (trustLevel c) (dnsResolver c)
    (daneResolver c) (tlogClient c) (Some e) (peerLevels c) (crlEnabled c) (crlChecker c).
Definition set_crlChecker (f : option Fetcher) (c : serverConfig) : serverConfig :=
  MkServerConfig (serverCertFile c) (privateKeyFile c) (caBundleFile c) (trustLevel c) (dnsResolver c)
    (daneResolver c) (tlogClient c) (clientVerifier c) (peerLevels c) (crlEnabled c) f.
Definition set_peerLevels (m : gmap string TrustLevel) (c : serverConfig) : serverConfig :=
  MkServerConfig (serverCertFile c) (privateKeyFile c) (caBundleFile c) (trustLevel c) (dnsResolver c)
    (daneResolver c) (tlogClient c) (clientVerifier c) m (crlEnabled c) (crlChecker c).
Definition set_trustLevel (l : option TrustLevel) (c : serverConfig) : serverConfig :=
  MkServerConfig (serverCertFile c) (privateKeyFile c) (caBundleFile c) l (dnsResolver c)
    (daneResolver c) (tlogClient c) (clientVerifier c) (peerLevels c) (crlEnabled c) (crlChecker c).

Inductive ServerOption :=
| WithServerCert (serverCert privateKey : string)
| WithClientCA (caBundle : string)
| WithClientVerifier (level : TrustLevel)
| WithPeerLevelStore (store : gmap string TrustLevel)
| WithCRLCheck
| WithCRLCheckDisabled
| WithServerDANEResolver (r : D).

Definition apply_option (opt : ServerOption) (c : serverConfig) : result goerror serverConfig :=
  let crl b := MkServerConfig (serverCertFile c) (privateKeyFile c) (caBundleFile c) (trustLevel c)
    (dnsResolver c) (daneResolver c) (tlogClient c) (clientVerifier c) (peerLevels c) (Some b) (crlChecker c) in
  match opt with
  | WithServerCert serverCert privateKey =>
      Ok (MkServerConfig serverCert privateKey (caBundleFile c) (trustLevel c) (dnsResolver c)
            (daneResolver c) (tlogClient c) (clientVerifier c) (peerLevels c) (crlEnabled c) (crlChecker c))
  | WithClientCA caBundle =>
      Ok (MkServerConfig (serverCertFile c) (privateKeyFile c) caBundle (trustLevel c) (dnsResolver c)
            (daneResolver c) (tlogClient c) (clientVerifier c) (peerLevels c) (crlEnabled c) (crlChecker c))
  | WithClientVerifier level =>
      guard! ValidForServer level orelse EPlain "trust level %s is not supported for server" in
      Ok (set_trustLevel (Some level) c)
  | WithPeerLevelStore store => Ok (set_peerLevels store c)
  | WithCRLCheck => Ok (crl true)
  | WithCRLCheckDisabled => Ok (crl false)
  | WithServerDANEResolver r => Ok (set_daneResolver (Some r) c)
  end.

Fixpoint apply_options (opts : list ServerOption) (c : serverConfig) : result goerror serverConfig :=
  match opts with
  | [] => Ok c
  | opt :: rest => let? c := apply_option opt c in apply_options rest c
  end.

Definition new_config : serverConfig := MkServerConfig "" "" "" None None None None None ∅ None None.

(** ** [NewServerTLSConfig] *)

Definition shouldEnableCRL (c : serverConfig) : bool :=
  match crlEnabled c with
  | Some enabled => enabled
  | None => match trustLevel c with Some l => negb (l =? PolicyNone) | None => false end
  end.

(** The verifier the callback uses: strict, with the trusted log host, without
    cache and without DANE. *)
Definition clientVerifierConfig : verifierConfig := WithTrustedTLHost DefaultTrustedTLHost defaultConfig.

Record tlsServerConfig (CertPool : Type) := MkTlsServerConfig {
  ClientCAs : option CertPool;
  ClientAuth : ClientAuthType;
  VerifyConnection : option serverConfig
}.
Arguments MkTlsServerConfig {CertPool}.
Arguments ClientCAs {CertPool}.
Arguments ClientAuth {CertPool}.
Arguments VerifyConnection {CertPool}.

Definition level_at_least (l : TrustLevel) (c : serverConfig) : bool :=
  match trustLevel c with Some t => l <=? t | None => false end.
Definition level_is (l : TrustLevel) (c : serverConfig) : bool :=
  match trustLevel c with Some t => t =? l | None => false end.

(** Pool and mode from the level. *)
Definition client_auth {K P : Type} (fs : Files K P) (c : serverConfig)
  : result goerror (option P * ClientAuthType) :=
  match trustLevel c with
  | None => Ok (None, NoClientCert)
  | Some l =>
      if l =? PolicyNone then Ok (None, NoClientCert)
      else
        match (if negb (String.eqb (caBundleFile c) "") then load_bundle fs (caBundleFile c)
               else match loadEmbeddedIdcaChain fs with
                    | Ok pool => Ok pool
                    | Err e => Err (EWrap "加载内置 IDCA chain 失败: %w" e)
                    end) with
        | Err e => Err e
        | Ok pool => Ok (Some pool, RequireAndVerifyClientCert)
        end
  end.

(** The resolvers, the verifier and the checker, built once the level is known. *)
Definition finish_config (df : Defaults) (c : serverConfig) : serverConfig :=
  let c := match daneResolver c with
           | None => if level_at_least DANEAndBadge c then set_daneResolver (Some (df_dane df (globalDNSServer df))) c else c
           | Some _ => c
           end in
  let dns := match dnsResolver c with
             | None => if level_at_least BadgeRequired c then Some (df_dns df) else None
             | Some r => Some r
             end in
  let c := MkServerConfig (serverCertFile c) (privateKeyFile c) (caBundleFile c) (trustLevel c) dns
    (daneResolver c) (tlogClient c) (clientVerifier c) (peerLevels c) (crlEnabled c) (crlChecker c) in
  let c := set_clientVerifier
             (MkEnv (default (df_dns df) dns) (default (df_tlog df) (tlogClient c)) None None) c in
  if shouldEnableCRL c then set_crlChecker (Some NewFetcher) c else c.

(** A CA bundle without a level implies PKI verification. *)
Definition imply_pki (c : serverConfig) : serverConfig :=
  if negb (is_some (trustLevel c)) && negb (String.eqb (caBundleFile c) "")
  then set_trustLevel (Some PKIOnly) c else c.

Definition NewServerTLSConfig {K P : Type} (fs : Files K P) (df : Defaults) (opts : list ServerOption)
  : result goerror (tlsServerConfig P) :=
  let? c := apply_options opts new_config in
  guard! negb (String.eqb (serverCertFile c) "" || String.eqb (privateKeyFile c) "")
    orelse EPlain "server certificate and private key are required: use WithServerCert()" in
  guard! negb (level_is PolicyNone c && negb (String.eqb (caBundleFile c) ""))
    orelse EPlain "PolicyNone cannot be used with WithClientCA()" in
  match LoadX509KeyPair fs (serverCertFile c) (privateKeyFile c) with
  | Err err => Err (EWrap "%s 或 %s 不是有效的证书/密钥对: %w" err)
  | Ok _ =>
      let c := imply_pki c in
      let? auth := client_auth fs c in
      let c := finish_config df c in
      Ok (MkTlsServerConfig (fst auth) (snd auth)
            (if is_some (trustLevel c) && negb (level_is PolicyNone c) then Some c else None))
  end.

(** ** The callback [buildVerifyConnection] *)

(** The clock readings and the HTTP answers of one handshake. *)
Record handshake := MkHandshake {
  hs_now : Z; hs_badge : clock; hs_crl : fetch_clock; hs_http : string -> http_answer
}.

Definition badge_step (hs : handshake) (certIdentity : CertIdentity) (achieved : TrustLevel) (c : serverConfig)
  : result goerror TrustLevel * serverConfig :=
  let explicit := is_some (trustLevel c) in
  if negb explicit || level_at_least BadgeRequired c then
    match clientVerifier c with
    | None => (Err nil_dereference_panic, c)
    | Some e =>
        let '(outcome, e) := Client_Verify clientVerifierConfig (hs_badge hs) certIdentity e in
        let c := set_clientVerifier e c in
        if IsSuccess outcome then (Ok BadgeRequired, c)
        else if explicit then (Err (EPlain "badge verification failed: %v"), c)
        else (Ok achieved, c)
    end
  else (Ok achieved, c).

Definition dane_step (certIdentity : CertIdentity) (achieved : TrustLevel) (c : serverConfig)
  : result goerror TrustLevel * serverConfig :=
  let explicit := is_some (trustLevel c) in
  if (BadgeRequired <=? achieved) && (negb explicit || level_at_least DANEAndBadge c) then
    match daneResolver c, CertIdentity_ATIName certIdentity with
    | Some d, Some atiNameObj =>
        match NewFqdn (an_Host atiNameObj) with
        | Err _ => (Ok achieved, c)
        | Ok fqdn =>
            let '(res, d) := dane_LookupIdentityTLSA d fqdn in
            let c := set_daneResolver (Some d) c in
            let daneOutcome := verifyWithLookup (Some certIdentity) (fun _ => res) in
            let danePassed := if explicit then IsVerified daneOutcome else IsPass daneOutcome in
            if danePassed then (Ok DANEAndBadge, c)
            else if explicit then (Err (EPlain "DANE verification failed: %v"), c)
            else (Ok achieved, c)
        end
    | _, _ => (Ok achieved, c)
    end
  else (Ok achieved, c).

Definition crl_step (hs : handshake) (leaf : CertPtr) (chain : list CertPtr) (c : serverConfig)
  : bool * serverConfig :=
  match crlChecker c with
  | None => (true, c)
  | Some f =>
      let '(crlResult, f) := Check_CRL (hs_http hs) (hs_crl hs) leaf chain f in
      (negb (ShouldReject crlResult), set_crlChecker (Some f) c)
  end.

(** The achieved level is stored before it is compared with the level asked for. *)
Definition record_level (fp : string) (achieved : TrustLevel) (c : serverConfig) : serverConfig :=
  if negb (String.eqb fp "") then set_peerLevels (<[fp := achieved]> (peerLevels c)) c else c.
Definition level_check (achieved : TrustLevel) (c : serverConfig) : option goerror :=
  match trustLevel c with
  | Some l => if achieved <? l then Some (EPlain "requested trust level %s not achieved (got %s)") else None
  | None => None
  end.

(** The callback from the CRL check on; [None] is a nil error. *)
Definition verify_above_pki (hs : handshake) (peer : CertPtr) (PeerCertificates : list CertPtr) (c : serverConfig)
  : option goerror * serverConfig :=
  let '(passed, c) := crl_step hs peer PeerCertificates c in
  if negb passed then (Some (EPlain "CRL check failed: %s"), c)
  else
    let certIdentity := CertIdentityFromX509 (deref peer) in
    match badge_step hs certIdentity PKIOnly c with
    | (Err err, c) => (Some err, c)
    | (Ok achieved, c) =>
        match dane_step certIdentity achieved c with
        | (Err err, c) => (Some err, c)
        | (Ok achieved, c) =>
            let c := record_level (ToHex (Fingerprint certIdentity)) achieved c in
            (level_check achieved c, c)
        end
    end.

Definition verifyConnection (hs : handshake) (PeerCertificates : list CertPtr) (c : serverConfig)
  : option goerror * serverConfig :=
  match PeerCertificates with
  | [] => (Some (EPlain "no client certificate provided"), c)
  | peer :: _ =>
      if negb (Valid (CheckCertValidity (deref peer) (hs_now hs)))
      then (Some (EPlain "peer certificate invalid: %s"), c)
      else if level_is PKIOnly c then (None, c)
      else verify_above_pki hs peer PeerCertificates c
  end.

(** ** Queries of the application *)

(** [state] and the store may be nil. *)
Definition PeerTrustLevel (state : option (list CertPtr)) (levels : option (gmap string TrustLevel))
  : option TrustLevel :=
  match state, levels with
  | Some (peer :: _), Some m => m !! ToHex (Fingerprint (CertIdentityFromX509 (deref peer)))
  | _, _ => None
  end.

(** [ati.ATIName]: host, version and raw text. *)
Definition PeerATIName (state : option (list CertPtr)) : result goerror (string * string * string) :=
  match state with
  | None => Err (EPlain "no TLS connection state")
  | Some [] => Err (EPlain "no peer certificates")
  | Some (peer :: _) =>
      match first_ati (URIs (deref peer)) with
      | Some parsed => Ok (an_Host parsed, Version_String (an_Version parsed), an_raw parsed)
      | None => Err (EPlain "no ati:// URI SAN found in peer certificate")
      end
  end.

End Server.

Arguments MkTlsServerConfig {R T D CertPool}.
Arguments ClientCAs {R T D CertPool}.
Arguments ClientAuth {R T D CertPool}.
Arguments VerifyConnection {R T D CertPool}.
Arguments MkServerConfig {R T D}.
Arguments MkDefaults {R T D}.
Arguments serverConfig : clear implicits.

(** ** Lemmas *)

Section Lemmas.
Context `{UnicodeTables} {R T D : Type} `{DNSResolver R} `{TransparencyLogClient T} `{DANEResolver D} `{X509Lib}.

Notation serverConfig := (serverConfig R T D).

(** Options only set levels a server supports. *)
Definition level_valid (l : option TrustLevel) : Prop :=
  match l with Some l => l = PolicyNone \/ PolicyBasic <= l <= PolicyAdvanced | None => True end.

Lemma apply_options_level (opts : list ServerOption) (c c' : serverConfig) :
  level_valid (trustLevel c) -> apply_options opts c = Ok c' ->
  level_valid (trustLevel c') /\ (crlChecker c = None -> crlChecker c' = None).
Proof.
  revert c. induction opts as [|o opts IH]; intros c Hc E; cbn [apply_options] in E.
  - injection E as <-. auto.
  - apply rbind_Ok in E as (c1 & E1 & E2). 
    assert (G : level_valid (trustLevel c1) /\ crlChecker c1 = crlChecker c).
    { destruct o; cbn in E1; try (injection E1 as <-; auto; fail).
      destruct (ValidForServer level) eqn:Ev; [|discriminate]. injection E1 as <-. cbn. split; [|reflexivity].
      unfold ValidForServer in Ev. apply orb_true_iff in Ev as [Ev|Ev]; bool_hyps; auto. }
    destruct G as [G1 G2]. destruct (IH _ G1 E2) as [I1 I2]. split; [exact I1|]. rewrite <- G2. exact I2.
Qed.

(** The level in force: an explicit CA bundle implies PKI verification. *)
Definition effective_level (c : serverConfig) : option TrustLevel :=
  match trustLevel c with
  | Some l => Some l
  | None => if String.eqb (caBundleFile c) "" then None else Some PKIOnly
  end.

Lemma finish_config_fields (df : Defaults) (c : serverConfig) :
  trustLevel (finish_config df c) = trustLevel c /\
  (exists e, clientVerifier (finish_config df c) = Some e /\ e_cache e = None /\ e_dane e = None) /\
  (level_at_least DANEAndBadge c = true -> daneResolver (finish_config df c) <> None) /\
  (crlChecker c = None ->
   crlChecker (finish_config df c) = if shouldEnableCRL c then Some NewFetcher else None).
Proof.
  unfold finish_config. cbv zeta.
  destruct (daneResolver c) as [d|] eqn:Ed; [|destruct (level_at_least DANEAndBadge c) eqn:El];
    unfold shouldEnableCRL, level_at_least in *; cbn;
    (match goal with |- context [if ?b then set_crlChecker _ _ else _] => destruct b eqn:Eb end);
    cbn; (split; [reflexivity|]; split; [eexists; split; [reflexivity | split; reflexivity]|]; split);
    try congruence; auto.
Qed.

(** The invariant of the configuration a callback works on. *)
Definition server_ok (c : serverConfig) : Prop :=
  (exists l, trustLevel c = Some l /\ PolicyBasic <= l <= PolicyAdvanced) /\
  (exists e, clientVerifier c = Some e /\ e_cache e = None /\ e_dane e = None).

(** A record fetched in this very call. *)
Definition fetched_now (e : env R T D) (fqdn : Fqdn) (v : Version) (r : TLResponse) : Prop :=
  exists rec, fst (dns_FindBadgeForVersion (e_dns e) fqdn v) = Ok (Some rec) /\
    fst (FetchTLResponse (e_tlog e) (rewriteTLHost clientVerifierConfig (br_URL rec))) = Ok r.

Lemma Client_Verify_uncached (ck : clock) (cert : CertIdentity) (e : env R T D) :
  e_cache e = None -> e_dane e = None ->
  let '(o, e') := Client_Verify clientVerifierConfig ck cert e in
  e_cache e' = None /\ e_dane e' = None /\
  (IsSuccess o = true ->
   exists a fqdn r, CertIdentity_ATIName cert = Some a /\ NewFqdn (an_Host a) = Ok fqdn /\
     fetched_now e fqdn (an_Version a) r /\ client_binding r cert).
Proof.
  intros Hc Hd. pose proof (Client_Verify_success clientVerifierConfig ck cert e eq_refl) as Hs.
  unfold Client_Verify in *. destruct (CertIdentity_FQDN cert); [|repeat split; auto; discriminate].
  destruct (CertIdentity_ATIName cert) as [a|]; [|repeat split; auto; discriminate].
  destruct (NewFqdn (an_Host a)) as [fqdn|] eqn:En; [|repeat split; auto; discriminate].
  unfold cached_version in *. rewrite Hc in *. unfold client_fetchTLResponse in *.
  destruct (fetch_with_cases clientVerifierConfig (fun r => dns_FindBadgeForVersion r fqdn (an_Version a)) ck fqdn
    (Some (an_Version a)) e) as (r & t & [(rec & tl & El & Ef & E)|(o & E & Hf)]); rewrite E in *.
  - unfold insert_version, with_cache in *. cbn [e_cache e_dns e_tlog e_dane] in *. rewrite Hc, Hd in *.
    assert (Ha : forall o, applyDANE fqdn cert o (MkEnv r t (@None D) None) = (o, MkEnv r t None None)).
    { intros o. unfold applyDANE, verifyDANE. destruct (oc_Type o); reflexivity. }
    cbn [option_map] in *. rewrite Ha in *. cbn in Hs. split; [reflexivity|]. split; [reflexivity|].
    intros Hok. exists a, fqdn, tl. split; [reflexivity|]. split; [exact En|]. split.
    + exists rec. rewrite El, Ef. auto.
    + apply client_verify_Verified, Hs, Hok.
  - cbn in Hs |- *. split; [exact Hc|]. split; [exact Hd|]. intros Hok.
    destruct (proj1 (proj2 Hf) (Hs Hok)).
Qed.

End Lemmas.

(** ** What a server accepts *)

Section Properties.
Context `{UnicodeTables} {R T D : Type} `{DNSResolver R} `{TransparencyLogClient T} `{DANEResolver D} `{X509Lib}.

Notation serverConfig := (serverConfig R T D).

(** The evidence of the three checks above PKI. *)
Definition not_revoked (hs : handshake) (leaf : CertPtr) (chain : list CertPtr) (c : serverConfig) : Prop :=
  forall f, crlChecker c = Some f ->
    no_cdp chain \/
    exists uri issuer data, cdp_of chain uri /\ findIssuingCA leaf chain = Some issuer /\
      fst (Fetch (hs_http hs) (hs_crl hs) uri f) = Ok data /\
      clears data (deref issuer) (SerialNumber (deref leaf)).

Definition badge_evidence (cert : CertIdentity) (c : serverConfig) : Prop :=
  exists e a fqdn r, clientVerifier c = Some e /\
    CertIdentity_ATIName cert = Some a /\ NewFqdn (an_Host a) = Ok fqdn /\
    fetched_now e fqdn (an_Version a) r /\ client_binding r cert.

Definition dane_evidence (cert : CertIdentity) (c : serverConfig) : Prop :=
  exists d a fqdn res rec, daneResolver c = Some d /\
    CertIdentity_ATIName cert = Some a /\ NewFqdn (an_Host a) = Ok fqdn /\
    fst (dane_LookupIdentityTLSA d fqdn) = Ok res /\ tl_Found res = true /\ DNSSECValid res = true /\
    In rec (tl_Records res) /\ tlsa_names cert rec.

Lemma crl_step_spec (hs : handshake) (leaf : CertPtr) (chain : list CertPtr) (c : serverConfig) :
  let '(passed, c') := crl_step hs leaf chain c in
  (passed = true -> not_revoked hs leaf chain c) /\
  trustLevel c' = trustLevel c /\ clientVerifier c' = clientVerifier c /\ daneResolver c' = daneResolver c.
Proof.
  unfold crl_step, not_revoked. destruct (crlChecker c) as [f|]; [|split; [intros _ f; discriminate | auto]].
  pose proof (Check_Skipped (hs_http hs) (hs_crl hs) leaf chain f) as Hs.
  pose proof (Check_Passed (hs_http hs) (hs_crl hs) leaf chain f) as Hp.
  destruct (Check_CRL _ _ _ _ f) as [r f']. split; [|auto]. intros Hr f0 [= <-]. bool_hyps.
  apply ShouldReject_false in Hr as [Hr|Hr]; [left; apply Hs, Hr | right; apply Hp, Hr].
Qed.

Lemma badge_step_spec (hs : handshake) (cert : CertIdentity) (c : serverConfig) :
  server_ok c -> level_at_least BadgeRequired c = true ->
  let '(res, c') := badge_step hs cert PKIOnly c in
  server_ok c' /\ trustLevel c' = trustLevel c /\ daneResolver c' = daneResolver c /\
  (forall achieved, res = Ok achieved -> achieved = BadgeRequired /\ badge_evidence cert c).
Proof.
  intros [Hl (e & He & Hc & Hd)] Hlev. unfold badge_step, badge_evidence. rewrite Hlev, He, orb_true_r.
  pose proof (Client_Verify_uncached (hs_badge hs) cert e Hc Hd) as Hu.
  destruct (Client_Verify _ _ _ e) as [o e']. destruct Hu as (Hc' & Hd' & Hok).
  assert (Hs : server_ok (set_clientVerifier e' c)) by (split; [exact Hl | exists e'; auto]).
  destruct (IsSuccess o).
  - split; [exact Hs|]. do 2 (split; [reflexivity|]). intros l [= <-]. split; [reflexivity|].
    destruct (Hok eq_refl) as (a & f & r & Ha). exists e, a, f, r. auto.
  - destruct Hl as (l & El & Hl). assert (is_some (trustLevel c) = true) as -> by (rewrite El; reflexivity).
    cbn. split; [exact Hs|]. do 2 (split; [reflexivity|]). discriminate.
Qed.

Lemma dane_step_spec (cert : CertIdentity) (achieved : TrustLevel) (c : serverConfig) :
  server_ok c -> achieved < DANEAndBadge ->
  let '(res, c') := dane_step cert achieved c in
  server_ok c' /\ trustLevel c' = trustLevel c /\
  (forall l, res = Ok l -> l = achieved \/ l = DANEAndBadge /\ dane_evidence cert c).
Proof.
  intros Hok Ha. pose proof Hok as [(lv & Elv & Hlv) Hv]. unfold dane_step. rewrite Elv.
  assert (Hkeep : server_ok c /\ trustLevel c = Some lv /\
    (forall l, Ok (E := goerror) achieved = Ok l -> l = achieved \/ l = DANEAndBadge /\ dane_evidence cert c)).
  { split; [exact Hok|]. split; [exact Elv|]. intros l [= <-]. auto. }
  destruct (_ && _); [|exact Hkeep]. destruct (daneResolver c) as [d|] eqn:Ed; [|exact Hkeep].
  destruct (CertIdentity_ATIName cert) as [a|] eqn:Ea; [|exact Hkeep].
  destruct (NewFqdn (an_Host a)) as [f|] eqn:Ef; [|exact Hkeep].
  destruct (dane_LookupIdentityTLSA d f) as [res d'] eqn:El. cbn [is_some].
  assert (Hs : server_ok (set_daneResolver (Some d') c)) by exact Hok.
  pose proof (verify_Verified (Some cert) (fun _ => res)) as Hver. unfold IsVerified.
  destruct (do_Type (verifyWithLookup (Some cert) (fun _ => res))) eqn:Et;
    (split; [exact Hs|]; split; [exact Elv|]); try discriminate.
  intros l [= <-]. right. split; [reflexivity|].
  destruct (proj1 Hver eq_refl) as (c0 & res0 & rec & [= <-] & -> & Hfound & Hsec & Hin & Hn).
  exists d, a, f, res0, rec. rewrite Ed, El. auto 10.
Qed.

(** ** Reachable configurations *)

Lemma NewServerTLSConfig_ok {K P : Type} (fs : Files K P) (df : Defaults) (opts : list ServerOption)
    (tls : tlsServerConfig P) (c' : serverConfig) :
  NewServerTLSConfig fs df opts = Ok tls -> VerifyConnection tls = Some c' -> server_ok c'.
Proof.
  unfold NewServerTLSConfig. intros E Hv. apply rbind_Ok in E as (c & Ec & E).
  apply apply_options_level in Ec as [Hl _]; [|exact I].
  destruct (_ || _); cbn [negb] in E; [discriminate|]. destruct (_ && _); cbn [negb] in E; [discriminate|].
  destruct (LoadX509KeyPair _ _ _); [|discriminate].
  cbv zeta in E. assert (Hl1 : level_valid (trustLevel (imply_pki c))).
  { unfold imply_pki. clear E. destruct (_ && _); [|exact Hl]. cbn. right.
    unfold PKIOnly, PolicyBasic, PolicyAdvanced. lia. }
  set (c1 := imply_pki c) in *. apply rbind_Ok in E as (auth & _ & E). injection E as <-. cbn in Hv.
  destruct (finish_config_fields df c1) as (Ft & Fe & _).
  destruct (is_some _ && negb _) eqn:Eb; [|discriminate]. injection Hv as <-.
  unfold level_is in Eb. rewrite Ft in Eb. split; [|exact Fe]. rewrite Ft.
  destruct (trustLevel c1) as [l|]; [|discriminate]. exists l. split; [reflexivity|].
  bool_hyps. destruct Hl1 as [->|Hl1]; [contradiction | exact Hl1].
Qed.

Lemma record_level_ok (fp : string) (l : TrustLevel) (c : serverConfig) :
  server_ok c -> server_ok (record_level fp l c).
Proof. unfold record_level. destruct (negb _); auto. Qed.

(** The level recorded for the certificate. *)
Definition recorded (cert : CertIdentity) (c : serverConfig) : option TrustLevel :=
  peerLevels c !! ToHex (Fingerprint cert).

Lemma record_level_recorded (cert : Certificate) (l : TrustLevel) (c : serverConfig) :
  recorded (CertIdentityFromX509 cert)
    (record_level (ToHex (Fingerprint (CertIdentityFromX509 cert))) l c) = Some l.
Proof.
  unfold recorded, record_level.
  destruct (String.eqb (ToHex (Fingerprint (CertIdentityFromX509 cert))) "") eqn:E.
  - apply String.eqb_eq, (f_equal String.length) in E. unfold ToHex in E. rewrite hex_Encode_length in E.
    cbn in E. unfold CertFingerprintFromDER in E. cbn in E. rewrite sha256_length in E. discriminate E.
  - cbn. apply lookup_insert_eq.
Qed.

Lemma verify_above_pki_spec (hs : handshake) (peer : CertPtr) (chain : list CertPtr) (c : serverConfig)
    (l : TrustLevel) :
  server_ok c -> trustLevel c = Some l -> PolicyEnhanced <= l ->
  let cert := CertIdentityFromX509 (deref peer) in
  let '(res, c') := verify_above_pki hs peer chain c in
  server_ok c' /\
  (res = None -> not_revoked hs peer chain c /\ badge_evidence cert c /\
     (PolicyAdvanced <= l -> dane_evidence cert c) /\
     exists achieved, recorded cert c' = Some achieved /\ l <= achieved).
Proof.
  intros Hok El Hl. cbv zeta. unfold verify_above_pki. set (cert := CertIdentityFromX509 (deref peer)).
  pose proof (crl_step_spec hs peer chain c) as Hcrl.
  destruct (crl_step _ _ _ c) as [passed c1]. destruct Hcrl as (Hcrl & Ht & Hv & Hd).
  assert (Hok1 : server_ok c1) by (unfold server_ok; rewrite Ht, Hv; exact Hok).
  destruct passed; cbn [negb]; [|split; [exact Hok1 | discriminate]].
  assert (Hlev : level_at_least BadgeRequired c1 = true)
    by (unfold level_at_least; rewrite Ht, El; apply Z.leb_le, Hl).
  pose proof (badge_step_spec hs cert c1 Hok1 Hlev) as Hb.
  destruct (badge_step _ _ _ c1) as [[b|err] c2]; [|split; [exact (proj1 Hb) | discriminate]].
  destruct Hb as (Hok2 & Ht2 & Hd2 & Ha). destruct (Ha b eq_refl) as [-> Hbadge].
  pose proof (dane_step_spec cert BadgeRequired c2 Hok2 eq_refl) as Hdane.
  destruct (dane_step _ _ c2) as [[achieved|err] c3]; [|split; [exact (proj1 Hdane) | discriminate]].
  destruct Hdane as (Hok3 & Ht3 & Hach). split; [apply record_level_ok, Hok3|].
  intros Hres. assert (Hge : l <= achieved).
  { revert Hres. unfold level_check, record_level. destruct (negb _); cbn [trustLevel set_peerLevels];
      rewrite Ht3, Ht2, Ht, El; destruct (achieved <? l) eqn:E; bool_hyps; discriminate || lia. }
  split; [apply Hcrl; reflexivity|].
  split; [unfold badge_evidence in *; rewrite Hv in Hbadge; exact Hbadge|].
  split; [|exists achieved; split; [apply record_level_recorded | exact Hge]].
  intros Hadv. destruct (Hach achieved eq_refl) as [->|[_ Hev]].
  - unfold BadgeRequired, PolicyEnhanced, PolicyAdvanced in *. lia.
  - unfold dane_evidence in *. rewrite Hd2, Hd in Hev. exact Hev.
Qed.

Lemma level_above_pki (c : serverConfig) (l : TrustLevel) :
  server_ok c -> trustLevel c = Some l -> level_is PKIOnly c = false -> PolicyEnhanced <= l.
Proof.
  intros [(l' & El' & Hl) _] El Hb. rewrite El in El'. injection El' as <-.
  unfold level_is in Hb. rewrite El in Hb. bool_hyps.
  unfold PKIOnly, PolicyBasic, PolicyEnhanced, PolicyAdvanced in *. lia.
Qed.

Lemma verifyConnection_ok (hs : handshake) (chain : list CertPtr) (c : serverConfig) :
  server_ok c -> server_ok (snd (verifyConnection hs chain c)).
Proof.
  intros Hok. unfold verifyConnection. destruct chain as [|peer rest]; [exact Hok|].
  destruct (negb _); [exact Hok|]. destruct (level_is PKIOnly c) eqn:Eb; [exact Hok|].
  pose proof Hok as [(l & El & _) _].
  pose proof (verify_above_pki_spec hs peer (peer :: rest) c l Hok El (level_above_pki c l Hok El Eb)) as Hs.
  cbv zeta in Hs. destruct (verify_above_pki _ _ _ _) as [res c']. exact (proj1 Hs).
Qed.

(** The configurations a callback meets: the one it was built with, and those
    handshakes leave; its collaborators and the shared level store change on their
    own. *)
Inductive server_reachable : serverConfig -> Prop :=
| server_new {K P : Type} (fs : Files K P) df opts tls c :
    NewServerTLSConfig fs df opts = Ok tls -> VerifyConnection tls = Some c -> server_reachable c
| server_step hs chain c : server_reachable c -> server_reachable (snd (verifyConnection hs chain c))
| server_outside r t d m c :
    server_reachable c ->
    server_reachable (set_peerLevels m (set_daneResolver d (set_clientVerifier (MkEnv r t None None) c))).

Lemma server_reachable_ok (c : serverConfig) : server_reachable c -> server_ok c.
Proof.
  induction 1 as [K P fs df opts tls c E Hv|hs chain c _ IH|r t d m c _ [Hl _]].
  - exact (NewServerTLSConfig_ok fs df opts tls c E Hv).
  - apply verifyConnection_ok, IH.
  - split; [exact Hl|]. exists (MkEnv r t None None). auto.
Qed.

(** C3: (a server lets a client in only on evidence for its level) in every
    configuration the callback can reach, a handshake it accepts at level [l] comes
    with a certificate that is valid now; from ENHANCED on, it is not revoked as
    far as its chain names a list, and the transparency log, asked in this very
    handshake at the trusted host for a badge of the certificate's own host and
    version, has a record that binds the certificate to the agent; and for
    ADVANCED a DNSSEC-validated identity TLSA record of that host names it. The
    last part is what the code comments ask of an explicit level; the README's
    paragraph on DANE says that a missing record and a missing DNSSEC chain do not
    reject, and [advanced_rejects_benign_dane] shows that here both do. *)
Theorem verifyConnection_sound (hs : handshake) (chain : list CertPtr) (c : serverConfig) (l : TrustLevel) :
  server_reachable c -> trustLevel c = Some l ->
  fst (verifyConnection hs chain c) = None ->
  exists peer rest, chain = peer :: rest /\
    NotBefore (deref peer) <= hs_now hs <= NotAfter (deref peer) /\
    (PolicyEnhanced <= l ->
       not_revoked hs peer chain c /\ badge_evidence (CertIdentityFromX509 (deref peer)) c) /\
    (PolicyAdvanced <= l -> dane_evidence (CertIdentityFromX509 (deref peer)) c).
Proof.
  intros Hr El Ha. apply server_reachable_ok in Hr as Hok. unfold verifyConnection in Ha.
  destruct chain as [|peer rest]; [discriminate|]. exists peer, rest. split; [reflexivity|].
  destruct (Valid (CheckCertValidity (deref peer) (hs_now hs))) eqn:Ev; cbn [negb] in Ha; [|discriminate].
  split; [apply CheckCertValidity_valid, Ev|].
  destruct (level_is PKIOnly c) eqn:Eb.
  - unfold level_is in Eb. rewrite El in Eb. bool_hyps.
    unfold PKIOnly, PolicyBasic, PolicyEnhanced, PolicyAdvanced in *. lia.
  - pose proof (verify_above_pki_spec hs peer (peer :: rest) c l Hok El (level_above_pki c l Hok El Eb)) as Hs.
    cbv zeta in Hs. destruct (verify_above_pki _ _ _ _) as [res c']. destruct (proj2 Hs Ha) as (S1 & S2 & S3 & _).
    auto.
Qed.

(** What the level in force asks of the TLS library and of the callback. *)
Definition enforces {K P : Type} (fs : Files K P) (c : serverConfig) (tls : tlsServerConfig (R := R) (T := T) (D := D) P)
  : Prop :=
  match effective_level c with
  | None => ClientAuth tls = NoClientCert /\ VerifyConnection tls = None
  | Some l =>
      if l =? PolicyNone then ClientAuth tls = NoClientCert /\ VerifyConnection tls = None
      else
        ClientAuth tls = RequireAndVerifyClientCert /\
        (exists pool, ClientCAs tls = Some pool /\
           (if String.eqb (caBundleFile c) "" then loadEmbeddedIdcaChain fs = Ok pool
            else load_bundle fs (caBundleFile c) = Ok pool)) /\
        exists c', VerifyConnection tls = Some c' /\ trustLevel c' = Some l /\ server_ok c' /\
          (PolicyAdvanced <= l -> daneResolver c' <> None) /\
          crlChecker c' = (if bool_decide (crlEnabled c = Some false) then None else Some NewFetcher)
  end.

Lemma client_auth_level {K P : Type} (fs : Files K P) (c : serverConfig) (a : option P * ClientAuthType) :
  client_auth fs c = Ok a ->
  match trustLevel c with
  | None => snd a = NoClientCert
  | Some l =>
      if l =? PolicyNone then snd a = NoClientCert
      else snd a = RequireAndVerifyClientCert /\ exists pool, fst a = Some pool /\
        (if String.eqb (caBundleFile c) "" then loadEmbeddedIdcaChain fs = Ok pool
         else load_bundle fs (caBundleFile c) = Ok pool)
  end.
Proof.
  unfold client_auth. destruct (trustLevel c) as [l|]; [|intros [= <-]; reflexivity].
  destruct (l =? PolicyNone); [intros [= <-]; reflexivity|].
  destruct (String.eqb (caBundleFile c) ""); cbn [negb].
  - destruct (loadEmbeddedIdcaChain fs) as [pool|e]; [|discriminate]. intros [= <-]. cbn. eauto.
  - destruct (load_bundle fs (caBundleFile c)) as [pool|e]; [|discriminate]. intros [= <-]. cbn. eauto.
Qed.

Lemma imply_pki_fields (c : serverConfig) :
  trustLevel (imply_pki c) = effective_level c /\ caBundleFile (imply_pki c) = caBundleFile c /\
  crlEnabled (imply_pki c) = crlEnabled c /\ crlChecker (imply_pki c) = crlChecker c.
Proof.
  unfold imply_pki, effective_level. destruct (trustLevel c) as [l|] eqn:El; cbn [is_some negb andb]; [auto|].
  destruct (String.eqb (caBundleFile c) ""); cbn [negb]; auto.
Qed.

(** C25: (the configuration enforces the level asked for) whatever the options and
    their order, a configuration is only built with a key pair and a supported
    level; without a level and a CA bundle, or with NONE, no client certificate is
    asked for; otherwise the TLS library must verify the chain against the given
    bundle or the embedded one, and the callback is installed with that level, a
    strict verifier, a DANE resolver if the level needs one, and a CRL checker
    unless it was switched off. *)
Theorem NewServerTLSConfig_enforces {K P : Type} (fs : Files K P) (df : Defaults) (opts : list ServerOption)
    (tls : tlsServerConfig P) :
  NewServerTLSConfig fs df opts = Ok tls ->
  exists c, apply_options opts new_config = Ok c /\ serverCertFile c <> "" /\ privateKeyFile c <> "" /\
    level_valid (trustLevel c) /\ enforces fs c tls.
Proof.
  intros E. pose proof (NewServerTLSConfig_ok fs df opts tls) as Hok. specialize (fun c' => Hok c' E).
  unfold NewServerTLSConfig in E. apply rbind_Ok in E as (c & Ec & E). exists c. split; [exact Ec|].
  apply apply_options_level in Ec as [Hl Hcrl]; [|exact I]. specialize (Hcrl eq_refl).
  destruct (String.eqb (serverCertFile c) "") eqn:E1; [discriminate|].
  destruct (String.eqb (privateKeyFile c) "") eqn:E2; [discriminate|].
  cbn [orb negb] in E. destruct (_ && _) in E; cbn [negb] in E; [discriminate|].
  destruct (LoadX509KeyPair _ _ _); [|discriminate]. bool_hyps.
  do 2 (split; [assumption|]). split; [exact Hl|].
  cbv zeta in E. apply rbind_Ok in E as (a & Ea & E). injection E as <-.
  apply client_auth_level in Ea. destruct (imply_pki_fields c) as (F1 & F2 & F3 & F4).
  destruct (finish_config_fields df (imply_pki c)) as (G1 & _ & G3 & G4).
  rewrite F1, F2 in Ea. rewrite F1 in G1. unfold enforces. cbn [ClientAuth ClientCAs VerifyConnection].
  cbn [VerifyConnection] in Hok. revert Hok. unfold level_is. rewrite G1. intros Hok.
  destruct (effective_level c) as [l|]; cbn [is_some andb] in *; [|split; [exact Ea | reflexivity]].
  destruct (l =? PolicyNone) eqn:En; cbn [negb] in *; [split; [exact Ea | reflexivity]|].
  split; [apply Ea|]. split; [apply Ea|]. exists (finish_config df (imply_pki c)).
  split; [reflexivity|]. split; [exact G1|]. split; [apply Hok; reflexivity|]. split.
  - intros Hadv. apply G3. unfold level_at_least. rewrite F1. apply Z.leb_le, Hadv.
  - rewrite G4 by congruence. unfold shouldEnableCRL. rewrite F1, F3, En.
    destruct (crlEnabled c) as [[|]|]; reflexivity.
Qed.

End Properties.

(** ** A server at work *)

#[local] Existing Instance plain_tables.
#[local] Existing Instance toy_x509.

Definition agent_leaf (raw : list byte) (cdp : list string) : CertPtr :=
  MkCertPtr 1 (MkCertificate raw [x07] "a.example" ["a.example"] ["ati://v1.0.0.a.example"] 0 100 5 cdp []).
Definition agent_fp_text : string := Fingerprint_String (CertFingerprintFromDER [x02]).

(** The log knows one agent, by its current fingerprint, under the trusted host. *)
#[local] Instance one_DNS : DNSResolver unit := {|
  dns_FindBadgeForVersion u f v := (Ok (Some sample_badge), u);
  dns_FindPreferredBadge u f := (Ok (Some sample_badge), u);
  dns_LookupATIDiscovery u f := (Ok (MkDiscovery true []), u)
|}.
#[local] Instance one_TLog : TransparencyLogClient string := {|
  FetchTLResponse status url :=
    (if String.eqb url "https://ati-tl.cnnic.cn/1" then
       Ok (MkTLResponse status "" (MkTLPayload "" "" "" "ati://v1.0.0.a.example" "" "a.example" "" "v1.0.0" "1"
             status (MkTLCertificates agent_fp_text agent_fp_text "" ""))
             (MkEvidenceRef "" "" "" "" "" "" "" "" "" false) (MkTLSeal "" "" "" "" "" "" "")
             (MkMerkleProof "" "" "" 0 0 0 []) "" None None None None)
     else Err (ETlog TlogErrorNotFound url "" 404), status)
|}.
#[local] Instance one_DANE : DANEResolver TLSALookupResult := {|
  dane_LookupTLSA d f p := (Ok d, d); dane_LookupIdentityTLSA d f := (Ok d, d)
|}.

Definition no_files : Files unit unit := MkFiles (fun _ _ => Ok tt) (fun _ => Ok []) (fun _ => Some tt) [].
Definition one_defaults : Defaults :=
  MkDefaults tt "ACTIVE" (fun _ => MkTLSALookup true [MkTLSARecord 3 0 1 (ToHex (CertFingerprintFromDER [x02]))] true) "".
Definition options_at (l : TrustLevel) : list (ServerOption (D := TLSALookupResult)) := [WithServerCert "c" "k"; WithClientVerifier l].
Definition config_at (l : TrustLevel) : option (serverConfig unit string TLSALookupResult) :=
  match NewServerTLSConfig no_files one_defaults (options_at l) with
  | Ok tls => VerifyConnection tls
  | Err _ => None
  end.
Definition a_handshake (data : list byte) : handshake :=
  MkHandshake 50 (sample_clock 0) (toy_clock 0) (crl_server data).
Definition accepts (l : TrustLevel) (data raw : list byte) : option bool :=
  option_map (fun c => match fst (verifyConnection (a_handshake data)
                                    [agent_leaf raw ["http://ca/crl"]; toy_ca] c) with
                       | None => true | Some _ => false end) (config_at l).

(** The agent's certificate is accepted at every level, another one at BASIC
    only; so is the agent's once it is revoked: the comment of [shouldEnableCRL]
    speaks of BASIC and above, but the callback returns before the check. *)
Example server_levels :
  map (fun l => accepts l [x02; x00; x09] [x02]) [0; 1; 2] = [Some true; Some true; Some true] /\
  map (fun l => accepts l [x02; x00; x09] [x02; x01]) [0; 1; 2] = [Some true; Some false; Some false] /\
  map (fun l => accepts l [x02; x00; x05] [x02]) [0; 1; 2] = [Some true; Some false; Some false].
Proof. vm_compute. auto. Qed.

(** An agent without a TLSA record, and one whose records DNSSEC does not cover:
    DANE passes by its own account, yet the server refuses both at ADVANCED. *)
Definition no_record : TLSALookupResult := MkTLSALookup false [] false.
Definition own_record (dnssec : bool) : TLSALookupResult :=
  MkTLSALookup true [MkTLSARecord 3 0 1 (ToHex (CertFingerprintFromDER [x02]))] dnssec.

Definition accepts_dane (l : TrustLevel) (d : TLSALookupResult) : option bool :=
  option_map (fun c => match fst (verifyConnection (a_handshake []) [agent_leaf [x02] []] (set_daneResolver (Some d) c)) with
                       | None => true | Some _ => false end) (config_at l).

Example advanced_rejects_benign_dane :
  map (accepts_dane PolicyAdvanced) [no_record; own_record false; own_record true] = [Some false; Some false; Some true] /\
  map (accepts_dane PolicyEnhanced) [no_record; own_record false] = [Some true; Some true] /\
  map (fun d => do_Type (verifyWithLookup (Some (CertIdentityFromX509 (deref (agent_leaf [x02] [])))) (fun _ => Ok d)))
    [no_record; own_record false] = [DANENoRecords; DANESkipped].
Proof. vm_compute. auto. Qed.

(** The level of a peer accepted at BASIC is never recorded. *)
Example basic_level_not_recorded :
  option_map (fun c => PeerTrustLevel (Some [agent_leaf [x02] []])
      (Some (peerLevels (snd (verifyConnection (a_handshake []) [agent_leaf [x02] []] c))))) (config_at PolicyBasic)
  = Some None.
Proof. vm_compute. reflexivity. Qed.

Lemma verifyConnection_sound_witness :
  exists c, config_at PolicyAdvanced = Some c /\ dane_evidence (CertIdentityFromX509 (deref (agent_leaf [x02] []))) c.
Proof.
  destruct (NewServerTLSConfig no_files one_defaults (options_at PolicyAdvanced)) as [tls|e] eqn:E; [|discriminate E].
  destruct (VerifyConnection tls) as [c|] eqn:Ev; [|injection E as <-; discriminate Ev].
  exists c. assert (Ec : config_at PolicyAdvanced = Some c) by (unfold config_at; rewrite E; exact Ev).
  split; [exact Ec|].
  destruct (verifyConnection_sound (a_handshake []) [agent_leaf [x02] []] c PolicyAdvanced) as (peer & rest & Hp & _ & _ & Hd).
  - exact (server_new no_files one_defaults (options_at PolicyAdvanced) tls c E Ev).
  - clear -Ec. vm_compute in Ec. injection Ec as <-. reflexivity.
  - clear -Ec. vm_compute in Ec. injection Ec as <-. vm_compute. reflexivity.
  - injection Hp as <- _. apply Hd. vm_compute. discriminate.
Defined.

Lemma NewServerTLSConfig_enforces_witness :
  exists tls c, apply_options (options_at 1) new_config = Ok c /\
    NewServerTLSConfig no_files one_defaults (options_at 1) = Ok tls /\ enforces no_files c tls.
Proof.
  destruct (NewServerTLSConfig no_files one_defaults (options_at 1)) as [tls|e] eqn:E; [|discriminate E].
  destruct (NewServerTLSConfig_enforces no_files one_defaults (options_at 1) tls E) as (c & Hc & _ & _ & _ & He).
  exists tls, c. auto.
Defined.
