(* ===== verification/AtiClient.v ===== *)
(** The agent client ([ati/mtls_client.go], [ati/connect.go]): its construction
    from options, discovery, and requests with verification of the peer. The TLS
    library verifies the server's chain and host name during the request, unless
    the client skips verification; the HTTP client is a class over its state. *)

From S2P Require Import Prelude GoStrings Encoding Sha256 Errors Models Cert Url Http Records Resolver.
From S2P Require Import Dnssec Dane Crl BadgeCache Cose KeyStore Receipt StatusToken Headers Outcome.
From S2P Require Import VersionPolicy Float64 Verifier VerifierLemmas VerifierProps AtiServer.

#[local] Open Scope string_scope.
#[local] Open Scope list_scope.
#[local] Open Scope Z_scope.

(** ** HTTP *)

(** [rq_Body] is the marshalled body, if any; a content type goes with it. *)
Record http_request := MkRequest {
  rq_Method : string; rq_URL : string; rq_Body : option (list byte); rq_ContentType : option string
}.

(** [rs_TLS] is nil, or the peer's certificates; [rs_Body] is not looked at. *)
Record http_response := MkResponse {
  rs_StatusCode : Z; rs_TLS : option (list Certificate); rs_Body : list byte
}.

(** [http.Client.Do], redirects followed. *)
Class HTTPClient (C : Type) := {
  http_Do : C -> http_request -> result goerror http_response * C
}.

(** [body] is nil, or what [json.Marshal] gives for it. *)
Definition new_request (method urlStr : string) (body : option (result goerror (list byte)))
  : result goerror http_request :=
  let? bytes := match body with
                | None => Ok None
                | Some (Ok jsonBytes) => Ok (Some jsonBytes)
                | Some (Err marshalErr) => Err (EWrap "failed to marshal request body: %w" marshalErr)
                end in
  match request_method method with
  | None => Err (EPlain "failed to create request: %w")
  | Some method =>
      Ok (MkRequest method urlStr bytes (match bytes with Some _ => Some "application/json" | None => None end))
  end.

(** ** Outcomes *)

Record TrustOutcome := MkTrustOutcome {
  DNSDiscovered : bool;
  CAChainValid : bool;
  SANMatches : bool;
  to_AgentID : string;
  PeerATIName_ : string;
  BadgeVerified : bool;
  DANEVerified_ : bool;
  AchievedLevel : TrustLevel;
  RequestedLevel : option TrustLevel;
  BadgeOutcome : option VerificationOutcome;
  DANEDetails : option DANEOutcome
}.

Definition TrustOutcome_IsVerified (o : TrustOutcome) : bool :=
  DNSDiscovered o && CAChainValid o && SANMatches o.

(** The zero value of the level is [PolicyBasic]. *)
Definition new_outcome (requested : option TrustLevel) : TrustOutcome :=
  MkTrustOutcome false false false "" "" false false PolicyBasic requested None None.

Definition set_discovery (found : bool) (agentID : string) (o : TrustOutcome) : TrustOutcome :=
  MkTrustOutcome found (CAChainValid o) (SANMatches o) agentID (PeerATIName_ o) (BadgeVerified o)
    (DANEVerified_ o) (AchievedLevel o) (RequestedLevel o) (BadgeOutcome o) (DANEDetails o).
Definition set_pki (sanMatches : bool) (name : string) (o : TrustOutcome) : TrustOutcome :=
  MkTrustOutcome (DNSDiscovered o) true sanMatches (to_AgentID o) name (BadgeVerified o)
    (DANEVerified_ o) (AchievedLevel o) (RequestedLevel o) (BadgeOutcome o) (DANEDetails o).
Definition set_achieved (l : TrustLevel) (o : TrustOutcome) : TrustOutcome :=
  MkTrustOutcome (DNSDiscovered o) (CAChainValid o) (SANMatches o) (to_AgentID o) (PeerATIName_ o)
    (BadgeVerified o) (DANEVerified_ o) l (RequestedLevel o) (BadgeOutcome o) (DANEDetails o).
Definition set_badge (b : VerificationOutcome) (verified : bool) (o : TrustOutcome) : TrustOutcome :=
  MkTrustOutcome (DNSDiscovered o) (CAChainValid o) (SANMatches o) (to_AgentID o) (PeerATIName_ o)
    verified (DANEVerified_ o) (if verified then BadgeRequired else AchievedLevel o) (RequestedLevel o)
    (Some b) (DANEDetails o).
Definition set_tlsa (d : DANEOutcome) (verified : bool) (o : TrustOutcome) : TrustOutcome :=
  MkTrustOutcome (DNSDiscovered o) (CAChainValid o) (SANMatches o) (to_AgentID o) (PeerATIName_ o)
    (BadgeVerified o) verified (if verified then DANEAndBadge else AchievedLevel o) (RequestedLevel o)
    (BadgeOutcome o) (Some d).

Section Client.
Context `{UnicodeTables} {R T D C : Type} `{DNSResolver R} `{TransparencyLogClient T} `{DANEResolver D}
  `{HTTPClient C}.

(** The verifier of the client: strict, with the trusted log host and a cache. *)
Definition serverVerifierConfig : verifierConfig := WithTrustedTLHost DefaultTrustedTLHost defaultConfig.

(** ** The client's state

    [ac_verifier] is the server verifier with the resolver and the log client the
    [AgentClient] shares with it; nil for a client at NONE. *)
Record AgentClient := MkAgentClient {
  ac_http : C;
  ac_trustLevel : option TrustLevel;
  ac_verifier : option (env R T D);
  ac_daneResolver : option D;
  ac_verifyCache : gmap string TrustOutcome;
  ac_identityHost : string;
  ac_accessHost : string
}.

Definition set_http (h : C) (c : AgentClient) : AgentClient :=
  MkAgentClient h (ac_trustLevel c) (ac_verifier c) (ac_daneResolver c) (ac_verifyCache c)
    (ac_identityHost c) (ac_accessHost c).
Definition set_verifier (e : env R T D) (c : AgentClient) : AgentClient :=
  MkAgentClient (ac_http c) (ac_trustLevel c) (Some e) (ac_daneResolver c) (ac_verifyCache c)
    (ac_identityHost c) (ac_accessHost c).
Definition set_daneResolver_ (d : D) (c : AgentClient) : AgentClient :=
  MkAgentClient (ac_http c) (ac_trustLevel c) (ac_verifier c) (Some d) (ac_verifyCache c)
    (ac_identityHost c) (ac_accessHost c).
Definition store_outcome (key : string) (o : TrustOutcome) (c : AgentClient) : AgentClient :=
  MkAgentClient (ac_http c) (ac_trustLevel c) (ac_verifier c) (ac_daneResolver c)
    (<[key := o]> (ac_verifyCache c)) (ac_identityHost c) (ac_accessHost c).

Definition resolveIdentityHost (connectionHost : string) (c : AgentClient) : string :=
  if negb (String.eqb (ac_identityHost c) "") then ac_identityHost c else connectionHost.
Definition resolveAccessHost (connectionHost : string) (c : AgentClient) : string :=
  if negb (String.eqb (ac_accessHost c) "") then ac_accessHost c else connectionHost.

(** ** Discovery *)

(** [c.dnsResolver.LookupATIDiscovery]; calling it on a nil resolver panics. *)
Definition client_discovery (fqdn : Fqdn) (c : AgentClient) : result goerror ATIDiscoveryResult * AgentClient :=
  match ac_verifier c with
  | None => (Err nil_dereference_panic, c)
  | Some e =>
      let '(res, r) := dns_LookupATIDiscovery (e_dns e) fqdn in
      (res, set_verifier (MkEnv r (e_tlog e) (e_dane e) (e_cache e)) c)
  end.

(** The clients at NONE have no resolver and never get here in [Do]. *)
Definition checkDNSDiscovery (fqdn : Fqdn) (c : AgentClient) : (bool * string) * AgentClient :=
  let '(res, c) := client_discovery fqdn c in
  match res with
  | Err _ => ((false, ""), c)
  | Ok result =>
      if negb (ad_Found result) then ((false, ""), c)
      else match ad_Records result with
           | rec :: _ => ((true, rec_ID rec), c)
           | [] => ((true, ""), c)
           end
  end.

Definition Client_Prefetch (host : string) (c : AgentClient) : option goerror * AgentClient :=
  match NewFqdn host with
  | Err err => (Some (EWrap "invalid host: %w" err), c)
  | Ok fqdn =>
      match ac_verifier c with
      | None => (Some nil_dereference_panic, c)
      | Some _ =>
          let '((discovered, _), c) := checkDNSDiscovery fqdn c in
          if negb discovered then (Some (EPlain "no _ati TXT record found for %s"), c) else (None, c)
      end
  end.

(** [Connect]: the agent's id and the endpoint. *)
Definition Connect (Target : string) (c : AgentClient) : result goerror (string * string) * AgentClient :=
  if String.eqb Target "" then (Err (EPlain "connect: target is required"), c)
  else
    match NewFqdn Target with
    | Err err => (Err (EWrap "connect: invalid target %q: %w" err), c)
    | Ok fqdn =>
        match client_discovery fqdn c with
        | (Err err, c) => (Err (EWrap "connect: DNS validation failed: %w" err), c)
        | (Ok discovery, c) =>
            match ad_Records discovery with
            | rec :: _ =>
                if ad_Found discovery then (Ok (rec_ID rec, ("https://" ++ Target)%string), c)
                else (Err (EPlain "connect: no _ati record found for %s"), c)
            | [] => (Err (EPlain "connect: no _ati record found for %s"), c)
            end
        end
    end.

(** ** [Do] *)

Definition peer_certificates (resp : http_response) : list Certificate := default [] (rs_TLS resp).

Definition cache_key (host : string) (fp : CertFingerprint) : string := (host ++ "|" ++ ToHex fp)%string.

(** The verdict of PKI: the first ati:// URI is taken as it is. *)
Definition pki_stage (host : string) (peer : option Certificate) (o : TrustOutcome) : TrustOutcome :=
  let o := match peer with
           | None => o
           | Some peerCert =>
               set_pki (CoversHost (CertIdentityFromX509 peerCert) host)
                 (default "" (List.find (fun uri => HasPrefix uri "ati://") (URIs peerCert))) o
           end in
  if DNSDiscovered o && CAChainValid o then set_achieved PKIOnly o else o.

Definition client_level_at_least (l : TrustLevel) (c : AgentClient) : bool :=
  match ac_trustLevel c with Some t => l <=? t | None => false end.

Definition badge_stage (ck : clock) (host : string) (peer : option Certificate) (o : TrustOutcome)
    (c : AgentClient) : result goerror TrustOutcome * AgentClient :=
  let explicit := is_some (ac_trustLevel c) in
  if negb explicit || client_level_at_least BadgeRequired c then
    match peer with
    | None => (Ok o, c)
    | Some peerCert =>
        match NewFqdn (resolveIdentityHost host c) with
        | Err _ => (Ok o, c)
        | Ok badgeFqdn =>
            match ac_verifier c with
            | None => (Err nil_dereference_panic, c)
            | Some e =>
                let '(badgeOutcome, e) :=
                  Server_Verify serverVerifierConfig ck badgeFqdn (CertIdentityFromX509 peerCert) e in
                let c := set_verifier e c in
                if IsSuccess badgeOutcome then (Ok (set_badge badgeOutcome true o), c)
                else if explicit && client_level_at_least BadgeRequired c
                then (Err (EPlain "badge verification failed for %s: %v"), c)
                else (Ok (set_badge badgeOutcome false o), c)
            end
        end
    end
  else (Ok o, c).

Definition dane_port (parsedURL : URL) : Z :=
  if negb (String.eqb (Port parsedURL) "") then default 443 (ParseUint (Port parsedURL) 16) else 443.

Definition dane_stage (parsedURL : URL) (host : string) (peer : option Certificate) (o : TrustOutcome)
    (c : AgentClient) : result goerror TrustOutcome * AgentClient :=
  let explicit := is_some (ac_trustLevel c) in
  if (negb explicit || client_level_at_least DANEAndBadge c) && BadgeVerified o then
    match ac_daneResolver c, peer with
    | Some d, Some peerCert =>
        match NewFqdn host with
        | Err _ => (Ok o, c)
        | Ok daneFqdn =>
            let '(res, d) := dane_LookupTLSA d daneFqdn (dane_port parsedURL) in
            let c := set_daneResolver_ d c in
            let daneOutcome := verifyWithLookup (Some (CertIdentityFromX509 peerCert)) (fun _ => res) in
            let danePassed := if explicit then IsVerified daneOutcome else IsPass daneOutcome in
            if danePassed then (Ok (set_tlsa daneOutcome true o), c)
            else if explicit then (Err (EPlain "DANE verification failed for %s: %v"), c)
            else (Ok (set_tlsa daneOutcome false o), c)
        end
    | _, _ => (Ok o, c)
    end
  else (Ok o, c).

(** The part of [Do] after the response: the cache, the three stages, the level. *)
Definition verify_response (ck : clock) (parsedURL : URL) (host : string) (resp : http_response)
    (o : TrustOutcome) (c : AgentClient) : result goerror TrustOutcome * AgentClient :=
  let peer := head (peer_certificates resp) in
  let cacheKey := option_map (fun p => cache_key host (CertFingerprintFromDER (Raw p))) peer in
  match (match cacheKey with Some k => ac_verifyCache c !! k | None => None end) with
  | Some cached => (Ok cached, c)
  | None =>
      match badge_stage ck host peer (pki_stage host peer o) c with
      | (Err err, c) => (Err err, c)
      | (Ok o, c) =>
          match dane_stage parsedURL host peer o c with
          | (Err err, c) => (Err err, c)
          | (Ok o, c) =>
              if match ac_trustLevel c with Some l => AchievedLevel o <? l | None => false end
              then (Err (EPlain "requested trust level %s not achieved (got %s)"), c)
              else (Ok o, match cacheKey with Some k => store_outcome k o c | None => c end)
          end
      end
  end.

Definition send (method urlStr : string) (body : option (result goerror (list byte))) (c : AgentClient)
  : result goerror http_response * AgentClient :=
  match new_request method urlStr body with
  | Err err => (Err err, c)
  | Ok req =>
      match http_Do (ac_http c) req with
      | (Err doErr, h) => (Err (EWrap "request failed: %w" doErr), set_http h c)
      | (Ok resp, h) => (Ok resp, set_http h c)
      end
  end.

Definition Do (ck : clock) (method urlStr : string) (body : option (result goerror (list byte)))
    (c : AgentClient) : result goerror (http_response * TrustOutcome) * AgentClient :=
  match url_Parse urlStr with
  | None => (Err (EPlain "invalid URL: %w"), c)
  | Some parsedURL =>
      let host := Hostname parsedURL in
      if String.eqb host "" then (Err (EPlain "invalid URL: missing hostname: %s"), c)
      else if negb (String.eqb (Scheme parsedURL) "https")
      then (Err (EPlain "mTLS requires HTTPS, got scheme %q"), c)
      else
        let o := new_outcome (ac_trustLevel c) in
        if match ac_trustLevel c with Some l => l =? PolicyNone | None => false end then
          match send method urlStr body c with
          | (Err err, c) => (Err err, c)
          | (Ok resp, c) => (Ok (resp, o), c)
          end
        else
          match NewFqdn host with
          | Err fqdnErr => (Err (EWrap "invalid hostname %q: %w" fqdnErr), c)
          | Ok fqdn =>
              let discoveryFqdn := match NewFqdn (resolveIdentityHost host c) with
                                   | Ok f => f | Err _ => fqdn end in
              let '((found, agentID), c) := checkDNSDiscovery discoveryFqdn c in
              let o := set_discovery found agentID o in
              if negb found && is_some (ac_trustLevel c)
              then (Err (EPlain "PKI verification failed: agent not found for %s"), c)
              else
                match send method urlStr body c with
                | (Err err, c) => (Err err, c)
                | (Ok resp, c) =>
                    match verify_response ck parsedURL host resp o c with
                    | (Err err, c) => (Err err, c)
                    | (Ok o, c) => (Ok (resp, o), c)
                    end
                end
          end
  end.

(** The four methods. *)
Definition Client_Get ck urlStr c := Do ck "GET" urlStr None c.
Definition Client_Post ck urlStr body c := Do ck "POST" urlStr body c.
Definition Client_Put ck urlStr body c := Do ck "PUT" urlStr body c.
Definition Client_Delete ck urlStr c := Do ck "DELETE" urlStr None c.

End Client.

Arguments AgentClient : clear implicits.
Arguments MkAgentClient {R T D C}.

(** ** Construction *)

(** [buildClientVerifyConnection]: [None] is a nil error. *)
Definition client_verifyConnection (now : Z) (PeerCertificates : list Certificate) : option goerror :=
  match PeerCertificates with
  | [] => None
  | peerCert :: _ =>
      if negb (Valid (CheckCertValidity peerCert now)) then Some (EPlain "peer certificate invalid: %s") else None
  end.

Section Construction.
Context `{SemverLib} {R T D C P : Type}.

(** Of the log's public key only whether there is one: nothing reads it. *)
Record agentClientConfig := MkClientConfig {
  cc_identityCertFile : string; cc_privateKeyFile : string; cc_serverCertFile : string;
  cc_caBundleFile : string; cc_trustLevel : option TrustLevel; cc_dnsResolver : option R;
  cc_daneResolver : option D; cc_tlogClient : option T; cc_identityHost : string; cc_accessHost : string;
  cc_timeout : Z; cc_targetVersion : string; cc_tlPublicKey : bool
}.

Definition new_client_config : agentClientConfig := MkClientConfig "" "" "" "" None None None None "" "" (30 * second) "" false.

Inductive AgentClientOption :=
| WithMTLSCerts (identityCert privateKey serverCert caBundle : string)
| WithIdentityCert (certFile keyFile : string)
| WithTrustLevel (level : TrustLevel)
| WithDNSResolver (r : R)
| WithAgentDANEResolver (r : D)
| WithTLogClient (t : T)
| WithIdentityHost (host : string)
| WithAccessHost (host : string)
| WithClientTimeout (d : Z)
| WithTLPublicKey
| WithTargetVersion (version : string).

Definition apply_client_option (opt : AgentClientOption) (c : agentClientConfig)
  : result goerror agentClientConfig :=
  let 'MkClientConfig ic pk sc ca tl dns dane tlog ih ah tmo tv pk' := c in
  match opt with
  | WithMTLSCerts identityCert privateKey serverCert caBundle =>
      Ok (MkClientConfig identityCert privateKey serverCert caBundle tl dns dane tlog ih ah tmo tv pk')
  | WithIdentityCert certFile keyFile => Ok (MkClientConfig certFile keyFile sc ca tl dns dane tlog ih ah tmo tv pk')
  | WithTrustLevel level =>
      guard! ValidForClient level orelse EPlain "trust level %s is not supported for client" in
      Ok (MkClientConfig ic pk sc ca (Some level) dns dane tlog ih ah tmo tv pk')
  | WithDNSResolver r => Ok (MkClientConfig ic pk sc ca tl (Some r) dane tlog ih ah tmo tv pk')
  | WithAgentDANEResolver r => Ok (MkClientConfig ic pk sc ca tl dns (Some r) tlog ih ah tmo tv pk')
  | WithTLogClient t => Ok (MkClientConfig ic pk sc ca tl dns dane (Some t) ih ah tmo tv pk')
  | WithIdentityHost host => Ok (MkClientConfig ic pk sc ca tl dns dane tlog host ah tmo tv pk')
  | WithAccessHost host => Ok (MkClientConfig ic pk sc ca tl dns dane tlog ih host tmo tv pk')
  | WithClientTimeout d => Ok (MkClientConfig ic pk sc ca tl dns dane tlog ih ah d tv pk')
  | WithTLPublicKey => Ok (MkClientConfig ic pk sc ca tl dns dane tlog ih ah tmo tv true)
  | WithTargetVersion version =>
      if String.eqb version "" then Ok c
      else
        let? normalized := normalizeVersionExpr version in
        Ok (MkClientConfig ic pk sc ca tl dns dane tlog ih ah tmo normalized pk')
  end.

Fixpoint apply_client_options (opts : list AgentClientOption) (c : agentClientConfig)
  : result goerror agentClientConfig :=
  match opts with
  | [] => Ok c
  | opt :: rest => let? c := apply_client_option opt c in apply_client_options rest c
  end.

(** What the transport is built with; [None] for [RootCAs] is the system pool. *)
Record clientTLSConfig := MkClientTLS {
  InsecureSkipVerify : bool; RootCAs : option P; ClientCertificates : list (list (list byte));
  checksValidity : bool
}.

(** A key pair is the DER certificates of its chain. [newHTTP] makes the HTTP
    client of a timeout and a transport. *)
Definition NewAgentClient (fs : Files (list (list byte)) P) (ParseCertificate : list byte -> result goerror Certificate)
    (newHTTP : Z -> clientTLSConfig -> C) (df : Defaults (R := R) (T := T) (D := D)) (opts : list AgentClientOption)
  : result goerror (AgentClient R T D C * clientTLSConfig) :=
  let? cfg := apply_client_options opts new_client_config in
  let level := default BadgeRequired (cc_trustLevel cfg) in
  let load k := match LoadX509KeyPair fs (cc_identityCertFile cfg) (cc_privateKeyFile cfg) with
                | Err err => Err (EWrap "%s 或 %s 不是有效的证书/密钥对: %w" err)
                | Ok keyPair => k keyPair
                end in
  let no_files := String.eqb (cc_identityCertFile cfg) "" || String.eqb (cc_privateKeyFile cfg) "" in
  if level =? PolicyNone then
    guard! String.eqb (cc_caBundleFile cfg) "" orelse EPlain "PolicyNone cannot be used with a CA bundle" in
    let build certs :=
      let tlsConfig := MkClientTLS true None certs false in
      Ok (MkAgentClient (newHTTP (cc_timeout cfg) tlsConfig) (Some level) None None ∅ "" "", tlsConfig) in
    if no_files then build [] else load (fun keyPair => build [keyPair])
  else
    guard! negb no_files orelse EPlain "identity certificate and private key are required: use WithIdentityCert()" in
    load (fun identityCert =>
      match identityCert with
      | [] => Err (EPlain "%s 不包含有效的 X.509 证书")
      | der :: _ =>
          match ParseCertificate der with
          | Err err => Err (EWrap "%s 不是有效的 X.509 证书: %w" err)
          | Ok x509Cert =>
              guard! existsb (fun uri => HasPrefix uri "ati://") (URIs x509Cert)
                orelse EPlain "identity certificate %s is missing an ati:// URI SAN" in
              let? pool := (if String.eqb (cc_caBundleFile cfg) "" then Ok None
                            else let? p := load_bundle fs (cc_caBundleFile cfg) in Ok (Some p)) in
              let tlsConfig := MkClientTLS false pool [identityCert] true in
              let dane := match cc_daneResolver cfg with
                          | Some d => Some d
                          | None => if DANEAndBadge <=? level then Some (df_dane df (globalDNSServer df)) else None
                          end in
              let e := MkEnv (default (df_dns df) (cc_dnsResolver cfg)) (default (df_tlog df) (cc_tlogClient cfg))
                         None (Some (NewBadgeCache DefaultCacheConfig)) in
              Ok (MkAgentClient (newHTTP (cc_timeout cfg) tlsConfig) (Some level) (Some e) dane ∅ (cc_identityHost cfg)
                    (cc_accessHost cfg), tlsConfig)
          end
      end).

(** [CertStatus] of a client whose identity certificate ends at [certExpiry]; the clock
    is read for [time.Until] and again for the comparison. *)
Record CertStatus_ := MkCertStatus { ExpiresAt_ : Z; DaysRemaining : Z; IsExpired_ : bool }.

Definition Hours (d : Z) : float64 :=
  let hour := 3600 * second in
  f64_add (f64_of_Z (Z.quot d hour)) (f64_div (f64_of_Z (Z.rem d hour)) (f64_of_Z hour)).

Definition CertStatus (certExpiry now now' : Z) : CertStatus_ :=
  let days := f64_to_int (f64_div (Hours (clamp_i64 (certExpiry - now))) (f64_of_Z 24)) in
  MkCertStatus certExpiry days (certExpiry <? now').

End Construction.

(** ** Keys of the verification cache *)

Lemma str_app_inj_r (s s' t t' : string) :
  (s ++ t = s' ++ t')%string -> String.length t = String.length t' -> s = s' /\ t = t'.
Proof.
  revert s'. induction s as [|x s IH]; intros [|x' s'] E Hl; cbn in E.
  - auto.
  - apply (f_equal String.length) in E. cbn in E. rewrite str_length_app in E. lia.
  - apply (f_equal String.length) in E. cbn in E. rewrite str_length_app in E. lia.
  - injection E as -> E. destruct (IH s' E Hl) as [-> ->]. auto.
Qed.

Lemma cache_key_inj (h h' : string) (f f' : CertFingerprint) :
  fp_wf f -> fp_wf f' -> cache_key h f = cache_key h' f' -> h = h' /\ f = f'.
Proof.
  unfold cache_key, fp_wf, ToHex. intros Hf Hf' E.
  apply str_app_inj_r in E as [-> E]; [|cbn; rewrite !hex_Encode_length, Hf, Hf'; reflexivity].
  split; [reflexivity|]. apply str_app_inj_l with (s := "|") in E. apply hex_Encode_inj in E.
  destruct f, f'. cbn in E. congruence.
Qed.

Section Lemmas.
Context `{UnicodeTables} {R T D C : Type} `{DNSResolver R} `{TransparencyLogClient T} `{DANEResolver D}
  `{HTTPClient C}.

Notation AgentClient := (AgentClient R T D C).

(** ** Evidence *)

Definition peer_fp (peer : Certificate) : CertFingerprint := CertFingerprintFromDER (Raw peer).

(** A record fetched for the identity host binds a certificate with this
    fingerprint to the host. *)
Definition badge_proof (identityHost : string) (fp : CertFingerprint) : Prop :=
  exists peer fqdn r, peer_fp peer = fp /\ NewFqdn identityHost = Ok fqdn /\
    origin (R := R) (T := T) serverVerifierConfig fqdn r /\ server_binding r (CertIdentityFromX509 peer) fqdn.

(** A DNSSEC-validated TLSA record of the host, at some port, names it. *)
Definition dane_proof (host : string) (fp : CertFingerprint) : Prop :=
  exists peer fqdn port (d : D) res rec, peer_fp peer = fp /\ NewFqdn host = Ok fqdn /\
    fst (dane_LookupTLSA d fqdn port) = Ok res /\ tl_Found res = true /\ DNSSECValid res = true /\
    In rec (tl_Records res) /\ tlsa_names (CertIdentityFromX509 peer) rec.

(** What an outcome for a host and a fingerprint rests on at level [l]. *)
Definition evidence (l : TrustLevel) (identityHost host : string) (fp : CertFingerprint) (o : TrustOutcome) : Prop :=
  DNSDiscovered o = true /\ l <= AchievedLevel o /\
  (PolicyEnhanced <= l -> BadgeVerified o = true /\ badge_proof identityHost fp) /\
  (PolicyAdvanced <= l -> DANEVerified_ o = true /\ dane_proof host fp).

Definition cached_ok (l : TrustLevel) (c : AgentClient) (key : string) (o : TrustOutcome) : Prop :=
  exists host fp, fp_wf fp /\ key = cache_key host fp /\ evidence l (resolveIdentityHost host c) host fp o.

(** The invariant of a client with an explicit level. *)
Definition client_ok (c : AgentClient) : Prop :=
  exists l, ac_trustLevel c = Some l /\ (l = PolicyNone \/ PolicyBasic <= l) /\
    (forall e, ac_verifier c = Some e -> env_ok serverVerifierConfig e) /\
    map_Forall (cached_ok l c) (ac_verifyCache c).

(** What the steps of a request leave alone. *)
Definition same_client (c c' : AgentClient) : Prop :=
  ac_trustLevel c' = ac_trustLevel c /\ ac_identityHost c' = ac_identityHost c /\
  ac_verifyCache c' = ac_verifyCache c.

Lemma same_client_ok (c c' : AgentClient) :
  same_client c c' ->
  (forall e, ac_verifier c' = Some e -> env_ok serverVerifierConfig e) -> client_ok c -> client_ok c'.
Proof.
  intros (E1 & E2 & E3) He (l & El & Hl & _ & Hm). exists l. rewrite E1, E3. repeat split; try assumption.
  unfold cached_ok, resolveIdentityHost in *. rewrite E2. exact Hm.
Qed.

Lemma client_discovery_ok (fqdn : Fqdn) (c : AgentClient) :
  same_client c (snd (client_discovery fqdn c)) /\ ac_http (snd (client_discovery fqdn c)) = ac_http c /\
  (client_ok c -> client_ok (snd (client_discovery fqdn c))).
Proof.
  unfold client_discovery. destruct (ac_verifier c) as [e|] eqn:Ev; [|repeat split; auto].
  destruct (dns_LookupATIDiscovery (e_dns e) fqdn) as [res r].
  split; [repeat split|]. split; [reflexivity|]. intros Hc. apply (same_client_ok c); [repeat split| |exact Hc].
  destruct Hc as (l & _ & _ & He & _). intros e' [= <-]. exact (He e Ev).
Qed.

Lemma checkDNSDiscovery_state (fqdn : Fqdn) (c : AgentClient) :
  snd (checkDNSDiscovery fqdn c) = snd (client_discovery fqdn c).
Proof.
  unfold checkDNSDiscovery. destruct (client_discovery fqdn c) as [[res|e] c']; [|reflexivity].
  destruct (negb _); [reflexivity|]. destruct (ad_Records res); reflexivity.
Qed.

Lemma send_spec method urlStr body (c : AgentClient) :
  let '(res, c') := send method urlStr body c in
  same_client c c' /\ ac_verifier c' = ac_verifier c /\
  (c' = c /\ (exists e, res = Err e) \/
   exists req, new_request method urlStr body = Ok req /\ ac_http c' = snd (http_Do (ac_http c) req)).
Proof.
  unfold send. destruct (new_request method urlStr body) as [req|e]; [|repeat split; eauto].
  destruct (http_Do (ac_http c) req) as [[resp|e] h] eqn:Eh; (split; [repeat split|]; split; [reflexivity|]);
    right; exists req; rewrite Eh; auto.
Qed.

(** ** The stages *)

Lemma pki_stage_fields (host : string) (peer : option Certificate) (o : TrustOutcome) :
  AchievedLevel o = PolicyBasic ->
  let o' := pki_stage host peer o in
  DNSDiscovered o' = DNSDiscovered o /\ BadgeVerified o' = BadgeVerified o /\
  DANEVerified_ o' = DANEVerified_ o /\ AchievedLevel o' = PolicyBasic.
Proof. intros Ha. unfold pki_stage. destruct peer; cbn; destruct (_ && _); cbn; auto. Qed.

Lemma badge_stage_spec (ck : clock) (host : string) (peer : option Certificate) (o : TrustOutcome)
    (c : AgentClient) (l : TrustLevel) :
  client_ok c -> ac_trustLevel c = Some l -> AchievedLevel o = PolicyBasic -> BadgeVerified o = false ->
  let '(res, c') := badge_stage ck host peer o c in
  client_ok c' /\ same_client c c' /\ ac_daneResolver c' = ac_daneResolver c /\ ac_http c' = ac_http c /\
  (forall o', res = Ok o' ->
     DNSDiscovered o' = DNSDiscovered o /\
     (AchievedLevel o' = PolicyBasic /\ BadgeVerified o' = false \/
      AchievedLevel o' = BadgeRequired /\ BadgeVerified o' = true /\
      exists p, peer = Some p /\ badge_proof (resolveIdentityHost host c) (peer_fp p))).
Proof.
  intros Hc El Ha Hb0.
  assert (Hkeep : client_ok c /\ same_client c c /\ ac_daneResolver c = ac_daneResolver c /\
    ac_http c = ac_http c /\ (forall o', Ok (E := goerror) o = Ok o' -> DNSDiscovered o' = DNSDiscovered o /\
      (AchievedLevel o' = PolicyBasic /\ BadgeVerified o' = false \/ AchievedLevel o' = BadgeRequired /\ BadgeVerified o' = true /\
      exists p, peer = Some p /\ badge_proof (resolveIdentityHost host c) (peer_fp p)))).
  { split; [exact Hc|]. split; [repeat split|]. repeat (split; [reflexivity|]). intros o' [= <-]. auto. }
  unfold badge_stage. destruct (_ || _); [|exact Hkeep]. destruct peer as [p|]; [|exact Hkeep].
  destruct (NewFqdn (resolveIdentityHost host c)) as [f|] eqn:Ef; [|exact Hkeep].
  destruct (ac_verifier c) as [e|] eqn:Ev;
    [|destruct Hkeep as (K1 & K2 & K3 & K4 & _); repeat (split; [assumption|]); discriminate].
  pose proof Hc as (l0 & El0 & Hl0 & He & Hm). specialize (He e Ev).
  pose proof (Server_Verify_env_ok serverVerifierConfig ck f (CertIdentityFromX509 p) e He) as He'.
  pose proof (Server_Verify_success serverVerifierConfig ck f (CertIdentityFromX509 p) e eq_refl) as Hs.
  pose proof (Server_Verify_verified serverVerifierConfig ck f (CertIdentityFromX509 p) e He) as Hv.
  cbv zeta in Hv. destruct (Server_Verify _ _ _ _ e) as [b e']. cbn [fst snd] in *.
  assert (Hc' : client_ok (set_verifier e' c)).
  { apply (same_client_ok c); [repeat split| |exact Hc]. intros e0 [= <-]. exact He'. }
  destruct (IsSuccess b); [|destruct (_ && _)];
    (split; [exact Hc'|]; split; [repeat split|]; do 2 (split; [reflexivity|])); intros o' [= <-].
  - split; [reflexivity|]. right. do 2 (split; [reflexivity|]). exists p. split; [reflexivity|].
    destruct (Hv (Hs eq_refl)) as (_ & _ & r & _ & Ho & Hb). exists p, f, r. auto.
  - split; [reflexivity | left; split; [exact Ha | reflexivity]].
Qed.

Lemma dane_stage_spec (u : URL) (host : string) (peer : option Certificate) (o : TrustOutcome)
    (c : AgentClient) (l : TrustLevel) :
  client_ok c -> ac_trustLevel c = Some l ->
  let '(res, c') := dane_stage u host peer o c in
  client_ok c' /\ same_client c c' /\ ac_http c' = ac_http c /\
  (forall o', res = Ok o' ->
     o' = o \/
     DNSDiscovered o' = DNSDiscovered o /\ BadgeVerified o' = BadgeVerified o /\ BadgeVerified o = true /\
     AchievedLevel o' = DANEAndBadge /\ DANEVerified_ o' = true /\
     exists p, peer = Some p /\ dane_proof host (peer_fp p)).
Proof.
  intros Hc El.
  assert (Hkeep : forall P : TrustOutcome -> Prop, client_ok c /\ same_client c c /\ ac_http c = ac_http c /\
    (forall o', Ok (E := goerror) o = Ok o' -> o' = o \/ P o')).
  { intros P. split; [exact Hc|]. split; [repeat split|]. split; [reflexivity|]. intros o' [= <-]. auto. }
  unfold dane_stage. rewrite El. cbn [is_some negb orb]. destruct (_ && _) eqn:Eb; [|apply Hkeep].
  apply andb_true_iff in Eb as [_ Eb].
  destruct (ac_daneResolver c) as [d|]; [|apply Hkeep]. destruct peer as [p|]; [|apply Hkeep].
  destruct (NewFqdn host) as [f|] eqn:Ef; [|apply Hkeep].
  destruct (dane_LookupTLSA d f (dane_port u)) as [res d'] eqn:Ed.
  assert (Hc' : client_ok (set_daneResolver_ d' c)).
  { apply (same_client_ok c); [repeat split| |exact Hc]. destruct Hc as (l0 & _ & _ & He & _). exact He. }
  pose proof (verify_Verified (Some (CertIdentityFromX509 p)) (fun _ => res)) as Hver. unfold IsVerified.
  destruct (do_Type (verifyWithLookup _ _)) eqn:Et;
    (split; [exact Hc'|]; split; [repeat split|]; split; [reflexivity|]); intros o' [= <-].
  right. repeat (split; [reflexivity || exact Eb|]). exists p. split; [reflexivity|].
  destruct (proj1 Hver eq_refl) as (c0 & res0 & rec & [= <-] & -> & Hf & Hsec & Hin & Hn).
  exists p, f, (dane_port u), d, res0, rec. rewrite Ed. auto 10.
Qed.

End Lemmas.

(** ** What a client accepts *)

Section Properties.
Context `{UnicodeTables} `{SemverLib} {R T D C : Type} `{DNSResolver R} `{TransparencyLogClient T} `{DANEResolver D}
  `{HTTPClient C}.

Notation AgentClient := (AgentClient R T D C).

Lemma same_client_trans (a b c : AgentClient) : same_client a b -> same_client b c -> same_client a c.
Proof. unfold same_client. intuition congruence. Qed.

Lemma level_reached (l achieved : TrustLevel) (c : AgentClient) :
  ac_trustLevel c = Some l ->
  match ac_trustLevel c with Some l => achieved <? l | None => false end = false -> l <= achieved.
Proof. intros ->. intros E. bool_hyps. exact E. Qed.

Lemma verify_fresh (ck : clock) (u : URL) (host : string) (resp : http_response) (o : TrustOutcome)
    (c : AgentClient) (l : TrustLevel) :
  client_ok c -> ac_trustLevel c = Some l -> AchievedLevel o = PolicyBasic -> BadgeVerified o = false ->
  DNSDiscovered o = true ->
  let peer := head (peer_certificates resp) in
  let '(res, c') := badge_stage ck host peer (pki_stage host peer o) c in
  client_ok c' /\ same_client c c' /\ ac_http c' = ac_http c /\
  forall o1, res = Ok o1 ->
    let '(res2, c2) := dane_stage u host peer o1 c' in
    client_ok c2 /\ same_client c c2 /\ ac_http c2 = ac_http c /\
    forall o2, res2 = Ok o2 -> l <= AchievedLevel o2 ->
      DNSDiscovered o2 = true /\
      (PolicyEnhanced <= l -> BadgeVerified o2 = true /\
         exists p, peer = Some p /\ badge_proof (R := R) (T := T) (resolveIdentityHost host c) (peer_fp p)) /\
      (PolicyAdvanced <= l -> DANEVerified_ o2 = true /\
         exists p, peer = Some p /\ dane_proof (D := D) host (peer_fp p)).
Proof.
  intros Hc El Ha Hb0 Hd. cbv zeta. set (peer := head _).
  destruct (pki_stage_fields host peer o Ha) as (P1 & P2 & _ & P4). rewrite Hb0 in P2.
  pose proof (badge_stage_spec ck host peer (pki_stage host peer o) c l Hc El P4 P2) as Hb.
  destruct (badge_stage _ _ _ _ c) as [res c1]. destruct Hb as (B1 & B2 & _ & B4 & B5).
  split; [exact B1|]. split; [exact B2|]. split; [exact B4|]. intros o1 ->.
  destruct (B5 o1 eq_refl) as [B6 B7].
  assert (El1 : ac_trustLevel c1 = Some l) by (destruct B2 as (-> & _); exact El).
  pose proof (dane_stage_spec u host peer o1 c1 l B1 El1) as Hdane.
  destruct (dane_stage _ _ _ _ c1) as [res2 c2]. destruct Hdane as (D1 & D2 & D3 & D4).
  split; [exact D1|]. split; [exact (same_client_trans _ _ _ B2 D2)|]. split; [congruence|].
  intros o2 -> Hl. unfold BadgeRequired, DANEAndBadge, PolicyBasic, PolicyEnhanced, PolicyAdvanced in *.
  destruct (D4 o2 eq_refl) as [->|(E1 & E2 & E3 & E4 & E5 & E6)].
  - split; [congruence|]. destruct B7 as [[B7 _]|(B7 & B8 & B9)]; split; intros Hle; try lia. auto.
  - split; [congruence|]. split; [|auto]. intros _. split; [congruence|].
    destruct B7 as [[_ B7]|(_ & _ & B9)]; [congruence | exact B9].
Qed.

Lemma peer_fp_wf (p : Certificate) : fp_wf (peer_fp p).
Proof. apply sha256_length. Qed.

Lemma store_ok (host : string) (p : Certificate) (o : TrustOutcome) (c : AgentClient) (l : TrustLevel) :
  client_ok c -> ac_trustLevel c = Some l ->
  evidence (R := R) (T := T) (D := D) l (resolveIdentityHost host c) host (peer_fp p) o ->
  client_ok (store_outcome (cache_key host (peer_fp p)) o c).
Proof.
  intros (l0 & El0 & Hl & He & Hm) El Hev. rewrite El in El0. injection El0 as <-.
  exists l. repeat split; try assumption. apply map_Forall_insert_2; [|exact Hm].
  exists host, (peer_fp p). split; [apply peer_fp_wf|]. auto.
Qed.

(** An accepted response carries evidence, fresh or cached; without a peer
    certificate only BASIC accepts. *)
Lemma verify_response_spec (ck : clock) (u : URL) (host : string) (resp : http_response) (o : TrustOutcome)
    (c : AgentClient) (l : TrustLevel) :
  client_ok c -> ac_trustLevel c = Some l -> AchievedLevel o = PolicyBasic -> BadgeVerified o = false ->
  DNSDiscovered o = true ->
  let '(res, c') := verify_response ck u host resp o c in
  client_ok c' /\ ac_http c' = ac_http c /\
  (forall err, res = Err err -> ac_verifyCache c' = ac_verifyCache c) /\
  (forall o', res = Ok o' ->
     match head (peer_certificates resp) with
     | Some p => evidence (R := R) (T := T) (D := D) l (resolveIdentityHost host c) host (peer_fp p) o'
     | None => l < PolicyEnhanced /\ DNSDiscovered o' = true /\ l <= AchievedLevel o'
     end).
Proof.
  intros Hc El Ha Hb Hd. unfold verify_response.
  pose proof (verify_fresh ck u host resp o c l Hc El Ha Hb Hd) as Hv. cbv zeta in Hv.
  set (peer := head (peer_certificates resp)) in *.
  set (key := option_map (fun p => cache_key host (CertFingerprintFromDER (Raw p))) peer).
  destruct (match key with Some k => ac_verifyCache c !! k | None => None end) as [cached|] eqn:Ek.
  { split; [exact Hc|]. split; [reflexivity|]. split; [discriminate|]. intros o' [= <-].
    subst key. destruct peer as [p|]; [|discriminate Ek]. cbn in Ek.
    destruct Hc as (l0 & El0 & _ & _ & Hm). rewrite El in El0. injection El0 as <-.
    destruct (Hm _ _ Ek) as (h & fp & Hw & Hk & Hev).
    apply cache_key_inj in Hk as [<- <-]; [exact Hev | apply (peer_fp_wf p) | exact Hw]. }
  clear Ek. destruct (badge_stage _ _ _ _ c) as [[o1|err] c1]; destruct Hv as (V1 & V2 & V3 & V4).
  2: { split; [exact V1|]. split; [exact V3|]. split; [intros; apply V2 | discriminate]. }
  specialize (V4 o1 eq_refl). destruct (dane_stage _ _ _ _ c1) as [[o2|err] c2]; destruct V4 as (W1 & W2 & W3 & W4).
  2: { split; [exact W1|]. split; [exact W3|]. split; [intros; apply W2 | discriminate]. }
  assert (El2 : ac_trustLevel c2 = Some l) by (destruct W2 as (-> & _); exact El).
  destruct (match ac_trustLevel c2 with Some l => AchievedLevel o2 <? l | None => false end) eqn:Eb.
  { split; [exact W1|]. split; [exact W3|]. split; [intros; apply W2 | discriminate]. }
  apply (level_reached l _ c2 El2) in Eb. destruct (W4 o2 eq_refl Eb) as (X1 & X2 & X3).
  destruct peer as [p|]; cbn [option_map] in key; subst key.
  - assert (Hev : evidence (R := R) (T := T) (D := D) l (resolveIdentityHost host c) host (peer_fp p) o2).
    { split; [exact X1|]. split; [exact Eb|]. split; intros Hle.
      - destruct (X2 Hle) as (Y1 & q & [= <-] & Y2). auto.
      - destruct (X3 Hle) as (Y1 & q & [= <-] & Y2). auto. }
    split; [|split; [exact W3|]; split; [discriminate|]; intros o' [= <-]; exact Hev].
    apply (store_ok host p o2 c2 l W1 El2). destruct W2 as (_ & Ei & _).
    unfold resolveIdentityHost in *. rewrite Ei. exact Hev.
  - split; [exact W1|]. split; [exact W3|]. split; [discriminate|]. intros o' [= <-]. split; [|auto].
    destruct (Z.lt_ge_cases l PolicyEnhanced) as [Hlt|Hge]; [exact Hlt|].
    destruct (X2 Hge) as (_ & q & [=] & _).
Qed.

(** What holds of the result of a request and the client after it. *)
Definition request_ok (method urlStr : string) body (l : TrustLevel) (c : AgentClient)
    (res : result goerror (http_response * TrustOutcome)) (c' : AgentClient) : Prop :=
  client_ok c' /\
  (ac_http c' = ac_http c \/
   exists req, new_request method urlStr body = Ok req /\ ac_http c' = snd (http_Do (ac_http c) req)) /\
  (forall err, res = Err err -> ac_verifyCache c' = ac_verifyCache c) /\
  (forall resp o, res = Ok (resp, o) -> PolicyBasic <= l ->
     exists u, url_Parse urlStr = Some u /\ Scheme u = "https" /\
       match head (peer_certificates resp) with
       | Some p =>
           evidence (R := R) (T := T) (D := D) l (resolveIdentityHost (Hostname u) c) (Hostname u) (peer_fp p) o
       | None => l < PolicyEnhanced /\ DNSDiscovered o = true /\ l <= AchievedLevel o
       end).

Lemma request_failed method urlStr body l (c c' : AgentClient) (err : goerror) :
  client_ok c' -> ac_verifyCache c' = ac_verifyCache c ->
  (ac_http c' = ac_http c \/
   exists req, new_request method urlStr body = Ok req /\ ac_http c' = snd (http_Do (ac_http c) req)) ->
  request_ok method urlStr body l c (Err err) c'.
Proof. intros Hc Hm Hh. split; [exact Hc|]. split; [exact Hh|]. split; [auto | discriminate]. Qed.

Lemma sent_ok method urlStr body (c c' : AgentClient) res :
  send method urlStr body c = (res, c') -> client_ok c ->
  client_ok c' /\ same_client c c' /\
  (ac_http c' = ac_http c \/
   exists req, new_request method urlStr body = Ok req /\ ac_http c' = snd (http_Do (ac_http c) req)).
Proof.
  intros E Hc. pose proof (send_spec method urlStr body c) as Hs. rewrite E in Hs.
  destruct Hs as (S1 & S2 & S3). split; [|split; [exact S1|]].
  - apply (same_client_ok c); [exact S1| |exact Hc]. rewrite S2. destruct Hc as (l & _ & _ & He & _). exact He.
  - destruct S3 as [[-> _]|S3]; [left; reflexivity | right; exact S3].
Qed.

Lemma Do_spec (ck : clock) (method urlStr : string) body (c : AgentClient) (l : TrustLevel) :
  client_ok c -> ac_trustLevel c = Some l ->
  let '(res, c') := Do ck method urlStr body c in request_ok method urlStr body l c res c'.
Proof.
  intros Hc El. unfold Do. rewrite El.
  assert (Hkeep : forall err, request_ok method urlStr body l c (Err err) c)
    by (intros err; apply request_failed; auto).
  destruct (url_Parse urlStr) as [u|] eqn:Eu; [|apply Hkeep].
  destruct (String.eqb (Hostname u) ""); [apply Hkeep|].
  destruct (String.eqb (Scheme u) "https") eqn:Es; cbn [negb]; [|apply Hkeep]. bool_hyps.
  destruct (l =? PolicyNone) eqn:En; bool_hyps.
  { destruct (send method urlStr body c) as [[resp|err] c1] eqn:E;
      apply sent_ok in E as (S1 & S2 & S3); try exact Hc; [|apply request_failed; auto; apply S2].
    split; [exact S1|]. split; [exact S3|]. split; [discriminate|]. intros ? ? _ Hl. subst.
    unfold PolicyNone, PolicyBasic in Hl. lia. }
  destruct (NewFqdn (Hostname u)) as [f|]; [|apply Hkeep].
  set (df := match NewFqdn (resolveIdentityHost _ c) with Ok f => f | Err _ => f end).
  pose proof (checkDNSDiscovery_state df c) as Hst. destruct (client_discovery_ok df c) as (D1 & D2 & D3).
  rewrite <- Hst in D1, D2, D3. destruct (checkDNSDiscovery df c) as [[found id] c1]. cbn [snd] in *.
  specialize (D3 Hc).
  assert (El1 : ac_trustLevel c1 = Some l) by (destruct D1 as (-> & _); exact El).
  rewrite El1. cbn [is_some]. rewrite andb_true_r.
  destruct found; cbn [negb]; [|apply request_failed; auto; apply D1].
  destruct (send method urlStr body c1) as [[resp|err] c2] eqn:E;
    apply sent_ok in E as (S1 & S2 & S3); try exact D3; rewrite D2 in S3.
  2: { apply request_failed; auto. apply (same_client_trans _ _ _ D1 S2). }
  assert (El2 : ac_trustLevel c2 = Some l) by (destruct S2 as (-> & _); exact El1).
  pose proof (verify_response_spec ck u (Hostname u) resp (set_discovery true id (new_outcome (Some l))) c2 l S1 El2
    eq_refl eq_refl eq_refl) as Hv.
  destruct (same_client_trans _ _ _ D1 S2) as (_ & Ei & Em).
  destruct (verify_response _ _ _ _ _ c2) as [[o|err] c3]; destruct Hv as (V1 & V2 & V3 & V4).
  - split; [exact V1|]. split; [rewrite V2; exact S3|]. split; [discriminate|]. intros ? ? [= <- <-] _.
    exists u. do 2 (split; [assumption || reflexivity|]). specialize (V4 o eq_refl).
    unfold resolveIdentityHost in *. rewrite Ei in V4. exact V4.
  - apply request_failed; [exact V1 | rewrite (V3 err eq_refl); exact Em | rewrite V2; exact S3].
Qed.

(** ** Construction and reachable clients *)

Lemma apply_client_options_level (opts : list (AgentClientOption (R := R) (T := T) (D := D))) c0 c1 :
  (forall l, cc_trustLevel c0 = Some l -> ValidForClient l = true) -> apply_client_options opts c0 = Ok c1 ->
  forall l, cc_trustLevel c1 = Some l -> ValidForClient l = true.
Proof.
  revert c0. induction opts as [|o opts IH]; intros c0 Hc E; cbn [apply_client_options] in E.
  - injection E as <-. exact Hc.
  - apply rbind_Ok in E as (c' & E1 & E2). apply (IH c'); [|exact E2]. clear IH E2.
    destruct c0, o; cbn in E1, Hc; try (injection E1 as <-; exact Hc).
    + destruct (ValidForClient level) eqn:Ev; [|discriminate]. injection E1 as <-. intros l [= <-]. exact Ev.
    + destruct (String.eqb version ""); [injection E1 as <-; exact Hc|].
      destruct (normalizeVersionExpr version); [|discriminate]. injection E1 as <-. exact Hc.
Qed.

Lemma ValidForClient_spec (l : TrustLevel) :
  ValidForClient l = true <-> l = PolicyNone \/ PolicyBasic <= l <= PolicyAdvanced.
Proof. unfold ValidForClient. rewrite orb_true_iff, andb_true_iff, Z.eqb_eq, !Z.leb_le. reflexivity. Qed.

(** A client as the constructor leaves it at level [l]. *)
Definition fresh_client (l : TrustLevel) (c : AgentClient) : Prop :=
  ac_trustLevel c = Some l /\ ac_verifyCache c = ∅ /\
  if l =? PolicyNone then ac_verifier c = None
  else (exists e, ac_verifier c = Some e /\ e_cache e = Some (NewBadgeCache DefaultCacheConfig)) /\
       (PolicyAdvanced <= l -> ac_daneResolver c <> None).

(** The transport of a client at level [l]: without the explicit NONE the peer's
    chain and validity are checked, and the client presents one chain whose leaf
    has an ati:// name. *)
Definition transport_ok {P : Type} (parse : list byte -> result goerror Certificate) (l : TrustLevel)
    (tls : clientTLSConfig (P := P)) : Prop :=
  if l =? PolicyNone then InsecureSkipVerify tls = true /\ RootCAs tls = None
  else
    InsecureSkipVerify tls = false /\ checksValidity tls = true /\
    exists der rest leaf uri, ClientCertificates tls = [der :: rest] /\ parse der = Ok leaf /\
      In uri (URIs leaf) /\ HasPrefix uri "ati://" = true.

Lemma NewAgentClient_fields {P : Type} (fs : Files (list (list byte)) P) parse newHTTP
    (df : Defaults (R := R) (T := T) (D := D)) opts (c : AgentClient) tls :
  NewAgentClient fs parse newHTTP df opts = Ok (c, tls) ->
  exists cfg, apply_client_options opts new_client_config = Ok cfg /\
    let l := default BadgeRequired (cc_trustLevel cfg) in
    (l = PolicyNone \/ PolicyBasic <= l <= PolicyAdvanced) /\ fresh_client l c /\ transport_ok parse l tls.
Proof.
  unfold NewAgentClient. intros E. apply rbind_Ok in E as (cfg & Ec & E). exists cfg. split; [exact Ec|].
  cbv zeta in *. set (l := default BadgeRequired (cc_trustLevel cfg)) in *.
  assert (Hl : l = PolicyNone \/ PolicyBasic <= l <= PolicyAdvanced).
  { apply ValidForClient_spec. subst l.
    assert (H0' : forall l, cc_trustLevel (R := R) (T := T) (D := D) new_client_config = Some l -> ValidForClient l = true)
      by discriminate.
    pose proof (apply_client_options_level opts _ _ H0' Ec) as Hv.
    destruct (cc_trustLevel cfg) as [t|]; [apply Hv; reflexivity | reflexivity]. }
  split; [exact Hl|]. unfold fresh_client, transport_ok. destruct (l =? PolicyNone) eqn:En; cbv iota in E.
  - destruct (String.eqb (cc_caBundleFile cfg) ""); [|discriminate].
    destruct (_ || _); [|destruct (LoadX509KeyPair _ _ _); [|discriminate]]; injection E as <- <-; cbn; auto 10.
  - destruct (_ || _); [discriminate|]. cbn [negb] in E. destruct (LoadX509KeyPair _ _ _) as [[|der rest]|]; try discriminate.
    destruct (parse der) as [leaf|] eqn:Ep; [|discriminate]. destruct (existsb _ _) eqn:Eu; [|discriminate].
    apply existsb_exists in Eu as (uri & Hin & Hu). apply rbind_Ok in E as (pool & _ & E). injection E as <- <-. cbn.
    split; [split; [reflexivity|]; split; [reflexivity|]; split; [eauto|]|].
    + intros Hadv. destruct (cc_daneResolver cfg); [discriminate|].
      unfold DANEAndBadge. apply Z.leb_le in Hadv. rewrite Hadv. discriminate.
    + do 2 (split; [reflexivity|]). exists der, rest, leaf, uri. auto.
Qed.

Definition outside (h : C) (r : R) (t : T) (d : option D) (c : AgentClient) : AgentClient :=
  MkAgentClient h (ac_trustLevel c) (option_map (fun e => MkEnv r t (e_dane e) (e_cache e)) (ac_verifier c)) d
    (ac_verifyCache c) (ac_identityHost c) (ac_accessHost c).

(** The clients of a program: constructed, used in any order, with collaborators
    that change on their own. *)
Inductive client_reachable : AgentClient -> Prop :=
| client_new {P : Type} (fs : Files (list (list byte)) P) parse newHTTP df opts c tls :
    NewAgentClient fs parse newHTTP df opts = Ok (c, tls) -> client_reachable c
| client_do ck method urlStr body c : client_reachable c -> client_reachable (snd (Do ck method urlStr body c))
| client_prefetch host c : client_reachable c -> client_reachable (snd (Client_Prefetch host c))
| client_connect target c : client_reachable c -> client_reachable (snd (Connect target c))
| client_outside h r t d c : client_reachable c -> client_reachable (outside h r t d c).

Lemma Prefetch_client_ok (host : string) (c : AgentClient) : client_ok c -> client_ok (snd (Client_Prefetch host c)).
Proof.
  intros Hc. unfold Client_Prefetch. destruct (NewFqdn host) as [f|]; [|exact Hc].
  destruct (ac_verifier c); [|exact Hc].
  pose proof (checkDNSDiscovery_state f c) as Hst. destruct (client_discovery_ok f c) as (_ & _ & D3).
  rewrite <- Hst in D3. destruct (checkDNSDiscovery f c) as [[[|] id] c1]; exact (D3 Hc).
Qed.

Lemma Connect_client_ok (target : string) (c : AgentClient) : client_ok c -> client_ok (snd (Connect target c)).
Proof.
  intros Hc. unfold Connect. destruct (String.eqb target ""); [exact Hc|].
  destruct (NewFqdn target) as [f|]; [|exact Hc]. destruct (client_discovery_ok f c) as (_ & _ & D3).
  specialize (D3 Hc). destruct (client_discovery f c) as [[res|e] c1]; [|exact D3].
  destruct (ad_Records res); [exact D3|]. destruct (ad_Found res); exact D3.
Qed.

Lemma client_reachable_ok (c : AgentClient) : client_reachable c -> client_ok c.
Proof.
  induction 1 as [P fs parse newHTTP df opts c tls E|ck m u b c _ IH|host c _ IH|target c _ IH|h r t d c _ IH].
  - apply NewAgentClient_fields in E as (cfg & _ & Hl & (F1 & F2 & F3) & _). cbv zeta in *.
    eexists. split; [exact F1|]. split; [destruct Hl as [->|[Hl _]]; auto|]. rewrite F2.
    split; [|apply map_Forall_empty]. intros e Ee. destruct (_ =? PolicyNone); [congruence|].
    destruct F3 as [(e' & Ee' & Hc) _]. rewrite Ee in Ee'. injection Ee' as <-. unfold env_ok. rewrite Hc.
    split; apply map_Forall_empty.
  - pose proof IH as (l & El & _). pose proof (Do_spec ck m u b c l IH El) as Hs.
    destruct (Do ck m u b c) as [res c']. apply Hs.
  - apply Prefetch_client_ok, IH.
  - apply Connect_client_ok, IH.
  - destruct IH as (l & El & Hl & He & Hm). exists l. split; [exact El|]. split; [exact Hl|]. split; [|exact Hm].
    cbn. intros e Ee. destruct (ac_verifier c) as [e0|]; [|discriminate]. injection Ee as <-. exact (He e0 eq_refl).
Qed.

(** (a client is built to verify) a client is only built at a level a client
    supports, ENHANCED if none is asked for; unless NONE is asked for explicitly,
    its transport verifies the peer's chain and the validity of its certificate
    and presents an identity certificate with an ati:// name; ADVANCED has a DANE
    resolver; and the client starts with nothing verified. *)
Theorem NewAgentClient_verifies {P : Type} (fs : Files (list (list byte)) P) parse newHTTP df opts (c : AgentClient) tls :
  NewAgentClient fs parse newHTTP df opts = Ok (c, tls) ->
  exists cfg, apply_client_options opts new_client_config = Ok cfg /\
    let l := default BadgeRequired (cc_trustLevel cfg) in
    (l = PolicyNone \/ PolicyBasic <= l <= PolicyAdvanced) /\ fresh_client l c /\ transport_ok parse l tls.
Proof. apply NewAgentClient_fields. Qed.

(** C4: (a client accepts a peer only on evidence for its level) in every state
    the client can reach, an accepted request at an explicit level was made over
    https and the agent was discovered; from ENHANCED on, the response came over
    TLS, and a transparency-log record fetched for the identity host, now or when
    this certificate was first accepted for this host, binds a certificate with
    the peer's fingerprint to that host; for ADVANCED a DNSSEC-validated TLSA
    record of the request's host names it. A failed request adds nothing to what
    the client holds verified. The TLSA part is what the code comments on RFC 6698
    and on REQUIRED policies say; other texts of the repository differ: the README
    lets missing records and missing DNSSEC pass ([client_advanced_rejects_benign_dane]),
    and it, the specification and the comments of [WithAccessHost] and
    [resolveAccessHost] place the record under the access host or the identity host
    ([dane_at_request_host]). *)
Theorem Do_sound (ck : clock) (method urlStr : string) body (c : AgentClient) (l : TrustLevel) :
  client_reachable c -> ac_trustLevel c = Some l -> PolicyBasic <= l ->
  let '(res, c') := Do ck method urlStr body c in
  match res with
  | Err _ => ac_verifyCache c' = ac_verifyCache c
  | Ok (resp, o) =>
      exists u, url_Parse urlStr = Some u /\ Scheme u = "https" /\ DNSDiscovered o = true /\ l <= AchievedLevel o /\
        (PolicyEnhanced <= l -> exists peer, head (peer_certificates resp) = Some peer /\ BadgeVerified o = true /\
           badge_proof (R := R) (T := T) (resolveIdentityHost (Hostname u) c) (peer_fp peer)) /\
        (PolicyAdvanced <= l -> exists peer, head (peer_certificates resp) = Some peer /\
           dane_proof (D := D) (Hostname u) (peer_fp peer))
  end.
Proof.
  intros Hr El Hl. apply client_reachable_ok in Hr. pose proof (Do_spec ck method urlStr body c l Hr El) as Hs.
  destruct (Do ck method urlStr body c) as [[[resp o]|err] c']; destruct Hs as (_ & _ & S3 & S4); [|eapply S3; eauto].
  destruct (S4 resp o eq_refl Hl) as (u & Hu & Hs & Hev). exists u. do 2 (split; [assumption|]).
  unfold PolicyEnhanced, PolicyAdvanced in *.
  destruct (head (peer_certificates resp)) as [p|].
  - destruct Hev as (E1 & E2 & E3 & E4). do 2 (split; [assumption|]). split; intros Hle; exists p.
    + destruct (E3 Hle). auto.
    + destruct (E4 Hle). auto.
  - destruct Hev as (E1 & E2 & E3). do 2 (split; [assumption|]). split; intros Hle; lia.
Qed.

(** (discovery comes before the connection) at an explicit level other than
    NONE, when the identity host is not discovered the HTTP client is not called,
    and in any case it is called at most once, with the request asked for. *)
Theorem Do_discovery_first (ck : clock) (method urlStr : string) body (c : AgentClient) (l : TrustLevel) :
  client_reachable c -> ac_trustLevel c = Some l ->
  let c' := snd (Do ck method urlStr body c) in
  ac_http c' = ac_http c \/
  exists req, new_request method urlStr body = Ok req /\ ac_http c' = snd (http_Do (ac_http c) req) /\
    (l = PolicyNone \/
     exists u f host, url_Parse urlStr = Some u /\ NewFqdn host = Ok f /\
       (host = resolveIdentityHost (Hostname u) c \/ host = Hostname u) /\
       fst (fst (checkDNSDiscovery f c)) = true).
Proof.
  intros Hr El. cbv zeta. apply client_reachable_ok in Hr.
  pose proof (Do_spec ck method urlStr body c l Hr El) as Hs.
  assert (Hd : ac_http (snd (Do ck method urlStr body c)) = ac_http c \/ l = PolicyNone \/
    exists u f host, url_Parse urlStr = Some u /\ NewFqdn host = Ok f /\
       (host = resolveIdentityHost (Hostname u) c \/ host = Hostname u) /\
       fst (fst (checkDNSDiscovery f c)) = true).
  { clear Hs. unfold Do. rewrite El. destruct (url_Parse urlStr) as [u|] eqn:Eu; [|left; reflexivity].
    destruct (String.eqb (Hostname u) ""); [left; reflexivity|].
    destruct (negb (String.eqb (Scheme u) "https")); [left; reflexivity|].
    destruct (l =? PolicyNone) eqn:En; bool_hyps; [right; left; exact En|].
    destruct (NewFqdn (Hostname u)) as [f|] eqn:Ef; [|left; reflexivity].
    assert (Hdf : exists g host, NewFqdn host = Ok g /\ (host = resolveIdentityHost (Hostname u) c \/ host = Hostname u) /\
      match NewFqdn (resolveIdentityHost (Hostname u) c) with Ok f => f | Err _ => f end = g).
    { destruct (NewFqdn (resolveIdentityHost (Hostname u) c)) as [g|] eqn:Eg.
      - exists g, (resolveIdentityHost (Hostname u) c). auto.
      - exists f, (Hostname u). auto. }
    destruct Hdf as (g & host & Hg & Hhost & ->). pose proof (checkDNSDiscovery_state g c) as Hst.
    destruct (client_discovery_ok g c) as (D1 & D2 & _). rewrite <- Hst in D1, D2.
    destruct (checkDNSDiscovery g c) as [[found id] c1] eqn:Ec. cbn [fst snd] in *.
    assert (El1 : ac_trustLevel c1 = Some l) by (destruct D1 as (-> & _); exact El). rewrite El1.
    destruct found; cbn [negb is_some andb]; [|left; exact D2].
    right. right. exists u, g, host. rewrite Ec. auto. }
  destruct (Do ck method urlStr body c) as [res c']. destruct Hs as (_ & [S|(req & S1 & S2)] & _); [left; exact S|].
  destruct Hd as [Hd|Hd]; [left; exact Hd|]. right. exists req. auto.
Qed.

End Properties.

(** ** A client at work *)

#[local] Existing Instance plain_tables.
#[local] Existing Instance plain_semver.
#[local] Existing Instance one_DNS.
#[local] Existing Instance one_TLog.
#[local] Existing Instance one_DANE.

(** A server that always gives the same response. *)
#[local] Instance one_HTTP : HTTPClient http_response := {| http_Do resp req := (Ok resp, resp) |}.

Definition from_agent (raw : list byte) : http_response := MkResponse 200 (Some [deref (agent_leaf raw [])]) [].
Definition plaintext : http_response := MkResponse 200 None [].

Definition key_files : Files (list (list byte)) unit := MkFiles (fun _ _ => Ok [[x02]]) (fun _ => Ok []) (fun _ => Some tt) [].
Definition parse_any (der : list byte) : result goerror Certificate := Ok (deref (agent_leaf der [])).

Definition client_at (l : TrustLevel) (resp : http_response)
  : result goerror (AgentClient unit string TLSALookupResult http_response * clientTLSConfig) :=
  NewAgentClient key_files parse_any (fun _ _ => resp) one_defaults [WithIdentityCert "c" "k"; WithTrustLevel l].

(** A request at time [t] to the agent's host. *)
Definition request (t : Z) (c : AgentClient unit string TLSALookupResult http_response) :=
  Do (sample_clock t) "GET" "https://a.example/x" None c.
Definition requested (l : TrustLevel) (resp : http_response) : option bool :=
  match client_at l resp with Ok (c, _) => Some (is_ok (fst (request 0 c))) | Err _ => None end.

Example client_levels :
  map (fun l => requested l (from_agent [x02])) [-1; 0; 1; 2] = [Some true; Some true; Some true; Some true] /\
  map (fun l => requested l (from_agent [x03])) [-1; 0; 1; 2] = [Some true; Some true; Some false; Some false] /\
  map (fun l => requested l plaintext) [-1; 0; 1; 2] = [Some true; Some true; Some false; Some false].
Proof. vm_compute. auto. Qed.

(** BASIC accepts a response without TLS, which a redirect to http gives: the
    level starts at its zero value, which is BASIC. *)
Example plaintext_accepted_at_basic :
  match client_at PolicyBasic plaintext with
  | Ok (c, _) =>
      match fst (request 0 c) with
      | Ok (_, o) => CAChainValid o = false /\ AchievedLevel o = PolicyBasic /\ TrustOutcome_IsVerified o = false
      | Err _ => False
      end
  | Err _ => False
  end.
Proof. vm_compute. auto. Qed.

(** Once accepted, a certificate stays accepted for its host: years after the
    log revoked the agent, with the badge cache long expired, the request
    succeeds, while a new client refuses it. *)
Definition year : Z := 365 * 24 * 3600 * 1000000000.
Example revoked_agent_stays_accepted :
  match client_at PolicyEnhanced (from_agent [x02]) with
  | Ok (c, _) =>
      let revoked := outside (from_agent [x02]) tt "REVOKED" None in
      let after := revoked (snd (request 0 c)) in
      is_ok (fst (request 0 c)) = true /\
      is_ok (fst (request (5 * year) after)) = true /\
      is_ok (fst (request (5 * year) (revoked c))) = false
  | Err _ => False
  end.
Proof. vm_compute. auto. Qed.

(** Asked for ADVANCED, the client refuses a server without a TLSA record and one
    whose records DNSSEC does not cover. *)
Definition requested_dane (d : TLSALookupResult) : option bool :=
  match client_at PolicyAdvanced (from_agent [x02]) with
  | Ok (c, _) => Some (is_ok (fst (request 0 (set_daneResolver_ d c))))
  | Err _ => None
  end.

Example client_advanced_rejects_benign_dane :
  map requested_dane [no_record; own_record false; own_record true] = [Some false; Some false; Some true].
Proof. vm_compute. reflexivity. Qed.

(** A network with the server's TLSA record under one host only, and a client
    with identity host [a.example] and an access host. *)
#[local] Instance host_DANE : DANEResolver string := {|
  dane_LookupTLSA host f p := (Ok (if String.eqb (Fqdn_String f) host then own_record true else no_record), host);
  dane_LookupIdentityTLSA host f := (Ok no_record, host)
|}.

Definition two_hosts (record_host access url : string) : option bool :=
  match NewAgentClient (R := unit) (T := string) (D := string) key_files parse_any (fun _ _ => from_agent [x02])
          (MkDefaults tt "ACTIVE" (fun _ => record_host) "")
          [WithIdentityCert "c" "k"; WithTrustLevel PolicyAdvanced; WithIdentityHost "a.example"; WithAccessHost access] with
  | Ok (c, _) => Some (is_ok (fst (Do (sample_clock 0) "GET" url None c)))
  | Err _ => None
  end.

(** The record is looked for under the host of the request, whatever the two
    hosts are set to. *)
Example dane_at_request_host :
  two_hosts "gw.example" "gw.example" "https://gw.example/x" = Some true /\
  two_hosts "gw.example" "other.example" "https://gw.example/x" = Some true /\
  two_hosts "gw.example" "gw.example" "https://b.example/x" = Some false /\
  two_hosts "a.example" "gw.example" "https://gw.example/x" = Some false.
Proof. vm_compute. auto. Qed.

Definition get_client (l : TrustLevel) (resp : http_response) : option (AgentClient unit string TLSALookupResult http_response) :=
  match client_at l resp with Ok (c, _) => Some c | Err _ => None end.

Lemma get_client_reachable (l : TrustLevel) (resp : http_response) c :
  get_client l resp = Some c -> client_reachable c.
Proof.
  unfold get_client. destruct (client_at l resp) as [[c0 tls]|] eqn:E; [|discriminate]. intros [= <-].
  exact (client_new key_files parse_any (fun _ _ => resp) one_defaults _ c0 tls E).
Qed.

Lemma Do_sound_witness :
  exists c resp o, get_client PolicyAdvanced (from_agent [x02]) = Some c /\ fst (request 0 c) = Ok (resp, o) /\
    badge_proof (R := unit) (T := string) "a.example" (peer_fp (deref (agent_leaf [x02] []))) /\
    dane_proof (D := TLSALookupResult) "a.example" (peer_fp (deref (agent_leaf [x02] []))).
Proof.
  destruct (get_client PolicyAdvanced (from_agent [x02])) as [c|] eqn:Ec; [|discriminate Ec].
  pose proof (Do_sound (sample_clock 0) "GET" "https://a.example/x" None c PolicyAdvanced
    (get_client_reachable _ _ _ Ec)) as Hs.
  assert (El : ac_trustLevel c = Some PolicyAdvanced) by (clear -Ec; vm_compute in Ec; injection Ec as <-; reflexivity).
  specialize (Hs El ltac:(unfold PolicyBasic, PolicyAdvanced; lia)).
  assert (Hr : exists o, fst (request 0 c) = Ok (from_agent [x02], o) /\ ac_identityHost c = "")
    by (clear -Ec; vm_compute in Ec; injection Ec as <-; vm_compute; eauto).
  destruct Hr as (o & Hr & Hi). exists c, (from_agent [x02]), o. split; [reflexivity|]. split; [exact Hr|].
  unfold request in Hr. destruct (Do _ _ _ _ c) as [res c']. cbn [fst] in Hr. subst res.
  destruct Hs as (u & Hu & _ & _ & _ & Hb & Hd).
  assert (Hh : Hostname u = "a.example") by (clear -Hu; vm_compute in Hu; injection Hu as <-; reflexivity).
  unfold resolveIdentityHost in Hb. rewrite Hi, Hh in Hb. rewrite Hh in Hd.
  destruct Hb as (p & Hp & _ & Hb); [unfold PolicyEnhanced, PolicyAdvanced; lia|]. cbn in Hp. injection Hp as <-.
  destruct Hd as (q & Hq & Hd); [lia|]. cbn in Hq. injection Hq as <-. split; [exact Hb | exact Hd].
Defined.

Lemma Do_discovery_first_witness :
  exists c, get_client PolicyEnhanced (from_agent [x02]) = Some c /\
    (ac_http (snd (request 0 c)) = ac_http c \/
     exists req, new_request "GET" "https://a.example/x" None = Ok req /\
       ac_http (snd (request 0 c)) = snd (http_Do (ac_http c) req)).
Proof.
  destruct (get_client PolicyEnhanced (from_agent [x02])) as [c|] eqn:Ec; [|discriminate Ec].
  exists c. split; [reflexivity|].
  destruct (Do_discovery_first (sample_clock 0) "GET" "https://a.example/x" None c PolicyEnhanced
    (get_client_reachable _ _ _ Ec)) as [S|(req & S1 & S2 & _)].
  - clear -Ec. vm_compute in Ec. injection Ec as <-. reflexivity.
  - left. exact S.
  - right. exists req. auto.
Defined.

Lemma NewAgentClient_verifies_witness :
  exists c tls, client_at PolicyAdvanced (from_agent [x02]) = Ok (c, tls) /\
    InsecureSkipVerify tls = false /\ checksValidity tls = true.
Proof.
  destruct (client_at PolicyAdvanced (from_agent [x02])) as [[c tls]|] eqn:E; [|discriminate E].
  destruct (NewAgentClient_verifies key_files parse_any (fun _ _ => from_agent [x02]) one_defaults
    [WithIdentityCert "c" "k"; WithTrustLevel PolicyAdvanced] c tls E) as (cfg & Hcfg & _ & _ & Ht).
  exists c, tls. split; [reflexivity|]. vm_compute in Hcfg. injection Hcfg as <-.
  unfold transport_ok in Ht. cbn in Ht. destruct Ht as (H1' & H2' & _). auto.
Defined.
