(* ===== verification/Gold.v ===== *)
(** Gold verification against the transparency log, online and offline:
    [verify/gold.go], [verify/offline.go]. *)

From S2P Require Import Prelude GoStrings Utf8 Encoding Sha256 Errors Models Cert Merkle Records Resolver.
From S2P Require Import Dnssec Dane Verifier Json TlogJson Seal Trust.

#[local] Open Scope string_scope.
#[local] Open Scope Z_scope.

Section Gold.
Context `{UnicodeTables} `{SignatureLib} {R T : Type} `{DNSResolver R} `{TransparencyLogClient T}.

Definition defaultCNNICTLBaseURL : string := "https://ati-tl.cnnic.cn/ati/api/v1".

(** Without its logger and its policy, which [VerifyGold] does not read; the
    resolver and the client are in the state. *)
Record GoldVerifierConfig := MkGoldConfig {
  gc_TLBaseURL : string;
  gc_TLPublicKey : option PublicKey_;
  gc_TLKeyStore : option TLKeyStore;
  gc_ProducerKeys : option ProducerKeyLookup
}.

Definition matchFingerprint (tlResp : TLResponse) (cert : CertIdentity) : bool :=
  MatchesWithRenewal (Fingerprint cert) (IdentityCertFingerprint (Payload tlResp))
    (PreviousIdentityCertFingerprint (Payload tlResp)) ||
  MatchesWithRenewal (Fingerprint cert) (ServerCertFingerprint (Payload tlResp))
    (PreviousServerCertFingerprint (Payload tlResp)).

(** The seal check of both verifiers: the key store is preferred. *)
Definition sealErr (tlResp : TLResponse) (store : option TLKeyStore) (key : option PublicKey_) : result goerror unit :=
  match store with
  | Some keys => VerifySealSignatureWithKeyStore (Some tlResp) (Some keys)
  | None => VerifySealSignature (Some tlResp) key
  end.

Definition producerErr (tlResp : TLResponse) (keys : option ProducerKeyLookup) : result goerror unit :=
  match keys with
  | Some _ => VerifyProducerSignature (Some tlResp) keys
  | None => Ok tt
  end.

Definition gold_params (keys : option ProducerKeyLookup) (active : bool) : TrustIndexParams :=
  MkTrustIndexParams true false false true (is_some keys) true true active false false false 0 0 false.

Definition mismatch_evidence (tlResp : TLResponse) (cert : CertIdentity) : list (string * string) :=
  [("expected_identity", IdentityCertFingerprint (Payload tlResp));
   ("expected_previous_identity", PreviousIdentityCertFingerprint (Payload tlResp));
   ("expected_server", ServerCertFingerprint (Payload tlResp));
   ("expected_previous_server", PreviousServerCertFingerprint (Payload tlResp));
   ("actual", Fingerprint_String (Fingerprint cert))].

(** Steps 3 to 7: what is checked of a fetched response, up to the result. *)
Definition check_gold (now : Z) (ansName : string) (cfg : GoldVerifierConfig) (cert : CertIdentity)
    (tlResp : TLResponse) : VerificationResult :=
  let fail := NewFailureResult now ansName in
  match sealErr tlResp (gc_TLKeyStore cfg) (gc_TLPublicKey cfg) with
  | Err e => fail (NewANSErrorWithCause CodeTLReceiptSigInvalid SeverityHard StageTLVerify
                     "seal signature verification failed" e)
  | Ok _ =>
  match VerifyInclusionProof (Some tlResp) with
  | Err e => fail (NewANSErrorWithCause CodeTLInclusionProofFailed SeverityHard StageTLVerify
                     "inclusion proof verification failed" e)
  | Ok _ =>
  match producerErr tlResp (gc_ProducerKeys cfg) with
  | Err e => fail (NewANSErrorWithCause CodeProducerSigInvalid SeverityHard StageTLVerify
                     "producer signature verification failed" e)
  | Ok _ =>
  if negb (matchFingerprint tlResp cert) then
    fail (NewANSErrorWithEvidence CodeTLFingerprintMismatch SeverityHard StageTLVerify
            "certificate fingerprint does not match TL attestation" (mismatch_evidence tlResp cert))
  else
  let status := ToUpper (AgentStatus (Payload tlResp)) in
  if TL_IsTerminal status then
    let code := if String.eqb status TLStatusExpired then CodeStatusExpired else CodeStatusRevoked in
    fail (NewANSError code SeverityHard StageTLVerify ("agent status " ++ status ++ " does not allow connections"))
  else
  let params := gold_params (gc_ProducerKeys cfg) (String.eqb status TLStatusActive) in
  let '(trustIndex, trustLevel) := ComputeTrustIndex params in
  let vr := NewSuccessResult now ansName trustIndex trustLevel in
  let warnings := ((if String.eqb status TLStatusWarning then ["agent status is WARNING"] else []) ++
                   (if String.eqb status TLStatusDeprecated then ["agent status is DEPRECATED"] else []))%list in
  MkResult (vr_AnsName vr) (vr_Connected vr) (vr_TrustLevel vr) (vr_TrustIndex vr) (vr_IdentityVerified vr)
    (vr_TLVerified vr) (vr_AgentCardVerified vr) (vr_DNSSECStatus vr) status (vr_Warnings vr ++ warnings)%list
    (vr_Error vr) (vr_Timestamp vr)
  end end end.

(** [VerifyGold]; [now] is the time of the result. *)
Definition VerifyGold (now : Z) (fqdn : Fqdn) (cert : CertIdentity) (cfg : GoldVerifierConfig) (st : R * T)
  : VerificationResult * (R * T) :=
  let '(dns, tlog) := st in
  let tlBaseURL := if String.eqb (gc_TLBaseURL cfg) "" then defaultCNNICTLBaseURL else gc_TLBaseURL cfg in
  let ansName := "ati://" ++ Fqdn_String fqdn in
  let fail := NewFailureResult now ansName in
  let '(r, dns) := dns_LookupATIDiscovery dns fqdn in
  match r with
  | Err e => (fail (NewANSErrorWithCause CodeDNSCoreRecordMissing SeverityHard StageDNSDiscovery
                      ("DNS discovery failed for " ++ Fqdn_String fqdn) e), (dns, tlog))
  | Ok result =>
      match ad_Found result, ad_Records result with
      | true, record :: _ =>
          let agentID := rec_ID record in
          if String.eqb agentID "" then
            (fail (NewANSError CodeDNSCoreRecordMissing SeverityHard StageDNSDiscovery
                     ("_ati record for " ++ Fqdn_String fqdn ++ " has no agent ID")), (dns, tlog))
          else
          let tlURL := tlBaseURL ++ "/tl/agents/" ++ agentID ++ "/logs/latest" in
          let '(r, tlog) := FetchTLResponse tlog tlURL in
          match r with
          | Err e => (fail (NewANSErrorWithCause CodeTLUnreachable SeveritySoft StageTLVerify "TL fetch failed" e),
                      (dns, tlog))
          | Ok tlResp => (check_gold now ansName cfg cert tlResp, (dns, tlog))
          end
      | _, _ => (fail (NewANSError CodeDNSCoreRecordMissing SeverityHard StageDNSDiscovery
                         ("no _ati records found for " ++ Fqdn_String fqdn)), (dns, tlog))
      end
  end.

(** ** [offline.go] *)

Record OfflineVerifier := MkOffline {
  ov_tlPublicKey : option PublicKey_;
  ov_tlKeyStore : option TLKeyStore;
  ov_producerKeys : option ProducerKeyLookup
}.

Definition NewOfflineVerifier (tlPublicKey : option PublicKey_) (producerKeys : option ProducerKeyLookup)
  : OfflineVerifier := MkOffline tlPublicKey None producerKeys.
Definition NewOfflineVerifierWithKeyStore (store : option TLKeyStore) (producerKeys : option ProducerKeyLookup)
  : OfflineVerifier := MkOffline None store producerKeys.

(** [json.Unmarshal(data, &tlResp)] into a fresh response: the type's own
    method, behind a syntax check that the method repeats. *)
Definition Unmarshal_TLResponse (data : string) : result goerror TLResponse :=
  TLResponse_UnmarshalJSON empty_response data.

(** [now] is the time of the result. *)
Definition VerifyOffline (now : Z) (v : OfflineVerifier) (tlResponseJSON : string) (cert : CertIdentity)
  : result goerror VerificationResult :=
  if String.eqb tlResponseJSON "" then Err (EPlain "offline: empty TL response") else
  match Unmarshal_TLResponse tlResponseJSON with
  | Err e => Err (EWrap "offline: failed to parse TL response" e)
  | Ok tlResp =>
      let ansName := AgentName (Payload tlResp) in
      let fail e := Ok (NewFailureResult now ansName e) in
      match sealErr tlResp (ov_tlKeyStore v) (ov_tlPublicKey v) with
      | Err e => fail (NewANSErrorWithCause CodeTLReceiptSigInvalid SeverityHard StageTLVerify
                         "offline: seal signature verification failed" e)
      | Ok _ =>
      match VerifyInclusionProof (Some tlResp) with
      | Err e => fail (NewANSErrorWithCause CodeTLInclusionProofFailed SeverityHard StageTLVerify
                         "offline: inclusion proof verification failed" e)
      | Ok _ =>
      match producerErr tlResp (ov_producerKeys v) with
      | Err e => fail (NewANSErrorWithCause CodeProducerSigInvalid SeverityHard StageTLVerify
                         "offline: producer signature verification failed" e)
      | Ok _ =>
      if negb (matchFingerprint tlResp cert) then
        fail (NewANSError CodeTLFingerprintMismatch SeverityHard StageTLVerify
                "offline: certificate fingerprint does not match TL attestation")
      else
      let params := gold_params (ov_producerKeys v) true in
      let '(trustIndex, trustLevel) := ComputeTrustIndex params in
      let result := NewSuccessResult now ansName trustIndex trustLevel in
      Ok (MkResult (vr_AnsName result) (vr_Connected result) (vr_TrustLevel result) (vr_TrustIndex result)
            (vr_IdentityVerified result) true (vr_AgentCardVerified result) (vr_DNSSECStatus result)
            (vr_Status result) (vr_Warnings result ++ ["offline mode: revocation status unknown"])%list
            (vr_Error result) now)
      end end end
  end.

(** ** What a verified response attests *)

(** The checks both verifiers share, as one condition. *)
Definition attested (store : option TLKeyStore) (key : option PublicKey_) (keys : option ProducerKeyLookup)
    (cert : CertIdentity) (r : TLResponse) : Prop :=
  sealErr r store key = Ok tt /\ VerifyInclusionProof (Some r) = Ok tt /\
  producerErr r keys = Ok tt /\ matchFingerprint r cert = true.

Lemma check_gold_connected (now : Z) (ansName : string) (cfg : GoldVerifierConfig) (cert : CertIdentity) (r : TLResponse) :
  vr_Connected (check_gold now ansName cfg cert r) = true <->
  attested (gc_TLKeyStore cfg) (gc_TLPublicKey cfg) (gc_ProducerKeys cfg) cert r /\
  TL_IsTerminal (ToUpper (AgentStatus (Payload r))) = false.
Proof.
  unfold check_gold, attested. cbv zeta.
  destruct (sealErr _ _ _) as [[]|]; [|cbn; intuition discriminate].
  destruct (VerifyInclusionProof _) as [[]|]; [|cbn; intuition discriminate].
  destruct (producerErr _ _) as [[]|]; [|cbn; intuition discriminate].
  destruct (matchFingerprint _ _); cbn [negb]; [|cbn; intuition discriminate].
  destruct (TL_IsTerminal _); [cbn; intuition discriminate|].
  destruct (ComputeTrustIndex _). cbn. intuition.
Qed.

(** A response is sealed by the configured key, or by the stored one. *)
Definition seal_trusted (store : option TLKeyStore) (key : option PublicKey_) (r : TLResponse) : Prop :=
  match store with
  | Some keys => exists k, keys !! KeyID (Seal r) = Some k /\ sealed r k
  | None => sealed r key
  end.

Lemma sealErr_ok (store : option TLKeyStore) (key : option PublicKey_) (r : TLResponse) :
  sealErr r store key = Ok tt <-> seal_trusted store key r.
Proof.
  destruct store; [apply VerifySealSignatureWithKeyStore_ok | apply VerifySealSignature_ok].
Qed.

(** With a key lookup, a response that asks for a producer signature has one. *)
Definition producer_signed (keys : option ProducerKeyLookup) (r : TLResponse) : Prop :=
  match keys with
  | None => True
  | Some GetProducerKey =>
      SignatureRequired (tr_EvidenceRef r) = true ->
      SubmitterID (tr_EvidenceRef r) <> "" /\
      exists key digest sig,
        GetProducerKey (SubmitterID (tr_EvidenceRef r)) = Ok key /\
        computeProducerDigest (Payload r) = Ok digest /\
        b64_DecodeString (EvidenceHash (tr_EvidenceRef r)) = Some sig /\
        ecdsa_VerifyASN1 key digest sig = true
  end.

Lemma producerErr_ok (keys : option ProducerKeyLookup) (r : TLResponse) :
  producerErr r keys = Ok tt <-> producer_signed keys r.
Proof.
  destruct keys as [get|]; [|cbn; tauto]. unfold producerErr, VerifyProducerSignature, producer_signed.
  destruct (SignatureRequired _); cbn [negb]; [|split; [discriminate | reflexivity]].
  destruct (String.eqb_spec (SubmitterID (tr_EvidenceRef r)) "") as [E|E]; cbn [negb].
  { split; [discriminate|]. intros K. destruct (K eq_refl) as [K' _]. contradiction. }
  split.
  - intros K _. split; [exact E|]. destruct (get _) as [key|]; [|discriminate].
    destruct (computeProducerDigest _) as [d|]; [|discriminate].
    destruct (b64_DecodeString _) as [sig|]; [|discriminate].
    destruct (ecdsa_VerifyASN1 key d sig) eqn:Ev; [|discriminate]. eauto 10.
  - intros K. destruct (K eq_refl) as (_ & key & d & sig & -> & -> & -> & ->). reflexivity.
Qed.

(** The certificate carries one of the attested fingerprints; a previous one
    counts only beside a current one. *)
Definition fingerprint_attested (r : TLResponse) (cert : CertIdentity) : Prop :=
  exists current previous,
    In (current, previous)
      [(IdentityCertFingerprint (Payload r), PreviousIdentityCertFingerprint (Payload r));
       (ServerCertFingerprint (Payload r), PreviousServerCertFingerprint (Payload r))] /\
    TrimSpace current <> "" /\
    (ParseCertFingerprint current = Ok (Fingerprint cert) \/ ParseCertFingerprint previous = Ok (Fingerprint cert)).

Lemma matchFingerprint_ok (r : TLResponse) (cert : CertIdentity) :
  matchFingerprint r cert = true <-> fingerprint_attested r cert.
Proof.
  unfold matchFingerprint, fingerprint_attested. rewrite orb_true_iff, !MatchesWithRenewal_spec. split.
  - intros [K|K]; do 2 eexists; (split; [|exact K]); cbn; auto.
  - intros (c & p & K & K1). cbn in K. destruct K as [[= <- <-]|[[= <- <-]|[]]]; auto.
Qed.

(** The log's address of an agent. *)
Definition gold_url (cfg : GoldVerifierConfig) (agentID : string) : string :=
  (if String.eqb (gc_TLBaseURL cfg) "" then defaultCNNICTLBaseURL else gc_TLBaseURL cfg) ++
  "/tl/agents/" ++ agentID ++ "/logs/latest".

(** What discovery and the log gave, when both answered. *)
Definition gold_fetched (fqdn : Fqdn) (cfg : GoldVerifierConfig) (st : R * T) (r : TLResponse) (st' : R * T) : Prop :=
  exists result record rest,
    dns_LookupATIDiscovery (fst st) fqdn = (Ok result, fst st') /\
    ad_Found result = true /\ ad_Records result = record :: rest /\ rec_ID record <> "" /\
    FetchTLResponse (snd st) (gold_url cfg (rec_ID record)) = (Ok r, snd st').

Lemma VerifyGold_cases (now : Z) (fqdn : Fqdn) (cert : CertIdentity) (cfg : GoldVerifierConfig) (st : R * T) :
  (exists r, gold_fetched fqdn cfg st r (snd (VerifyGold now fqdn cert cfg st)) /\
     fst (VerifyGold now fqdn cert cfg st) = check_gold now ("ati://" ++ Fqdn_String fqdn) cfg cert r) \/
  ((forall r st', ~ gold_fetched fqdn cfg st r st') /\
   exists e, fst (VerifyGold now fqdn cert cfg st) = NewFailureResult now ("ati://" ++ Fqdn_String fqdn) e /\
     ((exists msg cause, e = EANS CodeDNSCoreRecordMissing SeverityHard StageDNSDiscovery msg [] cause) \/
      (exists cause, e = NewANSErrorWithCause CodeTLUnreachable SeveritySoft StageTLVerify "TL fetch failed" cause))).
Proof.
  destruct st as [dns tlog]. unfold VerifyGold, gold_fetched. cbn [fst snd].
  destruct (dns_LookupATIDiscovery dns fqdn) as [[result|e] dns'].
  2: { right. split; [intros r st' (?&?&?&K&_); discriminate K|]. eexists. split; [reflexivity|]. left. do 2 eexists. reflexivity. }
  destruct (ad_Found result) eqn:Ef.
  2: { right. split; [intros r st' (?&?&?&[= <-]&K&_); congruence|]. eexists. split; [reflexivity|]. left. do 2 eexists. reflexivity. }
  destruct (ad_Records result) as [|record rest] eqn:Er.
  { right. split; [intros r st' (?&?&?&[= <-]&_&K&_); congruence|]. eexists. split; [reflexivity|]. left. do 2 eexists. reflexivity. }
  destruct (String.eqb_spec (rec_ID record) "") as [Ei|Ei].
  { right. split; [intros r st' (?&?&?&[= <-]&_&K&K'&_); congruence|]. eexists. split; [reflexivity|]. left. do 2 eexists. reflexivity. }
  fold (gold_url cfg (rec_ID record)). 
  destruct (FetchTLResponse tlog _) as [[r|e] tlog'] eqn:Et.
  - left. exists r. split; [|reflexivity]. exists result, record, rest. auto.
  - right. split; [intros r st' (?&?&?&[= <- E]&_&K1&_&K'); rewrite Er in K1; injection K1 as <- <-; congruence|]. eexists. split; [reflexivity|]. right.
    eexists. reflexivity.
Qed.

(** C2: Gold verification connects exactly when discovery names an agent, the
    log answers for it, the answer is sealed by the trusted key, carries a valid
    inclusion proof, a producer signature where keys are configured and one is
    required, an attested fingerprint equal to the certificate's, and a status
    that is not terminal. *)
Theorem VerifyGold_spec (now : Z) (fqdn : Fqdn) (cert : CertIdentity) (cfg : GoldVerifierConfig) (st : R * T)
    (Hint : forall u r t', FetchTLResponse (snd st) u = (Ok r, t') -> in_i64 (TreeSize (tr_MerkleProof r))) :
  vr_Connected (fst (VerifyGold now fqdn cert cfg st)) = true <->
  exists r st', gold_fetched fqdn cfg st r st' /\
    seal_trusted (gc_TLKeyStore cfg) (gc_TLPublicKey cfg) r /\
    inclusion_proved (tr_MerkleProof r) /\ producer_signed (gc_ProducerKeys cfg) r /\
    fingerprint_attested r cert /\ TL_IsTerminal (ToUpper (AgentStatus (Payload r))) = false.
Proof.
  assert (Hok : forall r st', gold_fetched fqdn cfg st r st' ->
    attested (gc_TLKeyStore cfg) (gc_TLPublicKey cfg) (gc_ProducerKeys cfg) cert r <->
    seal_trusted (gc_TLKeyStore cfg) (gc_TLPublicKey cfg) r /\ inclusion_proved (tr_MerkleProof r) /\
    producer_signed (gc_ProducerKeys cfg) r /\ fingerprint_attested r cert).
  { intros r st' (? & ? & ? & _ & _ & _ & _ & K). apply Hint in K. unfold attested.
    rewrite sealErr_ok, VerifyInclusionProof_ok, producerErr_ok, matchFingerprint_ok by exact K. reflexivity. }
  destruct (VerifyGold_cases now fqdn cert cfg st) as [(r & Hf & ->) | (Hn & e & -> & _)].
  - rewrite check_gold_connected, (Hok r _ Hf). split; [intros K; exists r; eexists; split; [exact Hf | tauto]|].
    intros (r' & st' & Hf' & K). enough (r' = r) as -> by tauto.
    destruct Hf as (r1 & c1 & l1 & A1 & A2 & A3 & A4 & A5), Hf' as (r2 & c2 & l2 & B1 & B2 & B3 & B4 & B5). congruence.
  - cbn. split; [discriminate|]. intros (r & st' & K & _). destruct (Hn r st' K).
Qed.
(** The score of a connected result: at most 65, so never the level HIGH. *)
Lemma gold_score (keys : option ProducerKeyLookup) (active : bool) :
  ComputeTrustIndex (gold_params keys active) =
  (50 + points (is_some keys) 10 + points active 5, if is_some keys || active then TrustLevelVerified else TrustLevelBasic).
Proof. destruct keys, active; reflexivity. Qed.

(** A Gold result that connects has the level VERIFIED exactly when producer
    keys are configured or the status is ACTIVE, and BASIC otherwise: no Gold
    result reaches HIGH; a warning status is reported as a warning. *)
Theorem VerifyGold_trust (now : Z) (fqdn : Fqdn) (cert : CertIdentity) (cfg : GoldVerifierConfig) (st : R * T)
    (Hc : vr_Connected (fst (VerifyGold now fqdn cert cfg st)) = true) :
  let vr := fst (VerifyGold now fqdn cert cfg st) in
  vr_TrustIndex vr = 50 + points (is_some (gc_ProducerKeys cfg)) 10 + points (String.eqb (vr_Status vr) TLStatusActive) 5 /\
  vr_TrustLevel vr = (if is_some (gc_ProducerKeys cfg) || String.eqb (vr_Status vr) TLStatusActive
                      then TrustLevelVerified else TrustLevelBasic) /\
  MeetsTrustLevel vr TrustLevelHigh = false /\
  (vr_Status vr = TLStatusWarning <-> In "agent status is WARNING" (vr_Warnings vr)).
Proof.
  cbv zeta. destruct (VerifyGold_cases now fqdn cert cfg st) as [(r & _ & E) | (_ & e & E & _)]; rewrite E in *;
    [|discriminate Hc].
  unfold check_gold in *. cbv zeta in *.
  destruct (sealErr _ _ _) as [[]|]; [|discriminate Hc].
  destruct (VerifyInclusionProof _) as [[]|]; [|discriminate Hc].
  destruct (producerErr _ _) as [[]|]; [|discriminate Hc].
  destruct (negb (matchFingerprint _ _)); [discriminate Hc|].
  destruct (TL_IsTerminal _); [discriminate Hc|]. rewrite gold_score.
  cbn [vr_TrustIndex vr_TrustLevel vr_Status vr_Warnings NewSuccessResult]. split; [reflexivity|]. split; [reflexivity|].
  split; [unfold MeetsTrustLevel; cbn [vr_TrustLevel]; destruct (_ || _); reflexivity|].
  set (status := ToUpper _). rewrite app_nil_l, in_app_iff. split.
  - intros ->. left. cbn. auto.
  - destruct (String.eqb_spec status TLStatusWarning) as [->|_]; [reflexivity|].
    destruct (String.eqb status TLStatusDeprecated); cbn; intuition discriminate.
Qed.

(** Every Gold failure says what failed: a failed result carries a hard
    error with the code of the failing step, except that an unreachable log is a
    soft error, and a terminal status is reported as expired or revoked. *)
Theorem VerifyGold_errors (now : Z) (fqdn : Fqdn) (cert : CertIdentity) (cfg : GoldVerifierConfig) (st : R * T) :
  let vr := fst (VerifyGold now fqdn cert cfg st) in
  match vr_Error vr with
  | None => vr_Connected vr = true
  | Some e =>
      vr_Connected vr = false /\
      exists code sev stage msg ev cause, e = EANS code sev stage msg ev cause /\
        (sev = SeveritySoft <-> code = CodeTLUnreachable) /\
        (sev = SeverityHard -> In code [CodeDNSCoreRecordMissing; CodeTLReceiptSigInvalid; CodeTLInclusionProofFailed;
          CodeProducerSigInvalid; CodeTLFingerprintMismatch; CodeStatusRevoked; CodeStatusExpired])
  end.
Proof.
  cbv zeta. destruct (VerifyGold_cases now fqdn cert cfg st) as [(r & _ & ->) | (_ & e & -> & K)].
  - unfold check_gold. cbv zeta.
    repeat match goal with
    | |- context [match sealErr ?a ?b ?c with _ => _ end] => destruct (sealErr a b c) as [[]|]
    | |- context [match VerifyInclusionProof ?a with _ => _ end] => destruct (VerifyInclusionProof a) as [[]|]
    | |- context [match producerErr ?a ?b with _ => _ end] => destruct (producerErr a b) as [[]|]
    | |- context [if ?b then _ else _] => destruct b
    end.
    all: cbn. all: try reflexivity.
    all: split; [reflexivity|]; do 6 eexists; split; [reflexivity|]; split; [split; discriminate|]; cbn; auto 10.
  - cbn. split; [reflexivity|]. destruct K as [(msg & cause & ->) | (cause & ->)]; do 6 eexists; (split; [reflexivity|]);
      (split; [split; (discriminate || reflexivity)|]); cbn; auto; discriminate.
Qed.

(** C30: offline verification is Gold verification of the same response without
    the network and without the status: wherever discovery and the log would have
    delivered the response that the text encodes, and its status is not terminal,
    the offline verifier with the same keys connects exactly when Gold does. *)
Theorem VerifyOffline_VerifyGold (now : Z) (fqdn : Fqdn) (cert : CertIdentity) (cfg : GoldVerifierConfig)
    (st st' : R * T) (text : string) (r : TLResponse)
    (Hr : Unmarshal_TLResponse text = Ok r) (Hf : gold_fetched fqdn cfg st r st')
    (Hs : TL_IsTerminal (ToUpper (AgentStatus (Payload r))) = false) :
  exists vr, VerifyOffline now (MkOffline (gc_TLPublicKey cfg) (gc_TLKeyStore cfg) (gc_ProducerKeys cfg)) text cert = Ok vr /\
    vr_Connected vr = vr_Connected (fst (VerifyGold now fqdn cert cfg st)).
Proof.
  destruct (VerifyGold_cases now fqdn cert cfg st) as [(r' & Hf' & ->) | (Hn & _)]; [|destruct (Hn r st' Hf)].
  assert (r' = r) as ->.
  { destruct Hf as (r1 & c1 & l1 & A1 & A2 & A3 & A4 & A5), Hf' as (r2 & c2 & l2 & B1 & B2 & B3 & B4 & B5). congruence. }
  unfold VerifyOffline. destruct (String.eqb_spec text "") as [->|_]; [discriminate Hr|]. rewrite Hr.
  unfold check_gold. cbv zeta. cbn [ov_tlKeyStore ov_tlPublicKey ov_producerKeys].
  destruct (sealErr _ _ _) as [[]|]; [|eexists; split; reflexivity].
  destruct (VerifyInclusionProof _) as [[]|]; [|eexists; split; reflexivity].
  destruct (producerErr _ _) as [[]|]; [|eexists; split; reflexivity].
  destruct (negb (matchFingerprint _ _)); [eexists; split; reflexivity|]. rewrite Hs, !gold_score.
  eexists. split; reflexivity.
Qed.
End Gold.

Section Examples.
#[local] Existing Instance plain_tables.
#[local] Existing Instance symbolic_signatures.

(** A log of one entry: the root is the leaf. *)
Definition zeros_hex : string := hex_EncodeToString (repeat x00 32).
Definition gold_text (status signature : string) : string :=
  with_quotes ("{'status':'OK','schemaVersion':'V1','payload':{'agentId':'a1','agentName':'n','agentStatus':'" ++ status ++
    "','certificates':{'identityCertFingerprint':'SHA256:" ++ zeros_hex ++ "'}},'evidenceRef':{}," ++
    "'seal':{'keyId':'k1','signatureAlgorithm':'ES256','signature':'" ++ signature ++ "'}," ++
    "'merkleProof':{'leafHash':'" ++ zeros_hex ++ "','rootHash':'" ++ zeros_hex ++ "','treeSize':1}}").

Definition parsed (text : string) : TLResponse :=
  match Unmarshal_TLResponse text with Ok r => r | Err _ => empty_response end.
(** The signature by the key [x01] over the digest. *)
Definition gold_signature (status : string) : string :=
  match computeSealDigest (parsed (gold_text status "")) with
  | Ok d => b64_EncodeToString (x01 :: d)
  | Err _ => ""
  end.
Definition signed_text (status : string) : string := gold_text status (gold_signature status).

Instance example_dns : DNSResolver unit := {|
  dns_FindBadgeForVersion st _ _ := (Err ERecordNotFound, st);
  dns_FindPreferredBadge st _ := (Err ERecordNotFound, st);
  dns_LookupATIDiscovery st _ := (Ok (MkDiscovery true [MkATIRecord "a1" "" (MkVersion 1 0 0) ATIRecordModeCard "" ""]), st)
|}.
(** The state is the status the log reports. *)
Instance example_log : TransparencyLogClient string := {|
  FetchTLResponse status url := (Ok (parsed (signed_text status)), status)
|}.

Definition example_cert : CertIdentity := NewCertIdentity None [] [] zero_fp.
Definition example_cfg : GoldVerifierConfig :=
  MkGoldConfig "" None (Some example_store) None.
Definition example_fqdn : Fqdn := MkFqdn "agent.example.com".

Lemma VerifyGold_spec_witness :
  vr_Connected (fst (VerifyGold 0 example_fqdn example_cert example_cfg (tt, "ACTIVE"))) = true /\
  exists r st', gold_fetched example_fqdn example_cfg (tt, "ACTIVE") r st' /\
    fingerprint_attested r example_cert.
Proof.
  assert (E : vr_Connected (fst (VerifyGold 0 example_fqdn example_cert example_cfg (tt, "ACTIVE"))) = true)
    by (vm_compute; reflexivity).
  split; [exact E|]. apply VerifyGold_spec in E.
  - destruct E as (r & st' & Hf & _ & _ & _ & Hm & _). exists r, st'. auto.
  - intros u r t' K. pose proof (f_equal fst K : Ok (parsed (signed_text "ACTIVE")) = Ok r) as Kr.
    replace r with (parsed (signed_text "ACTIVE")) by congruence. split; vm_compute; discriminate.
Defined.

Lemma VerifyGold_trust_witness :
  vr_TrustLevel (fst (VerifyGold 0 example_fqdn example_cert example_cfg (tt, "warning"))) = TrustLevelBasic.
Proof.
  destruct (VerifyGold_trust 0 example_fqdn example_cert example_cfg (tt, "warning")) as (_ & -> & _);
    vm_compute; reflexivity.
Defined.

Lemma VerifyOffline_VerifyGold_witness :
  exists vr, VerifyOffline 0 (MkOffline None (Some example_store) None) (signed_text "ACTIVE") example_cert = Ok vr /\
    vr_Connected vr = true.
Proof.
  assert (E : vr_Connected (fst (VerifyGold 0 example_fqdn example_cert example_cfg (tt, "ACTIVE"))) = true)
    by (vm_compute; reflexivity).
  assert (Hr : Unmarshal_TLResponse (signed_text "ACTIVE") = Ok (parsed (signed_text "ACTIVE")))
    by (vm_compute; reflexivity).
  assert (Hs : TL_IsTerminal (ToUpper (AgentStatus (Payload (parsed (signed_text "ACTIVE"))))) = false)
    by (vm_compute; reflexivity).
  assert (Hf : gold_fetched example_fqdn example_cfg (tt, "ACTIVE") (parsed (signed_text "ACTIVE")) (tt, "ACTIVE")).
  { do 3 eexists. split; [reflexivity|]. split; [reflexivity|]. split; [reflexivity|]. split; [discriminate | reflexivity]. }
  destruct (VerifyOffline_VerifyGold 0 _ example_cert _ _ _ _ _ Hr Hf Hs) as (vr & K1 & K2).
  exists vr. split; [exact K1|]. rewrite K2. exact E.
Defined.

(** A revoked agent: Gold refuses, and offline verification of the same text
    connects with the status ACTIVE. *)
Example offline_ignores_status :
  vr_Status (match VerifyOffline 0 (MkOffline None (Some example_store) None) (signed_text "REVOKED") example_cert with
             | Ok vr => vr | Err _ => NewFailureResult 0 "" (EPlain "") end) = "ACTIVE" /\
  vr_Error (fst (VerifyGold 0 example_fqdn example_cert example_cfg (tt, "REVOKED"))) =
    Some (NewANSError CodeStatusRevoked SeverityHard StageTLVerify "agent status REVOKED does not allow connections").
Proof. vm_compute. auto. Qed.

(** Any other status is accepted. *)
Example unknown_status_accepted :
  vr_Connected (fst (VerifyGold 0 example_fqdn example_cert example_cfg (tt, "SUSPENDED"))) = true.
Proof. vm_compute. reflexivity. Qed.
End Examples.
