(* ===== verification/Session.v ===== *)
(** The session monitor ([verify/session_monitor.go]): the watched sessions,
    their goroutines as a transition system, and what the callbacks mean. *)

From S2P Require Import Prelude GoStrings Errors Models Cert Records Resolver Verifier Gold.

#[local] Open Scope string_scope.
#[local] Open Scope list_scope.
#[local] Open Scope Z_scope.

Section Session.
Context `{UnicodeTables} {R T : Type} `{DNSResolver R} `{TransparencyLogClient T}.

(** ** One check *)

(** [recheck]: [None] is the nil error. *)
Definition recheck (tlBaseURL : string) (fqdn : Fqdn) (st : R * T) : option goerror * (R * T) :=
  let '(dns, tlog) := st in
  let '(r, dns) := dns_LookupATIDiscovery dns fqdn in
  match r with
  | Err _ => (None, (dns, tlog))
  | Ok result =>
      match ad_Found result, ad_Records result with
      | true, record :: _ =>
          let tlURL := (tlBaseURL ++ "/tl/agents/" ++ rec_ID record ++ "/logs/latest")%string in
          let '(r, tlog) := FetchTLResponse tlog tlURL in
          match r with
          | Err _ => (None, (dns, tlog))
          | Ok tlResp =>
              let status := ToUpper (AgentStatus (Payload tlResp)) in
              if TL_IsTerminal status then
                (Some (NewANSError CodeRevokedDuringSession SeverityHard StageSession
                         ("agent revoked/expired during session: " ++ status)%string), (dns, tlog))
              else (None, (dns, tlog))
          end
      | _, _ => (None, (dns, tlog))
      end
  end.

(** ** The monitor *)

(** A [monitoredSession] with its context and the goroutine that runs
    [monitorLoop] on it. *)
Record monitoredSession := MkSession {
  ms_fqdn : Fqdn; ms_cert : CertIdentity; ms_cancelled : bool; ms_running : bool
}.

(** Sessions are pointers: the map holds positions in [sm_heap], where sessions
    stay for good. [sm_calls] records the calls of [onRevoked]. *)
Record SessionMonitor := MkMonitor {
  sm_interval : Z;
  sm_tlBaseURL : string;
  sm_onRevoked : bool;
  sm_sessions : gmap string nat;
  sm_heap : list monitoredSession;
  sm_stopped : bool;
  sm_calls : list (nat * string * goerror)
}.

Definition NewSessionMonitor (interval : Z) (onRevoked : bool) : SessionMonitor :=
  MkMonitor (if interval <=? 0 then 5 * minute else interval) defaultCNNICTLBaseURL onRevoked ∅ [] false [].

Definition set_sessions (s : gmap string nat) (m : SessionMonitor) : SessionMonitor :=
  MkMonitor (sm_interval m) (sm_tlBaseURL m) (sm_onRevoked m) s (sm_heap m) (sm_stopped m) (sm_calls m).
Definition set_heap (h : list monitoredSession) (m : SessionMonitor) : SessionMonitor :=
  MkMonitor (sm_interval m) (sm_tlBaseURL m) (sm_onRevoked m) (sm_sessions m) h (sm_stopped m) (sm_calls m).

Definition cancel_session (s : monitoredSession) : monitoredSession :=
  MkSession (ms_fqdn s) (ms_cert s) true (ms_running s).
Definition end_session (s : monitoredSession) : monitoredSession :=
  MkSession (ms_fqdn s) (ms_cert s) (ms_cancelled s) false.

(** [cancel()] of the session at [id]. *)
Definition cancel (id : nat) (m : SessionMonitor) : SessionMonitor := set_heap (alter cancel_session id (sm_heap m)) m.

(** [Watch]: with the session it starts, or none when the monitor has stopped. *)
Definition Watch (fqdn : Fqdn) (cert : CertIdentity) (m : SessionMonitor) : option nat * SessionMonitor :=
  if sm_stopped m then (None, m) else
  let id := length (sm_heap m) in
  (Some id, set_sessions (<[Fqdn_String fqdn := id]> (sm_sessions m))
              (set_heap (sm_heap m ++ [MkSession fqdn cert false true]) m)).

(** The function [Watch] returned for the session at [id]. *)
Definition stop_fn (id : nat) (m : SessionMonitor) : SessionMonitor :=
  match sm_heap m !! id with
  | Some s => let m := cancel id m in set_sessions (delete (Fqdn_String (ms_fqdn s)) (sm_sessions m)) m
  | None => m
  end.

(** [Stop]: the channel is closed, the sessions of the map are cancelled. *)
Definition Stop (m : SessionMonitor) : SessionMonitor :=
  if sm_stopped m then m else
  let ids := map snd (map_to_list (sm_sessions m)) in
  let m := fold_left (fun m id => cancel id m) ids m in
  MkMonitor (sm_interval m) (sm_tlBaseURL m) (sm_onRevoked m) ∅ (sm_heap m) true (sm_calls m).

(** The branches of the select in [monitorLoop]. More than one can be ready:
    the choice is the scheduler's. *)
Definition loop_done (id : nat) (m : SessionMonitor) : option SessionMonitor :=
  match sm_heap m !! id with
  | Some s =>
      if ms_running s && (ms_cancelled s || sm_stopped m)
      then Some (set_heap (alter end_session id (sm_heap m)) m) else None
  | None => None
  end.

Definition loop_tick (id : nat) (m : SessionMonitor) (st : R * T) : option (SessionMonitor * (R * T)) :=
  match sm_heap m !! id with
  | Some s =>
      if ms_running s then
        match recheck (sm_tlBaseURL m) (ms_fqdn s) st with
        | (Some err, st) =>
            let calls := if sm_onRevoked m then sm_calls m ++ [(id, Fqdn_String (ms_fqdn s), err)] else sm_calls m in
            Some (MkMonitor (sm_interval m) (sm_tlBaseURL m) (sm_onRevoked m) (sm_sessions m)
                    (alter end_session id (sm_heap m)) (sm_stopped m) calls, st)
        | (None, st) => Some (m, st)
        end
      else None
  | None => None
  end.

(** Everything that can happen. [EParent] is the end of the context that was
    given to [Watch]. *)
Inductive event :=
| EWatch (fqdn : Fqdn) (cert : CertIdentity)
| EStopFn (id : nat)
| EParent (id : nat)
| EStop
| EDone (id : nat)
| ETick (id : nat).

(** An event that is not enabled has no successor. *)
Definition step (e : event) (s : SessionMonitor * (R * T)) : option (SessionMonitor * (R * T)) :=
  let '(m, st) := s in
  match e with
  | EWatch fqdn cert => Some (snd (Watch fqdn cert m), st)
  | EStopFn id => Some (stop_fn id m, st)
  | EParent id => Some (cancel id m, st)
  | EStop => Some (Stop m, st)
  | EDone id => option_map (fun m => (m, st)) (loop_done id m)
  | ETick id => loop_tick id m st
  end.

Fixpoint run (es : list event) (s : SessionMonitor * (R * T)) : option (SessionMonitor * (R * T)) :=
  match es with
  | [] => Some s
  | e :: es => match step e s with Some s => run es s | None => None end
  end.

(** ** What the checks find *)

(** Discovery and the log report the terminal status [status]. *)
Definition reports_terminal (tlBaseURL : string) (fqdn : Fqdn) (st : R * T) (status : string) : Prop :=
  exists result record rest r,
    fst (dns_LookupATIDiscovery (fst st) fqdn) = Ok result /\
    ad_Found result = true /\ ad_Records result = record :: rest /\
    fst (FetchTLResponse (snd st) (tlBaseURL ++ "/tl/agents/" ++ rec_ID record ++ "/logs/latest")%string) = Ok r /\
    status = ToUpper (AgentStatus (Payload r)) /\ In status [TLStatusRevoked; TLStatusExpired].

Definition revoked_error (status : string) : goerror :=
  NewANSError CodeRevokedDuringSession SeverityHard StageSession
    ("agent revoked/expired during session: " ++ status)%string.

Lemma TL_IsTerminal_in (s : string) : TL_IsTerminal s = true <-> In s [TLStatusRevoked; TLStatusExpired].
Proof.
  unfold TL_IsTerminal. rewrite orb_true_iff, !String.eqb_eq. cbn. intuition congruence.
Qed.

Lemma recheck_spec (tlBaseURL : string) (fqdn : Fqdn) (st : R * T) (e : goerror) :
  fst (recheck tlBaseURL fqdn st) = Some e <->
  exists status, reports_terminal tlBaseURL fqdn st status /\ e = revoked_error status.
Proof.
  destruct st as [dns tlog]. unfold recheck, reports_terminal. cbn [fst snd].
  destruct (dns_LookupATIDiscovery dns fqdn) as [[result|e'] dns']; cbn [fst snd].
  2: { split; [discriminate | intros (?&(?&?&?&?&K&_)&_); discriminate K]. }
  destruct (ad_Found result) eqn:Ef.
  2: { split; [discriminate | intros (?&(?&?&?&?&[= <-]&K&_)&_); congruence]. }
  destruct (ad_Records result) as [|record rest] eqn:Er.
  { split; [discriminate | intros (?&(?&?&?&?&[= <-]&_&K&_)&_); congruence]. }
  destruct (FetchTLResponse tlog _) as [[r|e'] tlog'] eqn:Et; cbn [fst snd].
  2: { split; [discriminate|]. intros (?&(?&?&?&?&[= <-]&_&K&K'&_)&_).
       rewrite Er in K. injection K as <- <-. rewrite Et in K'. discriminate K'. }
  destruct (TL_IsTerminal _) eqn:Es; cbn [fst]; split.
  - intros [= <-]. eexists. split; [|reflexivity]. exists result, record, rest, r. rewrite Et.
    apply TL_IsTerminal_in in Es. auto 10.
  - intros (s & (?&?&?&?&[= <-]&_&K&K'&-> & _) & ->). rewrite Er in K. injection K as <- <-.
    rewrite Et in K'. injection K' as <-. reflexivity.
  - discriminate.
  - intros (s & (?&?&?&?&[= <-]&_&K&K'&-> & Hin) & _). rewrite Er in K. injection K as <- <-.
    rewrite Et in K'. injection K' as <-. apply TL_IsTerminal_in in Hin. congruence.
Qed.

(** ** One step *)

(** What happens to a session: its name stays, it may be cancelled or end. *)
Definition evolves (s s' : monitoredSession) : Prop :=
  ms_fqdn s' = ms_fqdn s /\ (ms_running s' = true -> ms_running s = true).

(** A change of flags of some sessions, of no configuration and no call; the
    sessions for which [keep] holds do not end. *)
Definition quiet (keep : nat -> Prop) (m m' : SessionMonitor) : Prop :=
  sm_tlBaseURL m' = sm_tlBaseURL m /\ sm_onRevoked m' = sm_onRevoked m /\ sm_calls m' = sm_calls m /\
  forall id s, sm_heap m !! id = Some s ->
    exists s', sm_heap m' !! id = Some s' /\ evolves s s' /\ (keep id -> ms_running s' = ms_running s).

Definition everywhere (id : nat) : Prop := True.

Lemma quiet_refl (keep : nat -> Prop) (m : SessionMonitor) : quiet keep m m.
Proof. repeat split. intros id s K. exists s. repeat split; auto. Qed.

Lemma quiet_trans (keep : nat -> Prop) (m1 m2 m3 : SessionMonitor) :
  quiet keep m1 m2 -> quiet keep m2 m3 -> quiet keep m1 m3.
Proof.
  intros (A1&A2&A3&A4) (B1&B2&B3&B4). repeat split; try congruence. intros id s K.
  destruct (A4 id s K) as (s1 & K1 & [E1 F1] & R1). destruct (B4 id s1 K1) as (s2 & K2 & [E2 F2] & R2).
  exists s2. split; [exact K2|]. split; [split; [congruence | auto]|]. intros Hk. rewrite R2, R1; auto.
Qed.

Lemma quiet_alter (keep : nat -> Prop) (f : monitoredSession -> monitoredSession) (id : nat) (m : SessionMonitor) :
  (forall s, evolves s (f s)) -> (keep id -> forall s, ms_running (f s) = ms_running s) ->
  quiet keep m (set_heap (alter f id (sm_heap m)) m).
Proof.
  intros Hf Hk. repeat split. intros j s K. unfold set_heap. cbn [sm_heap]. rewrite list_lookup_alter.
  destruct (decide (id = j)) as [<-|Hn]; rewrite K; cbn; eexists; (split; [reflexivity|]).
  - split; [apply Hf | intros Hi; apply Hk, Hi].
  - repeat split; auto.
Qed.

Lemma cancel_quiet (id : nat) (m : SessionMonitor) : quiet everywhere m (cancel id m).
Proof. apply quiet_alter; [intros s; split; auto | reflexivity]. Qed.

Lemma cancel_all_quiet (ids : list nat) (m : SessionMonitor) :
  quiet everywhere m (fold_left (fun m id => cancel id m) ids m).
Proof.
  revert m. induction ids as [|id ids IH]; intros m; cbn [fold_left]; [apply quiet_refl|].
  eapply quiet_trans; [apply cancel_quiet | apply IH].
Qed.

Lemma Watch_quiet (fqdn : Fqdn) (cert : CertIdentity) (m : SessionMonitor) : quiet everywhere m (snd (Watch fqdn cert m)).
Proof.
  unfold Watch. destruct (sm_stopped m); [apply quiet_refl|]. repeat split. cbn. intros id s K.
  exists s. rewrite lookup_app_l by (apply lookup_lt_is_Some; eauto). repeat split; auto.
Qed.

Lemma stop_fn_quiet (id : nat) (m : SessionMonitor) : quiet everywhere m (stop_fn id m).
Proof.
  unfold stop_fn. destruct (sm_heap m !! id) as [s|]; [|apply quiet_refl].
  apply (cancel_quiet id m).
Qed.

Lemma Stop_quiet (m : SessionMonitor) : quiet everywhere m (Stop m).
Proof.
  unfold Stop. destruct (sm_stopped m); [apply quiet_refl|]. apply (cancel_all_quiet _ m).
Qed.

Lemma loop_done_quiet (id : nat) (m m' : SessionMonitor) :
  loop_done id m = Some m' -> quiet (fun j => j <> id) m m'.
Proof.
  unfold loop_done. destruct (sm_heap m !! id) as [s|]; [|discriminate]. destruct (_ && _); [|discriminate].
  intros [= <-]. apply quiet_alter; [intros s'; split; [reflexivity | discriminate] | intros K; destruct (K eq_refl)].
Qed.

Definition is_tick (e : event) : bool := match e with ETick _ => true | _ => false end.

(** An event that is no tick makes no call, and ends at most the loop that it names. *)
Lemma step_quiet (e : event) (m m' : SessionMonitor) (st st' : R * T) :
  is_tick e = false -> step e (m, st) = Some (m', st') -> quiet (fun id => e <> EDone id) m m' /\ st' = st.
Proof.
  assert (Hall : forall m1, quiet everywhere m m1 -> quiet (fun id => e <> EDone id) m m1).
  { intros m1 (A1&A2&A3&A4). repeat split; auto. intros id s K. destruct (A4 id s K) as (s' & K' & E & Hr).
    exists s'. split; [exact K'|]. split; [exact E|]. intros _. apply Hr. exact I. }
  destruct e as [fqdn cert|id|id| |id|id]; intros Ht E; try discriminate Ht; cbn [step] in E.
  - injection E as <- <-. auto using Watch_quiet.
  - injection E as <- <-. auto using stop_fn_quiet.
  - injection E as <- <-. auto using cancel_quiet.
  - injection E as <- <-. auto using Stop_quiet.
  - destruct (loop_done id m) as [m1|] eqn:K; [|discriminate]. injection E as <- <-. split; [|reflexivity].
    apply loop_done_quiet in K as (A1&A2&A3&A4). repeat split; auto. intros j s Hs.
    destruct (A4 j s Hs) as (s' & K' & Ev & Hr). exists s'. split; [exact K'|]. split; [exact Ev|].
    intros Hj. apply Hr. congruence.
Qed.

(** The monitor after a tick that reports. *)
Definition reported (id : nat) (s : monitoredSession) (err : goerror) (m : SessionMonitor) : SessionMonitor :=
  MkMonitor (sm_interval m) (sm_tlBaseURL m) (sm_onRevoked m) (sm_sessions m) (alter end_session id (sm_heap m))
    (sm_stopped m)
    (if sm_onRevoked m then sm_calls m ++ [(id, Fqdn_String (ms_fqdn s), err)] else sm_calls m).

(** A tick of a running loop reports a terminal status, or changes nothing. *)
Lemma tick_cases (id : nat) (m m' : SessionMonitor) (st st' : R * T) :
  loop_tick id m st = Some (m', st') ->
  exists s, sm_heap m !! id = Some s /\ ms_running s = true /\
    ((m' = m /\ forall status, ~ reports_terminal (sm_tlBaseURL m) (ms_fqdn s) st status) \/
     exists status, reports_terminal (sm_tlBaseURL m) (ms_fqdn s) st status /\ m' = reported id s (revoked_error status) m).
Proof.
  unfold loop_tick. destruct (sm_heap m !! id) as [s|]; [|discriminate].
  destruct (ms_running s) eqn:Er; [|discriminate]. pose proof (recheck_spec (sm_tlBaseURL m) (ms_fqdn s) st) as Hs.
  destruct (recheck _ _ st) as [[err|] st1]; cbn [fst] in Hs; intros [= <- <-]; exists s;
    (split; [reflexivity|]); (split; [exact Er|]).
  - right. destruct (proj1 (Hs err) eq_refl) as (status & K & ->). exists status. auto.
  - left. split; [reflexivity|]. intros status K.
    pose proof (proj2 (Hs (revoked_error status)) (ex_intro _ status (conj K eq_refl))). discriminate.
Qed.

Lemma tick_terminal (id : nat) (m : SessionMonitor) (st : R * T) (s : monitoredSession) (status : string) :
  sm_heap m !! id = Some s -> ms_running s = true -> reports_terminal (sm_tlBaseURL m) (ms_fqdn s) st status ->
  exists st', loop_tick id m st = Some (reported id s (revoked_error status) m, st').
Proof.
  intros Hs Hr Ht. unfold loop_tick. rewrite Hs, Hr.
  pose proof (proj2 (recheck_spec _ _ st (revoked_error status)) (ex_intro _ status (conj Ht eq_refl))) as K.
  destruct (recheck _ _ st) as [o st1]. cbn [fst] in K. subst o. eexists. reflexivity.
Qed.

(** ** Runs *)

Lemma run_app (es1 es2 : list event) (s : SessionMonitor * (R * T)) :
  run (es1 ++ es2) s = match run es1 s with Some s' => run es2 s' | None => None end.
Proof.
  revert s. induction es1 as [|e es IH]; intros s; cbn [app run]; [reflexivity|].
  destruct (step e s); [apply IH | reflexivity].
Qed.

(** Every step keeps the configuration and the names of the sessions. *)
Lemma step_keeps (e : event) (m m' : SessionMonitor) (st st' : R * T) :
  step e (m, st) = Some (m', st') ->
  sm_tlBaseURL m' = sm_tlBaseURL m /\ sm_onRevoked m' = sm_onRevoked m /\
  forall id s, sm_heap m !! id = Some s -> exists s', sm_heap m' !! id = Some s' /\ evolves s s'.
Proof.
  intros E. destruct (is_tick e) eqn:Et.
  - destruct e as [| | | | |id]; try discriminate Et. cbn [step] in E.
    apply tick_cases in E as (s & Hs & Hr & [[-> _] | (status & _ & ->)]).
    + repeat split. intros j sj Hj. exists sj. repeat split; auto.
    + repeat split. intros j sj Hj. cbn [reported sm_heap]. rewrite list_lookup_alter.
      destruct (decide (id = j)) as [<-|Hn]; rewrite Hj; cbn; eexists; (split; [reflexivity|]); split; auto. discriminate.
  - apply step_quiet in E as [(A1&A2&_&A4) _]; [|exact Et]. repeat split; auto. intros id s Hs.
    destruct (A4 id s Hs) as (s' & K & Ev & _). eauto.
Qed.

(** The invariant: a session is reported at most once, and has ended then; the
    map points to sessions of its keys, and is empty once the monitor stopped. *)
Record monitor_wf (m : SessionMonitor) : Prop := {
  wf_once : List.NoDup (map (fun c => fst (fst c)) (sm_calls m));
  wf_calls : forall id name err, In (id, name, err) (sm_calls m) ->
    exists s, sm_heap m !! id = Some s /\ ms_running s = false /\ name = Fqdn_String (ms_fqdn s);
  wf_map : forall k id, sm_sessions m !! k = Some id ->
    exists s, sm_heap m !! id = Some s /\ Fqdn_String (ms_fqdn s) = k;
  wf_stopped : sm_stopped m = true -> sm_sessions m = ∅
}.

Lemma evolving_calls (m m' : SessionMonitor) :
  (forall id s, sm_heap m !! id = Some s -> exists s', sm_heap m' !! id = Some s' /\ evolves s s') ->
  monitor_wf m -> forall id name err, In (id, name, err) (sm_calls m) ->
    exists s, sm_heap m' !! id = Some s /\ ms_running s = false /\ name = Fqdn_String (ms_fqdn s).
Proof.
  intros Hh W id name err Hc. destruct (wf_calls m W id name err Hc) as (s & Hs & Hr & ->).
  destruct (Hh id s Hs) as (s' & Hs' & Hf & Hr'). exists s'. rewrite Hf. split; [exact Hs'|]. split; [|reflexivity].
  destruct (ms_running s'); [rewrite Hr' in Hr by reflexivity; discriminate | reflexivity].
Qed.

Lemma evolving_map (m m' : SessionMonitor) :
  (forall id s, sm_heap m !! id = Some s -> exists s', sm_heap m' !! id = Some s' /\ evolves s s') ->
  monitor_wf m -> forall k id, sm_sessions m !! k = Some id ->
    exists s, sm_heap m' !! id = Some s /\ Fqdn_String (ms_fqdn s) = k.
Proof.
  intros Hh W k id Hk. destruct (wf_map m W k id Hk) as (s & Hs & <-).
  destruct (Hh id s Hs) as (s' & Hs' & Hf & _). exists s'. rewrite Hf. auto.
Qed.

(** What the events other than a tick do to the map and the flag. *)
Lemma quiet_wf (keep : nat -> Prop) (m m' : SessionMonitor) :
  quiet keep m m' ->
  (forall k id, sm_sessions m' !! k = Some id -> sm_sessions m !! k = Some id \/
     exists s, sm_heap m' !! id = Some s /\ Fqdn_String (ms_fqdn s) = k) ->
  (sm_stopped m' = true -> sm_sessions m' = ∅) ->
  monitor_wf m -> monitor_wf m'.
Proof.
  intros (_&_&Ec&Hh) Hm Hs W.
  assert (Hh' : forall id s, sm_heap m !! id = Some s -> exists s', sm_heap m' !! id = Some s' /\ evolves s s')
    by (intros id s K; destruct (Hh id s K) as (s' & K' & E & _); eauto).
  constructor.
  - rewrite Ec. apply (wf_once m W).
  - intros id name err. rewrite Ec. apply (evolving_calls m m' Hh' W).
  - intros k id Hk. destruct (Hm k id Hk) as [K|K]; [apply (evolving_map m m' Hh' W k id K) | exact K].
  - exact Hs.
Qed.

Lemma step_wf (e : event) (m m' : SessionMonitor) (st st' : R * T) :
  step e (m, st) = Some (m', st') -> monitor_wf m -> monitor_wf m'.
Proof.
  intros E W. pose proof (step_keeps e m m' st st' E) as (_ & _ & Hh). pose proof (wf_stopped m W) as Ws.
  destruct (is_tick e) eqn:Et.
  - destruct e as [| | | | |id]; try discriminate Et. cbn [step] in E.
    apply tick_cases in E as (s & Hs & Hr & [[-> _] | (status & _ & ->)]); [exact W|].
    assert (Hnew : ~ In id (map (fun c => fst (fst c)) (sm_calls m))).
    { intros K. apply in_map_iff in K as ([[id' name] err] & <- & K).
      destruct (wf_calls m W _ _ _ K) as (s1 & K1 & K2 & _). cbn in *. congruence. }
    constructor; [|intros j name err Hc|exact (evolving_map m _ Hh W)|exact Ws].
    + cbn [reported sm_calls]. destruct (sm_onRevoked m); [|apply (wf_once m W)]. rewrite map_app.
      apply List.NoDup_app; [apply (wf_once m W) | repeat constructor; intros [] |].
      intros x Hx [<-|[]]. contradiction.
    + assert (Hc' : In (j, name, err) (sm_calls m ++ [(id, Fqdn_String (ms_fqdn s), revoked_error status)]))
        by (cbn [reported sm_calls] in Hc; destruct (sm_onRevoked m); [exact Hc | apply in_app_iff; auto]).
      apply in_app_iff in Hc' as [K|[[= <- <- _]|[]]]; [exact (evolving_calls m _ Hh W j name err K)|].
      exists (end_session s). cbn [reported sm_heap]. rewrite list_lookup_alter, decide_True, Hs by reflexivity. auto.
  - pose proof (step_quiet e m m' st st' Et E) as [Q _]. apply (quiet_wf _ m m' Q); [| |exact W]; clear Q Hh;
      destruct e as [fqdn cert|id|id| |id|id]; try discriminate Et; cbn [step] in E.
    all: try (destruct (loop_done id m) as [m1|] eqn:K; [|discriminate]; injection E as <- <-; unfold loop_done in K;
      destruct (sm_heap m !! id); [|discriminate]; destruct (_ && _); [|discriminate]; injection K as <-; auto).
    all: injection E as <- <-.
    + unfold Watch. destruct (sm_stopped m); [auto|]. cbn. intros k id Hk.
      destruct (decide (Fqdn_String fqdn = k)) as [<-|Hn].
      * rewrite lookup_insert_eq in Hk. injection Hk as <-. right. eexists. split; [apply list_lookup_middle; reflexivity | reflexivity].
      * rewrite lookup_insert_ne in Hk by exact Hn. auto.
    + unfold stop_fn. destruct (sm_heap m !! id) as [s|]; [|auto]. cbn. intros k j Hk.
      apply lookup_delete_Some in Hk as [_ Hk]. auto.
    + cbn. auto.
    + unfold Stop. destruct (sm_stopped m); [auto|]. cbn. intros k j Hk. rewrite lookup_empty in Hk. discriminate.
    + unfold Watch. destruct (sm_stopped m) eqn:Es; cbn; rewrite ?Es; auto. discriminate.
    + unfold stop_fn. destruct (sm_heap m !! id) as [s|]; [|auto]. cbn. intros K. rewrite Ws by exact K. apply delete_empty.
    + cbn. auto.
    + unfold Stop. destruct (sm_stopped m) eqn:Es; cbn; auto.
Qed.

Lemma run_keeps (es : list event) (m m' : SessionMonitor) (st st' : R * T) :
  run es (m, st) = Some (m', st') -> sm_tlBaseURL m' = sm_tlBaseURL m /\ sm_onRevoked m' = sm_onRevoked m.
Proof.
  revert m st. induction es as [|e es IH]; intros m st E; cbn [run] in E; [injection E as <- <-; auto|].
  destruct (step e (m, st)) as [[m1 st1]|] eqn:Es; [|discriminate].
  apply step_keeps in Es as (<- & <- & _). apply (IH m1 st1 E).
Qed.

Lemma new_wf (interval : Z) (cb : bool) : monitor_wf (NewSessionMonitor interval cb).
Proof.
  constructor; cbn; [constructor | intros ? ? ? [] | intros k id K; rewrite lookup_empty in K; discriminate | discriminate].
Qed.

Lemma run_wf (es : list event) (m m' : SessionMonitor) (st st' : R * T) :
  monitor_wf m -> run es (m, st) = Some (m', st') -> monitor_wf m'.
Proof.
  revert m st. induction es as [|e es IH]; intros m st W E; cbn [run] in E; [injection E as <- <-; exact W|].
  destruct (step e (m, st)) as [[m1 st1]|] eqn:Es; [|discriminate]. eapply IH; [eapply step_wf; eassumption | exact E].
Qed.

(** In every run of the monitor, whatever the scheduler, the watchers and the
    network do: a session is reported at most once and its loop has ended then;
    the map of sessions only points to sessions of its keys; after [Stop] it
    stays empty. *)
Theorem Session_invariant (interval : Z) (cb : bool) (es : list event) (m : SessionMonitor) (st st' : R * T)
    (Hrun : run es (NewSessionMonitor interval cb, st) = Some (m, st')) :
  List.NoDup (map (fun c => fst (fst c)) (sm_calls m)) /\
  (forall id name err, In (id, name, err) (sm_calls m) ->
     exists s, sm_heap m !! id = Some s /\ ms_running s = false /\ name = Fqdn_String (ms_fqdn s)) /\
  (forall k id, sm_sessions m !! k = Some id -> exists s, sm_heap m !! id = Some s /\ Fqdn_String (ms_fqdn s) = k) /\
  (sm_stopped m = true -> sm_sessions m = ∅).
Proof. destruct (run_wf _ _ _ _ _ (new_wf interval cb) Hrun). auto. Qed.

(** What makes a call: a tick of the loop, at a moment when discovery and the
    log report a terminal status. *)
Definition tick_reports (es1 : list event) (init : SessionMonitor * (R * T)) (id : nat) (name : string) (err : goerror) : Prop :=
  exists m1 st1 s status, run es1 init = Some (m1, st1) /\ sm_heap m1 !! id = Some s /\ ms_running s = true /\
    name = Fqdn_String (ms_fqdn s) /\ reports_terminal (sm_tlBaseURL m1) (ms_fqdn s) st1 status /\
    err = revoked_error status.

(** C18: [onRevoked] is called exactly for the revocations that are seen: a call
    is made for a session if and only if, at some tick of its loop, discovery
    and the log report the status REVOKED or EXPIRED for it, with that status in
    a hard error; lookup failures, a stopped watch or other statuses make no call. *)
Theorem Session_calls_exact (interval : Z) (es : list event) (m : SessionMonitor) (st st' : R * T)
    (id : nat) (name : string) (err : goerror)
    (Hrun : run es (NewSessionMonitor interval true, st) = Some (m, st')) :
  In (id, name, err) (sm_calls m) <->
  exists es1 es2, es = es1 ++ ETick id :: es2 /\ tick_reports es1 (NewSessionMonitor interval true, st) id name err.
Proof.
  revert m st' Hrun. induction es as [|e es IH] using rev_ind; intros m st' Hrun.
  - cbn in Hrun. injection Hrun as <- <-. cbn. split; [intros []|].
    intros (es1 & es2 & K & _). destruct es1; discriminate K.
  - rewrite run_app in Hrun. destruct (run es _) as [[m1 st1]|] eqn:E1; [|discriminate].
    specialize (IH m1 st1 eq_refl). pose proof (run_keeps _ _ _ _ _ E1) as [_ Hcb]. cbn [sm_onRevoked NewSessionMonitor] in Hcb.
    cbn [run] in Hrun. destruct (step e (m1, st1)) as [[m2 st2]|] eqn:Es; [|discriminate]. injection Hrun as <- <-.
    assert (Hold : (exists es1 es2, es ++ [e] = es1 ++ ETick id :: es2 /\
        tick_reports es1 (NewSessionMonitor interval true, st) id name err) <->
      In (id, name, err) (sm_calls m1) \/
      (e = ETick id /\ tick_reports es (NewSessionMonitor interval true, st) id name err)).
    { rewrite IH. split.
      - intros (es1 & es2 & Ee & K). destruct es2 as [|e2 es2 _] using rev_ind.
        + apply app_inj_tail in Ee as [-> ->]. auto.
        + rewrite app_comm_cons, app_assoc in Ee. apply app_inj_tail in Ee as [-> _]. left. eauto.
      - intros [(es1 & es2 & -> & K) | [-> K]]; [exists es1, (es2 ++ [e]) | exists es, []]; (split; [|exact K]); [|reflexivity].
        rewrite app_comm_cons, app_assoc. reflexivity. }
    rewrite Hold. clear Hold IH. destruct (is_tick e) eqn:Et.
    + destruct e as [| | | | |j]; try discriminate Et. cbn [step] in Es.
      apply tick_cases in Es as (s & Hs & Hr & [[-> Hno] | (status & Hst & ->)]).
      * split; [auto|]. intros [K|[[= ->] (m1' & st1' & s' & status & K1 & K2 & _ & _ & K3 & _)]]; [exact K|].
        rewrite E1 in K1. injection K1 as <- <-. rewrite Hs in K2. injection K2 as <-. destruct (Hno status K3).
      * cbn [reported sm_calls]. rewrite Hcb, in_app_iff. apply or_iff_compat_l. split.
        -- intros [[= <- <- <-]|[]]. split; [reflexivity|]. exists m1, st1, s, status. auto 10.
        -- intros [[= ->] (m1' & st1' & s' & status' & K1 & K2 & _ & -> & K3 & ->)].
           rewrite E1 in K1. injection K1 as <- <-. rewrite Hs in K2. injection K2 as <-. left. f_equal.
           pose proof (proj2 (recheck_spec _ _ _ _) (ex_intro _ status (conj Hst eq_refl))) as R1.
           pose proof (proj2 (recheck_spec _ _ _ _) (ex_intro _ status' (conj K3 eq_refl))) as R2. congruence.
    + apply step_quiet in Es as [(_&_&Ec&_) _]; [|exact Et]. rewrite Ec. split; [auto|].
      intros [K|[-> _]]; [exact K | discriminate Et].
Qed.

(** ** Infinite executions *)

(** The execution under a schedule: an event that is not enabled is skipped. *)
Fixpoint exec (sched : nat -> event) (s : SessionMonitor * (R * T)) (n : nat) : SessionMonitor * (R * T) :=
  match n with
  | O => s
  | S k => let s' := exec sched s k in default s' (step (sched k) s')
  end.

(** The session is still watched by somebody, its loop in place. *)
Definition still_watched (id : nat) (m : SessionMonitor) : Prop :=
  sm_stopped m = false /\ forall s, sm_heap m !! id = Some s -> ms_cancelled s = false.

(** A loop that is watched runs until it reports. *)
Definition pending (id : nat) (name : Fqdn) (base : string) (m : SessionMonitor) : Prop :=
  sm_onRevoked m = true /\ sm_tlBaseURL m = base /\
  exists s, sm_heap m !! id = Some s /\ ms_fqdn s = name /\ ms_running s = true.
Definition called (id : nat) (name : Fqdn) (m : SessionMonitor) : Prop :=
  exists err, In (id, Fqdn_String name, err) (sm_calls m).

Lemma step_pending (e : event) (id : nat) (name : Fqdn) (base : string) (m m' : SessionMonitor) (st st' : R * T) :
  step e (m, st) = Some (m', st') -> still_watched id m -> pending id name base m ->
  pending id name base m' \/ called id name m'.
Proof.
  intros E [Hst Hc] (Hcb & Hb & s & Hs & Hn & Hr). pose proof (step_keeps e m m' st st' E) as (Kb & Kc & _).
  destruct (is_tick e) eqn:Et.
  - destruct e as [| | | | |j]; try discriminate Et. cbn [step] in E.
    apply tick_cases in E as (sj & Hj & Hrj & [[-> _] | (status & _ & ->)]); [left; split; eauto|].
    destruct (decide (j = id)) as [->|Hne].
    + right. rewrite Hs in Hj. injection Hj as <-. exists (revoked_error status). cbn [reported sm_calls].
      rewrite Hcb, <- Hn. apply in_app_iff. right. left. reflexivity.
    + left. split; [congruence|]. split; [congruence|]. exists s. cbn [reported sm_heap].
      rewrite list_lookup_alter, decide_False by exact Hne. auto.
  - left. split; [congruence|]. split; [congruence|]. pose proof (step_quiet e m m' st st' Et E) as [(_&_&_&Hh) _].
    destruct (Hh id s Hs) as (s' & Hs' & [Hf _] & Hk). exists s'. split; [exact Hs'|]. split; [congruence|].
    rewrite Hk; [exact Hr|]. intros ->. cbn [step] in E. unfold loop_done in E. rewrite Hs, Hst, (Hc s Hs), andb_false_r in E.
    discriminate E.
Qed.

(** C19: (liveness) every revocation is noticed: if a session stays watched, its
    ticker keeps firing, and from some moment on the log reports a terminal status
    for its name, then [onRevoked] is called for it, whatever else happens before
    and between: failed lookups, other sessions, a log that first reported
    something else. *)
Theorem Session_liveness (sched : nat -> event) (m : SessionMonitor) (st : R * T) (id : nat) (s : monitoredSession) (N : nat)
    (Hs : sm_heap m !! id = Some s) (Hr : ms_running s = true) (Hcb : sm_onRevoked m = true)
    (Hwatch : forall n, still_watched id (fst (exec sched (m, st) n)))
    (Hticks : forall n, exists k, (n <= k)%nat /\ sched k = ETick id)
    (Hrevoked : forall n, (N <= n)%nat ->
       exists status, reports_terminal (sm_tlBaseURL m) (ms_fqdn s) (snd (exec sched (m, st) n)) status) :
  exists n err, In (id, Fqdn_String (ms_fqdn s), err) (sm_calls (fst (exec sched (m, st) n))).
Proof.
  assert (Hinv : forall n, (exists k, called id (ms_fqdn s) (fst (exec sched (m, st) k))) \/
    pending id (ms_fqdn s) (sm_tlBaseURL m) (fst (exec sched (m, st) n))).
  { induction n as [|n [IH|IH]]; [right; split; eauto | auto |]. cbn [exec].
    specialize (Hwatch n). destruct (exec sched (m, st) n) as [m1 st1] eqn:En. cbn [fst] in *.
    destruct (step (sched n) (m1, st1)) as [[m2 st2]|] eqn:Es; [|right; exact IH].
    destruct (step_pending _ _ _ _ _ _ _ _ Es Hwatch IH) as [K|K]; [right; exact K|].
    left. exists (S n). cbn [exec]. rewrite En, Es. exact K. }
  destruct (Hticks N) as (k & Hk & Ek). destruct (Hinv k) as [(n & K)|(Hcb' & Hb & s' & Hs' & Hn & Hr')]; [exists n; exact K|].
  destruct (Hrevoked k Hk) as (status & Hst). destruct (exec sched (m, st) k) as [m1 st1] eqn:Ee. cbn [fst snd] in *.
  rewrite <- Hb, <- Hn in Hst. destruct (tick_terminal id m1 st1 s' status Hs' Hr' Hst) as (st2 & Et).
  exists (S k), (revoked_error status). cbn [exec]. rewrite Ee, Ek. cbn [step]. rewrite Et.
  change (In (id, Fqdn_String (ms_fqdn s), revoked_error status) (sm_calls (reported id s' (revoked_error status) m1))).
  cbn [reported sm_calls].
  rewrite Hcb', <- Hn. apply in_app_iff. right. left. reflexivity.
Qed.
End Session.

Section Examples.
#[local] Existing Instance plain_tables.

(** Discovery always names the agent; the log's state is a countdown of
    answers before it reports the revocation. *)
Instance countdown_dns : DNSResolver unit := {|
  dns_FindBadgeForVersion st _ _ := (Err ERecordNotFound, st);
  dns_FindPreferredBadge st _ := (Err ERecordNotFound, st);
  dns_LookupATIDiscovery st _ := (Ok (MkDiscovery true [MkATIRecord "a1" "" (MkVersion 1 0 0) ATIRecordModeCard "" ""]), st)
|}.
Definition status_response (status : string) : TLResponse :=
  MkTLResponse "" "" (MkTLPayload "" "" "" "" "" "" "" "" "" status (MkTLCertificates "" "" "" ""))
    (MkEvidenceRef "" "" "" "" "" "" "" "" "" false) (MkTLSeal "" "" "" "" "" "" "") (MkMerkleProof "" "" "" 0 0 0 [])
    "" None None None None.
Instance countdown_log : TransparencyLogClient nat := {|
  FetchTLResponse n url := match n with
    | O => (Ok (status_response "revoked"), O)
    | 1%nat => (Err (EPlain "unreachable"), O)
    | S k => (Ok (status_response "ACTIVE"), k)
    end
|}.

Definition watched_fqdn : Fqdn := MkFqdn "agent.example.com".
Definition watched_cert : CertIdentity := NewCertIdentity None [] [] zero_fp.
Definition watching : SessionMonitor := snd (Watch watched_fqdn watched_cert (NewSessionMonitor 0 true)).

(** Two good answers, a failure, then the revocation. *)
Example watch_run :
  option_map (fun s => (sm_calls (fst s), map ms_running (sm_heap (fst s))))
    (run [EWatch watched_fqdn watched_cert; ETick 0; ETick 0; ETick 0; ETick 0] (NewSessionMonitor 0 true, (tt, 3%nat))) =
  Some ([(0%nat, "agent.example.com", revoked_error "REVOKED")], [false]).
Proof. vm_compute. reflexivity. Qed.

Lemma Session_invariant_witness :
  exists m st, run [EWatch watched_fqdn watched_cert; EStop] (NewSessionMonitor 0 true, (tt, 3%nat)) = Some (m, st) /\
    sm_sessions m = ∅.
Proof.
  do 2 eexists. split; [reflexivity|].
  destruct (Session_invariant 0 true [EWatch watched_fqdn watched_cert; EStop]
    (Stop watching) (tt, 3%nat) (tt, 3%nat) eq_refl) as (_ & _ & _ & K).
  apply K. reflexivity.
Defined.

Definition after_report : SessionMonitor :=
  reported 0 (MkSession watched_fqdn watched_cert false true) (revoked_error "REVOKED") watching.

Lemma Session_calls_exact_witness :
  exists m st, run [EWatch watched_fqdn watched_cert; ETick 0] (NewSessionMonitor 0 true, (tt, 0%nat)) = Some (m, st) /\
    In (0%nat, "agent.example.com", revoked_error "REVOKED") (sm_calls m).
Proof.
  assert (E : run [EWatch watched_fqdn watched_cert; ETick 0] (NewSessionMonitor 0 true, (tt, 0%nat)) =
    Some (after_report, (tt, 0%nat))) by (vm_compute; reflexivity).
  exists after_report, (tt, 0%nat). split; [exact E|].
  apply (Session_calls_exact 0 [EWatch watched_fqdn watched_cert; ETick 0] after_report (tt, 0%nat) (tt, 0%nat) 0%nat
    "agent.example.com" (revoked_error "REVOKED") E).
  exists [EWatch watched_fqdn watched_cert], []. split; [reflexivity|].
  exists watching, (tt, 0%nat), (MkSession watched_fqdn watched_cert false true), "REVOKED".
  repeat (split; [reflexivity|]). split; [|reflexivity]. do 4 eexists. repeat (split; [reflexivity|]). cbn. auto.
Defined.

(** Under a schedule of ticks alone the log counts down and the session ends. *)
Lemma Session_liveness_witness :
  exists n err, In (0%nat, "agent.example.com", err)
    (sm_calls (fst (exec (fun _ => ETick 0) (watching, (tt, 0%nat)) n))).
Proof.
  assert (E : forall n, fst (snd (exec (fun _ => ETick 0) (watching, (tt, 0%nat)) n)) = tt /\
    snd (snd (exec (fun _ => ETick 0) (watching, (tt, 0%nat)) n)) = 0%nat /\
    still_watched 0 (fst (exec (fun _ => ETick 0) (watching, (tt, 0%nat)) n)) /\
    (n = 0%nat \/ exec (fun _ => ETick 0) (watching, (tt, 0%nat)) n = exec (fun _ => ETick 0) (watching, (tt, 0%nat)) 1)).
  { induction n as [|[|n] (_ & _ & _ & IH)]; [| |destruct IH as [IH|IH]; [discriminate IH|]].
    - repeat split; auto. intros s [= <-]. reflexivity.
    - repeat split; auto. intros s [= <-]. reflexivity.
    - change (exec (fun _ => ETick 0) (watching, (tt, 0%nat)) (S (S n))) with
        (let s' := exec (fun _ => ETick 0) (watching, (tt, 0%nat)) (S n) in default s' (step (ETick 0) s')).
      rewrite IH. repeat split; auto. intros s [= <-]. reflexivity. }
  apply (Session_liveness (fun _ => ETick 0) watching (tt, 0%nat) 0 (MkSession watched_fqdn watched_cert false true) 0).
  - reflexivity.
  - reflexivity.
  - reflexivity.
  - intros n. apply E.
  - intros n. exists n. auto.
  - intros n _. exists "REVOKED". destruct (E n) as (E1 & E2 & _). destruct (exec _ _ n) as [m1 [[] k]].
    cbn in E2 |- *. subst k. do 4 eexists. repeat (split; [reflexivity|]). cbn. auto.
Defined.

(** Watching a name again does not end the first watch, and ending the first
    removes the second from the map. *)
Example watch_twice :
  option_map (fun s => (sm_sessions (fst s) !! "agent.example.com", map ms_running (sm_heap (fst s)), length (sm_calls (fst s))))
    (run [EWatch watched_fqdn watched_cert; EWatch watched_fqdn watched_cert; EStopFn 0; ETick 1; ETick 0]
       (NewSessionMonitor 0 true, (tt, 0%nat))) =
  Some (None, [false; false], 2%nat).
Proof. vm_compute. reflexivity. Qed.
End Examples.
