(* ===== verification/ScittClient.v ===== *)
(** The HTTP client of the SCITT endpoints ([verify/scitt/client.go]): its
    construction, its three fetches, and the supplier and the key store over it. *)

From S2P Require Import Prelude GoStrings Encoding Errors Url UrlQuery Http Cose KeyStore Receipt StatusToken Headers Supplier.

#[local] Open Scope string_scope.
#[local] Open Scope list_scope.
#[local] Open Scope Z_scope.

(** [scitt.Client] over a state of its own. *)
Class Client (C : Type) := {
  FetchReceipt : C -> string -> result goerror (list byte) * C;
  FetchStatusToken : C -> string -> result goerror (list byte) * C;
  FetchRootKeys : C -> result goerror (list string) * C
}.

Definition defaultTimeout : Z := 30 * second.
Definition maxResponseBytes : Z := 2097152.

(** ** Construction *)

(** An [http.Client] is its timeout here; the client and the network are the
    state [C] of the fetches. *)
Record HTTPClient_ := MkScittClient {
  sc_baseURL : string;
  sc_timeout : option Z;
  sc_headers : Header;
  sc_allowInsecure : bool;
  sc_timeoutOverride : option Z;
  sc_explicitHTTP : option Z
}.

Definition HTTPClientOption : Type := HTTPClient_ -> HTTPClient_.

Definition Header_Add (h : Header) (key value : string) : Header :=
  <[CanonicalHeaderKey key := default [] (h !! CanonicalHeaderKey key) ++ [value]]> h.

Definition set_headers (h : Header) (c : HTTPClient_) : HTTPClient_ :=
  MkScittClient (sc_baseURL c) (sc_timeout c) h (sc_allowInsecure c) (sc_timeoutOverride c) (sc_explicitHTTP c).

Definition WithHTTPClient (timeout : Z) : HTTPClientOption := fun c =>
  MkScittClient (sc_baseURL c) (sc_timeout c) (sc_headers c) (sc_allowInsecure c) (sc_timeoutOverride c) (Some timeout).
Definition WithTimeout (d : Z) : HTTPClientOption := fun c =>
  MkScittClient (sc_baseURL c) (sc_timeout c) (sc_headers c) (sc_allowInsecure c) (Some d) (sc_explicitHTTP c).
Definition WithAllowInsecureTransport : HTTPClientOption := fun c =>
  MkScittClient (sc_baseURL c) (sc_timeout c) (sc_headers c) true (sc_timeoutOverride c) (sc_explicitHTTP c).
Definition WithHeader (name value : string) : HTTPClientOption := fun c =>
  set_headers (Header_Set (sc_headers c) name value) c.
(** The map's iteration order is the list's. *)
Definition WithHeaders (headers : list (string * list string)) : HTTPClientOption := fun c =>
  set_headers (fold_left (fun h nv => fold_left (fun h v => Header_Add h (fst nv) v) (snd nv) h) headers (sc_headers c)) c.

(** [strings.TrimRight(s, "/")] *)
Fixpoint TrimRight_slash (s : string) : string :=
  match s with
  | "" => ""
  | String c t =>
      let t' := TrimRight_slash t in
      if Ascii.eqb c "/" && String.eqb t' "" then "" else String c t'
  end.

Section Construction.
Context `{UnicodeTables}.

Definition NewHTTPClient (baseURL : string) (opts : list HTTPClientOption) : result goerror HTTPClient_ :=
  let c := fold_left (fun c opt => opt c) opts
             (MkScittClient (TrimRight_slash baseURL) None ∅ false None None) in
  match url_Parse baseURL with
  | None => Err (EWrap "invalid baseURL: %w" (EPlain "url.Error"))
  | Some u =>
      guard! String.eqb (Scheme u) "https" || sc_allowInsecure c
        orelse EPlain "baseURL must use https scheme (got %q); use WithAllowInsecureTransport for non-https endpoints" in
      let timeout :=
        match sc_explicitHTTP c with
        | Some t =>
            let t := if t =? 0 then defaultTimeout else t in
            match sc_timeoutOverride c with Some d => d | None => t end
        | None => match sc_timeoutOverride c with Some d => d | None => defaultTimeout end
        end in
      Ok (MkScittClient (sc_baseURL c) (Some timeout) (sc_headers c) (sc_allowInsecure c)
            (sc_timeoutOverride c) (sc_explicitHTTP c))
  end.
End Construction.

(** ** Fetches *)

Definition mapStatusCodeToError (code : Z) : goerror :=
  if code =? 404 then ETransport TransportErrNotFound 404 None
  else if code =? 410 then ETransport TransportErrAgentTerminal 410 None
  else if code =? 501 then ETransport TransportErrNotSupported 501 None
  else ETransport TransportErrHTTPError code None.

(** The header fields of a request; the order of the map is left open by Go. *)
Definition header_fields (h : Header) : list (string * string) :=
  flat_map (fun nv => map (pair (fst nv)) (snd nv)) (map_to_list h).

Section Fetch.
Context `{UnicodeTables} {C : Type} `{HttpGet C}.

Definition fetchBytes (c : HTTPClient_) (st : C) (url : string) : result goerror (list byte) * C :=
  let '(answer, st) := get_request st url (header_fields (sc_headers c)) in
  (match answer with
   | InvalidURI => Err (ETransport TransportErrHTTPError 0 (Some (EPlain "url.Error")))
   | DoFailed err => Err (ETransport TransportErrHTTPError 0 (Some err))
   | Responded StatusCode Body readErr =>
       if negb (StatusCode =? 200) then Err (mapStatusCodeToError StatusCode) else
       match ReadAll_limit (maxResponseBytes + 1) Body readErr with
       | Err err => Err (ETransport TransportErrHTTPError 0 (Some err))
       | Ok body =>
           if maxResponseBytes <? Z.of_nat (length body) then Err (ETransport TransportErrHTTPError 0 None)
           else Ok body
       end
   end, st).

Definition receipt_url (c : HTTPClient_) (agentID : string) : string :=
  (sc_baseURL c ++ "/v1/agents/" ++ PathEscape agentID ++ "/receipt")%string.
Definition status_token_url (c : HTTPClient_) (agentID : string) : string :=
  (sc_baseURL c ++ "/v1/agents/" ++ PathEscape agentID ++ "/status-token")%string.
Definition root_keys_url (c : HTTPClient_) : string := (sc_baseURL c ++ "/root-keys")%string.

Definition HTTP_FetchReceipt (c : HTTPClient_) (st : C) (agentID : string) : result goerror (list byte) * C :=
  fetchBytes c st (receipt_url c agentID).
Definition HTTP_FetchStatusToken (c : HTTPClient_) (st : C) (agentID : string) : result goerror (list byte) * C :=
  fetchBytes c st (status_token_url c agentID).

(** The lines of a text, trimmed, the empty ones left out. *)
Definition key_lines (body : string) : list string :=
  filter_map (fun line => let line := TrimSpace line in if String.eqb line "" then None else Some line)
    (Split (TrimSpace body) (chr 10)).

Definition HTTP_FetchRootKeys (c : HTTPClient_) (st : C) : result goerror (list string) * C :=
  let '(r, st) := fetchBytes c st (root_keys_url c) in
  (match r with
   | Err err => Err err
   | Ok body =>
       match key_lines (string_of_bytes body) with
       | [] => Err (ETransport TransportErrHTTPError 0 None)
       | keys => Ok keys
       end
   end, st).

(** The implementation of the interface: the client is part of the state. *)
#[export] Instance HTTP_Client : Client (HTTPClient_ * C) := {|
  FetchReceipt st agentID := let '(r, n) := HTTP_FetchReceipt (fst st) (snd st) agentID in (r, (fst st, n));
  FetchStatusToken st agentID := let '(r, n) := HTTP_FetchStatusToken (fst st) (snd st) agentID in (r, (fst st, n));
  FetchRootKeys st := let '(r, n) := HTTP_FetchRootKeys (fst st) (snd st) in (r, (fst st, n))
|}.

(** ** Properties *)

(** (all or nothing) a fetch returns bytes exactly when the URL parses, the
    server answers 200, the body ends without error and has at most two
    megabytes; the bytes are then the whole body, never a prefix of it. *)
Theorem fetchBytes_whole (c : HTTPClient_) (st : C) (url : string) (b : list byte) :
  fst (fetchBytes c st url) = Ok b <->
  url_Parse url <> None /\ fst (http_get st url (header_fields (sc_headers c))) = Responded 200 b None /\
  Z.of_nat (length b) <= maxResponseBytes.
Proof.
  unfold fetchBytes, get_request. destruct (url_Parse url) as [u|]; [|split; [discriminate | tauto]].
  destruct (http_get st url _) as [[|err|code body readErr] st']; cbn [fst];
    [split; [discriminate | intuition discriminate]..|].
  destruct (Z.eqb_spec code 200) as [->|Hc]; cbn [negb].
  2: { split; [discriminate|]. intros (_ & [= K] & _). congruence. }
  unfold ReadAll_limit, maxResponseBytes. destruct (_ <=? Z.of_nat (length body)) eqn:El; bool_hyps.
  - rewrite length_firstn. destruct (2097152 <? _) eqn:E2; bool_hyps; [|lia].
    split; [discriminate|]. intros (_ & [= <- _] & K). lia.
  - destruct readErr as [e|]; [split; [discriminate | intros (_ & K & _); discriminate K]|].
    destruct (2097152 <? _) eqn:E2; bool_hyps; [lia|]. split.
    + intros [= <-]. split; [discriminate|]. split; [reflexivity | lia].
    + intros (_ & [= <-] & _). reflexivity.
Qed.

(** The keys a client returns: some, each a non-empty line without space around. *)
Lemma key_lines_nonempty (body : string) : Forall (fun l => l <> "") (key_lines body).
Proof.
  unfold key_lines. induction (Split (TrimSpace body) (chr 10)) as [|l ls IH]; cbn [filter_map]; [constructor|].
  destruct (String.eqb_spec (TrimSpace l) "") as [E|E]; [exact IH | constructor; assumption].
Qed.
End Fetch.

(** ** Agent IDs stay in their path segment *)

(** An agent ID cannot reach another endpoint: in the URLs of its receipt and
    its status token the ID is one path segment, free of slashes, query and
    fragment marks, that decodes to the ID; so two IDs never share a URL. *)
Theorem agent_urls_confined (c : HTTPClient_) (agentID other : string) :
  (exists seg,
    receipt_url c agentID = (sc_baseURL c ++ "/v1/agents/" ++ seg ++ "/receipt")%string /\
    status_token_url c agentID = (sc_baseURL c ++ "/v1/agents/" ++ seg ++ "/status-token")%string /\
    clean_segment seg = true /\ unescape seg encodePathSegment = Some agentID) /\
  (receipt_url c agentID = receipt_url c other -> agentID = other).
Proof.
  pose proof PathEscape_segment as Hseg. pose proof PathEscape_decodes as Hdec.
  split; [exists (PathEscape agentID); auto|]. unfold receipt_url. intros E.
  apply str_app_inj_l, str_app_inj_l in E.
  assert (El : String.length (PathEscape agentID) = String.length (PathEscape other))
    by (apply (f_equal String.length) in E; rewrite !str_length_app in E; lia).
  apply (f_equal (str_take (String.length (PathEscape agentID)))) in E.
  rewrite str_take_app in E. rewrite El, str_take_app in E. pose proof (Hdec agentID). pose proof (Hdec other). congruence.
Qed.

(** ** The supplier and the key store over a client *)

Section Clients.
Context `{UnicodeTables} `{CborLib} `{CryptoLib} {K : Type} `{Client K}.

(** The two fetches of [fetchAndVerify]: the token is only asked for after the
    receipt has come. *)
Definition client_attempt (st : K) (agentID : string) (keys1 keys2 : KeyLookup) (now : Z) : attempt * K :=
  match FetchReceipt st agentID with
  | (Err e, st) => (MkAttempt (Err e) (Err e) keys1 keys2 now, st)
  | (Ok rb, st) =>
      let '(t, st) := FetchStatusToken st agentID in (MkAttempt (Ok rb) t keys1 keys2 now, st)
  end.

Definition fetchAndVerify_client (agentID : string) (keys1 keys2 : KeyLookup) (now : Z) (s : HeaderSupplier) (st : K)
  : result goerror unit * HeaderSupplier * K :=
  let '(a, st) := client_attempt st agentID keys1 keys2 now in (fetchAndVerify a s, st).

Definition DoRefresh_client (now : Z) (r : RefreshableKeyStore) (st : K)
  : result goerror unit * RefreshableKeyStore * K :=
  if rk_has_client r then let '(keys, st) := FetchRootKeys st in (DoRefresh keys now r, st)
  else (DoRefresh (Ok []) now r, st).
End Clients.
