(* ===== verification/ScittAgent.v ===== *)
(** The SCITT side of an agent as one system: its header supplier
    ([verify/scitt/supplier.go]) over its refreshable key store
    ([verify/scitt/refreshable_key_store.go]), and a peer's verifier
    ([verify/verify.go]) at the other end of the headers. *)

From S2P Require Import Prelude GoStrings Encoding Errors Models Cert Cose KeyStore Receipt StatusToken Headers.
From S2P Require Import Supplier Outcome Verifier VerifierLemmas VerifierProps.

#[local] Open Scope list_scope.
#[local] Open Scope string_scope.
#[local] Open Scope Z_scope.

(** ** The order of key lookups *)

Section ScittAgent.
Context `{UnicodeTables} `{CborLib} `{CryptoLib}.

(** [k'] resolves every key that [k] does, to the same key. *)
Definition keys_le (k k' : KeyLookup) : Prop := forall kid, forall tk, k kid = Ok tk -> k' kid = Ok tk.

#[local] Instance keys_le_preorder : PreOrder keys_le.
Proof. split; [intros k kid tk K; exact K | intros k1 k2 k3 K1 K2 kid tk K; apply K2, K1, K]. Qed.

Lemma VerifyReceipt_keys (b : list byte) (k k' : KeyLookup) (r : VerifiedReceipt) :
  keys_le k k' -> VerifyReceipt b k = Ok r -> VerifyReceipt b k' = Ok r.
Proof.
  intros Hk E. unfold VerifyReceipt in *. apply rbind_Ok in E as (parsed & -> & E). cbn [rbind].
  apply rbind_Ok in E as (u1 & -> & E). cbn [rbind]. apply rbind_Ok in E as (tk & Ek & E).
  rewrite (Hk _ _ Ek). exact E.
Qed.

(** What a token verifies to does not depend on the keys, the tolerance or the clock. *)
Lemma VerifyStatusTokenAt_same (b : list byte) (k k' : KeyLookup) (sk sk' t t' : Z) (v v' : VerifiedStatusToken) :
  VerifyStatusTokenAt b k sk t = Ok v -> VerifyStatusTokenAt b k' sk' t' = Ok v' -> v = v'.
Proof.
  unfold VerifyStatusTokenAt. intros E E'. apply rbind_Ok in E as (c & Ec & E). rewrite Ec in E'. cbn [rbind] in E'.
  apply rbind_Ok in E as (tk & _ & E). apply rbind_Ok in E as (u & _ & E). cbv beta in E.
  apply rbind_Ok in E' as (tk' & _ & E'). apply rbind_Ok in E' as (u' & _ & E').
  repeat case_match_in E; repeat case_match_in E'; try discriminate.
  apply rbind_Ok in E as (p & Ep & E), E' as (p' & Ep' & E'). rewrite Ep in Ep'. injection Ep' as <-.
  repeat case_match_in E; repeat case_match_in E'; congruence.
Qed.

(** A token that verified keeps verifying, with more keys, until its expiry. *)
Lemma VerifyStatusTokenAt_later (b : list byte) (k k' : KeyLookup) (sk sk' t t' : Z) (v : VerifiedStatusToken) :
  keys_le k k' -> t' <= wrap_i64 (st_Exp (vt_Payload v) + skew_seconds sk') ->
  VerifyStatusTokenAt b k sk t = Ok v -> VerifyStatusTokenAt b k' sk' t' = Ok v.
Proof.
  unfold VerifyStatusTokenAt. intros Hk Ht E. apply rbind_Ok in E as (c & -> & E). cbn [rbind].
  apply rbind_Ok in E as (tk & Ek & E). rewrite (Hk _ _ Ek). cbn [rbind].
  apply rbind_Ok in E as (u & -> & E). cbn [rbind].
  destruct (match CwtIss (Protected c) with Some iss => String.eqb iss (tk_Name tk) | None => true end); [|discriminate].
  apply rbind_Ok in E as (p & -> & E). cbn [rbind].
  destruct (t <=? _); [|discriminate]. destruct (Status_IsTerminal (st_Status p)) eqn:Es; [discriminate|].
  cbn [negb] in *. injection E as <-. cbn [vt_Payload] in Ht. apply Z.leb_le in Ht. rewrite Ht. reflexivity.
Qed.

Lemma VerifyReceipt_fits (b : list byte) (k : KeyLookup) (r : VerifiedReceipt) : VerifyReceipt b k = Ok r -> fits b.
Proof.
  unfold VerifyReceipt. intros E. apply rbind_Ok in E as (c & E & _). unfold ParseCoseSign1 in E. unfold fits.
  destruct (_ <=? MaxCoseInputSize) eqn:El; [|discriminate]. bool_hyps. exact El.
Qed.

Lemma VerifyStatusTokenAt_fits (b : list byte) (k : KeyLookup) (sk t : Z) (v : VerifiedStatusToken) :
  VerifyStatusTokenAt b k sk t = Ok v -> fits b.
Proof.
  unfold VerifyStatusTokenAt. intros E. apply rbind_Ok in E as (c & E & _). unfold ParseCoseSign1 in E. unfold fits.
  destruct (_ <=? MaxCoseInputSize) eqn:El; [|discriminate]. bool_hyps. exact El.
Qed.

(** ** The system *)

(** The key store and the supplier. *)
Definition scitt_agent : Type := RefreshableKeyStore * HeaderSupplier.

Lemma refreshes_keys_le (r r' : RefreshableKeyStore) : refreshes r r' -> keys_le (Refreshable_Get r) (Refreshable_Get r').
Proof. induction 1 as [r|r1 r2 r3 Hs _ IH]; [reflexivity|].
  transitivity (Refreshable_Get r2); [|exact IH]. destruct (refresh_step_le _ _ Hs) as (Hm & _).
  intros kid tk. unfold Refreshable_Get, KeyStore_Get. destruct (_ !! kid) as [x|] eqn:E; [|discriminate].
  rewrite (lookup_weaken _ _ _ _ E Hm). auto.
Qed.

(** The steps: the store refreshes, on demand or in the background, whatever the key
    server answers; a fetch of the supplier, on the first use, forced or automatic,
    ends, with the answers of the client and the keys the store had at the moments of
    the two verifications; an error is recorded; a fetched supplier is marked
    initialized. Goroutines interleave in any way. *)
Inductive agent_step : scitt_agent -> scitt_agent -> Prop :=
| astep_refresh r r' s : refresh_step r r' -> agent_step (r, s) (r', s)
| astep_fetch r r1 r2 s receipt token now : refreshes r1 r -> refreshes r2 r ->
    agent_step (r, s)
      (r, snd (fetchAndVerify (MkAttempt receipt token (Refreshable_Get r1) (Refreshable_Get r2) now) s))
| astep_error r e s : agent_step (r, s) (r, set_lastError e s)
| astep_initialized r s : hs_tokenExp s <> None -> agent_step (r, s) (r, set_initialized s).

Inductive agent_reachable (skew : Z) : scitt_agent -> Prop :=
| areach_new initial has_client cooldown :
    agent_reachable skew (NewRefreshableKeyStore initial has_client cooldown, WithSupplierClockSkew skew NewHeaderSupplier)
| areach_step a a' : agent_reachable skew a -> agent_step a a' -> agent_reachable skew a'.

(** Both artifacts verify under the keys of now, the token at the moment of its fetch. *)
Definition trusted_pair (skew : Z) (r : RefreshableKeyStore) (receipt token : list byte) (exp : Z) : Prop :=
  exists t vr vt,
    VerifyReceipt receipt (Refreshable_Get r) = Ok vr /\
    VerifyStatusTokenAt token (Refreshable_Get r) (clamp_skew skew) t = Ok vt /\ st_Exp (vt_Payload vt) = exp.

Definition agent_ok (skew : Z) (a : scitt_agent) : Prop :=
  hs_clockSkew (snd a) = clamp_skew skew /\
  match hs_tokenExp (snd a) with
  | None => hs_receipt (snd a) = [] /\ hs_statusToken (snd a) = []
  | Some exp => trusted_pair skew (fst a) (hs_receipt (snd a)) (hs_statusToken (snd a)) exp
  end.

Lemma trusted_pair_refresh (skew : Z) (r r' : RefreshableKeyStore) (receipt token : list byte) (exp : Z) :
  keys_le (Refreshable_Get r) (Refreshable_Get r') ->
  trusted_pair skew r receipt token exp -> trusted_pair skew r' receipt token exp.
Proof.
  intros Hk (t & vr & vt & K1 & K2 & K3). exists t, vr, vt. split; [exact (VerifyReceipt_keys _ _ _ _ Hk K1)|].
  split; [|exact K3]. unfold VerifyStatusTokenAt in *. apply rbind_Ok in K2 as (c & -> & K2). cbn [rbind].
  apply rbind_Ok in K2 as (tk & Ek & K2). rewrite (Hk _ _ Ek). exact K2.
Qed.

Lemma agent_step_ok (skew : Z) (a a' : scitt_agent) : agent_step a a' -> agent_ok skew a -> agent_ok skew a'.
Proof.
  intros [r r' s Hs|r r1 r2 s receipt token now H1' H2'|r e s|r s He] [Hk Hp]; cbn [fst snd] in *.
  - split; [exact Hk|]. cbn [fst snd]. destruct (hs_tokenExp s); [|exact Hp].
    eapply trusted_pair_refresh; [|exact Hp]. apply refreshes_keys_le. econstructor; [exact Hs | constructor].
  - destruct (fetchAndVerify_cases (MkAttempt receipt token (Refreshable_Get r1) (Refreshable_Get r2) now) s)
      as [[e ->]|(rb & tb & vr & vt & _ & _ & Er & Et & ->)]; [split; [exact Hk | exact Hp]|].
    cbn [at_keys_receipt at_keys_token at_now] in *. split; [exact Hk|]. cbn. rewrite Hk in Et.
    exists now, vr, vt. split; [exact (VerifyReceipt_keys _ _ _ _ (refreshes_keys_le _ _ H1') Er)|]. split; [|reflexivity].
    unfold VerifyStatusTokenAt in *. apply rbind_Ok in Et as (c & -> & Et). cbn [rbind].
    apply rbind_Ok in Et as (tk & Ek & Et). rewrite (refreshes_keys_le _ _ H2' _ _ Ek). exact Et.
  - split; [exact Hk | exact Hp].
  - split; [exact Hk | exact Hp].
Qed.

Lemma agent_reachable_ok (skew : Z) (a : scitt_agent) : agent_reachable skew a -> agent_ok skew a.
Proof.
  induction 1 as [|a a' _ IH Hs]; [|eapply agent_step_ok; eassumption]. split; [reflexivity|]. cbn. auto.
Qed.

(** In every state of the agent, what its supplier holds is empty, or verifies under
    the keys its store has now: no refresh of the keys ever turns served headers into
    headers the agent itself would reject. *)
Theorem supplier_trusted (skew : Z) (r : RefreshableKeyStore) (s : HeaderSupplier) :
  agent_reachable skew (r, s) ->
  match hs_tokenExp s with
  | None => hs_receipt s = [] /\ hs_statusToken s = []
  | Some exp => trusted_pair skew r (hs_receipt s) (hs_statusToken s) exp
  end.
Proof. intros Hr. apply (agent_reachable_ok skew (r, s)), Hr. Qed.

(** ** From the supplier to the peer's verifier *)

Context {R T D : Type} `{DNSResolver R} `{TransparencyLogClient T} `{DANEResolver D}.

Lemma serve_headers (s : HeaderSupplier) (exp now : Z) (h : Header) :
  hs_tokenExp s = Some exp -> now < exp -> fits (hs_receipt s) -> fits (hs_statusToken s) ->
  ToHTTPHeaders (serve s now) = Ok h -> ExtractHeaders h = Ok (MkHeaders (hs_receipt s) (hs_statusToken s)).
Proof.
  intros He Hn Fr Ft. unfold serve. rewrite He. rewrite (proj2 (Z.leb_gt exp now)) by exact Hn.
  rewrite ToHTTPHeaders_encode. intros [= <-]. unfold ExtractHeaders.
  destruct (Get_GenerateHeaders (hs_receipt s) (hs_statusToken s)) as [-> ->].
  rewrite !decode_present_encode by assumption. cbn [rbind].
  destruct (hs_receipt s) as [|x xs], (hs_statusToken s) as [|y ys]; [reflexivity|..]; unfold encodeIfNonEmpty;
    cbn [nonempty length Nat.eqb negb]; rewrite ?encode_not_empty by reflexivity; cbn [andb];
    rewrite ?andb_false_r; reflexivity.
Qed.

(** C7: End to end: what an agent's supplier serves before the token expires, put on the
    wire and read by a peer that trusts at least the agent's keys, is accepted by the
    peer's server verifier until the token expires, whatever the two tolerances and the
    failure policy, exactly for the certificates and the host the token binds; nothing
    on the way, encoding, size limits, key refreshes or a difference of the clocks up to
    the expiry, makes the peer refuse. *)
Theorem served_headers_accepted (config : verifierConfig) (skew : Z) (r peer : RefreshableKeyStore) (s : HeaderSupplier)
    (now exp : Z) (h : Header) (ck : clock) (fqdn : Fqdn) (cert : CertIdentity) (e : env R T D)
    (Hr : agent_reachable skew (r, s)) (He : hs_tokenExp s = Some exp) (Hnow : 0 <= now < exp)
    (Hboth : hs_receipt s <> [] /\ hs_statusToken s <> [])
    (Hkeys : keys_le (Refreshable_Get r) (Refreshable_Get peer))
    (Hclock : ck_unix ck <= exp) (Hexp : exp + 600 <= max_i64)
    (Hwire : ToHTTPHeaders (serve s now) = Ok h) :
  exists hs token,
    ExtractHeaders h = Ok hs /\
    (exists t, VerifyStatusTokenAt (hs_statusToken s) (Refreshable_Get r) (clamp_skew skew) t = Ok token) /\
    let '(o, e') := Server_VerifyWithScitt config (Some (Refreshable_Get peer)) ck fqdn cert (Some hs) e in
    e' = e /\ (oc_Type o = OutcomeVerified <-> token_binding roleServer (vt_Payload token) cert fqdn).
Proof.
  pose proof (supplier_trusted skew r s Hr) as Hp. rewrite He in Hp. destruct Hp as (t & vr & vt & K1 & K2 & K3).
  exists (MkHeaders (hs_receipt s) (hs_statusToken s)), vt.
  split; [exact (serve_headers s exp now h He (proj2 Hnow) (VerifyReceipt_fits _ _ _ K1) (VerifyStatusTokenAt_fits _ _ _ _ _ K2) Hwire)|].
  split; [exists t; exact K2|]. unfold Server_VerifyWithScitt.
  assert (Hb : Headers_IsEmpty (MkHeaders (hs_receipt s) (hs_statusToken s)) = false /\
    HasBoth (MkHeaders (hs_receipt s) (hs_statusToken s)) = true).
  { unfold Headers_IsEmpty, HasBoth. cbn [h_Receipt h_StatusToken]. destruct Hboth as [B1 B2].
    destruct (hs_receipt s), (hs_statusToken s); try contradiction. split; reflexivity. }
  destruct Hb as [-> ->]. cbn [negb].
  pose proof (verifyWithHeaders_spec config peer ck fqdn cert (MkHeaders (hs_receipt s) (hs_statusToken s)) roleServer
    (Server_Verify config ck fqdn cert) e) as Hs.
  destruct (verifyWithHeaders _ _ _ _ _ _ _ _ _) as [o e']. destruct Hs as (S1 & _ & S3). split; [exact S1|].
  rewrite S3. unfold scitt_evidence. cbn [h_Receipt h_StatusToken].
  assert (K2' : VerifyStatusTokenAt (hs_statusToken s) (Refreshable_Get peer) (cf_clockSkewTolerance config) (ck_unix ck) = Ok vt).
  { eapply VerifyStatusTokenAt_later; [exact Hkeys| |exact K2]. rewrite K3.
    pose proof (skew_seconds_range (cf_clockSkewTolerance config)).
    rewrite wrap_i64_small by (unfold in_i64, min_i64; lia). lia. }
  split.
  - intros (_ & v & Ev & Hv). rewrite K2' in Ev. injection Ev as <-. exact Hv.
  - intros Hv. split; [exists vr; exact (VerifyReceipt_keys _ _ _ _ Hkeys K1) | exists vt; auto].
Qed.
End ScittAgent.

(** ** An agent and a peer *)

#[local] Existing Instance plain_tables.
#[local] Existing Instance symbolic_crypto.
#[local] Existing Instance symbolic_cbor.
#[local] Existing Instance sample_DNS.
#[local] Existing Instance sample_TLog.
#[local] Existing Instance sample_DANE.

(** The agent has fetched the root keys, then its receipt and token. *)
Definition fetched_supplier : HeaderSupplier :=
  snd (fetchAndVerify (MkAttempt (Ok [x09]) (Ok [x12]) (Refreshable_Get root_store) (Refreshable_Get root_store) 4000)
    (WithSupplierClockSkew 0 NewHeaderSupplier)).

Lemma fetched_reachable : agent_reachable 0 (root_store, fetched_supplier).
Proof.
  eapply areach_step; [eapply areach_step; [apply (areach_new 0 (MkKeyStore ∅) true 100)|]|].
  - apply (astep_refresh _ root_store). constructor.
  - apply astep_fetch; constructor.
Qed.

Lemma served_headers_accepted_witness :
  exists h hs, ToHTTPHeaders (serve fetched_supplier 4500) = Ok h /\ ExtractHeaders h = Ok hs /\
    oc_Type (fst (Server_VerifyWithScitt defaultConfig (Some (Refreshable_Get root_store)) (sample_clock 4999) sample_host
      sample_cert (Some hs) (sample_env false))) = OutcomeVerified.
Proof.
  assert (E : forall h, ToHTTPHeaders (serve fetched_supplier 4500) = Ok h ->
    exists hs, ExtractHeaders h = Ok hs /\
      oc_Type (fst (Server_VerifyWithScitt defaultConfig (Some (Refreshable_Get root_store)) (sample_clock 4999) sample_host
        sample_cert (Some hs) (sample_env false))) = OutcomeVerified).
  { intros h Eh.
    destruct (served_headers_accepted defaultConfig 0 root_store root_store fetched_supplier 4500 5000 h (sample_clock 4999)
      sample_host sample_cert (sample_env false) fetched_reachable) as (hs & token & E1 & (t & E2) & E3).
    - vm_compute. reflexivity.
    - lia.
    - split; vm_compute; discriminate.
    - intros kid tk K. exact K.
    - vm_compute. discriminate.
    - vm_compute. discriminate.
    - exact Eh.
    - exists hs. split; [exact E1|]. destruct (Server_VerifyWithScitt _ _ _ _ _ _ _) as [o e']. cbn [fst].
      apply (proj2 E3). assert (token = sample_token) as ->.
      { eapply VerifyStatusTokenAt_same; [exact E2|].
        assert (K : VerifyStatusTokenAt (hs_statusToken fetched_supplier) (Refreshable_Get root_store) 0 4000 = Ok sample_token)
          by (vm_compute; reflexivity).
        exact K. }
      apply check_token_Verified. vm_compute. reflexivity. }
  assert (Eh : ToHTTPHeaders (serve fetched_supplier 4500) = Ok (GenerateHeaders [x09] [x12])) by (vm_compute; reflexivity).
  destruct (E _ Eh) as (hs & E1 & E2). exists (GenerateHeaders [x09] [x12]), hs. split; [exact Eh|]. split; [exact E1 | exact E2].
Defined.
