(* ===== verification/Registry.v ===== *)
(** The registry API clients: requests and responses ([internal/httputility]), the
    Registry Authority client ([internal/registry/client.go], [options.go],
    [validate.go]) and the transparency-log client ([transparency.go]). *)

From S2P Require Import Prelude GoStrings Encoding GoTime Errors Json TlogJson GoJson ApiTypes Url UrlQuery Http Headers.

#[local] Open Scope list_scope.
#[local] Open Scope string_scope.
#[local] Open Scope Z_scope.

(** ** Errors *)

Definition ErrBadRequest : goerror := EPlain "bad request".

(** [models.ResponseError]; [re_Details] is a map of [any]. *)
Record ResponseError := MkResponseError {
  re_StatusCode : Z; re_Code : string; re_Message : string; re_Details : goval
}.

(** The errors a call returns. *)
Inductive api_error :=
| AErr (e : goerror)
| AResponse (e : ResponseError).

(** [apiErr] is nil, or the error the server sent. *)
Definition NewResponseError (statusCode : Z) (apiErr : option goval) : ResponseError :=
  match apiErr with
  | None => MkResponseError statusCode "" "" VNil
  | Some v => MkResponseError statusCode (get_string APIError "code" v) (get_string APIError "message" v)
                (get APIError "details" v)
  end.

Definition APIError_Error (e : goval) : string := get_string APIError "message" e.

(** [http.StatusText] *)
Definition StatusText (code : Z) : string :=
  match List.find (fun p => fst p =? code) [
    (100, "Continue"); (101, "Switching Protocols"); (102, "Processing"); (103, "Early Hints");
    (200, "OK"); (201, "Created"); (202, "Accepted"); (203, "Non-Authoritative Information"); (204, "No Content");
    (205, "Reset Content"); (206, "Partial Content"); (207, "Multi-Status"); (208, "Already Reported"); (226, "IM Used");
    (300, "Multiple Choices"); (301, "Moved Permanently"); (302, "Found"); (303, "See Other"); (304, "Not Modified");
    (305, "Use Proxy"); (307, "Temporary Redirect"); (308, "Permanent Redirect");
    (400, "Bad Request"); (401, "Unauthorized"); (402, "Payment Required"); (403, "Forbidden"); (404, "Not Found");
    (405, "Method Not Allowed"); (406, "Not Acceptable"); (407, "Proxy Authentication Required");
    (408, "Request Timeout"); (409, "Conflict"); (410, "Gone"); (411, "Length Required"); (412, "Precondition Failed");
    (413, "Request Entity Too Large"); (414, "Request URI Too Long"); (415, "Unsupported Media Type");
    (416, "Requested Range Not Satisfiable"); (417, "Expectation Failed"); (418, "I'm a teapot");
    (421, "Misdirected Request"); (422, "Unprocessable Entity"); (423, "Locked"); (424, "Failed Dependency");
    (425, "Too Early"); (426, "Upgrade Required"); (428, "Precondition Required"); (429, "Too Many Requests");
    (431, "Request Header Fields Too Large"); (451, "Unavailable For Legal Reasons");
    (500, "Internal Server Error"); (501, "Not Implemented"); (502, "Bad Gateway"); (503, "Service Unavailable");
    (504, "Gateway Timeout"); (505, "HTTP Version Not Supported"); (506, "Variant Also Negotiates");
    (507, "Insufficient Storage"); (508, "Loop Detected"); (510, "Not Extended");
    (511, "Network Authentication Required")] with
  | Some (_, text) => text
  | None => ""
  end.

Definition ResponseError_Error (e : ResponseError) : string :=
  let prefix := StatusText (re_StatusCode e) in
  let prefix := if String.eqb prefix "" then "HTTP " ++ FormatInt (re_StatusCode e) else prefix in
  if negb (String.eqb (re_Message e) "") then prefix ++ ": " ++ re_Message e else prefix.

(** ** Requests *)

Record api_request := MkApiRequest {
  aq_Method : string; aq_URL : string; aq_Header : list (string * string); aq_Body : string
}.

Inductive api_answer :=
| AFailed (err : goerror)
| AResponded (StatusCode : Z) (Header : Header) (Body : list byte) (readErr : option goerror).

(** [http.Client.Do], redirects followed, over the state of the client and of the
    servers it talks to. *)
Class ApiHttp (C : Type) := {
  api_Do : C -> api_request -> api_answer * C
}.

Definition maxResponseBodyBytes : Z := 10485760.

Record ClientConfig := MkClientConfig { BaseURL : string; AuthHeader : string }.

(** A value of a type, as [any]. *)
Definition typed : Type := gotype * goval.

(** The types of the requests have no value [json.Marshal] refuses. *)
Definition prepareRequestBody (body : option typed) : string :=
  match body with None => "" | Some (t, v) => Marshal_as t v end.

Definition setRequestHeaders (authHeader : string) : list (string * string) :=
  ((if negb (String.eqb authHeader "") then [("Authorization", authHeader)] else []) ++
   [("Content-Type", "application/json"); ("Accept", "application/json")])%list.

Definition HandleErrorResponse (statusCode : Z) (respBody : list byte) : ResponseError :=
  let text := string_of_bytes respBody in
  match Unmarshal_as APIError text (zero APIError) with
  | (apiErr, true) => NewResponseError statusCode (Some apiErr)
  | (_, false) => NewResponseError statusCode (Some (set APIError "message" (VString text) (zero APIError)))
  end.

(** [result] is a pointer to a variable of type [t] that holds its zero value; the
    result is the value left in it. *)
Definition parseSuccessResponse (respBody : list byte) (t : gotype) : result api_error goval :=
  match respBody with
  | [] => Ok (zero t)
  | _ =>
      match Unmarshal_as t (string_of_bytes respBody) (zero t) with
      | (v, true) => Ok v
      | (_, false) => Err (AErr (EWrap "failed to parse response: %w" ESyntax))
      end
  end.

Section Requests.
Context `{UnicodeTables} {C : Type} `{ApiHttp C}.

(** The exchange up to the body: the status, the header and the bytes read. *)
Definition exchange (cfg : ClientConfig) (st : C) (method path body : string)
  : result api_error (Z * Header * list byte) * C :=
  match request_method method, url_Parse (BaseURL cfg ++ path) with
  | None, _ => (Err (AErr (EWrap "failed to create request: %w" (EPlain "net/http: invalid method %q"))), st)
  | _, None => (Err (AErr (EWrap "failed to create request: %w" (EPlain "url.Error"))), st)
  | Some method, Some _ =>
      match api_Do st (MkApiRequest method (BaseURL cfg ++ path) (setRequestHeaders (AuthHeader cfg)) body) with
      | (AFailed err, st) => (Err (AErr (EWrap "request failed: %w" err)), st)
      | (AResponded StatusCode h Body readErr, st) =>
          match ReadAll_limit maxResponseBodyBytes Body readErr with
          | Err err => (Err (AErr (EWrap "failed to read response body: %w" err)), st)
          | Ok respBody =>
              if 400 <=? StatusCode then (Err (AResponse (HandleErrorResponse StatusCode respBody)), st)
              else (Ok (StatusCode, h, respBody), st)
          end
      end
  end.

Definition DoRequest (cfg : ClientConfig) (st : C) (method path : string) (body : option typed) (t : gotype)
  : result api_error goval * C :=
  let '(r, st) := exchange cfg st method path (prepareRequestBody body) in
  (let? answer := r in parseSuccessResponse (snd answer) t, st).
End Requests.

(** ** Configuration *)

(** [httpClient] is nil, or a client with a timeout; the client and the network
    are the state [C] of the calls. *)
Record clientConfig := MkRegistryConfig {
  baseURL : string; httpClient : option Z; authHeader : string; verbose : bool; timeout : Z
}.

Definition Option_ : Type := clientConfig -> result goerror clientConfig.

Definition DefaultTimeout : Z := 120 * second.

Definition defaultConfig : clientConfig :=
  MkRegistryConfig "https://ati-ra.cnnic.cn:8180/ati/api/v1" (Some DefaultTimeout) "" false DefaultTimeout.

Definition WithBaseURL (u : string) : Option_ := fun c =>
  Ok (MkRegistryConfig u (httpClient c) (authHeader c) (verbose c) (timeout c)).
Definition WithJWT (jwt : string) : Option_ := fun c =>
  Ok (MkRegistryConfig (baseURL c) (httpClient c) ("sso-jwt " ++ jwt) (verbose c) (timeout c)).
Definition WithAPIKey (key secret : string) : Option_ := fun c =>
  Ok (MkRegistryConfig (baseURL c) (httpClient c) ("sso-key " ++ key ++ ":" ++ secret) (verbose c) (timeout c)).
Definition WithTimeout (d : Z) : Option_ := fun c =>
  Ok (MkRegistryConfig (baseURL c) (option_map (fun _ => d) (httpClient c)) (authHeader c) (verbose c) d).
Definition WithVerbose (b : bool) : Option_ := fun c =>
  Ok (MkRegistryConfig (baseURL c) (httpClient c) (authHeader c) b (timeout c)).
Definition WithHTTPClient (client : option Z) : Option_ := fun c =>
  Ok (MkRegistryConfig (baseURL c) client (authHeader c) (verbose c) (timeout c)).

Fixpoint apply_options (opts : list Option_) (cfg : clientConfig) : result goerror clientConfig :=
  match opts with
  | [] => Ok cfg
  | opt :: opts =>
      match opt cfg with
      | Err err => Err (EWrap "failed to apply option: %w" err)
      | Ok cfg => apply_options opts cfg
      end
  end.

Definition NewClient (opts : list Option_) : result goerror clientConfig := apply_options opts defaultConfig.

Definition NewTransparencyClient (opts : list Option_) : result goerror clientConfig :=
  let cfg := defaultConfig in
  apply_options opts
    (MkRegistryConfig "https://ati-tl.cnnic.cn/ati/api/v1" (httpClient cfg) (authHeader cfg) (verbose cfg) (timeout cfg)).

Definition validateRequired (name value : string) : result api_error unit :=
  if String.eqb value "" then Err (AErr (EWrap ("%w: " ++ name ++ " cannot be empty") ErrBadRequest)) else Ok tt.

(** A call whose parameters are refused sends nothing. *)
Definition checked {A C : Type} (check : result api_error unit) (st : C) (k : result api_error A * C)
  : result api_error A * C :=
  match check with Err e => (Err e, st) | Ok _ => k end.

Definition strconv_Itoa (n : Z) : string := FormatInt n.

(** ** The Registry Authority client ([client.go]) *)

Section Client.
Context `{UnicodeTables} {C : Type} `{ApiHttp C}.

Definition doRequest (c : clientConfig) (st : C) (method path : string) (body : option typed) (t : gotype)
  : result api_error goval * C :=
  DoRequest (MkClientConfig (baseURL c) (authHeader c)) st method path body t.

Definition agent_path (agentID rest : string) : string := "/v1/agents/" ++ PathEscape agentID ++ rest.

(** [req] is nil, or a registration request. *)
Definition RegisterAgent (c : clientConfig) (st : C) (req : option goval) : result api_error goval * C :=
  match req with
  | None => (Err (AErr (EWrap "%w: request cannot be nil" ErrBadRequest)), st)
  | Some req => doRequest c st "POST" "/v1/agents/register" (Some (AgentRegistrationRequest, req)) RegistrationPending
  end.

Definition GetAgentDetails (c : clientConfig) (st : C) (agentID : string) : result api_error goval * C :=
  checked (validateRequired "agentID" agentID) st
    (doRequest c st "GET" (agent_path agentID "") None AgentDetails).

Definition GetChallengeDetails (c : clientConfig) (st : C) (agentID : string) : result api_error goval * C :=
  checked (validateRequired "agentID" agentID) st
    (doRequest c st "GET" (agent_path agentID "/challenge") None ChallengeDetails).

Definition VerifyACME (c : clientConfig) (st : C) (agentID : string) : result api_error goval * C :=
  checked (validateRequired "agentID" agentID) st
    (doRequest c st "POST" (agent_path agentID "/verify-acme") None AgentStatus).

Definition VerifyDNS (c : clientConfig) (st : C) (agentID : string) : result api_error goval * C :=
  checked (validateRequired "agentID" agentID) st
    (doRequest c st "POST" (agent_path agentID "/verify-dns") None AgentStatus).

(** A parameter that is set when a condition holds. *)
Definition set_if (b : bool) (key value : string) (params : Values) : Values :=
  if b then Values_Set params key value else params.

Definition nonempty (s : string) : bool := negb (String.eqb s "").

(** A path and its query, if there is one. *)
Definition with_query (path : string) (params : Values) : string :=
  match params with [] => path | _ => path ++ "?" ++ Values_Encode params end.

Definition search_params (name host version : string) (limit offset : Z) : Values :=
  set_if (0 <? offset) "offset" (strconv_Itoa offset)
  (set_if (0 <? limit) "limit" (strconv_Itoa limit)
  (set_if (nonempty version) "version" version
  (set_if (nonempty host) "agentHost" host
  (set_if (nonempty name) "agentDisplayName" name [])))).

Definition SearchAgents (c : clientConfig) (st : C) (name host version : string) (limit offset : Z)
  : result api_error goval * C :=
  checked (guard! negb ((limit <? 0) || (1000 <? limit))
             orelse AErr (EWrap "%w: limit must be between 0 and 1000" ErrBadRequest) in
           guard! negb (offset <? 0) orelse AErr (EWrap "%w: offset cannot be negative" ErrBadRequest) in Ok tt) st
    (doRequest c st "GET" (with_query "/v1/agents" (search_params name host version limit offset)) None AgentSearchResponse).

Definition GetIdentityCertificates (c : clientConfig) (st : C) (agentID : string) : result api_error goval * C :=
  checked (validateRequired "agentID" agentID) st
    (doRequest c st "GET" (agent_path agentID "/certificates/identity") None (TSlice CertificateResponse)).

Definition GetServerCertificates (c : clientConfig) (st : C) (agentID : string) : result api_error goval * C :=
  checked (validateRequired "agentID" agentID) st
    (doRequest c st "GET" (agent_path agentID "/certificates/server") None (TSlice CertificateResponse)).

Definition csr_request (csrPEM : string) : typed := (CsrSubmissionRequest, VStruct [VString csrPEM]).

Definition SubmitIdentityCSR (c : clientConfig) (st : C) (agentID csrPEM : string) : result api_error goval * C :=
  checked (let? _ := validateRequired "agentID" agentID in validateRequired "csrPEM" csrPEM) st
    (doRequest c st "POST" (agent_path agentID "/certificates/identity") (Some (csr_request csrPEM)) CsrSubmissionResponse).

Definition SubmitServerCSR (c : clientConfig) (st : C) (agentID csrPEM : string) : result api_error goval * C :=
  checked (let? _ := validateRequired "agentID" agentID in validateRequired "csrPEM" csrPEM) st
    (doRequest c st "POST" (agent_path agentID "/certificates/server") (Some (csr_request csrPEM)) CsrSubmissionResponse).

Definition GetCSRStatus (c : clientConfig) (st : C) (agentID csrID : string) : result api_error goval * C :=
  checked (let? _ := validateRequired "agentID" agentID in validateRequired "csrID" csrID) st
    (doRequest c st "GET" (agent_path agentID ("/csrs/" ++ PathEscape csrID ++ "/status")) None CsrStatusResponse).

Definition events_params (limit : Z) (providerID lastLogID : string) : Values :=
  set_if (nonempty lastLogID) "lastLogId" lastLogID
  (set_if (nonempty providerID) "providerId" providerID
  (set_if (0 <? limit) "limit" (strconv_Itoa limit) [])).

Definition GetAgentEvents (c : clientConfig) (st : C) (limit : Z) (providerID lastLogID : string)
  : result api_error goval * C :=
  doRequest c st "GET" (with_query "/v1/agents/events" (events_params limit providerID lastLogID)) None EventPageResponse.

Definition ResolveAgent (c : clientConfig) (st : C) (host version : string) : result api_error goval * C :=
  checked (validateRequired "host" host) st
    (doRequest c st "POST" "/v1/agents/resolution"
       (Some (AgentCapabilityRequest, VStruct [VString host; VString version])) AgentCapabilityResponse).

Definition RevokeAgent (c : clientConfig) (st : C) (agentID reason comments : string) : result api_error goval * C :=
  checked (validateRequired "agentID" agentID) st
    (doRequest c st "POST" (agent_path agentID "/revoke")
       (Some (AgentRevocationRequest, VStruct [VString reason; VString comments])) AgentRevocationResponse).
End Client.

(** ** The transparency-log client ([transparency.go], [models/transparency.go]) *)

(** [ParsedPayload] is nil, or a pointer to an entry of one of the schemas. *)
Inductive parsed_payload := ParsedV1 (v : goval) | ParsedV0 (v : goval).

(** A [models.TransparencyLog]: its JSON part and the payload as parsed. *)
Record log_entry := MkLogEntry { le_log : goval; ParsedPayload : option parsed_payload }.

Definition entry_schema (t : log_entry) : string := get_string TransparencyLog "schemaVersion" (le_log t).

Definition GetV1Payload (t : log_entry) : option goval :=
  match ParsedPayload t with Some (ParsedV1 v1) => Some v1 | _ => None end.
Definition GetV0Payload (t : log_entry) : option goval :=
  match ParsedPayload t with Some (ParsedV0 v0) => Some v0 | _ => None end.
Definition IsV1 (t : log_entry) : bool := String.eqb (entry_schema t) "V1" || is_some (GetV1Payload t).
Definition IsV0 (t : log_entry) : bool :=
  String.eqb (entry_schema t) "V0" || String.eqb (entry_schema t) "" || is_some (GetV0Payload t).

(** [payload] is a value of [map[string]any]. *)
Definition parsePayloadBySchema (payload : goval) (schemaVersion : string) : option parsed_payload :=
  let payloadJSON := Marshal_as (TMap TAny) payload in
  if String.eqb schemaVersion "V1" then
    match Unmarshal_as TransparencyLogV1 payloadJSON (zero TransparencyLogV1) with
    | (v1, true) => Some (ParsedV1 v1)
    | (_, false) => None
    end
  else
    match Unmarshal_as TransparencyLogV0 payloadJSON (zero TransparencyLogV0) with
    | (v0, true) => Some (ParsedV0 v0)
    | (_, false) => None
    end.

Definition is_nil (v : goval) : bool := match v with VNil => true | _ => false end.

Definition parse_entry (result : goval) (schemaVersion : string) : log_entry :=
  let payload := get TransparencyLog "payload" result in
  MkLogEntry result (if is_nil payload then None else parsePayloadBySchema payload schemaVersion).

Section TransparencyClient.
Context `{UnicodeTables} {C : Type} `{ApiHttp C}.

Definition doGet (c : clientConfig) (st : C) (path : string) (t : gotype) : result api_error goval * C :=
  DoRequest (MkClientConfig (baseURL c) "") st "GET" path None t.

(** Unlike [doGet] it sends the credentials, and an empty body is an error. *)
Definition doRequestWithSchemaVersion (c : clientConfig) (st : C) (method path : string) (body : option typed)
  : result api_error log_entry * C :=
  let '(r, st) := exchange (MkClientConfig (baseURL c) (authHeader c)) st method path (prepareRequestBody body) in
  (let? answer := r in
   let '(_, header, respBody) := answer in
   match Unmarshal_as TransparencyLog (string_of_bytes respBody) (zero TransparencyLog) with
   | (_, false) => Err (AErr (EWrap "failed to parse response: %w" ESyntax))
   | (result, true) =>
       let schemaVersion := get_string TransparencyLog "schemaVersion" result in
       let schemaVersion := if String.eqb schemaVersion "" then Header_Get header "X-Schema-Version" else schemaVersion in
       Ok (parse_entry (set TransparencyLog "schemaVersion" (VString schemaVersion) result) schemaVersion)
   end, st).

Definition GetAgentTransparencyLog (c : clientConfig) (st : C) (agentID : string) : result api_error log_entry * C :=
  checked (validateRequired "agentID" agentID) st
    (doRequestWithSchemaVersion c st "GET" (agent_path agentID "") None).

Record AgentAuditParams := MkAuditParams { ap_Offset : Z; ap_Limit : Z }.

Definition audit_values (params : AgentAuditParams) : Values :=
  set_if (0 <? ap_Limit params) "limit" (strconv_Itoa (ap_Limit params))
  (set_if (0 <? ap_Offset params) "offset" (strconv_Itoa (ap_Offset params)) []).

Definition appendAuditParams (path : string) (params : AgentAuditParams) : string := with_query path (audit_values params).

Definition audit_record (record : goval) : log_entry :=
  let schemaVersion := get_string TransparencyLog "schemaVersion" record in
  parse_entry record (if String.eqb schemaVersion "" then "V0" else schemaVersion).

Definition GetAgentTransparencyLogAudit (c : clientConfig) (st : C) (agentID : string) (params : option AgentAuditParams)
  : result api_error (list log_entry) * C :=
  checked (validateRequired "agentID" agentID) st (
    let path := agent_path agentID "/audit" in
    let path := match params with Some params => appendAuditParams path params | None => path end in
    let '(r, st) := doGet c st path TransparencyLogAudit in
    (let? result := r in
     Ok (match get TransparencyLogAudit "records" result with
         | VSlice records => map audit_record records
         | _ => []
         end), st)).

Definition GetCheckpoint (c : clientConfig) (st : C) : result api_error goval * C :=
  doGet c st "/v1/log/checkpoint" CheckpointResponse.

(** [FromSize] and [ToSize] are unsigned. *)
Record CheckpointHistoryParams := MkHistoryParams {
  hp_Limit : Z; hp_Offset : Z; hp_FromSize : Z; hp_ToSize : Z; hp_Since : option Time; hp_Order : string
}.

Definition history_values (params : CheckpointHistoryParams) : Values :=
  let values :=
    set_if (0 <? hp_ToSize params) "toSize" (fmt_d (hp_ToSize params))
    (set_if (0 <? hp_FromSize params) "fromSize" (fmt_d (hp_FromSize params))
    (set_if (0 <? hp_Offset params) "offset" (strconv_Itoa (hp_Offset params))
    (set_if (0 <? hp_Limit params) "limit" (strconv_Itoa (hp_Limit params)) []))) in
  let values := match hp_Since params with Some t => Values_Set values "since" (Format_RFC3339 t) | None => values end in
  set_if (nonempty (hp_Order params)) "order" (hp_Order params) values.

Definition appendCheckpointHistoryParams (path : string) (params : CheckpointHistoryParams) : string :=
  with_query path (history_values params).

Definition GetCheckpointHistory (c : clientConfig) (st : C) (params : option CheckpointHistoryParams)
  : result api_error goval * C :=
  let path := "/v1/log/checkpoint/history" in
  let path := match params with Some params => appendCheckpointHistoryParams path params | None => path end in
  doGet c st path CheckpointHistoryResponse.

Definition GetLogSchema (c : clientConfig) (st : C) (version : string) : result api_error goval * C :=
  checked (validateRequired "version" version) st
    (doGet c st ("/v1/log/schema/" ++ PathEscape version) JSONSchema).
End TransparencyClient.

(** ** What a call returns *)

(** The types the clients decode into. *)
Lemma get_typed (t : gotype) (fs : list (string * bool * gotype)) (name : string) (v : goval) :
  type_fields t = fs -> has_type t v -> (exists f, In f fs /\ field_name f = name /\ has_type (snd f) (get t name v)) \/
    ~ In name (map field_name fs).
Proof.
  intros Ef Hv. assert (Hs : exists vs, v = VStruct vs /\ fields_typed fs vs \/ fs = []).
  { destruct t; cbn [type_fields] in Ef; subst fs; try (exists []; right; reflexivity);
      destruct v; try contradiction Hv; eexists; left; (split; [reflexivity|]).
    - apply has_type_struct, Hv.
    - rewrite has_type_or in Hv. apply has_type_struct, Hv. }
  destruct Hs as (vs & [[-> Hs] | ->]); [|right; intros []].
  unfold get. cbn [struct_fields]. rewrite Ef. clear Ef Hv.
  induction Hs as [|f v fs vs Hf Hs IH]; [right; intros []|]. cbn [get_field map].
  destruct (String.eqb_spec (field_name f) name) as [E|E].
  - left. exists f. repeat split; [left; reflexivity | exact E | exact Hf].
  - destruct IH as [(g & Hg & Eg & Tg) | Hn]; [left; exists g; repeat split; auto; right; exact Hg|].
    right. intros [K|K]; contradiction.
Qed.

Lemma Unmarshal_as_typed (t : gotype) (text : string) :
  type_wf t = true -> has_type t (fst (Unmarshal_as t text (zero t))).
Proof. intros W. apply Unmarshal_as_keeps; [exact W | apply zero_typed]. Qed.

Section Calls.
Context `{UnicodeTables} {C : Type} `{ApiHttp C}.

(** The request of a call. *)
Definition call_request (cfg : ClientConfig) (method path : string) (body : option typed) : api_request :=
  MkApiRequest method (BaseURL cfg ++ path) (setRequestHeaders (AuthHeader cfg)) (prepareRequestBody body).

(** C27: The outcome of an API call, for every answer of the server. A URL that does
    not parse, or a method that is not a token, sends nothing. Otherwise exactly one request is sent. A status of 400 or
    more always gives a [ResponseError] with that status, whose message is the whole
    body when the body is not an error object; a smaller status never gives one: it
    gives a value of the result's type (its zero value for an empty body) exactly when
    the body decodes, and a parse error otherwise; a failure of the transport or of
    reading the body is an error that is not a [ResponseError]. No more than 10 MB of
    the body count. *)
Theorem DoRequest_outcome (cfg : ClientConfig) (st : C) (method path : string) (body : option typed) (t : gotype) :
  type_wf t = true ->
  let '(r, st') := DoRequest cfg st method path body t in
  match request_method method, url_Parse (BaseURL cfg ++ path) with
  | None, _ | _, None => st' = st /\ exists e, r = Err (AErr e)
  | Some method, Some _ =>
      let '(answer, st1) := api_Do st (call_request cfg method path body) in
      st' = st1 /\
      match answer with
      | AFailed err => exists e, r = Err (AErr e)
      | AResponded status _ Body readErr =>
          match ReadAll_limit maxResponseBodyBytes Body readErr with
          | Err _ => exists e, r = Err (AErr e)
          | Ok data =>
              let text := string_of_bytes data in
              if 400 <=? status then
                exists e, r = Err (AResponse e) /\ re_StatusCode e = status /\
                  (snd (Unmarshal_as APIError text (zero APIError)) = false -> re_Message e = text)
              else
                match r with
                | Ok v => has_type t v /\ (data = [] -> v = zero t) /\
                    (data <> [] -> Unmarshal_as t text (zero t) = (v, true))
                | Err (AErr _) => data <> [] /\ snd (Unmarshal_as t text (zero t)) = false
                | Err (AResponse _) => False
                end
          end
      end
  end.
Proof.
  intros W. unfold DoRequest, exchange, call_request.
  destruct (request_method method); [|split; [reflexivity | eexists; reflexivity]].
  destruct (url_Parse (BaseURL cfg ++ path)); [|split; [reflexivity | eexists; reflexivity]].
  destruct (api_Do st _) as [[err|status h Body readErr] st1]; [split; [reflexivity | eexists; reflexivity]|].
  destruct (ReadAll_limit maxResponseBodyBytes Body readErr) as [data|e]; [|split; [reflexivity | eexists; reflexivity]].
  destruct (400 <=? status) eqn:Es; (split; [reflexivity|]); cbn [rbind snd].
  - eexists. split; [reflexivity|]. unfold HandleErrorResponse.
    pose proof (Unmarshal_as_typed APIError (string_of_bytes data) eq_refl) as T.
    destruct (Unmarshal_as APIError (string_of_bytes data) (zero APIError)) as [v []];
      (split; [reflexivity|]); [discriminate | reflexivity].
  - unfold parseSuccessResponse. destruct data as [|b data].
    { repeat split; [apply zero_typed | congruence]. }
    pose proof (Unmarshal_as_typed t (string_of_bytes (b :: data)) W) as T.
    destruct (Unmarshal_as t (string_of_bytes (b :: data)) (zero t)) as [v []].
    + repeat split; [exact T | discriminate].
    + split; [discriminate | reflexivity].
Qed.

(** ** Where a call goes *)

(** The call sends the request, once, and nothing else; nothing at all when the
    URL does not parse. *)
Definition sends {A : Type} (call : C -> A * C) (q : api_request) : Prop :=
  forall st, snd (call st) = match url_Parse (aq_URL q) with Some _ => snd (api_Do st q) | None => st end.

Lemma exchange_sends (cfg : ClientConfig) (method m path body : string) :
  request_method method = Some m ->
  sends (fun st => exchange cfg st method path body)
    (MkApiRequest m (BaseURL cfg ++ path) (setRequestHeaders (AuthHeader cfg)) body).
Proof.
  intros Em st. unfold exchange. cbn [aq_URL]. rewrite Em.
  destruct (url_Parse (BaseURL cfg ++ path)); [|reflexivity].
  destruct (api_Do st _) as [[err|status h Body readErr] st1]; [reflexivity|].
  destruct (ReadAll_limit _ _ _); [|reflexivity]. destruct (400 <=? status); reflexivity.
Qed.

Lemma DoRequest_sends (cfg : ClientConfig) (method m path : string) (body : option typed) (t : gotype) :
  request_method method = Some m ->
  sends (fun st => DoRequest cfg st method path body t) (call_request cfg m path body).
Proof.
  intros Em st. unfold DoRequest, call_request. rewrite <- (exchange_sends cfg method m path _ Em st).
  destruct (exchange cfg st method path _). reflexivity.
Qed.

End Calls.

(** ** Query parameters *)

Lemma set_if_NoDup (b : bool) (key value : string) (params : Values) :
  List.NoDup (map fst params) -> List.NoDup (map fst (set_if b key value params)).
Proof. intros K. destruct b; [apply Values_Set_NoDup, K | exact K]. Qed.

Lemma set_if_in (b : bool) (key value k v : string) (params : Values) :
  ~ In key (map fst params) ->
  In (k, v) (set_if b key value params) <-> (b = true /\ k = key /\ v = value) \/ In (k, v) params.
Proof.
  intros Hk. destruct b; cbn [set_if]; [|intuition discriminate].
  unfold Values_Set. cbn [In]. rewrite filter_In. cbn [fst]. split.
  - intros [[= <- <-]|[Hi _]]; auto.
  - intros [(_ & -> & ->)|Hi]; [left; reflexivity|]. right. split; [exact Hi|].
    apply negb_true_iff, String.eqb_neq. intros ->. apply Hk, in_map_iff. exists (key, v). auto.
Qed.

Lemma set_if_keys (b : bool) (key value k : string) (params : Values) :
  ~ In k (map fst params) -> k <> key -> ~ In k (map fst (set_if b key value params)).
Proof.
  intros Hk Hn Hi. apply in_map_iff in Hi as ([k' v] & E & Hi). cbn in E. subst k'. destruct b; cbn [set_if] in Hi.
  - destruct Hi as [[= -> _]|Hi]; [contradiction|]. apply filter_In in Hi as [Hi _]. apply Hk, in_map_iff. exists (k, v). auto.
  - apply Hk, in_map_iff. exists (k, v). auto.
Qed.

Create HintDb params discriminated.
#[export] Hint Resolve set_if_NoDup set_if_keys : params.
#[export] Hint Extern 1 (~ In _ (map fst [])) => intros [] : params.
#[export] Hint Extern 1 (List.NoDup (map fst [])) => constructor : params.
#[export] Hint Extern 1 (_ <> _) => discriminate : params.

(** What the server reads from a path and a query built from parameters. *)
Definition query_says (path : string) (params : Values) (url : string) : Prop :=
  (params = [] /\ url = path) \/
  (exists query, url = path ++ "?" ++ query /\ exists ps, ParseQuery query = Some ps /\
     List.NoDup (map fst ps) /\ forall k v, In (k, v) ps <-> In (k, v) params).

Lemma with_query_says (path : string) (params : Values) :
  List.NoDup (map fst params) -> query_says path params (with_query path params).
Proof.
  intros Hn. unfold query_says, with_query. destruct params as [|p params]; [left; auto|]. right.
  eexists. split; [reflexivity|]. exists (sorted_values (p :: params)). split; [apply ParseQuery_Join|].
  split; [|intros; apply sorted_values_in, Hn]. apply sorted_values_NoDup, Hn.
Qed.

(** ** Calls about one agent *)

(** The first parameter of a call that is required and empty. *)
Definition missing (required : list (string * string)) : option string :=
  option_map fst (List.find (fun p => String.eqb (snd p) "") required).

(** What a call needs, what it sends, and what comes of it: an error, or none.
    [ac_path] is the path as decoded segments, [ac_query] the parameters. *)
Record agent_call (C : Type) := MkAgentCall {
  ac_required : list (string * string); ac_method : string; ac_path : list string; ac_query : Values;
  ac_body : option typed; ac_auth : string; ac_run : C -> option api_error * C
}.
Arguments MkAgentCall {C}.
Arguments ac_required {C}.
Arguments ac_method {C}.
Arguments ac_path {C}.
Arguments ac_query {C}.
Arguments ac_body {C}.
Arguments ac_auth {C}.
Arguments ac_run {C}.

Definition failure {A C : Type} (call : C -> result api_error A * C) (st : C) : option api_error * C :=
  (match fst (call st) with Err e => Some e | Ok _ => None end, snd (call st)).

Lemma with_query_base (base path : string) (params : Values) :
  with_query (base ++ "/" ++ path) params = base ++ "/" ++ with_query path params.
Proof. destruct params; [reflexivity|]. unfold with_query. rewrite !str_app_assoc. reflexivity. Qed.

Section AgentCalls.
Context `{UnicodeTables} {C : Type} `{ApiHttp C}.

(** The calls of the two clients that name an agent. *)
Definition agent_calls (c : clientConfig) (agentID csrPEM csrID reason comments : string)
    (params : option AgentAuditParams) : list (agent_call C) :=
  let id := ("agentID", agentID) in
  let csr := ("csrPEM", csrPEM) in
  let path rest := (["v1"; "agents"; agentID] ++ rest)%list in
  let auth := authHeader c in [
  MkAgentCall [id] "GET" (path []) [] None auth (failure (fun st => GetAgentDetails c st agentID));
  MkAgentCall [id] "GET" (path ["challenge"]) [] None auth (failure (fun st => GetChallengeDetails c st agentID));
  MkAgentCall [id] "POST" (path ["verify-acme"]) [] None auth (failure (fun st => VerifyACME c st agentID));
  MkAgentCall [id] "POST" (path ["verify-dns"]) [] None auth (failure (fun st => VerifyDNS c st agentID));
  MkAgentCall [id] "GET" (path ["certificates"; "identity"]) [] None auth
    (failure (fun st => GetIdentityCertificates c st agentID));
  MkAgentCall [id] "GET" (path ["certificates"; "server"]) [] None auth
    (failure (fun st => GetServerCertificates c st agentID));
  MkAgentCall [id; csr] "POST" (path ["certificates"; "identity"]) [] (Some (csr_request csrPEM)) auth
    (failure (fun st => SubmitIdentityCSR c st agentID csrPEM));
  MkAgentCall [id; csr] "POST" (path ["certificates"; "server"]) [] (Some (csr_request csrPEM)) auth
    (failure (fun st => SubmitServerCSR c st agentID csrPEM));
  MkAgentCall [id; ("csrID", csrID)] "GET" (path ["csrs"; csrID; "status"]) [] None auth
    (failure (fun st => GetCSRStatus c st agentID csrID));
  MkAgentCall [id] "POST" (path ["revoke"]) []
    (Some (AgentRevocationRequest, VStruct [VString reason; VString comments])) auth
    (failure (fun st => RevokeAgent c st agentID reason comments));
  MkAgentCall [id] "GET" (path []) [] None auth (failure (fun st => GetAgentTransparencyLog c st agentID));
  MkAgentCall [id] "GET" (path ["audit"]) (match params with Some p => audit_values p | None => [] end) None ""
    (failure (fun st => GetAgentTransparencyLogAudit c st agentID params))].

(** The call is refused when a required parameter is empty, the first of them
    named in the error, and otherwise sends its request. *)
Definition guarded (c : clientConfig) (call : agent_call C) : Prop :=
  match missing (ac_required call) with
  | Some name =>
      forall st, ac_run call st = (Some (AErr (EWrap ("%w: " ++ name ++ " cannot be empty") ErrBadRequest)), st)
  | None =>
      sends (ac_run call)
        (MkApiRequest (ac_method call)
           (baseURL c ++ "/" ++ with_query (Join (map PathEscape (ac_path call)) "/") (ac_query call))
           (setRequestHeaders (ac_auth call)) (prepareRequestBody (ac_body call)))
  end.

Lemma audit_values_NoDup (params : AgentAuditParams) : List.NoDup (map fst (audit_values params)).
Proof. unfold audit_values. auto 10 with params. Qed.

(** A call that does with the state what a call that sends does. *)
Lemma failure_sends {A B : Type} (call : C -> result api_error A * C) (k : C -> B * C) (q q' : api_request) :
  (forall st, snd (call st) = snd (k st)) -> q = q' -> sends k q -> sends (failure call) q'.
Proof. intros E <- Hs st. unfold failure. cbn [snd]. rewrite E. apply Hs. Qed.

(** The URL of a call on an agent, from the one the code builds. *)
Lemma agent_url (base agentID rest : string) (segs : list string) (query : Values) :
  rest = match segs with [] => "" | _ => "/" ++ Join (map PathEscape segs) "/" end ->
  base ++ with_query (agent_path agentID rest) query =
  base ++ "/" ++ with_query (Join (map PathEscape (["v1"; "agents"; agentID] ++ segs)) "/") query.
Proof.
  intros ->.
  replace (Join (map PathEscape (["v1"; "agents"; agentID] ++ segs)) "/")
    with ("v1/agents/" ++ PathEscape agentID ++ match segs with [] => "" | _ => "/" ++ Join (map PathEscape segs) "/" end).
  - destruct query; reflexivity.
  - destruct segs; [rewrite str_app_nil_r|]; reflexivity.
Qed.

(** The state after [DoRequest], with the request it makes. *)
Lemma registry_call (c : clientConfig) (auth m agentID rest : string) (segs : list string) (query : Values)
    (body : option typed) (t : gotype) {A : Type} (call : C -> result api_error A * C) :
  (forall st, snd (call st) =
     snd (DoRequest (MkClientConfig (baseURL c) auth) st m (with_query (agent_path agentID rest) query) body t)) ->
  rest = match segs with [] => "" | _ => "/" ++ Join (map PathEscape segs) "/" end ->
  request_method m = Some m ->
  sends (failure call)
    (MkApiRequest m (baseURL c ++ "/" ++ with_query (Join (map PathEscape (["v1"; "agents"; agentID] ++ segs)) "/") query)
       (setRequestHeaders auth) (prepareRequestBody body)).
Proof.
  intros E Hr Em. refine (failure_sends call _ _ _ E _ (DoRequest_sends _ m m _ body t Em)).
  unfold call_request. cbn [BaseURL AuthHeader]. rewrite (agent_url _ _ _ segs query Hr). reflexivity.
Qed.

(** The log's entry and its audit differ from the others in what they make of
    the answer only. *)
Lemma GetAgentTransparencyLog_state (c : clientConfig) (st : C) (agentID : string) :
  agentID <> "" ->
  snd (GetAgentTransparencyLog c st agentID) =
  snd (DoRequest (MkClientConfig (baseURL c) (authHeader c)) st "GET" (agent_path agentID "") None TransparencyLog).
Proof.
  intros Ha%String.eqb_neq. unfold GetAgentTransparencyLog, checked, validateRequired. rewrite Ha.
  unfold doRequestWithSchemaVersion, DoRequest. destruct (exchange _ _ _ _ _). reflexivity.
Qed.

Lemma GetAgentTransparencyLogAudit_state (c : clientConfig) (st : C) (agentID : string) (params : option AgentAuditParams) :
  agentID <> "" ->
  snd (GetAgentTransparencyLogAudit c st agentID params) =
  snd (DoRequest (MkClientConfig (baseURL c) "") st "GET"
         (with_query (agent_path agentID "/audit") (match params with Some p => audit_values p | None => [] end))
         None TransparencyLogAudit).
Proof.
  intros Ha%String.eqb_neq. unfold GetAgentTransparencyLogAudit, checked, validateRequired, doGet, appendAuditParams.
  rewrite Ha. destruct params; cbn [with_query]; destruct (DoRequest _ _ _ _ _ _); reflexivity.
Qed.

Ltac unfold_calls :=
  unfold GetAgentDetails, GetChallengeDetails, VerifyACME, VerifyDNS, GetIdentityCertificates,
    GetServerCertificates, SubmitIdentityCSR, SubmitServerCSR, GetCSRStatus, RevokeAgent, checked, validateRequired.

Lemma agent_calls_guarded (c : clientConfig) (agentID csrPEM csrID reason comments : string)
    (params : option AgentAuditParams) :
  Forall (guarded c) (agent_calls c agentID csrPEM csrID reason comments params).
Proof.
  unfold agent_calls. cbv zeta. repeat (apply List.Forall_cons); [..|constructor];
    unfold guarded, missing; cbn [ac_required ac_method ac_path ac_query ac_body ac_auth ac_run List.find snd fst option_map];
    destruct (String.eqb agentID "") eqn:Ea; cbn [option_map fst].
  (* no ID *)
  all: try (intros st; unfold failure, GetAgentTransparencyLog, GetAgentTransparencyLogAudit; unfold_calls;
            rewrite Ea; reflexivity).
  all: apply String.eqb_neq in Ea as Hid.
  (* an ID, and the CSR's parameter *)
  all: try (destruct (String.eqb csrPEM "") eqn:Ep); try (destruct (String.eqb csrID "") eqn:Ei); cbn [option_map fst].
  all: try (intros st; unfold failure; unfold_calls; rewrite ?Ea, ?Ep, ?Ei; reflexivity).
  all: eapply registry_call; [intros st | reflexivity | reflexivity];
    first [exact (GetAgentTransparencyLog_state c st agentID Hid) |
           exact (GetAgentTransparencyLogAudit_state c st agentID params Hid) |
           unfold_calls; rewrite ?Ea, ?Ep, ?Ei; reflexivity].
Qed.

(** C28: Every call of the registry client and of the transparency-log client that
    names an agent stays with that agent. When the agent ID, or the CSR text or CSR
    ID of the calls that take one, is empty, the call is refused as a bad request
    that names the first missing parameter, and nothing is sent. Otherwise it sends
    one request and no other (none at all if the base URL does not parse), with
    the call's method, body and credentials: the registry's and the entry's with the
    client's authorization, the audit's with none. Its URL is the base URL followed
    by one path segment for each part of the call's path, agent ID and CSR ID
    included; no segment has a slash, a query or a fragment mark and each decodes to
    exactly its part, whatever characters the IDs have, and a server that parses the
    query gets exactly the paging parameters. (An ID of one or two dots is left as
    it is, [dot_segment].) *)
Theorem agent_calls_confined (c : clientConfig) (agentID csrPEM csrID reason comments : string)
    (params : option AgentAuditParams) (call : agent_call C) :
  In call (agent_calls c agentID csrPEM csrID reason comments params) ->
  firstn 3 (ac_path call) = ["v1"; "agents"; agentID] /\ head (ac_required call) = Some ("agentID", agentID) /\
  match missing (ac_required call) with
  | Some name =>
      forall st, ac_run call st = (Some (AErr (EWrap ("%w: " ++ name ++ " cannot be empty") ErrBadRequest)), st)
  | None =>
      exists segs url,
        Forall2 (fun seg part => clean_segment seg = true /\ unescape seg encodePathSegment = Some part) segs (ac_path call) /\
        query_says (baseURL c ++ "/" ++ Join segs "/") (ac_query call) url /\
        sends (ac_run call)
          (MkApiRequest (ac_method call) url (setRequestHeaders (ac_auth call)) (prepareRequestBody (ac_body call)))
  end.
Proof.
  intros Hin.
  pose proof (agent_calls_guarded c agentID csrPEM csrID reason comments params) as Hg.
  rewrite List.Forall_forall in Hg. specialize (Hg call Hin).
  assert (Hf : firstn 3 (ac_path call) = ["v1"; "agents"; agentID] /\
               head (ac_required call) = Some ("agentID", agentID) /\ List.NoDup (map fst (ac_query call))).
  { repeat (destruct Hin as [<-|Hin]; [split; [reflexivity|split; [reflexivity|cbn [ac_query]]]; destruct params; auto using audit_values_NoDup with params|]).
    contradiction. }
  destruct Hf as (H1 & H2 & Hn). split; [exact H1|]. split; [exact H2|]. clear Hin H1 H2.
  unfold guarded in Hg. destruct (missing (ac_required call)) as [name|]; [exact Hg|].
  exists (map PathEscape (ac_path call)). eexists. split; [|split; [|exact Hg]].
  - clear. induction (ac_path call); constructor; [|assumption]. split; [apply PathEscape_segment | apply PathEscape_decodes].
  - rewrite <- with_query_base. apply with_query_says, Hn.
Qed.

End AgentCalls.

Section Search.
Context `{UnicodeTables} {C : Type} `{ApiHttp C}.

(** A search asks for what the caller said. A limit outside 0..1000 or a negative
    offset is refused and nothing is sent. Otherwise one GET goes to [/v1/agents], and
    a server that parses the query gets exactly the parameters given, byte for byte
    and each once: the name, host and version that are not empty, and the limit and
    offset that are not 0, in decimal; with none of them there is no query. *)
Theorem SearchAgents_query (c : clientConfig) (name host version : string) (limit offset : Z) :
  let call := fun st : C => SearchAgents c st name host version limit offset in
  (~ (0 <= limit <= 1000 /\ 0 <= offset) -> forall st, exists e, call st = (Err (AErr (EWrap e ErrBadRequest)), st)) /\
  (0 <= limit <= 1000 -> 0 <= offset ->
   exists url, sends call (MkApiRequest "GET" (baseURL c ++ url) (setRequestHeaders (authHeader c)) "") /\
   exists ps, query_says "/v1/agents" ps url /\ List.NoDup (map fst ps) /\
   forall k v, In (k, v) ps <->
     (k = "agentDisplayName" /\ v = name /\ name <> "") \/ (k = "agentHost" /\ v = host /\ host <> "") \/
     (k = "version" /\ v = version /\ version <> "") \/ (k = "limit" /\ v = FormatInt limit /\ limit <> 0) \/
     (k = "offset" /\ v = FormatInt offset /\ offset <> 0)).
Proof.
  cbv zeta. split.
  - intros Hb st. unfold SearchAgents, checked.
    destruct ((limit <? 0) || (1000 <? limit)) eqn:E1; [eexists; reflexivity|].
    destruct (offset <? 0) eqn:E2; [eexists; reflexivity|]. bool_hyps. lia.
  - intros Hl Ho. set (ps := search_params name host version limit offset).
    exists (with_query "/v1/agents" ps). split.
    + intros st. unfold SearchAgents, checked.
      rewrite (proj2 (Z.ltb_ge limit 0)), (proj2 (Z.ltb_ge 1000 limit)), (proj2 (Z.ltb_ge offset 0)) by lia.
      exact (DoRequest_sends (MkClientConfig (baseURL c) (authHeader c)) "GET" "GET" (with_query "/v1/agents" ps) None
               AgentSearchResponse eq_refl st).
    + assert (Hn : List.NoDup (map fst ps)) by (unfold ps, search_params; auto 10 with params).
      exists ps. split; [apply with_query_says, Hn|]. split; [exact Hn|]. intros k v.
      unfold ps, search_params. rewrite !set_if_in by auto 10 with params. cbn [In].
      assert (Hs : forall s, nonempty s = true <-> s <> "")
        by (intros s; unfold nonempty; rewrite negb_true_iff; apply String.eqb_neq).
      rewrite !Hs, !Z.ltb_lt. unfold strconv_Itoa. assert (limit <> 0 <-> 0 < limit) by lia.
      assert (offset <> 0 <-> 0 < offset) by lia. tauto.
Qed.
End Search.

(** ** Log entries *)

(** The type and the schema of a parsed payload agree with what the entry says. *)
Definition entry_ok (t : log_entry) : Prop :=
  has_type TransparencyLog (le_log t) /\
  (forall v1, GetV1Payload t = Some v1 -> entry_schema t = "V1" /\ has_type TransparencyLogV1 v1) /\
  (forall v0, GetV0Payload t = Some v0 -> entry_schema t <> "V1" /\ has_type TransparencyLogV0 v0) /\
  (get TransparencyLog "payload" (le_log t) = VNil -> ParsedPayload t = None) /\
  (IsV1 t = true <-> entry_schema t = "V1") /\
  (IsV1 t && IsV0 t = false).

Lemma parsePayloadBySchema_spec (payload : goval) (schema : string) :
  (forall v, parsePayloadBySchema payload schema = Some (ParsedV1 v) -> schema = "V1" /\ has_type TransparencyLogV1 v) /\
  (forall v, parsePayloadBySchema payload schema = Some (ParsedV0 v) -> schema <> "V1" /\ has_type TransparencyLogV0 v).
Proof.
  unfold parsePayloadBySchema.
  pose proof (Unmarshal_as_typed TransparencyLogV1 (Marshal_as (TMap TAny) payload) eq_refl) as T1.
  pose proof (Unmarshal_as_typed TransparencyLogV0 (Marshal_as (TMap TAny) payload) eq_refl) as T0.
  destruct (Unmarshal_as TransparencyLogV1 _ _) as [v1 []], (Unmarshal_as TransparencyLogV0 _ _) as [v0 []];
    cbn [fst] in *; destruct (String.eqb_spec schema "V1") as [->|Hs]; split; intros v E; try discriminate E;
    injection E as <-; auto.
Qed.

Lemma parse_entry_ok (result : goval) (schema : string) :
  has_type TransparencyLog result ->
  (schema = "V1" <-> get_string TransparencyLog "schemaVersion" result = "V1") ->
  entry_ok (parse_entry result schema).
Proof.
  intros Ht Hs. unfold entry_ok. set (e := parse_entry result schema).
  assert (Es : entry_schema e = get_string TransparencyLog "schemaVersion" result) by reflexivity.
  destruct (parsePayloadBySchema_spec (get TransparencyLog "payload" result) schema) as [P1 P0].
  assert (G1 : forall v, GetV1Payload e = Some v -> entry_schema e = "V1" /\ has_type TransparencyLogV1 v).
  { intros v E. unfold GetV1Payload, e, parse_entry in E. cbn [ParsedPayload] in E.
    destruct (is_nil _); [discriminate|]. destruct (parsePayloadBySchema _ schema) as [[w|w]|]; try discriminate.
    injection E as ->. rewrite Es, <- Hs. apply P1. reflexivity. }
  assert (G0 : forall v, GetV0Payload e = Some v -> entry_schema e <> "V1" /\ has_type TransparencyLogV0 v).
  { intros v E. unfold GetV0Payload, e, parse_entry in E. cbn [ParsedPayload] in E.
    destruct (is_nil _); [discriminate|]. destruct (parsePayloadBySchema _ schema) as [[w|w]|]; try discriminate.
    injection E as ->. rewrite Es, <- Hs. apply P0. reflexivity. }
  assert (I1 : IsV1 e = true <-> entry_schema e = "V1").
  { unfold IsV1. rewrite orb_true_iff, String.eqb_eq. split; [|auto]. intros [K|K]; [exact K|].
    destruct (GetV1Payload e) as [v|]; [apply (G1 v); reflexivity | discriminate]. }
  split; [exact Ht|]. split; [exact G1|]. split; [exact G0|]. split; [|split; [exact I1|]].
  - intros E. change (get TransparencyLog "payload" result = VNil) in E.
    unfold e, parse_entry. cbn [ParsedPayload]. rewrite E. reflexivity.
  - destruct (IsV1 e) eqn:E1; [|reflexivity]. clear E1. pose proof (proj1 I1 eq_refl) as E1. cbn [andb]. unfold IsV0. rewrite E1. cbn.
    destruct (GetV0Payload e) as [v|]; [|reflexivity]. destruct (G0 v eq_refl) as [E0 _]. contradiction.
Qed.

Lemma set_schema_typed (v : goval) (s : string) :
  has_type TransparencyLog v ->
  has_type TransparencyLog (set TransparencyLog "schemaVersion" (VString s) v) /\
  get_string TransparencyLog "schemaVersion" (set TransparencyLog "schemaVersion" (VString s) v) = s.
Proof.
  intros K. destruct v as [ | | | | | | | | |vs]; try contradiction K.
  destruct vs as [|v1 [|v2 [|v3 [|v4 [|v5 [|v6 vs]]]]]]; cbn [has_type TransparencyLog] in K; try tauto.
  split; [|reflexivity]. destruct K as (K1 & K2 & K3 & K4 & K5 & _).
  exact (conj K1 (conj K2 (conj I (conj K4 (conj K5 I))))).
Qed.

Section Entries.
Context `{UnicodeTables} {C : Type} `{ApiHttp C}.

(** The log client never mistakes one schema for another. Whatever the log sends,
    an entry it returns, alone or in an audit, is a value of its type; it has a V1
    payload only when its schema version, from the body or else from the
    [X-Schema-Version] header, is V1, and a V0 payload only when it is not; the payload
    is a value of that schema's type; without a payload nothing is parsed; and [IsV1]
    and [IsV0] are never both true. *)
Theorem log_entries_ok (c : clientConfig) (st : C) (agentID : string) (params : option AgentAuditParams) :
  (forall e st', GetAgentTransparencyLog c st agentID = (Ok e, st') -> entry_ok e) /\
  (forall es st', GetAgentTransparencyLogAudit c st agentID params = (Ok es, st') -> Forall entry_ok es).
Proof.
  split.
  - intros e st' E. unfold GetAgentTransparencyLog, checked in E.
    destruct (validateRequired _ _) as [[]|]; [|discriminate]. unfold doRequestWithSchemaVersion in E.
    destruct (exchange _ _ _ _ _) as [[[[status h] body]|err] st1]; [|discriminate]. cbn [rbind] in E.
    pose proof (Unmarshal_as_typed TransparencyLog (string_of_bytes body) eq_refl) as T.
    destruct (Unmarshal_as TransparencyLog _ _) as [v []]; [|discriminate]. injection E as <- _. cbn [fst] in T.
    set (s := if String.eqb _ "" then _ else _). destruct (set_schema_typed v s T) as [T' Eg].
    apply parse_entry_ok; [exact T'|]. rewrite Eg. reflexivity.
  - intros es st' E. unfold GetAgentTransparencyLogAudit, checked in E.
    destruct (validateRequired _ _) as [[]|]; [|discriminate]. set (path := match params with Some _ => _ | None => _ end) in E.
    assert (T : forall v st1, doGet c st path TransparencyLogAudit = (Ok v, st1) -> has_type TransparencyLogAudit v).
    { intros v st1 Ed. unfold doGet, DoRequest in Ed. destruct (exchange _ _ _ _ _) as [[answer|err] st2]; [|discriminate].
      cbn [rbind] in Ed. injection Ed as Ed _. unfold parseSuccessResponse in Ed.
      destruct (snd answer) as [|b body]; [injection Ed as <-; apply zero_typed|].
      pose proof (Unmarshal_as_typed TransparencyLogAudit (string_of_bytes (b :: body)) eq_refl) as T.
      destruct (Unmarshal_as _ _ _) as [w []]; [|discriminate]. injection Ed as <-. exact T. }
    destruct (doGet c st path TransparencyLogAudit) as [[v|err] st1]; [|discriminate].
    specialize (T v st1 eq_refl). cbn [rbind] in E. injection E as <- _.
    destruct v as [ | | | | | | | | |[|r [|x vs]]]; try contradiction T; [|destruct T as [_ []]].
    destruct T as [T _]. change (get TransparencyLogAudit "records" (VStruct [r])) with r.
    destruct r as [ | | | | | |records| | |]; try (constructor). apply List.Forall_forall. intros e He.
    apply in_map_iff in He as (record & <- & Hr). cbn [has_type] in T. rewrite fold_and_In in T.
    apply parse_entry_ok; [apply T, Hr|]. destruct (String.eqb_spec (get_string TransparencyLog "schemaVersion" record) "") as [E|E].
    + rewrite E. split; discriminate.
    + reflexivity.
Qed.
End Entries.

(** ** A client at work *)

#[local] Existing Instance plain_tables.

(** A server that gives the same answer to every request, and keeps the requests. *)
Definition recorder : Type := api_answer * list api_request.
#[local] Instance one_api : ApiHttp recorder := {| api_Do st q := (fst st, (fst st, q :: snd st)) |}.

Definition answering (status : Z) (text : string) : recorder := (AResponded status ∅ (bytes_of_string (with_quotes text)) None, []).

Definition example_client : clientConfig :=
  match NewClient [WithBaseURL "https://ra.example"; WithAPIKey "k" "s"; WithTimeout (30 * second)] with
  | Ok c => c
  | Err _ => defaultConfig
  end.

(** An ID with a slash and a query mark stays in its segment; a status that is a
    string is taken too. *)
Example verify_acme :
  let '(r, st) := VerifyACME example_client (answering 200 "'PENDING_DNS'") "a/../b?x" in
  (match r with Ok v => get_string AgentStatus "status" v | Err _ => "" end, map aq_URL (snd st)) =
  ("PENDING_DNS", ["https://ra.example/v1/agents/a%2F..%2Fb%3Fx/verify-acme"]).
Proof. vm_compute. reflexivity. Qed.

Example not_found :
  match fst (GetAgentDetails example_client (answering 404 "{'status':'error','code':'AGENT_NOT_FOUND','message':'no such agent'}") "a") with
  | Err (AResponse e) => (re_Code e, ResponseError_Error e)
  | _ => ("", "")
  end = ("AGENT_NOT_FOUND", "Not Found: no such agent").
Proof. vm_compute. reflexivity. Qed.

Example search_url :
  map aq_URL (snd (snd (SearchAgents example_client (answering 200 "") "a b&c" "" "1.0" 10 0))) =
  ["https://ra.example/v1/agents?agentDisplayName=a+b%26c&limit=10&version=1.0"].
Proof. vm_compute. reflexivity. Qed.

(** A V1 entry, its schema in the header, and the credentials sent to the log. *)
Example v1_entry :
  let st : recorder := (AResponded 200 (Header_Set ∅ "x-schema-version" "V1")
    (bytes_of_string (with_quotes "{'payload':{'logId':'l-1','producer':{'keyId':'k-1','event':{'agent':{'host':'h.example'}}}}}")) None, []) in
  let '(r, (_, sent)) := GetAgentTransparencyLog example_client st "a" in
  match r with
  | Ok e => (IsV1 e, IsV0 e, option_map (get_string TransparencyLogV1 "logId") (GetV1Payload e), map aq_Header sent)
  | Err _ => (false, false, None, [])
  end = (true, false, Some "l-1",
         [[("Authorization", "sso-key k:s"); ("Content-Type", "application/json"); ("Accept", "application/json")]]).
Proof. vm_compute. reflexivity. Qed.

Lemma DoRequest_outcome_witness :
  type_wf AgentDetails = true /\
  let '(r, st') := DoRequest (MkClientConfig "https://ra.example" "") (answering 500 "down") "GET" "/v1/agents/a" None AgentDetails in
  exists e, r = Err (AResponse e) /\ re_StatusCode e = 500 /\ re_Message e = "down".
Proof.
  assert (W : type_wf AgentDetails = true) by reflexivity. split; [exact W|].
  pose proof (DoRequest_outcome (MkClientConfig "https://ra.example" "") (answering 500 "down") "GET" "/v1/agents/a" None AgentDetails W) as K.
  assert (Eu : is_some (url_Parse "https://ra.example/v1/agents/a") = true) by (vm_compute; reflexivity).
  change (BaseURL _ ++ _) with "https://ra.example/v1/agents/a" in K.
  destruct (DoRequest _ _ _ _ _ _) as [r st']. destruct (url_Parse _) as [u|]; [|discriminate Eu].
  destruct K as [_ K]. destruct K as (e & E1 & E2 & E3). exists e. repeat split; [exact E1 | exact E2|].
  apply E3. vm_compute. reflexivity.
Defined.

(** A refused call sends nothing, and an audit carries no credentials. *)
Example csr_refused :
  fst (failure (fun st => SubmitServerCSR example_client st "a" "") (answering 200 "")) =
  Some (AErr (EWrap "%w: csrPEM cannot be empty" ErrBadRequest)).
Proof. reflexivity. Qed.

Example audit_sent :
  map (fun q => (aq_URL q, aq_Header q))
    (snd (snd (GetAgentTransparencyLogAudit example_client (answering 200 "{}") "a/b" (Some (MkAuditParams 0 20))))) =
  [("https://ra.example/v1/agents/a%2Fb/audit?limit=20", [("Content-Type", "application/json"); ("Accept", "application/json")])].
Proof. vm_compute. reflexivity. Qed.

(** [url.PathEscape] leaves dots alone, so an ID of two dots makes a path that a
    server may resolve to one outside the agents. *)
Example dot_segment :
  map aq_URL (snd (snd (RevokeAgent example_client (answering 200 "") ".." "" ""))) = ["https://ra.example/v1/agents/../revoke"].
Proof. vm_compute. reflexivity. Qed.

Definition example_calls (csrPEM : string) : list (agent_call recorder) :=
  agent_calls example_client "a/b" csrPEM "c-1" "" "" (Some (MkAuditParams 0 20)).

Lemma agent_calls_confined_witness :
  (exists call, In call (example_calls "") /\ forall st,
     ac_run call st = (Some (AErr (EWrap "%w: csrPEM cannot be empty" ErrBadRequest)), st)) /\
  (exists call url, In call (example_calls "csr") /\ ac_path call = ["v1"; "agents"; "a/b"; "audit"] /\
     sends (ac_run call) (MkApiRequest "GET" url [("Content-Type", "application/json"); ("Accept", "application/json")] "")).
Proof.
  split.
  - eexists. assert (Hin : In _ (example_calls "")) by (do 6 right; left; reflexivity). split; [exact Hin|].
    exact (proj2 (proj2 (agent_calls_confined example_client "a/b" "" "c-1" "" "" (Some (MkAuditParams 0 20)) _ Hin))).
  - eexists. assert (Hin : In _ (example_calls "csr")) by (do 11 right; left; reflexivity).
    destruct (proj2 (proj2 (agent_calls_confined example_client "a/b" "csr" "c-1" "" "" (Some (MkAuditParams 0 20)) _ Hin))) as (segs & url & _ & _ & Hs).
    exists url. split; [exact Hin|]. split; [reflexivity | exact Hs].
Defined.
