(* ===== verification/RegistryAgent.v ===== *)
(** The registry's HTTP client for agents ([internal/registry/agent_client.go]): the
    badge is prefetched, the request sent, and the server's certificate verified
    before the response is handed out. *)

From S2P Require Import Prelude GoStrings Encoding GoTime Errors Json GoJson Models Url Cert BadgeCache Outcome Verifier VerifierLemmas VerifierProps Dane Crl AtiServer AtiClient Registry.

#[local] Open Scope list_scope.
#[local] Open Scope string_scope.
#[local] Open Scope Z_scope.

(** ** Configuration *)

(** [ra_tlsConfig] is nil, or a TLS configuration, of which nothing is used here. *)
Record agentClientConfig := MkAgentConfig {
  ra_timeout : Z; ra_verifyServer : bool; ra_tlsConfig : option unit; ra_failurePolicy : FailurePolicy;
  ra_verifierOptions : list (verifierConfig -> verifierConfig)
}.

Definition AgentClientOption : Type := agentClientConfig -> agentClientConfig.

Definition defaultAgentClientTimeout : Z := 30 * second.
Definition defaultAgentClientConfig : agentClientConfig :=
  MkAgentConfig defaultAgentClientTimeout true None FailClosed [].

Definition WithAgentClientTimeout (d : Z) : AgentClientOption := fun c =>
  MkAgentConfig d (ra_verifyServer c) (ra_tlsConfig c) (ra_failurePolicy c) (ra_verifierOptions c).
Definition WithAgentClientTLS (cfg : option unit) : AgentClientOption := fun c =>
  MkAgentConfig (ra_timeout c) (ra_verifyServer c) cfg (ra_failurePolicy c) (ra_verifierOptions c).
Definition WithAgentClientVerifyServer (verify : bool) : AgentClientOption := fun c =>
  MkAgentConfig (ra_timeout c) verify (ra_tlsConfig c) (ra_failurePolicy c) (ra_verifierOptions c).
Definition WithAgentClientFailurePolicy (p : FailurePolicy) : AgentClientOption := fun c =>
  MkAgentConfig (ra_timeout c) (ra_verifyServer c) (ra_tlsConfig c) p (ra_verifierOptions c).
Definition WithAgentClientVerifierOptions (opts : list (verifierConfig -> verifierConfig)) : AgentClientOption := fun c =>
  MkAgentConfig (ra_timeout c) (ra_verifyServer c) (ra_tlsConfig c) (ra_failurePolicy c) opts.

(** [verify.NewAnsVerifier] *)
Definition NewAnsVerifier (opts : list (verifierConfig -> verifierConfig)) : verifierConfig :=
  fold_left (fun c opt => opt c) opts Verifier.defaultConfig.

(** The configuration of the client and of its verifier; the HTTP client and the
    verifier's services and cache are the state of the requests. *)
Definition NewAgentClient (opts : list AgentClientOption) : agentClientConfig * verifierConfig :=
  let cfg := fold_left (fun c opt => opt c) opts defaultAgentClientConfig in
  (cfg, NewAnsVerifier (ra_verifierOptions cfg)).

Section Agent.
Context `{UnicodeTables} {R T D C : Type} `{DNSResolver R} `{TransparencyLogClient T} `{DANEResolver D} `{HTTPClient C}.
Context (config : agentClientConfig) (vconfig : verifierConfig).

Record agent_state := MkAgentState { ag_http : C; ag_verifier : env R T D }.

(** ** Requests *)

Definition prefetchBadge (ck : clock) (host : string) (c : agent_state) : result goerror unit * agent_state :=
  if negb (ra_verifyServer config) then (Ok tt, c)
  else
    let '((_, err), e) := Prefetch vconfig ck host (ag_verifier c) in
    let c := MkAgentState (ag_http c) e in
    match err, ra_failurePolicy config with
    | Some err, FailClosed => (Err (EWrap "badge verification failed for %s: %w" err), c)
    | _, _ => (Ok tt, c)
    end.

Definition executeRequest (method urlStr : string) (body : option (result goerror (list byte))) (c : agent_state)
  : result goerror http_response * agent_state :=
  match new_request method urlStr body with
  | Err err => (Err err, c)
  | Ok req =>
      let '(r, h) := http_Do (ag_http c) req in
      (match r with Ok resp => Ok resp | Err err => Err (EWrap "request failed: %w" err) end,
       MkAgentState h (ag_verifier c))
  end.

(** No outcome: verification is off, or was given up. *)
Definition verifyTLSCert (ck : clock) (host : string) (resp : http_response) (c : agent_state)
  : result goerror (option VerificationOutcome) * agent_state :=
  if negb (ra_verifyServer config) then (Ok None, c)
  else
    match peer_certificates resp with
    | [] =>
        (match ra_failurePolicy config with
         | FailClosed | FailOpenWithCache => Err (EPlain "certificate verification failed for %s: no TLS peer certificates")
         | FailOpen => Ok None
         end, c)
    | leaf :: _ =>
        let '(outcome, e) := VerifyServer vconfig ck host (CertIdentityFromX509 leaf) (ag_verifier c) in
        (if IsSuccess outcome then Ok (Some outcome)
         else match ra_failurePolicy config with
              | FailClosed | FailOpenWithCache =>
                  match ToError outcome with
                  | Some verifyErr => Err (EWrap "certificate verification failed for %s: %w" verifyErr)
                  | None => Err (EPlain "certificate verification failed for %s")
                  end
              | FailOpen => Ok (Some outcome)
              end, MkAgentState (ag_http c) e)
    end.

Definition Response : Type := http_response * option VerificationOutcome.

(** The clock is read for the prefetch and for the verification. *)
Definition Do (ck ck' : clock) (method urlStr : string) (body : option (result goerror (list byte))) (c : agent_state)
  : result goerror Response * agent_state :=
  match url_Parse urlStr with
  | None => (Err (EWrap "invalid URL: %w" (EPlain "url.Error")), c)
  | Some parsedURL =>
      let host := Hostname parsedURL in
      if String.eqb host "" then (Err (EPlain "invalid URL: missing hostname: %s"), c)
      else if ra_verifyServer config && negb (String.eqb (Scheme parsedURL) "https")
      then (Err (EPlain "server verification requires HTTPS, got scheme %q for %s"), c)
      else
        match prefetchBadge ck host c with
        | (Err err, c) => (Err err, c)
        | (Ok _, c) =>
            match executeRequest method urlStr body c with
            | (Err err, c) => (Err err, c)
            | (Ok resp, c) =>
                let '(r, c) := verifyTLSCert ck' host resp c in
                (let? outcome := r in Ok (resp, outcome), c)
            end
        end
  end.

Definition Get (ck ck' : clock) (urlStr : string) := Do ck ck' "GET" urlStr None.
Definition Post (ck ck' : clock) (urlStr : string) (body : option (result goerror (list byte))) := Do ck ck' "POST" urlStr body.
Definition Put (ck ck' : clock) (urlStr : string) (body : option (result goerror (list byte))) := Do ck ck' "PUT" urlStr body.
Definition Delete (ck ck' : clock) (urlStr : string) := Do ck ck' "DELETE" urlStr None.

(** [json.NewDecoder(body).Decode(result)] into a variable of type [t]. *)
Definition Decode_as (t : gotype) (text : string) (old : goval) : goval * bool :=
  match Decode text with
  | Ok j => decode t j old
  | Err _ => (old, false)
  end.

Definition decoded (t : gotype) (r : result goerror Response * agent_state) : result goerror (Response * goval) * agent_state :=
  (let? resp := fst r in
   match Decode_as t (string_of_bytes (rs_Body (fst resp))) (zero t) with
   | (v, true) => Ok (resp, v)
   | (_, false) => Err (EWrap "failed to decode response: %w" ESyntax)
   end, snd r).

Definition GetJSON (ck ck' : clock) (urlStr : string) (t : gotype) (c : agent_state) := decoded t (Get ck ck' urlStr c).
Definition PostJSON (ck ck' : clock) (urlStr : string) (body : option (result goerror (list byte))) (t : gotype) (c : agent_state) :=
  decoded t (Post ck ck' urlStr body c).
Definition PutJSON (ck ck' : clock) (urlStr : string) (body : option (result goerror (list byte))) (t : gotype) (c : agent_state) :=
  decoded t (Put ck ck' urlStr body c).

Definition AgentClient_Prefetch (ck : clock) (host : string) (c : agent_state) : result goerror unit * agent_state :=
  if String.eqb host "" then (Err (EWrap "%w: host cannot be empty" ErrBadRequest), c)
  else
    let '((_, err), e) := Prefetch vconfig ck host (ag_verifier c) in
    (match err with Some err => Err err | None => Ok tt end, MkAgentState (ag_http c) e).

(** ** What an accepted response rests on *)

(** The states of a client: its verifier's are those it can reach, whatever the
    HTTP client and the services do. *)
Definition agent_reachable (c : agent_state) : Prop := env_reachable vconfig (ag_verifier c).

Lemma prefetchBadge_reachable (ck : clock) (host : string) (c : agent_state) :
  agent_reachable c -> agent_reachable (snd (prefetchBadge ck host c)).
Proof.
  intros K. unfold prefetchBadge. destruct (negb _); [exact K|]. unfold Prefetch.
  destruct (NewFqdn host) as [fqdn|err].
  - pose proof (env_prefetch vconfig ck fqdn _ K) as K'. unfold agent_reachable.
    destruct (Server_Prefetch vconfig ck fqdn (ag_verifier c)) as [[r err] e].
    destruct err; [destruct (ra_failurePolicy config)|]; exact K'.
  - destruct (ra_failurePolicy config); exact K.
Qed.

Lemma executeRequest_verifier (method urlStr : string) (body : option (result goerror (list byte))) (c : agent_state) :
  ag_verifier (snd (executeRequest method urlStr body c)) = ag_verifier c.
Proof.
  unfold executeRequest. destruct (new_request _ _ _); [|reflexivity]. destruct (http_Do _ _). reflexivity.
Qed.

(** The response of the certificate check. *)
Lemma verifyTLSCert_accepts (ck : clock) (host : string) (resp : http_response) (c : agent_state)
    (o : option VerificationOutcome) :
  ra_verifyServer config = true -> ra_failurePolicy config <> FailOpen ->
  fst (verifyTLSCert ck host resp c) = Ok o ->
  exists leaf rest outcome, peer_certificates resp = leaf :: rest /\ o = Some outcome /\
    outcome = fst (VerifyServer vconfig ck host (CertIdentityFromX509 leaf) (ag_verifier c)) /\ IsSuccess outcome = true.
Proof.
  intros Hv Hp. unfold verifyTLSCert. rewrite Hv. cbn [negb].
  destruct (peer_certificates resp) as [|leaf rest].
  { destruct (ra_failurePolicy config); try discriminate. congruence. }
  destruct (VerifyServer vconfig ck host _ _) as [outcome e] eqn:E. cbn [fst].
  destruct (IsSuccess outcome) eqn:Es.
  - intros [= <-]. exists leaf, rest, outcome. rewrite E. auto.
  - destruct (ra_failurePolicy config); [destruct (ToError outcome); discriminate..|congruence].
Qed.

(** C20: The agent client hands out a response only from a verified server. With
    server verification on and a policy other than fail-open, a response comes with a
    successful outcome, over https, from a server that showed a certificate; and when
    the verifier itself fails closed, as it does unless it is configured otherwise,
    that certificate is listed as server certificate in a log record fetched from the
    URL of a badge that the resolver gave for exactly the host of the request, with a
    status that allows connections and names that match; this also holds under
    fail-open-with-cache, which never accepts a stale record then. *)
Theorem RegistryAgent_Do_sound (ck ck' : clock) (method urlStr : string) (body : option (result goerror (list byte)))
    (c : agent_state) (resp : http_response) (outcome : option VerificationOutcome) :
  ra_verifyServer config = true -> ra_failurePolicy config <> FailOpen -> agent_reachable c ->
  fst (Do ck ck' method urlStr body c) = Ok (resp, outcome) ->
  exists u leaf rest o, url_Parse urlStr = Some u /\ Scheme u = "https" /\ Hostname u <> "" /\
    peer_certificates resp = leaf :: rest /\ outcome = Some o /\ IsSuccess o = true /\
    (cf_failurePolicy vconfig = FailClosed ->
     exists fqdn r, NewFqdn (Hostname u) = Ok fqdn /\ oc_TLResponse o = Some r /\
       MatchedFingerprint o = Some (CertFingerprintFromDER (Raw leaf)) /\
       origin (R := R) (T := T) vconfig fqdn r /\ server_binding r (CertIdentityFromX509 leaf) fqdn).
Proof.
  intros Hv Hp Hc. unfold Do. destruct (url_Parse urlStr) as [u|]; [|discriminate].
  destruct (String.eqb_spec (Hostname u) "") as [Eh|Eh]; [discriminate|].
  rewrite Hv. cbn [andb]. destruct (String.eqb_spec (Scheme u) "https") as [Es|Es]; [|discriminate]. cbn [negb].
  pose proof (prefetchBadge_reachable ck (Hostname u) c Hc) as K1.
  destruct (prefetchBadge ck (Hostname u) c) as [[?|err] c1]; [|discriminate]. cbn [snd] in K1.
  pose proof (executeRequest_verifier method urlStr body c1) as K2.
  destruct (executeRequest method urlStr body c1) as [[rs|err] c2]; [|discriminate]. cbn [snd] in K2.
  destruct (verifyTLSCert ck' (Hostname u) rs c2) as [r c3] eqn:E. cbn [fst].
  intros Er. apply rbind_Ok in Er as (o & -> & [= -> ->]).
  pose proof (f_equal fst E) as E'. cbn [fst] in E'.
  apply verifyTLSCert_accepts in E' as (leaf & rest & o' & Hl & -> & Ho & Hs); [|exact Hv|exact Hp].
  exists u, leaf, rest, o'. repeat (split; [assumption || reflexivity|]). intros Hf.
  unfold VerifyServer, with_fqdn in Ho. destruct (NewFqdn (Hostname u)) as [fqdn|err] eqn:En.
  - assert (Hver : oc_Type o' = OutcomeVerified) by (rewrite Ho; apply Server_Verify_success; [exact Hf | rewrite <- Ho; exact Hs]).
    unfold agent_reachable in K1. rewrite <- K2 in K1. rewrite Ho in Hver.
    apply Server_Verify_verified in Hver as (Hm & _ & r & Hr & Hor & Hb); [|apply env_reachable_ok, K1].
    rewrite <- Ho in Hm, Hr. exists fqdn, r. rewrite Hm. repeat (split; [assumption || reflexivity|]). exact Hb.
  - cbn [fst] in Ho. subst o'. discriminate Hs.
Qed.

(** What fail-open gives up. Under the client's fail-open policy nothing that
    verification finds fails a request: once the URL is accepted, the result is that
    of sending the request, with the outcome, good or bad, beside it (none for a server
    without a certificate); the same holds, without an outcome, when verification is
    switched off. *)
Theorem RegistryAgent_Do_open (ck ck' : clock) (method urlStr : string) (body : option (result goerror (list byte)))
    (c : agent_state) (u : URL) :
  url_Parse urlStr = Some u -> Hostname u <> "" ->
  (ra_verifyServer config = true /\ ra_failurePolicy config = FailOpen /\ Scheme u = "https" \/
   ra_verifyServer config = false) ->
  exists o : http_response -> option VerificationOutcome,
    fst (Do ck ck' method urlStr body c) =
      (let? resp := fst (executeRequest method urlStr body c) in Ok (resp, o resp)) /\
    (ra_verifyServer config = false -> forall resp, o resp = None) /\
    (forall resp, peer_certificates resp = [] -> o resp = None).
Proof.
  intros Hu Hh Hopen. unfold Do. rewrite Hu, (proj2 (String.eqb_neq _ _) Hh).
  destruct Hopen as [(Hv & Hp & Hs)|Hv].
  - rewrite Hv, Hs. cbn [andb]. rewrite String.eqb_refl. cbn [negb].
    unfold prefetchBadge. rewrite Hv. cbn [negb].
    destruct (Prefetch vconfig ck (Hostname u) (ag_verifier c)) as [[r err] e]. rewrite Hp.
    exists (fun resp => match peer_certificates resp with
                       | [] => None
                       | leaf :: _ => Some (fst (VerifyServer vconfig ck' (Hostname u) (CertIdentityFromX509 leaf) e))
                       end).
    split; [|split; [congruence | intros resp ->; reflexivity]].
    assert (G : forall c1, c1 = MkAgentState (ag_http c) e ->
      fst match executeRequest method urlStr body c1 with
          | (Err err, c) => (Err err, c)
          | (Ok resp, c) => let '(r, c) := verifyTLSCert ck' (Hostname u) resp c in (let? outcome := r in Ok (resp, outcome), c)
          end = let? resp := fst (executeRequest method urlStr body c) in
                Ok (resp, match peer_certificates resp with
                          | [] => None
                          | leaf :: _ => Some (fst (VerifyServer vconfig ck' (Hostname u) (CertIdentityFromX509 leaf) e))
                          end)).
    { intros c1 ->. unfold executeRequest. cbn [ag_http ag_verifier]. destruct (new_request _ _ _) as [req|err1]; [|reflexivity].
      destruct (http_Do (ag_http c) req) as [[resp|err1] h]; [|reflexivity]. cbn [rbind fst].
      unfold verifyTLSCert. rewrite Hv, Hp. cbn [negb]. destruct (peer_certificates resp) as [|leaf rest]; [reflexivity|].
      cbn [ag_verifier]. destruct (VerifyServer _ _ _ _ e) as [o e']. cbn [fst]. destruct (IsSuccess o); reflexivity. }
    destruct err; apply G; reflexivity.
  - rewrite Hv. cbn [andb]. unfold prefetchBadge. rewrite Hv. cbn [negb].
    exists (fun _ => None). split; [|split; reflexivity].
    destruct (executeRequest method urlStr body c) as [[resp|err] c1]; [|reflexivity].
    unfold verifyTLSCert. rewrite Hv. reflexivity.
Qed.
End Agent.

Arguments MkAgentState {R T D C}.
Arguments agent_state : clear implicits.

(** ** A client at work *)

#[local] Existing Instance plain_tables.
#[local] Existing Instance one_DNS.
#[local] Existing Instance one_TLog.
#[local] Existing Instance one_DANE.
#[local] Existing Instance one_HTTP.

Definition agent_with (opts : list AgentClientOption) (resp : http_response) (urlStr : string)
  : result goerror Response :=
  let '(cfg, vcfg) := NewAgentClient (WithAgentClientVerifierOptions [WithTrustedTLHost DefaultTrustedTLHost] :: opts) in
  fst (Get cfg vcfg (sample_clock 0) (sample_clock 1) urlStr
         (MkAgentState (R := unit) (T := string) (D := TLSALookupResult) resp
            (MkEnv tt "ACTIVE" None (Some (NewBadgeCache DefaultCacheConfig))))).

(** The listed certificate is accepted, another one is not, and fail-open takes it
    with its failed outcome. *)
Example registry_policies :
  let got opts raw := match agent_with opts (from_agent raw) "https://a.example/x" with
                      | Ok (_, Some o) => Some (IsSuccess o)
                      | _ => None
                      end in
  (got [] [x02], got [] [x03], got [WithAgentClientFailurePolicy FailOpen] [x03],
   is_ok (agent_with [] (from_agent [x02]) "http://a.example/x"),
   is_ok (agent_with [WithAgentClientFailurePolicy FailOpen] plaintext "https://a.example/x")) =
  (Some true, None, Some false, false, true).
Proof. vm_compute. reflexivity. Qed.

Lemma RegistryAgent_Do_sound_witness :
  exists o, agent_with [] (from_agent [x02]) "https://a.example/x" = Ok (from_agent [x02], Some o) /\
    exists fqdn r, NewFqdn "a.example" = Ok fqdn /\ oc_TLResponse o = Some r /\
      server_binding r (CertIdentityFromX509 (deref (agent_leaf [x02] []))) fqdn.
Proof.
  unfold agent_with. destruct (NewAgentClient _) as [cfg vcfg] eqn:Ec.
  set (c := MkAgentState _ _).
  assert (Hr : match fst (Get cfg vcfg (sample_clock 0) (sample_clock 1) "https://a.example/x" c) with
               | Ok (resp, Some o) => resp = from_agent [x02] | _ => False end)
    by (injection Ec as <- <-; vm_compute; reflexivity).
  destruct (fst (Get _ _ _ _ _ c)) as [[resp [o|]]|err] eqn:Eg; try contradiction Hr. subst resp.
  exists o. split; [reflexivity|].
  destruct (RegistryAgent_Do_sound cfg vcfg (sample_clock 0) (sample_clock 1) "GET" "https://a.example/x" None c
              (from_agent [x02]) (Some o)) as (u & leaf & rest & o' & Hu & _ & _ & Hl & Ho & _ & Hb).
  - injection Ec as <- <-. reflexivity.
  - injection Ec as <- <-. discriminate.
  - exact (env_new vcfg tt "ACTIVE" None (Some DefaultCacheConfig)).
  - exact Eg.
  - injection Ho as <-. injection Hl as <- _.
    assert (Hh : Hostname u = "a.example") by (clear -Hu; vm_compute in Hu; injection Hu as <-; reflexivity).
    destruct Hb as (fqdn & r & Hn & Ht & _ & _ & Hb); [injection Ec as <- <-; reflexivity|].
    rewrite Hh in Hn. exists fqdn, r. auto.
Defined.

Lemma RegistryAgent_Do_open_witness :
  let '(cfg, vcfg) := NewAgentClient [WithAgentClientVerifyServer false] in
  exists o : http_response -> option VerificationOutcome,
    o plaintext = None /\
    fst (Get cfg vcfg (sample_clock 0) (sample_clock 1) "http://a.example/x"
      (MkAgentState (R := unit) (T := string) (D := TLSALookupResult) plaintext (MkEnv tt "ACTIVE" None None))) =
    Ok (plaintext, o plaintext).
Proof.
  assert (Hu : exists u, url_Parse "http://a.example/x" = Some u /\ Hostname u <> "").
  { destruct (url_Parse "http://a.example/x") as [u|] eqn:E; [|discriminate E]. exists u. split; [reflexivity|].
    vm_compute in E. injection E as <-. discriminate. }
  destruct Hu as (u & Hu & Hh).
  destruct (RegistryAgent_Do_open (fst (NewAgentClient [WithAgentClientVerifyServer false]))
              (snd (NewAgentClient [WithAgentClientVerifyServer false])) (sample_clock 0) (sample_clock 1) "GET"
              "http://a.example/x" None
              (MkAgentState (R := unit) (T := string) (D := TLSALookupResult) plaintext (MkEnv tt "ACTIVE" None None))
              u Hu Hh (or_intror eq_refl)) as (o & E & Hn & _).
  exists o. split; [apply Hn; reflexivity|]. exact E.
Defined.
