(* ===== verification/Discovery.v ===== *)
(** Discovery: the parallel lookups of stage 1 ([verify/parallel.go]) as a transition
    system, HTTPS records ([verify/svcb.go]), the marketplace search, trust cards and
    the global configuration ([ati/discovery.go], [ati/trust_card.go], [ati/config.go]). *)

From S2P Require Import Prelude GoStrings Encoding Errors Json TlogJson GoJson ApiTypes Models Url Http Records Resolver Dnssec Dane Verifier AtiServer Registry.

#[local] Open Scope list_scope.
#[local] Open Scope string_scope.
#[local] Open Scope Z_scope.

(** ** HTTPS records *)

Record SVCBResult := MkSVCB {
  sv_Found : bool; sv_ALPN : list string; sv_Port : Z; sv_ECHConfig : list byte; sv_Target : string
}.

(** The parsed records of an answer: an HTTPS record with its parameters, or a
    record of another type. *)
Inductive svcb_value := SVCBAlpn (l : list string) | SVCBPort (p : Z) | SVCBECHConfig (b : list byte) | SVCBOther.
Inductive https_rr := RR_HTTPS (Target : string) (Value : list svcb_value) | RR_Other.

Definition set_svcb (result : SVCBResult) (v : svcb_value) : SVCBResult :=
  match v with
  | SVCBAlpn l => MkSVCB (sv_Found result) l (sv_Port result) (sv_ECHConfig result) (sv_Target result)
  | SVCBPort p => MkSVCB (sv_Found result) (sv_ALPN result) p (sv_ECHConfig result) (sv_Target result)
  | SVCBECHConfig b => MkSVCB (sv_Found result) (sv_ALPN result) (sv_Port result) b (sv_Target result)
  | SVCBOther => result
  end.

Definition add_rr (result : SVCBResult) (rr : https_rr) : SVCBResult :=
  match rr with
  | RR_Other => result
  | RR_HTTPS Target Value =>
      let result :=
        if negb (String.eqb Target "") && negb (String.eqb Target ".")
        then MkSVCB (sv_Found result) (sv_ALPN result) (sv_Port result) (sv_ECHConfig result) Target else result in
      fold_left set_svcb Value result
  end.

(** [exchange] is the DNS query of a server for the HTTPS records of [dns.Fqdn] of a
    name: a failure, or a response code and the answer. The error is always nil. *)
Definition LookupHTTPSSVCB (exchange : string -> string -> option (Z * list https_rr)) (server : string) (fqdn : Fqdn)
  : SVCBResult :=
  let server := if String.eqb server "" then "8.8.8.8:53" else server in
  match exchange server (fqdn_value fqdn) with
  | None => MkSVCB false [] 0 [] ""
  | Some (Rcode, Answer) =>
      if negb (Rcode =? 0) || (length Answer =? 0)%nat then MkSVCB false [] 0 [] ""
      else fold_left add_rr Answer (MkSVCB true [] 0 [] "")
  end.

Example svcb_ex :
  LookupHTTPSSVCB (fun _ _ => Some (0, [RR_Other; RR_HTTPS "." [SVCBPort 8443; SVCBAlpn ["h2"]]; RR_HTTPS "b." [SVCBPort 443]]))
    "" (MkFqdn "a.example") = MkSVCB true ["h2"] 443 [] "b.".
Proof. reflexivity. Qed.

(** ** Parallel discovery *)

(** [HTTPSParams] is never set. *)
Record DiscoveryResult := MkDiscoveryResult {
  dr_AgentCardURL : string; dr_TLQueryURL : string; dr_IdentityTLSA : list TLSARecord; dr_ServerTLSA : list TLSARecord;
  dr_HTTPSParams : option SVCBResult; dr_SelectedVersion : option Version; dr_DNSSECStatus : string; dr_AgentID : string
}.
Definition empty_discovery : DiscoveryResult := MkDiscoveryResult "" "" [] [] None None "" "".

(** What each goroutine does under the lock with its answer. *)
Definition ati_update (disc : result goerror ATIDiscoveryResult) (s : DiscoveryResult * option goerror)
  : DiscoveryResult * option goerror :=
  let '(r, firstErr) := s in
  match disc with
  | Err err => (r, match firstErr with None => Some err | Some _ => firstErr end)
  | Ok disc =>
      match ad_Found disc, ad_Records disc with
      | true, rec :: _ =>
          (MkDiscoveryResult (if negb (String.eqb (rec_URL rec) "") then rec_URL rec else dr_AgentCardURL r)
             (dr_TLQueryURL r) (dr_IdentityTLSA r) (dr_ServerTLSA r) (dr_HTTPSParams r) (dr_SelectedVersion r)
             (dr_DNSSECStatus r) (rec_ID rec), firstErr)
      | _, _ => s
      end
  end.

Definition badge_update (badge : result goerror (option ATIBadgeRecord)) (s : DiscoveryResult * option goerror)
  : DiscoveryResult * option goerror :=
  let '(r, firstErr) := s in
  match badge with
  | Ok (Some badge) =>
      (MkDiscoveryResult (dr_AgentCardURL r) (br_URL badge) (dr_IdentityTLSA r) (dr_ServerTLSA r) (dr_HTTPSParams r)
         (br_Version badge) (dr_DNSSECStatus r) (dr_AgentID r), firstErr)
  | _ => s
  end.

Definition tlsa_update (tlsa : result goerror TLSALookupResult) (s : DiscoveryResult * option goerror)
  : DiscoveryResult * option goerror :=
  let '(r, firstErr) := s in
  match tlsa with
  | Ok tlsaResult =>
      if tl_Found tlsaResult then
        (MkDiscoveryResult (dr_AgentCardURL r) (dr_TLQueryURL r) (tl_Records tlsaResult) (dr_ServerTLSA r) (dr_HTTPSParams r)
           (dr_SelectedVersion r) (if DNSSECValid tlsaResult then "fully_validated" else "insecure") (dr_AgentID r), firstErr)
      else s
  | Err _ => s
  end.

(** What is returned once the goroutines are done. *)
Definition discovery_outcome (fqdn : Fqdn) (s : DiscoveryResult * option goerror) : result goerror DiscoveryResult :=
  let '(r, firstErr) := s in
  if String.eqb (dr_AgentID r) "" then
    Err (match firstErr with
         | Some err => err
         | None => NewANSError CodeDNSCoreRecordMissing SeverityHard StageDNSDiscovery
                     ("no _ati record found for " ++ fqdn_value fqdn)
         end)
  else Ok r.

(** A goroutine: before its lookup, with the answer and waiting for the lock, done. *)
Inductive pc (A : Type) := Ready | Answered (a : A) | Finished.
Arguments Ready {A}.
Arguments Answered {A} a.
Arguments Finished {A}.

Section Parallel.
Context {R D : Type} `{DNSResolver R} `{DANEResolver D}.

(** The resolvers are shared; each step of a goroutine is its lookup, or its update
    under the lock. Without a DANE resolver the third goroutine is not started. *)
Record pstate := MkPState {
  ps_dns : R; ps_dane : option D;
  ps_ati : pc (result goerror ATIDiscoveryResult); ps_badge : pc (result goerror (option ATIBadgeRecord));
  ps_tlsa : pc (result goerror TLSALookupResult);
  ps_result : DiscoveryResult * option goerror
}.

Definition pstart (dns : R) (dane : option D) : pstate :=
  MkPState dns dane Ready Ready (match dane with Some _ => Ready | None => Finished end) (empty_discovery, None).

Inductive pstep (fqdn : Fqdn) : pstate -> pstate -> Prop :=
| step_ati_lookup r d b t s : pstep fqdn (MkPState r d Ready b t s)
    (let '(disc, r') := dns_LookupATIDiscovery r fqdn in MkPState r' d (Answered disc) b t s)
| step_ati_update r d disc b t s : pstep fqdn (MkPState r d (Answered disc) b t s)
    (MkPState r d Finished b t (ati_update disc s))
| step_badge_lookup r d a t s : pstep fqdn (MkPState r d a Ready t s)
    (let '(badge, r') := dns_FindPreferredBadge r fqdn in MkPState r' d a (Answered badge) t s)
| step_badge_update r d a badge t s : pstep fqdn (MkPState r d a (Answered badge) t s)
    (MkPState r d a Finished t (badge_update badge s))
| step_tlsa_lookup r d a b s : pstep fqdn (MkPState r (Some d) a b Ready s)
    (let '(tlsa, d') := dane_LookupTLSA d fqdn 443 in MkPState r (Some d') a b (Answered tlsa) s)
| step_tlsa_update r d a b tlsa s : pstep fqdn (MkPState r d a b (Answered tlsa) s)
    (MkPState r d a b Finished (tlsa_update tlsa s)).

Inductive psteps (fqdn : Fqdn) : nat -> pstate -> pstate -> Prop :=
| psteps_refl p : psteps fqdn 0 p p
| psteps_step n p q r : psteps fqdn n p q -> pstep fqdn q r -> psteps fqdn (S n) p r.

Definition pdone (p : pstate) : Prop := ps_ati p = Finished /\ ps_badge p = Finished /\ ps_tlsa p = Finished.

(** [ParallelDiscovery] returns after [wg.Wait]. *)
Definition parallel_returns (fqdn : Fqdn) (dns : R) (dane : option D) (out : result goerror DiscoveryResult) : Prop :=
  exists n p, psteps fqdn n (pstart dns dane) p /\ pdone p /\ out = discovery_outcome fqdn (ps_result p).

(** The goroutines one after the other on given answers. *)
Definition sequential (fqdn : Fqdn) (disc : result goerror ATIDiscoveryResult) (badge : result goerror (option ATIBadgeRecord))
    (tlsa : option (result goerror TLSALookupResult)) : DiscoveryResult * option goerror :=
  let s := badge_update badge (ati_update disc (empty_discovery, None)) in
  match tlsa with Some tlsa => tlsa_update tlsa s | None => s end.

(** ** The order of the updates does not matter *)

Lemma ati_badge_comm disc badge s : ati_update disc (badge_update badge s) = badge_update badge (ati_update disc s).
Proof.
  destruct s as [r e], disc as [[[] [|rec recs]]|err], badge as [[b|]|err']; cbn; try reflexivity; destruct (rec_URL rec); reflexivity.
Qed.
Lemma ati_tlsa_comm disc tlsa s : ati_update disc (tlsa_update tlsa s) = tlsa_update tlsa (ati_update disc s).
Proof.
  destruct s as [r e], disc as [[[] [|rec recs]]|err], tlsa as [[[] l v]|err']; cbn; try reflexivity; destruct (rec_URL rec); reflexivity.
Qed.
Lemma badge_tlsa_comm badge tlsa s : badge_update badge (tlsa_update tlsa s) = tlsa_update tlsa (badge_update badge s).
Proof. destruct s as [r e], badge as [[b|]|err], tlsa as [[[] l v]|err']; reflexivity. Qed.

(** The measure of what is left to do. *)
Definition pc_left {A : Type} (p : pc A) : nat := match p with Ready => 2 | Answered _ => 1 | Finished => 0 end.
Definition pleft (p : pstate) : nat := (pc_left (ps_ati p) + pc_left (ps_badge p) + pc_left (ps_tlsa p))%nat.

Lemma pstep_left (fqdn : Fqdn) (p q : pstate) : pstep fqdn p q -> pleft p = S (pleft q).
Proof.
  destruct 1; cbn; try (destruct (dns_LookupATIDiscovery _ _)); try (destruct (dns_FindPreferredBadge _ _));
    try (destruct (dane_LookupTLSA _ _ _)); unfold pleft; cbn; lia.
Qed.

(** The result so far: the updates of the finished goroutines, on their answers. *)
Definition pinv (fqdn : Fqdn) (dns : R) (dane : option D) (p : pstate) : Prop :=
  (dane = None <-> ps_dane p = None) /\ (dane = None -> ps_tlsa p = Finished) /\
  exists disc badge tlsa,
    (forall x, ps_ati p = Answered x -> x = disc) /\ (forall x, ps_badge p = Answered x -> x = badge) /\
    (forall x, ps_tlsa p = Answered x -> x = tlsa) /\
    (ps_ati p <> Ready -> exists r r', dns_LookupATIDiscovery r fqdn = (disc, r')) /\
    (ps_badge p <> Ready -> exists r r', dns_FindPreferredBadge r fqdn = (badge, r')) /\
    (dane <> None -> ps_tlsa p <> Ready -> exists d d', dane_LookupTLSA d fqdn 443 = (tlsa, d')) /\
    ps_result p =
      (let s := (empty_discovery, None) in
       let s := match ps_ati p with Finished => ati_update disc s | _ => s end in
       let s := match ps_badge p with Finished => badge_update badge s | _ => s end in
       match ps_tlsa p, dane with Finished, Some _ => tlsa_update tlsa s | _, _ => s end).

Lemma pstart_inv (fqdn : Fqdn) (dns : R) (dane : option D) : pinv fqdn dns dane (pstart dns dane).
Proof.
  split; [destruct dane; split; discriminate || reflexivity|]. split; [intros ->; reflexivity|].
  exists (Err ERecordNotFound), (Err ERecordNotFound), (Err ERecordNotFound). cbn [pstart ps_ati ps_badge ps_tlsa ps_result].
  repeat split; try discriminate; try congruence; destruct dane; try discriminate; try congruence; reflexivity.
Qed.

(** The parts of the invariant about answers, after a step. *)
#[local] Ltac next_answers :=
  repeat match goal with
    | |- _ /\ _ => split
    | |- forall y, Answered _ = Answered y -> _ => intros ? [= <-]
    | |- forall y, _ = Answered y -> _ => first [assumption | discriminate]
    | H : ?G |- ?G => exact H
    | H : Answered _ <> Ready -> ?G |- Finished <> Ready -> ?G => intros _; apply H; discriminate
    | H : ?A -> Answered _ <> Ready -> ?G |- ?A -> Finished <> Ready -> ?G => intros K _; apply (H K); discriminate
    end; try reflexivity.

Lemma pstep_inv (fqdn : Fqdn) (dns : R) (dane : option D) (p q : pstate) :
  pstep fqdn p q -> pinv fqdn dns dane p -> pinv fqdn dns dane q.
Proof.
  intros S (Hd & Ht & disc & badge & tlsa & A1 & A2 & A3 & L1 & L2 & L3 & E). unfold pinv.
  destruct S as [r d b t s|r d x b t s|r d a t s|r d a x t s|r d a b s|r d a b x s]; cbn -[ati_update badge_update tlsa_update] in *.
  - destruct (dns_LookupATIDiscovery r fqdn) as [x r'] eqn:El. cbn -[ati_update badge_update tlsa_update]. split; [exact Hd|]. split; [exact Ht|].
    exists x, badge, tlsa. next_answers. intros _. eauto.
  - split; [exact Hd|]. split; [exact Ht|]. rewrite (A1 x eq_refl). exists disc, badge, tlsa. next_answers.
    subst s. destruct b; destruct t; try destruct dane; rewrite ?ati_tlsa_comm, ?ati_badge_comm; reflexivity.
  - destruct (dns_FindPreferredBadge r fqdn) as [x r'] eqn:El. cbn -[ati_update badge_update tlsa_update]. split; [exact Hd|]. split; [exact Ht|].
    exists disc, x, tlsa. next_answers. intros _. eauto.
  - split; [exact Hd|]. split; [exact Ht|]. rewrite (A2 x eq_refl). exists disc, badge, tlsa. next_answers.
    subst s. destruct a; destruct t; try destruct dane; rewrite ?badge_tlsa_comm; reflexivity.
  - destruct (dane_LookupTLSA d fqdn 443) as [x d'] eqn:El. cbn -[ati_update badge_update tlsa_update].
    assert (Hn : dane <> None) by (intros ->; destruct Hd as [Hd _]; discriminate (Hd eq_refl)).
    split; [split; [intros K; destruct (Hn K) | discriminate]|]. split; [intros K; destruct (Hn K)|].
    exists disc, badge, x. next_answers. intros _ _. eauto.
  - assert (Hn : dane <> None) by (intros K; discriminate (Ht K)).
    split; [exact Hd|]. split; [intros K; destruct (Hn K)|]. rewrite (A3 x eq_refl). exists disc, badge, tlsa.
    next_answers. subst s. destruct dane; [reflexivity | congruence].
Qed.

Lemma psteps_inv (fqdn : Fqdn) (dns : R) (dane : option D) (n : nat) (p : pstate) :
  psteps fqdn n (pstart dns dane) p -> pinv fqdn dns dane p /\ (pleft p + n = pleft (pstart dns dane))%nat.
Proof.
  remember (pstart dns dane) as p0 eqn:E0. induction 1 as [|n q q' q'' S IH St]; subst.
  - split; [apply pstart_inv | lia].
  - destruct (IH eq_refl) as [I L]. split; [eapply pstep_inv; eauto|]. apply pstep_left in St. lia.
Qed.

Lemma pstep_progress (fqdn : Fqdn) (dns : R) (dane : option D) (p : pstate) :
  pinv fqdn dns dane p -> pdone p \/ exists q, pstep fqdn p q.
Proof.
  intros (Hd & Ht & _). destruct p as [r d a b t s]. cbn in *. destruct a as [|x|]; [right; eexists; constructor..|].
  destruct b as [|x|]; [right; eexists; constructor..|].
  destruct t as [|x|]; [right|right; eexists; constructor|left; repeat split].
  destruct d as [d|]; [eexists; constructor|]. destruct Hd as [_ Hd]. discriminate (Ht (Hd eq_refl)).
Qed.

(** C32: The parallel lookups are deterministic in what they find, and never hang. Every
    schedule of the three goroutines can be continued until all are done, which takes
    six steps (four without a DANE resolver); and whatever the schedule, the outcome is
    the one of running them one after the other on the answers they got: the badge and
    TLSA answers, and their failures, only add their own fields, and an error is
    returned exactly when no agent ID was found, the lookup's own if it failed. *)
Theorem ParallelDiscovery_deterministic (fqdn : Fqdn) (dns : R) (dane : option D) :
  (forall n p, psteps fqdn n (pstart dns dane) p ->
     (n <= 6)%nat /\ (pdone p \/ exists q, pstep fqdn p q)) /\
  (forall out, parallel_returns fqdn dns dane out ->
     exists disc badge tlsa,
       (exists r r', dns_LookupATIDiscovery r fqdn = (disc, r')) /\
       (exists r r', dns_FindPreferredBadge r fqdn = (badge, r')) /\
       (dane <> None -> exists d d', dane_LookupTLSA d fqdn 443 = (tlsa, d')) /\
       out = discovery_outcome fqdn (sequential fqdn disc badge (match dane with Some _ => Some tlsa | None => None end)) /\
       (forall r, out = Ok r -> dr_AgentID r <> "" /\ dr_ServerTLSA r = [] /\
          exists d rec recs, disc = Ok d /\ ad_Found d = true /\ ad_Records d = rec :: recs /\ rec_ID rec = dr_AgentID r) /\
       (forall e, out = Err e -> match disc with Err err => e = err | Ok _ => True end)).
Proof.
  split.
  - intros n p S. apply psteps_inv in S as [I L]. split; [|eapply pstep_progress, I].
    unfold pleft in L. cbn in L. destruct dane; cbn in L; lia.
  - intros out (n & p & S & (D1 & D2 & D3) & ->). apply psteps_inv in S as [(_ & _ & disc & badge & tlsa & I) _].
    destruct I as (_ & _ & _ & L1 & L2 & L3 & E). rewrite D1, D2, D3 in *.
    exists disc, badge, tlsa. split; [apply L1; discriminate|]. split; [apply L2; discriminate|].
    split; [intros K; apply (L3 K); discriminate|].
    set (o := match dane with Some _ => Some tlsa | None => None end).
    assert (E' : ps_result p = sequential fqdn disc badge o) by (rewrite E; unfold o; destruct dane; reflexivity).
    rewrite E'. split; [reflexivity|].
    assert (G : sequential fqdn disc badge o =
      (let s := sequential fqdn disc badge o in
       (MkDiscoveryResult (dr_AgentCardURL (fst s)) (dr_TLQueryURL (fst s)) (dr_IdentityTLSA (fst s)) []
         (dr_HTTPSParams (fst s)) (dr_SelectedVersion (fst s)) (dr_DNSSECStatus (fst s))
         (match disc with Ok d => match ad_Found d, ad_Records d with true, rec :: _ => rec_ID rec | _, _ => "" end | Err _ => "" end),
        match disc with Err err => Some err | Ok _ => None end))).
    { unfold sequential. destruct disc as [[[] [|rec recs]]|err], badge as [[bd|]|err'], o as [[[[] l v]|err'']|];
        cbn; try reflexivity; destruct (rec_URL rec); reflexivity. }
    unfold discovery_outcome. rewrite G. cbn -[sequential]. clear. split.
    + intros r. destruct (String.eqb_spec (match disc with Ok d => match ad_Found d, ad_Records d with true, rec :: _ => rec_ID rec | _, _ => "" end | Err _ => "" end) "")
        as [K|K]; [discriminate|]. intros [= <-]. cbn -[sequential]. split; [exact K|]. split; [reflexivity|].
      destruct disc as [[[] [|rec recs]]|err]; cbn in K; try congruence. exists (MkDiscovery true (rec :: recs)), rec, recs. auto.
    + intros e. destruct disc as [d|err]; [trivial|]. cbn -[sequential]. intros [= <-]. reflexivity.
Qed.
End Parallel.

(** ** The global configuration ([ati/config.go]) *)

Record Config := MkGlobalConfig {
  gc_LocalHostname : string; gc_IdentityCertFile : string; gc_IdentityKeyFile : string; gc_CARootFile : string;
  gc_TrustLevel : option TrustLevel; gc_DNSServer : string
}.

(** The variable [globalConfig]; it is nil at first. *)
Definition Init (cfg : Config) (globalConfig : option Config) : result goerror unit * option Config :=
  (Ok tt, Some (MkGlobalConfig (gc_LocalHostname cfg) (gc_IdentityCertFile cfg) (gc_IdentityKeyFile cfg) (gc_CARootFile cfg)
                  (Some (default PolicyEnhanced (gc_TrustLevel cfg))) (gc_DNSServer cfg))).

Definition GetConfig (globalConfig : option Config) : option Config := globalConfig.
Definition globalDNSServer (globalConfig : option Config) : string :=
  match globalConfig with Some cfg => gc_DNSServer cfg | None => "" end.

(** ** The marketplace search ([ati/discovery.go]) *)

Record discoveryConfig := MkDiscoveryConfig {
  dc_name : string; dc_host : string; dc_version : string; dc_limit : Z; dc_offset : Z;
  dc_registryURL : string; dc_apiKey : string; dc_apiSecret : string
}.

Definition DiscoveryOption : Type := discoveryConfig -> discoveryConfig.

Definition WithSearchName (name : string) : DiscoveryOption := fun c =>
  MkDiscoveryConfig name (dc_host c) (dc_version c) (dc_limit c) (dc_offset c) (dc_registryURL c) (dc_apiKey c) (dc_apiSecret c).
Definition WithSearchHost (host : string) : DiscoveryOption := fun c =>
  MkDiscoveryConfig (dc_name c) host (dc_version c) (dc_limit c) (dc_offset c) (dc_registryURL c) (dc_apiKey c) (dc_apiSecret c).
Definition WithSearchVersion (version : string) : DiscoveryOption := fun c =>
  MkDiscoveryConfig (dc_name c) (dc_host c) version (dc_limit c) (dc_offset c) (dc_registryURL c) (dc_apiKey c) (dc_apiSecret c).
Definition WithSearchLimit (n : Z) : DiscoveryOption := fun c =>
  MkDiscoveryConfig (dc_name c) (dc_host c) (dc_version c) n (dc_offset c) (dc_registryURL c) (dc_apiKey c) (dc_apiSecret c).
Definition WithSearchOffset (n : Z) : DiscoveryOption := fun c =>
  MkDiscoveryConfig (dc_name c) (dc_host c) (dc_version c) (dc_limit c) n (dc_registryURL c) (dc_apiKey c) (dc_apiSecret c).
Definition WithRegistryURL (url : string) : DiscoveryOption := fun c =>
  MkDiscoveryConfig (dc_name c) (dc_host c) (dc_version c) (dc_limit c) (dc_offset c) url (dc_apiKey c) (dc_apiSecret c).
Definition WithRegistryAuth (key secret : string) : DiscoveryOption := fun c =>
  MkDiscoveryConfig (dc_name c) (dc_host c) (dc_version c) (dc_limit c) (dc_offset c) (dc_registryURL c) key secret.

(** The configuration of a search: 20 results unless the options say otherwise. *)
Definition search_config (opts : list DiscoveryOption) : discoveryConfig :=
  fold_left (fun c opt => opt c) opts (MkDiscoveryConfig "" "" "" 20 0 "" "" "").

Definition registry_options (cfg : discoveryConfig) : list Option_ :=
  ((if nonempty (dc_registryURL cfg) then [WithBaseURL (dc_registryURL cfg)] else []) ++
   (if nonempty (dc_apiKey cfg) then [WithAPIKey (dc_apiKey cfg) (dc_apiSecret cfg)] else []))%list.

(** An error of a wrapped call keeps its cause. *)
Definition wrap_api (msg : string) (e : api_error) : api_error :=
  match e with AErr e => AErr (EWrap msg e) | AResponse r => AResponse r end.

Section Search.
Context `{UnicodeTables} {C : Type} `{ApiHttp C}.

Definition DiscoverAgents (st : C) (opts : list DiscoveryOption) : result api_error goval * C :=
  let cfg := search_config opts in
  if String.eqb (dc_name cfg) "" && String.eqb (dc_host cfg) "" && String.eqb (dc_version cfg) ""
  then (Err (AErr (EPlain "at least one search criterion is required: use WithSearchName, WithSearchHost, or WithSearchVersion")), st)
  else
    match NewClient (registry_options cfg) with
    | Err err => (Err (AErr (EWrap "failed to create registry client: %w" err)), st)
    | Ok client =>
        let '(r, st) := SearchAgents client st (dc_name cfg) (dc_host cfg) (dc_version cfg) (dc_limit cfg) (dc_offset cfg) in
        (match r with Ok result => Ok result | Err err => Err (wrap_api "agent search failed: %w" err) end, st)
    end.

(** Creating the client never fails; the registry is the default one unless another
    is named, and credentials are sent only when there is a key. *)
Lemma registry_client (cfg : discoveryConfig) :
  exists c, NewClient (registry_options cfg) = Ok c /\
    baseURL c = (if nonempty (dc_registryURL cfg) then dc_registryURL cfg else baseURL Registry.defaultConfig) /\
    authHeader c = (if nonempty (dc_apiKey cfg) then "sso-key " ++ dc_apiKey cfg ++ ":" ++ dc_apiSecret cfg else "").
Proof.
  unfold registry_options. destruct (nonempty (dc_registryURL cfg)), (nonempty (dc_apiKey cfg));
    eexists; repeat split; reflexivity.
Qed.
End Search.

(** ** Trust cards ([ati/trust_card.go]) *)

Definition defaultTLBaseURL : string := "https://ati-tl.cnnic.cn/ati/api/v1".

Section TrustCards.
Context `{UnicodeTables} {R C : Type} `{DNSResolver R} `{HttpGet C}.

(** The resolver and the HTTP client are the state; the client is its timeout. *)
Record trustCardConfig := MkTrustCardConfig { tcc_tlBaseURL : string; tcc_httpClient : Z }.

Definition TrustCardOption : Type := trustCardConfig -> trustCardConfig.
Definition withTLBaseURL (url : string) : TrustCardOption := fun c => MkTrustCardConfig url (tcc_httpClient c).

Definition resolveAgentID (dns : R) (fqdn : Fqdn) : result goerror string * R :=
  let '(r, dns) := dns_LookupATIDiscovery dns fqdn in
  (match r with
   | Err err => Err err
   | Ok result =>
       match ad_Found result, ad_Records result with
       | true, rec :: _ => Ok (rec_ID rec)
       | _, _ => Err (EPlain ("no _ati records found for " ++ fqdn_value fqdn))
       end
   end, dns).

Definition trust_card_url (cfg : trustCardConfig) (agentID : string) : string :=
  tcc_tlBaseURL cfg ++ "/tl/agents/" ++ agentID ++ "/logs/latest".

(** [json.NewDecoder(body).Decode(&tlResp)]: the first value of the body; a read
    error counts unless the value has a last character of its own. *)
Definition decode_first (body : list byte) (readErr : option goerror) : result goerror TLResponse :=
  match split_value (skip_space (string_of_bytes body)) with
  | None => Err ESyntax
  | Some (v, text, rest) =>
      match readErr, rest, v with
      | Some err, "", (JNull | JBool _ | JNumber _) => Err err
      | _, _, _ => TLResponse_UnmarshalJSON empty_response text
      end
  end.

(** The card: the part of the payload that the log has; the rest stays empty. *)
Definition card_of (p : TLPayload) : goval :=
  set TrustCard "agentId" (VString (AgentID p)) (set TrustCard "agentName" (VString (AgentName p))
  (set TrustCard "agentDisplayName" (VString (AgentDisplayName p)) (set TrustCard "version" (VString (tp_Version p))
  (set TrustCard "agentHost" (VString (AgentHost p)) (set TrustCard "agentSubHost" (VString (AgentSubHost p))
  (zero TrustCard)))))).

(** The version is not used. *)
Definition GetTrustCard (dns : R) (st : C) (host version : string) (opts : list TrustCardOption)
  : result goerror goval * R * C :=
  let cfg := fold_left (fun c opt => opt c) opts (MkTrustCardConfig defaultTLBaseURL (15 * second)) in
  match NewFqdn host with
  | Err err => (Err (EWrap "invalid host: %w" err), dns, st)
  | Ok fqdn =>
      match resolveAgentID dns fqdn with
      | (Err err, dns) => (Err (EWrap "failed to discover agent: %w" err), dns, st)
      | (Ok agentID, dns) =>
          match get_request st (trust_card_url cfg agentID) [] with
          | (InvalidURI, st) => (Err (EWrap "failed to create TL request: %w" (EPlain "url.Error")), dns, st)
          | (DoFailed err, st) => (Err (EWrap "TL query failed: %w" err), dns, st)
          | (Responded StatusCode Body readErr, st) =>
              if negb (StatusCode =? 200) then (Err (EPlain "TL query returned status %d"), dns, st)
              else
                (match decode_first Body readErr with
                 | Err err => Err (EWrap "failed to decode TL response: %w" err)
                 | Ok tlResp => Ok (card_of (Payload tlResp))
                 end, dns, st)
          end
      end
  end.

(** Whatever the log answers, a card is a value of its type; a host that is not a
    name asks nobody. *)
Lemma GetTrustCard_typed (dns : R) (st : C) (host version : string) (opts : list TrustCardOption) :
  let '(r, dns', st') := GetTrustCard dns st host version opts in
  (forall card, r = Ok card -> has_type TrustCard card) /\
  (forall err, NewFqdn host = Err err -> dns' = dns /\ st' = st).
Proof.
  unfold GetTrustCard. destruct (NewFqdn host) as [fqdn|err]; [|split; [discriminate | auto]].
  destruct (resolveAgentID dns fqdn) as [[agentID|err] dns']; [|split; discriminate].
  destruct (get_request _ _ _) as [[|err|code body readErr] st']; [split; discriminate..|].
  destruct (negb (code =? 200)); [split; discriminate|]. split; [|discriminate].
  destruct (decode_first body readErr) as [r|err]; [|discriminate]. intros card [= <-].
  unfold card_of. repeat split.
Qed.
End TrustCards.

(** ** Examples *)

Section Examples.
#[local] Existing Instance plain_tables.
#[local] Existing Instance one_api.
#[local] Instance card_log : HttpGet (list string) := {|
  http_get st url header := (Responded 200 (bytes_of_string (with_quotes "{'payload':{'agentId':'a/../b','agentHost':'h'}} x")) None, url :: st)
|}.
#[local] Instance card_dns : DNSResolver string := {|
  dns_FindBadgeForVersion st f v := (Err ERecordNotFound, st);
  dns_FindPreferredBadge st f := (Err ERecordNotFound, st);
  dns_LookupATIDiscovery st f := (Ok (MkDiscovery true [MkATIRecord st "" (MkVersion 1 0 0) ATIRecordModeCard "" ""]), st)
|}.

(** The agent ID of the DNS record is not escaped in the URL. *)
Example trust_card_path :
  let '(r, _, asked) := GetTrustCard "x/../admin?q" [] "a.example" "9.9.9" [withTLBaseURL "https://tl.example"] in
  (match r with Ok card => get_string TrustCard "agentHost" card | Err _ => "" end, asked) =
  ("h", ["https://tl.example/tl/agents/x/../admin?q/logs/latest"]).
Proof. vm_compute. reflexivity. Qed.

Example discover_ex :
  map aq_URL (snd (snd (DiscoverAgents (answering 200 "{}") [WithSearchHost "a.example"; WithRegistryURL "https://r"]))) =
  ["https://r/v1/agents?agentHost=a.example&limit=20"].
Proof. vm_compute. reflexivity. Qed.
End Examples.
