(* ===== verification/TlogClient.v ===== *)
(** The HTTP client of the transparency log ([verify/tlog.go]), and that the
    verifiers over it are the verifiers over a log. *)

From S2P Require Import Prelude GoStrings Utf8 Encoding Errors Url Http Models Cert Merkle Records Resolver.
From S2P Require Import Dnssec Dane Verifier Json TlogJson Seal Trust Gold Session.

#[local] Open Scope string_scope.
#[local] Open Scope Z_scope.

Definition defaultHTTPTimeoutSeconds : Z := 30.
Definition maxErrorResponseBodyBytes : Z := 1024.
Definition maxTLResponseBodyBytes : Z := 1048576.

Section TlogClient.
Context `{UnicodeTables} {C : Type} `{HttpGet C}.

(** [FetchTLResponse]; [C] is the state of [c.httpClient] and of the network. *)
Definition HTTP_FetchTLResponse (c : C) (url : string) : result goerror TLResponse * C :=
  let '(answer, c) := get_request c url [("Accept", "application/json")] in
  (match answer with
   | InvalidURI => Err (ETlog TlogErrorInvalidResponse url "failed to create request: %v" 0)
   | DoFailed err => Err (ETlog TlogErrorServiceUnavailable url "%v" 0)
   | Responded StatusCode Body readErr =>
       if StatusCode =? 404 then Err (ETlog TlogErrorNotFound url "" StatusCode)
       else if 500 <=? StatusCode then Err (ETlog TlogErrorServiceUnavailable url "" StatusCode)
       else if negb (StatusCode =? 200) then
         Err (ETlog TlogErrorInvalidResponse url "unexpected status %d: %s" StatusCode)
       else
         match ReadAll_limit maxTLResponseBodyBytes Body readErr with
         | Err _ => Err (ETlog TlogErrorInvalidResponse url "failed to read TL response body: %v" 0)
         | Ok [] => Err (ETlog TlogErrorInvalidResponse url "empty response body" 0)
         | Ok body =>
             match Unmarshal_TLResponse (string_of_bytes body) with
             | Err _ => Err (ETlog TlogErrorInvalidResponse url "failed to decode TL response: %v" 0)
             | Ok tlResp => Ok tlResp
             end
         end
   end, c).

#[export] Instance HTTPTransparencyLogClient : TransparencyLogClient C := {| FetchTLResponse := HTTP_FetchTLResponse |}.

End TlogClient.

(** ** The log as an abstract map *)

Section Refinement.
Context `{UnicodeTables}.

(** The specification of a log: its entries by URL. A URL without an entry is
    reported as not found, a text that is no URL as an invalid request. *)
Definition abstract_log : Type := gmap string TLResponse.

#[export] Instance abstract_log_client : TransparencyLogClient abstract_log := {|
  FetchTLResponse log url :=
    (match url_Parse url, log !! url with
     | None, _ => Err (ETlog TlogErrorInvalidResponse url "failed to create request: %v" 0)
     | Some _, Some r => Ok r
     | Some _, None => Err (ETlog TlogErrorNotFound url "" 404)
     end, log)
|}.

(** A server: the texts it serves, by URL. *)
Definition log_server : Type := gmap string (list byte).

#[export] Instance log_server_http : HttpGet log_server := {|
  http_get srv url header :=
    (match srv !! url with
     | Some text => Responded 200 text None
     | None => Responded 404 [] None
     end, srv)
|}.

(** The server implements the log: at every URL that can be requested it serves a
    text of at most a megabyte that decodes to the entry, or nothing. *)
Definition implements (srv : log_server) (log : abstract_log) : Prop :=
  forall url, url_Parse url <> None ->
    match log !! url with
    | Some r => exists text, srv !! url = Some text /\ text <> [] /\
        Z.of_nat (length text) <= maxTLResponseBodyBytes /\ Unmarshal_TLResponse (string_of_bytes text) = Ok r
    | None => srv !! url = None
    end.

Lemma FetchTLResponse_implements (srv : log_server) (log : abstract_log) (url : string) :
  implements srv log ->
  FetchTLResponse srv url = (fst (FetchTLResponse log url), srv) /\ snd (FetchTLResponse log url) = log.
Proof.
  intros Hi. cbn [FetchTLResponse HTTPTransparencyLogClient abstract_log_client fst snd].
  unfold HTTP_FetchTLResponse, get_request. specialize (Hi url).
  destruct (url_Parse url); [|auto]. specialize (Hi ltac:(discriminate)). cbn [http_get log_server_http].
  destruct (log !! url) as [r|].
  - destruct Hi as (text & -> & Hne & Hl & Hd). cbn [Z.eqb Z.leb negb Pos.eqb Z.compare Pos.compare Pos.compare_cont].
    rewrite ReadAll_limit_exact by exact Hl. destruct text; [contradiction|]. rewrite Hd. auto.
  - rewrite Hi. auto.
Qed.

Context `{SignatureLib} {R : Type} `{DNSResolver R}.

(** C17: (refinement) Gold verification through the HTTP client of a server that
    implements a log is Gold verification against the log: the same result, errors
    and warnings included, and the same state of the resolver. *)
Theorem VerifyGold_refines_log (srv : log_server) (log : abstract_log) (now : Z) (fqdn : Fqdn) (cert : CertIdentity)
    (cfg : GoldVerifierConfig) (dns : R) (Himpl : implements srv log) :
  fst (VerifyGold now fqdn cert cfg (dns, srv)) = fst (VerifyGold now fqdn cert cfg (dns, log)) /\
  fst (snd (VerifyGold now fqdn cert cfg (dns, srv))) = fst (snd (VerifyGold now fqdn cert cfg (dns, log))) /\
  snd (snd (VerifyGold now fqdn cert cfg (dns, srv))) = srv.
Proof.
  unfold VerifyGold. destruct (dns_LookupATIDiscovery dns fqdn) as [[result|e] dns']; [|auto].
  destruct (ad_Found result); [|auto]. destruct (ad_Records result) as [|record rest]; [auto|].
  destruct (String.eqb (rec_ID record) ""); [auto|].
  set (url := (_ ++ _)%string). destruct (FetchTLResponse_implements srv log url Himpl) as [-> E].
  destruct (FetchTLResponse log url) as [[r|e] log']; cbn [fst snd] in *; auto.
Qed.

(** (refinement) the session monitor over the HTTP client of a server that
    implements a log behaves, run by run, as over the log: the same events are
    possible and lead to the same monitor, the same calls among them. *)
Theorem Session_refines_log (srv : log_server) (log : abstract_log) (es : list event) (m : SessionMonitor) (dns : R)
    (Himpl : implements srv log) :
  option_map (fun s => (fst s, fst (snd s))) (run es (m, (dns, srv))) =
  option_map (fun s => (fst s, fst (snd s))) (run es (m, (dns, log))).
Proof.
  assert (Hre : forall base fqdn dns,
    fst (recheck base fqdn (dns, srv)) = fst (recheck base fqdn (dns, log)) /\
    fst (snd (recheck base fqdn (dns, srv))) = fst (snd (recheck base fqdn (dns, log))) /\
    snd (snd (recheck base fqdn (dns, srv))) = srv /\ snd (snd (recheck base fqdn (dns, log))) = log).
  { clear m dns es. intros base fqdn dns. unfold recheck.
    destruct (dns_LookupATIDiscovery dns fqdn) as [[result|e] dns']; [|auto].
    destruct (ad_Found result); [|auto]. destruct (ad_Records result) as [|record rest]; [auto|].
    set (url := (_ ++ _)%string). destruct (FetchTLResponse_implements srv log url Himpl) as [-> E].
    destruct (FetchTLResponse log url) as [[r|e] log']; cbn [fst snd] in *; subst log'; auto.
    destruct (TL_IsTerminal _); auto. }
  revert m dns. induction es as [|e es IH]; intros m dns; [reflexivity|]. cbn [run].
  assert (Hstep : (exists m' dns', step e (m, (dns, srv)) = Some (m', (dns', srv)) /\
      step e (m, (dns, log)) = Some (m', (dns', log))) \/
    (step e (m, (dns, srv)) = None /\ step e (m, (dns, log)) = None)).
  { destruct e as [fqdn cert|id|id| |id|id]; cbn [step]; try (left; do 2 eexists; split; reflexivity).
    - destruct (loop_done id m); [left; do 2 eexists; split; reflexivity | auto].
    - unfold loop_tick. destruct (sm_heap m !! id) as [s|]; [|auto]. destruct (ms_running s); [|auto]. left.
      destruct (Hre (sm_tlBaseURL m) (ms_fqdn s) dns) as (E1 & E2 & E3 & E4).
      destruct (recheck _ _ (dns, srv)) as [o1 [d1 s1]], (recheck _ _ (dns, log)) as [o2 [d2 s2]].
      cbn [fst snd] in *. subst. destruct o2; do 2 eexists; split; reflexivity. }
  destruct Hstep as [(m' & dns' & -> & ->) | [-> ->]]; [apply IH | reflexivity].
Qed.
End Refinement.

Section Examples.
#[local] Existing Instance plain_tables.
#[local] Existing Instance symbolic_signatures.
#[local] Existing Instance example_dns.

(** One agent, registered and active. *)
Definition example_url : string := gold_url example_cfg "a1".
Definition example_text : list byte := bytes_of_string (signed_text "ACTIVE").
Definition example_server : log_server := <[example_url := example_text]> ∅.
Definition example_entry : TLResponse := parsed (signed_text "ACTIVE").
Definition example_entries : abstract_log := <[example_url := example_entry]> ∅.

Lemma example_implements : implements example_server example_entries.
Proof.
  intros url _. unfold example_server, example_entries, log_server, abstract_log in *.
  destruct (decide (example_url = url)) as [<-|Hn].
  - rewrite !lookup_insert_eq. exists example_text. split; [reflexivity|].
    split; [vm_compute; discriminate|]. split; [vm_compute; discriminate|]. vm_compute. reflexivity.
  - rewrite !lookup_insert_ne, !lookup_empty by exact Hn. reflexivity.
Qed.

Lemma VerifyGold_refines_log_witness :
  vr_Connected (fst (VerifyGold 0 example_fqdn example_cert example_cfg (tt, example_server))) = true.
Proof.
  destruct (VerifyGold_refines_log example_server example_entries 0 example_fqdn example_cert example_cfg tt
    example_implements) as (-> & _). vm_compute. reflexivity.
Defined.

Lemma Session_refines_log_witness :
  option_map (fun s => (fst s, fst (snd s)))
    (run [EWatch example_fqdn example_cert; ETick 0] (NewSessionMonitor 0 true, (tt, example_server))) =
  option_map (fun s => (fst s, fst (snd s)))
    (run [EWatch example_fqdn example_cert; ETick 0] (NewSessionMonitor 0 true, (tt, example_entries))).
Proof.
  apply (Session_refines_log example_server example_entries [EWatch example_fqdn example_cert; ETick 0]
    (NewSessionMonitor 0 true) tt example_implements).
Defined.
End Examples.
