(* ===== verification/ErrorText.v ===== *)
(** The texts of the SDK's error values: the [Error] methods of [verify/errors.go],
    [verify/error_codes.go] and [verify/scitt/errors.go]. *)

From S2P Require Import Prelude GoStrings Encoding Errors TlogJson GoJson.

#[local] Open Scope list_scope.
#[local] Open Scope string_scope.
#[local] Open Scope Z_scope.

(** The types of an error are Go integers: a value that is none of the constants is
    [None]. *)

(** ** [verify/errors.go] *)

Record DNSError := MkDNSError { de_Type : option DNSErrorType; de_Fqdn : string; de_Reason : string }.

Definition DNSError_Error (e : DNSError) : string :=
  match de_Type e with
  | Some DNSErrorNotFound => "DNS record not found for " ++ de_Fqdn e
  | Some DNSErrorTimeout => "DNS timeout for " ++ de_Fqdn e
  | Some DNSErrorLookupFailed =>
      if negb (String.eqb (de_Reason e) "") then "DNS lookup failed for " ++ de_Fqdn e ++ ": " ++ de_Reason e
      else "DNS lookup failed for " ++ de_Fqdn e
  | None => "DNS error for " ++ de_Fqdn e
  end.

Record TlogError := MkTlogError {
  te_Type : option TlogErrorType; te_URL : string; te_Reason : string; te_HTTPCode : Z
}.

Definition TlogError_Error (e : TlogError) : string :=
  match te_Type e with
  | Some TlogErrorNotFound => "badge not found at " ++ te_URL e
  | Some TlogErrorServiceUnavailable =>
      if negb (String.eqb (te_Reason e) "") then "transparency log unavailable at " ++ te_URL e ++ ": " ++ te_Reason e
      else "transparency log unavailable at " ++ te_URL e
  | Some TlogErrorInvalidResponse =>
      if negb (String.eqb (te_Reason e) "") then "invalid response from transparency log: " ++ te_Reason e
      else "invalid response from transparency log"
  | None => "transparency log error for " ++ te_URL e
  end.

Record DANEError := MkDANEError { da_Type : option DANEErrorType; da_Fqdn : string; da_Reason : string }.

Definition DANEError_Error (e : DANEError) : string :=
  match da_Type e with
  | Some DANEErrorDNSSECFailed =>
      if negb (String.eqb (da_Reason e) "") then "DNSSEC validation failed for " ++ da_Fqdn e ++ ": " ++ da_Reason e
      else "DNSSEC validation failed for " ++ da_Fqdn e
  | Some DANEErrorLookupFailed =>
      if negb (String.eqb (da_Reason e) "") then "DANE TLSA lookup failed for " ++ da_Fqdn e ++ ": " ++ da_Reason e
      else "DANE TLSA lookup failed for " ++ da_Fqdn e
  | None => "DANE error for " ++ da_Fqdn e
  end.

Record VerificationError := MkVerificationError {
  ve_Type : option VerificationErrorType; ve_Expected : string; ve_Actual : string; ve_Message : string
}.

Definition VerificationError_Error (e : VerificationError) : string :=
  match ve_Type e with
  | Some VerificationErrorInvalidStatus => "invalid badge status: " ++ ve_Actual e
  | Some VerificationErrorFingerprintMismatch =>
      "certificate fingerprint mismatch: expected " ++ ve_Expected e ++ ", got " ++ ve_Actual e
  | Some VerificationErrorHostnameMismatch => "hostname mismatch: expected " ++ ve_Expected e ++ ", got " ++ ve_Actual e
  | Some VerificationErrorATINameMismatch => "ATI name mismatch: expected " ++ ve_Expected e ++ ", got " ++ ve_Actual e
  | Some VerificationErrorNoCN => "no CN or DNS SAN found in certificate"
  | Some VerificationErrorNoURISAN => "no ATI name (ati://) found in URI SANs"
  | None => if negb (String.eqb (ve_Message e) "") then ve_Message e else "verification error"
  end.

(** ** [verify/scitt/errors.go]; the causes are not part of the texts *)

Record CoseError := MkCoseError { ce_Type : option CoseErrorType; ce_Message : string; ce_Cause : option goerror }.

Definition Cose_label (t : option CoseErrorType) : string :=
  match t with
  | Some CoseErrOversizedInput => "COSE oversized input: "
  | Some CoseErrNotACoseSign1 => "not a COSE_Sign1 structure: "
  | Some CoseErrCborDecode => "CBOR decode failed: "
  | Some CoseErrInvalidArrayLength => "invalid COSE_Sign1 array length: "
  | Some CoseErrInvalidSignatureLength => "invalid signature length: "
  | Some CoseErrInvalidProtectedHeader => "invalid protected header: "
  | Some CoseErrInvalidUnprotectedHeader => "invalid unprotected header: "
  | Some CoseErrUnsupportedAlgorithm => "unsupported COSE algorithm: "
  | Some CoseErrMissingKid => "missing key ID (kid): "
  | None => "COSE error: "
  end.

Definition CoseError_Error (e : CoseError) : string := Cose_label (ce_Type e) ++ ce_Message e.

(** [Kid] has four bytes. *)
Record SignatureError := MkSignatureError {
  se_Type : option SignatureErrorType; se_Message : string; se_Kid : list byte; se_Cause : option goerror
}.

Definition Signature_label (t : option SignatureErrorType) : string :=
  match t with
  | Some SigErrSignatureInvalid => "signature invalid [kid="
  | Some SigErrUnknownKeyID => "unknown key ID [kid="
  | Some SigErrIssuerMismatch => "issuer mismatch [kid="
  | Some SigErrInvalidKeyFormat => "invalid key format [kid="
  | Some SigErrKeyHashMismatch => "key hash mismatch [kid="
  | Some SigErrInvalidPublicKey => "invalid public key [kid="
  | Some SigErrUntrustedKeyDomain => "untrusted key domain [kid="
  | None => "signature error [kid="
  end.

Definition SignatureError_Error (e : SignatureError) : string :=
  let kidHex := hex_EncodeToString (se_Kid e) in
  Signature_label (se_Type e) ++ kidHex ++ "]: " ++ se_Message e.

Record MerkleError := MkMerkleError { me_Type : option MerkleErrorType; me_Message : string; me_Cause : option goerror }.

Definition Merkle_label (t : option MerkleErrorType) : string :=
  match t with
  | Some MerkleErrInvalidProof => "invalid inclusion proof: "
  | Some MerkleErrRootMismatch => "Merkle root mismatch: "
  | None => "Merkle error: "
  end.

Definition MerkleError_Error (e : MerkleError) : string := Merkle_label (me_Type e) ++ me_Message e.

Record TokenError := MkTokenError {
  ke_Type : option TokenErrorType; ke_Message : string; ke_Status : string; ke_Exp : Z; ke_Now : Z;
  ke_Cause : option goerror
}.

Definition Token_label (t : option TokenErrorType) : string :=
  match t with
  | Some TokenErrExpired => "token expired (exp="
  | Some TokenErrMissingField => "missing required field: "
  | Some TokenErrPayloadInvalid => "invalid token payload: "
  | Some TokenErrTerminalStatus => "terminal status ["
  | Some TokenErrPayloadEmpty => "token payload empty: "
  | None => "token error: "
  end.

Definition TokenError_Error (e : TokenError) : string :=
  Token_label (ke_Type e) ++
  match ke_Type e with
  | Some TokenErrExpired => FormatInt (ke_Exp e) ++ ", now=" ++ FormatInt (ke_Now e) ++ "): " ++ ke_Message e
  | Some TokenErrTerminalStatus => ke_Status e ++ "]: " ++ ke_Message e
  | _ => ke_Message e
  end.

Record TransportError := MkTransportError {
  pe_Type : option TransportErrorType; pe_Message : string; pe_StatusCode : Z; pe_Cause : option goerror
}.

Definition Transport_label (t : option TransportErrorType) : string :=
  match t with
  | Some TransportErrNotFound => "not found: "
  | Some TransportErrAgentTerminal => "agent terminal: "
  | Some TransportErrNotSupported => "not supported: "
  | Some TransportErrHTTPError => "HTTP error ("
  | Some TransportErrBase64Decode => "base64 decode failed: "
  | None => "transport error: "
  end.

Definition TransportError_Error (e : TransportError) : string :=
  Transport_label (pe_Type e) ++
  match pe_Type e with
  | Some TransportErrHTTPError => FormatInt (pe_StatusCode e) ++ "): " ++ pe_Message e
  | _ => pe_Message e
  end.

(** ** Any error value

    Where an error value of the model does not carry what its text shows, the text
    has the verb of the format in its place. *)

(** [fmt.Sprintf(format, ...)] of the [%w] verb. *)
Fixpoint wrapped (msg text : string) : string :=
  match msg with
  | String "%" (String "w" rest) => text ++ rest
  | String c rest => String c (wrapped rest text)
  | "" => ""
  end.

(** [ANSError.Error]. *)
Definition ANSError_Error (Code Message : string) (Cause : option string) : string :=
  match Cause with
  | Some cause => "[" ++ Code ++ "] " ++ Message ++ ": " ++ cause
  | None => "[" ++ Code ++ "] " ++ Message
  end.

Fixpoint Error (e : goerror) : string :=
  match e with
  | EPlain msg => msg
  | EWrap msg cause => wrapped msg (Error cause)
  | ERecordNotFound => "no matching badge record found"
  | EANS Code _ _ Message _ Cause =>
      ANSError_Error Code Message (match Cause with Some cause => Some (Error cause) | None => None end)
  | EDNS t fqdn reason => DNSError_Error (MkDNSError (Some t) fqdn reason)
  | ETlog t url reason code => TlogError_Error (MkTlogError (Some t) url reason code)
  | EDANE t fqdn reason => DANEError_Error (MkDANEError (Some t) fqdn reason)
  | EVerification t expected actual => VerificationError_Error (MkVerificationError (Some t) expected actual "")
  | ECose t cause => CoseError_Error (MkCoseError (Some t) "%s" cause)
  | ESignature t kid => SignatureError_Error (MkSignatureError (Some t) "%s" kid None)
  | EMerkle t => MerkleError_Error (MkMerkleError (Some t) "%s" None)
  | EToken t msg =>
      Token_label (Some t) ++
      (match t with TokenErrExpired => "%d, now=%d): " | TokenErrTerminalStatus => "%s]: " | _ => "" end) ++ msg
  | ETransport t code cause => TransportError_Error (MkTransportError (Some t) "%s" code cause)
  | ENet _ _ => "lookup %s: %s"
  end.

(** ** What a text tells *)

(** Two texts that differ before either ends. *)
Fixpoint apart (p q : string) : bool :=
  match p, q with
  | String c p, String d q => negb (Ascii.eqb c d) || apart p q
  | _, _ => false
  end.

Lemma apart_neq (p q a b : string) : apart p q = true -> p ++ a <> q ++ b.
Proof.
  revert q. induction p as [|c p IH]; intros [|d q]; try discriminate. cbn [apart String.append]. intros H [= -> E].
  rewrite Ascii.eqb_refl in H. exact (IH q H E).
Qed.

(** The labels of a list of types tell the types apart, whatever follows them. *)
Definition all_apart {T : Type} `{EqDecision T} (label : T -> string) (all : list T) : bool :=
  forallb (fun x => forallb (fun y => bool_decide (x = y) || apart (label x) (label y)) all) all.

Lemma label_inj {T : Type} `{EqDecision T} (label : T -> string) (all : list T) (x y : T) (a b : string) :
  all_apart label all = true -> In x all -> In y all -> label x ++ a = label y ++ b -> x = y /\ a = b.
Proof.
  unfold all_apart. intros H Hx Hy E. rewrite forallb_forall in H. specialize (H x Hx).
  rewrite forallb_forall in H. specialize (H y Hy). apply orb_true_iff in H as [H|H].
  - apply bool_decide_eq_true in H. subst y. split; [reflexivity | exact (str_app_inj_l _ _ _ E)].
  - destruct (apart_neq _ _ a b H E).
Qed.

#[export] Instance CoseErrorType_eq_dec : EqDecision CoseErrorType. Proof. solve_decision. Defined.
#[export] Instance SignatureErrorType_eq_dec : EqDecision SignatureErrorType. Proof. solve_decision. Defined.
#[export] Instance MerkleErrorType_eq_dec : EqDecision MerkleErrorType. Proof. solve_decision. Defined.
#[export] Instance TokenErrorType_eq_dec : EqDecision TokenErrorType. Proof. solve_decision. Defined.
#[export] Instance TransportErrorType_eq_dec : EqDecision TransportErrorType. Proof. solve_decision. Defined.

Lemma Cose_label_inj (x y : option CoseErrorType) (a b : string) :
  Cose_label x ++ a = Cose_label y ++ b -> x = y /\ a = b.
Proof.
  apply (label_inj Cose_label
    [None; Some CoseErrOversizedInput; Some CoseErrNotACoseSign1; Some CoseErrCborDecode; Some CoseErrInvalidArrayLength;
     Some CoseErrInvalidSignatureLength; Some CoseErrInvalidProtectedHeader; Some CoseErrInvalidUnprotectedHeader;
     Some CoseErrUnsupportedAlgorithm; Some CoseErrMissingKid]); [reflexivity|..].
  - destruct x as [[]|]; cbn; auto 12.
  - destruct y as [[]|]; cbn; auto 12.
Qed.

Lemma Signature_label_inj (x y : option SignatureErrorType) (a b : string) :
  Signature_label x ++ a = Signature_label y ++ b -> x = y /\ a = b.
Proof.
  apply (label_inj Signature_label
    [None; Some SigErrSignatureInvalid; Some SigErrUnknownKeyID; Some SigErrIssuerMismatch; Some SigErrInvalidKeyFormat;
     Some SigErrKeyHashMismatch; Some SigErrInvalidPublicKey; Some SigErrUntrustedKeyDomain]); [reflexivity|..].
  - destruct x as [[]|]; cbn; auto 12.
  - destruct y as [[]|]; cbn; auto 12.
Qed.

Lemma Merkle_label_inj (x y : option MerkleErrorType) (a b : string) :
  Merkle_label x ++ a = Merkle_label y ++ b -> x = y /\ a = b.
Proof.
  apply (label_inj Merkle_label [None; Some MerkleErrInvalidProof; Some MerkleErrRootMismatch]); [reflexivity|..].
  - destruct x as [[]|]; cbn; auto.
  - destruct y as [[]|]; cbn; auto.
Qed.

Lemma Token_label_inj (x y : option TokenErrorType) (a b : string) :
  Token_label x ++ a = Token_label y ++ b -> x = y /\ a = b.
Proof.
  apply (label_inj Token_label
    [None; Some TokenErrExpired; Some TokenErrMissingField; Some TokenErrPayloadInvalid; Some TokenErrTerminalStatus;
     Some TokenErrPayloadEmpty]); [reflexivity|..].
  - destruct x as [[]|]; cbn; auto 12.
  - destruct y as [[]|]; cbn; auto 12.
Qed.

Lemma Transport_label_inj (x y : option TransportErrorType) (a b : string) :
  Transport_label x ++ a = Transport_label y ++ b -> x = y /\ a = b.
Proof.
  apply (label_inj Transport_label
    [None; Some TransportErrNotFound; Some TransportErrAgentTerminal; Some TransportErrNotSupported;
     Some TransportErrHTTPError; Some TransportErrBase64Decode]); [reflexivity|..].
  - destruct x as [[]|]; cbn; auto 12.
  - destruct y as [[]|]; cbn; auto 12.
Qed.

(** A number and a mark that is no digit can be read back. *)
Lemma FormatInt_mark (m : ascii) (x y : Z) (a b : string) :
  is_digit m = false -> m <> "-"%char -> in_i64 x -> in_i64 y ->
  FormatInt x ++ String m a = FormatInt y ++ String m b -> x = y /\ a = b.
Proof.
  intros Hm Hd Hx Hy E.
  assert (N : forall z, contains_char m (FormatInt z) = false).
  { intros z. unfold FormatInt. destruct (z <? 0).
    - cbn [String.append]. unfold contains_char. cbn -[Ascii.eqb]. rewrite (proj2 (Ascii.eqb_neq _ _)) by congruence. cbn [negb andb].
      apply digits_no_char; [exact Hm | apply fmt_d_digits].
    - apply digits_no_char; [exact Hm | apply fmt_d_digits]. }
  apply (f_equal (fun s => Cut s m)) in E. rewrite !Cut_app in E by apply N. injection E as E ->.
  split; [|reflexivity]. apply (f_equal ParseInt64) in E. rewrite !ParseInt64_FormatInt in E by assumption. congruence.
Qed.

Lemma str_app_inj_length (p q a b : string) :
  p ++ a = q ++ b -> String.length p = String.length q -> p = q /\ a = b.
Proof.
  intros E Hl. revert q Hl E. induction p as [|c p IH]; intros [|d q]; try discriminate; cbn; [auto|].
  intros [= Hl] [= -> E]. destruct (IH q Hl E) as [-> ->]. auto.
Qed.

Lemma CoseError_text (e f : CoseError) :
  CoseError_Error e = CoseError_Error f <-> ce_Type e = ce_Type f /\ ce_Message e = ce_Message f.
Proof.
  unfold CoseError_Error. split; [apply Cose_label_inj | intros [-> ->]; reflexivity].
Qed.

Lemma MerkleError_text (e f : MerkleError) :
  MerkleError_Error e = MerkleError_Error f <-> me_Type e = me_Type f /\ me_Message e = me_Message f.
Proof.
  unfold MerkleError_Error. split; [apply Merkle_label_inj | intros [-> ->]; reflexivity].
Qed.

Lemma SignatureError_text (e f : SignatureError) :
  length (se_Kid e) = length (se_Kid f) ->
  SignatureError_Error e = SignatureError_Error f <->
  se_Type e = se_Type f /\ se_Kid e = se_Kid f /\ se_Message e = se_Message f.
Proof.
  intros Hl. unfold SignatureError_Error. cbv zeta. split; [|intros (-> & -> & ->); reflexivity].
  intros E. apply Signature_label_inj in E as [-> E].
  apply str_app_inj_length in E as [E1 E2]; [|rewrite !hex_Encode_length, Hl; reflexivity].
  apply (f_equal hex_DecodeString) in E1. rewrite !hex_roundtrip in E1. injection E1 as ->.
  injection E2 as ->. auto.
Qed.

Lemma TransportError_text (e f : TransportError) :
  in_i64 (pe_StatusCode e) -> in_i64 (pe_StatusCode f) ->
  TransportError_Error e = TransportError_Error f <->
  pe_Type e = pe_Type f /\ pe_Message e = pe_Message f /\
  (pe_Type e = Some TransportErrHTTPError -> pe_StatusCode e = pe_StatusCode f).
Proof.
  intros He Hf. unfold TransportError_Error. split.
  - intros E. apply Transport_label_inj in E as [Et E]. rewrite <- Et in E. split; [exact Et|].
    destruct (pe_Type e) as [[]|]; try (split; [exact E | discriminate]).
    apply FormatInt_mark in E as [-> E]; [|reflexivity|discriminate|exact He|exact Hf]. injection E as E. auto.
  - intros (-> & -> & K). destruct (pe_Type f) as [[]|]; try reflexivity. rewrite K by reflexivity. reflexivity.
Qed.

Lemma TokenError_text (e f : TokenError) :
  in_i64 (ke_Exp e) -> in_i64 (ke_Exp f) -> in_i64 (ke_Now e) -> in_i64 (ke_Now f) ->
  TokenError_Error e = TokenError_Error f ->
  ke_Type e = ke_Type f /\
  (ke_Type e <> Some TokenErrTerminalStatus -> ke_Message e = ke_Message f) /\
  (ke_Type e = Some TokenErrExpired -> ke_Exp e = ke_Exp f /\ ke_Now e = ke_Now f).
Proof.
  intros H1 H2 H3 H4. unfold TokenError_Error. intros E. apply Token_label_inj in E as [Et E].
  rewrite <- Et in E. split; [exact Et|].
  destruct (ke_Type e) as [[]|]; try (split; [intros _; exact E | discriminate]).
  - apply FormatInt_mark in E as [-> E]; [|reflexivity|discriminate|assumption..]. cbn [String.append] in E.
    injection E as E. apply FormatInt_mark in E as [-> E]; [|reflexivity|discriminate|assumption..].
    injection E as E. auto.
  - split; [congruence | discriminate].
Qed.

(** The error texts of the SCITT package tell everything they were made of: two errors
    of a type have the same text exactly when they are of the same kind and agree in
    message, key ID, HTTP status and times, as far as the kind's text has them. Only
    the status of a terminal token can be confused with its message. *)
Theorem scitt_error_texts :
  (forall e f, CoseError_Error e = CoseError_Error f <-> ce_Type e = ce_Type f /\ ce_Message e = ce_Message f) /\
  (forall e f, MerkleError_Error e = MerkleError_Error f <-> me_Type e = me_Type f /\ me_Message e = me_Message f) /\
  (forall e f, length (se_Kid e) = length (se_Kid f) ->
     SignatureError_Error e = SignatureError_Error f <->
     se_Type e = se_Type f /\ se_Kid e = se_Kid f /\ se_Message e = se_Message f) /\
  (forall e f, in_i64 (pe_StatusCode e) -> in_i64 (pe_StatusCode f) ->
     TransportError_Error e = TransportError_Error f <->
     pe_Type e = pe_Type f /\ pe_Message e = pe_Message f /\
     (pe_Type e = Some TransportErrHTTPError -> pe_StatusCode e = pe_StatusCode f)) /\
  (forall e f, in_i64 (ke_Exp e) -> in_i64 (ke_Exp f) -> in_i64 (ke_Now e) -> in_i64 (ke_Now f) ->
     TokenError_Error e = TokenError_Error f ->
     ke_Type e = ke_Type f /\
     (ke_Type e <> Some TokenErrTerminalStatus -> ke_Message e = ke_Message f) /\
     (ke_Type e = Some TokenErrExpired -> ke_Exp e = ke_Exp f /\ ke_Now e = ke_Now f)).
Proof.
  exact (conj CoseError_text (conj MerkleError_text (conj SignatureError_text (conj TransportError_text TokenError_text)))).
Qed.

(** The errors of the verifier: the kind can be read off the text; the name and the
    reason cannot always be told apart. *)
Theorem verify_error_kinds :
  (forall e f, DNSError_Error e = DNSError_Error f -> de_Type e = de_Type f) /\
  (forall e f, TlogError_Error e = TlogError_Error f -> te_Type e = te_Type f) /\
  (forall e f, DANEError_Error e = DANEError_Error f -> da_Type e = da_Type f) /\
  (forall e f, ve_Type e <> None -> ve_Type f <> None -> VerificationError_Error e = VerificationError_Error f ->
     ve_Type e = ve_Type f).
Proof.
  repeat split; intros [[[]|] ? ?] [[[]|] ? ?] || intros [[[]|] ? ? ?] [[[]|] ? ? ?]; try reflexivity; try contradiction.
  all: unfold DNSError_Error, TlogError_Error, DANEError_Error, VerificationError_Error; cbn -[String.append];
    try congruence; repeat case_match; intros; exfalso; try discriminate.
Qed.

Example same_text :
  DNSError_Error (MkDNSError (Some DNSErrorLookupFailed) "a: b" "") =
  DNSError_Error (MkDNSError (Some DNSErrorLookupFailed) "a" "b").
Proof. reflexivity. Qed.
