(* ===== verification/Diagnose.v ===== *)
(** Diagnosis ([ati/diagnose.go]): the verification chain for a host as a report of
    nine steps. *)

From S2P Require Import Prelude GoStrings Utf8 GoTime Encoding Errors Json TlogJson GoJson Models Records Resolver Merkle Seal Verifier Trust Cert Gold ErrorText.

#[local] Open Scope list_scope.
#[local] Open Scope string_scope.
#[local] Open Scope Z_scope.

(** ** [time.Duration.String]; a duration is in nanoseconds *)

(** [fmtFrac]: the last [prec] digits of [v] before [acc], without trailing zeros,
    and the rest of [v]. *)
Fixpoint fmtFrac (prec : nat) (v : Z) (started : bool) (acc : string) : string * Z :=
  match prec with
  | O => (if started then "." ++ acc else acc, v)
  | S prec =>
      let digit := v mod 10 in
      let started := started || negb (digit =? 0) in
      fmtFrac prec (v / 10) started (if started then fmt_d digit ++ acc else acc)
  end.

Definition micro_sign : string := String (ascii_of_nat 194) (String (ascii_of_nat 181) "").

Definition Duration_String (d : Z) : string :=
  let u := Z.abs d in
  let sign := if d <? 0 then "-" else "" in
  if u =? 0 then "0s"
  else if u <? second then
    let '(prec, suffix) := if u <? 1000 then (0%nat, "ns") else if u <? 1000000 then (3%nat, micro_sign ++ "s") else (6%nat, "ms") in
    let '(frac, u) := fmtFrac prec u false "" in
    sign ++ fmt_d u ++ frac ++ suffix
  else
    let '(frac, u) := fmtFrac 9 u false "" in
    let secs := fmt_d (u mod 60) ++ frac ++ "s" in
    let u := u / 60 in
    if u =? 0 then sign ++ secs
    else
      let mins := fmt_d (u mod 60) ++ "m" ++ secs in
      let u := u / 60 in
      if u =? 0 then sign ++ mins else sign ++ fmt_d u ++ "h" ++ mins.

Example durations :
  map Duration_String [0; 999; 1500; 2030000; 1000000000; 61500000000; -3600000000000] =
  ["0s"; "999ns"; "1.5" ++ micro_sign ++ "s"; "2.03ms"; "1s"; "1m1.5s"; "-1h0m0s"].
Proof. vm_compute. reflexivity. Qed.

(** ** Reports *)

Record DiagnoseStep := MkStep {
  ds_Name : string; ds_Status : string; ds_Duration : string; ds_Detail : string; ds_Error : string
}.
Record DiagnoseResult := MkDiagnosis {
  dx_Host : string; dx_Timestamp : string; dx_Steps : list DiagnoseStep; dx_Summary : string
}.

Definition newline : string := String (ascii_of_nat 10) "".
Fixpoint repeat_string (s : string) (n : nat) : string :=
  match n with O => "" | S n => s ++ repeat_string s n end.

(** [%-30s]: padded to 30 characters, invalid bytes counted as one each. *)
Definition pad_right (width : nat) (s : string) : string := s ++ repeat_string " " (width - length (runes s)).

Definition step_icon (status : string) : string :=
  if String.eqb status "PASS" then "OK" else if String.eqb status "FAIL" then "FAIL"
  else if String.eqb status "SKIP" then "SKIP" else "?".

Definition step_lines (i : nat) (step : DiagnoseStep) : string :=
  "[" ++ fmt_d (Z.of_nat i + 1) ++ "] " ++ pad_right 30 (ds_Name step) ++ " [" ++ step_icon (ds_Status step) ++ "] (" ++
    ds_Duration step ++ ")" ++ newline ++
  (if negb (String.eqb (ds_Detail step) "") then "    " ++ ds_Detail step ++ newline else "") ++
  (if negb (String.eqb (ds_Error step) "") then "    Error: " ++ ds_Error step ++ newline else "").

Fixpoint steps_lines (i : nat) (steps : list DiagnoseStep) : string :=
  match steps with [] => "" | step :: steps => step_lines i step ++ steps_lines (S i) steps end.

Definition DiagnoseResult_String (r : DiagnoseResult) : string :=
  "ATI Diagnostic Report for " ++ dx_Host r ++ newline ++
  "Time: " ++ dx_Timestamp r ++ newline ++
  repeat_string "-" 60 ++ newline ++
  steps_lines 0 (dx_Steps r) ++
  repeat_string "-" 60 ++ newline ++
  "Result: " ++ dx_Summary r ++ newline.

(** The value [json.MarshalIndent] writes; a report of [Diagnose] has steps. *)
Definition step_json (step : DiagnoseStep) : json :=
  JObject ([("name", JString (ds_Name step)); ("status", JString (ds_Status step));
            ("duration", JString (ds_Duration step))] ++
           (if String.eqb (ds_Detail step) "" then [] else [("detail", JString (ds_Detail step))]) ++
           (if String.eqb (ds_Error step) "" then [] else [("error", JString (ds_Error step))]))%list.
Definition diagnosis_json (r : DiagnoseResult) : json :=
  JObject [("host", JString (dx_Host r)); ("timestamp", JString (dx_Timestamp r));
           ("steps", match dx_Steps r with [] => JNull | steps => JArray (map step_json steps) end);
           ("summary", JString (dx_Summary r))].

(** [json.Indent] with two spaces. *)
Fixpoint print_indent (depth : nat) (j : json) : string :=
  let line d := newline ++ repeat_string "  " d in
  match j with
  | JArray ((_ :: _) as l) =>
      "[" ++ line (S depth) ++ Join (map (print_indent (S depth)) l) ("," ++ line (S depth)) ++ line depth ++ "]"
  | JObject ((_ :: _) as ms) =>
      "{" ++ line (S depth) ++
      Join (map (fun m => quote (fst m) ++ ": " ++ print_indent (S depth) (snd m)) ms) ("," ++ line (S depth)) ++
      line depth ++ "}"
  | _ => print j
  end.

Definition DiagnoseResult_JSON (r : DiagnoseResult) : string := print_indent 0 (diagnosis_json r).

(** ** The steps *)

(** [s[:maxLen]] counts bytes. *)
Definition sanitize (s : string) (maxLen : nat) : string :=
  if (String.length s <=? maxLen)%nat then s else str_take maxLen s ++ "...".

Definition no_response (name detail : string) : DiagnoseStep := MkStep name "SKIP" "0s" detail "".

Section Diagnose.
Context `{UnicodeTables} `{SignatureLib} {R T : Type} `{DNSResolver R} `{TransparencyLogClient T}.

(** The resolver and the log client are the values the lookups thread. *)
Record diagnoseConfig := MkDiagnoseConfig { dg_dnsResolver : R; dg_tlogClient : T; dg_tlBaseURL : string }.

Definition DiagnoseOption : Type := diagnoseConfig -> diagnoseConfig.
Definition WithDiagnoseDNSResolver (r : R) : DiagnoseOption := fun c => MkDiagnoseConfig r (dg_tlogClient c) (dg_tlBaseURL c).
Definition WithDiagnoseTLogClient (t : T) : DiagnoseOption := fun c => MkDiagnoseConfig (dg_dnsResolver c) t (dg_tlBaseURL c).
Definition withDiagnoseTLBaseURL (url : string) : DiagnoseOption := fun c =>
  MkDiagnoseConfig (dg_dnsResolver c) (dg_tlogClient c) url.

(** Each step with its outcome; [d] is its duration. *)
Definition discovery_step (d : string) (r : result goerror ATIDiscoveryResult) : DiagnoseStep * (string + ATIRecord) :=
  let step := MkStep "DNS Discovery (_ati TXT)" in
  match r with
  | Err err => (step "FAIL" d "" (Error err), inl "FAIL (DNS discovery error)")
  | Ok result =>
      match ad_Found result, ad_Records result with
      | true, rec :: _ =>
          (step "PASS" d ("AgentID: " ++ sanitize (rec_ID rec) 12 ++ ", Mode: " ++ ATIRecordMode_String (rec_Mode rec)) "",
           inr rec)
      | _, _ => (step "FAIL" d "" "no _ati TXT record found", inl "FAIL (not an ATI agent)")
      end
  end.

Definition badge_step (d : string) (r : result goerror (option ATIBadgeRecord)) : DiagnoseStep :=
  let step := MkStep "DNS Badge Lookup (_ati-badge)" in
  match r with
  | Err err => step "SKIP" d "no badge record found (non-fatal)" (Error err)
  | Ok None => step "SKIP" d "no badge record found (non-fatal)" ""
  | Ok (Some rec) => step "PASS" d ("URL: " ++ sanitize (br_URL rec) 50) ""
  end.

Definition fetch_step (d : string) (r : result goerror TLResponse) : DiagnoseStep :=
  let step := MkStep "TL Response Fetch" in
  match r with
  | Err err => step "FAIL" d "" (Error err)
  | Ok r => step "PASS" d ("Status: " ++ Status r ++ ", Agent: " ++ sanitize (AgentName (Payload r)) 30) ""
  end.

Definition seal_step (d : string) (tlResp : option TLResponse) : DiagnoseStep :=
  let name := "Seal Signature" in
  match tlResp with
  | None => no_response name "no TL response to verify"
  | Some r =>
      match VerifySealSignature (Some r) None with
      | Err err => MkStep name "FAIL" d "" (Error err)
      | Ok _ => MkStep name "PASS" d
          ("Algorithm: " ++ SignatureAlgorithm (Seal r) ++ ", KeyID: " ++ sanitize (KeyID (Seal r)) 20) ""
      end
  end.

Definition merkle_step (d : string) (tlResp : option TLResponse) : DiagnoseStep :=
  let name := "Merkle Inclusion Proof" in
  match tlResp with
  | None => no_response name "no TL response to verify"
  | Some r =>
      match VerifyInclusionProof (Some r) with
      | Err err => MkStep name "FAIL" d "" (Error err)
      | Ok _ => MkStep name "PASS" d
          ("TreeSize: " ++ FormatInt (TreeSize (tr_MerkleProof r)) ++ ", LeafIndex: " ++
           FormatInt (LeafIndex (tr_MerkleProof r))) ""
      end
  end.

(** No signature is checked. *)
Definition producer_step (d : string) (tlResp : option TLResponse) : DiagnoseStep :=
  let name := "Producer Signature" in
  match tlResp with
  | None => no_response name "no TL response"
  | Some r =>
      MkStep name "SKIP" d
        (if SignatureRequired (tr_EvidenceRef r)
         then "SubmitterID: " ++ sanitize (SubmitterID (tr_EvidenceRef r)) 20 ++ " (no keys configured for verification)"
         else "signatureRequired=false, producer signature not required") ""
  end.

Definition fingerprint_detail (label fp : string) : list string :=
  if String.eqb fp "" then [] else [label ++ ": " ++ sanitize fp 20 ++ "..."].

Definition fingerprints_step (tlResp : option TLResponse) : DiagnoseStep :=
  let name := "Certificate Fingerprints" in
  match tlResp with
  | None => no_response name "no TL response"
  | Some r =>
      let p := Payload r in
      let idFP := IdentityCertFingerprint p in
      let srvFP := ServerCertFingerprint p in
      if negb (String.eqb idFP "") || negb (String.eqb srvFP "") then
        MkStep name "PASS" "0s"
          (Join (fingerprint_detail "Identity" idFP ++
                 fingerprint_detail "Previous Identity" (PreviousIdentityCertFingerprint p) ++
                 fingerprint_detail "Server" srvFP ++
                 fingerprint_detail "Previous Server" (PreviousServerCertFingerprint p))%list ", ") ""
      else no_response name "no certificate fingerprints in payload"
  end.

Definition status_step (tlResp : option TLResponse) : DiagnoseStep :=
  let name := "Agent Status" in
  match tlResp with
  | None => no_response name "no TL response"
  | Some r =>
      let agentStatus := AgentStatus (Payload r) in
      if String.eqb agentStatus "" then no_response name "no agent status in payload"
      else
        let status := ToUpper agentStatus in
        if TL_IsTerminal status
        then MkStep name "FAIL" "0s" ("AgentStatus: " ++ agentStatus)
               ("agent status " ++ status ++ " does not allow connections")
        else MkStep name "PASS" "0s" ("AgentStatus: " ++ agentStatus) ""
  end.

(** [allPass] is cleared exactly by the steps that fail. *)
Definition failed (step : DiagnoseStep) : bool := String.eqb (ds_Status step) "FAIL".
Definition summary_of (steps : list DiagnoseStep) : string :=
  if existsb failed steps then "PARTIAL FAIL" else "ALL PASS".

Definition diagnose_config (dns : R) (tlog : T) (opts : list DiagnoseOption) : diagnoseConfig :=
  fold_left (fun c opt => opt c) opts (MkDiagnoseConfig dns tlog "https://ati-tl.cnnic.cn/ati/api/v1").

(** [elapsed i] is what step [i] takes on the clock, [timestamp] its reading in UTC; the
    error that is returned is always nil. *)
Definition Diagnose (dns : R) (tlog : T) (elapsed : nat -> Z) (timestamp : Time) (host : string) (opts : list DiagnoseOption)
  : DiagnoseResult * (R * T) :=
  let cfg := diagnose_config dns tlog opts in
  let dns := dg_dnsResolver cfg in
  let tlog := dg_tlogClient cfg in
  let d i := Duration_String (elapsed i) in
  let report := MkDiagnosis host (Format_RFC3339 timestamp) in
  match NewFqdn host with
  | Err err => (report [MkStep "Host Validation" "FAIL" (d 1%nat) "" (Error err)] "FAIL (invalid host)", (dns, tlog))
  | Ok fqdn =>
      let step1 := MkStep "Host Validation" "PASS" (d 1%nat) ("FQDN: " ++ Fqdn_String fqdn) "" in
      let '(discoveryResult, dns) := dns_LookupATIDiscovery dns fqdn in
      let '(step2, found) := discovery_step (d 2%nat) discoveryResult in
      match found with
      | inl summary => (report [step1; step2] summary, (dns, tlog))
      | inr rec =>
          let '(badgeRecord, dns) := dns_FindPreferredBadge dns fqdn in
          let step3 := badge_step (d 3%nat) badgeRecord in
          let '(fetched, tlog) := FetchTLResponse tlog (dg_tlBaseURL cfg ++ "/tl/agents/" ++ rec_ID rec ++ "/logs/latest") in
          let step4 := fetch_step (d 4%nat) fetched in
          let tlResp := match fetched with Ok r => Some r | Err _ => None end in
          let steps := [step1; step2; step3; step4; seal_step (d 5%nat) tlResp; merkle_step (d 6%nat) tlResp;
                        producer_step (d 7%nat) tlResp; fingerprints_step tlResp; status_step tlResp] in
          (report steps (summary_of steps), (dns, tlog))
      end
  end.

(** ** What a report says *)

(** What the steps of a report are about. *)
Definition step_names : list string :=
  ["Host Validation"; "DNS Discovery (_ati TXT)"; "DNS Badge Lookup (_ati-badge)"; "TL Response Fetch"; "Seal Signature";
   "Merkle Inclusion Proof"; "Producer Signature"; "Certificate Fingerprints"; "Agent Status"].

(** The response the log gives for the host. *)
Definition response_for (cfg : diagnoseConfig) (host : string) (r : TLResponse) : Prop :=
  exists fqdn result rec rest,
    NewFqdn host = Ok fqdn /\ fst (dns_LookupATIDiscovery (dg_dnsResolver cfg) fqdn) = Ok result /\
    ad_Found result = true /\ ad_Records result = rec :: rest /\
    fst (FetchTLResponse (dg_tlogClient cfg) (dg_tlBaseURL cfg ++ "/tl/agents/" ++ rec_ID rec ++ "/logs/latest")) = Ok r.

(** The response is sealed by the key it embeds, included in its tree, and not revoked. *)
Definition self_consistent (r : TLResponse) : Prop :=
  VerifySealSignature (Some r) None = Ok tt /\ VerifyInclusionProof (Some r) = Ok tt /\
  TL_IsTerminal (ToUpper (AgentStatus (Payload r))) = false.

Lemma steps_of_response (d : nat -> string) (s1 s2 s3 : DiagnoseStep) (r : TLResponse) :
  failed s1 = false -> failed s2 = false -> failed s3 = false ->
  existsb failed [s1; s2; s3; fetch_step (d 4%nat) (Ok r); seal_step (d 5%nat) (Some r); merkle_step (d 6%nat) (Some r);
                  producer_step (d 7%nat) (Some r); fingerprints_step (Some r); status_step (Some r)] = false <->
  self_consistent r.
Proof.
  intros F1 F2 F3. unfold self_consistent. cbn [existsb]. rewrite F1, F2, F3.
  assert (E1 : failed (seal_step (d 5%nat) (Some r)) = false <-> VerifySealSignature (Some r) None = Ok tt).
  { unfold seal_step. destruct (VerifySealSignature _ _) as [[]|]; cbn; intuition discriminate. }
  assert (E2 : failed (merkle_step (d 6%nat) (Some r)) = false <-> VerifyInclusionProof (Some r) = Ok tt).
  { unfold merkle_step. destruct (VerifyInclusionProof _) as [[]|]; cbn; intuition discriminate. }
  assert (E3 : failed (fingerprints_step (Some r)) = false).
  { unfold fingerprints_step. destruct (_ || _); reflexivity. }
  assert (E4 : failed (status_step (Some r)) = false <-> TL_IsTerminal (ToUpper (AgentStatus (Payload r))) = false).
  { unfold status_step. destruct (String.eqb_spec (AgentStatus (Payload r)) "") as [->|_]; [cbn; tauto|].
    destruct (TL_IsTerminal _); cbn; intuition discriminate. }
  rewrite E3, <- E1, <- E2, <- E4. cbn. rewrite !orb_false_iff. intuition.
Qed.

Theorem Diagnose_report (dns : R) (tlog : T) (elapsed : nat -> Z) (timestamp : Time) (host : string)
    (opts : list DiagnoseOption) :
  let cfg := diagnose_config dns tlog opts in
  let report := fst (Diagnose dns tlog elapsed timestamp host opts) in
  dx_Host report = host /\
  (exists n, In n [1; 2; 9]%nat /\ map ds_Name (dx_Steps report) = firstn n step_names) /\
  (dx_Summary report = "ALL PASS" <-> existsb failed (dx_Steps report) = false) /\
  (dx_Summary report = "ALL PASS" <-> exists r, response_for cfg host r /\ self_consistent r).
Proof.
  cbv zeta. unfold Diagnose, response_for. cbv zeta. set (cfg := diagnose_config _ _ _).
  destruct (NewFqdn host) as [fqdn|err] eqn:En.
  2: { cbn. split; [reflexivity|]. split; [exists 1%nat; auto|]. split; [split; discriminate|].
    split; [discriminate|]. intros (r & (? & ? & ? & ? & K & _) & _). discriminate K. }
  destruct (dns_LookupATIDiscovery (dg_dnsResolver cfg) fqdn) as [disc dns'] eqn:Ed.
  assert (G : (exists rec step2, discovery_step (Duration_String (elapsed 2%nat)) disc = (step2, inr rec) /\ failed step2 = false /\
      ds_Name step2 = "DNS Discovery (_ati TXT)" /\
      exists result rest, disc = Ok result /\ ad_Found result = true /\ ad_Records result = rec :: rest) \/
    (exists summary step2, discovery_step (Duration_String (elapsed 2%nat)) disc = (step2, inl summary) /\ failed step2 = true /\
      ds_Name step2 = "DNS Discovery (_ati TXT)" /\ summary <> "ALL PASS" /\
      forall result rec rest, disc = Ok result -> ad_Found result = true -> ad_Records result <> rec :: rest)).
  { unfold discovery_step. destruct disc as [result|err].
    2: { right. do 2 eexists. repeat split; [discriminate|]. intros; discriminate. }
    destruct (ad_Found result) eqn:Ef; [destruct (ad_Records result) as [|rec rest] eqn:Er|].
    - right. do 2 eexists. repeat split; [discriminate|]. congruence.
    - left. do 2 eexists. repeat split; eauto.
    - right. do 2 eexists. repeat split; [discriminate|]. congruence. }
  destruct G as [(rec & step2 & -> & F2 & N2 & dr & rest & -> & Ef & Er) |
    (summary & step2 & -> & F2 & N2 & Hs & Hno)].
  2: { cbn. rewrite N2, F2. split; [reflexivity|]. split; [exists 2%nat; auto|].
    split; [split; [contradiction | discriminate]|]. split; [contradiction|].
    intros (r & (f & result & rec & rest & [= <-] & K & K1 & K2 & _) & _). rewrite Ed in K. cbn in K.
    destruct (Hno _ _ _ K K1 K2). }
  destruct (dns_FindPreferredBadge dns' fqdn) as [badge dns''].
  destruct (FetchTLResponse _ _) as [fetched tlog'] eqn:Et. cbn [fst dx_Host dx_Steps dx_Summary].
  assert (F3 : failed (badge_step (Duration_String (elapsed 3%nat)) badge) = false) by (destruct badge as [[]|]; reflexivity).
  assert (N3 : ds_Name (badge_step (Duration_String (elapsed 3%nat)) badge) = "DNS Badge Lookup (_ati-badge)")
    by (destruct badge as [[]|]; reflexivity).
  split; [reflexivity|]. split; [exists 9%nat; split; [cbn; auto|] |].
  { cbn [map firstn step_names]. rewrite N2, N3. destruct fetched as [r|err]; [|reflexivity].
    unfold fetch_step, seal_step, merkle_step, producer_step, fingerprints_step, status_step.
    repeat f_equal; repeat case_match; reflexivity. }
  unfold summary_of. split; [destruct (existsb _ _); split; (reflexivity || discriminate)|].
  assert (Hr : forall r, fetched = Ok r <-> exists f res rc rs, (Ok fqdn : result goerror Fqdn) = Ok f /\
    fst (dns_LookupATIDiscovery (dg_dnsResolver cfg) f) = Ok res /\ ad_Found res = true /\ ad_Records res = rc :: rs /\
    fst (FetchTLResponse (dg_tlogClient cfg) (dg_tlBaseURL cfg ++ "/tl/agents/" ++ rec_ID rc ++ "/logs/latest")) = Ok r).
  { intros r. split.
    - intros ->. exists fqdn, dr, rec, rest. rewrite Ed, Et. auto.
    - intros (f & res & rc & rs & [= <-] & K & _ & K2 & K3). rewrite Ed in K. injection K as <-.
      rewrite Er in K2. injection K2 as <- <-. rewrite Et in K3. exact K3. }
  transitivity (exists r, fetched = Ok r /\ self_consistent r);
    [|split; intros (r & K & K'); exists r; (split; [apply Hr, K | exact K'])].
  destruct fetched as [r|err].
  2: { cbn. rewrite F2, F3. cbn. split; [discriminate|]. intros (r & K & _). discriminate K. }
  pose proof (steps_of_response (fun i => Duration_String (elapsed i))
    (MkStep "Host Validation" "PASS" (Duration_String (elapsed 1%nat)) ("FQDN: " ++ Fqdn_String fqdn) "") step2
    (badge_step (Duration_String (elapsed 3%nat)) badge) r eq_refl F2 F3) as S.
  cbv beta in S. destruct (existsb _ _).
  - split; [discriminate|]. intros (r' & [= <-] & K). apply S in K. discriminate K.
  - split; [intros _; exists r; split; [reflexivity | apply S; reflexivity] | reflexivity].
Qed.

(** C36: The diagnosis agrees with Gold verification without trusted keys: Gold connects
    exactly when every step passes, the discovered agent has an ID, and the log
    attests the certificate. *)
Theorem Diagnose_VerifyGold (dns : R) (tlog : T) (elapsed : nat -> Z) (timestamp : Time) (host : string) (fqdn : Fqdn)
    (now : Z) (cert : CertIdentity) (Hh : NewFqdn host = Ok fqdn) :
  let cfg := MkGoldConfig "" None None None in
  vr_Connected (fst (VerifyGold now fqdn cert cfg (dns, tlog))) = true <->
  dx_Summary (fst (Diagnose dns tlog elapsed timestamp host [])) = "ALL PASS" /\
  exists r st', gold_fetched fqdn cfg (dns, tlog) r st' /\ fingerprint_attested r cert.
Proof.
  cbv zeta. set (cfg := MkGoldConfig _ _ _ _).
  destruct (Diagnose_report dns tlog elapsed timestamp host []) as (_ & _ & _ & ->).
  assert (Hf : forall r st', gold_fetched fqdn cfg (dns, tlog) r st' ->
    forall r', response_for (diagnose_config dns tlog []) host r' <-> r' = r).
  { intros r [dns' tlog'] (result & rec & rest & K1 & K2 & K3 & _ & K5) r'. cbn [fst snd] in *. split.
    - intros (f & res & rc & rs & E1 & E2 & E3 & E4 & E5). rewrite Hh in E1. injection E1 as <-.
      cbn in E2, E5. rewrite K1 in E2. injection E2 as <-. rewrite K3 in E4. injection E4 as <- <-.
      change (dg_tlBaseURL _ ++ ?t) with (gold_url cfg (rec_ID rec)) in E5.
      unfold gold_url in K5. cbn in K5, E5. rewrite K5 in E5. cbn in E5. congruence.
    - intros ->. exists fqdn, result, rec, rest. cbn. rewrite K1. repeat (split; [assumption || reflexivity|]).
      unfold gold_url in K5. cbn in K5. rewrite K5. reflexivity. }
  destruct (VerifyGold_cases now fqdn cert cfg (dns, tlog)) as [(r & Hg & ->) | (Hn & e & -> & _)].
  - rewrite check_gold_connected. unfold attested. cbn [gc_TLKeyStore gc_TLPublicKey gc_ProducerKeys cfg sealErr producerErr].
    rewrite matchFingerprint_ok. specialize (Hf r _ Hg) as Hr. split.
    + intros ((S1 & S2 & _ & S3) & S4). split; [exists r; split; [apply Hr; reflexivity | repeat split; assumption]|].
      exists r. eexists. split; [exact Hg | exact S3].
    + intros ((r1 & K1 & S1 & S2 & S3) & r2 & st2 & K2 & S4). apply Hr in K1 as ->.
      specialize (Hf r2 st2 K2) as Hr2. assert (r2 = r) as -> by (symmetry; apply Hr2, Hr; reflexivity). auto.
  - cbn. split; [discriminate|]. intros (_ & r & st' & K & _). destruct (Hn r st' K).
Qed.
End Diagnose.

(** ** Examples *)

Section Examples.
#[local] Existing Instance plain_tables.
#[local] Existing Instance symbolic_signatures.
#[local] Existing Instance example_dns.

(** The entry of the Gold examples, with its key embedded. *)
Definition self_sealed (status : string) : TLResponse :=
  parsed (with_quotes ("{'status':'OK','schemaVersion':'V1','payload':{'agentId':'a1','agentName':'n','agentStatus':'" ++ status ++
    "','certificates':{'identityCertFingerprint':'SHA256:" ++ zeros_hex ++ "'}},'evidenceRef':{}," ++
    "'seal':{'keyId':'k1','publicKey':'PE\u0001','signatureAlgorithm':'ES256','signature':'" ++ gold_signature status ++ "'}," ++
    "'merkleProof':{'leafHash':'" ++ zeros_hex ++ "','rootHash':'" ++ zeros_hex ++ "','treeSize':1}}")).
#[local] Instance self_log : TransparencyLogClient string := {|
  FetchTLResponse status url := (Ok (self_sealed status), status)
|}.

Definition diagnosed (status : string) : DiagnoseResult :=
  fst (Diagnose tt status (fun i => Z.of_nat i * 1000000) (MkTime 2026 3 1 12 0 0 0 0) "agent.example.com" []).

Example reports :
  map (fun s => (dx_Summary (diagnosed s), map ds_Status (dx_Steps (diagnosed s)))) ["ACTIVE"; "revoked"; ""] =
  [("ALL PASS", ["PASS"; "PASS"; "SKIP"; "PASS"; "PASS"; "PASS"; "SKIP"; "PASS"; "PASS"]);
   ("PARTIAL FAIL", ["PASS"; "PASS"; "SKIP"; "PASS"; "PASS"; "PASS"; "SKIP"; "PASS"; "FAIL"]);
   ("ALL PASS", ["PASS"; "PASS"; "SKIP"; "PASS"; "PASS"; "PASS"; "SKIP"; "PASS"; "SKIP"])].
Proof. vm_compute. reflexivity. Qed.

Example badge_lines :
  option_map (step_lines 2) (nth_error (dx_Steps (diagnosed "ACTIVE")) 2) =
  Some ("[3] DNS Badge Lookup (_ati-badge)  [SKIP] (3ms)" ++ newline ++ "    no badge record found (non-fatal)" ++ newline ++
        "    Error: no matching badge record found" ++ newline).
Proof. vm_compute. reflexivity. Qed.

Example report_json :
  DiagnoseResult_JSON (MkDiagnosis "h" "t" [MkStep "n" "PASS" "0s" "" "<e>"] "s") =
  Join (map with_quotes ["{"; "  'host': 'h',"; "  'timestamp': 't',"; "  'steps': ["; "    {"; "      'name': 'n',";
        "      'status': 'PASS',"; "      'duration': '0s',"; "      'error': '\u003ce\u003e'"; "    }"; "  ],";
        "  'summary': 's'"; "}"]) newline.
Proof. vm_compute. reflexivity. Qed.

Lemma Diagnose_VerifyGold_witness :
  vr_Connected (fst (VerifyGold 0 example_fqdn example_cert (MkGoldConfig "" None None None) (tt, "ACTIVE"))) = true /\
  dx_Summary (diagnosed "ACTIVE") = "ALL PASS".
Proof.
  assert (E : vr_Connected (fst (VerifyGold 0 example_fqdn example_cert (MkGoldConfig "" None None None) (tt, "ACTIVE"))) = true)
    by (vm_compute; reflexivity).
  split; [exact E|].
  apply (Diagnose_VerifyGold tt "ACTIVE" (fun i => Z.of_nat i * 1000000) (MkTime 2026 3 1 12 0 0 0 0) "agent.example.com"
    example_fqdn 0 example_cert eq_refl) in E as [K _]. exact K.
Defined.
End Examples.
