(* ===== verification/Options.v ===== *)
(** The options of the verifiers ([verify/options.go]) and how the verifiers are built
    from them: which options decide, in which order, and which are never read. *)

From S2P Require Import Prelude GoStrings Errors Models Seal Trust AgentCard Ocsp Session BadgeCache Cose KeyStore Outcome Cert Headers Verifier.

#[local] Open Scope list_scope.
#[local] Open Scope string_scope.
#[local] Open Scope Z_scope.

Section Options.
Context `{UnicodeTables} `{SignatureLib} `{CborLib} `{CryptoLib} {R T D : Type}
  `{DNSResolver R} `{TransparencyLogClient T} `{DANEResolver D}.

(** The settings of the extended verification (spec 9.4). *)
Record extendedConfig := MkExtended {
  ex_trustPolicy : option TrustPolicy; ex_producerKeys : option ProducerKeyLookup;
  ex_agentCardVerifier : option AgentCardVerifier; ex_sessionMonitor : option SessionMonitor;
  ex_ocspChecker : option OCSPChecker; ex_parallelFetch : bool; ex_offlineMode : bool
}.

(** [verifierConfig]: the settings the verifiers read; the services and the cache;
    the SCITT keys; the extended settings. The logger is not modelled. *)
Record fullConfig := MkFullConfig {
  fc_core : verifierConfig; fc_env : env R T D; fc_scittKeyLookup : option KeyLookup; fc_extended : extendedConfig
}.

(** One constructor per option. The resolver and the log client may not be nil. *)
Inductive Option_ :=
| WithDNSResolver (r : R)
| WithTlogClient (t : T)
| WithCache (cache : option BadgeCache)
| WithCacheConfig (cfg : CacheConfig)
| WithFailurePolicy (policy : FailurePolicy)
| WithFailurePolicyConfig (cfg : FailurePolicyConfig)
| WithTrustedRADomains (domains : list string)
| WithoutURLValidation
| WithTrustedTLHost (host : string)
| WithDANEResolver (d : option D)
| WithScittKeyLookup (kl : option KeyLookup)
| WithClockSkewTolerance (d : Z)
| WithLogger
| WithTrustPolicy (tp : option TrustPolicy)
| WithProducerKeys (keys : option ProducerKeyLookup)
| WithAgentCardVerifier (v : option AgentCardVerifier)
| WithSessionMonitor (sm : option SessionMonitor)
| WithOCSPCheckerOption (checker : option OCSPChecker)
| WithParallelFetch (enabled : bool)
| WithOfflineMode (enabled : bool).

Definition set_core (f : verifierConfig -> verifierConfig) (c : fullConfig) : fullConfig :=
  MkFullConfig (f (fc_core c)) (fc_env c) (fc_scittKeyLookup c) (fc_extended c).
Definition set_env (f : env R T D -> env R T D) (c : fullConfig) : fullConfig :=
  MkFullConfig (fc_core c) (f (fc_env c)) (fc_scittKeyLookup c) (fc_extended c).
Definition set_extended (f : extendedConfig -> extendedConfig) (c : fullConfig) : fullConfig :=
  MkFullConfig (fc_core c) (fc_env c) (fc_scittKeyLookup c) (f (fc_extended c)).

Definition apply_option (o : Option_) : fullConfig -> fullConfig :=
  match o with
  | WithDNSResolver r => set_env (fun e => MkEnv r (e_tlog e) (e_dane e) (e_cache e))
  | WithTlogClient t => set_env (fun e => MkEnv (e_dns e) t (e_dane e) (e_cache e))
  | WithCache cache => set_env (fun e => with_cache e cache)
  | WithCacheConfig cfg => set_env (fun e => with_cache e (Some (NewBadgeCache cfg)))
  | WithFailurePolicy policy => set_core (Verifier.WithFailurePolicy policy)
  | WithFailurePolicyConfig cfg =>
      set_core (fun c => MkConfig (cf_failurePolicy c) cfg (cf_trustedTLHost c) (cf_clockSkewTolerance c))
  | WithTrustedRADomains _ => fun c => c
  | WithoutURLValidation => fun c => c
  | WithTrustedTLHost host => set_core (Verifier.WithTrustedTLHost host)
  | WithDANEResolver d => set_env (fun e => MkEnv (e_dns e) (e_tlog e) d (e_cache e))
  | WithScittKeyLookup kl => fun c => MkFullConfig (fc_core c) (fc_env c) kl (fc_extended c)
  | WithClockSkewTolerance d => set_core (Verifier.WithClockSkewTolerance d)
  | WithLogger => fun c => c
  | WithTrustPolicy tp => set_extended (fun x => MkExtended tp (ex_producerKeys x) (ex_agentCardVerifier x)
      (ex_sessionMonitor x) (ex_ocspChecker x) (ex_parallelFetch x) (ex_offlineMode x))
  | WithProducerKeys keys => set_extended (fun x => MkExtended (ex_trustPolicy x) keys (ex_agentCardVerifier x)
      (ex_sessionMonitor x) (ex_ocspChecker x) (ex_parallelFetch x) (ex_offlineMode x))
  | WithAgentCardVerifier v => set_extended (fun x => MkExtended (ex_trustPolicy x) (ex_producerKeys x) v
      (ex_sessionMonitor x) (ex_ocspChecker x) (ex_parallelFetch x) (ex_offlineMode x))
  | WithSessionMonitor sm => set_extended (fun x => MkExtended (ex_trustPolicy x) (ex_producerKeys x)
      (ex_agentCardVerifier x) sm (ex_ocspChecker x) (ex_parallelFetch x) (ex_offlineMode x))
  | WithOCSPCheckerOption checker => set_extended (fun x => MkExtended (ex_trustPolicy x) (ex_producerKeys x)
      (ex_agentCardVerifier x) (ex_sessionMonitor x) checker (ex_parallelFetch x) (ex_offlineMode x))
  | WithParallelFetch enabled => set_extended (fun x => MkExtended (ex_trustPolicy x) (ex_producerKeys x)
      (ex_agentCardVerifier x) (ex_sessionMonitor x) (ex_ocspChecker x) enabled (ex_offlineMode x))
  | WithOfflineMode enabled => set_extended (fun x => MkExtended (ex_trustPolicy x) (ex_producerKeys x)
      (ex_agentCardVerifier x) (ex_sessionMonitor x) (ex_ocspChecker x) (ex_parallelFetch x) enabled)
  end.

(** [dns] and [tlog] are the standard resolver and the HTTP client of the log. *)
Definition defaultConfig (dns : R) (tlog : T) : fullConfig :=
  MkFullConfig Verifier.defaultConfig (MkEnv dns tlog None None) None (MkExtended None None None None None false false).

(** [NewServerVerifier], [NewClientVerifier] and [NewAnsVerifier] all hold this. *)
Definition new_verifier (dns : R) (tlog : T) (opts : list Option_) : fullConfig :=
  fold_left (fun c o => apply_option o c) opts (defaultConfig dns tlog).
Definition NewServerVerifier := new_verifier.
Definition NewClientVerifier := new_verifier.
Definition NewAnsVerifier := new_verifier.

(** ** The calls of a verifier that options built *)

Definition ServerVerifier_Verify (v : fullConfig) (ck : clock) (fqdn : Fqdn) (cert : CertIdentity) : VerificationOutcome * env R T D :=
  Server_Verify (fc_core v) ck fqdn cert (fc_env v).
Definition ClientVerifier_Verify (v : fullConfig) (ck : clock) (cert : CertIdentity) : VerificationOutcome * env R T D :=
  Client_Verify (fc_core v) ck cert (fc_env v).
Definition ServerVerifier_VerifyWithScitt (v : fullConfig) (ck : clock) (fqdn : Fqdn) (cert : CertIdentity)
    (headers : option Headers) : VerificationOutcome * env R T D :=
  Server_VerifyWithScitt (fc_core v) (fc_scittKeyLookup v) ck fqdn cert headers (fc_env v).
Definition ClientVerifier_VerifyWithScitt (v : fullConfig) (ck : clock) (cert : CertIdentity)
    (headers : option Headers) : VerificationOutcome * env R T D :=
  Client_VerifyWithScitt (fc_core v) (fc_scittKeyLookup v) ck cert headers (fc_env v).

(** ** What decides *)

(** The options that no verifier reads: the two kept for compatibility, the logger, and
    all of the extended verification. *)
Definition is_inert (o : Option_) : bool :=
  match o with
  | WithTrustedRADomains _ | WithoutURLValidation | WithLogger | WithTrustPolicy _ | WithProducerKeys _
  | WithAgentCardVerifier _ | WithSessionMonitor _ | WithOCSPCheckerOption _ | WithParallelFetch _ | WithOfflineMode _ => true
  | _ => false
  end.

(** What the verifiers read. *)
Definition decisive (c : fullConfig) : verifierConfig * env R T D * option KeyLookup :=
  (fc_core c, fc_env c, fc_scittKeyLookup c).

Lemma apply_option_decisive (o : Option_) (c c' : fullConfig) :
  decisive c = decisive c' ->
  decisive (apply_option o c) = decisive (if is_inert o then c' else apply_option o c').
Proof. destruct c, c'. unfold decisive. cbn. intros [= -> -> ->]. destruct o; reflexivity. Qed.

Lemma new_verifier_decisive (dns : R) (tlog : T) (opts : list Option_) :
  decisive (new_verifier dns tlog opts) =
  decisive (new_verifier dns tlog (List.filter (fun o => negb (is_inert o)) opts)).
Proof.
  unfold new_verifier. generalize (eq_refl (decisive (defaultConfig dns tlog))).
  generalize (defaultConfig dns tlog) at 1 3. generalize (defaultConfig dns tlog). intros c c'. revert c c'.
  induction opts as [|o opts IH]; intros c c' E; [exact E|]. cbn [fold_left List.filter].
  pose proof (apply_option_decisive o c' c E) as K.
  destruct (is_inert o); cbn [negb]; [apply IH, K | cbn [fold_left]; apply IH, K].
Qed.

(** Ten of the twenty options change nothing: whatever trust policy, producer keys, Agent
    Card verifier, session monitor, OCSP checker, parallel or offline mode a verifier is
    given, every verification has the outcome of the verifier without them. *)
Theorem inert_options (dns : R) (tlog : T) (opts : list Option_) :
  let v := new_verifier dns tlog opts in
  let w := new_verifier dns tlog (List.filter (fun o => negb (is_inert o)) opts) in
  (forall ck fqdn cert, ServerVerifier_Verify v ck fqdn cert = ServerVerifier_Verify w ck fqdn cert) /\
  (forall ck cert, ClientVerifier_Verify v ck cert = ClientVerifier_Verify w ck cert) /\
  (forall ck fqdn cert headers,
     ServerVerifier_VerifyWithScitt v ck fqdn cert headers = ServerVerifier_VerifyWithScitt w ck fqdn cert headers) /\
  (forall ck cert headers,
     ClientVerifier_VerifyWithScitt v ck cert headers = ClientVerifier_VerifyWithScitt w ck cert headers).
Proof.
  cbv zeta. pose proof (new_verifier_decisive dns tlog opts) as E. unfold decisive in E.
  injection E as E1 E2 E3.
  unfold ServerVerifier_Verify, ClientVerifier_Verify, ServerVerifier_VerifyWithScitt, ClientVerifier_VerifyWithScitt.
  rewrite E1, E2, E3. auto.
Qed.

(** *** The last option of a kind *)

Definition clamp_skew (d : Z) : Z := Z.min (Z.max d 0) (10 * minute).

(** What an option says about one setting. *)
Definition says_policy (o : Option_) : option FailurePolicy := match o with WithFailurePolicy p => Some p | _ => None end.
Definition says_policy_config (o : Option_) : option FailurePolicyConfig :=
  match o with WithFailurePolicyConfig c => Some c | _ => None end.
Definition says_host (o : Option_) : option string := match o with WithTrustedTLHost h => Some h | _ => None end.
Definition says_skew (o : Option_) : option Z := match o with WithClockSkewTolerance d => Some (clamp_skew d) | _ => None end.
Definition says_dns (o : Option_) : option R := match o with WithDNSResolver r => Some r | _ => None end.
Definition says_tlog (o : Option_) : option T := match o with WithTlogClient t => Some t | _ => None end.
Definition says_dane (o : Option_) : option (option D) := match o with WithDANEResolver d => Some d | _ => None end.
Definition says_keys (o : Option_) : option (option KeyLookup) := match o with WithScittKeyLookup k => Some k | _ => None end.
Definition says_cache (o : Option_) : option (option BadgeCache) :=
  match o with WithCache c => Some c | WithCacheConfig cfg => Some (Some (NewBadgeCache cfg)) | _ => None end.

(** The last word on a setting, else its default. *)
Definition last_word {A : Type} (says : Option_ -> option A) (d : A) (opts : list Option_) : A :=
  fold_left (fun a o => default a (says o)) opts d.

Lemma setting_last {A : Type} (says : Option_ -> option A) (field : fullConfig -> A) (opts : list Option_) (c : fullConfig) :
  (forall o c, field (apply_option o c) = default (field c) (says o)) ->
  field (fold_left (fun c o => apply_option o c) opts c) = last_word says (field c) opts.
Proof.
  intros Hs. unfold last_word. revert c. induction opts as [|o opts IH]; intros c; [reflexivity|]. cbn [fold_left].
  rewrite IH, Hs. reflexivity.
Qed.

Lemma skew_clamped (d : Z) (c : verifierConfig) :
  cf_clockSkewTolerance (Verifier.WithClockSkewTolerance d c) = clamp_skew d.
Proof.
  unfold Verifier.WithClockSkewTolerance, clamp_skew. cbn [cf_clockSkewTolerance].
  assert (0 <= 10 * minute) by (unfold minute; lia).
  destruct (d <? 0) eqn:E1; bool_hyps; destruct (10 * minute <? _) eqn:E2; bool_hyps; lia.
Qed.

(** What a verifier does is decided by the last option of each kind, whatever the order
    of the kinds and whatever came before; without one it fails closed, tolerates two
    minutes of skew, pins no log host, has no cache, no DANE and no SCITT keys. The
    tolerated skew is never negative and never more than ten minutes. *)
Theorem new_verifier_settings (dns : R) (tlog : T) (opts : list Option_) :
  let v := new_verifier dns tlog opts in
  cf_failurePolicy (fc_core v) = last_word says_policy FailClosed opts /\
  cf_failurePolicyConfig (fc_core v) = last_word says_policy_config DefaultFailurePolicyConfig opts /\
  cf_trustedTLHost (fc_core v) = last_word says_host "" opts /\
  cf_clockSkewTolerance (fc_core v) = last_word says_skew (2 * minute) opts /\
  fc_env v = MkEnv (last_word says_dns dns opts) (last_word says_tlog tlog opts)
               (last_word says_dane None opts) (last_word says_cache None opts) /\
  fc_scittKeyLookup v = last_word says_keys None opts /\
  0 <= cf_clockSkewTolerance (fc_core v) <= 10 * minute.
Proof.
  cbv zeta. unfold new_verifier.
  assert (Hskew : cf_clockSkewTolerance (fc_core (fold_left (fun c o => apply_option o c) opts (defaultConfig dns tlog))) =
    last_word says_skew (2 * minute) opts).
  { rewrite (setting_last says_skew (fun c => cf_clockSkewTolerance (fc_core c))); [reflexivity|].
    intros [] c; try reflexivity. cbn [apply_option set_core fc_core says_skew default]. apply skew_clamped. }
  split; [rewrite (setting_last says_policy (fun c => cf_failurePolicy (fc_core c))) by (intros [] c; reflexivity); reflexivity|].
  split; [rewrite (setting_last says_policy_config (fun c => cf_failurePolicyConfig (fc_core c))) by (intros [] c; reflexivity); reflexivity|].
  split; [rewrite (setting_last says_host (fun c => cf_trustedTLHost (fc_core c))) by (intros [] c; reflexivity); reflexivity|].
  split; [exact Hskew|]. split.
  { pose proof (setting_last says_dns (fun c => e_dns (fc_env c)) opts (defaultConfig dns tlog) ltac:(intros [] c; reflexivity)) as E1.
    pose proof (setting_last says_tlog (fun c => e_tlog (fc_env c)) opts (defaultConfig dns tlog) ltac:(intros [] c; reflexivity)) as E2.
    pose proof (setting_last says_dane (fun c => e_dane (fc_env c)) opts (defaultConfig dns tlog) ltac:(intros [] c; reflexivity)) as E3.
    pose proof (setting_last says_cache (fun c => e_cache (fc_env c)) opts (defaultConfig dns tlog) ltac:(intros [] c; reflexivity)) as E4.
    cbn in E1, E2, E3, E4. destruct (fc_env _). cbn in *. congruence. }
  split; [rewrite (setting_last says_keys fc_scittKeyLookup) by (intros [] c; reflexivity); reflexivity|].
  rewrite Hskew. unfold last_word. assert (G : 0 <= 2 * minute <= 10 * minute) by (unfold minute; lia).
  revert G. generalize (2 * minute). induction opts as [|o opts IH]; intros d G; [exact G|]. cbn [fold_left]. apply IH.
  { rewrite (setting_last says_skew (fun c => cf_clockSkewTolerance (fc_core c))); [reflexivity|].
    intros [] c; try reflexivity. cbn [apply_option set_core fc_core says_skew default]. apply skew_clamped. }
  destruct o; cbn; try exact G. unfold clamp_skew, minute. lia.
Qed.
End Options.
