(* ===== verification/Mocks.v ===== *)
(** The in-memory implementations of the interfaces, which the packages export for
    tests ([verify/dns_mock.go], [tlog_mock.go], [dane_mock.go], [producer_mock.go],
    [verify/scitt/client_mock.go]), and the conformance of the DNS one to the
    standard resolver. *)

From Stdlib Require Import Sorting.Permutation Sorting.Sorted.
From S2P Require Import Prelude GoStrings Errors Models Url Records Resolver Dane Seal ScittClient Verifier.

#[local] Open Scope list_scope.
#[local] Open Scope string_scope.
#[local] Open Scope Z_scope.

(** ** [MockDNSResolver] *)

Record MockDNSResolver := MkMockDNS {
  md_records : gmap string (list ATIBadgeRecord); md_raRecords : gmap string (list ATIBadgeRecord);
  md_discoveryRecords : gmap string (list ATIRecord); md_errors : gmap string goerror
}.

Definition NewMockDNSResolver : MockDNSResolver := MkMockDNS ∅ ∅ ∅ ∅.

Section MockDNS.
Context `{UnicodeTables} `{BadgeSort}.

Definition WithRecords (fqdn : string) (records : list ATIBadgeRecord) (r : MockDNSResolver) : MockDNSResolver :=
  MkMockDNS (<[ToLower fqdn := records]> (md_records r)) (md_raRecords r) (md_discoveryRecords r) (md_errors r).
Definition WithRaBadgeRecords (fqdn : string) (records : list ATIBadgeRecord) (r : MockDNSResolver) : MockDNSResolver :=
  MkMockDNS (md_records r) (<[ToLower fqdn := records]> (md_raRecords r)) (md_discoveryRecords r) (md_errors r).
Definition WithDiscoveryRecords (fqdn : string) (records : list ATIRecord) (r : MockDNSResolver) : MockDNSResolver :=
  MkMockDNS (md_records r) (md_raRecords r) (<[ToLower fqdn := records]> (md_discoveryRecords r)) (md_errors r).
Definition MockDNS_WithError (fqdn : string) (err : goerror) (r : MockDNSResolver) : MockDNSResolver :=
  MkMockDNS (md_records r) (md_raRecords r) (md_discoveryRecords r) (<[ToLower fqdn := err]> (md_errors r)).

(** The records are copied and marked with their source. *)
Definition set_source (source : BadgeRecordSource) (b : ATIBadgeRecord) : ATIBadgeRecord :=
  MkATIBadgeRecord (FormatVersion b) (br_Version b) (br_URL b) source.

Definition Mock_LookupATIBadge (r : MockDNSResolver) (fqdn : Fqdn) : result goerror DNSLookupResult :=
  let key := ToLower (Fqdn_String fqdn) in
  match md_errors r !! key with
  | Some err => Err err
  | None =>
      match md_records r !! key with
      | Some ((_ :: _) as records) => Ok (MkLookup true (map (set_source BadgeRecordSourceATIBadge) records))
      | _ =>
          match md_raRecords r !! key with
          | Some ((_ :: _) as records) => Ok (MkLookup true (map (set_source BadgeRecordSourceRaBadge) records))
          | _ => Ok (MkLookup false [])
          end
      end
  end.

Definition Mock_FindBadgeForVersion (r : MockDNSResolver) (fqdn : Fqdn) (version : Version) : result goerror ATIBadgeRecord :=
  match Mock_LookupATIBadge r fqdn with
  | Err err => Err err
  | Ok res =>
      if negb (Found res) then Err ERecordNotFound else
      match List.find (version_matches version) (lr_Records res) with
      | Some record => Ok record
      | None =>
          match List.find versionless (lr_Records res) with
          | Some record => Ok record
          | None => Err ERecordNotFound
          end
      end
  end.

Definition Mock_FindPreferredBadge (r : MockDNSResolver) (fqdn : Fqdn) : result goerror ATIBadgeRecord :=
  match Mock_LookupATIBadge r fqdn with
  | Err err => Err err
  | Ok res =>
      if negb (Found res) || (length (lr_Records res) =? 0)%nat then Err ERecordNotFound else
      match sort_badges (lr_Records res) with
      | b :: _ => Ok b
      | [] => Err (EPlain "panic: index out of range")
      end
  end.

Definition Mock_LookupATIDiscovery (r : MockDNSResolver) (fqdn : Fqdn) : result goerror ATIDiscoveryResult :=
  let key := ToLower (Fqdn_String fqdn) in
  match md_errors r !! key with
  | Some err => Err err
  | None =>
      match md_discoveryRecords r !! key with
      | Some ((_ :: _) as records) => Ok (MkDiscovery true records)
      | _ => Ok (MkDiscovery false [])
      end
  end.

#[export] Instance Mock_DNSResolver : DNSResolver MockDNSResolver := {|
  dns_FindBadgeForVersion r f v := (some_record (Mock_FindBadgeForVersion r f v), r);
  dns_FindPreferredBadge r f := (some_record (Mock_FindPreferredBadge r f), r);
  dns_LookupATIDiscovery r f := (Mock_LookupATIDiscovery r f, r)
|}.

(** ** Conformance

    A zone without hard failures, and the resolver loaded with its records. *)
Variable LookupTXT : string -> result goerror (list string).

Definition txts (q : string) : list string := match LookupTXT q with Ok l => l | Err _ => [] end.

Definition soft (q : string) : Prop :=
  match LookupTXT q with Ok _ => True | Err err => net_not_found err = true end.

Definition badges_at (q : string) (source : BadgeRecordSource) : list ATIBadgeRecord :=
  filter_map (badge_of_txt source) (txts q).

Record mirrors (m : MockDNSResolver) (f : Fqdn) : Prop := {
  mi_errors : md_errors m !! ToLower (Fqdn_String f) = None;
  mi_records : map (set_source BadgeRecordSourceATIBadge) (default [] (md_records m !! ToLower (Fqdn_String f))) =
    badges_at (ATIBadgeName f) BadgeRecordSourceATIBadge;
  mi_raRecords : map (set_source BadgeRecordSourceRaBadge) (default [] (md_raRecords m !! ToLower (Fqdn_String f))) =
    badges_at (RaBadgeName f) BadgeRecordSourceRaBadge;
  mi_discovery : default [] (md_discoveryRecords m !! ToLower (Fqdn_String f)) = filter_map ati_of_txt (txts (ATIDiscoveryName f));
  mi_soft : soft (ATIBadgeName f) /\ soft (RaBadgeName f) /\ soft (ATIDiscoveryName f)
}.

(** What both lookups find. *)
Definition zone_badges (f : Fqdn) : list ATIBadgeRecord :=
  match badges_at (ATIBadgeName f) BadgeRecordSourceATIBadge with
  | [] => badges_at (RaBadgeName f) BadgeRecordSourceRaBadge
  | l => l
  end.

Definition lookup_of (l : list ATIBadgeRecord) : DNSLookupResult := MkLookup (negb (length l =? 0)%nat) l.

Lemma lookupBadgeRecords_zone (q : string) (source : BadgeRecordSource) :
  soft q -> lookupBadgeRecords LookupTXT q source = Ok (lookup_of (badges_at q source)).
Proof.
  unfold soft, lookupBadgeRecords, badges_at, txts, lookup_of. destruct (LookupTXT q) as [l|err]; [|intros ->; reflexivity].
  intros _. destruct (filter_map _ l); reflexivity.
Qed.

Lemma Mock_LookupATIBadge_zone (m : MockDNSResolver) (f : Fqdn) :
  mirrors m f -> Mock_LookupATIBadge m f = Ok (lookup_of (zone_badges f)).
Proof.
  intros [E1 E2 E3 _ _]. unfold Mock_LookupATIBadge, zone_badges. rewrite E1, <- E2, <- E3.
  destruct (md_records m !! _) as [[|x l]|]; cbn [default map]; try reflexivity;
    destruct (md_raRecords m !! _) as [[|y l']|]; reflexivity.
Qed.

Definition zone_discovery (f : Fqdn) : ATIDiscoveryResult :=
  let records := filter_map ati_of_txt (txts (ATIDiscoveryName f)) in
  MkDiscovery (negb (length records =? 0)%nat) records.

(** *** The cache holds what the zone says, in some order *)

Definition right (key : string) (x : cached) : Prop :=
  (forall f, key = badge_key f -> exists l, x = CBadge (lookup_of l) /\ Permutation l (zone_badges f)) /\
  (forall f, key = discovery_key f -> x = CDiscovery (zone_discovery f)).

Definition coherent (r : StandardDNSResolver) : Prop := map_Forall (fun key e => right key (ce_result e)) (dr_cache r).

Lemma badge_key_inj (f g : Fqdn) : badge_key f = badge_key g -> f = g.
Proof. destruct f, g. unfold badge_key, Fqdn_String. cbn. congruence. Qed.

Lemma discovery_key_inj (f g : Fqdn) : discovery_key f = discovery_key g -> f = g.
Proof. destruct f, g. unfold discovery_key, Fqdn_String. cbn. congruence. Qed.

Lemma right_badge (f : Fqdn) (l : list ATIBadgeRecord) :
  Permutation l (zone_badges f) -> right (badge_key f) (CBadge (lookup_of l)).
Proof. intros Hp. split; intros g E; [apply badge_key_inj in E as <-; eauto | discriminate E]. Qed.

Lemma right_discovery (f : Fqdn) : right (discovery_key f) (CDiscovery (zone_discovery f)).
Proof. split; intros g E; [discriminate E | apply discovery_key_inj in E as <-; reflexivity]. Qed.

Lemma setCache_coherent (r : StandardDNSResolver) (now : Z) (key : string) (x : cached) :
  coherent r -> right key x -> coherent (setCache r now key x).
Proof. intros Hr Hx. apply map_Forall_insert_2; assumption. Qed.

Lemma getCached_coherent (r : StandardDNSResolver) (now : Z) (key : string) :
  coherent r -> coherent (snd (getCached r now key)) /\
  (forall x, fst (getCached r now key) = Some x -> right key x).
Proof.
  unfold getCached. intros Hr. destruct (dr_cache r !! key) as [e|] eqn:E; [|split; [exact Hr | discriminate]].
  destruct (_ <? _); cbn [fst snd].
  - split; [apply map_Forall_delete, Hr | discriminate].
  - split; [exact Hr|]. intros x [= <-]. exact (Hr _ _ E).
Qed.

(** A badge result as the zone has it, unless a lookup fails hard. *)
Definition badge_answer (f : Fqdn) (res : result goerror DNSLookupResult) : Prop :=
  soft (ATIBadgeName f) -> soft (RaBadgeName f) -> exists l, res = Ok (lookup_of l) /\ Permutation l (zone_badges f).

Lemma lookupBadgeRecords_Ok (q : string) (source : BadgeRecordSource) (res : DNSLookupResult) :
  lookupBadgeRecords LookupTXT q source = Ok res -> res = lookup_of (badges_at q source).
Proof.
  intros E. rewrite lookupBadgeRecords_zone in E; [congruence|]. revert E. unfold lookupBadgeRecords, soft, net_not_found.
  destruct (LookupTXT q) as [l|err]; [auto|]. unfold handleLookupError.
  destruct (errors_As as_NetDNSError err) as [[[] []]|]; (reflexivity || discriminate).
Qed.

Lemma LookupATIBadge_zone (r : StandardDNSResolver) (t1 t2 : Z) (f : Fqdn) :
  coherent r ->
  coherent (snd (LookupATIBadge LookupTXT r t1 t2 f)) /\ badge_answer f (fst (LookupATIBadge LookupTXT r t1 t2 f)).
Proof.
  intros Hr. unfold LookupATIBadge, badge_answer. destruct (getCached_coherent r t1 (badge_key f) Hr) as [Hr1 Hc].
  destruct (getCached r t1 (badge_key f)) as [[x|] r1]; cbn [fst snd] in *.
  - destruct (Hc x eq_refl) as [K _]. destruct (K f eq_refl) as (l & -> & Hp). cbn. split; [exact Hr1 | eauto].
  - destruct (lookupBadgeRecords LookupTXT (ATIBadgeName f) _) as [res|e] eqn:E1;
      [|split; [exact Hr1|]; intros S1 _; rewrite (lookupBadgeRecords_zone _ _ S1) in E1; discriminate].
    apply lookupBadgeRecords_Ok in E1 as ->. pose proof (right_badge f) as Hb. unfold zone_badges in *.
    set (l1 := badges_at (ATIBadgeName f) _) in *. destruct l1 as [|b1 l1]; cbn [lookup_of Found length Nat.eqb negb].
    + destruct (lookupBadgeRecords LookupTXT (RaBadgeName f) _) as [res|e] eqn:E2;
        [|split; [exact Hr1|]; intros _ S2; rewrite (lookupBadgeRecords_zone _ _ S2) in E2; discriminate].
      apply lookupBadgeRecords_Ok in E2 as ->. cbn [fst snd]. split; [apply setCache_coherent; auto | eauto].
    + cbn [fst snd]. split; [apply setCache_coherent; [exact Hr1 | exact (Hb _ (Permutation_refl _))]|].
      intros _ _. exists (b1 :: l1). split; reflexivity.
Qed.

Lemma LookupATIDiscovery_zone (r : StandardDNSResolver) (t1 t2 : Z) (f : Fqdn) :
  coherent r ->
  coherent (snd (LookupATIDiscovery LookupTXT r t1 t2 f)) /\
  (soft (ATIDiscoveryName f) -> fst (LookupATIDiscovery LookupTXT r t1 t2 f) = Ok (zone_discovery f)).
Proof.
  intros Hr. unfold LookupATIDiscovery. destruct (getCached_coherent r t1 (discovery_key f) Hr) as [Hr1 Hc].
  pose proof (right_discovery f) as Hd. unfold zone_discovery, txts, soft in *.
  destruct (getCached r t1 (discovery_key f)) as [[x|] r1]; cbn [fst snd] in *.
  - destruct (Hc x eq_refl) as [_ K]. rewrite (K f eq_refl). auto.
  - destruct (LookupTXT (ATIDiscoveryName f)) as [l|err].
    + cbn [fst snd]. split; [apply setCache_coherent; assumption | reflexivity].
    + destruct (net_not_found err); cbn [fst snd]; [split; [apply setCache_coherent; assumption | reflexivity]|].
      split; [exact Hr1 | discriminate].
Qed.

(** *** Selection *)

(** The records of both answers are of the host and of one version. *)
Definition agree (f : Fqdn) (a b : result goerror ATIBadgeRecord) : Prop :=
  match a, b with
  | Ok x, Ok y => In x (zone_badges f) /\ In y (zone_badges f) /\ br_Version x = br_Version y
  | Err e, Err e' => e = e'
  | _, _ => False
  end.

Lemma agree_unique (f : Fqdn) (a b : result goerror ATIBadgeRecord) :
  NoDup (map br_Version (zone_badges f)) -> agree f a b -> a = b.
Proof.
  intros Hn. destruct a as [x|e], b as [y|e']; cbn; try tauto; [|congruence]. intros (Hx & Hy & E). f_equal.
  revert Hn Hx Hy. induction (zone_badges f) as [|z l IH]; [intros _ []|]. cbn [map]. intros Hn.
  apply NoDup_cons in Hn as [Hz Hn].
  assert (Hno : forall w, In w l -> br_Version w <> br_Version z).
  { intros w Hw Ew. apply Hz. rewrite <- Ew. apply list_elem_of_In, in_map, Hw. }
  intros [<-|Hx] [<-|Hy]; [reflexivity | destruct (Hno y Hy) | destruct (Hno x Hx) | apply IH]; auto.
Qed.

Lemma find_perm_none {A : Type} (p : A -> bool) (l l' : list A) :
  Permutation l l' -> List.find p l = None -> List.find p l' = None.
Proof.
  intros Hp E. destruct (List.find p l') as [x|] eqn:E'; [|reflexivity]. apply find_some in E' as [Hx E'].
  apply (Permutation_in _ (Permutation_sym Hp)) in Hx. apply (find_none _ _ E) in Hx. congruence.
Qed.

Lemma version_matches_true (v : Version) (b : ATIBadgeRecord) : version_matches v b = true <-> br_Version b = Some v.
Proof.
  unfold version_matches. destruct (br_Version b) as [v'|]; [|split; discriminate].
  rewrite Version_Equal_true. split; congruence.
Qed.

Lemma versionless_true (b : ATIBadgeRecord) : versionless b = true <-> br_Version b = None.
Proof. unfold versionless. destruct (br_Version b); split; (discriminate || reflexivity). Qed.

Lemma select_agree (f : Fqdn) (l : list ATIBadgeRecord) (v : Version) :
  Permutation l (zone_badges f) -> agree f (select_for_version l v) (select_for_version (zone_badges f) v).
Proof.
  intros Hp. unfold select_for_version. pose proof (Permutation_sym Hp) as Hp'.
  assert (Hin : forall x, In x l -> In x (zone_badges f)) by (intros x; apply Permutation_in, Hp).
  assert (Hf : forall (p : ATIBadgeRecord -> bool) w (k1 k2 : result goerror ATIBadgeRecord),
    (forall b, p b = true <-> br_Version b = w) -> agree f k1 k2 ->
    agree f (match List.find p l with Some b => Ok b | None => k1 end)
            (match List.find p (zone_badges f) with Some b => Ok b | None => k2 end)).
  { intros p w k1 k2 Hw Hk. destruct (List.find p l) as [x|] eqn:E1.
    - destruct (List.find p (zone_badges f)) as [y|] eqn:E2; [|rewrite (find_perm_none _ _ _ Hp' E2) in E1; discriminate].
      apply find_some in E1 as [X1 X2], E2 as [Y1 Y2]. apply Hw in X2, Y2. cbn. split; [auto|]. split; [auto | congruence].
    - rewrite (find_perm_none _ _ _ Hp E1). exact Hk. }
  apply (Hf _ (Some v)); [apply version_matches_true|]. apply (Hf _ None); [apply versionless_true | reflexivity].
Qed.

Lemma sort_head (l : list ATIBadgeRecord) (x : ATIBadgeRecord) (tl : list ATIBadgeRecord) :
  sort_badges l = x :: tl -> In x l /\ forall y, In y l -> ~ rank_lt (br_Version x) (br_Version y).
Proof.
  intros E. pose proof (sort_badges_perm l) as Hp. pose proof (sort_badges_sorted l) as Hs. rewrite E in Hp, Hs.
  split; [eapply Permutation_in; [exact Hp | left; reflexivity]|]. intros y Hy.
  apply (Permutation_in _ (Permutation_sym Hp)) in Hy as [<-|Hy]; [intros K; exact (rank_lt_asym _ _ K K)|].
  inversion Hs as [|? ? _ Hf]; subst. rewrite List.Forall_forall in Hf. apply badge_less_false, Hf, Hy.
Qed.

Lemma rank_total (a b : option Version) : ~ rank_lt a b -> ~ rank_lt b a -> a = b.
Proof.
  destruct a as [x|], b as [y|]; cbn; try tauto. intros H1 H2. f_equal.
  destruct (Version_total x y) as [E|[E|E]]; tauto.
Qed.

Definition newest (l : list ATIBadgeRecord) : result goerror ATIBadgeRecord :=
  match sort_badges l with b :: _ => Ok b | [] => Err (EPlain "panic: index out of range") end.

Lemma newest_agree (f : Fqdn) (l : list ATIBadgeRecord) :
  Permutation l (zone_badges f) -> agree f (newest l) (newest (zone_badges f)).
Proof.
  intros Hp. unfold newest. destruct (sort_badges l) as [|x tl] eqn:E1.
  - pose proof (sort_badges_perm l) as K. rewrite E1 in K. apply Permutation_nil in K as ->.
    apply Permutation_nil in Hp as E0. rewrite E0, E1. reflexivity.
  - apply sort_head in E1 as [X1 X2]. assert (X1' := Permutation_in _ Hp X1).
    destruct (sort_badges (zone_badges f)) as [|y tl'] eqn:E2.
    { pose proof (sort_badges_perm (zone_badges f)) as K. rewrite E2 in K. apply Permutation_nil in K.
      rewrite K in X1'. destruct X1'. }
    apply sort_head in E2 as [Y1 Y2]. cbn. split; [exact X1'|]. split; [exact Y1|]. apply rank_total; [|apply Y2, X1'].
    apply X2. exact (Permutation_in _ (Permutation_sym Hp) Y1).
Qed.

(** *** Every run of the standard resolver in this zone *)

Inductive zone_run : StandardDNSResolver -> Prop :=
| zr_new : zone_run NewStandardDNSResolver
| zr_badge r t1 t2 f : zone_run r -> zone_run (snd (LookupATIBadge LookupTXT r t1 t2 f))
| zr_version r t1 t2 f v : zone_run r -> zone_run (snd (FindBadgeForVersion LookupTXT r t1 t2 f v))
| zr_preferred r t1 t2 f : zone_run r -> zone_run (snd (FindPreferredBadge LookupTXT r t1 t2 f))
| zr_discovery r t1 t2 f : zone_run r -> zone_run (snd (LookupATIDiscovery LookupTXT r t1 t2 f))
| zr_clear r : zone_run r -> zone_run (ClearCache r)
| zr_ttl r ttl : zone_run r -> zone_run (WithCacheTTL r ttl).

Lemma GetATIBadgeRecords_state (r : StandardDNSResolver) (t1 t2 : Z) (f : Fqdn) :
  snd (GetATIBadgeRecords LookupTXT r t1 t2 f) = snd (LookupATIBadge LookupTXT r t1 t2 f).
Proof. unfold GetATIBadgeRecords. destruct (LookupATIBadge _ _ _ _ _) as [[res|e] r']; [destruct (Found res)|]; reflexivity. Qed.

(** Sorting the cached slice only reorders it. *)
Lemma sort_cached_coherent (r : StandardDNSResolver) (f : Fqdn) : coherent r -> coherent (sort_cached r (badge_key f)).
Proof.
  intros Hr. unfold sort_cached. destruct (dr_cache r !! badge_key f) as [[[res|res] t]|] eqn:E; try exact Hr.
  apply map_Forall_insert_2; [|exact Hr]. cbn [ce_result]. destruct (Hr _ _ E) as [K _].
  destruct (K f eq_refl) as (l & [= ->] & Hp). cbn [lr_Records Found lookup_of].
  pose proof (sort_badges_perm l) as Hs. rewrite <- (Permutation_length Hs). apply right_badge. rewrite Hs. exact Hp.
Qed.

Lemma zone_run_coherent (r : StandardDNSResolver) : zone_run r -> coherent r.
Proof.
  induction 1 as [|r t1 t2 f _ IH|r t1 t2 f v _ IH|r t1 t2 f _ IH|r t1 t2 f _ IH|r _ IH|r ttl _ IH];
    try exact IH; try (apply map_Forall_empty).
  - apply LookupATIBadge_zone, IH.
  - destruct (LookupATIBadge_zone r t1 t2 f IH) as [K _]. rewrite <- GetATIBadgeRecords_state in K.
    unfold FindBadgeForVersion. destruct (GetATIBadgeRecords _ _ _ _ _) as [[l|e] r']; exact K.
  - destruct (LookupATIBadge_zone r t1 t2 f IH) as [K _]. rewrite <- GetATIBadgeRecords_state in K.
    unfold FindPreferredBadge. destruct (GetATIBadgeRecords _ _ _ _ _) as [[l|e] r']; [|exact K].
    destruct (_ =? 0)%nat; [exact K|]. destruct (sort_badges l); [exact K | apply sort_cached_coherent, K].
  - apply LookupATIDiscovery_zone, IH.
Qed.

(** What the records of a host are, on both sides. *)
Lemma GetATIBadgeRecords_zone (r : StandardDNSResolver) (t1 t2 : Z) (f : Fqdn) :
  coherent r -> soft (ATIBadgeName f) -> soft (RaBadgeName f) ->
  exists l, Permutation l (zone_badges f) /\
    fst (GetATIBadgeRecords LookupTXT r t1 t2 f) =
    match l with [] => Err (EDNS DNSErrorNotFound (Fqdn_String f) "") | _ => Ok l end.
Proof.
  intros Hr S1 S2. destruct (LookupATIBadge_zone r t1 t2 f Hr) as [_ K]. destruct (K S1 S2) as (l & E & Hp).
  exists l. split; [exact Hp|]. unfold GetATIBadgeRecords. destruct (LookupATIBadge _ _ _ _ _) as [res r'].
  cbn [fst] in E. subst res. destruct l; reflexivity.
Qed.

(** The in-memory resolver loaded with a host's records stands for the standard
    resolver: after any calls in a zone without hard failures for the host, cache and
    in-place sorting included, both discover the same records and find for every version,
    and prefer, badges of the same version of that host, or the same error; and the same
    badge where the versions of the host's badges differ. *)
Theorem Standard_refines_Mock (m : MockDNSResolver) (r : StandardDNSResolver) (t1 t2 : Z) (f : Fqdn) (v : Version) :
  mirrors m f -> zone_run r ->
  let std := fst (FindBadgeForVersion LookupTXT r t1 t2 f v) in
  let pref := fst (FindPreferredBadge LookupTXT r t1 t2 f) in
  fst (LookupATIDiscovery LookupTXT r t1 t2 f) = Mock_LookupATIDiscovery m f /\
  agree f std (Mock_FindBadgeForVersion m f v) /\ agree f pref (Mock_FindPreferredBadge m f) /\
  (NoDup (map br_Version (zone_badges f)) ->
   std = Mock_FindBadgeForVersion m f v /\ pref = Mock_FindPreferredBadge m f).
Proof.
  intros Hm Hr. apply zone_run_coherent in Hr. pose proof (Mock_LookupATIBadge_zone m f Hm) as Em.
  destruct Hm as [E1 _ _ E4 (S1 & S2 & S3)]. destruct (GetATIBadgeRecords_zone r t1 t2 f Hr S1 S2) as (l & Hp & E).
  cbv zeta. split.
  { rewrite (proj2 (LookupATIDiscovery_zone r t1 t2 f Hr) S3). unfold Mock_LookupATIDiscovery, zone_discovery.
    rewrite E1, <- E4. destruct (md_discoveryRecords m !! _) as [[|x l0]|]; reflexivity. }
  assert (Hv : agree f (fst (FindBadgeForVersion LookupTXT r t1 t2 f v)) (Mock_FindBadgeForVersion m f v)).
  { pose proof (select_agree f l v Hp) as K. unfold FindBadgeForVersion, Mock_FindBadgeForVersion. rewrite Em.
    destruct (GetATIBadgeRecords _ _ _ _ _) as [res r']. cbn [fst] in E. subst res.
    destruct l as [|x l]; [apply Permutation_nil in Hp as ->; reflexivity|].
    destruct (zone_badges f) as [|y z]; [apply Permutation_sym, Permutation_nil in Hp; discriminate | exact K]. }
  assert (Hpr : agree f (fst (FindPreferredBadge LookupTXT r t1 t2 f)) (Mock_FindPreferredBadge m f)).
  { pose proof (newest_agree f l Hp) as K. unfold FindPreferredBadge, Mock_FindPreferredBadge. rewrite Em.
    destruct (GetATIBadgeRecords _ _ _ _ _) as [res r']. cbn [fst] in E. subst res. unfold newest in K.
    destruct l as [|x l]; [apply Permutation_nil in Hp as ->; reflexivity|].
    destruct (zone_badges f) as [|y z]; [apply Permutation_sym, Permutation_nil in Hp; discriminate|].
    cbn [length Nat.eqb]. destruct (sort_badges (x :: l)); exact K. }
  split; [exact Hv|]. split; [exact Hpr|]. intros Hn. split; eapply agree_unique; eassumption.
Qed.
End MockDNS.

(** ** [MockTransparencyLogClient]: a record with its record URL *)

Record MockTransparencyLogClient := MkMockTlog { mt_tlResps : gmap string TLResponse; mt_errors : gmap string goerror }.

Definition NewMockTransparencyLogClient : MockTransparencyLogClient := MkMockTlog ∅ ∅.
Definition WithTLResponse (url : string) (resp : TLResponse) (c : MockTransparencyLogClient) : MockTransparencyLogClient :=
  MkMockTlog (<[url := resp]> (mt_tlResps c)) (mt_errors c).
Definition MockTlog_WithError (url : string) (err : goerror) (c : MockTransparencyLogClient) : MockTransparencyLogClient :=
  MkMockTlog (mt_tlResps c) (<[url := err]> (mt_errors c)).

Definition Mock_FetchTLResponse (c : MockTransparencyLogClient) (url : string) : result goerror TLResponse :=
  match mt_errors c !! url with
  | Some err => Err err
  | None =>
      match mt_tlResps c !! url with
      | Some resp => Ok resp
      | None => Err (ETlog TlogErrorNotFound url "" 0)
      end
  end.

#[export] Instance Mock_TransparencyLogClient : TransparencyLogClient MockTransparencyLogClient := {|
  FetchTLResponse c url := (Mock_FetchTLResponse c url, c)
|}.

(** ** [MockDANEResolver] *)

Record MockDANEResolver := MkMockDANE { me_results : gmap string TLSALookupResult; me_errors : gmap string goerror }.

Definition NewMockDANEResolver : MockDANEResolver := MkMockDANE ∅ ∅.

Section MockDANE.
Context `{UnicodeTables}.

Definition daneKey (fqdn : string) (port : Z) : string := ("_" ++ fmt_d port ++ "._tcp." ++ ToLower fqdn)%string.
Definition identity_key (fqdn : string) : string := ("_ati-identity._tls." ++ ToLower fqdn)%string.

Definition set_result (key : string) (res : TLSALookupResult) (r : MockDANEResolver) : MockDANEResolver :=
  MkMockDANE (<[key := res]> (me_results r)) (me_errors r).
Definition set_error (key : string) (err : goerror) (r : MockDANEResolver) : MockDANEResolver :=
  MkMockDANE (me_results r) (<[key := err]> (me_errors r)).

Definition WithTLSA (fqdn : string) (port : Z) (res : TLSALookupResult) : MockDANEResolver -> MockDANEResolver :=
  set_result (daneKey fqdn port) res.
Definition MockDANE_WithError (fqdn : string) (port : Z) (err : goerror) : MockDANEResolver -> MockDANEResolver :=
  set_error (daneKey fqdn port) err.
Definition WithIdentityTLSA (fqdn : string) (res : TLSALookupResult) : MockDANEResolver -> MockDANEResolver :=
  set_result (identity_key fqdn) res.
Definition WithIdentityError (fqdn : string) (err : goerror) : MockDANEResolver -> MockDANEResolver :=
  set_error (identity_key fqdn) err.

Definition mock_tlsa (r : MockDANEResolver) (key : string) : result goerror TLSALookupResult :=
  match me_errors r !! key with
  | Some err => Err err
  | None => Ok (default (MkTLSALookup false [] false) (me_results r !! key))
  end.

Definition Mock_LookupTLSA (r : MockDANEResolver) (fqdn : Fqdn) (port : Z) : result goerror TLSALookupResult :=
  mock_tlsa r (daneKey (Fqdn_String fqdn) port).
Definition Mock_LookupIdentityTLSA (r : MockDANEResolver) (fqdn : Fqdn) : result goerror TLSALookupResult :=
  mock_tlsa r (identity_key (Fqdn_String fqdn)).

#[export] Instance Mock_DANEResolver : DANEResolver MockDANEResolver := {|
  dane_LookupTLSA r f port := (Mock_LookupTLSA r f port, r);
  dane_LookupIdentityTLSA r f := (Mock_LookupIdentityTLSA r f, r)
|}.

(** For a host the constructor accepts, the keys are the names the DNS is asked. *)
Theorem mock_names (f : Fqdn) (port : Z) :
  Fqdn_wf f -> daneKey (Fqdn_String f) port = TlsaName f port /\ identity_key (Fqdn_String f) = IdentityTLSAName f.
Proof.
  intros Hf. unfold daneKey, identity_key, TlsaName, IdentityTLSAName, Fqdn_String.
  rewrite ToLower_ascii by apply (Fqdn_wf_ascii f Hf). rewrite (proj2 Hf). split; reflexivity.
Qed.
End MockDANE.

(** ** [MockProducerKeyLookup] *)

Section MockProducer.
Context `{SignatureLib}.

Record MockProducerKeyLookup := MkMockProducer { mp_keys : gmap string ec_key; mp_err : option goerror }.

Definition NewMockProducerKeyLookup : MockProducerKeyLookup := MkMockProducer ∅ None.
Definition WithKey (kid : string) (key : ec_key) (m : MockProducerKeyLookup) : MockProducerKeyLookup :=
  MkMockProducer (<[kid := key]> (mp_keys m)) (mp_err m).
Definition MockProducer_WithError (err : option goerror) (m : MockProducerKeyLookup) : MockProducerKeyLookup :=
  MkMockProducer (mp_keys m) err.

Definition GetProducerKey (m : MockProducerKeyLookup) : ProducerKeyLookup := fun kid =>
  match mp_err m with
  | Some err => Err err
  | None => match mp_keys m !! kid with Some key => Ok key | None => Err (EPlain "producer key %q not found") end
  end.
End MockProducer.

(** ** [scitt.MockClient] *)

Record MockClient := MkMockClient {
  mc_receipts : gmap string (list byte); mc_statusTokens : gmap string (list byte);
  mc_rootKeys : option (list string); mc_errors : gmap string goerror
}.

Definition NewMockClient : MockClient := MkMockClient ∅ ∅ None ∅.
Definition WithReceipt (agentID : string) (receipt : list byte) (m : MockClient) : MockClient :=
  MkMockClient (<[agentID := receipt]> (mc_receipts m)) (mc_statusTokens m) (mc_rootKeys m) (mc_errors m).
Definition WithStatusToken (agentID : string) (token : list byte) (m : MockClient) : MockClient :=
  MkMockClient (mc_receipts m) (<[agentID := token]> (mc_statusTokens m)) (mc_rootKeys m) (mc_errors m).
Definition WithRootKeys (keys : option (list string)) (m : MockClient) : MockClient :=
  MkMockClient (mc_receipts m) (mc_statusTokens m) keys (mc_errors m).
Definition MockClient_WithError (key : string) (err : goerror) (m : MockClient) : MockClient :=
  MkMockClient (mc_receipts m) (mc_statusTokens m) (mc_rootKeys m) (<[key := err]> (mc_errors m)).

Definition mock_fetch {A : Type} (m : MockClient) (key : string) (value : option A) : result goerror A :=
  match mc_errors m !! key with
  | Some err => Err err
  | None => match value with Some a => Ok a | None => Err (ETransport TransportErrNotFound 404 None) end
  end.

Definition Mock_FetchReceipt (m : MockClient) (agentID : string) : result goerror (list byte) :=
  mock_fetch m agentID (mc_receipts m !! agentID).
Definition Mock_FetchStatusToken (m : MockClient) (agentID : string) : result goerror (list byte) :=
  mock_fetch m agentID (mc_statusTokens m !! agentID).
Definition Mock_FetchRootKeys (m : MockClient) : result goerror (list string) :=
  mock_fetch m "root-keys" (mc_rootKeys m).

#[export] Instance Mock_Client : Client MockClient := {|
  FetchReceipt m id := (Mock_FetchReceipt m id, m);
  FetchStatusToken m id := (Mock_FetchStatusToken m id, m);
  FetchRootKeys m := (Mock_FetchRootKeys m, m)
|}.

(** ** Witnesses *)

#[local] Existing Instance plain_tables.
#[local] Existing Instance insertion_BadgeSort.

Definition sample_mock : MockDNSResolver := WithRaBadgeRecords "A.Example" sample_records NewMockDNSResolver.

(** The zone of Resolver's examples, where every other name does not exist. *)
Definition sample_zone (name : string) : result goerror (list string) :=
  match sample_dns name with Ok l => Ok l | Err _ => Err (ENet true false) end.

Definition used_resolver : StandardDNSResolver :=
  snd (FindPreferredBadge sample_zone NewStandardDNSResolver 0 1 sample_fqdn).

Example used_resolver_sorted :
  match dr_cache used_resolver !! badge_key sample_fqdn with
  | Some e => ce_result e <> CBadge (MkLookup true sample_records) | None => False end.
Proof. vm_compute. discriminate. Qed.

Lemma Standard_refines_Mock_witness :
  mirrors sample_zone sample_mock sample_fqdn /\
  fst (FindPreferredBadge sample_zone used_resolver 2 3 sample_fqdn) = Mock_FindPreferredBadge sample_mock sample_fqdn /\
  Mock_FindPreferredBadge sample_mock sample_fqdn =
    Ok (MkATIBadgeRecord "ra-badge1" (Some (MkVersion 1 10 0)) "https://tl.example/2" BadgeRecordSourceRaBadge).
Proof.
  assert (Hm : mirrors sample_zone sample_mock sample_fqdn) by (constructor; vm_compute; repeat split).
  split; [exact Hm|]. split; [|vm_compute; reflexivity].
  apply (Standard_refines_Mock sample_zone sample_mock used_resolver 2 3 sample_fqdn (MkVersion 1 0 0) Hm);
    [apply zr_preferred, zr_new|].
  apply (bool_decide_unpack _). vm_compute. exact I.
Defined.

(** What the log client says of a URL nobody configured. *)
Example mock_log_not_found :
  fst (FetchTLResponse NewMockTransparencyLogClient "https://tl.example/1") = Err (ETlog TlogErrorNotFound "https://tl.example/1" "" 0).
Proof. reflexivity. Qed.
